(* ===== verification/_CoqProject ===== *)
-Q . S2P
Prelude.v
GoStr.v
Json.v
Artifact.v
Pack.v
Http.v
Cas.v
Parse.v
PlanTypes.v
Planner.v
PlannerFacts.v
Hints.v
Queue.v
Generate.v
Codecs.v
Match.v
Config.v
HintFeed.v
Interleave.v
Sql.v
Values.v
BuildStore.v
Pending.v
PlanLoop.v
Settings.v
Upload.v
System.v
SystemSamples.v
BuildQueue.v
PendingFacts.v
AutoFix.v
Resolve.v
Drain.v
Podman.v
Finish.v
Samples.v
PlanTheorems.v
GenerateTheorems.v
UploadFacts.v
SystemFacts.v
HintAdmin.v
LogStream.v
Logs.v
History.v
Manifest.v
Reports.v
HistoryFacts.v
HistoryTheorems.v
Kafka.v
ObjectStore.v
Env.v
Server.v
Workers.v
Metrics.v
Service.v
PlanProxy.v
Routes.v
Control.v
ControlFacts.v
