(* ===== verification/Prelude.v ===== *)
(** * s390x-wheel-refinery: a verification library of the Go programs

    The refinery builds Python wheels for s390x.  Two Go programs share the work:
    the control plane (src/go-control-plane) keeps plans, the build queue, hints
    and logs in PostgreSQL and serves them over HTTP; the worker (src/go-worker)
    plans builds from uploaded requirements and wheels, pops builds from the
    queue, prepares the packs and runtimes they need, runs them in containers,
    reports what happened, and repairs failures with recipes from hints.

    ** How the parts interact

    The control plane stores what is uploaded and records it as a pending input
    (Upload, Pending).  The worker pops the inputs' ids, reads each input and
    posts a plan of it (PlanLoop): the input is parsed (Parse) and planned
    (Planner, Generate) into a flat plan of packages and a DAG of
    content-addressed artifacts (Artifact, Pack), where each node says "build" or
    "reuse" after asking a content-addressed store (Cas).  Hints are attached to
    the plan (Hints).  The control plane queues the plan's build nodes
    (BuildStore); the worker pops them, matches them with the plan (Match,
    Resolve), runs them in a pool of goroutines (Drain), and reports and
    publishes (Finish); a failed build gets new recipes from the hint catalog
    (HintFeed) or from its log (AutoFix) and goes back to the queue.  Without a
    control plane the worker pops a file, Redis or Kafka queue (Queue, Kafka).
    Both programs read their environment and build their queues and stores from it
    (Env).  The worker's drains are started by a loop and over HTTP (Service); it
    reports builds (Reports) and heartbeats (Workers) to the control plane, whose
    routes, middleware and operator's pages are Routes, Server and Metrics, and
    which asks the worker for drains and plans (PlanProxy).

    ** The files, in order, and the source each one models

    - Prelude: errors as values ([result]), the orders Go leaves open
      ([GoRuntime]), sorting, deduplication, maps filled in a loop, loops that may
      not return ([fold_opt]), 64-bit wrap-around; the lemmas the parts share.
    - GoStr, Json, Http: what the source uses of Go's strings, encoding/json and
      net/http, and of the files of the machine.
    - Artifact: go-worker/internal/artifact/key.go.
    - Pack: go-worker/internal/pack/catalog.go.
    - Cas: go-worker/internal/cas (cas.go, zot.go, fetcher.go, pusher.go);
      [CasStore] is the interface the planner is proved against.
    - Parse: the parsers of plan/plan.go, service/planner.go and api/handlers.go.
    - PlanTypes, Planner: plan/dag.go and computeWithResolverInputs of
      plan/plan.go; [PlanState] holds its local variables, [requirement_step],
      [wheel_step] and [dep_step] are the bodies of its three loops.
    - PlannerFacts, PlanTheorems, Samples: the planner's lemmas, its theorems and
      the inputs their witnesses evaluate.
    - Hints: plan/hints.go.
    - Queue: internal/queue of both programs; [Backend] is the Go interface and
      [LawfulBackend] its contract, which the file and the Redis queue discharge.
    - Generate, GenerateTheorems: plan/index.go and the entry points of
      plan/plan.go: Generate, GenerateFromInputs, the environment, the input
      directory and plan.json.
    - Codecs: encodings of the types that travel as JSON.
    - Match: the pure half of service/worker.go and runner.Job.
    - Config: service/config.go and the overlay of settings of service/service.go.
    - Settings: settings/settings.go, the table app_settings, the settings handler
      of api/handlers.go, the start of server.go, and pollSettings of
      service/service.go.
    - Podman: runner/runner.go, an instance of the interface [Runner] the pool uses.
    - HintFeed: service/hints.go against the hints handler of api/handlers.go and
      ListHintsPaged of store/postgres.go.
    - HintAdmin: store/hint_validation.go, store/hints_seed.go, the table hints of
      store/postgres.go and its three handlers; [event] is a request or a start.
    - LogStream: service/log_stream.go: cutting a log into numbered chunks, and the
      goroutine that sends them.
    - Logs: the table log_chunks of store/postgres.go, logsStream and logsChunks of
      api/handlers.go, api/log_hub.go; [step] interleaves streams and viewers.
    - Interleave: goroutines of a group with a limit, as programs that take turns,
      with a bound on the turns they need and a rely-guarantee rule.
    - Sql: the order of rows with equal keys, which PostgreSQL leaves open.
    - BuildStore, BuildQueue: the table build_status of store/postgres.go with its
      statements, the handlers buildQueuePop and buildStatusUpdate, and theorems
      about sequences of the operations.
    - Pending, PendingFacts: the tables pending_inputs, plans and plan_metadata of
      store/postgres.go with their statements, and the handlers of
      api/handlers.go on them; [serve] is the dispatch.
    - PlanLoop: service/planner.go; [planOne] is a program of at most five
      actions, [planner_round] one round of plannerLoop.
    - Upload, UploadFacts: the upload handlers of api/handlers.go.
    - System, SystemFacts, SystemSamples: the planning loop's requests routed to
      the handlers, theorems about the two programs together, and the state their
      witnesses evaluate.
    - AutoFix: service/auto_fix.go and service/log_summary.go.
    - Resolve: fetching, building, extracting and publishing artifacts in
      service/worker.go, and builder/builder.go.
    - Drain: the pool of goroutines of Worker.Drain as a machine of threads.
    - Finish: the rest of Worker.Drain: popping and matching before the pool,
      reporting and publishing after it, and [Drain] as a whole.
    - Values: JSON values and how encoding/json decodes them into structs and maps.
    - History: the table events of store/postgres.go and its handlers; Manifest: the
      tables manifests and logs and theirs; Reports: what the worker posts of a
      build (the loop over the results of Worker.Drain) and where it arrives;
      HistoryFacts, HistoryTheorems: their lemmas and theorems.
    - Kafka: kafkaqueue.go of both programs.
    - ObjectStore: internal/objectstore of both programs.
    - Env: config/config.go and the queues and stores of server.go for the control
      plane, fromEnv and BuildWorker for the worker.
    - Server: server/cors.go, server/gzip.go and Start of server.go: a handler is the
      calls it makes on its ResponseWriter.
    - Workers: service/heartbeat.go, the table worker_status, its handlers and the
      count of the workers that are online.
    - Metrics: the handlers health, ready, metrics, promMetrics, config,
      sessionToken, builds and those of the retry queue.
    - Service: runDrain, the handlers and the build loop of service/service.go and
      build_loop.go; [step] interleaves the calls of runDrain.
    - PlanProxy: planCompute, workerTrigger and workerSmoke of api/handlers.go, and
      the JSON of a plan's snapshot on both sides.
    - Routes: Handler.Routes, ServeMux's choice among them, and openLogStream of
      service/log_stream.go.

    ** What the theorems show

    - Planning: the DAG is closed and topologically ordered; every input is
      covered at the version the code computes; actions are justified by the
      store, the wheel and the overrides; no duplicates; bounds and errors; it
      returns for every well-named catalog, and recurses forever on a misnamed one.
    - Uploads and planning: what the worker reads from an accepted upload is what
      was uploaded; object keys are confined; the tables stay well formed under
      every sequence of requests; a round of the planning loop ends under every
      schedule and settles every input it can read, with no more goroutines than
      allowed; an input it cannot read stays "planning"; queueing and deleting a
      plan; a plan for an unknown input; when a run of the planner returns, what
      it writes, and a requirement that makes it panic.
    - The build queue: a pop takes ready builds, oldest first, each once and
      changes nothing else; no build is handed out twice; the rows any sequence of
      operations leaves are well formed; a build left "building" is stuck; a
      report about an unknown build blocks the queue.
    - The worker's pool: under every interleaving it ends, and each job has the
      result of its own run or failed to fetch its wheel.
    - Reporting: one outcome for each result with the status its error, the
      automation and the attempts call for; with the context cancelled nothing but
      the reporter's posts is sent; failed fetches are reported as built.
    - Artifacts: what is fetched or published has the hash it is named by, or is a
      stub; packs are ordered by dependency, then rearranged by a fixed table.
    - Hints and automation: when a hint applies; recipes without duplicates;
      independence of map order; every applied recipe has a confident hint; rate
      limit; the summary of a log; how much of a long catalog arrives.
    - The catalog: every row is a valid hint in normal form, what is put is what is
      got and listed, bulk uploads count what they store, and a start restores the
      seeds, deleted ones too.
    - Settings: what is accepted is kept, in every field, across a restart, and
      reaches the worker's pools; the environment's automatic modes are ignored.
    - Log streams: chunks are never reordered and numbered so that gaps show, none
      is lost when the channel does not fill, what the runner writes is what a
      viewer reads; no viewer gets a chunk twice, but it can miss one between
      listing and subscribing; trimming keeps one chunk too many.
    - The runner: podman reads the job's command line as it was meant; a run's log.
    - Request queues: a FIFO contract, and two implementations that refine it; what
      the Kafka queue promises instead.
    - Reports: what a build's report leaves in the tables is what the history's
      handlers answer; pages show each event once when times are distinct; one bad
      event breaks a list; fields of a manifest that are lost.
    - The operator: the handlers of the retry queue do what their contract says; the
      two pages of metrics agree; a heartbeat keeps a worker online for twice its
      interval; a plan computed through the control plane is saved as the worker
      made it, and a refusal of the worker is hidden.
    - The service: at most one drain runs, under every interleaving; every request
      of the worker reaches its handler; compression is transparent, and breaks the
      websocket; both programs share their queue and object store.
    Theorems that exhibit a defect of the code say so in their comments.

    ** Conventions, bounds and fuel

    A Go string is a byte string; case and space functions are those of ASCII
    text.  Integers are Z, wrapped to 64 bits where the code can overflow
    (backoffTime, the rate limit), and checked against INT where PostgreSQL does.
    Times are seconds, nanoseconds or microseconds as the code at hand has them,
    and the clock is an argument.  What lies outside the repository is a class
    with its documented behaviour as laws: the HTTP peer, SHA-256, regular
    expressions, Redis, Kafka, MinIO, PostgreSQL's open orders, tar, the shell, floats,
    JSON decoders.
    A function that recurses without a bound takes fuel, and [None] means that it
    was not enough: [plan_fuel] is enough for every catalog that is well named
    (plan_returns); [visit] gets one unit more than there are pack nodes, which is
    always enough because every level of the recursion visits a new node;
    [fetchHints] gets a number of pages, and one more than the catalog has hints is
    enough (the planning loop gets its hints in one); [read_fuel] bounds the messages
    a Kafka reader can get.  The pools take a schedule
    instead: 4n rounds end n goroutines of Drain, and 6n turns a round of the
    planning loop with n inputs, whose programs take at most five actions.

    ** What is not modelled

    GenerateViaPython, the SQL of the migrations, the stub artifacts that are
    written when no recipe is configured, the start and stop of goroutines and
    servers, and the parts in other languages.  Parsing multipart forms, zip
    archives and URLs is the Go library's and a parameter.  A request's timeout is
    not timed: a peer may fail at any request.  The body a handler writes is a
    record of what it encodes, where no client in the repository reads it back.
    The control plane is modelled with a store that answers; an object store is
    configured.  A round's goroutines share one context that is not cancelled
    while they run, as they return no error.  Log lines printed by the programs
    are left out.
    The pool's goroutines are modelled without the log stream each opens beside
    its build: it writes to the control plane's log chunks only (LogStream). *)
From Stdlib Require Export ZArith Lia.
From stdpp Require Export sorting pretty option base gmap strings list_numbers list.

(** ** Scopes *)
Declare Scope go_scope.
Delimit Scope go_scope with go.
#[global] Open Scope go_scope.

(** ** Errors

    A Go function that returns [(T, error)] is a function to [result T]; the
    error is its message. *)
Inductive result (A : Type) : Type :=
  | Ok (a : A)
  | Err (msg : string).
Arguments Ok {A} a.
Arguments Err {A} msg.

Definition is_ok {A} (r : result A) : bool := if r is Ok _ then true else false.

Definition result_bind {A B} (r : result A) (k : A → result B) : result B :=
  match r with Ok a => k a | Err e => Err e end.

Notation "'let?' x := e 'in' k" := (result_bind e (λ x, k))
  (at level 10, x pattern, k at level 200) : go_scope.

#[global] Instance result_eq_dec {A} `{EqDecision A} : EqDecision (result A).
Proof. solve_decision. Defined.

(** ** What the Go runtime leaves open

    The order in which [range] visits a map, and the order in which the
    unstable [sort.Slice] leaves elements that compare equal, are not fixed by
    Go.  Every definition that depends on them takes them from this class, so
    that a theorem holds for every order a run can see. *)
Record weak_order {A} (less : A → A → bool) : Prop := {
  wo_asym : ∀ x y, less x y = true → less y x = false;
  wo_negtrans : ∀ x y z, less y x = false → less z y = false → less z x = false }.

(** "[x] may stand before [y]", the relation a sort by [less] leaves. *)
Definition may_precede {A} (less : A → A → bool) : relation A := λ x y, less y x = false.
#[global] Instance may_precede_dec {A} (less : A → A → bool) : RelDecision (may_precede less).
Proof. intros x y. unfold may_precede. apply _. Defined.

Class GoRuntime := {
  map_range : ∀ {K} `{Countable K} {V}, gmap K V → list (K * V);
  map_range_perm : ∀ K `{Countable K} V (m : gmap K V), map_range m ≡ₚ map_to_list m;
  sort_slice : ∀ {A}, (A → A → bool) → list A → list A;
  sort_slice_perm : ∀ A (less : A → A → bool) (l : list A), sort_slice less l ≡ₚ l;
  sort_slice_sorted : ∀ A (less : A → A → bool) (l : list A), weak_order less →
    StronglySorted (may_precede less) (sort_slice less l) }.

(** One runtime that satisfies the contract: maps are visited in the order of
    [map_to_list], and [sort.Slice] is a merge sort. *)
Lemma merge_sort_weak_order {A} (less : A → A → bool) (l : list A) :
  weak_order less →
  StronglySorted (may_precede less) (merge_sort (may_precede less) l).
Proof.
  intros [Hasym Hneg]. apply Sorted_StronglySorted.
  - intros x y z ??. by eapply Hneg.
  - apply Sorted_merge_sort. intros x y.
    destruct (less y x) eqn:E; [right; by apply Hasym|by left].
Qed.

Definition reference_runtime : GoRuntime := {|
  map_range := λ K _ _ V m, map_to_list m;
  map_range_perm := λ K _ _ V m, reflexivity _;
  sort_slice := λ A less l, merge_sort (may_precede less) l;
  sort_slice_perm := λ A less l, merge_sort_Permutation _ l;
  sort_slice_sorted := λ A less l, merge_sort_weak_order less l |}.

(** Another one: maps are visited backwards. *)
Lemma reverse_range_perm {K} `{Countable K} {V} (m : gmap K V) :
  reverse (map_to_list m) ≡ₚ map_to_list m.
Proof. apply reverse_Permutation. Qed.

Definition reversed_runtime : GoRuntime := {|
  map_range := λ K _ _ V m, reverse (map_to_list m);
  map_range_perm := λ K _ _ V m, reverse_range_perm m;
  sort_slice := λ A less l, merge_sort (may_precede less) l;
  sort_slice_perm := λ A less l, merge_sort_Permutation _ l;
  sort_slice_sorted := λ A less l, merge_sort_weak_order less l |}.

(** [sort.Strings]: the order on strings is total, so the sorted permutation is
    unique and any sorting algorithm computes it. *)
Definition sort_strings : list string → list string := merge_sort String.le.

Lemma sort_strings_perm l : sort_strings l ≡ₚ l.
Proof. apply merge_sort_Permutation. Qed.

Lemma sort_strings_unique l1 l2 : l1 ≡ₚ l2 → sort_strings l1 = sort_strings l2.
Proof.
  intros Hp. apply (StronglySorted_unique String.le).
  1-2: apply Sorted_StronglySorted; [apply _|apply Sorted_merge_sort, _].
  by rewrite !sort_strings_perm.
Qed.

(** What stands where in a sorted list. *)
Lemma StronglySorted_positions {A} (R : relation A) l i j x y :
  StronglySorted R l → i < j → l !! i = Some x → l !! j = Some y → R x y.
Proof.
  intros Hs. revert i j. induction Hs as [|z l Hs IH Hall]; intros [|i] [|j] Hlt Hi Hj; try done; try lia.
  - simplify_eq/=. rewrite Forall_forall in Hall. by eapply Hall, list_elem_of_lookup_2.
  - eapply (IH i j); [lia|done..].
Qed.

(** [sort.SliceStable], by insertion: equal elements keep their order. *)
Section stable_sort.
Context {A : Type} (less : A → A → bool).

Fixpoint stable_insert (x : A) (l : list A) : list A :=
  match l with
  | [] => [x]
  | y :: l' => if less y x then y :: stable_insert x l' else x :: l
  end.
Definition sort_slice_stable (l : list A) : list A := foldr stable_insert [] l.

Lemma stable_insert_perm x l : stable_insert x l ≡ₚ x :: l.
Proof.
  induction l as [|y l IH]; simpl; [done|].
  destruct (less y x); [|done]. rewrite IH. apply Permutation_swap.
Qed.
Lemma sort_slice_stable_perm l : sort_slice_stable l ≡ₚ l.
Proof. induction l as [|x l IH]; simpl; [done|]. by rewrite stable_insert_perm, IH. Qed.

Lemma sort_slice_stable_sorted l :
  weak_order less → StronglySorted (may_precede less) (sort_slice_stable l).
Proof.
  intros [Hasym Hneg]. induction l as [|x l IH]; simpl; [constructor|].
  induction IH as [|y l' Hs IH' Hall]; simpl; [repeat constructor|].
  destruct (less y x) eqn:E.
  - constructor; [done|]. rewrite stable_insert_perm. constructor; [by apply Hasym|done].
  - constructor; [by constructor|]. constructor; [done|].
    eapply Forall_impl; [exact Hall|]. intros z Hz. by eapply Hneg.
Qed.
End stable_sort.

(** Go's [<] on strings, and the sorts that compare a string of each element. *)
Definition str_less (a b : string) : bool := bool_decide (¬ String.le b a).

Section by_string.
Context {A : Type} (f : A → string).
Definition less_by (a b : A) : bool := str_less (f a) (f b).

Lemma may_precede_less_by a b : may_precede less_by a b ↔ String.le (f a) (f b).
Proof.
  unfold may_precede, less_by, str_less. rewrite bool_decide_eq_false.
  split; [apply dec_stable|tauto].
Qed.

Lemma less_by_weak_order : weak_order less_by.
Proof.
  split; unfold less_by, str_less.
  - intros x y. rewrite bool_decide_eq_true, bool_decide_eq_false. intros Hn.
    destruct (total String.le (f x) (f y)); tauto.
  - intros x y z. rewrite !bool_decide_eq_false. intros Hyx Hzy.
    apply dec_stable in Hyx, Hzy. intros Hn. apply Hn. by etrans.
Qed.

Lemma sort_stable_by_sorted l :
  StronglySorted (λ a b, String.le (f a) (f b)) (sort_slice_stable less_by l).
Proof.
  induction (sort_slice_stable_sorted _ l less_by_weak_order) as [|x l' _ IH Hall]; constructor; [done|].
  eapply Forall_impl; [exact Hall|]. intros y Hy. by apply may_precede_less_by.
Qed.

(** Sorting by a string that tells the elements apart has one result. *)
Lemma sort_stable_by_unique l1 l2 :
  l1 ≡ₚ l2 → (∀ x y, x ∈ l1 → y ∈ l1 → f x = f y → x = y) →
  sort_slice_stable less_by l1 = sort_slice_stable less_by l2.
Proof.
  intros Hp Hinj. apply (StronglySorted_unique_strong (may_precede less_by)).
  - intros x y. rewrite !sort_slice_stable_perm, <-Hp, !may_precede_less_by.
    intros Hx Hy ??. apply Hinj; [done..|]. by apply (anti_symm String.le).
  - apply sort_slice_stable_sorted, less_by_weak_order.
  - apply sort_slice_stable_sorted, less_by_weak_order.
  - by rewrite !sort_slice_stable_perm.
Qed.
End by_string.

(** ** The "seen" loop

    Six functions of the program walk a slice, skip some items, skip the items
    whose key is already in a [seen] map, and append the rest.  [f] returns the
    key and the appended value, or [None] where the loop skips the item. *)
Section dedupe.
Context {A B K : Type} `{Countable K} (f : A → option (K * B)).

Fixpoint dedupe (seen : gset K) (l : list A) : list B :=
  match l with
  | [] => []
  | x :: l' =>
    match f x with
    | None => dedupe seen l'
    | Some (k, b) =>
      if decide (k ∈ seen) then dedupe seen l' else (b :: dedupe ({[k]} ∪ seen) l')
    end
  end.

Context (key : B → K) (Hkey : ∀ x k b, f x = Some (k, b) → key b = k).

Lemma dedupe_elem seen l b :
  b ∈ dedupe seen l → key b ∉ seen ∧ ∃ x, x ∈ l ∧ f x = Some (key b, b).
Proof using Hkey.
  revert seen. induction l as [|x l IH]; intros seen; simpl; [set_solver|].
  destruct (f x) as [[k b']|] eqn:Hf; [|set_solver].
  pose proof (Hkey _ _ _ Hf) as <-.
  case_decide as Hd; [set_solver|]. intros [->|Hb]%elem_of_cons; [set_solver|].
  apply IH in Hb as [??]; set_solver.
Qed.

Lemma dedupe_complete seen l x k b :
  x ∈ l → f x = Some (k, b) → k ∉ seen → ∃ b', b' ∈ dedupe seen l ∧ key b' = k.
Proof using Hkey.
  revert seen. induction l as [|y l IH]; intros seen Hx Hf Hk; simpl; [set_solver|].
  apply elem_of_cons in Hx as [->|Hx].
  - rewrite Hf. rewrite decide_False by done. exists b. split; [set_solver|eauto].
  - destruct (f y) as [[k' b']|] eqn:Hy; [|by apply IH].
    case_decide; [by apply IH|]. destruct (decide (k' = k)) as [->|Hne].
    + exists b'. split; [set_solver|eauto].
    + destruct (IH ({[k']} ∪ seen) Hx Hf) as (b'' & ? & ?); [set_solver|].
      exists b''. set_solver.
Qed.

Lemma dedupe_NoDup seen l : NoDup (key <$> dedupe seen l).
Proof using Hkey.
  revert seen. induction l as [|x l IH]; intros seen; simpl; [constructor|].
  destruct (f x) as [[k b]|] eqn:Hf; [|done]. case_decide; [done|].
  simpl. constructor; [|done].
  rewrite list_elem_of_fmap. intros (b' & Heq & [Hb' _]%dedupe_elem).
  rewrite <-Heq, (Hkey _ _ _ Hf) in Hb'. set_solver.
Qed.
End dedupe.

(** A list whose items all carry distinct fresh keys passes the loop unchanged. *)
Lemma dedupe_id {A K} `{Countable K} (f : A → option (K * A)) (key : A → K) seen l :
  (∀ x, x ∈ l → f x = Some (key x, x)) → NoDup (key <$> l) →
  (∀ x, x ∈ l → key x ∉ seen) → dedupe f seen l = l.
Proof.
  revert seen. induction l as [|x l IH]; intros seen Hf Hnd Hs; simpl; [done|].
  rewrite fmap_cons, NoDup_cons in Hnd. destruct Hnd as [Hx Hnd].
  rewrite Hf by set_solver. rewrite decide_False by set_solver. f_equal.
  apply IH; [set_solver|done|]. intros y Hy.
  rewrite list_elem_of_fmap in Hx.
  assert (key y ≠ key x) by (intros ?; apply Hx; eauto). set_solver.
Qed.

(** ** Filling a map from a list: later entries win *)
Definition fill_map {K} `{Countable K} {V} (l : list (K * V)) : gmap K V :=
  foldl (λ m kv, <[kv.1 := kv.2]> m) ∅ l.

Lemma fill_map_snoc {K} `{Countable K} {V} (l : list (K * V)) kv :
  fill_map (l ++ [kv]) = <[kv.1 := kv.2]> (fill_map l).
Proof. unfold fill_map. by rewrite foldl_app. Qed.

Lemma fill_map_list_to_map {K} `{Countable K} {V} (l : list (K * V)) :
  fill_map l = list_to_map (reverse l).
Proof.
  induction l as [|[k v] l IH] using rev_ind; [done|].
  by rewrite fill_map_snoc, IH, reverse_snoc.
Qed.

Lemma fill_map_dom {K} `{Countable K} {V} (l : list (K * V)) k :
  k ∈ dom (fill_map l) ↔ k ∈ l.*1.
Proof.
  rewrite fill_map_list_to_map, elem_of_dom. split.
  - intros [v Hv%elem_of_list_to_map_2]. rewrite elem_of_reverse in Hv.
    apply list_elem_of_fmap. by exists (k, v).
  - intros Hk. destruct (list_to_map (M := gmap K V) (reverse l) !! k) eqn:E; [eauto|].
    apply not_elem_of_list_to_map in E. by rewrite fmap_reverse, elem_of_reverse in E.
Qed.

(** With distinct keys the order does not matter. *)
Lemma fill_map_unordered {K} `{Countable K} {V} (l1 l2 : list (K * V)) :
  NoDup (l1.*1) → l1 ≡ₚ l2 → fill_map l1 = fill_map l2.
Proof.
  intros Hnd Hp. rewrite !fill_map_list_to_map. apply list_to_map_proper.
  - by rewrite (reverse_Permutation l1).
  - by rewrite !reverse_Permutation.
Qed.

(** Keys that stay distinct through a partial map of the entries. *)
Lemma NoDup_omap_keys {A B K L} (f : A → option B) (ka : A → K) (kb : B → L) l :
  NoDup (ka <$> l) →
  (∀ x y a b, x ∈ l → y ∈ l → f x = Some a → f y = Some b → kb a = kb b → ka x = ka y) →
  NoDup (kb <$> omap f l).
Proof.
  induction l as [|x l IH]; simpl; intros Hnd Hinj; [constructor|].
  apply NoDup_cons in Hnd as [Hx Hnd].
  assert (NoDup (kb <$> omap f l)) by (apply IH; [done|]; intros; eapply Hinj; eauto; by right).
  destruct (f x) as [b|] eqn:Hf; [|done]. simpl. constructor; [|done].
  rewrite list_elem_of_fmap. intros (a & Heq & (y & Hy & Hfy)%list_elem_of_omap).
  apply Hx, list_elem_of_fmap. exists y. split; [|done].
  eapply Hinj; [left|by right|done|done|done].
Qed.

(** ** Loops that may not return

    A Go loop whose body may not return (it recurses) is a fold in the option
    monad: [None] is a run that does not return. *)
Fixpoint fold_opt {A S} (step : A → S → option S) (l : list A) (s : S) : option S :=
  match l with
  | [] => Some s
  | x :: l' => s' ← step x s; fold_opt step l' s'
  end.

Lemma fold_opt_invariant {A S} (step : A → S → option S) (P : S → Prop) l s s' :
  (∀ x t t', x ∈ l → P t → step x t = Some t' → P t') →
  P s → fold_opt step l s = Some s' → P s'.
Proof.
  revert s. induction l as [|x l IH]; intros s Hstep HP Hf; simplify_eq/=; [done|].
  destruct (step x s) as [t|] eqn:Ht; [|done]. simpl in Hf.
  eapply IH; [|eapply Hstep; [..|exact Ht]|exact Hf]; set_solver.
Qed.

Lemma fold_opt_total {A S} (step : A → S → option S) l s :
  (∀ x t, x ∈ l → is_Some (step x t)) → is_Some (fold_opt step l s).
Proof.
  revert s. induction l as [|x l IH]; intros s Hstep; simpl; [eauto|].
  destruct (Hstep x s) as [t ->]; [set_solver|]. apply IH. set_solver.
Qed.

(** Every item of the list is visited, between a prefix and a suffix of the run. *)
Lemma fold_opt_elem {A S} (step : A → S → option S) l s s' x :
  x ∈ l → fold_opt step l s = Some s' →
  ∃ l1 l2 s1 s2, fold_opt step l1 s = Some s1 ∧ step x s1 = Some s2 ∧
    fold_opt step l2 s2 = Some s' ∧ l = l1 ++ x :: l2.
Proof.
  revert s. induction l as [|y l IH]; intros s Hx Hf; [set_solver|].
  simpl in Hf. destruct (step y s) as [t|] eqn:Ht; [|done]. simpl in Hf.
  apply elem_of_cons in Hx as [->|Hx]; [by exists [], l, s, t|].
  destruct (IH t Hx Hf) as (l1 & l2 & s1 & s2 & H1 & H2 & H3 & ->).
  exists (y :: l1), l2, s1, s2. split_and!; [|done..]. simpl. by rewrite Ht.
Qed.

(** ** Machine integers: [int64], and [int] on a 64-bit target *)
Definition wrap64 (z : Z) : Z := ((z + 2 ^ 63) mod 2 ^ 64 - 2 ^ 63)%Z.
(** [1 << n] at type [int64]: 0 from a shift of 64 on. *)
Definition shl64 (x n : Z) : Z := wrap64 (Z.shiftl x n).

Lemma wrap64_id z : (- 2 ^ 63 <= z < 2 ^ 63)%Z → wrap64 z = z.
Proof. intros. unfold wrap64. rewrite Z.mod_small; lia. Qed.

(** ** Automation *)
Create HintDb refinery discriminated.
#[export] Hint Resolve sort_strings_perm sort_slice_stable_perm map_range_perm
  sort_slice_perm : refinery.

(** Split every [if]/[match] in a hypothesis or the goal, then clean up. *)
Ltac crush_match :=
  repeat (simplify_eq/=; try case_match; simplify_eq/=).

(** [destruct_bind H pat E]: the run in [H] did not stop at its first bind. *)
Tactic Notation "destruct_bind" hyp(H) simple_intropattern(p) ident(E) :=
  lazymatch type of H with
  | mbind _ ?m = Some _ =>
    destruct m as [p|] eqn:E; [simpl in H|discriminate H]
  end.
