(* ===== verification/GoStr.v ===== *)
(** The functions of Go's [strings] package that the program uses, on byte
    strings.  A Go string is a sequence of bytes and so is [string].  [ToLower],
    [EqualFold], [TrimSpace] and [Fields] are the functions Go computes on ASCII
    strings: package names, versions, tags, digests and recipe names are ASCII
    (PEP 440, 425 and 508), and the control plane's upload check rejects a
    requirements file with any byte above 126. *)
From S2P Require Import Prelude.
From Stdlib Require Import Ascii.
Local Open Scope string_scope.
Local Open Scope list_scope.

(** ** Bytes *)
Definition byte_N (c : ascii) : N := N_of_ascii c.
Definition in_range (lo hi : N) (c : ascii) : bool := ((lo <=? byte_N c) && (byte_N c <=? hi))%N.
Definition is_space (c : ascii) : bool := in_range 9 13 c || bool_decide (byte_N c = 32%N).
Definition is_upper (c : ascii) : bool := in_range 65 90 c.
Definition is_digit (c : ascii) : bool := in_range 48 57 c.
Definition lower_byte (c : ascii) : ascii :=
  if is_upper c then ascii_of_N (byte_N c + 32) else c.
Definition is_ascii (c : ascii) : bool := (byte_N c <? 128)%N.

Fixpoint str_forall (p : ascii → bool) (s : string) : bool :=
  match s with EmptyString => true | String c s' => p c && str_forall p s' end.

Definition ascii_string (s : string) : Prop := str_forall is_ascii s = true.

(** ** Case and white space *)
Fixpoint ToLower (s : string) : string :=
  match s with EmptyString => "" | String c s' => String (lower_byte c) (ToLower s') end.

Definition EqualFold (a b : string) : bool := bool_decide (ToLower a = ToLower b).

Fixpoint trim_left (p : ascii → bool) (s : string) : string :=
  match s with
  | EmptyString => ""
  | String c s' => if p c then trim_left p s' else s
  end.

Fixpoint trim_right (p : ascii → bool) (s : string) : string :=
  match s with
  | EmptyString => ""
  | String c s' =>
    match trim_right p s' with
    | EmptyString => if p c then "" else String c ""
    | t => String c t
    end
  end.

Definition TrimSpace (s : string) : string := trim_right is_space (trim_left is_space s).
(** [strings.TrimRight(s, cutset)] and [strings.Trim] with a one-byte cutset. *)
Definition TrimRight (s : string) (c : ascii) : string := trim_right (λ d, bool_decide (d = c)) s.
Definition Trim (s : string) (c : ascii) : string :=
  TrimRight (trim_left (λ d, bool_decide (d = c)) s) c.

(** ** Prefixes, suffixes, substrings *)
Definition HasPrefix (s p : string) : bool := String.prefix p s.

Fixpoint str_drop (n : nat) (s : string) : string :=
  match n, s with
  | O, _ => s
  | S n', String _ s' => str_drop n' s'
  | S _, EmptyString => ""
  end.
Fixpoint str_take (n : nat) (s : string) : string :=
  match n, s with
  | O, _ => ""
  | S n', String c s' => String c (str_take n' s')
  | S _, EmptyString => ""
  end.

Definition TrimPrefix (s p : string) : string :=
  if HasPrefix s p then str_drop (String.length p) s else s.

Fixpoint HasSuffix (s p : string) : bool :=
  bool_decide (s = p) || match s with EmptyString => false | String _ s' => HasSuffix s' p end.
Definition TrimSuffix (s p : string) : string :=
  if HasSuffix s p then str_take (String.length s - String.length p) s else s.

(** [strings.Index]: the first position, or [None] for Go's [-1]. *)
Fixpoint Index (s sub : string) : option nat :=
  if HasPrefix s sub then Some O
  else match s with EmptyString => None | String _ s' => S <$> Index s' sub end.
Definition Contains (s sub : string) : bool := if Index s sub is Some _ then true else false.

(** ** Splitting and joining *)
Fixpoint Split (s : string) (sep : ascii) : list string :=
  match s with
  | EmptyString => [""]
  | String c s' =>
    if bool_decide (c = sep) then "" :: Split s' sep
    else match Split s' sep with
         | [] => [String c ""]
         | w :: ws => String c w :: ws
         end
  end.

(** [strings.SplitN(s, sep, 2)]. *)
Definition SplitN2 (s : string) (sep : ascii) : list string :=
  match Index s (String sep "") with
  | None => [s]
  | Some i => [str_take i s; str_drop (S i) s]
  end.

Fixpoint Join (l : list string) (sep : string) : string :=
  match l with
  | [] => ""
  | [s] => s
  | s :: l' => s +:+ sep +:+ Join l' sep
  end.

(** [strings.ReplaceAll] with a one-byte old string. *)
Fixpoint ReplaceAll (s : string) (old : ascii) (new : string) : string :=
  match s with
  | EmptyString => ""
  | String c s' =>
    if bool_decide (c = old) then new +:+ ReplaceAll s' old new
    else String c (ReplaceAll s' old new)
  end.

(** [strings.Fields]: the maximal runs of non-space bytes. *)
Fixpoint fields_go (cur : string) (s : string) : list string :=
  match s with
  | EmptyString => if bool_decide (cur = "") then [] else [cur]
  | String c s' =>
    if is_space c
    then (if bool_decide (cur = "") then fields_go "" s' else cur :: fields_go "" s')
    else fields_go (cur +:+ String c "") s'
  end.
Definition Fields (s : string) : list string := fields_go "" s.

(** [strings.ReplaceAll] of a substring that is not empty: [skip] counts the bytes
    of a match that are still to be left out. *)
Fixpoint replace_go (old new : string) (skip : nat) (s : string) : string :=
  match s with
  | "" => ""
  | String c r =>
    match skip with
    | S k => replace_go old new k r
    | O => if HasPrefix s old then new +:+ replace_go old new (String.length old - 1) r
           else String c (replace_go old new 0 r)
    end
  end.
Definition ReplaceSub (s old new : string) : string := replace_go old new 0 s.

(** [strconv.ParseInt(s, 10, 64)] and [strconv.Atoi]: an optional sign and digits,
    in the range of 64 bits. *)
Fixpoint parse_digits (acc : N) (s : string) : option N :=
  match s with
  | "" => Some acc
  | String c s' => if is_digit c then parse_digits (acc * 10 + (byte_N c - 48))%N s' else None
  end.
Definition parse_unsigned (s : string) : option N := if decide (s = "") then None else parse_digits 0 s.
Definition ParseInt (s : string) : option Z :=
  z ← match s with
      | String "-" s' => n ← parse_unsigned s'; Some (- Z.of_N n)%Z
      | String "+" s' => Z.of_N <$> parse_unsigned s'
      | _ => Z.of_N <$> parse_unsigned s
      end;
  if decide (- 2 ^ 63 <= z < 2 ^ 63)%Z then Some z else None.

(** [base64.StdEncoding.EncodeToString]. *)
Definition base64_digit (n : N) : ascii :=
  ascii_of_N (if n <? 26 then 65 + n else if n <? 52 then 71 + n else if n <? 62 then n - 4
              else if n =? 62 then 43 else 47)%N.
Fixpoint base64 (s : string) : string :=
  match s with
  | "" => ""
  | String a "" =>
    String (base64_digit (byte_N a / 4)) (String (base64_digit (byte_N a mod 4 * 16)) "==")
  | String a (String b "") =>
    String (base64_digit (byte_N a / 4))
      (String (base64_digit (byte_N a mod 4 * 16 + byte_N b / 16))
        (String (base64_digit (byte_N b mod 16 * 4)) "="))
  | String a (String b (String c r)) =>
    String (base64_digit (byte_N a / 4))
      (String (base64_digit (byte_N a mod 4 * 16 + byte_N b / 16))
        (String (base64_digit (byte_N b mod 16 * 4 + byte_N c / 64))
          (String (base64_digit (byte_N c mod 64)) (base64 r))))
  end.

(** [fmt.Sprintf("%d", n)]. *)
Definition itoa (n : Z) : string := pretty n.

(** ** Appending *)
Lemma append_cons c s t : String c s +:+ t = String c (s +:+ t).
Proof. reflexivity. Qed.

Lemma append_nil_l s : "" +:+ s = s.
Proof. reflexivity. Qed.

Lemma append_assoc (a b c : string) : (a +:+ b) +:+ c = a +:+ (b +:+ c).
Proof. induction a as [|x a IH]; [done|]. by rewrite !append_cons, IH. Qed.

Lemma append_nil_r (a : string) : a +:+ "" = a.
Proof. induction a as [|x a IH]; [done|]. by rewrite !append_cons, IH. Qed.

Create HintDb str discriminated.
#[export] Hint Rewrite append_cons append_nil_l append_nil_r append_assoc : str.

(** Put an append in normal form: right-nested, literals as constructors. *)
Tactic Notation "str_norm" := autorewrite with str.
Tactic Notation "str_norm" "in" hyp(H) := autorewrite with str in H.

(** ** Splitting *)
Lemma Split_nonempty s c : Split s c ≠ [].
Proof. destruct s as [|d s]; simpl; [done|]. repeat case_match; done. Qed.

Lemma Split_app_sep a b c : Split (a +:+ String c b) c = Split a c ++ Split b c.
Proof.
  induction a as [|d a IH]; str_norm; simpl.
  - by rewrite bool_decide_true.
  - rewrite IH. case_bool_decide; [done|].
    destruct (Split a c) eqn:E; [by apply Split_nonempty in E|done].
Qed.

Lemma Split_no_sep s c : str_forall (λ d, negb (bool_decide (d = c))) s = true → Split s c = [s].
Proof.
  induction s as [|d s IH]; simpl; [done|]. intros [Hd Hs]%andb_true_iff.
  rewrite (IH Hs). case_bool_decide; done.
Qed.

Lemma Join_cons w ws sep :
  Join (w :: ws) sep = match ws with [] => w | _ => w +:+ sep +:+ Join ws sep end.
Proof. by destruct ws. Qed.

Lemma Join_Split s c : Join (Split s c) (String c "") = s.
Proof.
  induction s as [|d s IH]; simpl; [done|].
  destruct (Split s c) as [|w ws] eqn:E; [by apply Split_nonempty in E|].
  rewrite Join_cons in IH. case_bool_decide; subst; rewrite Join_cons.
  - by rewrite Join_cons, append_nil_l, append_cons, append_nil_l.
  - destruct ws; by rewrite ?append_cons.
Qed.

Lemma Split_pieces s c w : w ∈ Split s c → str_forall (λ d, negb (bool_decide (d = c))) w = true.
Proof.
  revert w. induction s as [|d s IH]; simpl; intros w Hw; [set_solver|].
  case_bool_decide as Hd; [set_solver|].
  assert (Hdc : ∀ b, negb (bool_decide (d = c)) && b = b) by (intros; by rewrite bool_decide_false).
  destruct (Split s c) as [|v vs].
  - apply list_elem_of_singleton in Hw as ->. cbn [str_forall]. by rewrite Hdc.
  - apply elem_of_cons in Hw as [->|Hw]; [|set_solver]. cbn [str_forall]. rewrite Hdc. set_solver.
Qed.

(** ** Suffixes *)
Lemma str_length_app a b : String.length (a +:+ b) = String.length a + String.length b.
Proof. induction a as [|c a IH]; [done|]. rewrite append_cons. simpl. by rewrite IH. Qed.

Lemma HasSuffix_app s p : HasSuffix (s +:+ p) p = true.
Proof.
  induction s as [|c s IH].
  - rewrite append_nil_l. destruct p; cbn [HasSuffix]; by rewrite bool_decide_true by done.
  - rewrite append_cons. simpl. rewrite IH. apply orb_true_r.
Qed.

Lemma str_take_app s p : str_take (String.length s) (s +:+ p) = s.
Proof. induction s as [|c s IH]; [done|]. rewrite append_cons. simpl. by rewrite IH. Qed.

Lemma TrimSuffix_app s p : TrimSuffix (s +:+ p) p = s.
Proof.
  unfold TrimSuffix. rewrite HasSuffix_app, str_length_app.
  replace (_ + _ - _) with (String.length s) by lia. apply str_take_app.
Qed.

Lemma str_forall_app p a b : str_forall p (a +:+ b) = str_forall p a && str_forall p b.
Proof.
  induction a as [|c a IH]; [done|]. rewrite append_cons. simpl. by rewrite IH, andb_assoc.
Qed.

Lemma str_forall_impl (p q : ascii → bool) s :
  (∀ c, p c = true → q c = true) → str_forall p s = true → str_forall q s = true.
Proof.
  intros Hpq. induction s as [|c s IH]; simpl; [done|].
  rewrite !andb_true_iff. naive_solver.
Qed.

(** ** Byte-wise maps *)
Fixpoint str_map (f : ascii → ascii) (s : string) : string :=
  match s with EmptyString => "" | String c s' => String (f c) (str_map f s') end.

Lemma ToLower_map s : ToLower s = str_map lower_byte s.
Proof. induction s as [|c s IH]; simpl; [done|]. by rewrite IH. Qed.

Lemma ReplaceAll_map s a b :
  ReplaceAll s a (String b "") = str_map (λ c, if bool_decide (c = a) then b else c) s.
Proof.
  induction s as [|c s IH]; simpl; [done|]. rewrite IH. by case_bool_decide; str_norm.
Qed.

Lemma str_map_compose f g s : str_map f (str_map g s) = str_map (f ∘ g) s.
Proof. induction s as [|c s IH]; simpl; [done|]. by rewrite IH. Qed.

Lemma str_map_ext f g s : (∀ c, f c = g c) → str_map f s = str_map g s.
Proof. intros Hfg. induction s as [|c s IH]; simpl; [done|]. by rewrite Hfg, IH. Qed.

Lemma byte_forall (P : ascii → Prop) :
  (∀ a b c d e f g h, P (Ascii a b c d e f g h)) → ∀ c, P c.
Proof. intros HP []. apply HP. Qed.

Lemma lower_byte_idem c : lower_byte (lower_byte c) = lower_byte c.
Proof. revert c. apply byte_forall. by intros [] [] [] [] [] [] [] []. Qed.

Lemma lower_byte_space c : is_space (lower_byte c) = is_space c.
Proof. revert c. apply byte_forall. by intros [] [] [] [] [] [] [] []. Qed.

Lemma ToLower_idem s : ToLower (ToLower s) = ToLower s.
Proof. rewrite !ToLower_map, str_map_compose. apply str_map_ext, lower_byte_idem. Qed.

Lemma ToLower_app a b : ToLower (a +:+ b) = ToLower a +:+ ToLower b.
Proof. induction a as [|c a IH]; [done|]. rewrite append_cons. simpl. by rewrite IH. Qed.

(** ** Trimming *)
Lemma trim_left_map p f s : (∀ c, p (f c) = p c) → trim_left p (str_map f s) = str_map f (trim_left p s).
Proof. intros Hpf. induction s as [|c s IH]; simpl; [done|]. rewrite Hpf. by destruct (p c). Qed.

Lemma trim_right_map p f s :
  (∀ c, p (f c) = p c) → trim_right p (str_map f s) = str_map f (trim_right p s).
Proof.
  intros Hpf. induction s as [|c s IH]; simpl; [done|].
  rewrite IH, Hpf. destruct (trim_right p s); simpl; [by destruct (p c)|done].
Qed.

Lemma TrimSpace_map f s : (∀ c, is_space (f c) = is_space c) → TrimSpace (str_map f s) = str_map f (TrimSpace s).
Proof. intros Hf. unfold TrimSpace. by rewrite trim_left_map, trim_right_map. Qed.

Lemma trim_right_idem p s : trim_right p (trim_right p s) = trim_right p s.
Proof.
  induction s as [|c s IH]; simpl; [done|].
  destruct (trim_right p s) as [|d t] eqn:E; simpl.
  - destruct (p c) eqn:Hc; simpl; [done|by rewrite Hc].
  - simpl in IH. by rewrite IH.
Qed.

(** A string that does not start with a byte [trim_left] removes. *)
Definition left_trimmed (p : ascii → bool) (s : string) : Prop :=
  match s with EmptyString => True | String c _ => p c = false end.

Lemma trim_left_trimmed p s : left_trimmed p (trim_left p s).
Proof. induction s as [|c s IH]; simpl; [done|]. by destruct (p c) eqn:E. Qed.

Lemma trim_left_id p s : left_trimmed p s → trim_left p s = s.
Proof. destruct s; simpl; [done|]. by intros ->. Qed.

Lemma trim_right_left_trimmed p s : left_trimmed p s → left_trimmed p (trim_right p s).
Proof.
  destruct s as [|c s]; simpl; [done|]. intros Hc.
  destruct (trim_right p s); simpl; [by rewrite Hc|done].
Qed.

Lemma TrimSpace_idem s : TrimSpace (TrimSpace s) = TrimSpace s.
Proof.
  unfold TrimSpace. rewrite (trim_left_id _ (trim_right _ _)).
  - apply trim_right_idem.
  - apply trim_right_left_trimmed, trim_left_trimmed.
Qed.

(** The ten digits. *)
Definition digits : list ascii :=
  ["0"; "1"; "2"; "3"; "4"; "5"; "6"; "7"; "8"; "9"]%char.
Lemma is_digit_cases c : is_digit c = true → c ∈ digits.
Proof.
  assert (Hall : ∀ c, implb (is_digit c) (bool_decide (c ∈ digits)) = true).
  { apply byte_forall. by intros [] [] [] [] [] [] [] []. }
  intros Hd. specialize (Hall c). rewrite Hd in Hall. by apply bool_decide_eq_true in Hall.
Qed.

(** ** Printing and parsing integers *)
Lemma pretty_N_char_digit d : (d < 10)%N →
  is_digit (pretty_N_char d) = true ∧ (byte_N (pretty_N_char d) - 48)%N = d.
Proof.
  intros Hd. do 10 (destruct d as [|d] using N.peano_ind; [by vm_compute|clear IHd]). lia.
Qed.
Lemma parse_digits_go x s : parse_digits 0 (pretty_N_go x s) = parse_digits x s.
Proof.
  revert s. induction (N.lt_wf_0 x) as [x _ IH]; intros s.
  destruct (decide (x = 0%N)) as [->|Hx]; [by rewrite pretty_N_go_0|].
  rewrite pretty_N_go_step by lia. rewrite IH by (apply N.div_lt; lia). cbn [parse_digits].
  destruct (pretty_N_char_digit (x mod 10)) as [-> ->]; [by apply N.mod_lt|].
  f_equal. rewrite N.mul_comm. symmetry. by apply N.div_mod.
Qed.
Lemma parse_unsigned_pretty (n : N) : parse_unsigned (pretty n) = Some n.
Proof.
  unfold parse_unsigned, pretty, pretty_N. destruct (decide (n = 0%N)) as [->|Hn]; [done|].
  rewrite decide_False; [by rewrite parse_digits_go|]. intros He.
  pose proof (parse_digits_go n "") as Hp. rewrite He in Hp. simpl in Hp. congruence.
Qed.
Lemma pretty_N_head (n : N) c s : pretty n = String c s → c ≠ "-"%char ∧ c ≠ "+"%char.
Proof.
  intros Hp. assert (Hd : is_digit c = true); [|by split; intros ->].
  pose proof (parse_unsigned_pretty n) as Hn. rewrite Hp in Hn. unfold parse_unsigned in Hn.
  rewrite decide_False in Hn by done. cbn [parse_digits] in Hn. by destruct (is_digit c).
Qed.
Lemma ParseInt_unsigned (n : N) : (Z.of_N n < 2 ^ 63)%Z → ParseInt (pretty n) = Some (Z.of_N n).
Proof.
  intros Hn. unfold ParseInt. pose proof (parse_unsigned_pretty n) as Hp.
  destruct (pretty n) as [|c s] eqn:He; [done|]. destruct (pretty_N_head n c s He) as [Hm Hpl].
  destruct c as [[] [] [] [] [] [] [] []]; try done; rewrite Hp; simpl; by rewrite decide_True by lia.
Qed.
(** What [Itoa] prints, [ParseInt] reads, at 64 bits. *)
Lemma ParseInt_itoa z : (- 2 ^ 63 <= z < 2 ^ 63)%Z → ParseInt (itoa z) = Some z.
Proof.
  intros Hz. unfold itoa, pretty, pretty_Z. destruct z as [|p|p]; [done| |].
  - change (pretty p) with (pretty (N.pos p)). by rewrite ParseInt_unsigned by lia.
  - change (pretty p) with (pretty (N.pos p)). unfold ParseInt. rewrite append_cons, append_nil_l. rewrite parse_unsigned_pretty. simpl. by rewrite decide_True by lia.
Qed.

Lemma pretty_N_go_forall (p : ascii → bool) x s :
  (∀ c, is_digit c = true → p c = true) → str_forall p s = true → str_forall p (pretty_N_go x s) = true.
Proof.
  intros Hp. revert s. induction (N.lt_wf_0 x) as [x _ IH]; intros s Hs.
  destruct (decide (x = 0%N)) as [->|Hx]; [by rewrite pretty_N_go_0|].
  rewrite pretty_N_go_step by lia. apply IH; [apply N.div_lt; lia|]. cbn [str_forall].
  destruct (pretty_N_char_digit (x mod 10)) as [Hd _]; [by apply N.mod_lt|]. by rewrite (Hp _ Hd), Hs.
Qed.
(** The text of an integer holds digits and possibly a minus sign. *)
Lemma itoa_forall (p : ascii → bool) z :
  (∀ c, is_digit c = true → p c = true) → p "-"%char = true → str_forall p (itoa z) = true.
Proof.
  intros Hp Hm. unfold itoa, pretty, pretty_Z.
  assert (Hpos : ∀ q : positive, str_forall p (pretty (N.pos q)) = true).
  { intros q. unfold pretty, pretty_N. rewrite decide_False by done. by apply pretty_N_go_forall. }
  destruct z as [|q|q]; [by simpl; rewrite Hp|apply Hpos|].
  change (pretty q) with (pretty (N.pos q)). rewrite append_cons, append_nil_l. cbn [str_forall].
  by rewrite Hm, Hpos.
Qed.
Lemma HasPrefix_app p s : HasPrefix (p +:+ s) p = true.
Proof. unfold HasPrefix. induction p as [|c p IH]; [by destruct s|]. rewrite append_cons. simpl. by destruct (ascii_dec c c). Qed.
Lemma TrimPrefix_app p s : TrimPrefix (p +:+ s) p = s.
Proof.
  unfold TrimPrefix. rewrite HasPrefix_app. induction p as [|c p IH]; [by destruct s|].
  rewrite append_cons. cbn [String.length str_drop]. apply IH.
Qed.
Lemma itoa_nonempty z : itoa z ≠ "".
Proof.
  unfold itoa, pretty, pretty_Z. destruct z as [|q|q]; [done| |done].
  change (pretty q) with (pretty (N.pos q)). intros He.
  pose proof (parse_unsigned_pretty (N.pos q)) as Hp. by rewrite He in Hp.
Qed.
Lemma HasPrefix_cons a b s p : HasPrefix (String a s) (String b p) = bool_decide (a = b) && HasPrefix s p.
Proof. unfold HasPrefix. simpl. destruct (ascii_dec b a) as [->|Hn]; case_bool_decide; subst; done. Qed.
Lemma Index_absent s c : str_forall (λ d, negb (bool_decide (d = c))) s = true → Index s (String c "") = None.
Proof.
  induction s as [|d s IH]; [done|]. cbn [str_forall Index]. intros [Hd Hs]%andb_true_iff.
  rewrite HasPrefix_cons. apply negb_true_iff in Hd. by rewrite Hd, IH.
Qed.
Lemma Index_first a s c :
  str_forall (λ d, negb (bool_decide (d = c))) a = true → Index (a +:+ String c s) (String c "") = Some (String.length a).
Proof.
  induction a as [|d a IH]; intros Ha.
  - rewrite append_nil_l. cbn [Index]. rewrite HasPrefix_cons. rewrite bool_decide_true by done. by destruct s.
  - cbn [str_forall] in Ha. apply andb_true_iff in Ha as [Hd Ha]. rewrite append_cons. cbn [Index].
    rewrite HasPrefix_cons. apply negb_true_iff in Hd. by rewrite Hd, IH.
Qed.
Lemma str_drop_app s t : str_drop (String.length s) (s +:+ t) = t.
Proof. induction s as [|c s IH]; [by destruct t|]. rewrite append_cons. apply IH. Qed.
(** A string that ends with another byte has no such suffix and is not trimmed. *)
Lemma trim_right_app_end (q : ascii → bool) s c : q c = false → trim_right q (s +:+ String c "") = s +:+ String c "".
Proof.
  intros Hc. induction s as [|d s IH]; [simpl; by rewrite Hc|]. rewrite append_cons. cbn [trim_right]. rewrite IH.
  by destruct s.
Qed.
Lemma HasSuffix_other s c d : c ≠ d → HasSuffix (s +:+ String c "") (String d "") = false.
Proof.
  intros Hcd. induction s as [|e s IH].
  - rewrite append_nil_l. cbn [HasSuffix]. rewrite !bool_decide_false by congruence. done.
  - rewrite append_cons. cbn [HasSuffix]. rewrite IH, bool_decide_false; [done|]. destruct s; [rewrite append_nil_l|rewrite append_cons]; congruence.
Qed.
