(* ===== verification/Json.v ===== *)
(** The part of [encoding/json] that [artifact/key.go] depends on: [json.Marshal]
    of a struct of strings and string slices.  Strings are escaped the way
    [Marshal] does it, HTML escaping included; a byte above 127 is copied, which
    is what Go does inside valid UTF-8 (ASCII is the domain of the theorems).
    The main result is that the encoding of an object is injective. *)
From S2P Require Import Prelude.
From S2P Require Import GoStr.
From Stdlib Require Import Ascii.
Local Open Scope string_scope.
Local Open Scope list_scope.

Definition dquote : ascii := ascii_of_N 34.
Definition backslash : ascii := ascii_of_N 92.

Definition hex_digit (n : N) : ascii :=
  if (n <? 10)%N then ascii_of_N (48 + n) else ascii_of_N (87 + n).
Definition hex_value (c : ascii) : N :=
  if is_digit c then (byte_N c - 48)%N else (byte_N c - 87)%N.

(** The bytes [Marshal] writes for one byte of a string. *)
Definition escape_byte (c : ascii) : string :=
  let n := byte_N c in
  let pair d := String backslash (String d "") in
  if decide (c = dquote) then pair dquote
  else if decide (c = backslash) then pair backslash
  else if decide (n = 8%N) then pair "b"%char
  else if decide (n = 12%N) then pair "f"%char
  else if decide (n = 10%N) then pair "n"%char
  else if decide (n = 13%N) then pair "r"%char
  else if decide (n = 9%N) then pair "t"%char
  else if (n <? 32)%N || bool_decide (n = 38%N ∨ n = 60%N ∨ n = 62%N)
       then String backslash
              ("u00" +:+ String (hex_digit (n / 16)) (String (hex_digit (n mod 16)) ""))
  else String c "".

Fixpoint escape (s : string) : string :=
  match s with EmptyString => "" | String c s' => escape_byte c +:+ escape s' end.

Definition quote (s : string) : string := String dquote (escape s +:+ String dquote "").

(** Values and objects. *)
Inductive jval := JStr (s : string) | JArr (l : list string).

Fixpoint enc_tail {A} (enc : A → string) (close : ascii) (l : list A) : string :=
  match l with
  | [] => String close ""
  | x :: l' => String "," (enc x +:+ enc_tail enc close l')
  end.
Definition enc_seq {A} (enc : A → string) (open close : ascii) (l : list A) : string :=
  String open (match l with
               | [] => String close ""
               | x :: l' => enc x +:+ enc_tail enc close l'
               end).

Definition enc_val (v : jval) : string :=
  match v with JStr s => quote s | JArr l => enc_seq quote "[" "]" l end.
Definition enc_field (f : string * jval) : string := quote (f.1) +:+ String ":" (enc_val (f.2)).
Definition enc_obj (l : list (string * jval)) : string := enc_seq enc_field "{" "}" l.

(** [json.MarshalIndent(m, _, _)] of a map of strings, indented by two blanks: one
    line for each key, in the order of the keys. *)
Definition line_break : string := String (ascii_of_N 10) "".
Definition sorted_fields (m : gmap string string) : list (string * string) :=
  omap (λ k, pair k <$> m !! k) (sort_strings (map_to_list m).*1).
Definition indent_field (f : string * string) : string :=
  line_break +:+ "  " +:+ quote f.1 +:+ ": " +:+ quote f.2.
Definition MarshalIndent (m : gmap string string) : string :=
  match sorted_fields m with
  | [] => "{}"
  | l => "{" +:+ Join (indent_field <$> l) "," +:+ line_break +:+ "}"
  end.

(** ** Reading a quoted string back *)
Definition unescape_simple (d : ascii) : ascii :=
  if decide (d = "b"%char) then ascii_of_N 8
  else if decide (d = "f"%char) then ascii_of_N 12
  else if decide (d = "n"%char) then ascii_of_N 10
  else if decide (d = "r"%char) then ascii_of_N 13
  else if decide (d = "t"%char) then ascii_of_N 9
  else d.

Fixpoint scan (s : string) : option (string * string) :=
  match s with
  | EmptyString => None
  | String c s1 =>
    if decide (c = dquote) then Some ("", s1)
    else if decide (c = backslash) then
      match s1 with
      | String "u" (String _ (String _ (String h3 (String h4 r)))) =>
        '(t, rest) ← scan r; Some (String (ascii_of_N (16 * hex_value h3 + hex_value h4)) t, rest)
      | String d r => '(t, rest) ← scan r; Some (String (unescape_simple d) t, rest)
      | EmptyString => None
      end
    else '(t, rest) ← scan s1; Some (String c t, rest)
  end.

(** The three shapes [escape_byte] produces. *)
Inductive escape_view (c : ascii) : string → Prop :=
  | view_plain : c ≠ dquote → c ≠ backslash → escape_view c (String c "")
  | view_pair d : d ≠ "u"%char → unescape_simple d = c →
      escape_view c (String backslash (String d ""))
  | view_hex a b h3 h4 : ascii_of_N (16 * hex_value h3 + hex_value h4) = c →
      escape_view c (String backslash (String "u" (String a (String b (String h3 (String h4 "")))))).

Lemma escape_byte_view c : escape_view c (escape_byte c).
Proof.
  destruct c as [[] [] [] [] [] [] [] []];
    match goal with |- escape_view _ ?e => let v := eval vm_compute in e in change e with v end;
    first [ apply view_plain; vm_compute; discriminate
          | apply view_hex; vm_compute; reflexivity
          | apply view_pair; vm_compute; [discriminate | reflexivity] ].
Qed.

Lemma scan_escape_byte c s t rest :
  scan s = Some (t, rest) → scan (escape_byte c +:+ s) = Some (String c t, rest).
Proof.
  intros Hs. destruct (escape_byte_view c) as [Hd Hb|d Hu <-|a b h3 h4 <-];
    rewrite ?append_cons, append_nil_l; cbn [scan].
  - by rewrite !decide_False, Hs.
  - rewrite decide_False, decide_True by done.
    destruct d as [[] [] [] [] [] [] [] []]; (done || by rewrite Hs).
  - by rewrite decide_False, decide_True, Hs by done.
Qed.

Lemma scan_escape s rest : scan (escape s +:+ String dquote rest) = Some (s, rest).
Proof.
  induction s as [|c s IH]; [done|].
  cbn [escape]. rewrite append_assoc. by apply scan_escape_byte.
Qed.

(** ** Injectivity *)
Definition prefix_free {A} (enc : A → string) : Prop :=
  ∀ x y r s, enc x +:+ r = enc y +:+ s → x = y ∧ r = s.
Definition starts_quoted {A} (enc : A → string) : Prop := ∀ x, ∃ t, enc x = String dquote t.

Lemma quote_prefix_free : prefix_free quote.
Proof.
  intros x y r s Heq. unfold quote in Heq. str_norm in Heq. injection Heq as Heq.
  apply (f_equal scan) in Heq. rewrite !scan_escape in Heq. naive_solver.
Qed.

Lemma quote_starts : starts_quoted quote.
Proof. intros x. by eexists. Qed.

Section seq_inj.
Context {A} (enc : A → string) (close : ascii).
Context (Hpf : prefix_free enc) (Hq : starts_quoted enc).
Context (Hcomma : close ≠ ","%char) (Hdq : close ≠ dquote).

Lemma enc_tail_prefix_free : prefix_free (enc_tail enc close).
Proof using Hpf Hcomma Hdq.
  intros l1. induction l1 as [|x l1 IH]; intros [|y l2] r s; cbn [enc_tail]; intros Heq;
    str_norm in Heq; [naive_solver|naive_solver|naive_solver|].
  injection Heq as Heq.
  apply Hpf in Heq as [-> Heq]. apply IH in Heq as [-> ->]. done.
Qed.

Lemma enc_seq_prefix_free open : prefix_free (enc_seq enc open close).
Proof using Hpf Hq Hcomma Hdq.
  intros l1 l2 r s. unfold enc_seq. destruct l1 as [|x l1], l2 as [|y l2]; intros Heq;
    str_norm in Heq.
  - naive_solver.
  - destruct (Hq y) as [t Ht]. rewrite Ht in Heq. str_norm in Heq. naive_solver.
  - destruct (Hq x) as [t Ht]. rewrite Ht in Heq. str_norm in Heq. naive_solver.
  - injection Heq as Heq.
    apply Hpf in Heq as [-> Heq]. apply enc_tail_prefix_free in Heq as [-> ->]. done.
Qed.
End seq_inj.

Lemma enc_val_prefix_free : prefix_free enc_val.
Proof.
  intros [a|l1] [b|l2] r s; simpl; intros Heq.
  - apply quote_prefix_free in Heq as [-> ->]. done.
  - discriminate Heq.
  - discriminate Heq.
  - apply (enc_seq_prefix_free quote "]") in Heq as [-> ->];
      auto using quote_prefix_free, quote_starts.
Qed.

Lemma enc_field_prefix_free : prefix_free enc_field.
Proof.
  intros [n v] [m w] r s. unfold enc_field; cbn [fst snd]. intros Heq. str_norm in Heq.
  apply quote_prefix_free in Heq as [-> Heq]. injection Heq as Heq.
  apply enc_val_prefix_free in Heq as [-> ->]. done.
Qed.

Lemma enc_field_starts : starts_quoted enc_field.
Proof. intros [n v]. by eexists. Qed.

Lemma enc_obj_inj : Inj (=) (=) enc_obj.
Proof.
  intros l1 l2 Heq.
  destruct (enc_seq_prefix_free enc_field "}" enc_field_prefix_free enc_field_starts
    ltac:(done) ltac:(done) "{" l1 l2 "" "") as [-> _]; [|done].
  by rewrite !append_nil_r.
Qed.
