(* ===== verification/Artifact.v ===== *)
(** [go-worker/internal/artifact/key.go]: the typed references to artifacts and
    the keys whose digest addresses them in the content-addressable store.

    [sha256_hex] is a parameter (the class [Sha256]); no theorem assumes that it
    is injective, only, where a digest has to identify a key, that it does not
    collide on the two encodings at hand. *)
From S2P Require Import Prelude.
From S2P Require Import GoStr.
From S2P Require Import Json.
Local Open Scope string_scope.
Local Open Scope list_scope.

(** [hex.EncodeToString(sha256.Sum256(data))]. *)
Class Sha256 := { sha256_hex : string → string }.

Inductive ArtifactType := RuntimeType | PackType | WheelType | RepairType.
#[export] Instance ArtifactType_eq_dec : EqDecision ArtifactType.
Proof. solve_decision. Defined.

Record ID := mkID { id_Type : ArtifactType; id_Digest : string }.
#[export] Instance ID_eq_dec : EqDecision ID.
Proof. solve_decision. Defined.
#[export] Instance ArtifactType_countable : Countable ArtifactType.
Proof.
  refine (inj_countable' (λ t, match t with RuntimeType => 0 | PackType => 1
                                       | WheelType => 2 | RepairType => 3 end)
    (λ n, match n with 0 => RuntimeType | 1 => PackType | 2 => WheelType | _ => RepairType end) _).
  by intros [].
Defined.
#[export] Instance ID_countable : Countable ID.
Proof.
  refine (inj_countable' (λ i, (id_Type i, id_Digest i)) (λ p, mkID p.1 p.2) _). by intros [].
Defined.

Record RuntimeKey := mkRuntimeKey {
  rk_Arch : string; rk_PolicyBaseDigest : string; rk_PythonVersion : string;
  rk_BuildFlags : string; rk_ToolchainID : string; rk_DepsHash : string }.
Record PackKey := mkPackKey {
  pk_Arch : string; pk_PolicyBaseDigest : string; pk_Name : string;
  pk_Version : string; pk_RecipeDigest : string }.
Record WheelKey := mkWheelKey {
  wk_SourceDigest : string; wk_PyTag : string; wk_PlatformTag : string;
  wk_RuntimeDigest : string; wk_PackDigests : list string;
  wk_BuildFrontendVersion : string; wk_ConfigFlagsDigest : string;
  wk_RepairToolVersion : string; wk_RepairPolicyRulesHash : string }.
Record RepairKey := mkRepairKey {
  rep_InputWheelDigest : string; rep_RepairToolVersion : string; rep_PolicyRulesDigest : string }.

(** The fields [json.Marshal] writes, in declaration order; [omitempty] drops
    the zero value. *)
Definition field (name v : string) : list (string * jval) := [(name, JStr v)].
Definition omit_empty (name v : string) : list (string * jval) :=
  if decide (v = "") then [] else [(name, JStr v)].
Definition omit_empty_list (name : string) (l : list string) : list (string * jval) :=
  match l with [] => [] | _ => [(name, JArr l)] end.

Definition RuntimeKey_fields (k : RuntimeKey) : list (string * jval) :=
  field "arch" (rk_Arch k) ++ field "policy_base_digest" (rk_PolicyBaseDigest k) ++
  field "python_version" (rk_PythonVersion k) ++ omit_empty "build_flags" (rk_BuildFlags k) ++
  omit_empty "toolchain_id" (rk_ToolchainID k) ++ omit_empty "deps_hash" (rk_DepsHash k).
Definition PackKey_fields (k : PackKey) : list (string * jval) :=
  field "arch" (pk_Arch k) ++ field "policy_base_digest" (pk_PolicyBaseDigest k) ++
  field "name" (pk_Name k) ++ omit_empty "version" (pk_Version k) ++
  omit_empty "recipe_digest" (pk_RecipeDigest k).
Definition WheelKey_fields (k : WheelKey) : list (string * jval) :=
  field "source_digest" (wk_SourceDigest k) ++ field "py_tag" (wk_PyTag k) ++
  field "platform_tag" (wk_PlatformTag k) ++ field "runtime_digest" (wk_RuntimeDigest k) ++
  omit_empty_list "pack_digests" (wk_PackDigests k) ++
  omit_empty "build_frontend_version" (wk_BuildFrontendVersion k) ++
  omit_empty "config_flags_digest" (wk_ConfigFlagsDigest k) ++
  omit_empty "repair_tool_version" (wk_RepairToolVersion k) ++
  omit_empty "repair_policy_rules_hash" (wk_RepairPolicyRulesHash k).
Definition RepairKey_fields (k : RepairKey) : list (string * jval) :=
  field "input_wheel_digest" (rep_InputWheelDigest k) ++
  field "repair_tool_version" (rep_RepairToolVersion k) ++
  field "policy_rules_digest" (rep_PolicyRulesDigest k).

Section digest.
Context `{Sha256}.

Definition digestStruct (fields : list (string * jval)) : string :=
  "sha256:" +:+ sha256_hex (enc_obj fields).

Definition RuntimeKey_Digest (k : RuntimeKey) : string := digestStruct (RuntimeKey_fields k).
Definition PackKey_Digest (k : PackKey) : string := digestStruct (PackKey_fields k).
Definition RepairKey_Digest (k : RepairKey) : string := digestStruct (RepairKey_fields k).

(** [WheelKey.Digest] sorts a copy of the pack digests first. *)
Definition WheelKey_sorted (k : WheelKey) : WheelKey :=
  if decide (1 < length (wk_PackDigests k)) then
    mkWheelKey (wk_SourceDigest k) (wk_PyTag k) (wk_PlatformTag k) (wk_RuntimeDigest k)
      (sort_strings (wk_PackDigests k)) (wk_BuildFrontendVersion k)
      (wk_ConfigFlagsDigest k) (wk_RepairToolVersion k) (wk_RepairPolicyRulesHash k)
  else k.
Definition WheelKey_Digest (k : WheelKey) : string :=
  digestStruct (WheelKey_fields (WheelKey_sorted k)).
End digest.

(** ** Keys of any type, and when two of them address the same artifact *)
Inductive ArtifactKey :=
  | KRuntime (k : RuntimeKey) | KPack (k : PackKey) | KWheel (k : WheelKey) | KRepair (k : RepairKey).

Definition key_fields (k : ArtifactKey) : list (string * jval) :=
  match k with
  | KRuntime k => RuntimeKey_fields k
  | KPack k => PackKey_fields k
  | KWheel k => WheelKey_fields (WheelKey_sorted k)
  | KRepair k => RepairKey_fields k
  end.
Definition key_digest `{Sha256} (k : ArtifactKey) : string :=
  match k with
  | KRuntime k => RuntimeKey_Digest k
  | KPack k => PackKey_Digest k
  | KWheel k => WheelKey_Digest k
  | KRepair k => RepairKey_Digest k
  end.

(** Wheel keys are the same when they differ only in the order of the packs. *)
Definition wheel_key_equiv (a b : WheelKey) : Prop :=
  wk_PackDigests a ≡ₚ wk_PackDigests b ∧
  mkWheelKey (wk_SourceDigest a) (wk_PyTag a) (wk_PlatformTag a) (wk_RuntimeDigest a)
    (wk_PackDigests b) (wk_BuildFrontendVersion a) (wk_ConfigFlagsDigest a)
    (wk_RepairToolVersion a) (wk_RepairPolicyRulesHash a) = b.

#[export] Instance key_equiv : Equiv ArtifactKey := λ a b,
  match a, b with
  | KWheel a, KWheel b => wheel_key_equiv a b
  | _, _ => a = b
  end.

#[export] Instance wheel_key_equivalence : Equivalence wheel_key_equiv.
Proof.
  unfold wheel_key_equiv. split.
  - by intros [].
  - intros a b [Hp <-]. split; simpl in *; [by symmetry|by destruct a].
  - intros a b c [Hp <-] [Hq <-]. simpl in *. split; [by etrans|done].
Qed.
#[export] Instance key_equivalence : Equivalence (≡@{ArtifactKey}).
Proof.
  split.
  - intros []; unfold equiv, key_equiv; reflexivity.
  - intros [] []; unfold equiv, key_equiv; intros Heq; first [done|by symmetry].
  - intros [] [] []; unfold equiv, key_equiv; intros H1 H2; first [done|by etrans|congruence].
Qed.

(** ** Lemmas *)
Lemma WheelKey_sorted_packs k :
  WheelKey_sorted k =
  mkWheelKey (wk_SourceDigest k) (wk_PyTag k) (wk_PlatformTag k) (wk_RuntimeDigest k)
    (sort_strings (wk_PackDigests k)) (wk_BuildFrontendVersion k)
    (wk_ConfigFlagsDigest k) (wk_RepairToolVersion k) (wk_RepairPolicyRulesHash k).
Proof.
  unfold WheelKey_sorted. case_decide as Hlen; [done|].
  destruct k as [? ? ? ? [|d [|]] ? ? ? ?]; [done|done|simpl in Hlen; lia].
Qed.

Lemma WheelKey_sorted_equiv a b :
  WheelKey_sorted a = WheelKey_sorted b ↔ wheel_key_equiv a b.
Proof.
  rewrite !WheelKey_sorted_packs. unfold wheel_key_equiv. split.
  - intros Heq. destruct a as [a1 a2 a3 a4 la a5 a6 a7 a8], b as [b1 b2 b3 b4 lb b5 b6 b7 b8].
    simpl in *. injection Heq as -> -> -> -> Hs -> -> -> ->. split; [|done].
    by rewrite <-(sort_strings_perm la), <-(sort_strings_perm lb), Hs.
  - intros [Hp <-]; simpl. f_equal. by apply sort_strings_unique.
Qed.

(** An optional field is read back from the fields, when no later field has its name. *)
Definition lacks (name : string) (l : list (string * jval)) : Prop := name ∉ l.*1.

Lemma lacks_omit name m v l : name ≠ m → lacks name l → lacks name (omit_empty m v ++ l).
Proof. unfold lacks, omit_empty. intros. case_decide; simpl; [done|]. by apply not_elem_of_cons. Qed.
Lemma lacks_nil name : lacks name [].
Proof. apply not_elem_of_nil. Qed.

Lemma omit_empty_inj name v w l m :
  lacks name l → lacks name m →
  omit_empty name v ++ l = omit_empty name w ++ m → v = w ∧ l = m.
Proof.
  unfold omit_empty, lacks. intros Hl Hm. repeat case_decide; simpl; intros; simplify_eq; try done.
  - by destruct Hl; left.
  - by destruct Hm; left.
Qed.
Lemma omit_empty_list_inj name v w l m :
  lacks name l → lacks name m →
  omit_empty_list name v ++ l = omit_empty_list name w ++ m → v = w ∧ l = m.
Proof.
  unfold omit_empty_list, lacks. intros Hl Hm.
  destruct v, w; simpl; intros; simplify_eq; try done.
  - by destruct Hl; left.
  - by destruct Hm; left.
Qed.

Ltac lacks := repeat (apply lacks_omit; [discriminate|]); apply lacks_nil.
Ltac omitted :=
  repeat match goal with
  | H : omit_empty _ _ ++ _ = _ |- _ => apply omit_empty_inj in H as [? H]; [|lacks..]
  | H : omit_empty_list _ _ ++ _ = _ |- _ => apply omit_empty_list_inj in H as [? H]; [|lacks..]
  end.
(** Close the optional tail with the empty list, then peel it field by field. *)
Ltac fields_inj :=
  let Heq := fresh in
  intros [] [] Heq; apply (f_equal (λ l, l ++ [])) in Heq; revert Heq;
  rewrite <-!(assoc_L (++)); simpl; intros; simplify_eq; omitted; congruence.

Lemma RuntimeKey_fields_inj : Inj (=) (=) RuntimeKey_fields.
Proof. unfold RuntimeKey_fields, field. fields_inj. Qed.
Lemma PackKey_fields_inj : Inj (=) (=) PackKey_fields.
Proof. unfold PackKey_fields, field. fields_inj. Qed.
Lemma RepairKey_fields_inj : Inj (=) (=) RepairKey_fields.
Proof. unfold RepairKey_fields, field. fields_inj. Qed.
Lemma WheelKey_fields_inj : Inj (=) (=) WheelKey_fields.
Proof. unfold WheelKey_fields, field. fields_inj. Qed.

Lemma key_fields_iff a b : key_fields a = key_fields b ↔ a ≡ b.
Proof.
  split.
  - destruct a as [a|a|a|a], b as [b|b|b|b]; simpl; intros Heq; try discriminate Heq.
    + by apply RuntimeKey_fields_inj in Heq as ->.
    + by apply PackKey_fields_inj in Heq as ->.
    + by apply WheelKey_fields_inj, WheelKey_sorted_equiv in Heq.
    + by apply RepairKey_fields_inj in Heq as ->.
  - destruct a as [a|a|a|a], b as [b|b|b|b]; unfold equiv, key_equiv; intros Heq; simplify_eq;
      try done.
    simpl. f_equal. by apply WheelKey_sorted_equiv.
Qed.

Lemma key_digest_fields `{Sha256} k : key_digest k = digestStruct (key_fields k).
Proof. by destruct k. Qed.

#[export] Instance key_digest_proper `{Sha256} : Proper ((≡) ==> (=)) key_digest.
Proof. intros a b Heq. rewrite !key_digest_fields. f_equal. by apply key_fields_iff. Qed.
