(* ===== verification/Pack.v ===== *)
(** [go-worker/internal/pack/catalog.go]: the catalog of system packs and the
    rules that select packs for a package. *)
From S2P Require Import Prelude.
From S2P Require Import GoStr.
Local Open Scope string_scope.
Local Open Scope list_scope.

Record PackDef := mkPackDef {
  pd_Name : string; pd_Version : string; pd_RecipeDigest : string; pd_Note : string }.
#[export] Instance PackDef_eq_dec : EqDecision PackDef.
Proof. solve_decision. Defined.
Record Rule := mkRule {
  rl_PackagePattern : string; rl_Backend : string; rl_Packs : list string; rl_Note : string }.
Record Catalog := mkCatalog { cat_Packs : gmap string PackDef; cat_Rules : list Rule }.

(** A rule applies: the pattern is a case-insensitive substring of the package,
    and the backend, when the rule has one, is equal up to case. *)
Definition rule_matches (pkg backend : string) (r : Rule) : bool :=
  (bool_decide (rl_PackagePattern r = "") ||
   Contains (ToLower pkg) (ToLower (rl_PackagePattern r))) &&
  (bool_decide (rl_Backend r = "") ||
   bool_decide (ToLower backend = ToLower (rl_Backend r))).

(** The names the loops visit, in order, and the [seen] filter over them. *)
Definition rule_names (c : Catalog) (pkg backend : string) : list string :=
  concat (rl_Packs <$> filter (λ r, rule_matches pkg backend r = true) (cat_Rules c)).
Definition select_step (c : Catalog) (name : string) : option (string * (string * PackDef)) :=
  def ← cat_Packs c !! name; Some (name, (name, def)).
Definition Select (c : Catalog) (pkg backend : string) : list PackDef :=
  snd <$> dedupe (select_step c) ∅ (rule_names c pkg backend).

(** ** Lemmas *)
Lemma select_step_key c x k b : select_step c x = Some (k, b) → b.1 = k.
Proof. unfold select_step. intros. by simplify_option_eq. Qed.

Lemma Select_elem c pkg backend def :
  def ∈ Select c pkg backend →
  ∃ name, cat_Packs c !! name = Some def ∧ name ∈ rule_names c pkg backend.
Proof.
  unfold Select. rewrite list_elem_of_fmap. intros ([name d] & -> & Hin).
  apply (dedupe_elem _ fst) in Hin as (_ & x & Hx & Hs); [|apply select_step_key].
  unfold select_step in Hs. simplify_option_eq. eauto.
Qed.

Lemma Select_complete c pkg backend name def :
  name ∈ rule_names c pkg backend → cat_Packs c !! name = Some def →
  def ∈ Select c pkg backend.
Proof.
  intros Hin Hdef. unfold Select. rewrite list_elem_of_fmap.
  destruct (dedupe_complete (select_step c) fst (select_step_key c) ∅
    (rule_names c pkg backend) name name (name, def)) as ([n d] & Hd & Hk); [done| |set_solver|].
  { unfold select_step. by rewrite Hdef. }
  simpl in Hk; subst n. pose proof (dedupe_elem _ fst (select_step_key c) _ _ _ Hd) as (_ & x & _ & Hs).
  unfold select_step in Hs. simplify_option_eq. by exists (name, def).
Qed.

Lemma rule_names_elem c pkg backend name :
  name ∈ rule_names c pkg backend ↔
  ∃ r, r ∈ cat_Rules c ∧ rule_matches pkg backend r = true ∧ name ∈ rl_Packs r.
Proof.
  unfold rule_names. rewrite list_elem_of_In, in_concat. setoid_rewrite <-list_elem_of_In.
  setoid_rewrite list_elem_of_fmap. setoid_rewrite list_elem_of_filter. naive_solver.
Qed.
