(* ===== verification/Http.v ===== *)
(** The two services of the standard library every component reaches the outside
    world through: an HTTP client, and the files of the worker's machine.

    The client is a parameter: [do_req] is what the other side answers, on a
    world [W] it may change.  [http_do] adds what [net/http] documents about a
    request's context: a request whose context is already cancelled is not sent,
    and fails with the context's error. *)
From S2P Require Import Prelude.
From S2P Require Import GoStr.
Local Open Scope string_scope.
Local Open Scope list_scope.

(** ** Contexts *)
Record Ctx := mkCtx { ctx_cancelled : bool }.
Definition live : Ctx := mkCtx false.
Definition cancelled : Ctx := mkCtx true.

(** ** HTTP *)
Record HttpReq := mkReq {
  rq_Method : string; rq_URL : string; rq_Headers : list (string * string); rq_Body : string }.
Record HttpResp := mkResp { rs_Status : Z; rs_Location : string; rs_Body : string }.

Class HttpClient (W : Type) := {
  url_ok : string → bool;  (* http.NewRequestWithContext accepts the URL *)
  do_req : HttpReq → W → result HttpResp * W }.

Section http.
Context {W} `{HttpClient W}.

Definition http_do (ctx : Ctx) (r : HttpReq) (w : W) : result HttpResp * W :=
  if ctx_cancelled ctx then (Err "context canceled", w) else do_req r w.

(** Create the request, then send it. *)
Definition http_call (ctx : Ctx) (meth url : string) (headers : list (string * string))
    (body : string) (w : W) : result HttpResp * W :=
  if url_ok url then http_do ctx (mkReq meth url headers body) w
  else (Err ("parse " +:+ url), w).

Lemma http_call_cancelled meth url headers body w :
  http_call cancelled meth url headers body w =
    (Err (if url_ok url then "context canceled" else "parse " +:+ url), w).
Proof. unfold http_call. by destruct (url_ok url). Qed.
End http.

(** Basic authentication is sent when either part is set. *)
Definition basic_auth (user pass : string) : list (string * string) :=
  if decide (user = "" ∧ pass = "") then [] else [("Authorization", "Basic " +:+ base64 (user +:+ ":" +:+ pass))].

(** ** Files

    A file system is a map from paths to contents.  Whether the process may
    create a path is the machine's answer, [fs_writable], and so is whether it can
    list a directory, [fs_listable]. *)
Class Machine := { fs_writable : string → bool; fs_listable : string → bool }.
Abbreviation Files := (gmap string string).

(** [filepath.Join] of two clean parts. *)
Definition path_join (a b : string) : string :=
  if decide (a = "") then b else a +:+ "/" +:+ b.

Definition write_file `{Machine} (path data : string) (fs : Files) : result Files :=
  if fs_writable path then Ok (<[path := data]> fs) else Err ("open " +:+ path).
Definition read_file (path : string) (fs : Files) : result string :=
  match fs !! path with Some d => Ok d | None => Err ("open " +:+ path) end.

(** The files below a directory, and [os.ReadDir]: the names of the files directly
    in it, sorted (directories are left out: every reader skips them). *)
Definition in_dir (dir path : string) : bool := HasPrefix path (dir +:+ "/").
Definition files_in (dir : string) (fs : Files) : list string :=
  filter (λ p, in_dir dir p = true) (fst <$> map_to_list fs).
Definition read_dir `{Machine} (dir : string) (fs : Files) : result (list string) :=
  if fs_listable dir then
    Ok (sort_strings (filter (λ n, Contains n "/" = false)
          ((λ p, str_drop (String.length dir + 1) p) <$> files_in dir fs)))
  else Err ("open " +:+ dir).

Lemma read_write_file `{Machine} path data fs fs' :
  write_file path data fs = Ok fs' → read_file path fs' = Ok data.
Proof.
  unfold write_file, read_file. case_match; intros; simplify_eq. by rewrite lookup_insert_eq.
Qed.

(** [archive/zip]: the names of an archive's files in order, each with the bytes
    [ReadFrom] gets from it, or [None] when the entry does not open. *)
Class Zip := { zip_read : string → result (list (string * option string)) }.
