(* ===== verification/Cas.v ===== *)
(** [go-worker/internal/cas]: the stores the planner asks for artifacts, and the
    client that downloads and uploads them in an OCI registry.

    [CasStore] is the interface [cas.Store] promises the planner; [NullStore],
    [MemoryStore] and [ZotStore] are its implementations.  The planner's
    theorems are proved against the interface. *)
From S2P Require Import Prelude.
From S2P Require Import GoStr.
From S2P Require Import Http.
From S2P Require Import Artifact.
From Stdlib Require Import Ascii.
Local Open Scope string_scope.
Local Open Scope list_scope.

(** ** The interface: [Has] returns the answer and the error *)
Class CasStore := { Has : ID → bool * option string }.

(** The planner reads [ok, _ := store.Has(ctx, id)]: the error is dropped. *)
Definition has `{CasStore} (id : ID) : bool := (Has id).1.

Definition NullStore : CasStore := {| Has _ := (false, None) |}.

(** ** MemoryStore: the set of digests added so far *)
Record MemoryStore := mkMemoryStore { ms_items : gset string }.
Definition NewMemoryStore : MemoryStore := mkMemoryStore ∅.
Definition MemoryStore_Has (m : MemoryStore) (id : ID) : bool * option string :=
  (bool_decide (id_Digest id ∈ ms_items m), None).
Definition MemoryStore_Add (m : MemoryStore) (id : ID) : MemoryStore :=
  mkMemoryStore ({[id_Digest id]} ∪ ms_items m).
Definition MemoryStore_store (m : MemoryStore) : CasStore := {| Has := MemoryStore_Has m |}.

Lemma MemoryStore_Has_Add m a b :
  (MemoryStore_Has (MemoryStore_Add m a) b).1 =
    bool_decide (id_Digest a = id_Digest b) || (MemoryStore_Has m b).1.
Proof.
  unfold MemoryStore_Has, MemoryStore_Add; simpl. symmetry.
  repeat case_bool_decide; simpl; set_solver.
Qed.

(** ** The registry client's configuration (the fields of [ZotStore], [Fetcher]
    and [Pusher]) *)
Record Registry := mkRegistry {
  rg_BaseURL : string; rg_Repo : string; rg_Username : string; rg_Password : string }.

Definition registry_repo (g : Registry) : string :=
  let repo := Trim (rg_Repo g) "/"%char in if decide (repo = "") then "artifacts" else repo.
Definition registry_base (g : Registry) : string := TrimRight (rg_BaseURL g) "/"%char.
Definition manifest_url (g : Registry) (digest : string) : string :=
  registry_base g +:+ "/v2/" +:+ registry_repo g +:+ "/manifests/" +:+ digest.
Definition blob_url (g : Registry) (digest : string) : string :=
  registry_base g +:+ "/v2/" +:+ registry_repo g +:+ "/blobs/" +:+ digest.
Definition uploads_url (g : Registry) : string :=
  registry_base g +:+ "/v2/" +:+ registry_repo g +:+ "/blobs/uploads/".

Section registry.
Context {W} `{HttpClient W}.

(** [ZotStore.Has]: a HEAD on the manifest of the digest. *)
Definition Zot_Has (g : Registry) (ctx : Ctx) (id : ID) (w : W) : bool * option string * W :=
  if decide (rg_BaseURL g = "" ∨ id_Digest id = "") then (false, None, w)
  else
    let url := manifest_url g (id_Digest id) in
    let headers := ("Accept", "application/vnd.oci.image.manifest.v1+json")
                   :: basic_auth (rg_Username g) (rg_Password g) in
    match http_call ctx "HEAD" url headers "" w with
    | (Err e, w') => (false, Some e, w')
    | (Ok resp, w') =>
      if decide (rs_Status resp = 200)%Z then (true, None, w')
      else if decide (rs_Status resp = 404)%Z then (false, None, w')
      else (false, Some ("zot store unexpected status " +:+ itoa (rs_Status resp)
                         +:+ " for " +:+ url), w')
    end.

(** [Fetcher.Fetch]: GET the blob and write it to [destPath]. *)
Definition Fetch `{Machine} (g : Registry) (ctx : Ctx) (id : ID) (destPath : string)
    (w : W) (fs : Files) : result unit * W * Files :=
  if decide (rg_BaseURL g = "" ∨ id_Digest id = "")
  then (Err "missing base URL or digest", w, fs)
  else
    match http_call ctx "GET" (blob_url g (id_Digest id))
            (basic_auth (rg_Username g) (rg_Password g)) "" w with
    | (Err e, w') => (Err e, w', fs)
    | (Ok resp, w') =>
      if decide (rs_Status resp = 200)%Z then
        match write_file destPath (rs_Body resp) fs with
        | Ok fs' => (Ok tt, w', fs')
        | Err e => (Err e, w', fs)
        end
      else (Err ("fetch " +:+ id_Digest id +:+ ": unexpected status "
                 +:+ itoa (rs_Status resp)), w', fs)
    end.

(** The URL the content is PUT to, from the Location the registry returned. *)
Definition put_url (g : Registry) (loc digest : string) : string :=
  let uploadURL := if HasPrefix loc "/" then registry_base g +:+ loc else loc in
  if Contains uploadURL "?" then uploadURL +:+ "&digest=" +:+ digest
  else uploadURL +:+ "?digest=" +:+ digest.

(** [Pusher.Push]: start an upload, then PUT the content under the digest. *)
Definition Push (g : Registry) (ctx : Ctx) (id : ID) (content mediaType : string) (w : W)
    : result string * W :=
  if decide (rg_BaseURL g = "" ∨ id_Digest id = "")
  then (Err "missing base URL or digest", w)
  else
    let auth := basic_auth (rg_Username g) (rg_Password g) in
    match http_call ctx "POST" (uploads_url g) auth "" w with
    | (Err e, w1) => (Err e, w1)
    | (Ok init, w1) =>
      if decide (rs_Status init = 202)%Z then
        if decide (rs_Location init = "") then (Err "upload location missing", w1)
        else
          let headers := (if decide (mediaType = "") then []
                          else [("Content-Type", mediaType)]) ++ auth in
          match http_call ctx "PUT" (put_url g (rs_Location init) (id_Digest id))
                  headers content w1 with
          | (Err e, w2) => (Err e, w2)
          | (Ok put, w2) =>
            if decide (rs_Status put = 201)%Z then (Ok (blob_url g (id_Digest id)), w2)
            else (Err ("push status " +:+ itoa (rs_Status put)), w2)
          end
      else (Err ("init upload status " +:+ itoa (rs_Status init)), w1)
    end.

Lemma Push_cancelled g id content mediaType w :
  is_ok (Push g cancelled id content mediaType w).1 = false ∧
  (Push g cancelled id content mediaType w).2 = w.
Proof. unfold Push. case_decide; [done|]. by rewrite http_call_cancelled. Qed.

Lemma Fetch_writes `{Machine} g ctx id dest w fs w' fs' :
  Fetch g ctx id dest w fs = (Ok tt, w', fs') →
  ∃ data, fs' = <[dest := data]> fs.
Proof.
  unfold Fetch, write_file. intros Hf. repeat (case_match; simplify_eq); eauto.
Qed.
End registry.
