(* ===== verification/Parse.v ===== *)
(** The parsers of the three places that read package metadata: the planner
    ([go-worker/internal/plan/plan.go]), the pending-input planner
    ([go-worker/internal/service/planner.go]) and the upload handlers
    ([go-control-plane/internal/api/handlers.go]).  They are copies of each other
    with small differences; the differences are kept (modules [Plan], [Service]
    and [Api]) and the code they share is at the top. *)
From S2P Require Import Prelude.
From S2P Require Import GoStr.
From S2P Require Import Http.
From Stdlib Require Import Ascii.
Local Open Scope string_scope.
Local Open Scope list_scope.

Record DepSpec := mkDepSpec { ds_Name : string; ds_Version : string }.
#[export] Instance DepSpec_eq_dec : EqDecision DepSpec.
Proof. solve_decision. Defined.

(** [wheelInfo], [wheelMeta] and [pendingWheel]: what a wheel's file name says. *)
Record WheelInfo := mkWheelInfo {
  wi_Name : string; wi_Version : string; wi_PythonTag : string;
  wi_AbiTag : string; wi_PlatformTag : string }.
#[export] Instance WheelInfo_eq_dec : EqDecision WheelInfo.
Proof. solve_decision. Defined.

Definition newline : ascii := ascii_of_N 10.

(** ** Shared code *)
Definition normalizeName (name : string) : string :=
  if decide (name = "") then "" else ToLower (ReplaceAll (TrimSpace name) "_"%char "-").

(** The last five dash-separated parts of the base name, the name before them. *)
Definition parseWheelFilename (name : string) : result WheelInfo :=
  let base := TrimSuffix name ".whl" in
  let parts := Split base "-"%char in
  let n := length parts in
  if decide (n < 5) then Err ("invalid wheel filename: " +:+ name)
  else
    let at_ i := default "" (parts !! i) in
    let platform := at_ (n - 1) in
    let abi := at_ (n - 2) in
    let py := at_ (n - 3) in
    let version := at_ (n - 4) in
    let pkgParts := take (n - 4) parts in
    let pkg := ReplaceAll (Join pkgParts "-") "_"%char "-" in
    Ok (mkWheelInfo pkg version py abi platform).

(** The first operator of [ops] that occurs in [line] at a position above 0. *)
Fixpoint find_op (ops : list string) (line : string) : option (string * nat) :=
  match ops with
  | [] => None
  | op :: ops' =>
    match Index line op with
    | Some (S i) => Some (op, S i)
    | _ => find_op ops' line
    end
  end.

(** The lines of a requirements file that are read, without inline comments. *)
Definition requirement_line (raw : string) : option string :=
  let line := TrimSpace raw in
  if bool_decide (line = "") || HasPrefix line "#" then None
  else if HasPrefix line "-c " || HasPrefix line "--constraint" then None
  else Some (match Index line " #" with
             | Some idx => TrimSpace (str_take idx line)
             | None => line
             end).

(** Name and version of a line; the name is dropped when it normalizes to "". *)
Definition named_spec (nv : string * string) : option DepSpec :=
  let name := normalizeName (nv.1) in
  if decide (name = "") then None else Some (mkDepSpec name (nv.2)).

Definition split_requirement (line : string) : string * string :=
  match find_op ["=="; ">="; "~="] line with
  | Some (op, idx) =>
    let version := str_drop idx line in
    (TrimSpace (str_take idx line),
     if decide (op = "==") then TrimPrefix version "==" else version)
  | None => (line, "")
  end.

Definition parse_lines (split : string → string * string) (text : string) : list DepSpec :=
  omap (λ raw, line ← requirement_line raw; named_spec (split line)) (Split text newline).

Definition has_version_op (spec : string) : bool :=
  HasPrefix spec "==" || HasPrefix spec ">=" || HasPrefix spec "~=".

(** The value of a Requires-Dist line, without the environment marker. *)
Definition requires_dist_value (line : string) : option string :=
  if HasPrefix (ToLower (TrimSpace line)) "requires-dist:" then
    match SplitN2 line ":"%char with
    | [_; v] =>
      let val := TrimSpace v in
      Some (match Index val ";" with Some semi => TrimSpace (str_take semi val) | None => val end)
    | _ => None
    end
  else None.

(** The text in the parentheses that start at [idx]. *)
Definition paren_spec (raw : string) (idx : nat) : string :=
  TrimSpace (TrimSuffix (TrimPrefix (TrimSpace (str_drop idx raw)) "(") ")").

(** ** The planner's parsers (plan.go) *)
Module Plan.
Definition parseRequirementsText : string → list DepSpec := parse_lines split_requirement.

(** [loadRequirements]: no file, no requirements. *)
Definition loadRequirements (fs : Files) (inputDir path : string) : list DepSpec :=
  let reqPath := if decide (path = "") then path_join inputDir "requirements.txt" else path in
  match read_file reqPath fs with Ok data => parseRequirementsText data | Err _ => [] end.

(** [loadConstraints]: every constraint line; a later line for a name wins. *)
Definition constraint_line (raw : string) : option (string * string) :=
  let line := TrimSpace raw in
  if bool_decide (line = "") || HasPrefix line "#" then None
  else
    let '(name, version) :=
      match find_op ["=="; ">="; "~="] line with
      | Some (_, idx) => (TrimSpace (str_take idx line), TrimPrefix (str_drop idx line) "==")
      | None => (line, "")
      end in
    let name := normalizeName name in
    if decide (name = "") then None else Some (name, version).
Definition loadConstraints (fs : Files) (path : string) : gmap string string :=
  if decide (path = "") then ∅
  else match read_file path fs with
       | Err _ => ∅
       | Ok data => fill_map (omap constraint_line (Split data newline))
       end.

(** One Requires-Dist value: parentheses, then white space, then an inline
    operator; extras are cut from the name. *)
Definition split_requires (raw : string) : string * string :=
  let '(name, version) :=
    match Index raw "(" with
    | Some idx =>
      let spec := paren_spec raw idx in
      (TrimSpace (str_take idx raw), if has_version_op spec then spec else "")
    | None => (raw, "")
    end in
  let '(name, version) :=
    if decide (version = "") then
      match Fields raw with
      | f0 :: f1 :: _ =>
        let spec := TrimSpace f1 in (f0, if has_version_op spec then spec else version)
      | _ => (name, version)
      end
    else (name, version) in
  let '(name, version) :=
    if decide (version = "") then
      match find_op ["=="; ">="; "~="] raw with
      | Some (_, idx) => (TrimSpace (str_take idx raw), str_drop idx raw)
      | None => (name, version)
      end
    else (name, version) in
  match Index name "[" with
  | Some br => (TrimSpace (str_take br name), version)
  | None => (name, version)
  end.
Definition parseRequiresDist (meta : string) : list DepSpec :=
  omap (λ line,
    raw ← requires_dist_value line;
    let '(name, version) := split_requires raw in
    let name := ToLower (ReplaceAll (TrimSpace name) "_"%char "-") in
    if decide (name = "") then None else Some (mkDepSpec name version)) (Split meta newline).

Definition isCompatible (w : WheelInfo) (targetPy targetPlatform : string) : bool :=
  let pyOK := bool_decide (wi_PythonTag w = targetPy) || HasPrefix (wi_PythonTag w) "py3"
              || HasPrefix (wi_PythonTag w) "cp3" in
  let platOK := bool_decide (wi_PlatformTag w = "any")
                || bool_decide (wi_PlatformTag w = targetPlatform) in
  let abiOK := bool_decide (wi_AbiTag w = "none") || HasPrefix (wi_AbiTag w) "cp3" in
  pyOK && platOK && abiOK.

Definition normalizePyTag (pythonVersion : string) : string :=
  if HasPrefix pythonVersion "cp" then pythonVersion
  else "cp" +:+ ReplaceAll pythonVersion "."%char "".
End Plan.

(** ** The pending-input planner's parsers (planner.go) *)
Module Service.
(** A direct reference [name @ url], else the first of six operators. *)
Definition split_requirement (line : string) : string * string :=
  match Index line "@" with
  | Some (S at_) => (TrimSpace (str_take (S at_) line), TrimSpace (str_drop (S at_) line))
  | _ =>
    match find_op ["=="; ">="; "<="; "~="; "<"; ">"] line with
    | Some (op, idx) =>
      let version := TrimSpace (str_drop idx line) in
      (TrimSpace (str_take idx line),
       if decide (op = "==") then TrimPrefix version "==" else version)
    | None => (line, "")
    end
  end.
(** [normalizeReqName] and [parseWheelFilename] repeat the planner's. *)
Definition normalizeReqName : string → string := normalizeName.
Definition parseWheelFilename : string → result WheelInfo := parseWheelFilename.
Definition parseRequirementsBytes : string → list DepSpec := parse_lines split_requirement.

Definition split_requires (raw : string) : string * string :=
  match Index raw "(" with
  | Some idx =>
    let spec := paren_spec raw idx in
    (TrimSpace (str_take idx raw), if has_version_op spec then TrimPrefix spec "==" else "")
  | None =>
    match find_op ["=="; ">="; "~="] raw with
    | Some (_, idx) =>
      (TrimSpace (str_take idx raw), TrimPrefix (TrimSpace (str_drop idx raw)) "==")
    | None => (raw, "")
    end
  end.
Definition parseRequiresDist (meta : string) : list DepSpec :=
  omap (λ line, raw ← requires_dist_value line; named_spec (split_requires raw))
    (Split meta newline).
End Service.

(** ** The upload handlers' parsers and checks (handlers.go) *)
Module Api.
Definition parseRequirements : string → list DepSpec := parse_lines split_requirement.

(** [normalizeName] and [parseWheelFilename] repeat the planner's,
    [parseRequiresDist] the pending-input planner's. *)
Definition normalizeName : string → string := normalizeName.
Definition parseWheelFilename : string → result WheelInfo := parseWheelFilename.

Definition parseRequiresDist : string → list DepSpec := Service.parseRequiresDist.

Definition bad_byte (b : ascii) : bool :=
  let n := byte_N b in
  ((n <? 9) || (n =? 11) || (n =? 12) || (126 <? n))%N.

Fixpoint lint_lines (i : nat) (lines : list string) : result unit :=
  match lines with
  | [] => Ok tt
  | l :: lines' =>
    if decide (800 < String.length l)
    then Err ("line " +:+ itoa (Z.of_nat (S i)) +:+ " too long (>800 chars)")
    else if str_forall (λ b, negb (bad_byte b)) l then lint_lines (S i) lines'
    else Err ("invalid character on line " +:+ itoa (Z.of_nat (S i)))
  end.

Definition lintRequirements (data : string) : result unit :=
  if decide (String.length data = 0) then Err "empty file"
  else if decide (Z.of_nat (String.length data) > 128 * 1024)%Z
  then Err "file too large (>128KB)"
  else if negb (str_forall (λ b, negb (bool_decide (byte_N b = 0%N))) data)
  then Err "file contains null bytes"
  else
    let lines := Split data newline in
    if decide (2000 < length lines) then Err "too many lines (>2000)"
    else lint_lines 0 lines.

Definition looksLikeHTMLOrScript (data : string) : bool :=
  let sample := ToLower data in
  let sample := if decide (4096 < String.length sample) then str_take 4096 sample else sample in
  existsb (Contains sample) ["<script"; "<html"; "<?php"; "<iframe"; "javascript:"].
End Api.

(** ** Names *)
Definition name_byte (c : ascii) : ascii :=
  lower_byte (if bool_decide (c = "_"%char) then "-"%char else c).

Lemma normalizeName_map name : normalizeName name = str_map name_byte (TrimSpace name).
Proof.
  unfold normalizeName. case_decide as Hn; [by subst|].
  rewrite ToLower_map, ReplaceAll_map, str_map_compose. done.
Qed.

Lemma name_byte_space c : is_space (name_byte c) = is_space c.
Proof. unfold name_byte. rewrite lower_byte_space. by case_bool_decide; subst. Qed.

Lemma name_byte_idem c : name_byte (name_byte c) = name_byte c.
Proof. revert c. apply byte_forall. by intros [] [] [] [] [] [] [] []. Qed.

Lemma normalizeName_fixed name : normalizeName (normalizeName name) = normalizeName name.
Proof.
  rewrite !normalizeName_map. rewrite TrimSpace_map by apply name_byte_space.
  rewrite TrimSpace_idem, str_map_compose. apply str_map_ext, name_byte_idem.
Qed.

(** A dependency whose name is not empty and is in normal form. *)
Definition normal_spec (d : DepSpec) : Prop :=
  ds_Name d ≠ "" ∧ normalizeName (ds_Name d) = ds_Name d.

Lemma named_spec_normal nv d : named_spec nv = Some d → normal_spec d.
Proof.
  unfold named_spec. intros. simplify_option_eq. split; [done|apply normalizeName_fixed].
Qed.

Lemma parse_lines_normal split text : Forall normal_spec (parse_lines split text).
Proof.
  apply Forall_forall. unfold parse_lines. intros d (raw & _ & Hd)%list_elem_of_omap.
  destruct (requirement_line raw); [|done]. by eapply named_spec_normal.
Qed.

Lemma plan_requires_normal meta : Forall normal_spec (Plan.parseRequiresDist meta).
Proof.
  apply Forall_forall. unfold Plan.parseRequiresDist.
  intros d (line & _ & Hd)%list_elem_of_omap. destruct (requires_dist_value line); [|done].
  simpl in Hd. destruct (Plan.split_requires s) as [name version].
  rewrite ToLower_map, ReplaceAll_map, str_map_compose in Hd. case_decide as Hn; simplify_eq.
  split; [done|]. simpl.
  change (str_map _ (TrimSpace name)) with (str_map name_byte (TrimSpace name)).
  by rewrite <-normalizeName_map, normalizeName_fixed.
Qed.

(** Whatever text is parsed, by any of the program's six parsers of requirements
    and of wheel metadata, each dependency found has a name that is not empty and
    is in normal form: trimmed, lower case and without underscores. *)
Theorem parsed_specs_normal text :
  Forall normal_spec (Plan.parseRequirementsText text) ∧ Forall normal_spec (Plan.parseRequiresDist text) ∧
  Forall normal_spec (Service.parseRequirementsBytes text) ∧ Forall normal_spec (Service.parseRequiresDist text) ∧
  Forall normal_spec (Api.parseRequirements text) ∧ Forall normal_spec (Api.parseRequiresDist text).
Proof.
  assert (Hdist : Forall normal_spec (Service.parseRequiresDist text)).
  { apply Forall_forall. intros d (line & _ & Hd)%list_elem_of_omap. destruct (requires_dist_value line); [|done].
    by eapply named_spec_normal. }
  split_and!; [apply parse_lines_normal|apply plan_requires_normal|apply parse_lines_normal|done|apply parse_lines_normal|done].
Qed.
