(* ===== verification/PlanTypes.v ===== *)
(** The data the planner, the worker and the control plane exchange: plan nodes,
    DAG nodes, snapshots and hints ([plan/plan.go], [plan/dag.go], [plan/hints.go]). *)
From S2P Require Import Prelude.
From S2P Require Import Artifact.
Local Open Scope string_scope.
Local Open Scope list_scope.

Record HintMatch := mkHintMatch {
  hm_ID : string; hm_Pattern : string; hm_Note : string; hm_Reason : string;
  hm_Tags : list string; hm_Recipes : gmap string (list string) }.
Record RecipeMatch := mkRecipeMatch { rm_Name : string; rm_Version : string; rm_Reason : string }.
#[export] Instance RecipeMatch_eq_dec : EqDecision RecipeMatch.
Proof. solve_decision. Defined.

(** [FlatNode]: one package to build or to reuse. *)
Record FlatNode := mkFlatNode {
  fn_Name : string; fn_Version : string; fn_PythonVersion : string; fn_PythonTag : string;
  fn_PlatformTag : string; fn_Action : string;
  fn_Hints : list HintMatch; fn_Recipes : list RecipeMatch }.

(** A value of [map[string]any]: the planner writes strings; a decoded plan may
    hold anything. *)
Inductive any := AnyString (s : string) | AnyOther.
Definition as_string (v : option any) : option string :=
  match v with Some (AnyString s) => Some s | _ => None end.
(** [s, _ := v.(string)]. *)
Definition string_or_empty (v : option any) : string := default "" (as_string v).

Inductive NodeType := NodeRuntime | NodePack | NodeWheel | NodeRepair.
#[export] Instance NodeType_eq_dec : EqDecision NodeType.
Proof. solve_decision. Defined.

(** [DAGNode]: a content-addressed artifact and what it is made from. *)
Record DAGNode := mkDAGNode {
  dn_ID : ID; dn_Type : NodeType; dn_Inputs : list ID;
  dn_Metadata : gmap string any; dn_Action : string }.

Definition meta_of (l : list (string * string)) : gmap string any :=
  list_to_map (prod_map id AnyString <$> l).

Record CASInfo := mkCASInfo { ci_RegistryURL : string; ci_RegistryRepo : string }.
Record Snapshot := mkSnapshot {
  sn_RunID : string; sn_Plan : list FlatNode; sn_DAG : list DAGNode; sn_CAS : option CASInfo }.

(** [Hint]: an entry of the hint catalog. *)
Record Hint := mkHint {
  h_ID : string; h_Pattern : string; h_Recipes : gmap string (list string); h_Note : string;
  h_Tags : list string; h_Severity : string; h_AppliesTo : gmap string (list string);
  h_Confidence : string; h_Examples : list string }.
