(* ===== verification/Planner.v ===== *)
(** [computeWithResolverInputs] of [go-worker/internal/plan/plan.go]: from the
    parsed requirements and wheels to the flat plan and the artifact DAG.

    The function is one loop over the requirements, one over the wheels and one
    over the dependencies seen so far; its local variables are the fields of
    [PlanState], its closures [addRepair], [addPack] and the block that plans one
    wheel ([emitWheel], which the source repeats in each of the five places that
    plan a wheel) are functions of that state.  [addPack] recurses on the packs a
    pack depends on with no bound of its own: it takes fuel here, and [None] is
    the run that does not return. *)
From S2P Require Import Prelude.
From S2P Require Import GoStr.
From S2P Require Import Artifact.
From S2P Require Import Pack.
From S2P Require Import Http.
From S2P Require Import Cas.
From S2P Require Import Parse.
From S2P Require Import PlanTypes.
Local Open Scope string_scope.
Local Open Scope list_scope.

(** ** Inputs *)
Record WheelInput := mkWheelInput {
  wh_Filename : string; wh_Info : WheelInfo; wh_Digest : string; wh_Requires : list DepSpec }.
Record Options := mkOptions {
  op_UpgradeStrategy : string; op_MaxDeps : Z; op_PackageOverrides : gmap string string;
  op_ConstraintsPath : string; op_PackCatalog : option Catalog }.
(** [versionResolver]: [None] is the nil interface. *)
Definition Resolver : Type := option (string → result string).

(** ** Pack dependencies, declared by name *)
Definition pack_dependency_table : gmap string (list string) :=
  let python := ["openssl"; "libffi"; "zlib"; "xz"; "bzip2"; "sqlite"] in
  list_to_map [("openssl", ["zlib"]); ("libpng", ["zlib"]); ("freetype", ["libpng"; "jpeg"]);
    ("libxslt", ["libxml2"]); ("libxml2", ["zlib"]); ("cpython", python);
    ("cpython3.10", python); ("cpython3.11", python); ("cpython3.12", python);
    ("runtime", python); ("libjpeg-turbo", [])].
Definition packDependencies (name : string) : list string :=
  default [] (pack_dependency_table !! ToLower name).

(** ** State *)
Record PlanState := mkPlanState {
  ps_nodes : list FlatNode; ps_dagNodes : list DAGNode; ps_packSeen : gset string;
  ps_depSeen : gmap string DepSpec; ps_seen : gset string;
  ps_hasInput : bool; ps_depTruncated : bool }.

Definition with_dag (d : list DAGNode) (st : PlanState) : PlanState :=
  mkPlanState (ps_nodes st) d (ps_packSeen st) (ps_depSeen st) (ps_seen st)
    (ps_hasInput st) (ps_depTruncated st).
Definition add_dag (n : DAGNode) (st : PlanState) : PlanState := with_dag (ps_dagNodes st ++ [n]) st.
Definition add_node (n : FlatNode) (st : PlanState) : PlanState :=
  mkPlanState (ps_nodes st ++ [n]) (ps_dagNodes st) (ps_packSeen st) (ps_depSeen st)
    (ps_seen st) (ps_hasInput st) (ps_depTruncated st).
Definition mark_pack (d : string) (st : PlanState) : PlanState :=
  mkPlanState (ps_nodes st) (ps_dagNodes st) ({[d]} ∪ ps_packSeen st) (ps_depSeen st)
    (ps_seen st) (ps_hasInput st) (ps_depTruncated st).
Definition set_dep (name : string) (d : DepSpec) (st : PlanState) : PlanState :=
  mkPlanState (ps_nodes st) (ps_dagNodes st) (ps_packSeen st) (<[name := d]> (ps_depSeen st))
    (ps_seen st) (ps_hasInput st) (ps_depTruncated st).
Definition mark_seen (key : string) (st : PlanState) : PlanState :=
  mkPlanState (ps_nodes st) (ps_dagNodes st) (ps_packSeen st) (ps_depSeen st)
    ({[key]} ∪ ps_seen st) (ps_hasInput st) (ps_depTruncated st).
Definition set_hasInput (st : PlanState) : PlanState :=
  mkPlanState (ps_nodes st) (ps_dagNodes st) (ps_packSeen st) (ps_depSeen st)
    (ps_seen st) true (ps_depTruncated st).
Definition set_truncated (st : PlanState) : PlanState :=
  mkPlanState (ps_nodes st) (ps_dagNodes st) (ps_packSeen st) (ps_depSeen st)
    (ps_seen st) (ps_hasInput st) true.

Definition plan_key (name version : string) : string := name +:+ "::" +:+ version.

Section planner.
Context `{GoRuntime, Sha256, CasStore}.
Context (opts : Options) (resolver : Resolver) (constraints : gmap string string).
Context (pythonVersion platformTag : string).

Definition pyTag : string := Plan.normalizePyTag pythonVersion.

(** The action of a node the store may already hold. *)
Definition store_action (id : ID) (otherwise : string) : string :=
  if has id then "reuse" else otherwise.

Definition sourceDigest (name version : string) : string :=
  "sha256:" +:+ sha256_hex (normalizeName name +:+ "==" +:+ TrimSpace version).

(** *** Packs *)
Definition packIDForDef (def : PackDef) : ID :=
  mkID PackType (PackKey_Digest
    (mkPackKey "s390x" "" (pd_Name def) (pd_Version def) (pd_RecipeDigest def))).

Definition selectPacks (pkg : string) : list PackDef * list ID * list string :=
  match op_PackCatalog opts with
  | None => ([], [], [])
  | Some catalog =>
    let defs := sort_slice (less_by pd_Name) (Select catalog pkg "") in
    let ids := packIDForDef <$> defs in
    (defs, ids, id_Digest <$> ids)
  end.

Definition pack_node (def : PackDef) (deps : list ID) : DAGNode :=
  let id := packIDForDef def in
  mkDAGNode id NodePack deps
    (meta_of [("name", pd_Name def); ("version", pd_Version def)]) (store_action id "build").

(** [deps] pairs the state with the IDs of the dependencies found so far. *)
Fixpoint addPack (fuel : nat) (def : PackDef) (st : PlanState) : option PlanState :=
  match fuel with
  | O => None
  | S fuel' =>
    let id := packIDForDef def in
    if decide (id_Digest id ∈ ps_packSeen st) then Some st
    else
      '(st', deps) ←
        match op_PackCatalog opts with
        | None => Some (st, [])
        | Some catalog =>
          fold_opt (λ depName s,
            match cat_Packs catalog !! depName with
            | None => Some s
            | Some depDef =>
              st' ← addPack fuel' depDef s.1; Some (st', s.2 ++ [packIDForDef depDef])
            end) (packDependencies (pd_Name def)) (st, [])
        end;
      Some (mark_pack (id_Digest id) (add_dag (pack_node def deps) st'))
  end.
Definition addPackNodes (fuel : nat) (defs : list PackDef) : PlanState → option PlanState :=
  fold_opt (addPack fuel) defs.

(** *** Runtime, wheels, repairs *)
Definition rtID : ID :=
  mkID RuntimeType (RuntimeKey_Digest (mkRuntimeKey "s390x" "" pythonVersion "" "" "")).
Definition runtime_node : DAGNode :=
  mkDAGNode rtID NodeRuntime []
    (meta_of [("python_version", pythonVersion); ("python_tag", pyTag);
              ("platform_tag", platformTag)]) (store_action rtID "build").

Definition wheelID (source : string) (packDigests : list string) : ID :=
  mkID WheelType (WheelKey_Digest
    (mkWheelKey source pyTag platformTag (id_Digest rtID) packDigests "" "" "" "")).

Definition repair_node (wheel : ID) (meta : list (string * string)) : DAGNode :=
  let id := mkID RepairType (RepairKey_Digest (mkRepairKey (id_Digest wheel) "" "")) in
  mkDAGNode id NodeRepair [wheel] (meta_of meta) (store_action id "build").

Definition wheel_node (id : ID) (name version : string) (packIDs : list ID) (otherwise : string)
    : DAGNode :=
  mkDAGNode id NodeWheel (rtID :: packIDs)
    (meta_of [("name", name); ("version", version); ("python_version", pythonVersion);
              ("python_tag", pyTag); ("platform_tag", platformTag)])
    (store_action id otherwise).

(** Plan one wheel: its packs, its flat node, its DAG node and its repair.
    [flatAction] is "reuse" for an uploaded wheel that fits the target. *)
Definition emitWheel (fuel : nat) (name version source flatAction : string) (st : PlanState)
    : option PlanState :=
  let '(packDefs, packIDs, packDigests) := selectPacks name in
  st1 ← addPackNodes fuel packDefs st;
  let st2 := add_node (mkFlatNode name version pythonVersion pyTag platformTag flatAction [] [])
               st1 in
  let wID := wheelID source packDigests in
  let st3 := add_dag (wheel_node wID name version packIDs flatAction) st2 in
  Some (add_dag (repair_node wID [("wheel_name", name); ("wheel_version", version)]) st3).

(** Plan a name and version once: the [seen] guard around the block. *)
Definition emitOnce (fuel : nat) (name version source flatAction : string) (st : PlanState)
    : option PlanState :=
  let key := plan_key name version in
  if decide (key ∈ ps_seen st) then Some st
  else emitWheel fuel name version source flatAction (mark_seen key st).

(** [resolver.ResolveLatest]: the error is logged and the version kept. *)
Definition latest_or (name version : string) : string :=
  match resolver with
  | Some resolve => match resolve name with Ok ver => ver | Err _ => version end
  | None => version
  end.

(** *** The loop over the requirements *)
Definition requirement_version (spec : DepSpec) : string :=
  let version := TrimSpace (ds_Version spec) in
  if bool_decide (version = "") || HasPrefix version ">=" || HasPrefix version "~="
  then latest_or (normalizeName (ds_Name spec)) version else version.
Definition requirement_step (fuel : nat) (spec : DepSpec) (st : PlanState) : option PlanState :=
  let name := normalizeName (ds_Name spec) in
  if decide (name = "") then Some st
  else
    let version := requirement_version spec in
    let st := set_dep name (mkDepSpec name version) (set_hasInput st) in
    emitOnce fuel name version (sourceDigest name version) "build" st.

(** *** The loop over the wheels *)
Fixpoint scan_requires (requires : list DepSpec) (st : PlanState) : PlanState :=
  match requires with
  | [] => st
  | dep :: requires' =>
    if decide (ds_Name dep = "") then scan_requires requires' st
    else if decide (op_MaxDeps opts <= Z.of_nat (size (ps_depSeen st)))%Z
    then set_truncated st
    else if match ps_depSeen st !! ds_Name dep with
            | Some existing => bool_decide (ds_Version existing ≠ "")
            | None => false
            end
    then scan_requires requires' st
    else
      let version := if decide (ds_Version dep = "")
                     then latest_or (ds_Name dep) (ds_Version dep) else ds_Version dep in
      scan_requires requires' (set_dep (ds_Name dep) (mkDepSpec (ds_Name dep) version) st)
  end.

(** The override of a package, when it is set and not empty. *)
Definition override_for (name : string) : option string :=
  v ← op_PackageOverrides opts !! normalizeName name;
  if decide (v = "") then None else Some (TrimPrefix (TrimSpace v) "==").

Definition wheel_step (fuel : nat) (w : WheelInput) (st : PlanState) : option PlanState :=
  let info := wh_Info w in
  if decide (wi_Name info = "" ∨ wi_Version info = "") then Some st
  else
    let st := scan_requires (wh_Requires w) (set_hasInput st) in
    match override_for (wi_Name info) with
    | Some ver =>
      emitOnce fuel (wi_Name info) ver (sourceDigest (wi_Name info) ver) "build" st
    | None =>
      let source := if decide (wh_Digest w = "")
                    then sourceDigest (wi_Name info) (wi_Version info) else wh_Digest w in
      emitOnce fuel (wi_Name info) (wi_Version info) source
        (if Plan.isCompatible info pyTag platformTag then "reuse" else "build") st
    end.

(** *** The loop over the dependencies seen *)
Definition dep_version (dep : string) (spec : DepSpec) : string :=
  let version := default (ds_Version spec) (override_for dep) in
  let version := match constraints !! normalizeName dep with
                 | Some cv => if decide (cv = "") then version else cv
                 | None => version
                 end in
  let version := if decide (version = "") then
                   let version := latest_or dep version in
                   if decide (version = "") then "latest" else version
                 else version in
  if bool_decide (op_UpgradeStrategy opts = "eager") then
    let ver := latest_or dep "" in if decide (ver = "") then version else ver
  else version.

Definition dep_step (fuel : nat) (entry : string * DepSpec) (st : PlanState) : option PlanState :=
  let '(dep, spec) := entry in
  if decide (dep = "") then Some st
  else
    let version := dep_version dep spec in
    emitOnce fuel dep version (sourceDigest dep version) "build" st.

(** *** The whole function *)
Definition initial_state : PlanState := mkPlanState [] [runtime_node] ∅ ∅ ∅ false false.

Definition plan_loops (fuel : nat) (reqs : list DepSpec) (wheels : list WheelInput)
    : option PlanState :=
  st1 ← fold_opt (requirement_step fuel) reqs initial_state;
  st2 ← fold_opt (wheel_step fuel) wheels st1;
  fold_opt (dep_step fuel) (map_range (ps_depSeen st2)) st2.

Definition plan_result (runID : string) (st : PlanState) : result Snapshot :=
  if negb (ps_hasInput st) then Err "no wheels or requirements found in input set"
  else if ps_depTruncated st
  then Err ("dependency expansion exceeded MaxDeps (" +:+ itoa (op_MaxDeps opts)
            +:+ "); increase MAX_DEPS or trim input")
  else Ok (mkSnapshot runID (ps_nodes st) (ps_dagNodes st) None).
End planner.

(** [opts.MaxDeps <= 0] means 1000; the constraints file is read once; the
    recursion over packs cannot be deeper than the catalog is large without
    visiting a pack twice. *)
Definition default_max_deps (opts : Options) : Options :=
  if decide (op_MaxDeps opts <= 0)%Z
  then mkOptions (op_UpgradeStrategy opts) 1000 (op_PackageOverrides opts)
         (op_ConstraintsPath opts) (op_PackCatalog opts)
  else opts.
Definition plan_fuel (opts : Options) : nat :=
  match op_PackCatalog opts with Some c => S (S (size (cat_Packs c))) | None => 2 end.

Definition computeWithResolverInputs `{GoRuntime, Sha256, CasStore} (fs : Files) (runID : string)
    (reqs : list DepSpec) (wheels : list WheelInput) (pythonVersion platformTag : string)
    (opts : Options) (resolver : Resolver) : option (result Snapshot) :=
  let opts := default_max_deps opts in
  let constraints := Plan.loadConstraints fs (op_ConstraintsPath opts) in
  plan_result opts runID <$>
    plan_loops opts resolver constraints pythonVersion platformTag (plan_fuel opts) reqs wheels.
