(* ===== verification/PlannerFacts.v ===== *)
(** Theorems about the planner: the DAG it returns is closed and topologically
    ordered, planning returns for every catalog whose entries carry their own
    name, the flat plan has no duplicates, covers every input and is bounded,
    and an action says "reuse" only for a reason. *)
From S2P Require Import Prelude.
From S2P Require Import GoStr.
From S2P Require Import Artifact.
From S2P Require Import Pack.
From S2P Require Import Http.
From S2P Require Import Cas.
From S2P Require Import Parse.
From S2P Require Import PlanTypes.
From S2P Require Import Planner.
Local Open Scope string_scope.
Local Open Scope list_scope.
Local Open Scope nat_scope.

(** ** Closed DAGs: every input of a node is the ID of an earlier node *)
Abbreviation ids l := (dn_ID <$> l).
Inductive closed_dag : list DAGNode → Prop :=
  | closed_nil : closed_dag []
  | closed_snoc l n : closed_dag l → (∀ i, i ∈ dn_Inputs n → i ∈ ids l) → closed_dag (l ++ [n]).

Lemma closed_dag_lookup l k n i :
  closed_dag l → l !! k = Some n → i ∈ dn_Inputs n →
  ∃ j m, j < k ∧ l !! j = Some m ∧ dn_ID m = i.
Proof.
  intros Hl. revert k n. induction Hl as [|l m Hl IH Hm]; intros k n Hk Hi; [done|].
  apply lookup_app_Some in Hk as [Hk|[Hle Hk]].
  - destruct (IH _ _ Hk Hi) as (j & m' & ? & Hj & ?).
    exists j, m'. split; [done|]. split; [|done]. by apply lookup_app_l_Some.
  - apply list_lookup_singleton_Some in Hk as [Hz ->].
    apply Hm in Hi. apply list_elem_of_fmap in Hi as (m' & -> & Hm').
    apply list_elem_of_lookup in Hm' as [j Hj]. exists j, m'. split.
    + apply lookup_lt_Some in Hj. lia.
    + split; [by apply lookup_app_l_Some|done].
Qed.

Definition node_key (n : FlatNode) : string := plan_key (fn_Name n) (fn_Version n).

(** Two states that differ only in their packs and DAG. *)
Record same_plan (s t : PlanState) : Prop := {
  sp_nodes : ps_nodes t = ps_nodes s; sp_dep : ps_depSeen t = ps_depSeen s;
  sp_seen : ps_seen t = ps_seen s; sp_input : ps_hasInput t = ps_hasInput s;
  sp_trunc : ps_depTruncated t = ps_depTruncated s }.
#[export] Instance same_plan_preorder : PreOrder same_plan.
Proof. split; [by split|]. intros s t u [] []. split; congruence. Qed.

(** ** Rank of the built-in dependency table: a pack depends on lower ranks *)
Definition pack_rank (name : string) : nat :=
  if decide (name ∈ ["openssl"; "libpng"; "libxml2"]) then 1
  else if decide (name ∈ ["freetype"; "libxslt"; "cpython"; "cpython3.10"; "cpython3.11";
                          "cpython3.12"; "runtime"]) then 2
  else 0.

Lemma pack_rank_le name : pack_rank name ≤ 2.
Proof. unfold pack_rank. repeat case_decide; lia. Qed.

Lemma packDependencies_rank name dep :
  dep ∈ packDependencies name → ToLower dep = dep ∧ pack_rank dep < pack_rank (ToLower name).
Proof.
  unfold packDependencies. destruct (pack_dependency_table !! ToLower name) as [deps|] eqn:E;
    [|set_solver].
  simpl. intros Hd. apply elem_of_list_to_map_2 in E.
  repeat (apply elem_of_cons in E as [E|E]; [
    injection E as -> ->;
    repeat (apply elem_of_cons in Hd as [->|Hd]; [vm_compute; split; [done|lia]|]);
    by apply not_elem_of_nil in Hd|]).
  by apply not_elem_of_nil in E.
Qed.

(** A catalog whose entries carry, up to case, the name they are stored under. *)
Definition wf_catalog (c : Catalog) : Prop :=
  map_Forall (λ name def, ToLower (pd_Name def) = ToLower name) (cat_Packs c).
#[export] Instance wf_catalog_dec c : Decision (wf_catalog c).
Proof. unfold wf_catalog. apply _. Defined.

Section facts.
Context `{GoRuntime, Sha256, CasStore}.
Context (opts : Options) (resolver : Resolver) (constraints : gmap string string).
Context (pythonVersion platformTag : string).

Abbreviation addPack := (addPack opts).
Abbreviation rtID := (rtID pythonVersion).
Abbreviation emitWheel := (emitWheel opts pythonVersion platformTag).
Abbreviation emitOnce := (emitOnce opts pythonVersion platformTag).

(** *** Termination *)
Definition wf_opts : Prop :=
  match op_PackCatalog opts with Some c => wf_catalog c | None => True end.

Lemma addPack_total fuel def st :
  wf_opts → pack_rank (ToLower (pd_Name def)) < fuel → is_Some (addPack fuel def st).
Proof using Type.
  unfold wf_opts. intros Hwf. revert def st. induction fuel as [|fuel IH]; intros def st Hr; [lia|].
  simpl. case_decide; [eauto|]. destruct (op_PackCatalog opts) as [c|]; [|eauto].
  set (step := λ depName s, _).
  destruct (fold_opt_total step (packDependencies (pd_Name def)) (st, [])) as [[st' deps] ->];
    [|simpl; eauto].
  intros dep [t l] [Hlow Hlt]%packDependencies_rank. unfold step.
  destruct (cat_Packs c !! dep) as [depDef|] eqn:Hdep; [|eauto].
  assert (Hrank : pack_rank (ToLower (pd_Name depDef)) < fuel).
  { rewrite (map_Forall_lookup_1 _ _ _ _ Hwf Hdep), Hlow. lia. }
  simpl. destruct (IH depDef t Hrank) as [t' ->]. simpl. eauto.
Qed.

Lemma selectPacks_elem pkg defs pids digests :
  selectPacks opts pkg = (defs, pids, digests) →
  pids = packIDForDef <$> defs ∧ digests = id_Digest <$> pids ∧
  ∀ def, def ∈ defs → ∃ c name, op_PackCatalog opts = Some c ∧ cat_Packs c !! name = Some def.
Proof using Type.
  unfold selectPacks. destruct (op_PackCatalog opts) as [c|]; intros; simplify_eq;
    [|split; [done|split; [done|set_solver]]].
  split; [done|]. split; [done|]. intros def Hin. rewrite sort_slice_perm in Hin.
  apply Select_elem in Hin as (name & ? & ?). eauto.
Qed.

Lemma plan_fuel_enough def c name :
  op_PackCatalog opts = Some c → cat_Packs c !! name = Some def →
  pack_rank (ToLower (pd_Name def)) < plan_fuel opts.
Proof using Type.
  intros Hc Hdef. unfold plan_fuel. rewrite Hc. pose proof (pack_rank_le (ToLower (pd_Name def))).
  assert (size (cat_Packs c) ≠ 0); [|lia].
  rewrite map_size_ne_0_lookup. naive_solver.
Qed.

Lemma emitOnce_total name version source action st :
  wf_opts → is_Some (emitOnce (plan_fuel opts) name version source action st).
Proof using Type.
  intros Hwf. unfold Planner.emitOnce. case_decide; [eauto|]. unfold Planner.emitWheel.
  destruct (selectPacks opts name) as [[defs pids] digests] eqn:Hsel.
  apply selectPacks_elem in Hsel as (_ & _ & Hdefs).
  destruct (fold_opt_total (addPack (plan_fuel opts)) defs (mark_seen (plan_key name version) st))
    as [st' Hst']; [|unfold addPackNodes; rewrite Hst'; simpl; eauto].
  intros def t (c & n & Hc & Hn)%Hdefs. apply addPack_total; [done|].
  by eapply plan_fuel_enough.
Qed.

Lemma plan_loops_total reqs wheels :
  wf_opts → is_Some (plan_loops opts resolver constraints pythonVersion platformTag
                      (plan_fuel opts) reqs wheels).
Proof using Type.
  intros Hwf. unfold plan_loops.
  edestruct (fold_opt_total (requirement_step opts resolver pythonVersion platformTag
    (plan_fuel opts)) reqs) as [s1 ->].
  { intros spec st _. unfold requirement_step. case_decide; [eauto|]. by apply emitOnce_total. }
  simpl. edestruct (fold_opt_total (wheel_step opts resolver pythonVersion platformTag
    (plan_fuel opts)) wheels) as [s2 ->].
  { intros w st _. unfold wheel_step. case_decide; [eauto|].
    case_match; by apply emitOnce_total. }
  simpl. apply fold_opt_total. intros [dep spec] st _. unfold dep_step.
  case_decide; [eauto|]. by apply emitOnce_total.
Qed.

(** *** The DAG invariant *)
Record dag_inv (st : PlanState) : Prop := {
  di_closed : closed_dag (ps_dagNodes st);
  di_runtime : rtID ∈ ids (ps_dagNodes st);
  di_packs : ∀ d, d ∈ ps_packSeen st → mkID PackType d ∈ ids (ps_dagNodes st) }.

Lemma ids_snoc (l : list DAGNode) n i : i ∈ ids (l ++ [n]) ↔ i ∈ ids l ∨ i = dn_ID n.
Proof using Type. rewrite fmap_app, elem_of_app. set_solver. Qed.

Lemma dag_inv_snoc st n :
  dag_inv st → (∀ i, i ∈ dn_Inputs n → i ∈ ids (ps_dagNodes st)) → dag_inv (add_dag n st).
Proof using Type.
  intros [Hc Hr Hp] Hn. split; simpl.
  - by constructor.
  - apply ids_snoc. by left.
  - intros d Hd. apply ids_snoc. left. auto.
Qed.

(** A step that keeps the invariant and only adds to the DAG. *)
Record dag_step (st st' : PlanState) : Prop := {
  ds_inv : dag_inv st';
  ds_grow : ∀ i, i ∈ ids (ps_dagNodes st) → i ∈ ids (ps_dagNodes st') }.

Lemma dag_step_trans s t u : dag_step s t → dag_step t u → dag_step s u.
Proof using Type. intros [] []. split; auto. Qed.

Lemma addPack_spec fuel def st st' :
  dag_inv st → addPack fuel def st = Some st' →
  dag_step st st' ∧ same_plan st st' ∧ packIDForDef def ∈ ids (ps_dagNodes st').
Proof using Type.
  revert def st st'. induction fuel as [|fuel IH]; intros def st st' Hinv Hadd; [done|].
  simpl in Hadd. case_decide as Hseen.
  { simplify_eq. split; [by split|]. split; [done|].
    destruct Hinv as [_ _ Hp]. by apply Hp in Hseen. }
  destruct_bind Hadd [t deps] Hd. simplify_eq/=.
  assert (Ht : dag_step st t ∧ same_plan st t ∧ ∀ i, i ∈ deps → i ∈ ids (ps_dagNodes t)).
  { destruct (op_PackCatalog opts) as [c|]; simplify_eq; [|by split; [split|split; [|set_solver]]].
    eapply (fold_opt_invariant _ (λ s : PlanState * list ID,
      dag_step st s.1 ∧ same_plan st s.1 ∧ ∀ i, i ∈ s.2 → i ∈ ids (ps_dagNodes s.1))
      _ (st, []) (t, deps)); [| |exact Hd].
    - intros dep [u l] s' _ ([Hu Hg] & Hsp & Hl) Hs; simpl in *.
      destruct (cat_Packs c !! dep) as [depDef|]; simplify_eq; [|done].
      destruct (Planner.addPack opts fuel depDef u) as [u'|] eqn:Hu'; [|done].
      apply IH in Hu' as ([Hi Hg'] & Hsp' & Hid); [|done]. simplify_eq/=.
      split; [by split; auto|]. split; [by etrans|].
      intros i [Hi'| ->%list_elem_of_singleton]%elem_of_app; [by apply Hg', Hl|done].
    - simpl. split; [by split|]. split; [done|set_solver]. }
  destruct Ht as ([Hti Htg] & Hsp & Hdeps).
  assert (Hi : dag_inv (add_dag (pack_node def deps) t)) by (by apply dag_inv_snoc).
  destruct Hi as [Hc Hr Hp]. split; [split|split].
  - split; [done|done|]. simpl. intros d [->%elem_of_singleton|Hd']%elem_of_union; [|by apply Hp].
    apply ids_snoc. by right.
  - intros i Hin. apply ids_snoc. left. auto.
  - by destruct Hsp; split.
  - apply ids_snoc. by right.
Qed.

Lemma addPackNodes_spec fuel defs st st' :
  dag_inv st → addPackNodes opts fuel defs st = Some st' →
  dag_step st st' ∧ same_plan st st' ∧
  ∀ def, def ∈ defs → packIDForDef def ∈ ids (ps_dagNodes st').
Proof using Type.
  unfold addPackNodes. revert st. induction defs as [|def defs IH]; intros st Hinv Hf; simpl in Hf.
  { simplify_eq. split; [by split|]. split; [done|set_solver]. }
  destruct (Planner.addPack opts fuel def st) as [t|] eqn:Ht; [|done].
  apply addPack_spec in Ht as ([Hti Htg] & Hsp & Hid); [|done].
  apply IH in Hf as ([Hsi Hsg] & Hsp' & Hids); [|done].
  split; [split; auto|]. split; [by etrans|].
  intros d [->|Hd]%elem_of_cons; auto.
Qed.

Lemma emitWheel_spec fuel name version source action st st' :
  dag_inv st → emitWheel fuel name version source action st = Some st' →
  dag_step st st' ∧
  ps_nodes st' = ps_nodes st ++
    [mkFlatNode name version pythonVersion (pyTag pythonVersion) platformTag action [] []] ∧
  ps_seen st' = ps_seen st ∧ ps_depSeen st' = ps_depSeen st ∧
  ps_hasInput st' = ps_hasInput st ∧ ps_depTruncated st' = ps_depTruncated st.
Proof using Type.
  intros Hinv. unfold Planner.emitWheel.
  destruct (selectPacks opts name) as [[defs pids] digests] eqn:Hsel.
  apply selectPacks_elem in Hsel as (-> & -> & _).
  destruct (addPackNodes opts fuel defs st) as [t|] eqn:Ht; [|done].
  apply addPackNodes_spec in Ht as ([Hti Htg] & [] & Hids); [|done].
  simpl. intros; simplify_eq/=. split; [|split_and!; congruence].
  set (wn := wheel_node _ _ _ _ _ _ _). set (rn := repair_node _ _).
  set (t' := add_node _ t).
  assert (Hwn : dag_inv (add_dag wn t')).
  { apply dag_inv_snoc; [by destruct Hti; split|]. simpl.
    intros i [->|Hi]%elem_of_cons; [by destruct Hti|].
    apply list_elem_of_fmap in Hi as (def & -> & Hdef). auto. }
  split.
  - apply dag_inv_snoc; [done|]. simpl. intros i ->%list_elem_of_singleton.
    apply ids_snoc. by right.
  - intros i Hi. simpl. rewrite !ids_snoc. auto.
Qed.

(** *** The plan invariant *)
Record plan_inv (st : PlanState) : Prop := {
  pi_dag : dag_inv st;
  pi_keys : NoDup (node_key <$> ps_nodes st);
  pi_seen : ∀ k, k ∈ ps_seen st ↔ k ∈ node_key <$> ps_nodes st }.

Lemma emitOnce_spec fuel name version source action st st' :
  plan_inv st → emitOnce fuel name version source action st = Some st' →
  plan_inv st' ∧ plan_key name version ∈ ps_seen st' ∧
  (ps_nodes st' = ps_nodes st ∨ ps_nodes st' = ps_nodes st ++
    [mkFlatNode name version pythonVersion (pyTag pythonVersion) platformTag action [] []]) ∧
  ps_depSeen st' = ps_depSeen st ∧
  ps_hasInput st' = ps_hasInput st ∧ ps_depTruncated st' = ps_depTruncated st.
Proof using Type.
  intros [Hd Hk Hs]. unfold Planner.emitOnce. case_decide as Hin; intros He.
  { simplify_eq. split_and!; try done. by left. }
  apply emitWheel_spec in He as ([Hi _] & Hn & Hse & ? & ? & ?); [|by destruct Hd; split].
  simpl in *. split_and!; [|by rewrite Hse; set_solver|by right|done..].
  split; [done| |].
  - rewrite Hn, fmap_app, NoDup_app. split; [done|]. split; [|apply NoDup_singleton].
    intros k Hk' ->%list_elem_of_singleton. apply Hin. by apply Hs.
  - intros k. rewrite Hse, Hn, fmap_app, elem_of_union, elem_of_singleton, Hs, elem_of_app.
    simpl. rewrite list_elem_of_singleton. unfold node_key at 2. simpl. tauto.
Qed.

(** *** The steps of the three loops, as at most one [emitOnce] *)
Abbreviation requirement_step := (requirement_step opts resolver pythonVersion platformTag).
Abbreviation wheel_step := (wheel_step opts resolver pythonVersion platformTag).
Abbreviation dep_step := (dep_step opts resolver constraints pythonVersion platformTag).
Abbreviation scan_requires := (scan_requires opts resolver).
Abbreviation pyTag := (pyTag pythonVersion).

(** States that agree on everything but the dependencies and the two flags. *)
Record frame (s t : PlanState) : Prop := {
  fr_nodes : ps_nodes t = ps_nodes s; fr_dag : ps_dagNodes t = ps_dagNodes s;
  fr_packs : ps_packSeen t = ps_packSeen s; fr_seen : ps_seen t = ps_seen s }.

Lemma frame_plan_inv s t : frame s t → plan_inv s → plan_inv t.
Proof using Type.
  intros [Hn Hd Hp Hs] [[Hc Hr Hk] Hnd Hse]. split; [split|..]; rewrite ?Hn, ?Hd, ?Hp, ?Hs; done.
Qed.

Lemma scan_requires_frame requires st : frame st (scan_requires requires st).
Proof using Type.
  revert st. induction requires as [|dep requires IH]; intros st; simpl; [by split|].
  assert (Hset : ∀ d v, frame st (scan_requires requires (set_dep d v st))).
  { intros d v. by destruct (IH (set_dep d v st)); split. }
  case_decide; [done|]. case_decide; [by split|]. by case_match.
Qed.

(** What a step of a loop may plan. *)
Inductive emits (Q : string → string → string → string → Prop) (st st' : PlanState) : Prop :=
  | emits_none : st' = st → emits Q st st'
  | emits_one st1 name version source action :
      frame st st1 → Q name version source action →
      emitOnce (plan_fuel opts) name version source action st1 = Some st' → emits Q st st'.

Definition wheel_action (info : WheelInfo) : string :=
  if Plan.isCompatible info pyTag platformTag then "reuse" else "build".
Definition wheel_source (w : WheelInput) : string :=
  let info := wh_Info w in
  if decide (wh_Digest w = "") then sourceDigest (wi_Name info) (wi_Version info)
  else wh_Digest w.
(** A wheel with a name and a version takes part in planning. *)
Definition valid_wheel (w : WheelInput) : Prop :=
  wi_Name (wh_Info w) ≠ "" ∧ wi_Version (wh_Info w) ≠ "".

Definition from_build (_ _ _ action : string) : Prop := action = "build".
Definition from_wheel (w : WheelInput) (name version source action : string) : Prop :=
  valid_wheel w ∧ name = wi_Name (wh_Info w) ∧
  match override_for opts name with
  | Some ver => version = ver ∧ action = "build"
  | None => version = wi_Version (wh_Info w) ∧ source = wheel_source w ∧
            action = wheel_action (wh_Info w)
  end.

Lemma requirement_step_emits spec st st' :
  requirement_step (plan_fuel opts) spec st = Some st' → emits from_build st st'.
Proof using Type.
  unfold Planner.requirement_step. case_decide; intros; simplify_eq; [by apply emits_none|].
  eapply (emits_one _ _ _ (set_dep _ _ (set_hasInput st))); [by split|done|done].
Qed.

Lemma wheel_step_emits w st st' :
  wheel_step (plan_fuel opts) w st = Some st' → emits (from_wheel w) st st'.
Proof using Type.
  unfold Planner.wheel_step. case_decide as Hv; intros Hs; simplify_eq; [by apply emits_none|].
  assert (Hf : frame st (scan_requires (wh_Requires w) (set_hasInput st))).
  { by destruct (scan_requires_frame (wh_Requires w) (set_hasInput st)); split. }
  assert (valid_wheel w) by (unfold valid_wheel; tauto).
  destruct (override_for opts (wi_Name (wh_Info w))) as [ver|] eqn:Ho;
    (eapply emits_one; [exact Hf| |exact Hs]); unfold from_wheel; rewrite Ho; split_and!; done.
Qed.

Lemma dep_step_emits e st st' :
  dep_step (plan_fuel opts) e st = Some st' → emits from_build st st'.
Proof using Type.
  unfold Planner.dep_step. destruct e as [dep spec].
  case_decide; intros; simplify_eq; [by apply emits_none|]. eapply emits_one; [by split|done|done].
Qed.

Lemma emits_plan_inv Q st st' : emits Q st st' → plan_inv st → plan_inv st'.
Proof using Type.
  intros [->|st1 name version source action Hf _ He] Hinv; [done|].
  eapply emitOnce_spec; [|exact He]. by eapply frame_plan_inv.
Qed.

(** Rule induction over a run of the three loops. *)
Lemma plan_loops_ind (P : PlanState → Prop) reqs wheels st' :
  P (initial_state pythonVersion platformTag) →
  (∀ spec st st', spec ∈ reqs → P st → requirement_step (plan_fuel opts) spec st = Some st' → P st') →
  (∀ w st st', w ∈ wheels → P st → wheel_step (plan_fuel opts) w st = Some st' → P st') →
  (∀ e st st', P st → dep_step (plan_fuel opts) e st = Some st' → P st') →
  plan_loops opts resolver constraints pythonVersion platformTag (plan_fuel opts) reqs wheels
    = Some st' → P st'.
Proof using Type.
  intros HP Hr Hw Hd. unfold plan_loops. intros Hl.
  destruct_bind Hl s1 E1. destruct_bind Hl s2 E2.
  eapply fold_opt_invariant; [|eapply fold_opt_invariant; [|eapply fold_opt_invariant;
    [|exact HP|exact E1]|exact E2]|exact Hl]; eauto.
Qed.

Lemma initial_plan_inv : plan_inv (initial_state pythonVersion platformTag).
Proof using Type.
  split; simpl; [split; simpl|constructor|set_solver].
  - apply (closed_snoc [] (runtime_node pythonVersion platformTag)); [constructor|].
    simpl. set_solver.
  - set_solver.
  - set_solver.
Qed.

Lemma plan_loops_inv reqs wheels st :
  plan_loops opts resolver constraints pythonVersion platformTag (plan_fuel opts) reqs wheels
    = Some st → plan_inv st.
Proof using Type.
  apply plan_loops_ind; [apply initial_plan_inv|..]; intros.
  - by eapply emits_plan_inv; [eapply requirement_step_emits|].
  - by eapply emits_plan_inv; [eapply wheel_step_emits|].
  - by eapply emits_plan_inv; [eapply dep_step_emits|].
Qed.

(** *** What the loops accumulate *)
Lemma emits_nodes Q st st' :
  plan_inv st → emits Q st st' →
  ps_nodes st' = ps_nodes st ∨ ∃ name version source action, Q name version source action ∧
    ps_nodes st' =
      ps_nodes st ++ [mkFlatNode name version pythonVersion pyTag platformTag action [] []].
Proof using Type.
  intros Hinv [->|st1 name version source action Hf HQ He]; [by left|].
  apply emitOnce_spec in He as (_ & _ & Hn & _); [|by eapply frame_plan_inv].
  destruct Hf as [<- _ _ _]. destruct Hn as [Hn|Hn]; [by left|]. right. eauto 10.
Qed.

Lemma emits_seen Q st st' k : plan_inv st → emits Q st st' → k ∈ ps_seen st → k ∈ ps_seen st'.
Proof using Type.
  intros Hinv He. assert (Hinv' : plan_inv st') by (by eapply emits_plan_inv).
  rewrite (pi_seen _ Hinv), (pi_seen _ Hinv').
  destruct (emits_nodes _ _ _ Hinv He) as [->|(?&?&?&?&_&->)]; rewrite ?fmap_app; set_solver.
Qed.

Lemma emits_length Q st st' :
  plan_inv st → emits Q st st' → length (ps_nodes st') ≤ S (length (ps_nodes st)).
Proof using Type.
  intros Hinv He. destruct (emits_nodes _ _ _ Hinv He) as [->|(?&?&?&?&_&->)];
    rewrite ?length_app; simpl; lia.
Qed.

(** A fold of such steps keeps the invariant, what is seen, and adds at most
    one node per item. *)
Lemma emits_fold {A} (step : A → PlanState → option PlanState) Q l st st' :
  (∀ x s s', step x s = Some s' → emits (Q x) s s') →
  fold_opt step l st = Some st' → plan_inv st →
  plan_inv st' ∧ (∀ k, k ∈ ps_seen st → k ∈ ps_seen st') ∧
  length (ps_nodes st') ≤ length l + length (ps_nodes st).
Proof using Type.
  intros Hstep. revert st. induction l as [|x l IH]; intros st Hf Hinv; simpl in *.
  { by simplify_eq. }
  destruct_bind Hf t Ht. apply Hstep in Ht.
  assert (plan_inv t) by (by eapply emits_plan_inv).
  destruct (IH _ Hf) as (? & Hk & Hl); [done|]. split; [done|]. split.
  - intros k Hin. apply Hk. exact (emits_seen _ _ _ _ Hinv Ht Hin).
  - pose proof (emits_length _ _ _ Hinv Ht). lia.
Qed.

(** *** Dependencies *)
Abbreviation max_deps := (op_MaxDeps opts).

Lemma scan_requires_grow requires st name :
  name ∈ dom (ps_depSeen st) → name ∈ dom (ps_depSeen (scan_requires requires st)).
Proof using Type.
  revert st. induction requires as [|dep requires IH]; intros st Hin; simpl; [done|].
  case_decide; [by apply IH|]. case_decide; [done|].
  case_match; apply IH; [done|]. simpl. set_solver.
Qed.

Lemma scan_requires_complete requires st dep :
  ps_depTruncated (scan_requires requires st) = false → dep ∈ requires → ds_Name dep ≠ "" →
  ds_Name dep ∈ dom (ps_depSeen (scan_requires requires st)).
Proof using Type.
  revert st. induction requires as [|d requires IH]; intros st; simpl; [set_solver|].
  intros Ht [->|Hin]%elem_of_cons Hne.
  - rewrite decide_False in * by done. case_decide; [done|].
    destruct (match ps_depSeen st !! ds_Name d with Some e => _ | None => _ end) eqn:E;
      apply scan_requires_grow; [|simpl; set_solver].
    apply elem_of_dom. by destruct (ps_depSeen st !! ds_Name d).
  - case_decide; [by apply IH|]. case_decide; [done|]. revert Ht. case_match; intros; by apply IH.
Qed.

Lemma scan_requires_size requires st :
  (Z.of_nat (size (ps_depSeen (scan_requires requires st)))
    <= Z.max (Z.of_nat (size (ps_depSeen st))) max_deps)%Z.
Proof using Type.
  revert st. induction requires as [|d requires IH]; intros st; simpl; [lia|].
  case_decide; [by apply IH|]. case_decide; [simpl; lia|]. case_match; [by apply IH|].
  etrans; [apply IH|]. simpl. 
  destruct (ps_depSeen st !! ds_Name d) eqn:E.
  - rewrite map_size_insert_Some by done. lia.
  - rewrite map_size_insert_None by done. lia.
Qed.

Lemma scan_requires_truncated requires st :
  ps_depTruncated st = true → ps_depTruncated (scan_requires requires st) = true.
Proof using Type.
  revert st. induction requires as [|d requires IH]; intros st Ht; simpl; [done|].
  case_decide; [by apply IH|]. case_decide; [done|]. case_match; by apply IH.
Qed.

Lemma scan_requires_hasInput requires st :
  ps_hasInput st = true → ps_hasInput (scan_requires requires st) = true.
Proof using Type.
  revert st. induction requires as [|d requires IH]; intros st Ht; simpl; [done|].
  case_decide; [by apply IH|]. case_decide; [done|]. case_match; by apply IH.
Qed.

(** *** Truncation, inputs and sizes across the loops *)
Lemma emitOnce_rest fuel name version source action st st' :
  plan_inv st → emitOnce fuel name version source action st = Some st' →
  ps_depSeen st' = ps_depSeen st ∧ ps_hasInput st' = ps_hasInput st ∧
  ps_depTruncated st' = ps_depTruncated st ∧ plan_key name version ∈ ps_seen st'.
Proof using Type. intros Hinv He. by apply emitOnce_spec in He as (?&?&?&?&?&?). Qed.

Definition valid_requirement (spec : DepSpec) : Prop := normalizeName (ds_Name spec) ≠ "".
#[export] Instance valid_wheel_dec w : Decision (valid_wheel w).
Proof. unfold valid_wheel. apply _. Defined.

(** The version planned for a wheel. *)
Definition wheel_version (w : WheelInput) : string :=
  default (wi_Version (wh_Info w)) (override_for opts (wi_Name (wh_Info w))).

Lemma requirement_step_rest fuel spec st st' :
  plan_inv st → requirement_step fuel spec st = Some st' →
  (size (ps_depSeen st') ≤ S (size (ps_depSeen st))) ∧
  ps_depTruncated st' = ps_depTruncated st ∧
  ps_hasInput st' = (ps_hasInput st || bool_decide (valid_requirement spec)) ∧
  (∀ d, d ∈ dom (ps_depSeen st) → d ∈ dom (ps_depSeen st')) ∧
  (valid_requirement spec →
    plan_key (normalizeName (ds_Name spec)) (requirement_version resolver spec) ∈ ps_seen st' ∧
    normalizeName (ds_Name spec) ∈ dom (ps_depSeen st')).
Proof using Type.
  intros Hinv. unfold Planner.requirement_step, valid_requirement.
  case_decide as Hn; intros He; simplify_eq.
  { rewrite bool_decide_false, orb_false_r by tauto. split_and!; [lia|done..]. }
  apply emitOnce_rest in He as (-> & -> & -> & Hk); [|eapply frame_plan_inv; [|exact Hinv]; by split].
  rewrite bool_decide_true, orb_true_r by done. simpl. split_and!; [|done..| |].
  - rewrite map_size_insert. case_match; simpl; lia.
  - set_solver.
  - split; [done|set_solver].
Qed.

Lemma wheel_step_rest fuel w st st' :
  plan_inv st → wheel_step fuel w st = Some st' →
  (Z.of_nat (size (ps_depSeen st')) <= Z.max (Z.of_nat (size (ps_depSeen st))) max_deps)%Z ∧
  (ps_depTruncated st = true → ps_depTruncated st' = true) ∧
  (∀ d, d ∈ dom (ps_depSeen st) → d ∈ dom (ps_depSeen st')) ∧
  ps_hasInput st' = (ps_hasInput st || bool_decide (valid_wheel w)) ∧
  (valid_wheel w → plan_key (wi_Name (wh_Info w)) (wheel_version w) ∈ ps_seen st' ∧
    (ps_depTruncated st' = false → ∀ dep, dep ∈ wh_Requires w → ds_Name dep ≠ "" →
      ds_Name dep ∈ dom (ps_depSeen st'))).
Proof using Type.
  intros Hinv. unfold Planner.wheel_step, wheel_version.
  case_decide as Hv; intros He; simplify_eq.
  { rewrite bool_decide_false, orb_false_r by (unfold valid_wheel; tauto).
    split_and!; [lia|done|done|done|]. unfold valid_wheel. tauto. }
  set (s1 := scan_requires (wh_Requires w) (set_hasInput st)) in *.
  assert (Hs1 : plan_inv s1 ∧ ps_hasInput s1 = true).
  { pose proof (scan_requires_frame (wh_Requires w) (set_hasInput st)) as Hf. split.
    - eapply frame_plan_inv; [exact Hf|]. eapply frame_plan_inv; [|exact Hinv]; by split.
    - by apply scan_requires_hasInput. }
  destruct Hs1 as [Hi1 Hin1].
  assert (He' : ∃ source action,
    emitOnce fuel (wi_Name (wh_Info w)) (wheel_version w) source action s1 = Some st').
  { unfold wheel_version. case_match; simpl; eauto. }
  destruct He' as (source & action & He'). clear He.
  apply emitOnce_rest in He' as (-> & -> & -> & Hk); [|done].
  rewrite bool_decide_true by (unfold valid_wheel; tauto). rewrite orb_true_r.
  split_and!; [apply (scan_requires_size _ (set_hasInput st))
    |apply (scan_requires_truncated _ (set_hasInput st))| |done|].
  - intros d Hd. by apply scan_requires_grow.
  - intros _. split; [done|]. intros Ht dep Hdep Hne. by apply scan_requires_complete.
Qed.

Lemma dep_step_rest fuel dep spec st st' :
  plan_inv st → dep_step fuel (dep, spec) st = Some st' →
  ps_depTruncated st' = ps_depTruncated st ∧ ps_hasInput st' = ps_hasInput st ∧
  (dep ≠ "" → plan_key dep (dep_version opts resolver constraints dep spec) ∈ ps_seen st').
Proof using Type.
  intros Hinv. unfold Planner.dep_step. case_decide; intros He; simplify_eq; [done|].
  by apply emitOnce_rest in He as (? & ? & ? & ?).
Qed.

(** *** Each loop as a whole *)
Lemma requirements_loop reqs st st' :
  fold_opt (requirement_step (plan_fuel opts)) reqs st = Some st' → plan_inv st →
  size (ps_depSeen st') ≤ length reqs + size (ps_depSeen st) ∧
  ps_depTruncated st' = ps_depTruncated st ∧
  (ps_hasInput st' = true ↔ ps_hasInput st = true ∨ ∃ spec, spec ∈ reqs ∧ valid_requirement spec) ∧
  (∀ d, d ∈ dom (ps_depSeen st) → d ∈ dom (ps_depSeen st')) ∧
  ∀ spec, spec ∈ reqs → valid_requirement spec →
    plan_key (normalizeName (ds_Name spec)) (requirement_version resolver spec) ∈ ps_seen st' ∧
    normalizeName (ds_Name spec) ∈ dom (ps_depSeen st').
Proof using Type.
  revert st. induction reqs as [|spec reqs IH]; intros st Hf Hinv; simpl in Hf.
  { simplify_eq. split_and!; [lia|done|set_solver|done|set_solver]. }
  destruct_bind Hf t Ht.
  assert (Hit : plan_inv t) by (by eapply emits_plan_inv; [eapply requirement_step_emits|]).
  pose proof (emits_fold _ (λ _, from_build) _ _ _ (λ x s s', requirement_step_emits x s s') Hf Hit)
    as (_ & Hmono & _).
  apply requirement_step_rest in Ht as (Hsz & Htr & Hin & Hdom & Hkey); [|done].
  destruct (IH _ Hf Hit) as (Hsz' & Htr' & Hin' & Hdom' & Hkey').
  split_and!; [simpl; lia|congruence| |auto|].
  - rewrite Hin', Hin, orb_true_iff, bool_decide_eq_true. set_solver.
  - intros spec' [->|Hin'']%elem_of_cons Hv; [|auto]. destruct (Hkey Hv). auto.
Qed.

Lemma wheels_loop wheels st st' :
  fold_opt (wheel_step (plan_fuel opts)) wheels st = Some st' → plan_inv st →
  (Z.of_nat (size (ps_depSeen st')) <= Z.max (Z.of_nat (size (ps_depSeen st))) max_deps)%Z ∧
  (ps_depTruncated st = true → ps_depTruncated st' = true) ∧
  (∀ d, d ∈ dom (ps_depSeen st) → d ∈ dom (ps_depSeen st')) ∧
  (ps_hasInput st' = true ↔ ps_hasInput st = true ∨ ∃ w, w ∈ wheels ∧ valid_wheel w) ∧
  ∀ w, w ∈ wheels → valid_wheel w →
    plan_key (wi_Name (wh_Info w)) (wheel_version w) ∈ ps_seen st' ∧
    (ps_depTruncated st' = false → ∀ dep, dep ∈ wh_Requires w → ds_Name dep ≠ "" →
      ds_Name dep ∈ dom (ps_depSeen st')).
Proof using Type.
  revert st. induction wheels as [|w wheels IH]; intros st Hf Hinv; simpl in Hf.
  { simplify_eq. split_and!; [lia|done|done|set_solver|set_solver]. }
  destruct_bind Hf t Ht.
  assert (Hit : plan_inv t) by (by eapply emits_plan_inv; [eapply wheel_step_emits|]).
  pose proof (emits_fold _ from_wheel _ _ _ (λ x s s', wheel_step_emits x s s') Hf Hit)
    as (_ & Hmono & _).
  apply wheel_step_rest in Ht as (Hsz & Htr & Hdom & Hin & Hkey); [|done].
  destruct (IH _ Hf Hit) as (Hsz' & Htr' & Hdom' & Hin' & Hkey').
  split_and!; [lia|auto|auto| |].
  - rewrite Hin', Hin, orb_true_iff, bool_decide_eq_true. set_solver.
  - intros w' [->|Hw]%elem_of_cons Hv; [|auto]. destruct (Hkey Hv) as [Hk Hd].
    split; [auto|]. intros Hfalse dep Hdep Hne. apply Hdom', Hd; [|done..].
    destruct (ps_depTruncated t); [|done]. by rewrite Htr' in Hfalse.
Qed.

Lemma deps_loop l st st' :
  fold_opt (dep_step (plan_fuel opts)) l st = Some st' → plan_inv st →
  ps_depTruncated st' = ps_depTruncated st ∧ ps_hasInput st' = ps_hasInput st ∧
  ∀ dep spec, (dep, spec) ∈ l → dep ≠ "" →
    plan_key dep (dep_version opts resolver constraints dep spec) ∈ ps_seen st'.
Proof using Type.
  revert st. induction l as [|e l IH]; intros st Hf Hinv; simpl in Hf.
  { simplify_eq. split_and!; [done|done|set_solver]. }
  destruct_bind Hf t Ht.
  assert (Hit : plan_inv t) by (by eapply emits_plan_inv; [eapply dep_step_emits|]).
  pose proof (emits_fold _ (λ _, from_build) _ _ _ (λ x s s', dep_step_emits x s s') Hf Hit)
    as (_ & Hmono & _).
  destruct e as [dep spec].
  apply dep_step_rest in Ht as (Htr & Hin & Hkey); [|done].
  destruct (IH _ Hf Hit) as (Htr' & Hin' & Hkey'). split_and!; [congruence..|].
  intros d s [?|Hds]%elem_of_cons Hne; simplify_eq; auto.
Qed.

(** *** The whole run *)
Record loops_result (reqs : list DepSpec) (wheels : list WheelInput) (st : PlanState) : Prop := {
  lr_input : ps_hasInput st = true ↔
    (∃ spec, spec ∈ reqs ∧ valid_requirement spec) ∨ (∃ w, w ∈ wheels ∧ valid_wheel w);
  lr_reqs : ∀ spec, spec ∈ reqs → valid_requirement spec →
    plan_key (normalizeName (ds_Name spec)) (requirement_version resolver spec) ∈ ps_seen st;
  lr_req_deps : ∀ spec, spec ∈ reqs → valid_requirement spec →
    ∃ s, plan_key (normalizeName (ds_Name spec))
      (dep_version opts resolver constraints (normalizeName (ds_Name spec)) s) ∈ ps_seen st;
  lr_wheels : ∀ w, w ∈ wheels → valid_wheel w →
    plan_key (wi_Name (wh_Info w)) (wheel_version w) ∈ ps_seen st;
  lr_deps : ps_depTruncated st = false → ∀ w dep, w ∈ wheels → valid_wheel w →
    dep ∈ wh_Requires w → ds_Name dep ≠ "" →
    ∃ spec, plan_key (ds_Name dep) (dep_version opts resolver constraints (ds_Name dep) spec)
      ∈ ps_seen st;
  lr_size : (Z.of_nat (length (ps_nodes st)) <=
    Z.of_nat (length reqs + length wheels) + Z.max (Z.of_nat (length reqs)) max_deps)%Z }.

Lemma plan_loops_result reqs wheels st :
  plan_loops opts resolver constraints pythonVersion platformTag (plan_fuel opts) reqs wheels
    = Some st → loops_result reqs wheels st.
Proof using Type.
  unfold plan_loops. intros Hl. destruct_bind Hl s1 E1. destruct_bind Hl s2 E2.
  pose proof initial_plan_inv as Hi0.
  pose proof (emits_fold _ (λ _, from_build) _ _ _ (λ x s s', requirement_step_emits x s s') E1 Hi0)
    as (Hi1 & _ & Hlen1).
  pose proof (emits_fold _ from_wheel _ _ _ (λ x s s', wheel_step_emits x s s') E2 Hi1)
    as (Hi2 & Hm2 & Hlen2).
  pose proof (emits_fold _ (λ _, from_build) _ _ _ (λ x s s', dep_step_emits x s s') Hl Hi2)
    as (_ & Hm3 & Hlen3).
  apply requirements_loop in E1 as (Hsz1 & _ & Hin1 & _ & Hk1); [|done].
  apply wheels_loop in E2 as (Hsz2 & _ & Hd2 & Hin2 & Hk2); [|done].
  apply deps_loop in Hl as (Htr & Hin3 & Hk3); [|done].
  rewrite map_range_perm, length_map_to_list in Hlen3. simpl in *. rewrite map_size_empty in Hsz1.
  split.
  - rewrite Hin3, Hin2, Hin1. set_solver.
  - intros spec Hs Hv. by apply Hm3, Hm2, Hk1.
  - intros spec Hs Hv. destruct (Hk1 spec Hs Hv) as [_ [s Hd]%Hd2%elem_of_dom].
    exists s. apply Hk3; [|done]. rewrite map_range_perm. by apply elem_of_map_to_list.
  - intros w Hw Hv. apply Hm3, (Hk2 w); done.
  - intros Hf w dep Hw Hv Hdep Hne.
    destruct (Hk2 w Hw Hv) as [_ Hd]. rewrite Htr in Hf.
    specialize (Hd Hf _ Hdep Hne). apply elem_of_dom in Hd as [spec Hspec].
    exists spec. apply Hk3; [|done]. rewrite map_range_perm. by apply elem_of_map_to_list.
  - lia.
Qed.

(** *** A property of every DAG node *)
Section dag_forall.
Context (P : DAGNode → Prop).
Context (Ppack : ∀ def deps, P (pack_node def deps)).
Context (Prepair : ∀ wheel meta, P (repair_node wheel meta)).

Lemma addPack_forall fuel def st st' :
  addPack fuel def st = Some st' → Forall P (ps_dagNodes st) → Forall P (ps_dagNodes st').
Proof using Ppack.
  revert def st st'. induction fuel as [|fuel IH]; intros def st st' Hadd HP; [done|].
  simpl in Hadd. case_decide; simplify_eq; [done|].
  destruct_bind Hadd [t deps] Hd. simplify_eq/=.
  apply Forall_app. split; [|by apply Forall_singleton].
  destruct (op_PackCatalog opts) as [c|]; simplify_eq; [|done].
  refine (fold_opt_invariant _ (λ s : PlanState * list ID, Forall P (ps_dagNodes s.1))
    _ (st, []) (t, deps) _ HP Hd).
  intros dep [u l] s' _ Hu Hs. destruct (cat_Packs c !! dep) as [depDef|]; simplify_eq; [|done].
  destruct_bind Hs u' Hu'.
  simplify_eq/=. by eapply IH.
Qed.

Lemma emitOnce_forall fuel name version source action st st' :
  (∀ packIDs packDigests, P (wheel_node pythonVersion platformTag
    (wheelID pythonVersion platformTag source packDigests) name version packIDs action)) →
  emitOnce fuel name version source action st = Some st' →
  Forall P (ps_dagNodes st) → Forall P (ps_dagNodes st').
Proof using Ppack Prepair.
  intros Pw. unfold Planner.emitOnce. case_decide; [by intros; simplify_eq|].
  unfold Planner.emitWheel. destruct (selectPacks opts name) as [[defs pids] digests].
  intros He HP. destruct_bind He t Ht. simplify_eq/=. rewrite !Forall_app, !Forall_singleton.
  split_and!; [|apply Pw|apply Prepair].
  eapply (fold_opt_invariant _ (λ s, Forall P (ps_dagNodes s)) _ (mark_seen _ st));
    [|exact HP|exact Ht].
  intros def u u' _ Hu Hadd. by eapply addPack_forall.
Qed.
End dag_forall.

(** *** Why a node says "reuse" *)
(** An uploaded wheel that fits the target and that no override replaces. *)
Definition reusable (w : WheelInput) (name version : string) : Prop :=
  valid_wheel w ∧ override_for opts (wi_Name (wh_Info w)) = None ∧
  Plan.isCompatible (wh_Info w) pyTag platformTag = true ∧
  name = wi_Name (wh_Info w) ∧ version = wi_Version (wh_Info w).

Definition flat_justified (wheels : list WheelInput) (n : FlatNode) : Prop :=
  fn_Action n = "build" ∨
  fn_Action n = "reuse" ∧ ∃ w, w ∈ wheels ∧ reusable w (fn_Name n) (fn_Version n).
Definition dag_justified (wheels : list WheelInput) (n : DAGNode) : Prop :=
  if has (dn_ID n) then dn_Action n = "reuse"
  else dn_Action n = "build" ∨
    dn_Action n = "reuse" ∧ dn_Type n = NodeWheel ∧
    ∃ w packs name version, w ∈ wheels ∧ reusable w name version ∧
      dn_ID n = wheelID pythonVersion platformTag (wheel_source w) packs ∧
      dn_Metadata n !! "name" = Some (AnyString name) ∧
      dn_Metadata n !! "version" = Some (AnyString version).

Definition action_ok (wheels : list WheelInput) (name version source action : string) : Prop :=
  action = "build" ∨
  action = "reuse" ∧ ∃ w, w ∈ wheels ∧ reusable w name version ∧ source = wheel_source w.

Lemma from_wheel_ok wheels w name version source action :
  w ∈ wheels → from_wheel w name version source action → action_ok wheels name version source action.
Proof using Type.
  intros Hw (Hv & -> & Hm). unfold action_ok, reusable.
  destruct (override_for opts (wi_Name (wh_Info w))) eqn:Ho; [left; by destruct Hm|].
  destruct Hm as (-> & -> & ->). unfold wheel_action.
  destruct (Plan.isCompatible _ _ _) eqn:Hc; [right|by left]. split; [done|]. eauto 10.
Qed.

Lemma emits_actions wheels Q st st' :
  (∀ n v s a, Q n v s a → action_ok wheels n v s a) → plan_inv st → emits Q st st' →
  Forall (flat_justified wheels) (ps_nodes st) ∧ Forall (dag_justified wheels) (ps_dagNodes st) →
  Forall (flat_justified wheels) (ps_nodes st') ∧ Forall (dag_justified wheels) (ps_dagNodes st').
Proof using Type.
  intros HQ Hinv He [Hf Hd]. split.
  - destruct (emits_nodes _ _ _ Hinv He) as [->|(n & v & s & a & Hq & ->)]; [done|].
    apply Forall_app. split; [done|]. apply Forall_singleton.
    destruct (HQ _ _ _ _ Hq) as [->|(-> & w & Hw & Hr & _)]; [by left|right]. simpl. eauto.
  - destruct He as [->|st1 name version source action [_ Hdag _ _] Hq He]; [done|].
    eapply emitOnce_forall; [..|exact He|by rewrite Hdag].
    + intros def deps. unfold dag_justified, pack_node, store_action. simpl.
      destruct (has _); [done|by left].
    + intros w meta. unfold dag_justified, repair_node, store_action. simpl.
      destruct (has _); [done|by left].
    + intros pids packs. unfold dag_justified, wheel_node, store_action. cbn [dn_ID dn_Action].
      destruct (has _); [done|].
      destruct (HQ _ _ _ _ Hq) as [->|(-> & w & Hw & Hr & ->)]; [by left|right].
      split_and!; [done..|]. exists w, packs, name, version. done.
Qed.

Lemma plan_loops_actions reqs wheels st :
  plan_loops opts resolver constraints pythonVersion platformTag (plan_fuel opts) reqs wheels
    = Some st →
  Forall (flat_justified wheels) (ps_nodes st) ∧ Forall (dag_justified wheels) (ps_dagNodes st).
Proof using Type.
  intros Hl. set (J := λ st, Forall (flat_justified wheels) (ps_nodes st) ∧
    Forall (dag_justified wheels) (ps_dagNodes st)).
  enough (plan_inv st ∧ J st) as [_ ?]; [done|]. revert Hl.
  apply (plan_loops_ind (λ st, plan_inv st ∧ J st)).
  - split; [apply initial_plan_inv|]. split; [constructor|]. apply Forall_singleton.
    unfold dag_justified, runtime_node, store_action. simpl. destruct (has _); [done|by left].
  - intros spec s s' _ [Hi HJ] Hs%requirement_step_emits. split; [by eapply emits_plan_inv|].
    apply (emits_actions wheels from_build s); [|done..]. intros ???? ->. by left.
  - intros w s s' Hw [Hi HJ] Hs%wheel_step_emits. split; [by eapply emits_plan_inv|].
    apply (emits_actions wheels (from_wheel w) s); [|done..]. intros. by eapply from_wheel_ok.
  - intros e s s' [Hi HJ] Hs%dep_step_emits. split; [by eapply emits_plan_inv|].
    apply (emits_actions wheels from_build s); [|done..]. intros ???? ->. by left.
Qed.
End facts.
