(* ===== verification/Hints.v ===== *)
(** [go-worker/internal/plan/hints.go]: hints from the catalog are matched
    against the nodes of a plan and against build logs, and the recipes they
    carry are collected, without duplicates, for the build.

    [regexp.Compile] and [MatchString] are a parameter (the class [Regexp]). *)
From S2P Require Import Prelude.
From S2P Require Import GoStr.
From S2P Require Import Parse.
From S2P Require Import PlanTypes.
From S2P Require Import Planner.
From Stdlib Require Import Ascii.
Local Open Scope string_scope.
Local Open Scope list_scope.
Local Open Scope nat_scope.

(** [re_compile p] is the matcher of [p], or [None] when [p] does not compile. *)
Class Regexp := { re_compile : string → option (string → bool) }.

Record hintContext := mkHintContext {
  hc_Package : string; hc_Version : string; hc_PythonVersion : string;
  hc_PythonTag : string; hc_PlatformTag : string; hc_BuildBackend : string }.

(** ** Helpers *)
Definition norm (s : string) : string := ToLower (TrimSpace s).

Definition platformFamily (platformTag : string) : string :=
  let ltag := ToLower platformTag in
  if Contains ltag "linux" || Contains ltag "manylinux" then "linux"
  else if Contains ltag "darwin" || Contains ltag "macos" || Contains ltag "macosx" then "darwin"
  else if Contains ltag "win" then "windows" else "".

Definition archFromPlatformTag (platformTag : string) : string :=
  if decide (platformTag = "") then ""
  else default "" (last (Split (ToLower platformTag) "_"%char)).

Definition pythonVersionFromTag (tag : string) : string :=
  let tag := norm tag in
  let rest := TrimPrefix tag "cp" in
  if HasPrefix tag "cp" && bool_decide (4 ≤ String.length tag) && bool_decide (2 ≤ String.length rest)
  then str_take 1 rest +:+ "." +:+ str_take 1 (str_drop 1 rest)
  else if HasPrefix tag "py" && bool_decide (2 < String.length tag) then TrimPrefix tag "py"
  else "".

Definition matchExact (value : string) (allowed : list string) : bool :=
  if decide (value = "") then false
  else existsb (λ v, bool_decide (norm value = norm v)) allowed.

Definition matchPlatform (family platformTag : string) (allowed : list string) : bool :=
  if decide (family = "" ∧ platformTag = "") then false
  else
    let ltag := ToLower platformTag in
    existsb (λ v, negb (bool_decide (v = "")) &&
      ((negb (bool_decide (family = "")) && bool_decide (v = family)) ||
       (negb (bool_decide (ltag = "")) && Contains ltag v))) allowed.

Definition matchTags (pkg : string) (tags : list string) : bool :=
  if decide (pkg = "") then false
  else existsb (λ tag, let t := norm tag in negb (bool_decide (t = "")) && Contains pkg t) tags.

(** [valuesForKeys]: the values under any of the keys, without duplicates. *)
Definition uniq_value (v : string) : option (string * string) :=
  let t := norm v in if decide (t = "") then None else Some (t, t).
Definition valuesForKeys (m : gmap string (list string)) (keys : list string) : list string :=
  dedupe uniq_value ∅
    (concat ((λ key, let k := norm key in
                if decide (k = "") then [] else default [] (m !! k)) <$> keys)).

(** [dedupeRecipes]: the first recipe of each name, up to case and white space,
    in the order of the names.  The values leave the map in any order. *)
Definition recipe_key (r : RecipeMatch) : string := norm (rm_Name r).
Definition keep_first (seen : gmap string RecipeMatch) (r : RecipeMatch) : gmap string RecipeMatch :=
  if decide (recipe_key r = "") then seen
  else match seen !! recipe_key r with Some _ => seen | None => <[recipe_key r := r]> seen end.

Section hints.
Context `{GoRuntime, Regexp}.

Definition matchAnyPattern (value : string) (patterns : list string) : bool :=
  if decide (value = "") then false
  else existsb (λ p, negb (bool_decide (p = "")) &&
         match re_compile p with Some re => re value | None => false end) patterns.

(** Two keys that are equal up to case and white space overwrite each other in
    the order the map is visited. *)
Definition applies_entry (kv : string * list string) : option (string * list string) :=
  let key := norm (kv.1) in
  let vals := filter (λ t, t ≠ "") (norm <$> kv.2) in
  if decide (key = "" ∨ vals = []) then None else Some (key, vals).
Definition normalizeAppliesTo (m : gmap string (list string)) : gmap string (list string) :=
  fill_map (omap applies_entry (map_range m)).

Definition dedupeRecipes (l : list RecipeMatch) : list RecipeMatch :=
  sort_slice_stable (less_by rm_Name) (snd <$> map_range (foldl keep_first ∅ l)).

Definition recipesFromHint (h : Hint) (reason : string) : list RecipeMatch :=
  concat ((λ mgr,
    (λ step, mkRecipeMatch (mgr +:+ ":" +:+ TrimSpace step) ""
               ("hint " +:+ h_ID h +:+ ": " +:+ reason))
    <$> default [] (h_Recipes h !! mgr)) <$> sort_strings (fst <$> map_range (h_Recipes h))).

(** *** The gates

    [matchHint] and [hintAppliesTo] test the same eight dimensions in the same
    order; a dimension without values is skipped.  [gt_specific] marks the
    three that make a match specific to a package in [matchHint]. *)
Record gate := mkGate {
  gt_keys : list string; gt_check : list string → bool; gt_reason : string; gt_specific : bool }.

Definition context_pyVersion (ctx : hintContext) : string :=
  let pyVersion := TrimSpace (hc_PythonVersion ctx) in
  if decide (pyVersion = "") then pythonVersionFromTag (hc_PythonTag ctx) else pyVersion.

Definition gates (ctx : hintContext) : list gate :=
  let pkg := normalizeName (hc_Package ctx) in
  let pyVersion := context_pyVersion ctx in
  let platform := platformFamily (hc_PlatformTag ctx) in
  let arch := archFromPlatformTag (hc_PlatformTag ctx) in
  [ mkGate ["packages"; "package"; "package_names"] (matchExact pkg) ("package=" +:+ pkg) true;
    mkGate ["package_patterns"; "package_pattern"] (matchAnyPattern pkg) "package pattern" true;
    mkGate ["platforms"; "platform"] (matchPlatform platform (hc_PlatformTag ctx))
      ("platform=" +:+ platform) false;
    mkGate ["arch"; "archs"] (matchExact arch) ("arch=" +:+ arch) false;
    mkGate ["python_versions"; "python_version"] (matchExact pyVersion)
      ("python=" +:+ pyVersion) false;
    mkGate ["python_tags"; "python_tag"] (matchExact (ToLower (hc_PythonTag ctx)))
      ("tag=" +:+ hc_PythonTag ctx) false;
    mkGate ["platform_tags"; "platform_tag"] (matchExact (ToLower (hc_PlatformTag ctx)))
      ("platform_tag=" +:+ hc_PlatformTag ctx) false;
    mkGate ["build_backends"; "build_backend"]
      (λ vals, negb (bool_decide (hc_BuildBackend ctx = "")) &&
               matchExact (ToLower (hc_BuildBackend ctx)) vals)
      ("backend=" +:+ hc_BuildBackend ctx) true ].

(** The reasons of the gates that have values, and whether one was specific;
    [None] when one of them fails. *)
Fixpoint run_gates (applies : gmap string (list string)) (gs : list gate)
    (reasons : list string) (specific : bool) : option (list string * bool) :=
  match gs with
  | [] => Some (reasons, specific)
  | g :: gs' =>
    match valuesForKeys applies (gt_keys g) with
    | [] => run_gates applies gs' reasons specific
    | vals => if gt_check g vals
              then run_gates applies gs' (reasons ++ [gt_reason g]) (gt_specific g || specific)
              else None
    end
  end.

Definition hint_match (h : Hint) (reason : string) : HintMatch :=
  mkHintMatch (h_ID h) (h_Pattern h) (h_Note h) reason (h_Tags h) (h_Recipes h).

Definition matchHint (h : Hint) (ctx : hintContext) : option (HintMatch * list RecipeMatch) :=
  let pkg := normalizeName (hc_Package ctx) in
  if decide (pkg = "") then None
  else
    '(reasons, specific) ← run_gates (normalizeAppliesTo (h_AppliesTo h)) (gates ctx) [] false;
    let by_tag := negb specific && matchTags pkg (h_Tags h) in
    let reasons := if by_tag then reasons ++ ["tag match"] else reasons in
    if specific || by_tag then
      let reason := Join reasons "; " in
      Some (hint_match h reason, recipesFromHint h reason)
    else None.

Definition hintAppliesTo (h : Hint) (ctx : hintContext) : bool * list string :=
  let applies := normalizeAppliesTo (h_AppliesTo h) in
  if decide (applies = ∅) then (true, [])
  else match run_gates applies (gates ctx) [] false with
       | Some (reasons, _) => (true, reasons)
       | None => (false, [])
       end.

Definition MatchHintForLog (h : Hint) (ctx : hintContext) (logContent : string)
    : option (HintMatch * list RecipeMatch) :=
  if decide (h_Pattern h = "") then None
  else match re_compile (h_Pattern h) with
       | None => None
       | Some re =>
         if re logContent then
           match hintAppliesTo h ctx with
           | (false, _) => None
           | (true, reasons) =>
             let reason := match reasons with
                           | [] => "log pattern"
                           | _ => "log pattern; " +:+ Join reasons "; "
                           end in
             Some (hint_match h reason, recipesFromHint h reason)
           end
         else None
       end.

Definition matchHints (hints : list Hint) (ctx : hintContext)
    : list HintMatch * list RecipeMatch :=
  let found := omap (λ h, matchHint h ctx) hints in
  match found with
  | [] => ([], [])
  | _ => (sort_slice_stable (less_by hm_ID) (fst <$> found),
          dedupeRecipes (concat (snd <$> found)))
  end.

Definition node_context (n : FlatNode) : hintContext :=
  mkHintContext (fn_Name n) (fn_Version n) (fn_PythonVersion n) (fn_PythonTag n)
    (fn_PlatformTag n) "".
Definition attach_node (hints : list Hint) (n : FlatNode) : FlatNode :=
  match matchHints hints (node_context n) with
  | ([], []) => n
  | (matches, recipes) =>
    mkFlatNode (fn_Name n) (fn_Version n) (fn_PythonVersion n) (fn_PythonTag n)
      (fn_PlatformTag n) (fn_Action n) matches recipes
  end.
Definition AttachHints (snap : Snapshot) (hints : list Hint) : Snapshot :=
  if decide (hints = [] ∨ sn_Plan snap = []) then snap
  else mkSnapshot (sn_RunID snap) (attach_node hints <$> sn_Plan snap) (sn_DAG snap) (sn_CAS snap).
End hints.

(** ** Lemmas *)
Section facts.
Context `{GoRuntime, Regexp}.

(** *** What the collected recipes are *)
Definition recipe_map_inv (m : gmap string RecipeMatch) : Prop :=
  map_Forall (λ k r, recipe_key r = k ∧ k ≠ "") m.

Lemma keep_first_inv m r : recipe_map_inv m → recipe_map_inv (keep_first m r).
Proof using Type.
  intros Hm. unfold keep_first. case_decide; [done|]. destruct (m !! recipe_key r); [done|].
  by apply map_Forall_insert_2.
Qed.

Lemma keep_first_fold l m :
  recipe_map_inv m →
  recipe_map_inv (foldl keep_first m l) ∧ m ⊆ foldl keep_first m l ∧
  (∀ k r, foldl keep_first m l !! k = Some r → m !! k = Some r ∨ r ∈ l) ∧
  (∀ r, r ∈ l → recipe_key r ≠ "" → is_Some (foldl keep_first m l !! recipe_key r)).
Proof using Type.
  revert m. induction l as [|r l IH]; intros m Hm; simpl.
  { split_and!; [done|done|by left|set_solver]. }
  destruct (IH (keep_first m r)) as (Hinv & Hsub & Hfrom & Hall); [by apply keep_first_inv|].
  assert (Hstep : m ⊆ keep_first m r ∧
    (∀ k r', keep_first m r !! k = Some r' → m !! k = Some r' ∨ r' = r) ∧
    (recipe_key r ≠ "" → is_Some (keep_first m r !! recipe_key r))).
  { unfold keep_first. case_decide; [split_and!; eauto; done|].
    destruct (m !! recipe_key r) eqn:E; [split_and!; eauto|].
    split_and!.
    - by apply insert_subseteq.
    - intros k r' [[_ ->]|[_ ?]]%lookup_insert_Some; eauto.
    - intros _. rewrite lookup_insert_eq. eauto. }
  destruct Hstep as (Hsub' & Hfrom' & Hself). split_and!; [done|by etrans| |].
  - intros k r' [Hk|Hk]%Hfrom; [|set_solver]. apply Hfrom' in Hk as [?| ->]; [by left|set_solver].
  - intros r' [->|Hr]%elem_of_cons Hne; [|auto].
    destruct (Hself Hne) as [r'' Hr'']. exists r''. by eapply lookup_weaken.
Qed.

Lemma recipe_map_values_inj m k1 k2 r1 r2 :
  recipe_map_inv m → m !! k1 = Some r1 → m !! k2 = Some r2 → recipe_key r1 = recipe_key r2 → r1 = r2.
Proof using Type. intros Hm Hr1 Hr2 Heq. destruct (Hm _ _ Hr1) as [<- _], (Hm _ _ Hr2) as [<- _]. congruence. Qed.

Lemma dedupeRecipes_elem l r :
  r ∈ dedupeRecipes l ↔ foldl keep_first ∅ l !! recipe_key r = Some r.
Proof using Type.
  unfold dedupeRecipes. rewrite sort_slice_stable_perm, map_range_perm, list_elem_of_fmap.
  destruct (keep_first_fold l ∅) as (Hinv & _); [apply map_Forall_empty|]. split.
  - intros ([k r'] & -> & Hin%elem_of_map_to_list). simpl. destruct (Hinv _ _ Hin) as [<- _]. done.
  - intros Hl. exists (recipe_key r, r). split; [done|]. by apply elem_of_map_to_list.
Qed.
End facts.

(** Two runtimes visit a map in orders that differ by a permutation. *)
Lemma map_range_unordered (R1 R2 : GoRuntime) {K} `{Countable K} {V} (m : gmap K V) :
  @map_range R1 K _ _ V m ≡ₚ @map_range R2 K _ _ V m.
Proof. by rewrite !map_range_perm. Qed.

Lemma dedupeRecipes_unordered (R1 R2 : GoRuntime) l :
  @dedupeRecipes R1 l = @dedupeRecipes R2 l.
Proof.
  apply sort_stable_by_unique; [by rewrite (map_range_unordered R1 R2 (foldl keep_first ∅ l))|].
  destruct (keep_first_fold l ∅) as (Hinv & _); [apply map_Forall_empty|].
  intros x y. rewrite map_range_perm, !list_elem_of_fmap.
  intros ([k r] & -> & Hr%elem_of_map_to_list) ([k' r'] & -> & Hr'%elem_of_map_to_list) Heq.
  simpl in *. eapply recipe_map_values_inj; [done..|]. unfold recipe_key. by rewrite Heq.
Qed.

Lemma recipesFromHint_unordered (R1 R2 : GoRuntime) h reason :
  @recipesFromHint R1 h reason = @recipesFromHint R2 h reason.
Proof.
  unfold recipesFromHint. f_equal. f_equal. apply sort_strings_unique.
  by rewrite (map_range_unordered R1 R2).
Qed.

(** The keys of a hint's [applies_to] are told apart by more than case. *)
Definition distinct_keys (h : Hint) : Prop :=
  ∀ k1 k2, k1 ∈ dom (h_AppliesTo h) → k2 ∈ dom (h_AppliesTo h) → norm k1 = norm k2 → k1 = k2.

Lemma normalizeAppliesTo_unordered (R1 R2 : GoRuntime) h :
  distinct_keys h →
  @normalizeAppliesTo R1 (h_AppliesTo h) = @normalizeAppliesTo R2 (h_AppliesTo h).
Proof.
  intros Hd. apply fill_map_unordered; [|by rewrite (map_range_unordered R1 R2)].
  apply (NoDup_omap_keys _ fst); [rewrite map_range_perm; apply NoDup_fst_map_to_list|].
  intros [k1 v1] [k2 v2] [a1 w1] [a2 w2]. rewrite map_range_perm, !elem_of_map_to_list.
  intros Hk1 Hk2 H1 H2 Heq. unfold applies_entry in H1, H2. simpl in *.
  apply Hd; [by eapply elem_of_dom_2..|]. repeat case_decide; by simplify_eq.
Qed.

(** *** What the gates decide *)
Section gates.
Context `{GoRuntime, Regexp}.

(** A dimension lets a context through when it has no values or its test
    accepts them; it names the package when it has values and is specific. *)
Definition gate_open (applies : gmap string (list string)) (g : gate) : Prop :=
  valuesForKeys applies (gt_keys g) = [] ∨ gt_check g (valuesForKeys applies (gt_keys g)) = true.
Definition gate_names (applies : gmap string (list string)) (g : gate) : Prop :=
  valuesForKeys applies (gt_keys g) ≠ [] ∧ gt_specific g = true.

Lemma run_gates_spec applies gs reasons specific :
  match run_gates applies gs reasons specific with
  | Some (_, s) => Forall (gate_open applies) gs ∧
                   (s = true ↔ specific = true ∨ Exists (gate_names applies) gs)
  | None => ¬ Forall (gate_open applies) gs
  end.
Proof using Type.
  revert reasons specific. induction gs as [|g gs IH]; intros reasons specific; simpl.
  { split; [constructor|]. rewrite Exists_nil. tauto. }
  destruct (valuesForKeys applies (gt_keys g)) as [|v vs] eqn:E;
    [|destruct (gt_check g (v :: vs)) eqn:Hc].
  - assert (gate_open applies g) by by left.
    assert (¬ gate_names applies g) by by intros [? _].
    specialize (IH reasons specific). destruct (run_gates _ _ _ _) as [[? s]|];
      rewrite Forall_cons, ?Exists_cons; naive_solver.
  - assert (gate_open applies g) by (right; by rewrite E).
    assert (gate_names applies g ↔ gt_specific g = true) 
      by (unfold gate_names; rewrite E; split; [by intros [_ ?]|by intros ?]).
    specialize (IH (reasons ++ [gt_reason g]) (gt_specific g || specific)).
    destruct (run_gates _ _ _ _) as [[? s]|];
      rewrite Forall_cons, ?Exists_cons, ?orb_true_iff in *; naive_solver.
  - rewrite Forall_cons. unfold gate_open at 1. rewrite E, Hc. naive_solver.
Qed.


(** The recipes handed to a build: no two with the same name up to case and
    white space, in the order of their names, each one from the input, and for
    every named recipe of the input the first with its name. *)
Theorem dedupeRecipes_spec l :
  NoDup (recipe_key <$> dedupeRecipes l) ∧
  StronglySorted (λ a b, String.le (rm_Name a) (rm_Name b)) (dedupeRecipes l) ∧
  (∀ r, r ∈ dedupeRecipes l → r ∈ l) ∧
  (∀ l1 r l2, l = l1 ++ r :: l2 → recipe_key r ≠ "" →
    (∀ r', r' ∈ l1 → recipe_key r' ≠ recipe_key r) → r ∈ dedupeRecipes l).
Proof using Type.
  destruct (keep_first_fold l ∅) as (Hinv & _ & Hfrom & _); [apply map_Forall_empty|].
  split_and!.
  - unfold dedupeRecipes. rewrite sort_slice_stable_perm, map_range_perm.
    rewrite <-list_fmap_compose.
    rewrite (list_fmap_ext _ fst); [apply NoDup_fst_map_to_list|].
    intros i [k r] Hi%list_elem_of_lookup_2%elem_of_map_to_list. simpl. by destruct (Hinv _ _ Hi).
  - apply sort_stable_by_sorted.
  - intros r [Hr|?]%dedupeRecipes_elem%Hfrom; [|done]. done.
  - intros l1 r l2 -> Hne Hfirst. apply dedupeRecipes_elem. rewrite foldl_app. simpl.
    destruct (keep_first_fold l1 ∅) as (Hinv1 & _ & Hfrom1 & _); [apply map_Forall_empty|].
    assert (Hnone : foldl keep_first ∅ l1 !! recipe_key r = None).
    { destruct (foldl keep_first ∅ l1 !! recipe_key r) as [r'|] eqn:E; [|done].
      destruct (Hinv1 _ _ E) as [Hk _]. apply Hfrom1 in E as [?|Hin]; [done|].
      by destruct (Hfirst r' Hin). }
    destruct (keep_first_fold l2 (keep_first (foldl keep_first ∅ l1) r)) as (_ & Hsub & _).
    { by apply keep_first_inv. }
    eapply lookup_weaken; [|exact Hsub]. clear Hsub.
    set (m := foldl keep_first ∅ l1) in *. unfold keep_first. rewrite decide_False, Hnone by done.
    by rewrite lookup_insert_eq.
Qed.

Lemma attach_node_context hints n : node_context (attach_node hints n) = node_context n.
Proof using Type. unfold attach_node. by destruct (matchHints hints _) as [[] []]. Qed.
Lemma attach_node_idem hints n : attach_node hints (attach_node hints n) = attach_node hints n.
Proof using Type.
  unfold attach_node at 1. rewrite attach_node_context. unfold attach_node.
  by destruct (matchHints hints (node_context n)) as [[] []].
Qed.

(** Attaching hints changes nothing but the hints and recipes of the nodes,
    and attaching them twice is attaching them once. *)
Theorem AttachHints_spec snap hints :
  (λ n, (fn_Name n, fn_Version n, fn_PythonVersion n, fn_PythonTag n, fn_PlatformTag n,
         fn_Action n)) <$> sn_Plan (AttachHints snap hints) =
  ((λ n, (fn_Name n, fn_Version n, fn_PythonVersion n, fn_PythonTag n, fn_PlatformTag n,
         fn_Action n)) <$> sn_Plan snap) ∧
  sn_DAG (AttachHints snap hints) = sn_DAG snap ∧
  AttachHints (AttachHints snap hints) hints = AttachHints snap hints.
Proof using Type.
  unfold AttachHints. case_decide as Hd; [split_and!; [done..|by rewrite decide_True]|]. simpl.
  split_and!; [|done|].
  - rewrite <-list_fmap_compose. apply list_fmap_ext. intros i n _. unfold compose, attach_node.
    by destruct (matchHints hints _) as [[] []].
  - rewrite decide_False by (intros [?|Hn%fmap_nil_inv]; tauto). f_equal.
    rewrite <-list_fmap_compose. apply list_fmap_ext. intros i n _. apply attach_node_idem.
Qed.
End gates.

(** Attaching hints does not depend on the order in which Go visits a map: any
    two runtimes give the same plan, for hints whose [applies_to] keys differ by
    more than case and white space. *)
Theorem AttachHints_deterministic `{Regexp} (R1 R2 : GoRuntime) snap hints :
  Forall distinct_keys hints → @AttachHints R1 _ snap hints = @AttachHints R2 _ snap hints.
Proof.
  intros Hd. unfold AttachHints. case_decide as Hc; [done|clear Hc]. f_equal. apply list_fmap_ext. intros i n _.
  unfold attach_node. enough (@matchHints R1 _ hints (node_context n) =
    @matchHints R2 _ hints (node_context n)) as -> by done.
  unfold matchHints. rewrite (dedupeRecipes_unordered R1 R2).
  enough (omap (λ h, @matchHint R1 _ h (node_context n)) hints =
    omap (λ h, @matchHint R2 _ h (node_context n)) hints) as -> by done.
  induction Hd as [|h hints Hh Hd IH]; simpl; [done|].
  assert (@matchHint R1 _ h (node_context n) = @matchHint R2 _ h (node_context n)) as ->.
  { unfold matchHint. rewrite (normalizeAppliesTo_unordered R1 R2) by done.
    case_decide; [done|]. destruct (run_gates _ _ _ _) as [[reasons s]|]; [|done]. simpl.
    by rewrite (recipesFromHint_unordered R1 R2). }
  destruct (matchHint h (node_context n)); [f_equal|]; apply IH.
Qed.

(** The Python version read back from a tag keeps one digit of the minor
    version: the tag of "3.11" reads as "3.1". *)
Theorem pythonVersionFromTag_truncates d1 d2 :
  is_digit d1 = true → is_digit d2 = true →
  pythonVersionFromTag (Plan.normalizePyTag (String "3" (String "." (String d1 (String d2 "")))))
    = String "3" (String "." (String d1 "")).
Proof.
  intros H1%is_digit_cases H2%is_digit_cases.
  unfold digits in H1, H2.
  repeat (apply elem_of_cons in H1 as [->|H1];
    [repeat (apply elem_of_cons in H2 as [->|H2]; [reflexivity|]); by apply not_elem_of_nil in H2|]).
  by apply not_elem_of_nil in H1.
Qed.

(** ** Witnesses *)
(** Patterns without special characters match where they occur. *)
Definition literal_regexp : Regexp := {| re_compile p := Some (λ s, Contains s p) |}.

Definition sample_hint : Hint :=
  mkHint "h1" "gcc" (list_to_map [("dnf", ["gcc"; " libffi-devel"]); ("apt", ["gcc"])]) "" []
    "error" (list_to_map [("packages", ["cffi"]); ("platforms", ["linux"])]) "" [].
Definition sample_hint_plan : Snapshot :=
  mkSnapshot "run" [mkFlatNode "cffi" "1.16" "3.11" "cp311" "linux_s390x" "build" [] []] [] None.

Lemma AttachHints_deterministic_witness :
  @AttachHints reference_runtime literal_regexp sample_hint_plan [sample_hint] =
  @AttachHints reversed_runtime literal_regexp sample_hint_plan [sample_hint].
Proof.
  apply (@AttachHints_deterministic literal_regexp reference_runtime reversed_runtime).
  constructor; [|constructor]. intros k1 k2. rewrite !elem_of_dom. simpl.
  intros [? [[<- _]|[_ [[<- _]|[_ ?]]%lookup_insert_Some]]%lookup_insert_Some]
         [? [[<- _]|[_ [[<- _]|[_ ?]]%lookup_insert_Some]]%lookup_insert_Some] Heq; done.
Defined.

Lemma pythonVersionFromTag_truncates_witness :
  pythonVersionFromTag (Plan.normalizePyTag "3.11") = "3.1".
Proof. exact (pythonVersionFromTag_truncates "1" "1" eq_refl eq_refl). Defined.
