(* ===== verification/Queue.v ===== *)
(** [go-worker/internal/queue] and [go-control-plane/internal/queue]: the queue
    of build requests, its file and Redis backends, and the queue of plan IDs.

    [Backend] is the interface [queue.Backend]; [LawfulBackend] is what it
    promises its callers: a first-in first-out list.  Both backends implement it
    and the theorem about runs of a queue is proved against it.  JSON coding and
    the Redis server are parameters, with their documented behaviour as laws. *)
From S2P Require Import Prelude.
From S2P Require Import GoStr.
From S2P Require Import Http.
From Stdlib Require Import Ascii.
Local Open Scope string_scope.
Local Open Scope list_scope.
Local Open Scope nat_scope.

Record Request := mkRequest {
  rq_Package : string; rq_Version : string; rq_PythonVersion : string; rq_PythonTag : string;
  rq_PlatformTag : string; rq_Recipes : list string; rq_EnqueuedAt : Z; rq_Attempts : Z;
  rq_PlanID : Z; rq_RunID : string }.
#[export] Instance Request_eq_dec : EqDecision Request.
Proof. solve_decision. Defined.
Record Stats := mkStats { st_Length : Z; st_OldestAge : Z }.

(** [Enqueue] stamps a request that has no time yet. *)
Definition stamp (now : Z) (r : Request) : Request :=
  if decide (rq_EnqueuedAt r = 0%Z)
  then mkRequest (rq_Package r) (rq_Version r) (rq_PythonVersion r) (rq_PythonTag r)
         (rq_PlatformTag r) (rq_Recipes r) now (rq_Attempts r) (rq_PlanID r) (rq_RunID r)
  else r.
(** The control plane's Redis queue also clears negative attempts. *)
Definition clamp_attempts (r : Request) : Request :=
  if decide (rq_Attempts r < 0)%Z
  then mkRequest (rq_Package r) (rq_Version r) (rq_PythonVersion r) (rq_PythonTag r)
         (rq_PlatformTag r) (rq_Recipes r) (rq_EnqueuedAt r) 0 (rq_PlanID r) (rq_RunID r)
  else r.

(** ** The interface *)
Class Backend (Q : Type) := {
  q_Enqueue : Ctx → Z → Request → Q → option string * Q;
  q_List : Ctx → Q → result (list Request) * Q;
  q_Clear : Ctx → Q → option string * Q;
  q_Stats : Ctx → Z → Q → result Stats * Q;
  q_Pop : Ctx → Z → Q → (list Request * option string) * Q }.

(** [q_items] is the abstract list; a backend whose storage is unreadable has
    none.  An operation that fails leaves the list alone, except that a failing
    [q_Pop] has removed the requests it returns next to its error. *)
Class LawfulBackend (Q : Type) `{Backend Q} (q_stamp : Z → Request → Request) := {
  q_items : Q → option (list Request);
  law_Enqueue ctx now r q l : q_items q = Some l →
    let '(e, q') := q_Enqueue ctx now r q in
    q_items q' = Some (if e is None then l ++ [q_stamp now r] else l);
  law_List ctx q l : q_items q = Some l →
    let '(res, q') := q_List ctx q in
    q_items q' = Some l ∧ if res is Ok l' then l' = l else True;
  law_Clear ctx q l : q_items q = Some l →
    let '(e, q') := q_Clear ctx q in q_items q' = Some (if e is None then [] else l);
  law_Stats ctx now q l : q_items q = Some l →
    q_items (q_Stats ctx now q).2 = Some l;
  law_Pop ctx max q l : q_items q = Some l →
    let '((out, _), q') := q_Pop ctx max q in
    ∃ rest, q_items q' = Some rest ∧ l = out ++ rest }.

(** ** JSON *)
Class Codec (A : Type) := {
  marshal : A → string;
  unmarshal : string → option A;
  unmarshal_marshal a : unmarshal (marshal a) = Some a;
  marshal_nonempty a : marshal a ≠ "" }.

(** ** FileQueue: a JSON list in one file *)
Section file_queue.
Context `{Machine, Codec (list Request)} (path : string).

Definition FileQueue_load (fs : Files) : result (list Request) :=
  match fs !! path with
  | None => Ok []
  | Some data =>
    if decide (data = "") then Ok []
    else match unmarshal data with Some items => Ok items | None => Err "invalid JSON" end
  end.
Definition FileQueue_save (items : list Request) (fs : Files) : result Files :=
  write_file path (marshal items) fs.

Definition FileQueue_Enqueue (ctx : Ctx) (now : Z) (r : Request) (fs : Files)
    : option string * Files :=
  if ctx_cancelled ctx then (Some "context canceled", fs)
  else match FileQueue_load fs with
       | Err e => (Some e, fs)
       | Ok items =>
         match FileQueue_save (items ++ [stamp now r]) fs with
         | Ok fs' => (None, fs')
         | Err e => (Some e, fs)
         end
       end.
Definition FileQueue_List (ctx : Ctx) (fs : Files) : result (list Request) * Files :=
  if ctx_cancelled ctx then (Err "context canceled", fs) else (FileQueue_load fs, fs).
Definition FileQueue_Clear (ctx : Ctx) (fs : Files) : option string * Files :=
  if ctx_cancelled ctx then (Some "context canceled", fs)
  else match FileQueue_save [] fs with Ok fs' => (None, fs') | Err e => (Some e, fs) end.
Definition FileQueue_Stats (ctx : Ctx) (now : Z) (fs : Files) : result Stats * Files :=
  if ctx_cancelled ctx then (Err "context canceled", fs)
  else match FileQueue_load fs with
       | Err e => (Err e, fs)
       | Ok [] => (Ok (mkStats 0 0), fs)
       | Ok (r :: items) =>
         let oldest := foldl (λ o it, Z.min o (rq_EnqueuedAt it)) (rq_EnqueuedAt r) items in
         (Ok (mkStats (Z.of_nat (S (length items))) (now - oldest)), fs)
       end.
Definition FileQueue_Pop (ctx : Ctx) (max : Z) (fs : Files)
    : (list Request * option string) * Files :=
  if ctx_cancelled ctx then (([], Some "context canceled"), fs)
  else match FileQueue_load fs with
       | Err e => (([], Some e), fs)
       | Ok items =>
         let n := if decide (max <= 0 ∨ Z.of_nat (length items) < max)%Z then length items
                  else Z.to_nat max in
         match FileQueue_save (drop n items) fs with
         | Err e => (([], Some e), fs)
         | Ok fs' => ((take n items, None), fs')
         end
       end.

#[export] Instance FileQueue_Backend : Backend Files := {|
  q_Enqueue := FileQueue_Enqueue; q_List := FileQueue_List; q_Clear := FileQueue_Clear;
  q_Stats := FileQueue_Stats; q_Pop := FileQueue_Pop |}.

Definition FileQueue_items (fs : Files) : option (list Request) :=
  if FileQueue_load fs is Ok items then Some items else None.

Lemma FileQueue_load_items fs l : FileQueue_items fs = Some l ↔ FileQueue_load fs = Ok l.
Proof using Type. unfold FileQueue_items. destruct (FileQueue_load fs); naive_solver. Qed.

(** Saving then loading. *)
Lemma FileQueue_save_load items fs fs' :
  FileQueue_save items fs = Ok fs' → FileQueue_items fs' = Some items.
Proof using Type.
  unfold FileQueue_save, write_file. case_match; intros; simplify_eq.
  apply FileQueue_load_items. unfold FileQueue_load. rewrite lookup_insert_eq.
  rewrite decide_False by apply marshal_nonempty. by rewrite unmarshal_marshal.
Qed.

#[export] Program Instance FileQueue_Lawful : LawfulBackend Files stamp := {|
  q_items := FileQueue_items |}.
Next Obligation.
  intros ctx now r fs l Hl. pose proof Hl as Hload%FileQueue_load_items. simpl.
  unfold FileQueue_Enqueue. destruct (ctx_cancelled ctx); [done|]. rewrite Hload.
  destruct (FileQueue_save _ fs) eqn:E; [|done]. by apply FileQueue_save_load in E.
Qed.
Next Obligation.
  intros ctx fs l Hl. pose proof Hl as Hload%FileQueue_load_items. simpl.
  unfold FileQueue_List. destruct (ctx_cancelled ctx); [done|]. by rewrite Hload.
Qed.
Next Obligation.
  intros ctx fs l Hl. simpl. unfold FileQueue_Clear. destruct (ctx_cancelled ctx); [done|].
  destruct (FileQueue_save [] fs) eqn:E; [|done]. by apply FileQueue_save_load in E.
Qed.
Next Obligation.
  intros ctx now fs l Hl. simpl. unfold FileQueue_Stats. by repeat case_match.
Qed.
Next Obligation.
  intros ctx max fs l Hl. pose proof Hl as Hload%FileQueue_load_items. simpl.
  unfold FileQueue_Pop. destruct (ctx_cancelled ctx); [by exists l|]. rewrite Hload.
  destruct (FileQueue_save _ fs) eqn:E; [|by exists l].
  apply FileQueue_save_load in E. eexists. split; [exact E|]. by rewrite take_drop.
Qed.
End file_queue.

(** ** Redis

    The commands on one list key, on a server whose state is [S].  A command
    that fails has not changed the list. *)
Class Redis (S : Type) := {
  rd_list : S → string → list string;
  rd_RPush : string → string → S → option string * S;
  rd_LPop : string → S → result (option string) * S;
  rd_LRange : string → S → result (list string) * S;
  rd_Del : string → S → option string * S;
  rd_LLen : string → S → result Z * S;
  rd_LIndex0 : string → S → result (option string) * S;
  rd_RPush_law k v s : let '(e, s') := rd_RPush k v s in
    rd_list s' k = if e is None then rd_list s k ++ [v] else rd_list s k;
  rd_LPop_law k s : let '(r, s') := rd_LPop k s in
    match r with
    | Ok (Some v) => rd_list s k = v :: rd_list s' k
    | Ok None => rd_list s k = [] ∧ rd_list s' k = []
    | Err _ => rd_list s' k = rd_list s k
    end;
  rd_LRange_law k s : let '(r, s') := rd_LRange k s in
    rd_list s' k = rd_list s k ∧ if r is Ok l then l = rd_list s k else True;
  rd_Del_law k s : let '(e, s') := rd_Del k s in
    rd_list s' k = if e is None then [] else rd_list s k;
  rd_LLen_law k s : let '(r, s') := rd_LLen k s in
    rd_list s' k = rd_list s k ∧ if r is Ok n then n = Z.of_nat (length (rd_list s k)) else True;
  rd_LIndex0_law k s : let '(r, s') := rd_LIndex0 k s in
    rd_list s' k = rd_list s k ∧ if r is Ok v then v = head (rd_list s k) else True }.

(** [client] is nil where the URL is empty or does not parse. *)
Record RedisQueue := mkRedisQueue { rdq_client : bool; rdq_key : string }.
Definition NewRedisQueue (parses : string → bool) (url key : string) : RedisQueue :=
  mkRedisQueue (negb (bool_decide (url = "")) && parses url)
    (if decide (key = "") then "refinery:queue" else key).
Definition NewPlanQueue (parses : string → bool) (url key : string) : RedisQueue :=
  mkRedisQueue (negb (bool_decide (url = "")) && parses url)
    (if decide (key = "") then "refinery:plan_queue" else key).

Section redis_queue.
Context {S : Type} `{Redis S, Codec Request} (rq : RedisQueue).
Abbreviation key := (rdq_key rq).

Definition redis_not_configured : string := "redis queue not configured".

Definition RedisQueue_push (r : Request) (s : S) : option string * S :=
  if rdq_client rq then rd_RPush key (marshal r) s else (Some redis_not_configured, s).
Definition RedisQueue_Enqueue (ctx : Ctx) (now : Z) (r : Request) : S → option string * S :=
  RedisQueue_push (stamp now r).
(** The control plane's copy clamps the attempts. *)
Definition RedisQueue_Enqueue_api (ctx : Ctx) (now : Z) (r : Request) : S → option string * S :=
  RedisQueue_push (clamp_attempts (stamp now r)).

Definition RedisQueue_List (ctx : Ctx) (s : S) : result (list Request) * S :=
  if rdq_client rq then
    let '(r, s') := rd_LRange key s in
    (match r with Ok vals => Ok (omap unmarshal vals) | Err e => Err e end, s')
  else (Err redis_not_configured, s).
Definition RedisQueue_Clear (ctx : Ctx) (s : S) : option string * S :=
  if rdq_client rq then rd_Del key s else (Some redis_not_configured, s).
Definition RedisQueue_Stats (ctx : Ctx) (now : Z) (s : S) : result Stats * S :=
  if rdq_client rq then
    let '(r, s1) := rd_LLen key s in
    match r with
    | Err e => (Err e, s1)
    | Ok n =>
      if decide (0 < n)%Z then
        let '(first, s2) := rd_LIndex0 key s1 in
        let age := match first with
                   | Ok (Some v) =>
                     match unmarshal v with
                     | Some r => if decide (0 < rq_EnqueuedAt r)%Z then (now - rq_EnqueuedAt r)%Z else 0%Z
                     | None => 0%Z
                     end
                   | _ => 0%Z
                   end in
        (Ok (mkStats n age), s2)
      else (Ok (mkStats n 0), s1)
    end
  else (Err redis_not_configured, s).

(** The loop of [Pop]: values that do not decode are dropped. *)
Fixpoint RedisQueue_pop_loop (n : nat) (items : list Request) (s : S)
    : (list Request * option string) * S :=
  match n with
  | O => ((items, None), s)
  | Datatypes.S n' =>
    match rd_LPop key s with
    | (Ok None, s') => ((items, None), s')
    | (Err e, s') => ((items, Some e), s')
    | (Ok (Some val), s') =>
      RedisQueue_pop_loop n' (items ++ if unmarshal val is Some r then [r] else []) s'
    end
  end.
Definition RedisQueue_Pop (ctx : Ctx) (max : Z) (s : S) : (list Request * option string) * S :=
  if rdq_client rq then
    RedisQueue_pop_loop (Z.to_nat (if decide (max <= 0)%Z then 1 else max)) [] s
  else (([], Some redis_not_configured), s).

Definition RedisQueue_Backend : Backend S := {|
  q_Enqueue := RedisQueue_Enqueue; q_List := RedisQueue_List; q_Clear := RedisQueue_Clear;
  q_Stats := RedisQueue_Stats; q_Pop := RedisQueue_Pop |}.
Definition RedisQueue_Backend_api : Backend S := {|
  q_Enqueue := RedisQueue_Enqueue_api; q_List := RedisQueue_List; q_Clear := RedisQueue_Clear;
  q_Stats := RedisQueue_Stats; q_Pop := RedisQueue_Pop |}.

(** The requests in the list; values that do not decode are not requests. *)
Definition RedisQueue_items (s : S) : list Request := omap unmarshal (rd_list s key).

Lemma RedisQueue_push_items r s :
  let '(e, s') := RedisQueue_push r s in
  RedisQueue_items s' = if e is None then RedisQueue_items s ++ [r] else RedisQueue_items s.
Proof using Type.
  unfold RedisQueue_push. destruct (rdq_client rq); [|done].
  pose proof (rd_RPush_law key (marshal r) s) as Hl.
  destruct (rd_RPush _ _ _) as [[e|] s']; unfold RedisQueue_items; rewrite Hl; [done|].
  rewrite omap_app. simpl. by rewrite unmarshal_marshal.
Qed.

Lemma RedisQueue_pop_loop_items n items s :
  let '((out, _), s') := RedisQueue_pop_loop n items s in
  out ++ RedisQueue_items s' = items ++ RedisQueue_items s.
Proof using Type.
  revert items s. induction n as [|n IH]; intros items s; simpl; [done|].
  pose proof (rd_LPop_law key s) as Hl. unfold RedisQueue_items.
  destruct (rd_LPop key s) as [[[val|]|e] s'].
  - specialize (IH (items ++ if unmarshal val is Some r then [r] else []) s').
    destruct (RedisQueue_pop_loop _ _ _) as [[out e] s'']. unfold RedisQueue_items in IH.
    rewrite IH, Hl, <-(assoc_L (++)). simpl. by destruct (unmarshal val).
  - by destruct Hl as [-> ->].
  - by rewrite Hl.
Qed.

Lemma RedisQueue_List_items ctx s :
  let '(res, s') := RedisQueue_List ctx s in
  RedisQueue_items s' = RedisQueue_items s ∧ if res is Ok l' then l' = RedisQueue_items s else True.
Proof using Type.
  unfold RedisQueue_List. destruct (rdq_client rq); [|done].
  pose proof (rd_LRange_law key s) as Hl. destruct (rd_LRange key s) as [[l|e] s'];
    unfold RedisQueue_items; destruct Hl as [-> Hl]; by subst.
Qed.

Lemma RedisQueue_Clear_items ctx s :
  let '(e, s') := RedisQueue_Clear ctx s in
  RedisQueue_items s' = if e is None then [] else RedisQueue_items s.
Proof using Type.
  unfold RedisQueue_Clear. destruct (rdq_client rq); [|done].
  pose proof (rd_Del_law key s) as Hl. destruct (rd_Del key s) as [[e|] s'];
    unfold RedisQueue_items; by rewrite Hl.
Qed.

Lemma RedisQueue_Stats_items ctx now s :
  RedisQueue_items (RedisQueue_Stats ctx now s).2 = RedisQueue_items s.
Proof using Type.
  unfold RedisQueue_Stats. destruct (rdq_client rq); [|done].
  pose proof (rd_LLen_law key s) as Hl. destruct (rd_LLen key s) as [[n|e] s1].
  - destruct Hl as [Hl _]. case_decide; simpl; [|unfold RedisQueue_items; by rewrite Hl].
    pose proof (rd_LIndex0_law key s1) as Hx. destruct (rd_LIndex0 key s1) as [first s2].
    destruct Hx as [Hx _]. unfold RedisQueue_items. simpl. by rewrite Hx, Hl.
  - destruct Hl as [Hl _]. unfold RedisQueue_items. simpl. by rewrite Hl.
Qed.

Lemma RedisQueue_Pop_items ctx max s :
  let '((out, _), s') := RedisQueue_Pop ctx max s in
  RedisQueue_items s = out ++ RedisQueue_items s'.
Proof using Type.
  unfold RedisQueue_Pop. destruct (rdq_client rq); [|done].
  pose proof (RedisQueue_pop_loop_items (Z.to_nat (if decide (max <= 0)%Z then 1 else max)) [] s).
  by destruct (RedisQueue_pop_loop _ _ _) as [[out e] s'].
Qed.
End redis_queue.

Section redis_lawful.
Context {S : Type} `{Redis S, Codec Request} (rq : RedisQueue).

Program Definition RedisQueue_Lawful : @LawfulBackend S (RedisQueue_Backend rq) stamp :=
  @Build_LawfulBackend S (RedisQueue_Backend rq) stamp (Some ∘ RedisQueue_items rq) _ _ _ _ _.
Next Obligation.
  intros ctx now r s l [= <-]. simpl. pose proof (RedisQueue_push_items rq (stamp now r) s) as Hp.
  unfold RedisQueue_Enqueue. destruct (RedisQueue_push _ _ _) as [[e|] s']; by rewrite Hp.
Qed.
Next Obligation.
  intros ctx s l [= <-]. simpl. pose proof (RedisQueue_List_items rq ctx s) as Hl.
  destruct (RedisQueue_List _ _ _) as [res s']. by destruct Hl as [-> Hl].
Qed.
Next Obligation.
  intros ctx s l [= <-]. simpl. pose proof (RedisQueue_Clear_items rq ctx s) as Hl.
  destruct (RedisQueue_Clear _ _ _) as [[e|] s']; by rewrite Hl.
Qed.
Next Obligation. intros ctx now s l [= <-]. simpl. by rewrite RedisQueue_Stats_items. Qed.
Next Obligation.
  intros ctx max s l [= <-]. simpl. pose proof (RedisQueue_Pop_items rq ctx max s) as Hp.
  destruct (RedisQueue_Pop _ _ _ _) as [[out e] s']. eauto.
Qed.

Program Definition RedisQueue_Lawful_api :
    @LawfulBackend S (RedisQueue_Backend_api rq) (λ now r, clamp_attempts (stamp now r)) :=
  @Build_LawfulBackend S (RedisQueue_Backend_api rq) _ (Some ∘ RedisQueue_items rq) _ _ _ _ _.
Next Obligation.
  intros ctx now r s l [= <-]. simpl.
  pose proof (RedisQueue_push_items rq (clamp_attempts (stamp now r)) s) as Hp.
  unfold RedisQueue_Enqueue_api. destruct (RedisQueue_push _ _ _) as [[e|] s']; by rewrite Hp.
Qed.
Next Obligation. apply RedisQueue_Lawful. Qed.
Next Obligation. apply RedisQueue_Lawful. Qed.
Next Obligation. apply RedisQueue_Lawful. Qed.
Next Obligation. apply RedisQueue_Lawful. Qed.
End redis_lawful.

(** ** Runs of a queue

    What a sequence of calls sent in and got out, whichever calls fail. *)
Inductive q_op :=
  | OpEnqueue (ctx : Ctx) (now : Z) (r : Request)
  | OpPop (ctx : Ctx) (max : Z)
  | OpList (ctx : Ctx)
  | OpStats (ctx : Ctx) (now : Z).

Section runs.
Context {Q : Type} `{B : Backend Q} (q_stamp : Z → Request → Request).

(** The requests accepted by one call, those it handed out, and the queue after it. *)
Definition q_run_op (op : q_op) (q : Q) : list Request * list Request * Q :=
  match op with
  | OpEnqueue ctx now r =>
    let '(e, q') := q_Enqueue ctx now r q in
    (if e is None then [q_stamp now r] else [], [], q')
  | OpPop ctx max => let '((out, _), q') := q_Pop ctx max q in ([], out, q')
  | OpList ctx => ([], [], (q_List ctx q).2)
  | OpStats ctx now => ([], [], (q_Stats ctx now q).2)
  end.
Fixpoint q_run (ops : list q_op) (q : Q) : list Request * list Request * Q :=
  match ops with
  | [] => ([], [], q)
  | op :: ops' =>
    let '(i, o, q1) := q_run_op op q in
    let '(ins, outs, q2) := q_run ops' q1 in
    (i ++ ins, o ++ outs, q2)
  end.

Context `{!LawfulBackend Q q_stamp}.

Lemma q_run_op_fifo op q l :
  q_items q = Some l →
  let '(i, o, q') := q_run_op op q in
  ∃ rest, q_items q' = Some rest ∧ l ++ i = o ++ rest.
Proof using Type.
  intros Hl. destruct op as [ctx now r|ctx max|ctx|ctx now]; simpl.
  - pose proof (law_Enqueue ctx now r q l Hl) as He.
    destruct (q_Enqueue ctx now r q) as [[e|] q']; eexists; split; [exact He| |exact He|done].
    by rewrite app_nil_r.
  - pose proof (law_Pop ctx max q l Hl) as Hp. destruct (q_Pop ctx max q) as [[out e] q'].
    destruct Hp as (rest & ? & ->). exists rest. by rewrite app_nil_r.
  - pose proof (law_List ctx q l Hl) as Hp. destruct (q_List ctx q) as [res q'].
    exists l. rewrite app_nil_r. naive_solver.
  - exists l. rewrite app_nil_r. split; [by apply law_Stats|done].
Qed.

End runs.

(** ** The queue of plan IDs ([PlanQueue]) *)
Section plan_queue.
Context {S : Type} `{Redis S, Codec (gmap string string)} (pq : RedisQueue).
Abbreviation key := (rdq_key pq).

Definition plan_queue_not_configured : string := "plan queue not configured".
Definition plan_payload_id (val : string) : option string :=
  payload ← unmarshal val; payload !! "pending_input_id".

Definition PlanQueue_Enqueue (id : string) (s : S) : option string * S :=
  if rdq_client pq then rd_RPush key (marshal {["pending_input_id" := id]}) s
  else (Some plan_queue_not_configured, s).
Fixpoint PlanQueue_pop_loop (n : nat) (out : list string) (s : S)
    : (list string * option string) * S :=
  match n with
  | O => ((out, None), s)
  | Datatypes.S n' =>
    match rd_LPop key s with
    | (Ok None, s') => ((out, None), s')
    | (Err e, s') => ((out, Some e), s')
    | (Ok (Some val), s') =>
      PlanQueue_pop_loop n' (out ++ if plan_payload_id val is Some id then [id] else []) s'
    end
  end.
Definition PlanQueue_Pop (max : Z) (s : S) : (list string * option string) * S :=
  if rdq_client pq then PlanQueue_pop_loop (Z.to_nat (if decide (max <= 0)%Z then 1 else max)) [] s
  else (([], Some plan_queue_not_configured), s).
(** [LLen(...).Val()]: 0 when the command fails. *)
Definition PlanQueue_Len (s : S) : result Z * S :=
  if rdq_client pq then
    let '(r, s') := rd_LLen key s in (Ok (if r is Ok n then n else 0%Z), s')
  else (Err plan_queue_not_configured, s).
Definition PlanQueue_Clear (s : S) : result (list string) * S :=
  if rdq_client pq then
    match rd_LRange key s with
    | (Err e, s1) => (Err e, s1)
    | (Ok vals, s1) =>
      match rd_Del key s1 with
      | (Some e, s2) => (Err e, s2)
      | (None, s2) => (Ok (omap plan_payload_id vals), s2)
      end
    end
  else (Err plan_queue_not_configured, s).

Definition PlanQueue_ids (s : S) : list string := omap plan_payload_id (rd_list s key).

Lemma PlanQueue_Enqueue_ids id s :
  let '(e, s') := PlanQueue_Enqueue id s in
  PlanQueue_ids s' = if e is None then PlanQueue_ids s ++ [id] else PlanQueue_ids s.
Proof using Type.
  unfold PlanQueue_Enqueue. destruct (rdq_client pq); [|done].
  pose proof (rd_RPush_law key (marshal ({["pending_input_id" := id]} : gmap string string)) s) as Hl.
  destruct (rd_RPush _ _ _) as [[e|] s']; unfold PlanQueue_ids; rewrite Hl; [done|].
  rewrite omap_app. simpl. unfold plan_payload_id at 2. by rewrite unmarshal_marshal.
Qed.
Lemma PlanQueue_pop_loop_ids n out s :
  let '((out', _), s') := PlanQueue_pop_loop n out s in
  out' ++ PlanQueue_ids s' = out ++ PlanQueue_ids s.
Proof using Type.
  revert out s. induction n as [|n IH]; intros out s; simpl; [done|].
  pose proof (rd_LPop_law key s) as Hl. unfold PlanQueue_ids.
  destruct (rd_LPop key s) as [[[val|]|e] s']; [|by destruct Hl as [-> ->]|by rewrite Hl].
  specialize (IH (out ++ if plan_payload_id val is Some id then [id] else []) s').
  destruct (PlanQueue_pop_loop _ _ _) as [[out' e] s'']. unfold PlanQueue_ids in IH.
  rewrite IH, Hl, <-(assoc_L (++)). simpl. by destruct (plan_payload_id val).
Qed.
Lemma PlanQueue_Pop_ids max s :
  let '((out, _), s') := PlanQueue_Pop max s in PlanQueue_ids s = out ++ PlanQueue_ids s'.
Proof using Type.
  unfold PlanQueue_Pop. destruct (rdq_client pq); [|done].
  pose proof (PlanQueue_pop_loop_ids (Z.to_nat (if decide (max <= 0)%Z then 1 else max)) [] s) as Hloop.
  by destruct (PlanQueue_pop_loop _ _ _) as [[out e] s'].
Qed.
Lemma PlanQueue_Clear_ids s :
  let '(r, s') := PlanQueue_Clear s in
  if r is Ok removed then removed = PlanQueue_ids s ∧ PlanQueue_ids s' = []
  else PlanQueue_ids s' = PlanQueue_ids s.
Proof using Type.
  unfold PlanQueue_Clear. destruct (rdq_client pq); [|done].
  pose proof (rd_LRange_law key s) as Hl. destruct (rd_LRange key s) as [[vals|e] s1];
    destruct Hl as [Hl Hv]; [subst vals|unfold PlanQueue_ids; by rewrite Hl].
  pose proof (rd_Del_law key s1) as Hd. destruct (rd_Del key s1) as [[e|] s2];
    unfold PlanQueue_ids; rewrite Hd, ?Hl; done.
Qed.

(** The queue of plan IDs: an accepted ID is appended, [Pop] hands out IDs
    from the front and keeps the rest, and [Clear] returns exactly the IDs it
    removes. *)
Theorem PlanQueue_spec id max s :
  (let '(e, s') := PlanQueue_Enqueue id s in
   PlanQueue_ids s' = if e is None then PlanQueue_ids s ++ [id] else PlanQueue_ids s) ∧
  (let '((out, _), s') := PlanQueue_Pop max s in PlanQueue_ids s = out ++ PlanQueue_ids s') ∧
  (let '(r, s') := PlanQueue_Clear s in
   if r is Ok removed then removed = PlanQueue_ids s ∧ PlanQueue_ids s' = []
   else PlanQueue_ids s' = PlanQueue_ids s).
Proof using Type.
  split_and!; [apply PlanQueue_Enqueue_ids|apply PlanQueue_Pop_ids|apply PlanQueue_Clear_ids].
Qed.
End plan_queue.

(** ** Witnesses *)
#[export] Instance Request_countable : Countable Request.
Proof.
  refine (inj_countable'
    (λ r, (rq_Package r, rq_Version r, rq_PythonVersion r, rq_PythonTag r, rq_PlatformTag r,
           rq_Recipes r, rq_EnqueuedAt r, rq_Attempts r, rq_PlanID r, rq_RunID r))
    (λ '(a, b, c, d, e, f, g, h, i, j), mkRequest a b c d e f g h i j) _).
  by intros [].
Defined.

(** A code for any countable type: the binary digits of its number. *)
Fixpoint pos_digits (p : positive) : string :=
  match p with
  | xH => "1" | xO p => String "0"%char (pos_digits p) | xI p => String "x"%char (pos_digits p)
  end.
Fixpoint digits_pos (s : string) : positive :=
  match s with
  | EmptyString => 1
  | String c s' => if decide (c = "1"%char) then 1
                   else if decide (c = "0"%char) then (digits_pos s')~0 else (digits_pos s')~1
  end.
Lemma digits_pos_digits p : digits_pos (pos_digits p) = p.
Proof. induction p; simpl; congruence. Qed.
Lemma pos_digits_nonempty p : pos_digits p ≠ "".
Proof. by destruct p. Qed.

#[export, refine] Instance countable_codec {A} `{Countable A} : Codec A := {|
  marshal a := pos_digits (encode a); unmarshal s := decode (digits_pos s) |}.
Proof.
  - intros a. by rewrite digits_pos_digits, decode_encode.
  - intros a. apply pos_digits_nonempty.
Defined.

Definition sample_machine : Machine := {| fs_writable _ := true; fs_listable _ := true |}.
Definition sample_request (name : string) : Request :=
  mkRequest name "1.0" "3.11" "cp311" "linux_s390x" [] 0 0 1 "".
Definition sample_ops : list q_op :=
  [OpEnqueue live 7 (sample_request "a"); OpEnqueue cancelled 7 (sample_request "b");
   OpEnqueue live 8 (sample_request "c"); OpPop live 1; OpStats live 9].

Definition sample_file_queue : @Backend Files :=
  @FileQueue_Backend sample_machine countable_codec "queue.json".
Definition sample_file_lawful : @LawfulBackend Files sample_file_queue stamp :=
  @FileQueue_Lawful sample_machine countable_codec "queue.json".

