(* ===== verification/Generate.v ===== *)
(** The rest of [go-worker/internal/plan]: the index client ([index.go]) and the
    entry points of the planner ([Generate], [GenerateFromInputs] and what they
    read from the environment and the input directory, in [plan.go]).

    A request to an index is a function of its URL: the index does not change
    while a plan is made.  A run of the planner may panic: the index client uses
    the result of [http.NewRequest] without looking at its error, and [None] is a
    run that does not return, by a panic or by the unbounded recursion of
    [addPack]. *)
From S2P Require Import Prelude.
From S2P Require Import GoStr.
From S2P Require Import Artifact.
From S2P Require Import Pack.
From S2P Require Import Http.
From S2P Require Import Cas.
From S2P Require Import Parse.
From S2P Require Import PlanTypes.
From S2P Require Import Planner.
From S2P Require Import Hints.
From S2P Require Import Queue.
From Stdlib Require Import Ascii.
Local Open Scope string_scope.
Local Open Scope list_scope.

(** ** The index client *)
(** [url.Parse] (the scheme and the host), the answers of the indexes, and the
    version in a JSON answer. *)
Class IndexPeer := {
  url_parse : string → result (string * string);
  index_get : string → list (string * string) → result HttpResp;
  info_version : string → result string }.
Record IndexClient := mkIndexClient {
  ic_BaseURL : string; ic_ExtraIndexURL : string; ic_Username : string; ic_Password : string }.
Definition indexes (c : IndexClient) : list string :=
  let out := filter (λ u, u ≠ "") [ic_BaseURL c; ic_ExtraIndexURL c] in
  if decide (out = []) then ["https://pypi.org/simple"] else out.
Definition index_headers (c : IndexClient) : list (string * string) :=
  if decide (ic_Username c ≠ "" ∧ ic_Password c ≠ "")
  then [("Authorization", "Basic " +:+ base64 (ic_Username c +:+ ":" +:+ ic_Password c))] else [].

Section index.
Context `{IndexPeer}.

Definition api_url (scheme host name : string) : string :=
  TrimRight (scheme +:+ "://" +:+ host) "/"%char +:+ "/pypi/" +:+ name +:+ "/json".
(** [None]: the request is nil, and its header is assigned. *)
Definition fetchLatest (c : IndexClient) (base name : string) : option (result string) :=
  match url_parse base with
  | Err e => Some (Err e)
  | Ok (scheme, host) =>
    if Contains host "pypi.org" then
      let api := api_url scheme host name in
      match url_parse api with
      | Err _ => None
      | Ok _ =>
        match index_get api (index_headers c) with
        | Err e => Some (Err ("get " +:+ api +:+ ": " +:+ e))
        | Ok resp =>
          if decide (rs_Status resp = 200%Z) then Some (info_version (rs_Body resp))
          else Some (Err ("get " +:+ api +:+ ": status " +:+ itoa (rs_Status resp)))
        end
      end
    else Some (Err ("unsupported index host " +:+ host))
  end.
Fixpoint resolve_loop (c : IndexClient) (name : string) (bases errs : list string)
    : option (result string) :=
  match bases with
  | [] => Some (Err ("version not found for " +:+ name +:+ " (" +:+ Join errs "; " +:+ ")"))
  | base :: bases =>
    r ← fetchLatest c base name;
    match r with
    | Err e => resolve_loop c name bases (errs ++ [base +:+ ": " +:+ e])
    | Ok ver => if decide (ver = "") then resolve_loop c name bases (errs ++ [base +:+ ": empty response"])
                else Some (Ok ver)
    end
  end.
Definition ResolveLatest (c : IndexClient) (name : string) : option (result string) :=
  resolve_loop c name (indexes c) [].
(** The resolver the planner is given; a panic is not an answer, see [asked]. *)
Definition index_resolver (c : IndexClient) : Resolver :=
  Some (λ name, default (Err "panic") (ResolveLatest c name)).
End index.

(** ** The names a run of the planner asks the resolver for *)
Section asked.
Context `{GoRuntime, Sha256, CasStore}.
Context (opts : Options) (resolver : Resolver) (constraints : gmap string string).
Context (pythonVersion platformTag : string).

Definition requirement_asks (spec : DepSpec) : list string :=
  let name := normalizeName (ds_Name spec) in
  let version := TrimSpace (ds_Version spec) in
  if decide (name = "") then []
  else if bool_decide (version = "") || HasPrefix version ">=" || HasPrefix version "~="
  then [name] else [].
Fixpoint scan_asks (requires : list DepSpec) (st : PlanState) : list string :=
  match requires with
  | [] => []
  | dep :: requires' =>
    if decide (ds_Name dep = "") then scan_asks requires' st
    else if decide (op_MaxDeps opts <= Z.of_nat (size (ps_depSeen st)))%Z then []
    else if match ps_depSeen st !! ds_Name dep with
            | Some existing => bool_decide (ds_Version existing ≠ "")
            | None => false
            end
    then scan_asks requires' st
    else
      (if decide (ds_Version dep = "") then [ds_Name dep] else []) ++
      scan_asks requires' (scan_requires opts resolver [dep] st)
  end.
Definition wheel_asks (w : WheelInput) (st : PlanState) : list string :=
  if decide (wi_Name (wh_Info w) = "" ∨ wi_Version (wh_Info w) = "") then []
  else scan_asks (wh_Requires w) (set_hasInput st).
Definition dep_asks (entry : string * DepSpec) : list string :=
  let '(dep, spec) := entry in
  if decide (dep = "") then []
  else
    let version := default (ds_Version spec) (override_for opts dep) in
    let version := match constraints !! normalizeName dep with
                   | Some cv => if decide (cv = "") then version else cv
                   | None => version
                   end in
    (if decide (version = "") then [dep] else []) ++
    (if bool_decide (op_UpgradeStrategy opts = "eager") then [dep] else []).
(** Along a loop, until a step does not return. *)
Fixpoint asks_along {A} (asks : A → PlanState → list string)
    (step : A → PlanState → option PlanState) (l : list A) (st : PlanState) : list string :=
  match l with
  | [] => []
  | x :: l' => asks x st ++ match step x st with
                            | Some st' => asks_along asks step l' st'
                            | None => []
                            end
  end.
Definition asked (fuel : nat) (reqs : list DepSpec) (wheels : list WheelInput) : list string :=
  let reqs_step := requirement_step opts resolver pythonVersion platformTag fuel in
  let wheels_step := wheel_step opts resolver pythonVersion platformTag fuel in
  let deps_step := dep_step opts resolver constraints pythonVersion platformTag fuel in
  let st0 := initial_state pythonVersion platformTag in
  asks_along (λ spec _, requirement_asks spec) reqs_step reqs st0 ++
  match fold_opt reqs_step reqs st0 with
  | None => []
  | Some st1 =>
    asks_along wheel_asks wheels_step wheels st1 ++
    match fold_opt wheels_step wheels st1 with
    | None => []
    | Some st2 => asks_along (λ e _, dep_asks e) deps_step (map_range (ps_depSeen st2)) st2
    end
  end.
End asked.

(** ** The environment and the input directory *)
Section env.
Context `{GoRuntime} (env : string → string) (atoi : string → option Z).
Context (decode_overrides : string → option (gmap string string)).

Definition loadOverridesFromEnv : gmap string string :=
  if decide (env "PLAN_OVERRIDES_JSON" = "") then ∅
  else match decode_overrides (env "PLAN_OVERRIDES_JSON") with
       | None => ∅
       | Some m =>
         fill_map (omap (λ kv, let n := normalizeName kv.1 in
           if decide (n = "") then None else Some (n, TrimSpace kv.2)) (map_range m))
       end.
Definition loadMaxDepsFromEnv : Z :=
  if decide (env "MAX_DEPS" = "") then 0%Z
  else match atoi (env "MAX_DEPS") with
       | None => 0%Z
       | Some n => if decide (n < 0)%Z then 0%Z else n
       end.
End env.

(** The first entry called METADATA that opens, as far as it can be read. *)
Fixpoint metadata_entry (files : list (string * option string)) : string :=
  match files with
  | [] => ""
  | (name, data) :: files =>
    if HasSuffix name "METADATA"
    then match data with Some d => d | None => metadata_entry files end
    else metadata_entry files
  end.

Section input_dir.
Context `{Sha256, Machine, Zip}.

Definition readRequiresDist (fs : Files) (wheelPath : string) : result (list DepSpec) :=
  let? data := read_file wheelPath fs in
  let? files := zip_read data in
  let meta := metadata_entry files in
  Ok (if decide (meta = "") then [] else Plan.parseRequiresDist meta).
Definition fileDigest (fs : Files) (path : string) : string :=
  match read_file path fs with
  | Err _ => ""
  | Ok data => if decide (data = "") then "" else "sha256:" +:+ sha256_hex data
  end.
Definition bestSourceDigest (fs : Files) (name version path : string) : string :=
  if decide (fileDigest fs path = "") then sourceDigest name version else fileDigest fs path.

(** One file of the input directory. *)
Definition input_wheel (fs : Files) (inputDir name : string) : option WheelInput :=
  if HasSuffix name ".whl" then
    match Parse.parseWheelFilename name with
    | Err _ => None
    | Ok info =>
      let path := path_join inputDir name in
      Some (mkWheelInput name info (fileDigest fs path)
              (if readRequiresDist fs path is Ok reqs then reqs else []))
    end
  else None.
Definition input_wheels (fs : Files) (inputDir : string) : result (list WheelInput) :=
  let? names := read_dir inputDir fs in Ok (omap (input_wheel fs inputDir) names).
End input_dir.

(** ** Writing and reading plan.json *)
Section plan_file.
Context `{Machine, Codec Snapshot}.
Definition Write (path : string) (snap : Snapshot) (fs : Files) : result Files :=
  write_file path (marshal snap) fs.
Definition Load (path : string) (fs : Files) : result Snapshot :=
  let? data := read_file path fs in
  match unmarshal data with Some snap => Ok snap | None => Err "unmarshal plan" end.

Lemma Load_Write path snap fs fs' : Write path snap fs = Ok fs' → Load path fs' = Ok snap.
Proof using Type.
  intros Hw. unfold Load. unfold Write in Hw. rewrite (read_write_file _ _ _ _ Hw). simpl.
  by rewrite unmarshal_marshal.
Qed.
Lemma Write_only path path' snap fs fs' :
  path' ≠ path → Write path snap fs = Ok fs' → fs' !! path' = fs !! path'.
Proof using Type.
  intros Hne. unfold Write, write_file. case_match; intros; simplify_eq. by rewrite lookup_insert_ne.
Qed.
End plan_file.

(** ** The entry points *)
(** The arguments [Generate] and [GenerateFromInputs] share. *)
Record GenerateArgs := mkGenerateArgs {
  ga_CacheDir : string; ga_PythonVersion : string; ga_PlatformTag : string;
  ga_IndexURL : string; ga_ExtraIndexURL : string; ga_Strategy : string;
  ga_ConstraintsPath : string; ga_Hints : list Hint; ga_Catalog : option Catalog;
  ga_CASRegistryURL : string; ga_CASRegistryRepo : string }.
Record InputSet := mkInputSet { is_Requirements : list DepSpec; is_Wheels : list WheelInput }.

Section generate.
Context `{GoRuntime, Sha256, CasStore, Regexp, Machine, Zip, IndexPeer, Codec Snapshot}.
Context (env : string → string) (atoi : string → option Z).
Context (decode_overrides : string → option (gmap string string)).
Context (runID : string).

Definition generate_options (a : GenerateArgs) (constraintsPath : string) : Options :=
  let maxDeps := loadMaxDepsFromEnv env atoi in
  mkOptions (ga_Strategy a) (if decide (maxDeps <= 0)%Z then 1000 else maxDeps)
    (loadOverridesFromEnv env decode_overrides) constraintsPath (ga_Catalog a).
Definition generate_client (a : GenerateArgs) : IndexClient :=
  mkIndexClient (ga_IndexURL a) (ga_ExtraIndexURL a) (env "INDEX_USERNAME") (env "INDEX_PASSWORD").

(** [computeWithResolverInputs] with the index client for a resolver. *)
Definition compute_from_index (fs : Files) (reqs : list DepSpec) (wheels : list WheelInput)
    (a : GenerateArgs) (opts : Options) : option (result Snapshot) :=
  let client := generate_client a in
  let constraints := Plan.loadConstraints fs (op_ConstraintsPath opts) in
  let names := asked (default_max_deps opts) (index_resolver client) constraints
                 (ga_PythonVersion a) (ga_PlatformTag a) (plan_fuel opts) reqs wheels in
  if decide (Exists (λ name, ResolveLatest client name = None) names) then None
  else computeWithResolverInputs fs runID reqs wheels (ga_PythonVersion a) (ga_PlatformTag a) opts
         (index_resolver client).

(** What follows the computation: hints, the registry, plan.json. *)
Definition finish_snapshot (a : GenerateArgs) (snap : Snapshot) : Snapshot :=
  let snap := AttachHints snap (ga_Hints a) in
  if decide (ga_CASRegistryURL a = "") then snap
  else mkSnapshot (sn_RunID snap) (sn_Plan snap) (sn_DAG snap)
         (Some (mkCASInfo (ga_CASRegistryURL a) (ga_CASRegistryRepo a))).
Definition plan_path (a : GenerateArgs) : string := path_join (ga_CacheDir a) "plan.json".
Definition write_snapshot (a : GenerateArgs) (fs : Files) (r : result Snapshot)
    : result Snapshot * Files :=
  match r with
  | Err e => (Err e, fs)
  | Ok snap =>
    let snap := finish_snapshot a snap in
    match Write (plan_path a) snap fs with
    | Err e => (Err e, fs)
    | Ok fs' => (Ok snap, fs')
    end
  end.

Definition GenerateFromInputs (inputs : InputSet) (a : GenerateArgs) (fs : Files)
    : option (result Snapshot * Files) :=
  write_snapshot a fs <$>
    compute_from_index fs (is_Requirements inputs) (is_Wheels inputs) a
      (generate_options a (ga_ConstraintsPath a)).

(** [computeWithResolver] reads the requirements, then lists the directory. *)
Definition Generate (inputDir requirementsPath : string) (a : GenerateArgs) (fs : Files)
    : option (result Snapshot * Files) :=
  let reqPath := if decide (requirementsPath = "") then path_join inputDir "requirements.txt"
                 else requirementsPath in
  let conPath := if decide (ga_ConstraintsPath a = "") then path_join inputDir "constraints.txt"
                 else ga_ConstraintsPath a in
  let reqs := Plan.loadRequirements fs inputDir reqPath in
  match input_wheels fs inputDir with
  | Err e => Some (Err e, fs)
  | Ok wheels =>
    write_snapshot a fs <$> compute_from_index fs reqs wheels a (generate_options a conPath)
  end.
End generate.
