(* ===== verification/Codecs.v ===== *)
(** Encodings of the data the programs exchange as JSON: each type is countable,
    so a [Codec] for it exists.  The codecs are opaque: a theorem can use that
    decoding inverts encoding, and nothing else. *)
From S2P Require Import Prelude.
From S2P Require Import Artifact.
From S2P Require Import Parse.
From S2P Require Import PlanTypes.
From S2P Require Import Queue.
Local Open Scope string_scope.
Local Open Scope list_scope.

#[export] Instance NodeType_countable : Countable NodeType.
Proof.
  refine (inj_countable' (λ t, match t with NodeRuntime => 0 | NodePack => 1 | NodeWheel => 2 | NodeRepair => 3 end)
    (λ n, match n with 0 => NodeRuntime | 1 => NodePack | 2 => NodeWheel | _ => NodeRepair end) _). by intros [].
Defined.
#[export] Instance any_eq_dec : EqDecision any.
Proof. solve_decision. Defined.
#[export] Instance any_countable : Countable any.
Proof.
  refine (inj_countable' (λ a, match a with AnyString s => Some s | AnyOther => None end)
    (λ o, match o with Some s => AnyString s | None => AnyOther end) _). by intros [].
Defined.

#[export] Instance HintMatch_eq_dec : EqDecision HintMatch.
Proof. solve_decision. Defined.
#[export] Instance HintMatch_countable : Countable HintMatch.
Proof.
  refine (inj_countable' (λ h, (hm_ID h, hm_Pattern h, hm_Note h, hm_Reason h, hm_Tags h, hm_Recipes h))
    (λ '(a, b, c, d, e, f), mkHintMatch a b c d e f) _). by intros [].
Defined.
#[export] Instance RecipeMatch_countable : Countable RecipeMatch.
Proof.
  refine (inj_countable' (λ r, (rm_Name r, rm_Version r, rm_Reason r)) (λ '(a, b, c), mkRecipeMatch a b c) _). by intros [].
Defined.
#[export] Instance FlatNode_eq_dec : EqDecision FlatNode.
Proof. solve_decision. Defined.
#[export] Instance FlatNode_countable : Countable FlatNode.
Proof.
  refine (inj_countable' (λ n, (fn_Name n, fn_Version n, fn_PythonVersion n, fn_PythonTag n, fn_PlatformTag n,
                        fn_Action n, fn_Hints n, fn_Recipes n))
    (λ '(a, b, c, d, e, f, g, h), mkFlatNode a b c d e f g h) _). by intros [].
Defined.
#[export] Instance DAGNode_eq_dec : EqDecision DAGNode.
Proof. solve_decision. Defined.
#[export] Instance DAGNode_countable : Countable DAGNode.
Proof.
  refine (inj_countable' (λ n, (dn_ID n, dn_Type n, dn_Inputs n, dn_Metadata n, dn_Action n))
    (λ '(a, b, c, d, e), mkDAGNode a b c d e) _). by intros [].
Defined.
#[export] Instance CASInfo_eq_dec : EqDecision CASInfo.
Proof. solve_decision. Defined.
#[export] Instance CASInfo_countable : Countable CASInfo.
Proof.
  refine (inj_countable' (λ c, (ci_RegistryURL c, ci_RegistryRepo c)) (λ '(a, b), mkCASInfo a b) _). by intros [].
Defined.
#[export] Instance Snapshot_eq_dec : EqDecision Snapshot.
Proof. solve_decision. Defined.
#[export] Instance Snapshot_countable : Countable Snapshot.
Proof.
  refine (inj_countable' (λ s, (sn_RunID s, sn_Plan s, sn_DAG s, sn_CAS s)) (λ '(a, b, c, d), mkSnapshot a b c d) _). by intros [].
Defined.
#[export] Instance DepSpec_countable : Countable DepSpec.
Proof.
  refine (inj_countable' (λ d, (ds_Name d, ds_Version d)) (λ '(a, b), mkDepSpec a b) _). by intros [].
Defined.
#[export] Instance WheelInfo_countable : Countable WheelInfo.
Proof.
  refine (inj_countable' (λ w, (wi_Name w, wi_Version w, wi_PythonTag w, wi_AbiTag w, wi_PlatformTag w))
    (λ '(a, b, c, d, e), mkWheelInfo a b c d e) _). by intros [].
Defined.

Definition codec_of (A : Type) `{Countable A} : Codec A := countable_codec.
Lemma snapshot_codec : Codec Snapshot.
Proof. exact (codec_of Snapshot). Qed.
