(* ===== verification/Match.v ===== *)
(** The pure half of [go-worker/internal/service/worker.go] and the data of
    [runner.Job]: how a queue request is matched with the nodes of a plan, in
    which order the packs of a wheel are prepared, which recipes a build gets,
    and when a failed build is retried. *)
From S2P Require Import Prelude.
From S2P Require Import GoStr.
From S2P Require Import Artifact.
From S2P Require Import Parse.
From S2P Require Import PlanTypes.
From S2P Require Import Planner.
From S2P Require Import Queue.
From stdpp Require Import relations.
From Stdlib Require Import Ascii.
Local Open Scope string_scope.
Local Open Scope list_scope.
Local Open Scope nat_scope.

(** [runner.Job], without the log writer. *)
Record Job := mkJob {
  jb_Name : string; jb_Version : string; jb_PythonVersion : string; jb_PythonTag : string;
  jb_PlatformTag : string; jb_Recipes : list string; jb_WheelDigest : string;
  jb_WheelAction : string; jb_RuntimePath : string; jb_PackPaths : list string;
  jb_RuntimeDigest : string; jb_PackDigests : list string; jb_WheelSourceDigest : string;
  jb_RepairToolVersion : string; jb_RepairPolicyHash : string }.

(** ** Small helpers *)
Fixpoint firstNonEmpty (vals : list string) : string :=
  match vals with
  | [] => ""
  | v :: vals' => if decide (v = "") then firstNonEmpty vals' else v
  end.

Definition pyTagFromVersion (ver : string) : string :=
  if decide (ver = "") then ""
  else
    let trimmed := ReplaceAll ver "."%char "" in
    if HasPrefix trimmed "cp" then trimmed
    else if HasPrefix trimmed "3" then "cp" +:+ trimmed else trimmed.

Definition pyVersionFromTag (tag : string) : string :=
  let tag := TrimPrefix tag "cp" in
  if decide (String.length tag = 3) then str_take 1 tag +:+ "." +:+ str_drop 1 tag
  else if decide (String.length tag = 4) then str_take 2 tag +:+ "." +:+ str_drop 2 tag
  else "".

Definition equalsIgnoreCase (a b : string) : bool := EqualFold a b.

Definition queueKey (name version : string) : string :=
  ToLower name +:+ "::" +:+ ToLower version.

(** ** Recipes *)
Definition recipeNames (recipes : list RecipeMatch) : list string :=
  filter (λ n, n ≠ "") (rm_Name <$> recipes).
Definition merge_item (v : string) : option (string * string) :=
  let t := TrimSpace v in if decide (t = "") then None else Some (ToLower t, t).
Definition mergeRecipes (a b : list string) : list string := dedupe merge_item ∅ (a ++ b).

(** ** The wheel of a plan node in the DAG *)
Definition pack_inputs (n : DAGNode) : list ID :=
  filter (λ i, id_Type i = PackType) (dn_Inputs n).
Definition runtime_input (n : DAGNode) : ID :=
  default (mkID RuntimeType "") (last (filter (λ i, id_Type i = RuntimeType) (dn_Inputs n))).
Definition tag_fits (v : string) (a b : string) : bool :=
  bool_decide (v = "") || bool_decide (v = a) || bool_decide (v = b).

Definition wheel_matches (node : FlatNode) (req : Request) (n : DAGNode) : bool :=
  bool_decide (dn_Type n = NodeWheel) &&
  equalsIgnoreCase (string_or_empty (dn_Metadata n !! "name")) (fn_Name node) &&
  bool_decide (string_or_empty (dn_Metadata n !! "version") = fn_Version node) &&
  tag_fits (string_or_empty (dn_Metadata n !! "python_tag")) (fn_PythonTag node) (rq_PythonTag req) &&
  tag_fits (string_or_empty (dn_Metadata n !! "platform_tag")) (fn_PlatformTag node) (rq_PlatformTag req).

(** Digest, action, packs and runtime; a runtime without digest means none. *)
Definition findWheelArtifact (dag : list DAGNode) (node : FlatNode) (req : Request)
    : string * string * list ID * ID :=
  match list_find (λ n, wheel_matches node req n = true) dag with
  | Some (_, n) => (id_Digest (dn_ID n), dn_Action n, pack_inputs n, runtime_input n)
  | None => ("", "", [], mkID RuntimeType "")
  end.

Definition packDigests (ids : list ID) : list string :=
  id_Digest <$> filter (λ i, id_Type i = PackType) ids.

(** The first node that passes the test and has the key as a string. *)
Fixpoint find_meta (test : DAGNode → bool) (key : string) (dag : list DAGNode) : string :=
  match dag with
  | [] => ""
  | n :: dag' =>
    if test n then match as_string (dn_Metadata n !! key) with
                   | Some v => v
                   | None => find_meta test key dag'
                   end
    else find_meta test key dag'
  end.
Definition findWheelSourceDigest (dag : list DAGNode) (wheelDigest : string) : string :=
  find_meta (λ n, bool_decide (dn_Type n = NodeWheel) && bool_decide (id_Digest (dn_ID n) = wheelDigest))
    "source_digest" dag.
Definition repair_of (wheelDigest : string) (n : DAGNode) : bool :=
  bool_decide (dn_Type n = NodeRepair) &&
  match dn_Inputs n with i :: _ => bool_decide (id_Digest i = wheelDigest) | [] => false end.
Definition findRepairToolVersion (dag : list DAGNode) (wheelDigest : string) : string :=
  find_meta (repair_of wheelDigest) "repair_tool_version" dag.
Definition findRepairPolicyHash (dag : list DAGNode) (wheelDigest : string) : string :=
  find_meta (repair_of wheelDigest) "repair_policy_digest" dag.

(** ** The order of packs *)

(** [nodeByDigest]: the last pack node with a digest. *)
Definition nodeByDigest (dag : list DAGNode) : gmap string DAGNode :=
  fill_map ((λ n, (id_Digest (dn_ID n), n)) <$> filter (λ n, dn_Type n = NodePack) dag).

(** [visit]: depth first, each digest once; it takes fuel because it recurses
    through the DAG.  The state is [visited] and [ordered]. *)
Section topo.
Context (nodes : gmap string DAGNode) (idSet : gset string).

Fixpoint visit (fuel : nat) (d : string) (st : gset string * list string)
    : option (gset string * list string) :=
  match fuel with
  | O => None
  | S fuel' =>
    if decide (d ∈ st.1) then Some st
    else
      st' ← fold_opt (visit fuel')
              (match nodes !! d with Some n => id_Digest <$> pack_inputs n | None => [] end)
              ({[d]} ∪ st.1, st.2);
      Some (if decide (d ∈ idSet) then (st'.1, st'.2 ++ [d]) else st')
  end.
End topo.

Definition topoSortFromDag `{GoRuntime} (targets : list ID) (dag : list DAGNode) : option (list ID) :=
  let idSet : gmap string unit := fill_map ((λ t, (id_Digest t, tt)) <$> targets) in
  let nodes := nodeByDigest dag in
  let digests : list string := fst <$> map_range idSet in
  '(_, ordered) ← fold_opt (visit nodes (dom idSet) (S (size nodes))) digests (∅, []);
  Some (mkID PackType <$> (ordered : list string)).

Definition pack_order : gmap string nat := list_to_map
  [("pkgconf", 1); ("zlib", 2); ("xz", 3); ("bzip2", 4); ("zstd", 5); ("openssl", 6);
   ("libffi", 7); ("sqlite", 8); ("libxml2", 9); ("libxslt", 10); ("libpng", 11); ("jpeg", 12);
   ("freetype", 13); ("openblas", 14); ("rust", 15); ("cmake", 16); ("ninja", 17)].

Abbreviation Meta := (gmap string (gmap string any)).
Definition pack_name (meta : Meta) (i : ID) : string :=
  string_or_empty (m ← meta !! id_Digest i; m !! "name").
Definition priority (name : string) : nat := default 0 (pack_order !! name).
Definition priority_less (meta : Meta) (a b : ID) : bool :=
  bool_decide (priority (pack_name meta a) < priority (pack_name meta b)).
Definition sortPacksByPriority `{GoRuntime} (ids : list ID) (meta : Meta) : list ID :=
  sort_slice (priority_less meta) ids.

(** ** Retries *)
Definition shouldRequeue (requeueOnFailure : bool) (maxAttempts : Z) (reqAttempts : gmap string Z)
    (job : Job) : bool :=
  if negb requeueOnFailure then false
  else if decide (maxAttempts <= default 0%Z (reqAttempts !! queueKey (jb_Name job) (jb_Version job)))%Z
  then false else true.

Definition Second : Z := 1000000000.
Definition Minute : Z := 60 * Second.
(** [now] in nanoseconds since the epoch, [jitter] in [0, 1 s); the product and
    the shift are [int64] operations. *)
Definition backoff_delay (attempt : Z) : Z :=
  let attempt := if decide (attempt < 1)%Z then 1%Z else attempt in
  let d := wrap64 (5 * Second * shl64 1 (attempt - 1)) in
  if decide (10 * Minute < d)%Z then (10 * Minute)%Z else d.
Definition backoffTime (now jitter : Z) (attempt : Z) : Z :=
  ((now + (backoff_delay attempt + jitter)) / Second)%Z.

(** [requestsFromPlan]: the build nodes of a plan as requests. *)
Definition requestsFromPlan (now : Z) (snap : Snapshot) : list Request :=
  (λ n, mkRequest (fn_Name n) (fn_Version n) (fn_PythonVersion n) (fn_PythonTag n)
          (fn_PlatformTag n) [] now 0 0 "")
  <$> filter (λ n, ToLower (fn_Action n) = "build" ∧ fn_Name n ≠ "" ∧ fn_Version n ≠ "") (sn_Plan snap).

(** ** The order [visit] leaves *)
Section topo_facts.
Context (nodes : gmap string DAGNode) (idSet : gset string).

Definition dep_of (d e : string) : Prop :=
  ∃ n, nodes !! d = Some n ∧ e ∈ id_Digest <$> pack_inputs n.
Abbreviation children d :=
  (match nodes !! d with Some n => id_Digest <$> pack_inputs n | None => [] end).

Lemma children_dep d e : e ∈ children d ↔ dep_of d e.
Proof using Type.
  unfold dep_of. destruct (nodes !! d) as [n|]; [naive_solver|].
  split; [by intros ?%not_elem_of_nil|naive_solver].
Qed.

(** [ord] switches on the facts about the order, which need the packs to be
    acyclic: a dependency has a smaller rank. *)
Context (ord : Prop) (rank : string → nat).
Context (Hrank : ord → ∀ d e, dep_of d e → rank e < rank d).

(** [A] are the digests whose visit has begun and not ended. *)
Record dfs_inv (A v : gset string) (o : list string) : Prop := {
  dv_active : A ⊆ v;
  dv_elem : ∀ t, t ∈ o ↔ (t ∈ v ∧ t ∉ A) ∧ t ∈ idSet;
  dv_nodup : NoDup o;
  dv_closed : ord → ∀ d e, d ∈ v ∧ d ∉ A → dep_of d e → e ∈ v ∧ e ∉ A;
  dv_before : ord → ∀ k d e, o !! k = Some d → tc dep_of d e → e ∈ idSet →
    ∃ j, j < k ∧ o !! j = Some e }.

Lemma dfs_closed_tc A v o d e :
  dfs_inv A v o → ord → tc dep_of d e → d ∈ v ∧ d ∉ A → e ∈ v ∧ e ∉ A.
Proof using All.
  intros Hinv Ho Htc. induction Htc as [d e Hde|d e f Hde _ IH]; intros Hd;
    [|apply IH]; by eapply (dv_closed _ _ _ Hinv Ho).
Qed.

(** A visit that begins: [d] becomes visited and active. *)
Lemma dfs_enter A v o d : d ∉ v → dfs_inv A v o → dfs_inv ({[d]} ∪ A) ({[d]} ∪ v) o.
Proof using All.
  intros Hd [Ha He Hn Hc Hb]. split; [set_solver| |done| |done].
  - intros t. rewrite He. set_solver.
  - intros Ho x e Hx Hxe. assert (Hx' : x ∈ v ∧ x ∉ A) by set_solver.
    pose proof (Hc Ho x e Hx' Hxe). set_solver.
Qed.

(** A visit that ends: its dependencies are finished, so [d] may follow them. *)
Lemma dfs_leave A v o d :
  d ∉ A → d ∈ v → (ord → ∀ e, dep_of d e → e ∈ v ∧ e ∉ {[d]} ∪ A) →
  dfs_inv ({[d]} ∪ A) v o → dfs_inv A v (if decide (d ∈ idSet) then o ++ [d] else o).
Proof using All.
  intros HdA Hdv Hch Hinv. pose proof Hinv as [Ha He Hn Hc Hb].
  assert (Hdo : d ∉ o) by (rewrite He; set_solver). split.
  - set_solver.
  - intros t. case_decide; [rewrite elem_of_app, list_elem_of_singleton|]; rewrite He;
      destruct (decide (t = d)) as [->|]; set_solver.
  - case_decide; [|done]. apply NoDup_app. split; [done|]. split; [|apply NoDup_singleton].
    by intros x Hx ->%list_elem_of_singleton.
  - intros Ho x e Hx Hxe. destruct (decide (x = d)) as [->|Hne].
    + pose proof (Hch Ho e Hxe). set_solver.
    + assert (Hx' : x ∈ v ∧ x ∉ {[d]} ∪ A) by set_solver.
      pose proof (Hc Ho x e Hx' Hxe). set_solver.
  - intros Ho k x e Hk Htc Hid. case_decide; [|by eapply Hb].
    apply lookup_app_Some in Hk as [Hk|[Hlen Hk]].
    + destruct (Hb Ho k x e Hk Htc Hid) as (j & ? & Hj). exists j. split; [done|].
      by apply lookup_app_l_Some.
    + apply list_lookup_singleton_Some in Hk as [Hz <-].
      assert (Hfin : e ∈ v ∧ e ∉ {[d]} ∪ A).
      { inversion Htc as [? ? Hde|? y ? Hdy Hye]; subst; [by apply Hch|].
        eapply dfs_closed_tc; [exact Hinv|done|exact Hye|by apply Hch]. }
      assert (Heo : e ∈ o) by by apply He.
      apply list_elem_of_lookup in Heo as [j Hj]. exists j. split; [|by apply lookup_app_l_Some].
      apply lookup_lt_Some in Hj. lia.
Qed.

(** [visit] returns with enough fuel, and keeps the invariant. *)
Definition visit_ok (A : gset string) (step : string → gset string * list string →
    option (gset string * list string)) (fuel : nat) : Prop :=
  ∀ d v o, size (dom nodes ∖ v) < fuel → dfs_inv A v o → (ord → ∀ a, a ∈ A → rank d < rank a) →
  ∃ v' o', step d (v, o) = Some (v', o') ∧ dfs_inv A v' o' ∧ v ⊆ v' ∧ d ∈ v'.

Lemma visit_list_ok A step fuel ds v o :
  visit_ok A step fuel → size (dom nodes ∖ v) < fuel → dfs_inv A v o →
  (ord → ∀ a d, a ∈ A → d ∈ ds → rank d < rank a) →
  ∃ v' o', fold_opt step ds (v, o) = Some (v', o') ∧ dfs_inv A v' o' ∧ v ⊆ v' ∧
    ∀ d, d ∈ ds → d ∈ v'.
Proof using All.
  intros Hok. revert v o. induction ds as [|d ds IH]; intros v o Hf Hinv Hr; simpl.
  { exists v, o. split_and!; [done..|]. by intros d ?%not_elem_of_nil. }
  destruct (Hok d v o) as (v1 & o1 & -> & Hinv1 & Hsub1 & Hd1); [done|done| |].
  { intros Ho a Ha. apply Hr; [done..|left]. }
  simpl. destruct (IH v1 o1) as (v2 & o2 & -> & Hinv2 & Hsub2 & Hd2); [|done| |].
  - eapply Nat.le_lt_trans; [apply subseteq_size|exact Hf]. set_solver.
  - intros Ho a d' Ha Hd'. apply Hr; [done..|by right].
  - exists v2, o2. split_and!; [done|done|set_solver|].
    intros d' [->|Hd']%elem_of_cons; [set_solver|auto].
Qed.

Lemma visit_spec fuel A : visit_ok A (visit nodes idSet fuel) fuel.
Proof using All.
  revert A. induction fuel as [|fuel IH]; intros A d v o Hf Hinv Hr; [lia|].
  simpl. case_decide as Hd; [by exists v, o|].
  assert (HdA : d ∉ A) by (intros HA; apply Hd; by apply (dv_active _ _ _ Hinv)).
  assert (Hlist : ∃ v' o', fold_opt (visit nodes idSet fuel) (children d) ({[d]} ∪ v, o)
      = Some (v', o') ∧ dfs_inv ({[d]} ∪ A) v' o' ∧ {[d]} ∪ v ⊆ v' ∧
      ∀ e, e ∈ children d → e ∈ v').
  { destruct (nodes !! d) as [n|] eqn:En.
    - apply (visit_list_ok _ _ fuel); [apply IH| |by apply dfs_enter|].
      + apply Nat.lt_le_trans with (size (dom nodes ∖ v)); [|lia].
        apply subset_size. assert (d ∈ dom nodes) by (by apply elem_of_dom; eauto). set_solver.
      + intros Ho a e Ha He. assert (Hde : dep_of d e) by (exists n; done).
        pose proof (Hrank Ho d e Hde). apply elem_of_union in Ha as [->%elem_of_singleton|Ha]; [done|].
        pose proof (Hr Ho a Ha). lia.
    - exists ({[d]} ∪ v), o. split_and!; [done|by apply dfs_enter|done|].
      by intros e ?%not_elem_of_nil. }
  destruct Hlist as (v2 & o2 & -> & Hinv2 & Hsub2 & Hch). simpl.
  assert (Hleave : dfs_inv A v2 (if decide (d ∈ idSet) then o2 ++ [d] else o2)).
  { apply dfs_leave; [done|set_solver| |done]. intros Ho e Hde. split.
    - apply Hch. by apply children_dep.
    - pose proof (Hrank Ho d e Hde). intros [->%elem_of_singleton|HA]%elem_of_union; [lia|].
      pose proof (Hr Ho e HA). lia. }
  exists v2, (if decide (d ∈ idSet) then o2 ++ [d] else o2).
  split_and!; [by case_decide|done|set_solver|set_solver].
Qed.
End topo_facts.

(** A pack depends on another in the DAG; a DAG whose pack dependencies have a
    rank has no cycle of packs. *)
Definition pack_dep (dag : list DAGNode) : relation string := dep_of (nodeByDigest dag).
Definition acyclic_packs (dag : list DAGNode) : Prop :=
  ∃ rank : string → nat, ∀ d e, pack_dep dag d e → rank e < rank d.

Section topo_spec.
Context `{GoRuntime}.

Lemma topoSort_run (ord : Prop) rank targets dag :
  (ord → ∀ d e, pack_dep dag d e → rank e < rank d) →
  ∃ o, topoSortFromDag targets dag = Some (mkID PackType <$> o) ∧ NoDup o ∧
    (∀ t, t ∈ o ↔ t ∈ id_Digest <$> targets) ∧
    (ord → ∀ k d e, o !! k = Some d → tc (pack_dep dag) d e → e ∈ id_Digest <$> targets →
      ∃ j, j < k ∧ o !! j = Some e).
Proof using Type.
  intros Hrank. unfold topoSortFromDag.
  set (idSet := fill_map _ : gmap string ()). set (nodes := nodeByDigest dag).
  assert (Hdom : ∀ t, t ∈ dom idSet ↔ t ∈ id_Digest <$> targets).
  { intros t. subst idSet. rewrite fill_map_dom, <-list_fmap_compose. done. }
  destruct (visit_list_ok nodes (dom idSet) ord rank Hrank ∅ (visit nodes (dom idSet) (S (size nodes)))
    (S (size nodes)) (fst <$> map_range idSet) ∅ []) as (v & o & -> & Hinv & _ & Hall).
  - apply visit_spec. done.
  - rewrite difference_empty_L, size_dom. lia.
  - split; [set_solver| |constructor|set_solver|done]. intros t. set_solver.
  - set_solver.
  - simpl. exists o. destruct Hinv as [_ He Hn _ Hb]. split; [done|]. split; [done|].
    assert (Hv : ∀ t, t ∈ dom idSet → t ∈ v).
    { intros t [u Hu]%elem_of_dom. apply Hall. rewrite map_range_perm. apply list_elem_of_fmap.
      exists (t, u). split; [done|]. by apply elem_of_map_to_list. }
    split; [intros t; rewrite He, <-Hdom; set_solver|].
    intros Ho k d e Hk Htc He'%Hdom. by eapply Hb.
Qed.

Lemma topoSortFromDag_total targets dag : is_Some (topoSortFromDag targets dag).
Proof using Type. destruct (topoSort_run False (λ _, 0) targets dag) as (o & -> & _); [done|eauto]. Qed.

(** C32. Packs are prepared in dependency order: [topoSortFromDag] returns, for
    every DAG, each requested pack exactly once; and when the packs of the DAG
    have no cycle, every pack comes after all requested packs it depends on,
    directly or through others, whatever the order the map is visited in. *)
Theorem topoSortFromDag_spec targets dag :
  ∃ ordered, topoSortFromDag targets dag = Some ordered ∧
    NoDup ordered ∧
    (∀ i, i ∈ ordered ↔ id_Type i = PackType ∧ id_Digest i ∈ id_Digest <$> targets) ∧
    (acyclic_packs dag → ∀ k j a b, ordered !! k = Some a → ordered !! j = Some b →
      tc (pack_dep dag) (id_Digest a) (id_Digest b) → j < k).
Proof using Type.
  destruct (topoSort_run False (λ _, 0) targets dag) as (o & Hrun & Hnd & Hel & _); [done|].
  exists (mkID PackType <$> o). split_and!; [done| | |].
  - apply NoDup_fmap_2; [by intros ?? [=]|done].
  - intros [ty d]. rewrite list_elem_of_fmap. simpl. rewrite <-Hel. naive_solver.
  - intros [rank Hrank] k j a b. rewrite !list_lookup_fmap, !fmap_Some.
    intros (d & Hd & ->) (e & He & ->) Htc.
    destruct (topoSort_run True rank targets dag) as (o' & Hrun' & Hnd' & _ & Hbef); [done|].
    assert (o' = o) as ->.
    { rewrite Hrun in Hrun'. assert (Inj (=) (=) (mkID PackType)) by by intros ?? [=].
      apply (inj (fmap (M := list) (mkID PackType))). congruence. }
    destruct (Hbef I k d e Hd Htc) as (j' & Hj' & He').
    { apply Hel. by eapply list_elem_of_lookup_2. }
    by rewrite (NoDup_lookup _ _ _ _ Hnd' He He').
Qed.
End topo_spec.

(** ** Priorities *)
Lemma priority_less_weak_order meta : weak_order (priority_less meta).
Proof.
  split; unfold priority_less; intros *; rewrite ?bool_decide_eq_true, ?bool_decide_eq_false; lia.
Qed.

Section priority.
Context `{GoRuntime}.

(** [sortPacksByPriority] rearranges the packs by the fixed table of names: a
    smaller number comes first, and a name that is not in the table counts as 0.
    So a pack whose name the table lacks, like "cpython3.11", precedes every pack
    of the table, the ones it depends on included. *)
Theorem sortPacksByPriority_spec ids meta :
  sortPacksByPriority ids meta ≡ₚ ids ∧
  (∀ k j a b, sortPacksByPriority ids meta !! k = Some a → sortPacksByPriority ids meta !! j = Some b →
    priority (pack_name meta a) < priority (pack_name meta b) → k < j) ∧
  (∀ name dep, dep ∈ packDependencies name →
    priority (ToLower name) = 0 ∨ priority dep < priority (ToLower name)).
Proof using Type.
  split; [apply sort_slice_perm|]. split.
  - intros k j a b Hk Hj Hlt.
    pose proof (sort_slice_sorted _ (priority_less meta) ids (priority_less_weak_order meta)) as Hs.
    destruct (decide (k < j)) as [|Hn]; [done|].
    destruct (decide (j = k)) as [->|Hne]; [rewrite Hk in Hj; simplify_eq; lia|].
    assert (Hjk : j < k) by lia.
    pose proof (StronglySorted_positions _ _ _ _ _ _ Hs Hjk Hj Hk) as Happ.
    unfold may_precede, priority_less in Happ. rewrite bool_decide_eq_false in Happ. lia.
  - intros name dep Hdep. unfold packDependencies in Hdep.
    destruct (pack_dependency_table !! ToLower name) as [deps|] eqn:E;
      [|by apply not_elem_of_nil in Hdep].
    simpl in Hdep. apply elem_of_list_to_map_2 in E.
    repeat (apply elem_of_cons in E as [E|E]; [
      injection E as -> ->;
      repeat (apply elem_of_cons in Hdep as [->|Hdep]; [vm_compute; lia|]);
      by apply not_elem_of_nil in Hdep|]).
    by apply not_elem_of_nil in E.
Qed.
End priority.

(** ** Recipes *)
Lemma merge_item_key v k t : merge_item v = Some (k, t) → ToLower t = k.
Proof. unfold merge_item. intros. by simplify_option_eq. Qed.

(** The recipes of a job: the request's, then the plan's, each trimmed and
    kept once up to case; none is dropped but empty ones and repetitions, and
    merging what was merged changes nothing. *)
Theorem mergeRecipes_spec a b :
  NoDup (ToLower <$> mergeRecipes a b) ∧
  (∀ r, r ∈ mergeRecipes a b → r ≠ "" ∧ ∃ v, v ∈ a ++ b ∧ r = TrimSpace v) ∧
  (∀ v, v ∈ a ++ b → TrimSpace v ≠ "" →
    ∃ r, r ∈ mergeRecipes a b ∧ ToLower r = ToLower (TrimSpace v)) ∧
  mergeRecipes (mergeRecipes a b) [] = mergeRecipes a b.
Proof.
  assert (Hel : ∀ r, r ∈ mergeRecipes a b → r ≠ "" ∧ ∃ v, v ∈ a ++ b ∧ r = TrimSpace v).
  { intros r Hr. apply (dedupe_elem _ ToLower merge_item_key) in Hr as (_ & v & Hv & Hm).
    unfold merge_item in Hm. simplify_option_eq. eauto. }
  split_and!; [apply (dedupe_NoDup _ ToLower merge_item_key)|done| |].
  - intros v Hv Hne. destruct (dedupe_complete merge_item ToLower merge_item_key ∅ (a ++ b) v
      (ToLower (TrimSpace v)) (TrimSpace v)) as (r & Hr & Hk); [done| |set_solver|eauto].
    unfold merge_item. by rewrite decide_False.
  - unfold mergeRecipes at 1. rewrite app_nil_r.
    apply (dedupe_id _ ToLower); [|apply (dedupe_NoDup _ ToLower merge_item_key)|set_solver].
    intros r (Hne & v & _ & ->)%Hel. unfold merge_item. rewrite TrimSpace_idem. by rewrite decide_False.
Qed.

(** ** Retry delays *)
Lemma backoff_delay_small attempt :
  (attempt <= 31)%Z →
  backoff_delay attempt = (Z.min (5 * 2 ^ (Z.max attempt 1 - 1)) 600 * Second)%Z.
Proof.
  intros Ha. unfold backoff_delay.
  set (a := if decide (attempt < 1)%Z then 1%Z else attempt).
  assert (Ha' : (1 <= a <= 31)%Z) by (subst a; case_decide; lia).
  replace (Z.max attempt 1)%Z with a by (subst a; case_decide; lia). clearbody a.
  assert (Hp : (1 <= 2 ^ (a - 1) <= 2 ^ 30)%Z).
  { split; [change 1%Z with (2 ^ 0)%Z|]; apply Z.pow_le_mono_r; lia. }
  unfold shl64. rewrite Z.shiftl_mul_pow2, Z.mul_1_l by lia.
  rewrite (wrap64_id (2 ^ (a - 1))) by lia.
  rewrite wrap64_id by (unfold Second; lia).
  unfold Minute, Second. case_decide; lia.
Qed.

(** Up to 31 attempts, a failed build waits 5, 10, 20, ... seconds, at most
    ten minutes, with less than a second of jitter. *)
Theorem backoffTime_bounds now jitter attempt :
  (0 <= jitter < Second)%Z → (attempt <= 31)%Z →
  let wait := Z.min (5 * 2 ^ (Z.max attempt 1 - 1)) 600 in
  (now / Second + wait <= backoffTime now jitter attempt <= now / Second + wait + 1)%Z.
Proof.
  intros Hj Ha wait. unfold backoffTime. rewrite backoff_delay_small by done. fold wait.
  replace (now + (wait * Second + jitter))%Z with ((now + jitter) + wait * Second)%Z by lia.
  rewrite Z.div_add by (unfold Second; lia).
  pose proof (Z.div_le_mono now (now + jitter) Second).
  pose proof (Z.div_le_mono (now + jitter) (now + 1 * Second) Second).
  rewrite Z.div_add in * by (unfold Second; lia). unfold Second in *. lia.
Qed.

(** From the 32nd attempt on the product overflows: the delay is negative and
    the retry is due at once, in the past. *)
Theorem backoffTime_overflow now jitter :
  (0 <= now <= 7 * 10 ^ 18)%Z → (0 <= jitter < Second)%Z → (backoffTime now jitter 32 < 0)%Z.
Proof.
  intros Hn Hj. unfold backoffTime. change (backoff_delay 32) with (-7709325833709551616)%Z.
  unfold Second in *. apply Z.div_lt_upper_bound; lia.
Qed.

(** A Python version survives the trip through its tag when its minor version
    has two digits, and is lost when it has one: "cp39" reads as no version. *)
Theorem pyVersionFromTag_roundtrip d1 d2 :
  is_digit d1 = true → is_digit d2 = true →
  let v1 := String "3" (String "." (String d1 "")) in
  let v2 := String "3" (String "." (String d1 (String d2 ""))) in
  pyVersionFromTag (Plan.normalizePyTag v2) = v2 ∧
  pyVersionFromTag (Plan.normalizePyTag v1) = "".
Proof.
  intros H1%is_digit_cases H2%is_digit_cases. unfold digits in H1, H2.
  repeat (apply elem_of_cons in H1 as [->|H1];
    [repeat (apply elem_of_cons in H2 as [->|H2]; [split; reflexivity|]); by apply not_elem_of_nil in H2|]).
  by apply not_elem_of_nil in H1.
Qed.

(** ** Witnesses *)
Lemma backoffTime_bounds_witness : (100 + 20 <= backoffTime (100 * Second) 5 3 <= 100 + 20 + 1)%Z.
Proof. apply (backoffTime_bounds (100 * Second) 5 3); unfold Second; lia. Defined.

Lemma backoffTime_overflow_witness : (backoffTime (1700000000 * Second) 5 32 < 0)%Z.
Proof. apply backoffTime_overflow; unfold Second; lia. Defined.

Lemma pyVersionFromTag_roundtrip_witness :
  pyVersionFromTag (Plan.normalizePyTag "3.11") = "3.11" ∧
  pyVersionFromTag (Plan.normalizePyTag "3.1") = "".
Proof. exact (pyVersionFromTag_roundtrip "1" "1" eq_refl eq_refl). Defined.
