(* ===== verification/Config.v ===== *)
(** [Config] of [go-worker/internal/service/config.go], the fields the modelled
    parts read, and the small readers of the environment. *)
From S2P Require Import Prelude.
From S2P Require Import GoStr.
From S2P Require Import Cas.
Local Open Scope string_scope.
Local Open Scope list_scope.

Record Config := mkConfig {
  cf_ControlPlaneURL : string; cf_ControlPlaneToken : string; cf_BuildPopURL : string;
  cf_BatchSize : Z; cf_BuildPoolSize : Z;
  cf_RequeueOnFailure : bool; cf_MaxRequeueAttempts : Z;
  cf_AutoFixEnabled : bool; cf_AutoSaveHints : bool; cf_AutoFixMinConfidence : string;
  cf_AutoHintRateLimitMin : Z;
  cf_OutputDir : string; cf_CacheDir : string; cf_LocalCASDir : string;
  cf_CASRegistryURL : string; cf_CASRegistryRepo : string;
  cf_CASRegistryUser : string; cf_CASRegistryPass : string;
  cf_CASPushEnabled : bool; cf_RepairPushEnabled : bool; cf_PackPushEnabled : bool;
  cf_RuntimePushEnabled : bool; cf_RepairToolVersion : string; cf_RepairPolicyHash : string;
  cf_PackBuilderCmd : string; cf_RuntimeBuilderCmd : string; cf_DefaultPackCmd : string;
  cf_DefaultRuntimeCmd : string; cf_PackRecipesDir : string;
  cf_PythonVersion : string; cf_PlatformTag : string; cf_PlanPoolSize : Z }.

(** [c.CASFetcher()] and the [Pusher] of [BuildWorker]. *)
Definition CASFetcher (c : Config) : Registry :=
  mkRegistry (cf_CASRegistryURL c)
    (if decide (cf_CASRegistryRepo c = "") then "artifacts" else cf_CASRegistryRepo c)
    (cf_CASRegistryUser c) (cf_CASRegistryPass c).
Definition CASPusher (c : Config) : Registry :=
  mkRegistry (cf_CASRegistryURL c) (cf_CASRegistryRepo c) (cf_CASRegistryUser c) (cf_CASRegistryPass c).

(** ** The environment: a variable that is not set is empty *)
Section env.
Context (env : string → string) (atoi : string → option Z).

Definition getenv (k def : string) : string := if decide (env k = "") then def else env k.
Definition getenvInt (k : string) (def : Z) : Z :=
  match atoi (env k) with
  | Some n => if decide (env k ≠ "" ∧ 0 < n)%Z then n else def
  | None => def
  end.
Definition getenvBool (k : string) (def : bool) : bool :=
  let v := ToLower (env k) in
  if decide (v ∈ ["1"; "true"; "yes"; "y"]) then true
  else if decide (v ∈ ["0"; "false"; "no"; "n"]) then false else def.
Definition parseCmd (cmd : string) : list string := if decide (cmd = "") then [] else Fields cmd.
End env.

(** ** Settings taken over from the control plane ([service.go]) *)
Definition validPythonVersion (v : string) : bool :=
  if decide (v = "") then false else HasPrefix v "3." && bool_decide (String.length v <= 5)%nat.
Definition tag_byte (c : Ascii.ascii) : bool :=
  in_range 97 122 c || in_range 65 90 c || in_range 48 57 c ||
  bool_decide (byte_N c = 95%N) || bool_decide (byte_N c = 45%N) || bool_decide (byte_N c = 46%N).
Definition validPlatformTag (tag : string) : bool :=
  if decide (tag = "" ∨ (64 < String.length tag)%nat) then false else str_forall tag_byte tag.

(** What the settings endpoint answered, decoded. *)
Record SettingsPayload := mkSettingsPayload {
  sp_PlanPoolSize : Z; sp_BuildPoolSize : Z; sp_PythonVersion : string; sp_PlatformTag : string }.

Definition with_settings (c : Config) (plan build : Z) (py plat : string) : Config :=
  mkConfig (cf_ControlPlaneURL c) (cf_ControlPlaneToken c) (cf_BuildPopURL c) (cf_BatchSize c)
    build (cf_RequeueOnFailure c) (cf_MaxRequeueAttempts c) (cf_AutoFixEnabled c)
    (cf_AutoSaveHints c) (cf_AutoFixMinConfidence c) (cf_AutoHintRateLimitMin c) (cf_OutputDir c)
    (cf_CacheDir c) (cf_LocalCASDir c) (cf_CASRegistryURL c) (cf_CASRegistryRepo c)
    (cf_CASRegistryUser c) (cf_CASRegistryPass c) (cf_CASPushEnabled c) (cf_RepairPushEnabled c)
    (cf_PackPushEnabled c) (cf_RuntimePushEnabled c) (cf_RepairToolVersion c)
    (cf_RepairPolicyHash c) (cf_PackBuilderCmd c) (cf_RuntimeBuilderCmd c) (cf_DefaultPackCmd c)
    (cf_DefaultRuntimeCmd c) (cf_PackRecipesDir c) py plat plan.

(** [overlaySettingsFromControlPlane], given the decoded answer ([None]: no
    control plane, or no usable answer). *)
Definition overlaySettings (c : Config) (answer : option SettingsPayload) : Config :=
  match answer with
  | None => c
  | Some p =>
    with_settings c
      (if decide (0 < sp_PlanPoolSize p)%Z then sp_PlanPoolSize p else cf_PlanPoolSize c)
      (if decide (0 < sp_BuildPoolSize p)%Z then sp_BuildPoolSize p else cf_BuildPoolSize c)
      (if validPythonVersion (sp_PythonVersion p) then sp_PythonVersion p else cf_PythonVersion c)
      (if validPlatformTag (sp_PlatformTag p) then sp_PlatformTag p else cf_PlatformTag c)
  end.
