(* ===== verification/HintFeed.v ===== *)
(** How the hint catalog reaches the worker: [fetchHints] of
    [go-worker/internal/service/hints.go] reads pages until a short one, and the
    control plane's [hints] handler ([api/handlers.go]) serves them from
    [ListHintsPaged] ([store/postgres.go]). *)
From S2P Require Import Prelude.
From S2P Require Import GoStr.
From S2P Require Import Http.
From S2P Require Import PlanTypes.
From S2P Require Import Config.
From S2P Require Import Queue.
From Stdlib Require Import Ascii.
Local Open Scope string_scope.
Local Open Scope list_scope.
Local Open Scope Z_scope.

(** ** The control plane *)
Definition parseIntDefault (atoi : string → option Z) (val : string) (def max : Z) : Z :=
  if decide (val = "") then def
  else match atoi val with
       | None => def
       | Some i => if decide (i <= 0) then def
                   else if decide (0 < max ∧ max < i) then max else i
       end.

(** [ListHintsPaged] without a search: [hints] is the table in the order of its
    ids, deleted rows left out. *)
Definition ListHintsPaged (hints : list Hint) (limit offset : Z) : list Hint :=
  let limit := if decide (limit <= 0) then 10 else limit in
  let limit := if decide (200 < limit) then 200 else limit in
  let offset := if decide (offset < 0) then 0 else offset in
  take (Z.to_nat limit) (drop (Z.to_nat offset) hints).

(** The GET branch of [hints] for the two query parameters. *)
Definition hints_page (atoi : string → option Z) (hints : list Hint) (limit offset : string) : list Hint :=
  ListHintsPaged hints (parseIntDefault atoi limit 10 200) (parseIntDefault atoi offset 0 100000).

(** ** The worker *)
Definition token_headers (cfg : Config) : list (string * string) :=
  if decide (cf_ControlPlaneToken cfg = "") then [] else [("X-Worker-Token", cf_ControlPlaneToken cfg)].

Section fetch.
Context {W : Type} `{HttpClient W}.
Context (decode_hints : string → option (list Hint)) (cfg : Config).

Definition fetch_limit : Z := 500.
Definition hints_url (offset : Z) : string :=
  TrimRight (cf_ControlPlaneURL cfg) "/"%char +:+ "/api/hints?limit=" +:+ itoa fetch_limit
    +:+ "&offset=" +:+ itoa offset.

(** The loop; [None] when [fuel] pages were not enough.  An error is returned
    next to the hints read so far. *)
Fixpoint fetch_loop (fuel : nat) (ctx : Ctx) (offset : Z) (out : list Hint) (w : W)
    : option (list Hint * option string * W) :=
  match fuel with
  | O => None
  | S fuel =>
    match http_call ctx "GET" (hints_url offset) (token_headers cfg) "" w with
    | (Err e, w') => Some (out, Some e, w')
    | (Ok resp, w') =>
      if decide (rs_Status resp = 200) then
        match decode_hints (rs_Body resp) with
        | None => Some (out, Some "invalid json", w')
        | Some page =>
          if decide (page = []) then Some (out, None, w')
          else if decide (Z.of_nat (length page) < fetch_limit) then Some (out ++ page, None, w')
          else fetch_loop fuel ctx (offset + Z.of_nat (length page)) (out ++ page) w'
        end
      else Some (out, Some ("fetch hints status " +:+ itoa (rs_Status resp)), w')
    end
  end.
Definition fetchHints (fuel : nat) (ctx : Ctx) (w : W) : option (list Hint * option string * W) :=
  if decide (cf_ControlPlaneURL cfg = "") then Some ([], None, w)
  else fetch_loop fuel ctx 0 [] w.

(** A server of [hints] that answers pages of at most [cap]. *)
Definition serves (cap : nat) (hints : list Hint) (encode : list Hint → string) (w : W) : Prop :=
  ∀ off : nat,
    http_call live "GET" (hints_url (Z.of_nat off)) (token_headers cfg) "" w =
      (Ok (mkResp 200 "" (encode (take (min 500 cap) (drop off hints)))), w).

Lemma fetch_loop_serves cap hints encode w off out fuel :
  (∀ l, decode_hints (encode l) = Some l) → serves cap hints encode w → (500 <= cap)%nat →
  (length (drop off hints) < fuel)%nat →
  fetch_loop fuel live (Z.of_nat off) out w = Some (out ++ drop off hints, None, w).
Proof using Type.
  intros Hdec Hserve Hcap. revert off out.
  induction fuel as [|fuel IH]; intros off out Hfuel; [lia|]. cbn [fetch_loop].
  rewrite (Hserve off). cbn [rs_Status rs_Body]. rewrite decide_True by done. rewrite Hdec.
  rewrite Nat.min_l by done. set (rest := drop off hints) in *.
  case_decide as Hnil; [|case_decide as Hshort].
  - destruct rest as [|h rest]; [by rewrite app_nil_r|done].
  - rewrite (take_ge rest); [done|]. rewrite length_take in Hshort. unfold fetch_limit in Hshort. lia.
  - rewrite length_take in Hshort |- *. unfold fetch_limit in Hshort.
    replace (Z.of_nat off + Z.of_nat (min 500 (length rest))) with (Z.of_nat (off + 500)) by lia.
    assert (Hdrop : drop (off + 500) hints = drop 500 rest) by (unfold rest; by rewrite drop_drop).
    rewrite IH by (rewrite Hdrop, length_drop; lia).
    by rewrite Hdrop, <-app_assoc, take_drop.
Qed.
End fetch.

(** How many hints [fetchHints] reads from a server of a catalog.  If the
    server's pages may hold the 500 hints asked for, it reads the whole catalog.
    If the server caps pages below that, the first page is shorter than asked
    for, [fetchHints] takes it for the last one, and the rest of the catalog is
    never read. *)
Theorem fetchHints_spec {W} `{HttpClient W} decode_hints cfg encode (cap : nat) hints (w : W) :
  cf_ControlPlaneURL cfg ≠ "" → (∀ l, decode_hints (encode l) = Some l) →
  serves cfg cap hints encode w →
  fetchHints decode_hints cfg (S (length hints)) live w =
    Some (if decide (500 <= cap)%nat then hints else take cap hints, None, w).
Proof.
  intros Hurl Hdec Hserve. unfold fetchHints. rewrite decide_False by done.
  case_decide as Hcap.
  - eapply (fetch_loop_serves decode_hints cfg cap hints encode w 0 []); [done..|rewrite drop_0; lia].
  - cbn [fetch_loop]. change 0 with (Z.of_nat 0). rewrite (Hserve 0%nat). cbn [rs_Status rs_Body].
    rewrite decide_True by done. rewrite Hdec, Nat.min_r, drop_0 by lia.
    case_decide as Hnil; [by rewrite Hnil|]. rewrite decide_True; [done|].
    rewrite length_take. unfold fetch_limit. lia.
Qed.

(** [fetchHints] against the [hints] handler of the control plane: it asks for
    pages of 500, the handler answers pages of 200, and the worker works with the
    first 200 hints of the catalog, however long it is, without an error. *)
Theorem fetchHints_from_control_plane {W} `{HttpClient W} decode_hints cfg encode atoi hints (w : W) :
  cf_ControlPlaneURL cfg ≠ "" → (∀ l, decode_hints (encode l) = Some l) →
  atoi (itoa fetch_limit) = Some fetch_limit → atoi (itoa 0) = Some 0 →
  http_call live "GET" (hints_url cfg 0) (token_headers cfg) "" w =
    (Ok (mkResp 200 "" (encode (hints_page atoi hints (itoa fetch_limit) (itoa 0)))), w) →
  fetchHints decode_hints cfg (S (length hints)) live w = Some (take 200 hints, None, w).
Proof.
  intros Hurl Hdec Hlim Hoff Hserve. unfold fetchHints. rewrite decide_False by done.
  cbn [fetch_loop]. rewrite Hserve. cbn [rs_Status rs_Body].
  rewrite decide_True by done. rewrite Hdec.
  assert (hints_page atoi hints (itoa fetch_limit) (itoa 0) = take 200 hints) as ->.
  { unfold hints_page, parseIntDefault. rewrite !decide_False by done.
    rewrite Hlim, Hoff. done. }
  case_decide as Hnil; [by rewrite Hnil|]. rewrite decide_True; [done|].
  rewrite length_take. unfold fetch_limit. lia.
Qed.

(** ** An example: a server of 300 hints *)
Definition feed_cfg : Config :=
  mkConfig "http://cp/" "" "" 1 1 false 0 false false "" 0 "" "" "" "" "" "" "" false false false
    false "" "" "" "" "" "" "" "" "" 1.
Definition feed_hint : Hint := mkHint "h" "" ∅ "" [] "" ∅ "" [].
Definition feed_catalog : list Hint := replicate 300 feed_hint.
#[export] Instance Hint_eq_dec : EqDecision Hint.
Proof. solve_decision. Defined.
#[export] Program Instance Hint_countable : Countable Hint :=
  inj_countable'
    (λ h, (h_ID h, h_Pattern h, h_Recipes h, h_Note h, h_Tags h, h_Severity h, h_AppliesTo h,
           h_Confidence h, h_Examples h))
    (λ '(a, b, c, d, e, f, g, h, i), mkHint a b c d e f g h i) _.
Next Obligation. by intros []. Qed.
Definition encode_page (l : list Hint) : string := marshal l.
Definition decode_page (s : string) : option (list Hint) := unmarshal s.
(** It answers the page [page off] at the URL of [off]. *)
Definition feed_server (page : nat → list Hint) : HttpClient unit := {|
  url_ok _ := true;
  do_req r w :=
    (Ok (mkResp 200 "" (encode_page
       match list_find (λ off, rq_URL r = hints_url feed_cfg (Z.of_nat off)) (seq 0 300) with
       | Some (_, off) => page off
       | None => []
       end)), w) |}.

Lemma hints_url_inj a b : hints_url feed_cfg a = hints_url feed_cfg b → a = b.
Proof. unfold hints_url. intros Heq. repeat apply (inj (String.append _)) in Heq. by apply (inj pretty) in Heq. Qed.

Lemma feed_server_serves page off :
  (∀ off : nat, (300 <= off)%nat → page off = []) →
  @http_call unit (feed_server page) live "GET" (hints_url feed_cfg (Z.of_nat off))
    (token_headers feed_cfg) "" tt = (Ok (mkResp 200 "" (encode_page (page off))), tt).
Proof.
  intros Hend. cbn -[seq]. destruct (list_find _ _) as [[i o]|] eqn:Hf.
  - apply list_find_Some in Hf as (_ & Heq & _). apply hints_url_inj in Heq.
    by replace off with o by lia.
  - apply list_find_None in Hf. destruct (decide (off < 300)%nat) as [Hlt|]; [|by rewrite Hend by lia].
    exfalso. rewrite Forall_forall in Hf. apply (Hf off); [|done]. apply elem_of_seq. lia.
Qed.

Lemma fetchHints_spec_witness :
  @fetchHints unit (feed_server (λ off, take (min 500 100) (drop off feed_catalog))) decode_page feed_cfg
    (S (length feed_catalog)) live tt = Some (take 100 feed_catalog, None, tt).
Proof.
  apply (@fetchHints_spec unit (feed_server (λ off, take (min 500 100) (drop off feed_catalog)))
           decode_page feed_cfg encode_page 100 feed_catalog tt).
  - done.
  - intros l. apply unmarshal_marshal.
  - intros off. apply feed_server_serves. intros o Ho. by rewrite drop_ge.
Defined.

Definition feed_atoi (s : string) : option Z :=
  if decide (s = "500") then Some 500 else if decide (s = "0") then Some 0 else None.
Definition first_page : list Hint := hints_page feed_atoi feed_catalog (itoa fetch_limit) (itoa 0).
Definition only_first (off : nat) : list Hint := match off with O => first_page | S _ => [] end.
Lemma only_first_served :
  @http_call unit (feed_server only_first) live "GET" (hints_url feed_cfg 0) (token_headers feed_cfg) "" tt =
    (Ok (mkResp 200 "" (encode_page first_page)), tt).
Proof.
  change 0 with (Z.of_nat 0). rewrite feed_server_serves; [done|]. intros [|o] Ho; [lia|done].
Qed.
Lemma fetchHints_from_control_plane_witness :
  @fetchHints unit (feed_server only_first) decode_page feed_cfg (S (length feed_catalog)) live tt =
    Some (take 200 feed_catalog, None, tt).
Proof.
  apply (@fetchHints_from_control_plane unit (feed_server only_first)
           decode_page feed_cfg encode_page feed_atoi feed_catalog tt).
  - done.
  - intros l. apply unmarshal_marshal.
  - reflexivity.
  - reflexivity.
  - apply only_first_served.
Defined.
