(* ===== verification/Interleave.v ===== *)
(** Goroutines of an [errgroup] with a limit, as programs that take turns.

    A program is a tree of atomic actions on the shared state; [Crash] is a panic,
    which ends the process with all its goroutines.  A group runs at most [limit]
    programs at a time and starts the next one when one has returned; a schedule
    is any list of numbers, each of which picks one of the running programs, so a
    theorem about all schedules covers every interleaving.

    [rg] is a rely-guarantee specification: the steps of the other programs may
    change the state along [R], and the program's own steps stay in [R]. *)
From S2P Require Import Prelude.
Local Open Scope list_scope.
Local Open Scope nat_scope.

Lemma delete_in_app {A} (l1 l2 : list A) k : k < length l1 → delete k (l1 ++ l2) = delete k l1 ++ l2.
Proof. revert k. induction l1 as [|x l1 IH]; intros [|k] Hk; simpl in *; [lia..|done|]. f_equal. apply IH. lia. Qed.
Lemma Forall2_delete_both {A B} (P : A → B → Prop) l1 l2 k :
  Forall2 P l1 l2 → Forall2 P (delete k l1) (delete k l2).
Proof. intros Hall. revert k. induction Hall; intros [|k]; simpl; [constructor..|done|]. constructor; auto. Qed.

Section programs.
Context {St : Type}.

Inductive prog := Ret (e : option string) | Crash | Act (f : St → prog * St).

(** The program takes at most [n] actions, whatever it reads. *)
Fixpoint bounded (n : nat) (p : prog) : Prop :=
  match p with
  | Ret _ | Crash => True
  | Act f => match n with O => False | S n' => ∀ s, bounded n' (f s).1 end
  end.

(** ** Groups *)
Record group := mkGroup { gr_running : list prog; gr_waiting : list prog; gr_crashed : bool }.
Definition spawn (limit : nat) (jobs : list prog) : group :=
  mkGroup (take limit jobs) (drop limit jobs) false.
Definition group_done (g : group) : bool :=
  gr_crashed g || bool_decide (length (gr_running g ++ gr_waiting g) = 0).

(** One turn of the program the schedule picks. *)
Definition turn (i : nat) (g : group) (s : St) : group * St :=
  if gr_crashed g then (g, s)
  else
    let k := i mod length (gr_running g) in
    match gr_running g !! k with
    | None => (g, s)
    | Some (Ret _) =>
      (mkGroup (delete k (gr_running g) ++ take 1 (gr_waiting g)) (drop 1 (gr_waiting g)) false, s)
    | Some Crash => (mkGroup (gr_running g) (gr_waiting g) true, s)
    | Some (Act f) =>
      let '(p, s') := f s in (mkGroup (<[k := p]> (gr_running g)) (gr_waiting g) false, s')
    end.
Definition turns (sched : list nat) (g : group) (s : St) : group * St :=
  foldl (λ gs i, turn i gs.1 gs.2) (g, s) sched.

(** ** It ends *)
(** A bound for each program that is left, with one turn to return. *)
Definition budget (b : list nat) : nat := sum_list_with S b.
Definition within (g : group) (total : nat) : Prop :=
  ∃ b, Forall2 bounded b (gr_running g ++ gr_waiting g) ∧ budget b ≤ total ∧
       (gr_running g = [] → gr_waiting g = []).

Lemma budget_app a b : budget (a ++ b) = budget a + budget b.
Proof using Type. apply sum_list_with_app. Qed.
Lemma budget_insert k x b y : b !! k = Some x → budget (<[k := y]> b) + S x = budget b + S y.
Proof using Type.
  revert k. induction b as [|z b IH]; intros [|k] Hk; simplify_eq/=; [lia|]. specialize (IH k Hk).
  unfold budget in *. simpl. lia.
Qed.
Lemma budget_delete k x b : b !! k = Some x → budget (delete k b) + S x = budget b.
Proof using Type.
  revert k. induction b as [|z b IH]; intros [|k] Hk; simplify_eq/=; [unfold budget; simpl; lia|].
  specialize (IH k Hk). unfold budget in *. simpl. lia.
Qed.

Lemma running_picked i g : gr_running g ≠ [] → is_Some (gr_running g !! (i mod length (gr_running g))).
Proof using Type.
  intros Hne. apply lookup_lt_is_Some_2, Nat.mod_upper_bound. by destruct (gr_running g).
Qed.

Lemma turn_within i g s total :
  within g (S total) → group_done g = false →
  group_done (turn i g s).1 = true ∨ within (turn i g s).1 total.
Proof using Type.
  intros (b & Hb & Htot & Hnil) Hnd. unfold group_done in Hnd. unfold turn.
  destruct (gr_crashed g) eqn:Hc; [done|]. simpl in Hnd. apply bool_decide_eq_false in Hnd.
  assert (Hne : gr_running g ≠ []).
  { intros Hr. apply Hnd. by rewrite Hr, (Hnil Hr). }
  set (k := i mod _). destruct (running_picked i g Hne) as [p Hp]. fold k in Hp.
  assert (Hpa : (gr_running g ++ gr_waiting g) !! k = Some p) by by apply lookup_app_l_Some.
  destruct (Forall2_lookup_r _ _ _ _ _ Hb Hpa) as (x & Hx & Hbx). rewrite Hp.
  destruct p as [e| |f]; [right|by left|].
  - exists (delete k b). simpl. pose proof (budget_delete k x b Hx). split_and!; [|lia|].
    + rewrite <-(assoc_L (++)), take_drop.
      rewrite <-delete_in_app by (by eapply lookup_lt_Some). by apply Forall2_delete_both.
    + intros Happ. apply app_nil in Happ as [_ Ht]. by destruct (gr_waiting g).
  - destruct (f s) as [p' s'] eqn:Hf. right. destruct x as [|x]; [done|].
    exists (<[k := x]> b). simpl. pose proof (budget_insert k (S x) b x Hx). split_and!; [|lia|].
    + rewrite <-insert_app_l by (by eapply lookup_lt_Some). apply Forall2_insert; [done|].
      specialize (Hbx s). by rewrite Hf in Hbx.
    + intros Hi. apply (f_equal length) in Hi. rewrite length_insert in Hi. by destruct (gr_running g).
Qed.
Lemma turn_done i g s : group_done g = true → group_done (turn i g s).1 = true.
Proof using Type.
  unfold group_done, turn. destruct (gr_crashed g) eqn:Hc; [simpl; by rewrite Hc|]. simpl.
  intros Hl%bool_decide_eq_true. rewrite length_app in Hl.
  destruct (gr_running g) as [|p r] eqn:Hr; [|simpl in Hl; lia].
  rewrite lookup_nil. cbn [fst]. rewrite Hc, Hr. by apply bool_decide_eq_true.
Qed.
Lemma turns_done sched g s total :
  (group_done g = true ∨ within g total) → total ≤ length sched → group_done (turns sched g s).1 = true.
Proof using Type.
  unfold turns. revert g s total. induction sched as [|i sched IH]; intros g s total Hw Hlen; simpl.
  - destruct Hw as [Hd|(b & Hb & Ht & _)]; [done|]. simpl in Hlen.
    destruct b as [|x b]; [|unfold budget in Ht; simpl in Ht; lia].
    unfold group_done. apply Forall2_nil_inv_l in Hb. rewrite Hb. by rewrite orb_true_r.
  - simpl in Hlen. destruct (turn i g s) as [g1 s1] eqn:Ht.
    apply (IH g1 s1 (Nat.pred total)); [|lia].
    destruct (group_done g) eqn:Hd.
    { left. pose proof (turn_done i g s Hd) as H'. by rewrite Ht in H'. }
    destruct Hw as [|Hw]; [done|]. destruct total as [|total].
    + destruct Hw as (b & Hb & Htot & _). destruct b as [|x b]; [|unfold budget in Htot; simpl in Htot; lia].
      apply Forall2_nil_inv_l in Hb. unfold group_done in Hd. rewrite Hb, orb_true_r in Hd. done.
    + pose proof (turn_within i g s total Hw Hd) as H'. by rewrite Ht in H'.
Qed.
(** Every schedule with enough turns ends the group. *)
Lemma spawn_ends limit n jobs sched s :
  0 < limit → Forall (bounded n) jobs → S n * length jobs ≤ length sched →
  group_done (turns sched (spawn limit jobs) s).1 = true.
Proof using Type.
  intros Hl Hb Hlen. apply (turns_done _ _ _ (S n * length jobs)); [right|done].
  exists (replicate (length jobs) n). simpl. rewrite take_drop. split_and!.
  - clear Hlen. induction Hb; simpl; constructor; done.
  - clear. induction jobs; simpl; unfold budget in *; simpl in *; lia.
  - intros Ht. destruct jobs as [|p jobs]; [by rewrite drop_nil|]. by destruct limit; [lia|].
Qed.

(** At no time more than [limit] programs are running. *)
Lemma turn_running limit i g s :
  length (gr_running g) ≤ limit → length (gr_running (turn i g s).1) ≤ limit.
Proof using Type.
  intros Hl. unfold turn. destruct (gr_crashed g); [done|]. destruct (gr_running g !! _) as [[e| |f]|] eqn:Hp; [|done| |done].
  - simpl. rewrite length_app, length_take. pose proof (lookup_lt_Some _ _ _ Hp). rewrite length_delete by done. lia.
  - destruct (f s). simpl. by rewrite length_insert.
Qed.
Lemma turns_running limit sched g s :
  length (gr_running g) ≤ limit → length (gr_running (turns sched g s).1) ≤ limit.
Proof using Type.
  unfold turns. revert g s. induction sched as [|i sched IH]; intros g s Hl; simpl; [done|].
  pose proof (turn_running limit i g s Hl). destruct (turn i g s). by apply IH.
Qed.

(** ** Rely and guarantee *)
Context (R : relation St) `{!PreOrder R}.

Fixpoint rg (Q : option string → St → Prop) (p : prog) (s : St) : Prop :=
  match p with
  | Ret e => Q e s
  | Crash => False
  | Act f => ∀ s', R s s' → R s' (f s').2 ∧ rg Q (f s').1 (f s').2
  end.
Definition stable (Q : option string → St → Prop) : Prop := ∀ e s s', Q e s → R s s' → Q e s'.

Lemma rg_stable Q p s s' : stable Q → rg Q p s → R s s' → rg Q p s'.
Proof using PreOrder0.
  intros HQ Hrg HR. destruct p as [e| |f]; simpl in *; [by eapply HQ|done|].
  intros t Ht. apply Hrg. by etrans.
Qed.

(** What holds between turns: nothing has crashed, every program that is left
    keeps a specification, and each job's promise is kept or still to be kept. *)
Record group_inv (Qs : list (option string → St → Prop)) (g : group) (s : St) : Prop := {
  gi_alive : gr_crashed g = false;
  gi_all : Forall (λ p, ∃ Q, stable Q ∧ rg Q p s) (gr_running g ++ gr_waiting g);
  gi_jobs : Forall (λ Q, (∃ e, Q e s) ∨ Exists (λ p, rg Q p s) (gr_running g ++ gr_waiting g)) Qs }.

Lemma group_inv_turn Qs i g s :
  Forall stable Qs → group_inv Qs g s →
  R s (turn i g s).2 ∧ group_inv Qs (turn i g s).1 (turn i g s).2.
Proof using PreOrder0.
  intros Hst [Halive Hall Hjobs]. unfold turn. rewrite Halive. set (k := i mod _).
  destruct (gr_running g !! k) as [p|] eqn:Hp; [|done].
  assert (Hpa : (gr_running g ++ gr_waiting g) !! k = Some p) by by apply lookup_app_l_Some.
  pose proof (lookup_lt_Some _ _ _ Hp) as Hk.
  destruct p as [e| |f].
  - split; [done|]. assert (Heq : (delete k (gr_running g) ++ take 1 (gr_waiting g)) ++ drop 1 (gr_waiting g) =
      delete k (gr_running g ++ gr_waiting g)) by by rewrite <-(assoc_L (++)), take_drop, delete_in_app.
    split; simpl; [done|rewrite Heq; by apply Forall_delete|rewrite Heq].
    rewrite Forall_forall in Hjobs |- *. intros Q HQ.
    destruct (Hjobs Q HQ) as [?|Hex]; [by left|]. apply Exists_exists in Hex as (q & Hq & Hrg).
    apply list_elem_of_lookup in Hq as [j Hj].
    destruct (decide (j = k)) as [->|Hne]; [rewrite Hpa in Hj; simplify_eq; left; by exists e|right].
    apply Exists_exists. exists q. split; [|done].
    destruct (decide (j < k)) as [Hlt|Hge].
    + apply (list_elem_of_lookup_2 _ j). by rewrite list_lookup_delete_lt.
    + apply (list_elem_of_lookup_2 _ (Nat.pred j)). rewrite list_lookup_delete_ge by lia.
      by replace (S (Nat.pred j)) with j by lia.
  - exfalso. rewrite Forall_forall in Hall. destruct (Hall Crash) as (Q & _ & Hrg); [|done].
    by eapply list_elem_of_lookup_2.
  - assert (HR : R s (f s).2).
    { rewrite Forall_forall in Hall. destruct (Hall (Act f)) as (Q & _ & Hrg); [by eapply list_elem_of_lookup_2|].
      by apply Hrg. }
    assert (Hnew : ∀ Q, rg Q (Act f) s → rg Q (f s).1 (f s).2) by (intros Q Hrg; by apply Hrg).
    destruct (f s) as [p' s'] eqn:Hf. simpl in *. split; [done|].
    assert (Heq : <[k := p']> (gr_running g) ++ gr_waiting g = <[k := p']> (gr_running g ++ gr_waiting g))
      by by rewrite insert_app_l.
    split; simpl; [done|rewrite Heq|rewrite Heq].
    + apply Forall_insert.
      * eapply Forall_impl; [exact Hall|]. intros q (Q & HQ & Hrg). exists Q. split; [done|]. by eapply rg_stable.
      * rewrite Forall_forall in Hall. destruct (Hall (Act f)) as (Q & HQ & Hrg); [by eapply list_elem_of_lookup_2|].
        exists Q. split; [done|]. by apply Hnew.
    + rewrite Forall_forall in Hjobs, Hst |- *. intros Q HQ.
      destruct (Hjobs Q HQ) as [[e He]|Hex]; [left; exists e; by eapply Hst|].
      apply Exists_exists in Hex as (q & Hq & Hrg). apply list_elem_of_lookup in Hq as [j Hj]. right.
      apply Exists_exists. destruct (decide (j = k)) as [->|Hne].
      * rewrite Hpa in Hj. simplify_eq. exists p'. split; [|by apply Hnew].
        apply (list_elem_of_lookup_2 _ k). apply list_lookup_insert_eq. by eapply lookup_lt_Some.
      * exists q. split; [|eapply rg_stable; [by apply Hst|done|done]].
        apply (list_elem_of_lookup_2 _ j). by rewrite list_lookup_insert_ne.
Qed.
Lemma group_inv_turns Qs sched g s :
  Forall stable Qs → group_inv Qs g s →
  R s (turns sched g s).2 ∧ group_inv Qs (turns sched g s).1 (turns sched g s).2.
Proof using PreOrder0.
  intros Hst. unfold turns. revert g s. induction sched as [|i sched IH]; intros g s Hinv; simpl; [done|].
  destruct (group_inv_turn Qs i g s Hst Hinv) as [HR Hinv']. destruct (turn i g s) as [g1 s1]. simpl in *.
  destruct (IH g1 s1 Hinv') as [HR' Hinv'']. split; [by etrans|done].
Qed.
(** The programs keep their promises, however they are interleaved. *)
Lemma spawn_sound limit jobs Qs sched s :
  Forall stable Qs → Forall2 (λ Q p, rg Q p s) Qs jobs →
  let '(g, s') := turns sched (spawn limit jobs) s in
  R s s' ∧ gr_crashed g = false ∧ (group_done g = true → Forall (λ Q, ∃ e, Q e s') Qs).
Proof using PreOrder0.
  intros Hst Hjobs.
  assert (Hinv : group_inv Qs (spawn limit jobs) s).
  { unfold spawn. split; simpl; [done|rewrite take_drop..].
    - apply Forall_forall. intros p [j Hj]%list_elem_of_lookup.
      destruct (Forall2_lookup_r _ _ _ _ _ Hjobs Hj) as (Q & HQ & Hrg). exists Q. split; [|done].
      rewrite Forall_forall in Hst. by eapply Hst, list_elem_of_lookup_2.
    - apply Forall_forall. intros Q [j Hj]%list_elem_of_lookup. right.
      destruct (Forall2_lookup_l _ _ _ _ _ Hjobs Hj) as (p & Hp & Hrg). apply Exists_exists. exists p.
      split; [|done]. by eapply list_elem_of_lookup_2. }
  destruct (group_inv_turns Qs sched _ s Hst Hinv) as [HR [Halive _ Hdone]].
  destruct (turns sched (spawn limit jobs) s) as [g s']. simpl in *. split_and!; [done..|].
  unfold group_done. rewrite Halive. simpl. intros Hl%bool_decide_eq_true%length_zero_iff_nil.
  rewrite Hl in Hdone. eapply Forall_impl; [exact Hdone|]. intros Q [?|Hex]; [done|].
  by apply Exists_nil in Hex.
Qed.
End programs.
Arguments prog : clear implicits.
Arguments group : clear implicits.
