(* ===== verification/Sql.v ===== *)
(** What SQL leaves open: rows that compare equal under [ORDER BY] come in any
    order.  A definition that reads rows in an order takes it from this class, so
    that a theorem holds for every order a query can return. *)
From S2P Require Import Prelude.
Local Open Scope Z_scope.

Class SqlOrder := {
  order_by {A} (key : A → Z) : list A → list A;   (* ORDER BY key ASC *)
  order_by_perm A (key : A → Z) l : order_by key l ≡ₚ l;
  order_by_sorted A (key : A → Z) l : StronglySorted (λ a b, key a <= key b) (order_by key l) }.

Section order.
Context `{SqlOrder}.
(** [ORDER BY key DESC], and with [LIMIT 1]. *)
Definition order_desc {A} (key : A → Z) : list A → list A := order_by (λ a, - key a).
Definition newest {A} (key : A → Z) (l : list A) : option A := head (order_desc key l).

Lemma order_desc_perm {A} (key : A → Z) l : order_desc key l ≡ₚ l.
Proof using Type. apply order_by_perm. Qed.
Lemma order_desc_sorted {A} (key : A → Z) l : StronglySorted (λ a b, key b <= key a) (order_desc key l).
Proof using Type.
  unfold order_desc. pose proof (order_by_sorted A (λ a, - key a) l) as Hs.
  induction Hs as [|x l' _ IH Hall]; constructor; [done|].
  eapply Forall_impl; [exact Hall|]. intros y Hy. simpl in Hy. lia.
Qed.
Lemma newest_Some {A} (key : A → Z) l x :
  newest key l = Some x → x ∈ l ∧ ∀ y, y ∈ l → key y <= key x.
Proof using Type.
  unfold newest. intros Hh. pose proof (order_desc_sorted key l) as Hs.
  assert (Hp : ∀ y, y ∈ l ↔ y ∈ order_desc key l) by (intros y; by rewrite order_desc_perm).
  destruct (order_desc key l) as [|z l']; simplify_eq/=. split; [apply Hp; by left|].
  apply StronglySorted_inv in Hs as [_ Hall]. rewrite Forall_forall in Hall.
  intros y [->|Hy]%Hp%elem_of_cons; [done|by apply Hall].
Qed.
Lemma newest_None {A} (key : A → Z) l : newest key l = None ↔ l = [].
Proof using Type.
  unfold newest. pose proof (order_desc_perm key l) as Hp.
  destruct (order_desc key l) as [|x l']; simpl.
  - symmetry in Hp. apply Permutation_nil_r in Hp. done.
  - split; [done|]. intros ->. by apply Permutation_nil_r in Hp.
Qed.
End order.

(** One such order: stable sorting. *)
Definition key_le {A} (key : A → Z) : relation A := λ a b, key a <= key b.
#[export] Instance key_le_dec {A} (key : A → Z) : RelDecision (key_le key).
Proof. intros a b. unfold key_le. apply _. Defined.
#[export] Instance key_le_total {A} (key : A → Z) : Total (key_le key).
Proof. intros a b. unfold key_le. lia. Qed.
#[export] Instance key_le_trans {A} (key : A → Z) : Transitive (key_le key).
Proof. intros a b c. unfold key_le. lia. Qed.
Definition merge_order : SqlOrder := {|
  order_by A key := merge_sort (key_le key);
  order_by_perm A key l := merge_sort_Permutation _ l;
  order_by_sorted A key l := StronglySorted_merge_sort (key_le key) l |}.
