(* ===== verification/Values.v ===== *)
(** JSON values, and what [encoding/json] does with them: [Decode] into a struct
    (a key selects a field by its exact name, or by its name up to case; [null]
    leaves a string or a number as it is; a value of another type is an error),
    and [Decode] into an [any], where every number becomes a 64-bit float. *)
From S2P Require Import Prelude.
From S2P Require Import GoStr.
Local Open Scope string_scope.
Local Open Scope list_scope.
Local Open Scope Z_scope.

(** A number is kept as its literal. *)
Inductive json :=
  | JsNull | JsBool (b : bool) | JsNum (lit : string) | JsStr (s : string)
  | JsArr (l : list json) | JsObj (l : list (string * json)).
Definition js_int (n : Z) : json := JsNum (itoa n).
Definition js_strings (l : list string) : json := JsArr (JsStr <$> l).
(** A nil slice is written as [null]. *)
Definition js_slice (l : option (list string)) : json :=
  match l with None => JsNull | Some l => js_strings l end.

(** ** Fields of a struct *)
Definition decode_string (v : json) (old : string) : option string :=
  match v with JsNull => Some old | JsStr s => Some s | _ => None end.
Definition decode_int (v : json) (old : Z) : option Z :=
  match v with JsNull => Some old | JsNum lit => ParseInt lit | _ => None end.
(** The elements are decoded over those of the slice the field had. *)
Fixpoint decode_elems (old : list string) (l : list json) : option (list string) :=
  match l with
  | [] => Some []
  | v :: l => s ← decode_string v (default "" (head old)); ss ← decode_elems (tail old) l; Some (s :: ss)
  end.
Definition decode_strings (v : json) (old : option (list string)) : option (option (list string)) :=
  match v with
  | JsNull => Some None
  | JsArr l => Some <$> decode_elems (default [] old) l
  | _ => None
  end.

(** ** [any]

    [float_text] is the literal [Marshal] writes for the float nearest to a
    literal, or [None] when the literal is out of range. *)
Class Floats := {
  float_text : string → option string;
  float_text_int n : - 2 ^ 53 <= n <= 2 ^ 53 → float_text (itoa n) = Some (itoa n) }.

Section any.
Context `{Floats}.

Definition map_pairs {A B} (f : A → option B) : list (string * A) → option (list (string * B)) :=
  fix go l := match l with
              | [] => Some []
              | (k, v) :: l => w ← f v; ws ← go l; Some ((k, w) :: ws)
              end.
(** A repeated key of an object keeps its last value. *)
Fixpoint decode_any (v : json) : option json :=
  match v with
  | JsNum lit => JsNum <$> float_text lit
  | JsArr l => JsArr <$> (fix go l := match l with
                                      | [] => Some []
                                      | x :: l => y ← decode_any x; ys ← go l; Some (y :: ys)
                                      end) l
  | JsObj l => (λ ps, JsObj (map_to_list (fill_map ps))) <$> map_pairs decode_any l
  | v => Some v
  end.
(** Decoding into a map that is not nil adds to it. *)
Definition decode_map (v : json) (old : option (gmap string json)) : option (option (gmap string json)) :=
  match v with
  | JsNull => Some None
  | JsObj l => ps ← map_pairs decode_any l; Some (Some (fill_map ps ∪ default ∅ old))
  | _ => None
  end.

Lemma decode_any_strings l : decode_any (js_strings l) = Some (js_strings l).
Proof using Type.
  unfold js_strings. cbn [decode_any].
  enough (Hg : ∀ go, go = (fix go l := match l with
                                      | [] => Some []
                                      | x :: l => y ← decode_any x; ys ← go l; Some (y :: ys)
                                      end) → go (JsStr <$> l) = Some (JsStr <$> l)) by by rewrite (Hg _ eq_refl).
  intros go ->. induction l as [|s l IH]; [done|]. cbn [fmap list_fmap decode_any mbind option_bind]. by rewrite IH.
Qed.
Lemma decode_any_int n : - 2 ^ 53 <= n <= 2 ^ 53 → decode_any (js_int n) = Some (js_int n).
Proof using Type. intros Hn. cbn [decode_any js_int]. by rewrite float_text_int. Qed.
Lemma decode_any_slice l : decode_any (js_slice l) = Some (js_slice l).
Proof using Type. destruct l; [apply decode_any_strings|done]. Qed.
End any.

(** ** Structs *)
Section struct.
Context {S : Type} (fields : list (string * (json → S → option S))).

Definition field_of (key : string) : option (json → S → option S) :=
  match list_find (λ f, f.1 = key) fields with
  | Some (_, f) => Some (f.2)
  | None => (λ f, f.2.2) <$> list_find (λ f, EqualFold (f.1) key = true) fields
  end.
Fixpoint decode_pairs (l : list (string * json)) (s : S) : option S :=
  match l with
  | [] => Some s
  | (k, v) :: l =>
    s' ← match field_of k with None => Some s | Some f => f v s end;
    decode_pairs l s'
  end.
Definition decode_struct (v : json) (s : S) : option S :=
  match v with JsNull => Some s | JsObj l => decode_pairs l s | _ => None end.

Lemma decode_pairs_app l1 l2 s : decode_pairs (l1 ++ l2) s = decode_pairs l1 s ≫= decode_pairs l2.
Proof using Type.
  revert s. induction l1 as [|[k v] l1 IH]; intros s; [done|]. cbn [app decode_pairs].
  destruct (match field_of k with None => Some s | Some f => f v s end) as [s'|]; [apply IH|done].
Qed.
Lemma decode_pairs_known k v l s f s' :
  field_of k = Some f → f v s = Some s' → decode_pairs ((k, v) :: l) s = decode_pairs l s'.
Proof using Type. intros Hf Hv. cbn [decode_pairs]. by rewrite Hf, Hv. Qed.
Lemma decode_pairs_unknown k v l s : field_of k = None → decode_pairs ((k, v) :: l) s = decode_pairs l s.
Proof using Type. intros Hf. cbn [decode_pairs]. by rewrite Hf. Qed.
End struct.

(** ** Text PostgreSQL stores: no zero byte *)
Definition no_nul (s : string) : bool := str_forall (λ c, negb (bool_decide (byte_N c = 0%N))) s.
Fixpoint json_no_nul (v : json) : bool :=
  match v with
  | JsStr s => no_nul s
  | JsArr l => forallb json_no_nul l
  | JsObj l => forallb (λ kv, no_nul (kv.1) && json_no_nul (kv.2)) l
  | _ => true
  end.
Definition nul_error : string := "pq: invalid byte sequence for encoding UTF8: 0x00".
