(* ===== verification/BuildStore.v ===== *)
(** The build queue of the control plane: the table [build_status] and the
    statements on it in [go-control-plane/internal/store/postgres.go], and the
    handlers [buildQueuePop] and [buildStatusUpdate] of
    [go-control-plane/internal/api/handlers.go].

    The table is a map from (package, version), its unique index, to rows; a
    nullable column is an [option].  Times are microseconds.  PostgreSQL is not
    code of the repository: the statements are translated from their text, and
    where SQL leaves an order open ([ORDER BY] with ties, [RETURNING]) the
    theorems hold for every order that satisfies [Database]. *)
From S2P Require Import Prelude.
From S2P Require Import GoStr.
From S2P Require Import PlanTypes.
From S2P Require Import HintFeed.
From Stdlib Require Import Ascii.
Local Open Scope string_scope.
Local Open Scope list_scope.
Local Open Scope Z_scope.

Record BuildRow := mkBuildRow {
  br_id : Z; br_package : string; br_version : string;
  br_python_tag : option string; br_platform_tag : option string;
  br_status : string; br_attempts : Z; br_backoff_until : option Z;
  br_last_error : option string; br_failure_summary : option string;
  br_recipes : option (list string); br_hint_ids : option (list string);
  br_run_id : option string; br_plan_id : option Z;
  br_leased_at : option Z; br_started_at : option Z; br_finished_at : option Z;
  br_created_at : Z; br_updated_at : Z }.
#[export] Instance BuildRow_eq_dec : EqDecision BuildRow.
Proof. solve_decision. Defined.
Definition row_key (r : BuildRow) : string * string := (br_package r, br_version r).

(** The table, and the sequence of its ids. *)
Record Table := mkTable { tb_rows : gmap (string * string) BuildRow; tb_next : Z }.
Definition empty_table : Table := mkTable ∅ 1.

(** What [rows.Scan] fills; a NULL in a column without COALESCE is an error. *)
Record BuildStatus := mkBuildStatus {
  bs_ID : Z; bs_Package : string; bs_Version : string; bs_PythonTag : string;
  bs_PlatformTag : string; bs_Status : string; bs_Attempts : Z; bs_LastError : string;
  bs_FailureSummary : string; bs_RunID : string; bs_PlanID : Z; bs_BackoffUntil : Z;
  bs_CreatedAt : Z; bs_UpdatedAt : Z; bs_LeasedAt : Z; bs_StartedAt : Z; bs_FinishedAt : Z;
  bs_Recipes : list string; bs_HintIDs : list string }.
(** [extract(epoch from t)::bigint]. *)
Definition epoch (t : Z) : Z := (t + 500000) / 1000000.
Definition epoch_or_0 (t : option Z) : Z := from_option epoch 0 t.
Definition null_scan (column : string) : string :=
  "sql: Scan error on column " +:+ column +:+ ": converting NULL is unsupported".
Definition not_null {A} (column : string) (v : option A) : result A :=
  match v with Some a => Ok a | None => Err (null_scan column) end.
Definition scan_build (r : BuildRow) : result BuildStatus :=
  result_bind (not_null "python_tag" (br_python_tag r)) (λ py,
  result_bind (not_null "platform_tag" (br_platform_tag r)) (λ plat,
  result_bind (not_null "run_id" (br_run_id r)) (λ run,
  result_bind (not_null "plan_id" (br_plan_id r)) (λ plan,
  Ok (mkBuildStatus (br_id r) (br_package r) (br_version r) py plat (br_status r) (br_attempts r)
        (default "" (br_last_error r)) (default "" (br_failure_summary r)) run plan
        (epoch_or_0 (br_backoff_until r)) (epoch (br_created_at r)) (epoch (br_updated_at r))
        (epoch_or_0 (br_leased_at r)) (epoch_or_0 (br_started_at r)) (epoch_or_0 (br_finished_at r))
        (default [] (br_recipes r)) (default [] (br_hint_ids r))))))).
Fixpoint scan_builds (rs : list BuildRow) : result (list BuildStatus) :=
  match rs with
  | [] => Ok []
  | r :: rs => result_bind (scan_build r) (λ b, result_bind (scan_builds rs) (λ bs, Ok (b :: bs)))
  end.

(** The orders SQL leaves open. *)
Class Database := {
  by_created : list BuildRow → list BuildRow;  (* ORDER BY created_at ASC *)
  by_created_perm l : by_created l ≡ₚ l;
  by_created_sorted l : StronglySorted (λ a b, br_created_at a <= br_created_at b) (by_created l);
  returning : list BuildRow → list BuildRow;   (* UPDATE ... RETURNING *)
  returning_perm l : returning l ≡ₚ l }.

Definition int4_max : Z := 2147483647.
Definition rows (t : Table) : list BuildRow := snd <$> map_to_list (tb_rows t).
Definition update_rows (rs : list BuildRow) (t : Table) : Table :=
  mkTable (foldl (λ m r, <[row_key r := r]> m) (tb_rows t) rs) (tb_next t).

(** ** The statements *)
Definition is_ready (now : Z) (r : BuildRow) : bool :=
  bool_decide (br_status r ∈ ["pending"; "retry"]) &&
  match br_backoff_until r with None => true | Some b => bool_decide (b <= now) end.
Definition lease_row (now : Z) (r : BuildRow) : BuildRow :=
  mkBuildRow (br_id r) (br_package r) (br_version r) (br_python_tag r) (br_platform_tag r)
    "leased" (br_attempts r + 1) (br_backoff_until r) (br_last_error r) (br_failure_summary r)
    (br_recipes r) (br_hint_ids r) (br_run_id r) (br_plan_id r) (Some now) None None
    (br_created_at r) now.

Section store.
Context `{Database}.

(** The rows the common table expression of [LeaseBuilds] selects. *)
Definition leasable (now max : Z) (t : Table) : list BuildRow :=
  take (Z.to_nat (if decide (max <= 0) then 1 else max))
    (by_created (filter (λ r, is_ready now r = true) (rows t))).
(** An error of the UPDATE or of a Scan rolls the transaction back. *)
Definition LeaseBuilds (now max : Z) (t : Table) : result (list BuildStatus) * Table :=
  let picked := leasable now max t in
  if decide (Exists (λ r, br_attempts r = int4_max) picked) then (Err "integer out of range", t)
  else
    let leased := lease_row now <$> picked in
    match scan_builds (returning leased) with
    | Err e => (Err e, t)
    | Ok bs => (Ok bs, update_rows leased t)
    end.
End store.

Definition is_stale (now maxAgeSec : Z) (r : BuildRow) : bool :=
  bool_decide (br_status r = "leased") &&
  bool_decide (default (br_updated_at r) (br_leased_at r) < now - maxAgeSec * 1000000).
Definition requeue_row (now : Z) (r : BuildRow) : BuildRow :=
  mkBuildRow (br_id r) (br_package r) (br_version r) (br_python_tag r) (br_platform_tag r)
    "pending" (br_attempts r) None
    (if decide (default "" (br_last_error r) = "") then Some "lease expired" else br_last_error r)
    None (br_recipes r) (br_hint_ids r) (br_run_id r) (br_plan_id r) None None None
    (br_created_at r) now.
Definition RequeueStaleLeases (now maxAgeSec : Z) (t : Table) : Z * Table :=
  if decide (maxAgeSec <= 0) then (0, t)
  else
    let stale := filter (λ r, is_stale now maxAgeSec r = true) (rows t) in
    (Z.of_nat (length stale), update_rows (requeue_row now <$> stale) t).

(** [UpdateBuildStatus]: an upsert on (package, version). *)
Record StatusUpdate := mkStatusUpdate {
  su_package : string; su_version : string; su_status : string; su_error : string;
  su_summary : string; su_attempts : Z; su_backoff : Z; su_recipes : option (list string);
  su_hint_ids : option (list string) }.
Definition excluded_row (now id : Z) (u : StatusUpdate) : BuildRow :=
  let status := ToLower (su_status u) in
  let at_status l := if decide (status ∈ l) then Some now else None in
  let summary := TrimSpace (su_summary u) in
  mkBuildRow id (su_package u) (su_version u) None None status
    (if decide (su_attempts u < 0) then 0 else su_attempts u)
    (if decide (0 < su_backoff u) then Some (su_backoff u * 1000000) else None)
    (Some (su_error u)) (if decide (summary = "") then None else Some summary)
    (su_recipes u) (su_hint_ids u) None None
    (at_status ["leased"]) (at_status ["building"]) (at_status ["built"; "failed"]) now now.
Definition merge_row (now : Z) (e b : BuildRow) : BuildRow :=
  let st := br_status e in
  mkBuildRow (br_id b) (br_package b) (br_version b) (br_python_tag b) (br_platform_tag b) st
    (br_attempts e) (br_backoff_until e) (br_last_error e)
    (if decide (st ∈ ["failed"; "retry"])
     then (if decide (br_failure_summary e = Some "") then None else br_failure_summary e)
     else if decide (st ∈ ["pending"; "leased"; "building"; "built"]) then None
     else br_failure_summary b)
    (if br_recipes e is Some _ then br_recipes e else br_recipes b)
    (if br_hint_ids e is Some _ then br_hint_ids e else br_hint_ids b)
    (br_run_id b) (br_plan_id b)
    (if decide (st ∈ ["pending"; "retry"]) then None
     else if decide (st = "leased") then Some (default now (br_leased_at b)) else br_leased_at b)
    (if decide (st ∈ ["pending"; "retry"; "leased"]) then None
     else if decide (st = "building") then Some (default now (br_started_at b)) else br_started_at b)
    (if decide (st ∈ ["pending"; "retry"; "leased"; "building"]) then None
     else if decide (st ∈ ["built"; "failed"]) then Some now else br_finished_at b)
    (br_created_at b) now.
Definition UpdateBuildStatus (now : Z) (u : StatusUpdate) (t : Table) : option string * Table :=
  if decide (int4_max < su_attempts u) then (Some "integer out of range", t)
  else
    let e := excluded_row now (tb_next t) u in
    let row := match tb_rows t !! row_key e with
               | Some b => merge_row now e b | None => e
               end in
    (None, mkTable (<[row_key e := row]> (tb_rows t)) (tb_next t + 1)).

(** [QueueBuildsFromPlan]: one upsert for each build node of a plan. *)
Definition planRecipeNames (recipes : list RecipeMatch) : option (list string) :=
  let out := filter (λ n, n ≠ "") (rm_Name <$> recipes) in
  if decide (out = []) then None else Some out.
Definition queue_row (now id : Z) (run : string) (plan : Z) (n : FlatNode) (old : option BuildRow)
    : BuildRow :=
  let recipes := planRecipeNames (fn_Recipes n) in
  match old with
  | None => mkBuildRow id (fn_Name n) (fn_Version n) (Some (fn_PythonTag n)) (Some (fn_PlatformTag n))
              "pending" 0 None (Some "") None recipes None (Some run) (Some plan) None None None now now
  | Some b => mkBuildRow (br_id b) (br_package b) (br_version b) (Some (fn_PythonTag n))
                (Some (fn_PlatformTag n)) "pending" 0 None (Some "") None
                (if recipes is Some _ then recipes else br_recipes b) (br_hint_ids b)
                (Some run) (Some plan) (br_leased_at b) (br_started_at b) (br_finished_at b)
                (br_created_at b) (br_updated_at b)
  end.
Definition is_build_node (n : FlatNode) : Prop :=
  ToLower (fn_Action n) = "build" ∧ fn_Name n ≠ "" ∧ fn_Version n ≠ "".
#[export] Instance is_build_node_dec n : Decision (is_build_node n).
Proof. unfold is_build_node. apply _. Defined.
Definition queue_node (now : Z) (run : string) (plan : Z) (t : Table) (n : FlatNode) : Table :=
  let key := (fn_Name n, fn_Version n) in
  mkTable (<[key := queue_row now (tb_next t) run plan n (tb_rows t !! key)]> (tb_rows t)) (tb_next t + 1).
Definition QueueBuildsFromPlan (now : Z) (run : string) (plan : Z) (nodes : list FlatNode) (t : Table)
    : Table :=
  foldl (queue_node now run plan) t (filter is_build_node nodes).

Definition DeleteBuilds (status : string) (t : Table) : Z * Table :=
  let kept := if decide (status = "") then ∅ else filter (λ kr, br_status kr.2 ≠ status) (tb_rows t) in
  (Z.of_nat (size (tb_rows t) - size kept), mkTable kept (tb_next t)).

(** [ListBuilds]; LIMIT is left out when it is not positive. *)
Definition list_filter (status pkg version : string) (planID : Z) (r : BuildRow) : bool :=
  (bool_decide (status = "") || bool_decide (br_status r = status)) &&
  (bool_decide (planID <= 0) || bool_decide (br_plan_id r = Some planID)) &&
  (bool_decide (pkg = "") || bool_decide (br_package r = pkg)) &&
  (bool_decide (version = "") || bool_decide (br_version r = version)).
Definition ListBuilds `{Database} (status : string) (limit planID : Z) (pkg version : string) (t : Table)
    : result (list BuildStatus) :=
  let found := by_created (filter (λ r, list_filter status pkg version planID r = true) (rows t)) in
  scan_builds (if decide (0 < limit) then take (Z.to_nat limit) found else found).

(** [BuildQueueStats]. *)
Record QueueStats := mkQueueStats {
  qs_Length : Z; qs_OldestAgeSec : Z; qs_Pending : Z; qs_Retry : Z; qs_Leased : Z; qs_Building : Z }.
Definition queued_statuses : list string := ["pending"; "retry"; "leased"; "building"].
Definition count_status (status : string) (t : Table) : Z :=
  Z.of_nat (length (filter (λ r, br_status r = status) (rows t))).
Definition BuildQueueStats (now : Z) (t : Table) : QueueStats :=
  let queued := filter (λ r, br_status r ∈ queued_statuses) (rows t) in
  mkQueueStats (Z.of_nat (length queued))
    (match br_created_at <$> queued with
     | [] => 0
     | c :: cs => epoch (now - foldr Z.min c cs)
     end)
    (count_status "pending" t) (count_status "retry" t) (count_status "leased" t)
    (count_status "building" t).

(** ** The handlers *)
(** An entry of the answer of [buildQueuePop], as the worker decodes it. *)
Record PoppedBuild := mkPoppedBuild {
  pb_Package : string; pb_Version : string; pb_PythonTag : string; pb_PlatformTag : string;
  pb_Attempts : Z; pb_RunID : string; pb_PlanID : Z; pb_Recipes : list string;
  pb_HintIDs : list string }.
Definition queue_job (b : BuildStatus) : PoppedBuild :=
  mkPoppedBuild (bs_Package b) (bs_Version b) (bs_PythonTag b) (bs_PlatformTag b) (bs_Attempts b)
    (bs_RunID b) (bs_PlanID b) (bs_Recipes b) (bs_HintIDs b).

(** The rows the handlers add to the tables of events and logs. *)
Record Event := mkEvent {
  ev_Name : string; ev_Version : string; ev_Status : string; ev_Detail : string;
  ev_Attempt : option Z; ev_Recipes : list string; ev_HintIDs : list string; ev_Timestamp : Z }.
Record LogEntry := mkLogEntry {
  le_Name : string; le_Version : string; le_Content : string; le_Timestamp : Z }.
Record ControlPlane := mkControlPlane {
  cp_builds : Table; cp_events : list Event; cp_logs : list LogEntry }.

Definition requireWorkerToken (configured header query : string) : bool :=
  if decide (configured = "") then true
  else bool_decide ((if decide (header = "") then query else header) = configured).

Section handlers.
Context `{Database} (atoi : string → option Z) (rfc3339 : Z → string).
Context (buildLeaseTimeout : Z).

(** The HTTP status, the answer, and the state after the request. *)
Definition buildQueuePop (now : Z) (isPost authorized : bool) (maxParam : string) (cp : ControlPlane)
    : (Z * list PoppedBuild) * ControlPlane :=
  if negb isPost then ((405, []), cp)
  else if negb authorized then ((401, []), cp)
  else
    let max := parseIntDefault atoi maxParam 5 100 in
    let t1 := if decide (0 < buildLeaseTimeout) then (RequeueStaleLeases now buildLeaseTimeout (cp_builds cp)).2
              else cp_builds cp in
    let '(r, t2) := LeaseBuilds now max t1 in
    let cp' := mkControlPlane t2 (cp_events cp) (cp_logs cp) in
    match r with
    | Err _ => ((500, []), cp')
    | Ok builds => ((200, queue_job <$> builds), cp')
    end.

Definition status_detail (status : string) : string :=
  if decide (status = "building") then "build started"
  else if decide (status = "pending") then "build queued"
  else if decide (status = "retry") then "build retry scheduled" else "build status updated".
Definition buildStatusUpdate (now : Z) (isPost authorized : bool) (body : option StatusUpdate)
    (cp : ControlPlane) : Z * ControlPlane :=
  if negb isPost then (405, cp)
  else if negb authorized then (401, cp)
  else
    match body with
    | None => (400, cp)
    | Some u =>
      if decide (su_package u = "" ∨ su_version u = "" ∨ su_status u = "") then (400, cp)
      else
        match UpdateBuildStatus now u (cp_builds cp) with
        | (Some _, t') => (500, mkControlPlane t' (cp_events cp) (cp_logs cp))
        | (None, t') =>
          let sec := now / 1000000 in
          let status := su_status u in
          let events :=
            if decide (status ∈ ["building"; "pending"; "retry"]) then
              [mkEvent (su_package u) (su_version u) status (status_detail status)
                 (if decide (0 < su_attempts u) then Some (su_attempts u) else None)
                 (default [] (su_recipes u)) (default [] (su_hint_ids u)) sec]
            else [] in
          let logs :=
            if decide (status = "building") then
              [mkLogEntry (su_package u) (su_version u)
                 ("build started at " +:+ rfc3339 now +:+ String (ascii_of_nat 10) "status=building") sec]
            else [] in
          (200, mkControlPlane t' (cp_events cp ++ events) (cp_logs cp ++ logs))
        end
    end.
End handlers.

(** ** The tables the operations lead to *)
Definition table_ok (t : Table) : Prop := map_Forall (λ k r, row_key r = k) (tb_rows t).

Lemma elem_of_rows t r : table_ok t → r ∈ rows t ↔ tb_rows t !! row_key r = Some r.
Proof.
  intros Hok. unfold rows. rewrite list_elem_of_fmap. split.
  - intros ([k r'] & -> & Hin). apply elem_of_map_to_list in Hin as Hk. simpl. by rewrite (Hok k r' Hk).
  - intros Hk. exists (row_key r, r). split; [done|]. by apply elem_of_map_to_list.
Qed.
Lemma NoDup_row_keys t : table_ok t → NoDup (row_key <$> rows t).
Proof.
  intros Hok. unfold rows. rewrite <-list_fmap_compose.
  rewrite (list_fmap_ext _ fst); [apply NoDup_fst_map_to_list|].
  intros i [k r] Hi. apply list_elem_of_lookup_2, elem_of_map_to_list in Hi. by apply Hok.
Qed.

Lemma update_rows_in rs t r : NoDup (row_key <$> rs) → r ∈ rs →
  tb_rows (update_rows rs t) !! row_key r = Some r.
Proof.
  unfold update_rows; simpl. induction rs as [|x rs IH] using rev_ind; intros Hnd Hin; [by apply elem_of_nil in Hin|].
  rewrite foldl_snoc. rewrite fmap_app in Hnd. apply NoDup_app in Hnd as (Hnd & Hdis & _).
  apply elem_of_app in Hin as [Hin|Hin%list_elem_of_singleton]; [|subst; apply lookup_insert_eq].
  rewrite lookup_insert_ne; [by apply IH|]. intros Heq. apply (Hdis (row_key r)); [|rewrite <-Heq; by left].
  by apply list_elem_of_fmap_2.
Qed.
Lemma update_rows_out rs t k : k ∉ row_key <$> rs → tb_rows (update_rows rs t) !! k = tb_rows t !! k.
Proof.
  unfold update_rows; simpl. induction rs as [|x rs IH] using rev_ind; intros Hk; [done|].
  rewrite foldl_snoc. rewrite fmap_app, not_elem_of_app in Hk. destruct Hk as [Hk Hx].
  rewrite lookup_insert_ne; [by apply IH|]. intros <-. apply Hx. by left.
Qed.
Lemma update_rows_ok rs t : table_ok t → table_ok (update_rows rs t).
Proof.
  unfold update_rows, table_ok; simpl. intros Hok. induction rs as [|x rs IH] using rev_ind; [done|].
  rewrite foldl_snoc. by apply map_Forall_insert_2.
Qed.
