(* ===== verification/Pending.v ===== *)
(** Pending inputs and plans: the tables [pending_inputs], [plans] and
    [plan_metadata] with their statements in
    [go-control-plane/internal/store/postgres.go], and the handlers on them in
    [go-control-plane/internal/api/handlers.go].

    A statement is translated from its text; times are microseconds.  The
    references of [plan_metadata] are checked where a row is inserted and hold
    where rows are deleted, see [references_ok] in [PendingFacts]. *)
From S2P Require Import Prelude.
From S2P Require Import GoStr.
From S2P Require Import Http.
From S2P Require Import PlanTypes.
From S2P Require Import Queue.
From S2P Require Import HintFeed.
From S2P Require Import Sql.
From S2P Require Import BuildStore.
From Stdlib Require Import Ascii.
Local Open Scope string_scope.
Local Open Scope list_scope.
Local Open Scope Z_scope.

(** ** The tables *)
Record PendingInput := mkPendingInput {
  in_Filename : string; in_Digest : string; in_SizeBytes : Z; in_Status : string;
  in_SourceType : string; in_ObjectBucket : string; in_ObjectKey : string;
  in_ContentType : string; in_Metadata : string }.
Record PendingRow := mkPendingRow {
  pr_id : Z; pr_input : PendingInput; pr_error : option string;
  pr_loaded_at : option Z; pr_planned_at : option Z; pr_processed_at : option Z;
  pr_deleted_at : option Z; pr_created_at : Z; pr_updated_at : Z }.
Definition pr_status (r : PendingRow) : string := in_Status (pr_input r).
Definition with_status (status : string) (i : PendingInput) : PendingInput :=
  mkPendingInput (in_Filename i) (in_Digest i) (in_SizeBytes i) status (in_SourceType i)
    (in_ObjectBucket i) (in_ObjectKey i) (in_ContentType i) (in_Metadata i).

(** The DAG of a plan is stored as it was posted. *)
Record PlanRow := mkPlanRow {
  pl_id : Z; pl_run_id : string; pl_plan : list FlatNode; pl_dag : string; pl_created_at : Z }.
Record MetaRow := mkMetaRow { pm_input : Z; pm_plan : Z; pm_created_at : Z }.
Record Planning := mkPlanning {
  pn_inputs : gmap Z PendingRow; pn_next_input : Z;
  pn_plans : gmap Z PlanRow; pn_next_plan : Z;
  pn_meta : list MetaRow; pn_builds : Table }.
Definition empty_planning : Planning := mkPlanning ∅ 1 ∅ 1 [] empty_table.
Definition with_inputs (m : gmap Z PendingRow) (p : Planning) : Planning :=
  mkPlanning m (pn_next_input p) (pn_plans p) (pn_next_plan p) (pn_meta p) (pn_builds p).
Definition with_builds (t : Table) (p : Planning) : Planning :=
  mkPlanning (pn_inputs p) (pn_next_input p) (pn_plans p) (pn_next_plan p) (pn_meta p) t.
Definition set_input (r : PendingRow) (p : Planning) : Planning :=
  with_inputs (<[pr_id r := r]> (pn_inputs p)) p.

Definition values {V} (m : gmap Z V) : list V := snd <$> map_to_list m.
Definition ErrNotFound : string := "not found".

(** ** Statements on pending inputs *)
Definition AddPendingInput (now : Z) (i : PendingInput) (p : Planning) : Z * Planning :=
  let id := pn_next_input p in
  (id, mkPlanning (<[id := mkPendingRow id i None None None None None now now]> (pn_inputs p)) (id + 1)
         (pn_plans p) (pn_next_plan p) (pn_meta p) (pn_builds p)).

Section queries.
Context `{SqlOrder}.
(** Each input with the last plan it was linked to. *)
Definition plan_of_input (p : Planning) (id : Z) : option Z :=
  pm_plan <$> newest pm_created_at (filter (λ m, pm_input m = id) (pn_meta p)).
Definition listed (status : string) (r : PendingRow) : Prop :=
  pr_deleted_at r = None ∧ (status = "" ∨ pr_status r = status).
#[export] Instance listed_dec status r : Decision (listed status r).
Proof. unfold listed. apply _. Defined.
Definition ListPendingInputs (status : string) (p : Planning) : list (PendingRow * option Z) :=
  (λ r, (r, plan_of_input p (pr_id r))) <$>
    order_desc pr_created_at (filter (listed status) (values (pn_inputs p))).
Definition PendingInputCount (status : string) (p : Planning) : Z :=
  Z.of_nat (length (filter (listed status) (values (pn_inputs p)))).
End queries.

Definition update_status_row (now : Z) (status err : string) (r : PendingRow) : PendingRow :=
  let stamp b old := if (b : bool) then Some now else old in
  mkPendingRow (pr_id r) (with_status status (pr_input r)) (Some err)
    (stamp (bool_decide (status = "planning")) (pr_loaded_at r))
    (stamp (bool_decide (status = "planned")) (pr_planned_at r))
    (stamp (bool_decide (status ∈ ["queued"; "build_queued"])) (pr_processed_at r))
    (pr_deleted_at r) (pr_created_at r) now.
(** An UPDATE that finds no row is no error. *)
Definition UpdatePendingInputStatus (now id : Z) (status err : string) (p : Planning) : Planning :=
  with_inputs (alter (update_status_row now status err) id (pn_inputs p)) p.

Definition delete_row (now : Z) (r : PendingRow) : PendingRow :=
  mkPendingRow (pr_id r) (with_status "deleted" (pr_input r)) (pr_error r) (pr_loaded_at r)
    (pr_planned_at r) (pr_processed_at r) (Some now) (pr_created_at r) now.
Definition DeletePendingInput (now id : Z) (p : Planning) : result PendingRow * Planning :=
  match pn_inputs p !! id with
  | None => (Err ErrNotFound, p)
  | Some r => (Ok (delete_row now r), set_input (delete_row now r) p)
  end.
Definition restore_row (now : Z) (r : PendingRow) : PendingRow :=
  mkPendingRow (pr_id r) (with_status "pending" (pr_input r)) (Some "") None None None None
    (pr_created_at r) now.
Definition RestorePendingInput (now id : Z) (p : Planning) : result PendingRow * Planning :=
  match pn_inputs p !! id with
  | None => (Err ErrNotFound, p)
  | Some r => (Ok (restore_row now r), set_input (restore_row now r) p)
  end.

(** Both columns of [plan_metadata] are foreign keys. *)
Definition LinkPlanToPendingInput (now pendingID planID : Z) (p : Planning) : result Planning :=
  if decide (is_Some (pn_inputs p !! pendingID) ∧ is_Some (pn_plans p !! planID)) then
    Ok (mkPlanning (pn_inputs p) (pn_next_input p) (pn_plans p) (pn_next_plan p)
          (pn_meta p ++ [mkMetaRow pendingID planID now]) (pn_builds p))
  else Err "insert or update on table plan_metadata violates foreign key constraint".

Definition for_plan_row (now : Z) (status : string) (r : PendingRow) : PendingRow :=
  let reset := bool_decide (status = "pending") in
  let column (b : bool) old := if reset then None else if b then Some now else old in
  mkPendingRow (pr_id r) (with_status status (pr_input r)) (Some "") (pr_loaded_at r)
    (column (bool_decide (status = "planned")) (pr_planned_at r))
    (column (bool_decide (status ∈ ["queued"; "build_queued"])) (pr_processed_at r))
    (pr_deleted_at r) (pr_created_at r) now.
(** The rows of a plan, or of all plans if the id is not positive. *)
Definition linked (planID : Z) (p : Planning) (id : Z) : Prop :=
  Exists (λ m, pm_input m = id ∧ (0 < planID → pm_plan m = planID)) (pn_meta p).
#[export] Instance linked_dec planID p id : Decision (linked planID p id).
Proof. unfold linked. apply _. Defined.
Definition UpdatePendingInputsForPlan (now planID : Z) (status : string) (p : Planning) : Z * Planning :=
  let hit r := pr_deleted_at r = None ∧ linked planID p (pr_id r) in
  let upd r := if decide (pr_deleted_at r = None ∧ linked planID p (pr_id r))
               then for_plan_row now status r else r in
  (Z.of_nat (length (filter hit (values (pn_inputs p)))), with_inputs (upd <$> pn_inputs p) p).

(** ** Statements on plans *)
Definition SavePlan (now : Z) (runID : string) (nodes : list FlatNode) (dag : string) (p : Planning)
    : Z * Planning :=
  let id := pn_next_plan p in
  (id, mkPlanning (pn_inputs p) (pn_next_input p) (<[id := mkPlanRow id runID nodes dag now]> (pn_plans p))
         (id + 1) (pn_meta p) (pn_builds p)).
Definition DeletePlans (planID : Z) (p : Planning) : Z * Planning :=
  if decide (0 < planID) then
    (if pn_plans p !! planID is Some _ then 1 else 0,
     mkPlanning (pn_inputs p) (pn_next_input p) (delete planID (pn_plans p)) (pn_next_plan p)
       (filter (λ m, pm_plan m ≠ planID) (pn_meta p)) (pn_builds p))
  else
    (Z.of_nat (size (pn_plans p)),
     mkPlanning (pn_inputs p) (pn_next_input p) ∅ (pn_next_plan p) [] (pn_builds p)).

Definition plan_queued (p : Planning) (planID : Z) : bool :=
  existsb (λ b, bool_decide (br_plan_id b = Some planID) && bool_decide (br_status b ∈ queued_statuses))
    (rows (pn_builds p)).
Definition PlanSnapshot (planID : Z) (p : Planning) : result (PlanRow * bool) :=
  match pn_plans p !! planID with
  | None => Err ErrNotFound
  | Some pl => Ok (pl, plan_queued p planID)
  end.

Record PlanSummary := mkPlanSummary {
  pls_ID : Z; pls_RunID : string; pls_CreatedAt : Z; pls_NodeCount : Z; pls_BuildCount : Z; pls_Queued : bool }.
Definition summarize (p : Planning) (pl : PlanRow) : PlanSummary :=
  mkPlanSummary (pl_id pl) (pl_run_id pl) (epoch (pl_created_at pl)) (Z.of_nat (length (pl_plan pl)))
    (Z.of_nat (length (filter (λ n, ToLower (fn_Action n) = "build") (pl_plan pl))))
    (plan_queued p (pl_id pl)).

Section plan_queries.
Context `{SqlOrder}.
Definition latest_plan (p : Planning) : option PlanRow := newest pl_created_at (values (pn_plans p)).
Definition LatestPlanSnapshot (p : Planning) : result (PlanRow * bool) :=
  match latest_plan p with
  | None => Err ErrNotFound
  | Some pl => Ok (pl, plan_queued p (pl_id pl))
  end.
Definition Plan (p : Planning) : list FlatNode := from_option pl_plan [] (latest_plan p).
Definition ListPlans (limit : Z) (p : Planning) : list PlanSummary :=
  summarize p <$> take (Z.to_nat (if decide (limit <= 0) then 20 else limit))
                    (order_desc pl_created_at (values (pn_plans p))).
End plan_queries.

Definition queue_plan_builds (now : Z) (run : string) (plan : Z) (nodes : list FlatNode) (p : Planning)
    : Planning :=
  with_builds (QueueBuildsFromPlan now run plan nodes (pn_builds p)) p.

(** ** The handlers *)
(** The database, the queue of plan IDs, and the two settings the handlers read
    from the process's configuration. *)
Record Api (S : Type) := mkApi {
  api_db : Planning; api_queue : S; api_AutoPlan : bool; api_AutoBuild : bool }.
Arguments mkApi {S}. Arguments api_db {S}. Arguments api_queue {S}.
Arguments api_AutoPlan {S}. Arguments api_AutoBuild {S}.
Definition with_db {S} (p : Planning) (a : Api S) : Api S :=
  mkApi p (api_queue a) (api_AutoPlan a) (api_AutoBuild a).
Definition with_queue {S} (s : S) (a : Api S) : Api S :=
  mkApi (api_db a) s (api_AutoPlan a) (api_AutoBuild a).

(** What a handler answers besides the HTTP status. *)
Inductive reply :=
  | RError | RDetail
  | RInputs (l : list (PendingRow * option Z))
  | RIDs (ids : list string)
  | RCount (n : Z)
  | RCleared (cleared reset : Z)
  | RNodes (l : list FlatNode)
  | RPlans (l : list PlanSummary)
  | RSnapshot (pl : PlanRow) (queued : bool)
  | REnqueued (planID : Z) (runID : string) (enqueued : Z)
  | RUploaded (bytes : Z) (key : string) (pendingID : Z).

Section handlers.
Context `{SqlOrder} {S : Type} `{Redis S, Codec (gmap string string)}.
(** [h.PlanQ], nil if there is none. *)
Context (planq : option RedisQueue).

Definition handler : Type := Api S → (Z * reply) * Api S.
Definition answer (status : Z) (r : reply) : handler := λ a, ((status, r), a).
Definition refuse (status : Z) : handler := answer status RError.

Definition set_status (now id : Z) (status err : string) (a : Api S) : Api S :=
  with_db (UpdatePendingInputStatus now id status err (api_db a)) a.
(** For every popped or cleared ID that is a number. *)
Definition set_statuses (now : Z) (status : string) (ids : list string) (a : Api S) : Api S :=
  foldl (λ a idStr, match ParseInt idStr with
                    | Some id => set_status now id status "" a
                    | None => a
                    end) a ids.

Definition pendingInputs (meth : string) : handler := λ a,
  if decide (meth = "GET") then answer 200 (RInputs (ListPendingInputs "" (api_db a))) a
  else refuse 405 a.

Definition delete_listed (now : Z) (l : list (PendingRow * option Z)) (p : Planning) : Planning :=
  foldl (λ p r, (DeletePendingInput now (pr_id r.1) p).2) p l.
Definition pendingInputsClear (now : Z) (meth : string) (authorized : bool) (status : string) : handler := λ a,
  if decide (meth ≠ "POST") then refuse 405 a
  else if negb authorized then refuse 401 a
  else
    let list := ListPendingInputs (if decide (status = "") then "pending" else status) (api_db a) in
    answer 200 (RCount (Z.of_nat (length list))) (with_db (delete_listed now list (api_db a)) a).

(** [/api/pending-inputs/{id}] and [/api/pending-inputs/{id}/{action}]. *)
Definition path_parts (prefix path : string) : list string := Split (TrimPrefix path prefix) "/"%char.
Definition pendingInputAction (now : Z) (meth path : string) (authorized : bool) : handler := λ a,
  let parts := path_parts "/api/pending-inputs/" path in
  let idStr := default "" (parts !! 0%nat) in
  let action := default "" (parts !! 1%nat) in
  if decide (idStr = "") then refuse 400 a
  else
    match ParseInt idStr with
    | None => refuse 400 a
    | Some id =>
      if decide (action = "" ∧ meth = "DELETE") then
        if negb authorized then refuse 401 a
        else match DeletePendingInput now id (api_db a) with
             | (Err _, _) => refuse 404 a
             | (Ok _, p) => answer 200 RDetail (with_db p a)
             end
      else if decide (action = "enqueue-plan") then
        if decide (meth ≠ "POST") then refuse 405 a
        else match planq with
             | None => refuse 500 a
             | Some q =>
               match PlanQueue_Enqueue q (itoa id) (api_queue a) with
               | (Some _, s) => refuse 500 (with_queue s a)
               | (None, s) => answer 200 RDetail (set_status now id "planning" "" (with_queue s a))
               end
             end
      else if decide (action = "restore") then
        if decide (meth ≠ "POST") then refuse 405 a
        else if negb authorized then refuse 401 a
        else match RestorePendingInput now id (api_db a) with
             | (Err _, _) => refuse 404 a
             | (Ok _, p) => answer 200 RDetail (with_db p a)
             end
      else refuse 400 a
    end.

Definition pendingInputPop (now : Z) (meth : string) (authorized : bool) (maxParam : string) : handler := λ a,
  if decide (meth ≠ "POST") then refuse 405 a
  else if negb authorized then refuse 401 a
  else match planq with
       | None => refuse 500 a
       | Some q =>
         let '((ids, e), s) := PlanQueue_Pop q (parseIntDefault ParseInt maxParam 1 100) (api_queue a) in
         match e with
         | Some _ => refuse 500 (with_queue s a)
         | None => answer 200 (RIDs ids) (set_statuses now "planning" ids (with_queue s a))
         end
       end.

(** [body]: the decoded JSON, a status and an error. *)
Definition pendingInputStatus (now : Z) (meth path : string) (authorized : bool)
    (body : option (string * string)) : handler := λ a,
  if decide (meth ≠ "POST") then refuse 405 a
  else if negb authorized then refuse 401 a
  else
    let idStr := default "" (path_parts "/api/pending-inputs/status/" path !! 0%nat) in
    if decide (idStr = "") then refuse 400 a
    else match ParseInt idStr, body with
         | Some id, Some (status, err) =>
           if decide (status = "") then refuse 400 a
           else answer 200 RDetail (set_status now id status err a)
         | _, _ => refuse 400 a
         end.

Definition planQueueClear (now : Z) (meth : string) (authorized : bool) : handler := λ a,
  if decide (meth ≠ "POST") then refuse 405 a
  else if negb authorized then refuse 401 a
  else match planq with
       | None => refuse 500 a
       | Some q =>
         match PlanQueue_Clear q (api_queue a) with
         | (Err _, s) => refuse 500 (with_queue s a)
         | (Ok ids, s) =>
           answer 200 (RCleared (Z.of_nat (length ids)) (Z.of_nat (length (omap ParseInt ids))))
             (set_statuses now "pending" ids (with_queue s a))
         end
       end.

(** The end of both upload handlers: the input is recorded, and with AutoPlan it is
    enqueued; the error of [Enqueue] is dropped. *)
Definition register_input (now : Z) (i : PendingInput) (a : Api S) : Z * Api S :=
  let '(id, p) := AddPendingInput now i (api_db a) in
  let a1 := with_db p a in
  match planq with
  | Some q =>
    if api_AutoPlan a then
      let '(_, s) := PlanQueue_Enqueue q (itoa id) (api_queue a1) in
      (id, set_status now id "planning" "" (with_queue s a1))
    else (id, a1)
  | None => (id, a1)
  end.

(** *** Plans *)
(** A posted plan: run, nodes, DAG and the input it was made from (0: none). *)
Record PlanBody := mkPlanBody {
  pb_run : string; pb_plan : list FlatNode; pb_dag : string; pb_pending : Z }.
Definition save_plan (now : Z) (b : PlanBody) : handler := λ a,
  let '(planID, p1) := SavePlan now (pb_run b) (pb_plan b) (pb_dag b) (api_db a) in
  match (if decide (0 < pb_pending b) then
           UpdatePendingInputStatus now (pb_pending b) "planned" "" <$>
             match LinkPlanToPendingInput now (pb_pending b) planID p1 with Ok p => Some p | Err _ => None end
         else Some p1) with
  | None => refuse 500 (with_db p1 a)
  | Some p2 =>
    let p3 := if api_AutoBuild a then
                let p := queue_plan_builds now (pb_run b) planID (pb_plan b) p2 in
                if decide (0 < pb_pending b) then UpdatePendingInputStatus now (pb_pending b) "queued" "" p else p
              else p2 in
    answer 200 RDetail (with_db p3 a)
  end.
Definition plan (now : Z) (meth : string) (body : option PlanBody) : handler := λ a,
  if decide (meth = "GET") then answer 200 (RNodes (Plan (api_db a))) a
  else if decide (meth = "POST") then
    match body with
    | None => refuse 400 a
    | Some b => if decide (pb_plan b = []) then refuse 400 a else save_plan now b a
    end
  else refuse 405 a.

Definition plans (now : Z) (meth : string) (authorized : bool) (limit idParam : string) : handler := λ a,
  if decide (meth = "GET") then answer 200 (RPlans (ListPlans (parseIntDefault ParseInt limit 20 200) (api_db a))) a
  else if decide (meth = "DELETE") then
    if negb authorized then refuse 401 a
    else
      match (if decide (idParam = "") then Some 0
             else id ← ParseInt idParam; if decide (id <= 0) then None else Some id) with
      | None => refuse 400 a
      | Some planID =>
        let '(_, p1) := UpdatePendingInputsForPlan now planID "pending" (api_db a) in
        let '(count, p2) := DeletePlans planID p1 in
        answer 200 (RCount count) (with_db p2 a)
      end
  else refuse 405 a.

Definition planLatest (meth : string) : handler := λ a,
  if decide (meth ≠ "GET") then refuse 405 a
  else match LatestPlanSnapshot (api_db a) with
       | Err _ => refuse 404 a
       | Ok (pl, queued) => answer 200 (RSnapshot pl queued) a
       end.

(** The inputs of a plan become "queued", and if it has none, "build_queued". *)
Definition mark_queued (now planID : Z) (p : Planning) : Planning :=
  let '(count, p') := UpdatePendingInputsForPlan now planID "queued" p in
  if decide (count = 0) then (UpdatePendingInputsForPlan now planID "build_queued" p').2 else p'.
(** The node [enqueue-build] asks for; [None]: more than one version. *)
Fixpoint find_target (pkg ver : string) (target : option FlatNode) (nodes : list FlatNode)
    : option (option FlatNode) :=
  match nodes with
  | [] => Some target
  | n :: nodes =>
    if negb (EqualFold (fn_Action n) "build") || negb (EqualFold (fn_Name n) pkg)
       || (negb (bool_decide (ver = "")) && negb (EqualFold (fn_Version n) ver))
    then find_target pkg ver target nodes
    else if decide (is_Some target ∧ ver = "") then None
    else find_target pkg ver (Some n) nodes
  end.
Definition enqueue_builds (now : Z) (pl : PlanRow) (nodes : list FlatNode) (count : Z) : handler := λ a,
  let p := mark_queued now (pl_id pl) (queue_plan_builds now (pl_run_id pl) (pl_id pl) nodes (api_db a)) in
  answer 200 (REnqueued (pl_id pl) (pl_run_id pl) count) (with_db p a).
Definition count_builds (nodes : list FlatNode) : Z :=
  Z.of_nat (length (filter (λ n, EqualFold (fn_Action n) "build" = true) nodes)).
Definition planByID (now : Z) (meth path : string) (body : option (string * string)) : handler := λ a,
  let parts := path_parts "/api/plan/" path in
  let idStr := default "" (parts !! 0%nat) in
  let action := default "" (parts !! 1%nat) in
  if decide (idStr = "") then refuse 400 a
  else match ParseInt idStr with
  | None => refuse 400 a
  | Some planID =>
    if decide (meth = "GET") then
      if decide (action ≠ "") then refuse 400 a
      else match PlanSnapshot planID (api_db a) with
           | Err _ => refuse 404 a
           | Ok (pl, queued) => answer 200 (RSnapshot pl queued) a
           end
    else if decide (meth = "POST") then
      if decide (action ≠ "enqueue-builds" ∧ action ≠ "enqueue-build") then refuse 400 a
      else match PlanSnapshot planID (api_db a) with
      | Err _ => refuse 404 a
      | Ok (pl, queued) =>
        if decide (action = "enqueue-builds") then
          if (queued : bool) then refuse 409 a
          else enqueue_builds now pl (pl_plan pl) (count_builds (pl_plan pl)) a
        else match body with
        | None => refuse 400 a
        | Some (package, version) =>
          let pkg := TrimSpace package in
          if decide (pkg = "") then refuse 400 a
          else match find_target pkg (TrimSpace version) None (pl_plan pl) with
               | None => refuse 400 a
               | Some None => refuse 404 a
               | Some (Some target) => enqueue_builds now pl [target] 1 a
               end
        end
      end
    else refuse 405 a
  end.

(** ** The requests of the control plane that touch this state *)
Inductive request :=
  | ReqRegister (now : Z) (i : PendingInput)
  | ReqInputs (meth : string)
  | ReqClear (now : Z) (meth : string) (authorized : bool) (status : string)
  | ReqAction (now : Z) (meth path : string) (authorized : bool)
  | ReqPop (now : Z) (meth : string) (authorized : bool) (maxParam : string)
  | ReqStatus (now : Z) (meth path : string) (authorized : bool) (body : option (string * string))
  | ReqQueueClear (now : Z) (meth : string) (authorized : bool)
  | ReqPlan (now : Z) (meth : string) (body : option PlanBody)
  | ReqPlans (now : Z) (meth : string) (authorized : bool) (limit idParam : string)
  | ReqPlanLatest (meth : string)
  | ReqPlanByID (now : Z) (meth path : string) (body : option (string * string)).
Definition serve (r : request) : handler :=
  match r with
  | ReqRegister now i => λ a, let '(id, a') := register_input now i a in ((200, RUploaded (in_SizeBytes i) (in_ObjectKey i) id), a')
  | ReqInputs meth => pendingInputs meth
  | ReqClear now meth authorized status => pendingInputsClear now meth authorized status
  | ReqAction now meth path authorized => pendingInputAction now meth path authorized
  | ReqPop now meth authorized maxParam => pendingInputPop now meth authorized maxParam
  | ReqStatus now meth path authorized body => pendingInputStatus now meth path authorized body
  | ReqQueueClear now meth authorized => planQueueClear now meth authorized
  | ReqPlan now meth body => plan now meth body
  | ReqPlans now meth authorized limit idParam => plans now meth authorized limit idParam
  | ReqPlanLatest meth => planLatest meth
  | ReqPlanByID now meth path body => planByID now meth path body
  end.
Definition serve_all (rs : list request) (a : Api S) : Api S := foldl (λ a r, (serve r a).2) a rs.
End handlers.
