(* ===== verification/PlanLoop.v ===== *)
(** The planning loop of the worker ([go-worker/internal/service/planner.go]): it
    pops the ids of pending inputs, lists the inputs, and plans each of them in a
    goroutine of a group whose size the settings bound.

    [planOne] is a program of four actions: read the input, read the hints, make
    the plan and report it, post it; the goroutines of a round take turns between
    them.  [plannerLoop] is given as its rounds; between rounds it sleeps. *)
From S2P Require Import Prelude.
From S2P Require Import GoStr.
From S2P Require Import Artifact.
From S2P Require Import Pack.
From S2P Require Import Http.
From S2P Require Import Cas.
From S2P Require Import Parse.
From S2P Require Import PlanTypes.
From S2P Require Import Planner.
From S2P Require Import Hints.
From S2P Require Import Queue.
From S2P Require Import Generate.
From S2P Require Import Config.
From S2P Require Import HintFeed.
From S2P Require Import Interleave.
From S2P Require Import Sql.
From S2P Require Import BuildStore.
From S2P Require Import Pending.
From Stdlib Require Import Ascii.
Local Open Scope string_scope.
Local Open Scope list_scope.

(** ** Data *)
(** What the worker reads of a listed input. *)
Record pendingInput := mkPending {
  pi_ID : Z; pi_Filename : string; pi_Status : string; pi_Error : string; pi_SourceType : string;
  pi_Digest : string; pi_ObjectBucket : string; pi_ObjectKey : string; pi_Metadata : string }.
(** The metadata an upload stores; [pendingWheel] has the fields of [WheelInfo]. *)
Record pendingMeta := mkMeta {
  me_Type : string; me_Requirements : list DepSpec; me_Wheel : option WheelInfo;
  me_Requires : list DepSpec }.
Definition no_meta : pendingMeta := mkMeta "" [] None [].

(** The fields of [Config] the planner alone reads. *)
Record PlannerConfig := mkPlannerConfig {
  pc_Config : Config; pc_WorkerToken : string; pc_IndexURL : string; pc_ExtraIndexURL : string;
  pc_UpgradeStrategy : string; pc_ConstraintsPath : string; pc_PackCatalog : option Catalog;
  pc_ObjectStoreBucket : string; pc_PlanPopBatch : Z; pc_popURL : string; pc_statusURL : string;
  pc_listURL : string }.

Definition parseRequiresDistBytes `{Zip} (data : string) : result (list DepSpec) :=
  let? files := zip_read data in
  let meta := metadata_entry files in
  Ok (if decide (meta = "") then [] else Service.parseRequiresDist meta).

Section loop.
Context {W : Type} `{HttpClient W, GoRuntime, Sha256, CasStore, Regexp, Machine, Zip, IndexPeer}.
Context `{Codec Snapshot, Codec (list string), Codec (list pendingInput), Codec pendingMeta,
          Codec (gmap string string), Codec PlanBody, Codec (list DAGNode)}.
Context (env : string → string) (atoi : string → option Z).
Context (decode_overrides : string → option (gmap string string)).
Context (decode_hints : string → option (list Hint)) (hint_pages : nat).
(** [store.Get], and the random id of a plan. *)
Context (obj_get : Ctx → string → W → result string * W) (newRunID : pendingInput → string).
Context (cfg : PlannerConfig) (ctx : Ctx).
Abbreviation base := (pc_Config cfg).

(** ** Reading an input *)
Definition fetchInputObject (pi : pendingInput) (w : W) : result string * W :=
  if decide (pi_ObjectKey pi = "") then (Err "object key missing", w)
  else if decide (pc_ObjectStoreBucket cfg ≠ "" ∧ pi_ObjectBucket pi ≠ "" ∧
                  pc_ObjectStoreBucket cfg ≠ pi_ObjectBucket pi)
  then (Err ("object bucket mismatch: " +:+ pi_ObjectBucket pi), w)
  else obj_get ctx (pi_ObjectKey pi) w.

Definition wheel_named (wi : option WheelInfo) : option WheelInfo :=
  info ← wi; if decide (wi_Name info = "" ∨ wi_Version info = "") then None else Some info.
Definition wheel_input (pi : pendingInput) (info : WheelInfo) (reqs : list DepSpec) : InputSet :=
  mkInputSet [] [mkWheelInput (pi_Filename pi) info (pi_Digest pi) reqs].
Definition input_from_meta (pi : pendingInput) (meta : pendingMeta) (w : W) : result InputSet * W :=
  let kind := if decide (pi_SourceType pi = "") then me_Type meta else pi_SourceType pi in
  let missing what := what +:+ pi_Filename pi in
  if decide (kind = "requirements") then
    let read reqs := if decide (reqs = []) then Err (missing "no requirements metadata for ")
                     else Ok (mkInputSet reqs []) in
    if decide (me_Requirements meta = []) then
      match fetchInputObject pi w with
      | (Err e, w') => (Err (missing "no requirements metadata for " +:+ ": " +:+ e), w')
      | (Ok data, w') => (read (Service.parseRequirementsBytes data), w')
      end
    else (read (me_Requirements meta), w)
  else if decide (kind = "wheel") then
    match wheel_named (me_Wheel meta) with
    | Some info => (Ok (wheel_input pi info (me_Requires meta)), w)
    | None =>
      match fetchInputObject pi w with
      | (Err e, w') => (Err (missing "no wheel metadata for " +:+ ": " +:+ e), w')
      | (Ok data, w') =>
        match Service.parseWheelFilename (pi_Filename pi) with
        | Err e => (Err ("parse wheel filename: " +:+ e), w')
        | Ok info =>
          let reqs := if decide (me_Requires meta = [])
                      then (if parseRequiresDistBytes data is Ok reqs then reqs else [])
                      else me_Requires meta in
          (match wheel_named (Some info) with
           | None => Err (missing "no wheel metadata for ")
           | Some info => Ok (wheel_input pi info reqs)
           end, w')
        end
      end
    end
  else if HasSuffix (ToLower (pi_Filename pi)) ".whl" then
    (Ok (wheel_input pi (mkWheelInfo "" "" "" "" "") []), w)
  else if decide (me_Requirements meta = []) then (Err (missing "unsupported input type for "), w)
  else (Ok (mkInputSet (me_Requirements meta) []), w).
Definition inputSetFromPending (pi : pendingInput) (w : W) : result InputSet * W :=
  if decide (pi_Metadata pi = "") then input_from_meta pi no_meta w
  else match unmarshal (pi_Metadata pi) with
       | None => (Err "parse metadata", w)
       | Some meta => input_from_meta pi meta w
       end.

(** ** Talking to the control plane *)
Definition worker_headers : list (string * string) :=
  if decide (pc_WorkerToken cfg = "") then [] else [("X-Worker-Token", pc_WorkerToken cfg)].
Definition popPlanIDs (batch : Z) (w : W) : result (list string) * W :=
  match http_call ctx "POST" (pc_popURL cfg +:+ "?max=" +:+ itoa batch) worker_headers "" w with
  | (Err e, w') => (Err e, w')
  | (Ok resp, w') =>
    (if decide (rs_Status resp = 200%Z) then
       match unmarshal (rs_Body resp) with Some ids => Ok ids | None => Err "invalid JSON" end
     else Err ("pop status " +:+ itoa (rs_Status resp) +:+ ": " +:+ rs_Body resp), w')
  end.
(** Whatever goes wrong, the map is empty. *)
Definition fetchPendingMap (w : W) : gmap string pendingInput * W :=
  match http_call ctx "GET" (pc_listURL cfg) worker_headers "" w with
  | (Err _, w') => (∅, w')
  | (Ok resp, w') =>
    (match unmarshal (rs_Body resp) with
     | Some list => fill_map ((λ pi, (itoa (pi_ID pi), pi)) <$> list)
     | None => ∅
     end, w')
  end.
Definition status_body (err : option string) : gmap string string :=
  match err with
  | None => {["status" := "planned"]}
  | Some e => {["status" := "failed"; "error" := e]}
  end.
Definition json_content : string * string := ("Content-Type", "application/json").
(** The error is only logged. *)
Definition updatePendingStatus (id : Z) (body : gmap string string) (w : W) : W :=
  (http_call ctx "POST" (pc_statusURL cfg +:+ "/" +:+ itoa id) (json_content :: worker_headers)
     (marshal body) w).2.
Definition plan_body (snap : Snapshot) (id : Z) : PlanBody :=
  mkPlanBody (sn_RunID snap) (sn_Plan snap) (marshal (sn_DAG snap)) (if decide (0 < id)%Z then id else 0%Z).
Definition postPlan (snap : Snapshot) (id : Z) (w : W) : option string * W :=
  if decide (cf_ControlPlaneURL base = "") then (Some "control plane URL not set", w)
  else
    match http_call ctx "POST" (TrimRight (cf_ControlPlaneURL base) "/"%char +:+ "/api/plan")
            (json_content :: token_headers base) (marshal (plan_body snap id)) w with
    | (Err e, w') => (Some e, w')
    | (Ok resp, w') =>
      (if decide (rs_Status resp = 200%Z) then None
       else Some ("plan post status " +:+ itoa (rs_Status resp) +:+ ": " +:+ rs_Body resp), w')
    end.

(** ** Planning one input *)
(** The settings of the control plane, where they are set. *)
Definition generate_args (settings : string * string) (pi : pendingInput) (hints : list Hint) : GenerateArgs :=
  let cacheDir := cf_CacheDir base in
  mkGenerateArgs
    (if decide (cacheDir ≠ "" ∧ 0 < pi_ID pi)%Z
     then path_join (path_join cacheDir "plans") (itoa (pi_ID pi)) else cacheDir)
    (if decide (settings.1 = "") then cf_PythonVersion base else settings.1)
    (if decide (settings.2 = "") then cf_PlatformTag base else settings.2)
    (pc_IndexURL cfg) (pc_ExtraIndexURL cfg) (pc_UpgradeStrategy cfg) (pc_ConstraintsPath cfg) hints
    (pc_PackCatalog cfg) (cf_CASRegistryURL base) (cf_CASRegistryRepo base).
Definition State : Type := W * Files.

Definition post_step (pi : pendingInput) (snap : Snapshot) : prog State :=
  Act (λ s, let '(e, w) := postPlan snap (pi_ID pi) s.1 in
            (Ret ((λ m, "post plan: " +:+ m) <$> e), (w, s.2))).
Definition report_step (pi : pendingInput) (r : result Snapshot) : prog State :=
  Act (λ s, match r with
            | Err e => (Ret (Some e), (updatePendingStatus (pi_ID pi) (status_body (Some e)) s.1, s.2))
            | Ok snap => (post_step pi snap, (updatePendingStatus (pi_ID pi) (status_body None) s.1, s.2))
            end).
Definition generate_step (settings : string * string) (pi : pendingInput) (inputs : InputSet)
    (hints : list Hint) : prog State :=
  Act (λ s, match GenerateFromInputs env atoi decode_overrides (newRunID pi) inputs
                    (generate_args settings pi hints) s.2 with
            | None => (Crash, s)
            | Some (r, fs) => (report_step pi r, (s.1, fs))
            end).
Definition hints_step (settings : string * string) (pi : pendingInput) (inputs : InputSet) : prog State :=
  Act (λ s, match fetchHints decode_hints base hint_pages ctx s.1 with
            | None => (Crash, s)
            | Some (hints, _, w) => (generate_step settings pi inputs hints, (w, s.2))
            end).
Definition planOne (settings : string * string) (pi : pendingInput) : prog State :=
  Act (λ s, match inputSetFromPending pi s.1 with
            | (Err e, w) => (Ret (Some e), (w, s.2))
            | (Ok inputs, w) => (hints_step settings pi inputs, (w, s.2))
            end).

(** ** One round of the loop *)
Definition plan_batch : Z := if decide (pc_PlanPopBatch cfg <= 0)%Z then 5%Z else pc_PlanPopBatch cfg.
Definition plan_pool (planPool : Z) : Z :=
  let pool := if decide (0 < planPool)%Z then planPool else cf_PlanPoolSize base in
  if decide (pool <= 0)%Z then 2%Z else pool.
Definition round_jobs (settings : string * string) (ids : list string) (m : gmap string pendingInput)
    : list (prog State) :=
  planOne settings <$> omap (λ id, m !! id) ids.
(** [None]: nothing was popped, and the loop sleeps. *)
Definition planner_round (planPool : Z) (settings : string * string) (sched : list nat) (s : State)
    : option (group State) * State :=
  match popPlanIDs plan_batch s.1 with
  | (Err _, w) => (None, (w, s.2))
  | (Ok [], w) => (None, (w, s.2))
  | (Ok ids, w) =>
    let '(m, w) := fetchPendingMap w in
    let '(g, s') := turns sched (spawn (Z.to_nat (plan_pool planPool)) (round_jobs settings ids m)) (w, s.2) in
    (Some g, s')
  end.
End loop.
