(* ===== verification/Settings.v ===== *)
(** The settings of the control plane ([internal/settings/settings.go], their table
    in [store/postgres.go], their handler in [api/handlers.go], how [server.go]
    reads them at the start) and how the worker takes them over
    ([overlaySettingsFromControlPlane] and [pollSettings] of [service/service.go]).

    The pool sizes the goroutines of the worker share are 32-bit integers. *)
From S2P Require Import Prelude.
From S2P Require Import GoStr.
From S2P Require Import Http.
From S2P Require Import Queue.
From S2P Require Import Config.
From S2P Require Import HintFeed.
From S2P Require Import Pending.
From S2P Require Import PlanLoop.
From Stdlib Require Import Ascii.
Local Open Scope string_scope.
Local Open Scope list_scope.
Local Open Scope Z_scope.

(** ** settings.go *)
Record Settings := mkSettings {
  st_PythonVersion : string; st_PlatformTag : string; st_PollMs : Z; st_RecentLimit : Z;
  st_AutoPlan : option bool; st_AutoBuild : option bool; st_PlanPoolSize : Z; st_BuildPoolSize : Z }.
Definition zero_settings : Settings := mkSettings "" "" 0 0 None None 0 0.

Definition or_string (s def : string) : string := if decide (s = "") then def else s.
Definition or_int (n def : Z) : Z := if decide (n = 0) then def else n.
Definition ApplyDefaults (s : Settings) : Settings :=
  mkSettings (or_string (st_PythonVersion s) "3.11") (or_string (st_PlatformTag s) "manylinux2014_s390x")
    (or_int (st_PollMs s) 10000) (or_int (st_RecentLimit s) 25)
    (Some (default false (st_AutoPlan s))) (Some (default false (st_AutoBuild s)))
    (or_int (st_PlanPoolSize s) 2) (or_int (st_BuildPoolSize s) 2).

(** The two regular expressions: [^3\.[0-9]{1,2}$] and [^[A-Za-z0-9._-]+$]. *)
Definition pythonVersionRe (v : string) : bool :=
  HasPrefix v "3." &&
  let minor := TrimPrefix v "3." in
  bool_decide (1 <= String.length minor <= 2)%nat && str_forall is_digit minor.
Definition platformTagRe (tag : string) : bool := negb (bool_decide (tag = "")) && str_forall tag_byte tag.
Definition Validate (s : Settings) : option string :=
  let py := st_PythonVersion s in
  let pt := st_PlatformTag s in
  if negb (bool_decide (py = "")) && negb (pythonVersionRe py) then Some "invalid python_version"
  else if negb (bool_decide (pt = "")) && (bool_decide (64 < String.length pt)%nat || negb (platformTagRe pt))
  then Some "invalid platform_tag"
  else None.
Definition BoolValue (b : option bool) : bool := match b with None => false | Some b => b end.

(** A decoder that fills a value as far as it gets, as [json.Unmarshal] does. *)
Class FillCodec (A : Type) := {
  fc_codec :: Codec A;
  json_fill : string → A;
  json_fill_marshal a : json_fill (marshal a) = a }.

Section file.
Context `{Machine, FillCodec Settings}.
Definition Load (path : string) (fs : Files) : Settings :=
  if decide (path = "") then zero_settings
  else match read_file path fs with
       | Err _ => ApplyDefaults zero_settings
       | Ok data => ApplyDefaults (json_fill data)
       end.
Definition Save (path : string) (s : Settings) (fs : Files) : result Files :=
  if decide (path = "") then Ok fs else write_file path (marshal (ApplyDefaults s)) fs.

(** ** The table [app_settings], of one row *)
Definition GetSettings (payload : option string) : result Settings :=
  match payload with
  | None => Ok (ApplyDefaults zero_settings)
  | Some p => match unmarshal p with
              | None => Err "invalid JSON"
              | Some s => Ok (ApplyDefaults s)
              end
  end.
Definition SaveSettings (s : Settings) : option string := Some (marshal (ApplyDefaults s)).

(** ** The handler *)
(** Whether there is a store, its row, the files, and the automatic modes of the
    running process, which the other handlers read. *)
Record Host (S : Type) := mkHost {
  ho_store : bool; ho_payload : option string; ho_files : Files; ho_api : Api S }.
#[global] Arguments mkHost {S}.
#[global] Arguments ho_store {S}.
#[global] Arguments ho_payload {S}.
#[global] Arguments ho_files {S}.
#[global] Arguments ho_api {S}.

Context {S : Type} (SettingsPath : string).
Definition set_auto (s : Settings) (a : Api S) : Api S :=
  mkApi (api_db a) (api_queue a) (BoolValue (st_AutoPlan s)) (BoolValue (st_AutoBuild s)).
(** What is stored for a posted value. *)
Definition normalize_settings (s : Settings) : Settings :=
  ApplyDefaults (mkSettings (st_PythonVersion s) (st_PlatformTag s)
    (if decide (st_PollMs s < 0) then 0 else st_PollMs s)
    (if decide (st_RecentLimit s <= 0) then 25 else st_RecentLimit s)
    (st_AutoPlan s) (st_AutoBuild s) (st_PlanPoolSize s) (st_BuildPoolSize s)).
Definition settings (meth : string) (body : option Settings) (h : Host S) : (Z * option Settings) * Host S :=
  if decide (meth = "GET") then
    if ho_store h then
      match GetSettings (ho_payload h) with
      | Err _ => ((500, None), h)
      | Ok s => ((200, Some s), h)
      end
    else ((200, Some (Load SettingsPath (ho_files h))), h)
  else if decide (meth = "POST") then
    match body with
    | None => ((400, None), h)
    | Some s =>
      let s := normalize_settings s in
      if Validate s is Some _ then ((400, None), h)
      else if ho_store h then
        ((200, Some s), mkHost (ho_store h) (SaveSettings s) (ho_files h) (set_auto s (ho_api h)))
      else match Save SettingsPath s (ho_files h) with
           | Err _ => ((500, None), h)
           | Ok fs => ((200, Some s), mkHost (ho_store h) (ho_payload h) fs (set_auto s (ho_api h)))
           end
    end
  else ((405, None), h).

(** [routes] of server.go: at the start of the process the automatic modes are
    those of the stored settings, whatever the configuration says. *)
Definition startup (h : Host S) : Host S :=
  let current :=
    if ho_store h then match GetSettings (ho_payload h) with Ok s => s | Err _ => ApplyDefaults zero_settings end
    else if decide (SettingsPath = "") then ApplyDefaults zero_settings
    else Load SettingsPath (ho_files h) in
  mkHost (ho_store h) (ho_payload h) (ho_files h) (set_auto current (ho_api h)).
End file.

(** ** The worker's side *)
Definition wrap32 (z : Z) : Z := (z + 2 ^ 31) mod 2 ^ 32 - 2 ^ 31.
Definition payload_of (s : Settings) : SettingsPayload :=
  mkSettingsPayload (st_PlanPoolSize s) (st_BuildPoolSize s) (st_PythonVersion s) (st_PlatformTag s).
(** The [atomic] values the planning and the build loop read; 0 and "": not set. *)
Record Shared := mkShared { sh_plan : Z; sh_build : Z; sh_python : string; sh_platform : string }.

Section worker.
Context {W : Type} `{HttpClient W, FillCodec Settings}.
Definition overlaySettingsFromControlPlane (cfg : Config) (w : W) : Config * W :=
  if decide (cf_ControlPlaneURL cfg = "") then (cfg, w)
  else
    match http_call live "GET" (TrimRight (cf_ControlPlaneURL cfg) "/"%char +:+ "/api/settings")
            (token_headers cfg) "" w with
    | (Err _, w') => (cfg, w')
    | (Ok resp, w') =>
      (if decide (rs_Status resp = 200)
       then overlaySettings cfg (payload_of <$> (unmarshal (rs_Body resp) : option Settings)) else cfg, w')
    end.
(** The start of [Run]. *)
Definition initial_shared (cfg : Config) : Shared :=
  mkShared (if decide (0 < cf_PlanPoolSize cfg) then wrap32 (cf_PlanPoolSize cfg) else 0)
    (if decide (0 < cf_BuildPoolSize cfg) then wrap32 (cf_BuildPoolSize cfg) else 0)
    (cf_PythonVersion cfg) (cf_PlatformTag cfg).
(** One tick of [pollSettings]. *)
Definition poll_tick (cfg : Config) (sh : Shared) (w : W) : Shared * W :=
  let '(c, w') := overlaySettingsFromControlPlane cfg w in
  (mkShared (if decide (0 < cf_PlanPoolSize c) then wrap32 (cf_PlanPoolSize c) else sh_plan sh)
     (if decide (0 < cf_BuildPoolSize c) then wrap32 (cf_BuildPoolSize c) else sh_build sh)
     (if decide (cf_PythonVersion c = "") then sh_python sh else cf_PythonVersion c)
     (if decide (cf_PlatformTag c = "") then sh_platform sh else cf_PlatformTag c), w').
End worker.

(** The control plane as the worker's peer, for these requests. *)
Section peer.
Context `{Machine, FillCodec Settings} {S : Type} (SettingsPath base : string).
Definition settings_do (r : HttpReq) (h : Host S) : result HttpResp * Host S :=
  if decide (rq_URL r = base +:+ "/api/settings") then
    let '((code, s), h') := settings SettingsPath (rq_Method r) (unmarshal (rq_Body r)) h in
    (Ok (mkResp code "" (from_option marshal "" s)), h')
  else (Ok (mkResp 404 "" ""), h).
Definition settings_server : HttpClient (Host S) := {| url_ok _ := true; do_req := settings_do |}.
End peer.

(** ** Theorems *)
Lemma or_string_idem s d : d ≠ "" → or_string (or_string s d) d = or_string s d.
Proof. intros Hd. unfold or_string. repeat case_decide; congruence. Qed.
Lemma or_int_idem n d : d ≠ 0 → or_int (or_int n d) d = or_int n d.
Proof. intros Hd. unfold or_int. repeat case_decide; congruence. Qed.
Lemma or_string_nonempty s d : d ≠ "" → or_string s d ≠ "".
Proof. intros Hd. unfold or_string. by case_decide. Qed.
Lemma ApplyDefaults_idem s : ApplyDefaults (ApplyDefaults s) = ApplyDefaults s.
Proof. unfold ApplyDefaults. simpl. by rewrite !or_string_idem, !or_int_idem by done. Qed.

(** Every field has a value. *)
Record complete (s : Settings) : Prop := {
  cm_python : st_PythonVersion s ≠ ""; cm_platform : st_PlatformTag s ≠ "";
  cm_poll : st_PollMs s ≠ 0; cm_recent : st_RecentLimit s ≠ 0;
  cm_plan : is_Some (st_AutoPlan s); cm_build : is_Some (st_AutoBuild s);
  cm_plan_pool : st_PlanPoolSize s ≠ 0; cm_build_pool : st_BuildPoolSize s ≠ 0 }.
Lemma ApplyDefaults_complete s : complete (ApplyDefaults s).
Proof.
  split; simpl; try (by apply or_string_nonempty); try (by eexists); unfold or_int; by case_decide.
Qed.
(** What is complete is not changed. *)
Lemma ApplyDefaults_fixed s : complete s → ApplyDefaults s = s.
Proof.
  destruct s as [py pt pm rl ap ab pp bp]. intros [H1 H2 H3 H4 [a ?] [b ?] H7 H8]. simpl in *. subst.
  unfold ApplyDefaults, or_string, or_int. simpl. by rewrite !decide_False by done.
Qed.
(** Accepted versions and tags are accepted by the worker, too. *)
Lemma Validate_worker s :
  complete s → Validate s = None →
  validPythonVersion (st_PythonVersion s) = true ∧ validPlatformTag (st_PlatformTag s) = true.
Proof.
  intros Hc. unfold Validate. cbv zeta. rewrite (bool_decide_false (_ = "") (cm_python _ Hc)), (bool_decide_false (_ = "") (cm_platform _ Hc)).
  simpl. destruct (pythonVersionRe (st_PythonVersion s)) eqn:Hpy; [|done]. simpl.
  destruct (bool_decide (64 < String.length (st_PlatformTag s))%nat) eqn:Hlen; [done|]. simpl.
  destruct (platformTagRe (st_PlatformTag s)) eqn:Hpt; [intros _|done]. split.
  - unfold pythonVersionRe in Hpy. unfold validPythonVersion. rewrite decide_False by apply (cm_python _ Hc).
    apply andb_true_iff in Hpy as [Hpre Hpy]. rewrite Hpre. simpl. apply bool_decide_true.
    cbv zeta in Hpy. apply andb_true_iff in Hpy as [Hl _]. apply bool_decide_eq_true in Hl.
    unfold TrimPrefix in Hl. rewrite Hpre in Hl.
    assert (Hdrop : ∀ n v, (String.length v <= n + String.length (str_drop n v))%nat).
    { induction n as [|n IH]; intros [|c v]; simpl; [lia..|]. specialize (IH v). lia. }
    specialize (Hdrop 2%nat (st_PythonVersion s)). simpl in Hl, Hdrop. lia.
  - unfold validPlatformTag. apply bool_decide_eq_false in Hlen.
    rewrite decide_False by (intros [?|?]; [by apply (cm_platform _ Hc)|done]).
    unfold platformTagRe in Hpt. by apply andb_true_iff in Hpt as [_ ?].
Qed.

Section theorems.
Context `{Machine, FillCodec Settings} {S : Type} (SettingsPath : string).
Abbreviation settings := (settings (S := S) SettingsPath).

Lemma post_accepted body (h h' : Host S) s :
  settings "POST" body h = ((200, Some s), h') →
  complete s ∧ Validate s = None ∧ ho_api h' = set_auto s (ho_api h) ∧
  (if ho_store h then ho_payload h' = SaveSettings s ∧ ho_files h' = ho_files h
   else Save SettingsPath s (ho_files h) = Ok (ho_files h') ∧ ho_payload h' = ho_payload h) ∧
  ho_store h' = ho_store h.
Proof using Type.
  unfold Settings.settings. rewrite decide_False, decide_True by done. destruct body as [b|]; [|done].
  cbv zeta. assert (Hc : complete (normalize_settings b)) by apply ApplyDefaults_complete.
  destruct (Validate (normalize_settings b)) eqn:Hv; [done|]. destruct (ho_store h).
  - intros; by simplify_eq.
  - destruct (Save _ _ _) eqn:Hs; intros; by simplify_eq.
Qed.
Lemma read_back body (h h' : Host S) s :
  settings "POST" body h = ((200, Some s), h') → ho_store h = true ∨ SettingsPath ≠ "" →
  (if ho_store h' then GetSettings (ho_payload h') = Ok s else Load SettingsPath (ho_files h') = s).
Proof using Type.
  intros (Hc & _ & _ & Hst & ->)%post_accepted Hpath. destruct (ho_store h).
  - destruct Hst as [-> _]. unfold GetSettings, SaveSettings. rewrite unmarshal_marshal.
    by rewrite ApplyDefaults_idem, ApplyDefaults_fixed.
  - destruct Hpath as [|Hpath]; [done|]. destruct Hst as [Hs _]. unfold Save in Hs. unfold Load.
    rewrite decide_False in Hs by done. rewrite decide_False by done. rewrite (read_write_file _ _ _ _ Hs), json_fill_marshal.
    by rewrite ApplyDefaults_idem, ApplyDefaults_fixed.
Qed.

(** Settings that are accepted are kept.  After a POST that answers 200 with
    some settings, a GET answers the same settings, with every field set; the
    automatic modes of the running process are theirs, and after a restart of the
    process they still are. *)
Theorem settings_roundtrip body (h h' : Host S) s :
  settings "POST" body h = ((200, Some s), h') → ho_store h = true ∨ SettingsPath ≠ "" →
  settings "GET" None h' = ((200, Some s), h') ∧ complete s ∧
  api_AutoPlan (ho_api h') = BoolValue (st_AutoPlan s) ∧ api_AutoBuild (ho_api h') = BoolValue (st_AutoBuild s) ∧
  startup SettingsPath h' = h'.
Proof using Type.
  intros Hpost Hpath. pose proof (read_back _ _ _ _ Hpost Hpath) as Hread.
  apply post_accepted in Hpost as (Hc & _ & Hapi & _ & Hst).
  assert (Hset : set_auto s (ho_api h') = ho_api h') by by rewrite Hapi.
  split_and!; [|done|by rewrite Hapi..|].
  - unfold Settings.settings. rewrite decide_True by done. destruct (ho_store h'); by rewrite Hread.
  - unfold startup. cbv zeta. destruct h' as [b p fs a]. simpl in *. destruct b.
    + by rewrite Hread, Hset.
    + rewrite decide_False by (destruct Hpath; congruence). by rewrite Hread, Hset.
Qed.

(** AUTO_PLAN and AUTO_BUILD do nothing on the control plane: unless settings
    were stored before, both automatic modes are off once the process has
    started, whatever the environment said. *)
Theorem auto_modes_ignore_environment (h : Host S) :
  ho_store h = true → ho_payload h = None →
  api_AutoPlan (ho_api (startup SettingsPath h)) = false ∧ api_AutoBuild (ho_api (startup SettingsPath h)) = false.
Proof using Type. intros Hs Hp. unfold startup. by rewrite Hs, Hp. Qed.

Lemma wrap32_id z : - 2 ^ 31 <= z < 2 ^ 31 → wrap32 z = z.
Proof using Type. intros Hz. unfold wrap32. rewrite Z.mod_small; lia. Qed.

(** C31. The worker takes over what the control plane accepted: at its next poll it
    plans and builds for exactly the accepted Python version and platform, and,
    if they are positive 32-bit integers, with exactly the accepted numbers of
    goroutines. *)
Theorem settings_reach_worker body (h h' : Host S) s base cfg sh :
  settings "POST" body h = ((200, Some s), h') → ho_store h = true →
  cf_ControlPlaneURL cfg ≠ "" → TrimRight (cf_ControlPlaneURL cfg) "/"%char = base →
  let '(sh', h2) := poll_tick (H := settings_server SettingsPath base) cfg sh h' in
  h2 = h' ∧ sh_python sh' = st_PythonVersion s ∧ sh_platform sh' = st_PlatformTag s ∧
  (0 < st_PlanPoolSize s < 2 ^ 31 → sh_plan sh' = st_PlanPoolSize s) ∧
  (0 < st_BuildPoolSize s < 2 ^ 31 → sh_build sh' = st_BuildPoolSize s).
Proof using Type.
  intros Hpost Hstore Hurl Hbase. pose proof (read_back _ _ _ _ Hpost (or_introl Hstore)) as Hread.
  apply post_accepted in Hpost as (Hc & Hv & _ & _ & Hst).
  destruct (Validate_worker s Hc Hv) as [Hpy Hpt].
  assert (Hover : overlaySettingsFromControlPlane (H := settings_server SettingsPath base) cfg h' =
    (overlaySettings cfg (Some (payload_of s)), h')).
  { unfold overlaySettingsFromControlPlane. rewrite decide_False, Hbase by done.
    unfold http_call, http_do. cbn [url_ok settings_server ctx_cancelled live do_req]. unfold settings_do.
    cbn [rq_URL rq_Method rq_Body]. rewrite decide_True by done. unfold Settings.settings. rewrite decide_True by done.
    rewrite Hst, Hstore in Hread |- *. rewrite Hread. cbn [from_option rs_Status rs_Body].
    by rewrite decide_True, unmarshal_marshal. }
  unfold poll_tick. rewrite Hover. cbn [payload_of overlaySettings sp_PlanPoolSize sp_BuildPoolSize sp_PythonVersion sp_PlatformTag].
  rewrite Hpy, Hpt. cbn [sh_plan sh_build sh_python sh_platform with_settings cf_PlanPoolSize cf_BuildPoolSize cf_PythonVersion cf_PlatformTag].
  rewrite (decide_False (P := st_PythonVersion s = "")) by apply (cm_python _ Hc).
  rewrite (decide_False (P := st_PlatformTag s = "")) by apply (cm_platform _ Hc).
  split_and!; [done..| |]; intros Hpos.
  - rewrite !(decide_True (P := 0 < st_PlanPoolSize s)) by lia. apply wrap32_id. lia.
  - rewrite !(decide_True (P := 0 < st_BuildPoolSize s)) by lia. apply wrap32_id. lia.
Qed.
End theorems.

(** ** Witnesses *)
#[export] Instance Settings_eq_dec : EqDecision Settings.
Proof. solve_decision. Defined.
#[export] Instance Settings_countable : Countable Settings.
Proof.
  refine (inj_countable' (λ s, (st_PythonVersion s, st_PlatformTag s, st_PollMs s, st_RecentLimit s, st_AutoPlan s,
                                st_AutoBuild s, st_PlanPoolSize s, st_BuildPoolSize s))
    (λ '(a, b, c, d, e, f, g, h), mkSettings a b c d e f g h) _). by intros [].
Defined.
#[refine] Definition settings_fill : FillCodec Settings := {|
  fc_codec := countable_codec; json_fill data := default zero_settings (unmarshal data) |}.
Proof. intros s. by rewrite unmarshal_marshal. Defined.
#[local] Existing Instances settings_fill sample_machine.

Definition sample_host : Host unit := mkHost true None ∅ (mkApi empty_planning tt true true).
Definition posted : Settings := mkSettings "3.12" "" (-5) 0 (Some true) None 4 0.
Definition accepted : Settings := normalize_settings posted.
Definition host_after : Host unit := (settings "" "POST" (Some posted) sample_host).2.
Definition settings_worker : Config :=
  mkConfig "http://cp/" "" "" 10 2 true 3 false false "low" 60 "/output" "/cache" "/cas" "" "" "" ""
    false false false false "" "" "" "" "" "" "" "3.11" "linux_s390x" 1.

Lemma posted_accepted : settings "" "POST" (Some posted) sample_host = ((200, Some accepted), host_after).
Proof. reflexivity. Qed.
Lemma settings_roundtrip_witness :
  settings "" "GET" None host_after = ((200, Some accepted), host_after) ∧ api_AutoPlan (ho_api host_after) = true.
Proof.
  destruct (settings_roundtrip "" (Some posted) sample_host host_after accepted) as (Hget & _ & Hauto & _);
    [exact posted_accepted|left; reflexivity|]. split; [exact Hget|exact Hauto].
Defined.
Lemma auto_modes_ignore_environment_witness : api_AutoPlan (ho_api (startup "" sample_host)) = false.
Proof. apply (auto_modes_ignore_environment "" sample_host); reflexivity. Defined.
Lemma settings_reach_worker_witness :
  (poll_tick (H := settings_server "" "http://cp") settings_worker (initial_shared settings_worker) host_after).1 =
    mkShared 4 2 "3.12" "manylinux2014_s390x".
Proof.
  pose proof (settings_reach_worker "" (Some posted) sample_host host_after accepted "http://cp" settings_worker
    (initial_shared settings_worker)) as Hspec.
  specialize (Hspec posted_accepted eq_refl ltac:(discriminate) eq_refl).
  destruct (poll_tick _ _ _) as [[p b py tag] h2]. destruct Hspec as (_ & Hpy & Htag & Hp & Hb).
  cbn [sh_plan sh_build sh_python sh_platform fst] in *.
  rewrite Hpy, Htag, Hp, Hb by (vm_compute; split; reflexivity). vm_compute. reflexivity.
Defined.
