(* ===== verification/Upload.v ===== *)
(** The upload handlers of [go-control-plane/internal/api/handlers.go]: what is
    checked, where the file is stored, and what is recorded as a pending input.

    Parsing the multipart form is [net/http]'s: a handler gets its outcome. *)
From S2P Require Import Prelude.
From S2P Require Import GoStr.
From S2P Require Import Artifact.
From S2P Require Import Http.
From S2P Require Import Parse.
From S2P Require Import PlanTypes.
From S2P Require Import Queue.
From S2P Require Import Generate.
From S2P Require Import Sql.
From S2P Require Import BuildStore.
From S2P Require Import Pending.
From S2P Require Import PlanLoop.
From Stdlib Require Import Ascii.
Local Open Scope string_scope.
Local Open Scope list_scope.

(** [io.ReadAll(io.LimitReader(r, n))]. *)
Definition read_limited (n : Z) (s : string) : string :=
  if decide (Z.of_nat (String.length s) <= n)%Z then s else str_take (Z.to_nat n) s.

(** ** Object keys *)
Definition clean_filename (filename : string) : string :=
  let clean := TrimSpace filename in
  let clean := if decide (clean = "") then "input" else clean in
  ReplaceAll (ReplaceSub clean ".." "_") "/"%char "_".
Definition inputObjectKey (prefix digestHex filename : string) : string :=
  let base := Trim prefix "/"%char in
  if decide (base = "") then digestHex +:+ "/" +:+ clean_filename filename
  else base +:+ "/" +:+ digestHex +:+ "/" +:+ clean_filename filename.

(** ** Archives *)
Fixpoint check_entries (files : list (string * option string)) : option string :=
  match files with
  | [] => None
  | (name, _) :: files =>
    if HasPrefix name "/" || Contains name ".." then Some ("wheel contains unsafe path: " +:+ name)
    else check_entries files
  end.
Definition validateWheelArchive `{Zip} (data : string) : option string :=
  match zip_read data with
  | Err e => Some ("invalid wheel archive: " +:+ e)
  | Ok files =>
    if decide (files = []) then Some "wheel archive is empty"
    else if decide (5000 < Z.of_nat (length files))%Z then Some "wheel archive has too many files"
    else check_entries files
  end.
Definition readWheelMetadata `{Zip} (data : string) : result (list DepSpec) :=
  let? files := zip_read data in
  let meta := metadata_entry files in
  Ok (if decide (meta = "") then [] else Api.parseRequiresDist meta).

(** ** The handlers *)
Record UploadConfig := mkUploadConfig {
  uc_Endpoint : string; uc_Bucket : string; uc_Prefix : string }.
(** [h.InputStore]: nil, [NullStore] or a store that keeps what it is given. *)
Inductive input_store := NilStore | DiscardStore | KeepStore.
#[export] Instance input_store_eq_dec : EqDecision input_store.
Proof. solve_decision. Defined.
(** The form did not parse; it has no file; or the file's name and content. *)
Inductive upload_form := BadForm | NoFile | FormFile (filename data : string).

Section upload.
Context `{SqlOrder, Sha256, Zip} {S : Type} `{Redis S, Codec (gmap string string), Codec pendingMeta}.
Context {O : Type} (put : string → string → string → O → option string * O).
Context (planq : option RedisQueue) (store : input_store) (cfg : UploadConfig).

Definition store_ready : bool :=
  negb (bool_decide (uc_Endpoint cfg = "" ∨ uc_Bucket cfg = "")) && bool_decide (store = KeepStore).
Definition upload_result : Type := (Z * reply) * (Api S * O).
(** Store the file, then record it with what was read from it. *)
Definition store_file (filename data contentType : string) (o : O) : result string * O :=
  let key := inputObjectKey (uc_Prefix cfg) (sha256_hex data) filename in
  match put key data contentType o with
  | (Some e, o') => (Err e, o')
  | (None, o') => (Ok key, o')
  end.
Definition new_input (filename data key source contentType : string) (meta : pendingMeta) : PendingInput :=
  mkPendingInput filename ("sha256:" +:+ sha256_hex data) (Z.of_nat (String.length data)) "pending" source
    (uc_Bucket cfg) key contentType (marshal meta).
Definition accept (now : Z) (i : PendingInput) (a : Api S) (o : O) : upload_result :=
  let '(id, a') := register_input planq now i a in
  ((200%Z, RUploaded (in_SizeBytes i) (in_ObjectKey i) id), (a', o)).

Definition requirementsUpload (now : Z) (meth : string) (form : upload_form) (a : Api S) (o : O) : upload_result :=
  let refuse code o := ((code, RError), (a, o)) in
  if decide (meth ≠ "POST") then refuse 405%Z o
  else if negb store_ready then refuse 500%Z o
  else match form with
  | BadForm | NoFile => refuse 400%Z o
  | FormFile filename file =>
    let data := read_limited (256 * 1024) file in
    if negb (is_ok (Api.lintRequirements data)) || Api.looksLikeHTMLOrScript data then refuse 400%Z o
    else match store_file filename data "text/plain" o with
         | (Err _, o') => refuse 500%Z o'
         | (Ok key, o') =>
           accept now (new_input filename data key "requirements" "text/plain"
             (mkMeta "requirements" (Api.parseRequirements data) None [])) a o'
         end
  end.

(** The file is stored before its name and its metadata are read. *)
Definition wheelsUpload (now : Z) (meth : string) (form : upload_form) (a : Api S) (o : O) : upload_result :=
  let refuse code o := ((code, RError), (a, o)) in
  if decide (meth ≠ "POST") then refuse 405%Z o
  else if negb store_ready then refuse 500%Z o
  else match form with
  | BadForm | NoFile => refuse 400%Z o
  | FormFile filename file =>
    if negb (HasSuffix (ToLower filename) ".whl") then refuse 400%Z o
    else
      let data := read_limited (256 * 1024 * 1024) file in
      if validateWheelArchive data is Some _ then refuse 400%Z o
      else match store_file filename data "application/octet-stream" o with
      | (Err _, o') => refuse 500%Z o'
      | (Ok key, o') =>
        match Api.parseWheelFilename filename with
        | Err _ => refuse 400%Z o'
        | Ok wmeta =>
          match readWheelMetadata data with
          | Err _ => refuse 400%Z o'
          | Ok reqs =>
            accept now (new_input filename data key "wheel" "application/octet-stream"
              (mkMeta "wheel" [] (Some wmeta) reqs)) a o'
          end
        end
      end
  end.
End upload.
