(* ===== verification/System.v ===== *)
(** The control plane as the worker's HTTP peer: the requests the planning loop
    sends are routed to the handlers of [Pending], so that the two programs can
    be run against each other.

    [Sys] is the state behind the server: the handlers' state, the hint catalog,
    the objects of the object store and a clock that ticks with each request. *)
From S2P Require Import Prelude.
From S2P Require Import GoStr.
From S2P Require Import Artifact.
From S2P Require Import Http.
From S2P Require Import Parse.
From S2P Require Import PlanTypes.
From S2P Require Import Queue.
From S2P Require Import Config.
From S2P Require Import HintFeed.
From S2P Require Import Sql.
From S2P Require Import BuildStore.
From S2P Require Import Pending.
From S2P Require Import PlanLoop.
From S2P Require Import Upload.
From Stdlib Require Import Ascii.
Local Open Scope string_scope.
Local Open Scope list_scope.

Record Sys (S : Type) := mkSys {
  sys_api : Api S; sys_hints : list Hint; sys_objects : gmap string string; sys_now : Z }.
Arguments mkSys {S}. Arguments sys_api {S}. Arguments sys_hints {S}.
Arguments sys_objects {S}. Arguments sys_now {S}.

(** *** Requests *)
Definition split_query (url : string) : string * string :=
  match Index url "?" with
  | Some i => (str_take i url, str_drop (i + 1) url)
  | None => (url, "")
  end.
(** [r.URL.Query().Get(name)], of values that need no decoding. *)
Definition query_get (name query : string) : string :=
  default "" (head (omap (λ kv, if HasPrefix kv (name +:+ "=") then Some (TrimPrefix kv (name +:+ "=")) else None)
                      (Split query "&"%char))).
Definition header_get (name : string) (headers : list (string * string)) : string :=
  default "" (snd <$> head (filter (λ h, h.1 = name) headers)).

(** What a listed input looks like to the worker. *)
Definition to_wire (l : PendingRow * option Z) : pendingInput :=
  let i := pr_input l.1 in
  mkPending (pr_id l.1) (in_Filename i) (in_Status i) (default "" (pr_error l.1)) (in_SourceType i)
    (in_Digest i) (in_ObjectBucket i) (in_ObjectKey i) (in_Metadata i).

Section server.
Context `{SqlOrder} {S : Type} `{Redis S}.
Context `{Codec (list string), Codec (list pendingInput), Codec (gmap string string), Codec PlanBody}.
Context (encode_hints : list Hint → string) (planq : option RedisQueue) (token base : string).

Definition decode_status (body : string) : option (string * string) :=
  m ← unmarshal body; Some (default "" (m !! "status"), default "" (m !! "error")).
(** [http.ServeMux] on the paths of the planning loop. *)
Definition route (now : Z) (r : HttpReq) : option request :=
  let '(path, query) := split_query (TrimPrefix (rq_URL r) base) in
  let meth := rq_Method r in
  let authorized := requireWorkerToken token (header_get "X-Worker-Token" (rq_Headers r)) (query_get "token" query) in
  if decide (path = "/api/pending-inputs") then Some (ReqInputs meth)
  else if decide (path = "/api/pending-inputs/pop") then Some (ReqPop now meth authorized (query_get "max" query))
  else if HasPrefix path "/api/pending-inputs/status/" then
    Some (ReqStatus now meth path authorized (decode_status (rq_Body r)))
  else if decide (path = "/api/plan") then Some (ReqPlan now meth (unmarshal (rq_Body r)))
  else None.
Definition reply_body (r : reply) : string :=
  match r with
  | RInputs l => marshal (to_wire <$> l)
  | RIDs ids => marshal ids
  | _ => ""
  end.
Definition serve_hints (r : HttpReq) (w : Sys S) : option HttpResp :=
  let '(path, query) := split_query (TrimPrefix (rq_URL r) base) in
  if decide (path = "/api/hints" ∧ rq_Method r = "GET") then
    Some (mkResp 200 "" (encode_hints
      (hints_page ParseInt (sys_hints w) (query_get "limit" query) (query_get "offset" query))))
  else None.
Definition server_do (r : HttpReq) (w : Sys S) : result HttpResp * Sys S :=
  let tick a := mkSys a (sys_hints w) (sys_objects w) (sys_now w + 1) in
  match serve_hints r w with
  | Some resp => (Ok resp, tick (sys_api w))
  | None =>
    match route (sys_now w) r with
    | None => (Ok (mkResp 404 "" ""), tick (sys_api w))
    | Some req =>
      let '((code, rep), a') := serve planq req (sys_api w) in
      (Ok (mkResp code "" (reply_body rep)), tick a')
    end
  end.
Definition server : HttpClient (Sys S) := {| url_ok _ := true; do_req := server_do |}.

(** The object store both programs use. *)
Definition object_get (ctx : Ctx) (key : string) (w : Sys S) : result string * Sys S :=
  (match sys_objects w !! key with Some d => Ok d | None => Err "The specified key does not exist." end, w).
Definition object_put (key data contentType : string) (o : gmap string string)
    : option string * gmap string string :=
  (None, <[key := data]> o).
End server.
