(* ===== verification/SystemSamples.v ===== *)
(** Concrete instances for the planning loop and the control plane, on which the
    theorems' witnesses evaluate: a Redis server that never fails, codecs for the
    types that travel, and a control plane with two uploads in its queue. *)
From S2P Require Import Prelude.
From S2P Require Import GoStr.
From S2P Require Import Artifact.
From S2P Require Import Pack.
From S2P Require Import Http.
From S2P Require Import Cas.
From S2P Require Import Parse.
From S2P Require Import PlanTypes.
From S2P Require Import Planner.
From S2P Require Import Hints.
From S2P Require Import Queue.
From S2P Require Import Generate.
From S2P Require Import Codecs.
From S2P Require Import Config.
From S2P Require Import Sql.
From S2P Require Import BuildStore.
From S2P Require Import Pending.
From S2P Require Import PlanLoop.
From S2P Require Import Upload.
From S2P Require Import System.
Local Open Scope string_scope.
Local Open Scope list_scope.

#[export] Instance pendingInput_eq_dec : EqDecision pendingInput.
Proof. solve_decision. Defined.
#[export] Instance pendingInput_countable : Countable pendingInput.
Proof.
  refine (inj_countable' (λ p, (pi_ID p, pi_Filename p, pi_Status p, pi_Error p, pi_SourceType p, pi_Digest p,
                                pi_ObjectBucket p, pi_ObjectKey p, pi_Metadata p))
    (λ '(a, b, c, d, e, f, g, h, i), mkPending a b c d e f g h i) _). by intros [].
Defined.
#[export] Instance pendingMeta_eq_dec : EqDecision pendingMeta.
Proof. solve_decision. Defined.
#[export] Instance pendingMeta_countable : Countable pendingMeta.
Proof.
  refine (inj_countable' (λ m, (me_Type m, me_Requirements m, me_Wheel m, me_Requires m))
    (λ '(a, b, c, d), mkMeta a b c d) _). by intros [].
Defined.
#[export] Instance PlanBody_eq_dec : EqDecision PlanBody.
Proof. solve_decision. Defined.
#[export] Instance PlanBody_countable : Countable PlanBody.
Proof.
  refine (inj_countable' (λ b, (pb_run b, pb_plan b, pb_dag b, pb_pending b))
    (λ '(a, b, c, d), mkPlanBody a b c d) _). by intros [].
Defined.
#[export] Instance Hint_eq_dec : EqDecision Hint.
Proof. solve_decision. Defined.
#[export] Instance Hint_countable : Countable Hint.
Proof.
  refine (inj_countable' (λ h, (h_ID h, h_Pattern h, h_Recipes h, h_Note h, h_Tags h, h_Severity h, h_AppliesTo h,
                                h_Confidence h, h_Examples h))
    (λ '(a, b, c, d, e, f, g, h, i), mkHint a b c d e f g h i) _). by intros [].
Defined.

(** *** A Redis server *)
Abbreviation sample_redis_state := (gmap string (list string)).
Definition redis_at (s : sample_redis_state) (k : string) : list string := default [] (s !! k).
Lemma redis_at_insert s k l : redis_at (<[k := l]> s) k = l.
Proof. unfold redis_at. by rewrite lookup_insert_eq. Qed.
#[refine] Definition sample_redis : Redis sample_redis_state := {|
  rd_list := redis_at;
  rd_RPush k v s := (None, <[k := redis_at s k ++ [v]]> s);
  rd_LPop k s := match redis_at s k with [] => (Ok None, s) | v :: l => (Ok (Some v), <[k := l]> s) end;
  rd_LRange k s := (Ok (redis_at s k), s);
  rd_Del k s := (None, <[k := []]> s);
  rd_LLen k s := (Ok (Z.of_nat (length (redis_at s k))), s);
  rd_LIndex0 k s := (Ok (head (redis_at s k)), s) |}.
Proof.
  - intros k v s. apply redis_at_insert.
  - intros k s. destruct (redis_at s k) as [|v l] eqn:Hs; [done|]. by rewrite redis_at_insert.
  - done.
  - intros k s. apply redis_at_insert.
  - done.
  - done.
Defined.
#[export] Existing Instances sample_redis merge_order.

(** *** The configurations of the two programs *)
Definition sample_planq : RedisQueue := mkRedisQueue true "plans".
Definition sample_worker : Config :=
  mkConfig "http://cp" "" "" 10 2 true 3 false false "low" 60 "/output" "/cache" "/cas" "" "" "" ""
    false false false false "" "" "" "" "" "" "" "3.11" "linux_s390x" 1.
Definition sample_planner : PlannerConfig :=
  mkPlannerConfig sample_worker "" "http://devpi/simple" "" "pinned" "" (Some (mkCatalog ∅ [])) "inputs" 5
    "http://cp/api/pending-inputs/pop" "http://cp/api/pending-inputs/status" "http://cp/api/pending-inputs".
Definition sample_upload : UploadConfig := mkUploadConfig "http://minio" "inputs" "uploads/".

(** *** A control plane with two uploads *)
Definition sample_api : Api sample_redis_state := mkApi empty_planning ∅ true false.
Definition plain_sha : Sha256 := {| sha256_hex s := s |}.
#[local] Existing Instance plain_sha.
Definition one_wheel_zip : Zip := {| zip_read _ := Ok [("six-1.0.dist-info/METADATA", Some "Requires-Dist: idna")] |}.
#[local] Existing Instance one_wheel_zip.
Abbreviation uploaded_requirements file a o :=
  (requirementsUpload object_put (Some sample_planq) KeepStore sample_upload 7 "POST" (FormFile "reqs.txt" file) a o).
Definition planned_upload := uploaded_requirements "six==1.0" sample_api (∅ : gmap string string).
Definition comment_upload := uploaded_requirements "# nothing" planned_upload.2.1 planned_upload.2.2.
(** The first can be planned, the second has no requirements. *)
Definition sample_sys : Sys sample_redis_state := mkSys comment_upload.2.1 [] comment_upload.2.2 8.
Definition sample_popped : result (list string) * Sys sample_redis_state :=
  @popPlanIDs _ (server marshal (Some sample_planq) "" "http://cp") _ sample_planner live 5 sample_sys.

(** *** Requests on the tables: an input, and the plan made from it *)
Definition sample_input : PendingInput :=
  mkPendingInput "reqs.txt" "sha256:aa" 8 "pending" "requirements" "inputs" "aa/reqs.txt" "text/plain" "".
Definition sample_build (name : string) : FlatNode := mkFlatNode name "1.0" "3.11" "" "" "build" [] [].
Definition sample_requests : list request :=
  [ReqRegister 5 sample_input; ReqRegister 6 sample_input;
   ReqPlan 7 "POST" (Some (mkPlanBody "run" [sample_build "six"] "" 1))].
Definition sample_planned : Api sample_redis_state :=
  serve_all (Some sample_planq) sample_requests (mkApi empty_planning ∅ false false).
