(* ===== verification/BuildQueue.v ===== *)
(** What the build queue of the control plane promises: theorems about sequences
    of the operations of [BuildStore]. *)
From S2P Require Import Prelude.
From S2P Require Import GoStr.
From S2P Require Import PlanTypes.
From S2P Require Import BuildStore.
Local Open Scope string_scope.
Local Open Scope list_scope.
Local Open Scope Z_scope.

Section lease.
Context `{Database}.

(** ** What a lease picks *)
Lemma elem_of_ready now t r : table_ok t →
  r ∈ by_created (filter (λ r, is_ready now r = true) (rows t)) ↔
  tb_rows t !! row_key r = Some r ∧ is_ready now r = true.
Proof using Type.
  intros Hok. rewrite by_created_perm, list_elem_of_filter, elem_of_rows by done. tauto.
Qed.
Lemma elem_of_leasable now max t r : table_ok t → r ∈ leasable now max t →
  tb_rows t !! row_key r = Some r ∧ is_ready now r = true.
Proof using Type.
  intros Hok Hin. apply elem_of_ready; [done|]. unfold leasable in Hin.
  by apply (subseteq_take _ _ _ Hin).
Qed.
Lemma NoDup_leasable now max t : table_ok t → NoDup (row_key <$> leasable now max t).
Proof using Type.
  intros Hok. unfold leasable. eapply sublist_NoDup; [|apply fmap_sublist, sublist_take].
  rewrite by_created_perm. eapply sublist_NoDup; [by apply NoDup_row_keys|].
  apply fmap_sublist, sublist_filter.
Qed.

Lemma lease_row_key now r : row_key (lease_row now r) = row_key r.
Proof using Type. done. Qed.
Lemma lease_keys now (rs : list BuildRow) : row_key <$> (lease_row now <$> rs) = row_key <$> rs.
Proof using Type. by rewrite <-list_fmap_compose. Qed.

Definition build_key (b : BuildStatus) : string * string := (bs_Package b, bs_Version b).
Lemma scan_build_Ok r b : scan_build r = Ok b →
  build_key b = row_key r ∧ bs_Attempts b = br_attempts r ∧ bs_Status b = br_status r.
Proof using Type.
  unfold scan_build. destruct (br_python_tag r), (br_platform_tag r), (br_run_id r), (br_plan_id r);
    simpl; intros; by simplify_eq.
Qed.
Lemma scan_builds_Ok rs bs : scan_builds rs = Ok bs →
  (λ b, (build_key b, bs_Attempts b)) <$> bs = (λ r, (row_key r, br_attempts r)) <$> rs.
Proof using Type.
  revert bs. induction rs as [|r rs IH]; intros bs Hs; simpl in Hs; [by simplify_eq|].
  destruct (scan_build r) as [b|] eqn:Hb; [|done]. destruct (scan_builds rs) as [bs'|]; [|done].
  simpl in Hs. simplify_eq. rewrite !fmap_cons, (IH bs' eq_refl).
  by destruct (scan_build_Ok r b Hb) as (-> & -> & _).
Qed.
Lemma scan_builds_Err rs : is_ok (scan_builds rs) = forallb (λ r, is_ok (scan_build r)) rs.
Proof using Type.
  induction rs as [|r rs IH]; [done|]. simpl. destruct (scan_build r); [|done]. simpl.
  rewrite <-IH. by destruct (scan_builds rs).
Qed.

(** The two outcomes of [LeaseBuilds]. *)
Lemma LeaseBuilds_cases now max t :
  (∃ e, LeaseBuilds now max t = (Err e, t)) ∨
  ∃ bs, LeaseBuilds now max t = (Ok bs, update_rows (lease_row now <$> leasable now max t) t) ∧
    (λ b, (build_key b, bs_Attempts b)) <$> bs ≡ₚ
    (λ r, (row_key r, br_attempts r + 1)) <$> leasable now max t.
Proof using Type.
  unfold LeaseBuilds. case_decide; [by left; eexists|].
  destruct (scan_builds _) as [bs|e] eqn:Hs; [|left; by eexists]. right. exists bs. split; [done|].
  rewrite (scan_builds_Ok _ _ Hs), returning_perm, <-list_fmap_compose. done.
Qed.
Lemma LeaseBuilds_ok now max t : table_ok t → table_ok (LeaseBuilds now max t).2.
Proof using Type.
  intros Hok. destruct (LeaseBuilds_cases now max t) as [[e ->]|(bs & -> & _)]; [done|].
  by apply update_rows_ok.
Qed.
Lemma build_keys_of (bs : list BuildStatus) (rs : list BuildRow) :
  (λ b, (build_key b, bs_Attempts b)) <$> bs ≡ₚ (λ r, (row_key r, br_attempts r + 1)) <$> rs →
  build_key <$> bs ≡ₚ row_key <$> rs.
Proof using Type.
  intros Hp. apply (fmap_Permutation fst) in Hp. by rewrite <-!list_fmap_compose in Hp.
Qed.

(** C9. What one pop of the build queue does.  It leases as many builds as are
    ready, up to the number asked for (at least one); they are ready builds of the
    table, each once, the longest waiting first: a ready build that is left was
    not created before one that is taken.  Each leased row is marked "leased", at
    that time, with one more attempt, and the caller sees that attempt number;
    no other row changes.  Or the pop fails and nothing changes at all. *)
Theorem LeaseBuilds_spec now max t : table_ok t →
  let ready := filter (λ r, is_ready now r = true) (rows t) in
  match LeaseBuilds now max t with
  | (Err _, t') => t' = t
  | (Ok bs, t') => ∃ picked,
      length picked = Nat.min (Z.to_nat (if decide (max <= 0) then 1 else max)) (length ready) ∧
      NoDup (row_key <$> picked) ∧
      (λ b, (build_key b, bs_Attempts b)) <$> bs ≡ₚ (λ r, (row_key r, br_attempts r + 1)) <$> picked ∧
      (∀ r, r ∈ picked → tb_rows t !! row_key r = Some r ∧ is_ready now r = true ∧
         tb_rows t' !! row_key r = Some (lease_row now r)) ∧
      (∀ k, k ∉ row_key <$> picked → tb_rows t' !! k = tb_rows t !! k) ∧
      (∀ r r', r ∈ picked → r' ∈ ready → r' ∉ picked → br_created_at r <= br_created_at r')
  end.
Proof using Type.
  intros Hok ready. pose proof (NoDup_leasable now max t Hok) as Hnd.
  destruct (LeaseBuilds_cases now max t) as [[e ->]|(bs & -> & Hbs)]; [done|].
  exists (leasable now max t). split_and!; [|done|done| | |].
  - unfold leasable. by rewrite length_take, by_created_perm.
  - intros r Hr. destruct (elem_of_leasable now max t r Hok Hr) as [Hk Hready]. split_and!; [done..|].
    rewrite <-(lease_row_key now r). apply update_rows_in; [by rewrite lease_keys|].
    by apply list_elem_of_fmap_2.
  - intros k Hk. apply update_rows_out. by rewrite lease_keys.
  - intros r r' Hr Hr' Hout. unfold leasable in *. fold ready in Hr, Hout.
    set (l := by_created ready) in *. set (n := Z.to_nat _) in *.
    assert (Hd : r' ∈ drop n l).
    { rewrite <-(by_created_perm ready) in Hr'. fold l in Hr'. rewrite <-(take_drop n l) in Hr'.
      by apply elem_of_app in Hr' as [?|?]. }
    apply list_elem_of_lookup in Hr as [i Hi], Hd as [j Hj].
    apply lookup_take_Some in Hi as [Hi Hin]. rewrite lookup_drop in Hj.
    by eapply (StronglySorted_positions (λ a b, br_created_at a <= br_created_at b) l i (n + j));
      [apply by_created_sorted|lia|..].
Qed.

(** ** Sequences of operations *)
Inductive op :=
  | OpLease (now max : Z)
  | OpRequeue (now maxAgeSec : Z)
  | OpReport (now : Z) (u : StatusUpdate)
  | OpQueue (now : Z) (run : string) (plan : Z) (nodes : list FlatNode)
  | OpDelete (status : string).

(** The builds an operation hands out, and the table it leaves. *)
Definition run_op (o : op) (t : Table) : list (string * string) * Table :=
  match o with
  | OpLease now max => match LeaseBuilds now max t with
                       | (Ok bs, t') => (build_key <$> bs, t') | (Err _, t') => ([], t')
                       end
  | OpRequeue now age => ([], (RequeueStaleLeases now age t).2)
  | OpReport now u => ([], (UpdateBuildStatus now u t).2)
  | OpQueue now run plan nodes => ([], QueueBuildsFromPlan now run plan nodes t)
  | OpDelete status => ([], (DeleteBuilds status t).2)
  end.
Fixpoint run_ops (os : list op) (t : Table) : list (string * string) * Table :=
  match os with
  | [] => ([], t)
  | o :: os => let '(ks, t1) := run_op o t in
               let '(ks', t2) := run_ops os t1 in (ks ++ ks', t2)
  end.

Lemma merge_row_key now e b : row_key (merge_row now e b) = row_key b.
Proof using Type. done. Qed.
Lemma queue_row_key now id run plan n old : from_option (λ b, row_key b = (fn_Name n, fn_Version n)) True old →
  row_key (queue_row now id run plan n old) = (fn_Name n, fn_Version n).
Proof using Type. by destruct old. Qed.

Lemma table_ok_insert k r t next : table_ok t → row_key r = k → table_ok (mkTable (<[k := r]> (tb_rows t)) next).
Proof using Type. intros Hok Hk. by apply map_Forall_insert_2. Qed.
Lemma table_ok_lookup t k r : table_ok t → tb_rows t !! k = Some r → row_key r = k.
Proof using Type. intros Hok. apply Hok. Qed.

Lemma UpdateBuildStatus_ok now u t : table_ok t → table_ok (UpdateBuildStatus now u t).2.
Proof using Type.
  intros Hok. unfold UpdateBuildStatus. case_decide; [done|]. simpl. apply table_ok_insert; [done|].
  destruct (tb_rows t !! _) as [b|] eqn:Hb; [|done]. rewrite merge_row_key. by eapply table_ok_lookup in Hb.
Qed.
Lemma queue_node_ok now run plan t n : table_ok t → table_ok (queue_node now run plan t n).
Proof using Type.
  intros Hok. apply table_ok_insert; [done|]. apply queue_row_key.
  destruct (tb_rows t !! _) as [b|] eqn:Hb; [|done]. by eapply table_ok_lookup in Hb.
Qed.
Lemma run_op_ok o t : table_ok t → table_ok (run_op o t).2.
Proof using Type.
  intros Hok. destruct o; simpl.
  - pose proof (LeaseBuilds_ok now max t Hok). by destruct (LeaseBuilds now max t) as [[bs|e] t'].
  - unfold RequeueStaleLeases. case_decide; [done|]. by apply update_rows_ok.
  - by apply UpdateBuildStatus_ok.
  - unfold QueueBuildsFromPlan. generalize (filter is_build_node nodes) as ns. intros ns. revert t Hok.
    induction ns as [|n ns IH]; intros t Hok; [done|]. simpl. by apply IH, queue_node_ok.
  - unfold DeleteBuilds, table_ok. simpl. case_decide; [apply map_Forall_empty|].
    intros k r [Hr _]%map_lookup_filter_Some. by apply Hok.
Qed.

(** *** No build is handed out twice *)

(** A report of progress: it does not put the build back into the queue. *)
Definition keeps_out (o : op) : Prop :=
  match o with
  | OpLease _ _ | OpDelete _ => True
  | OpReport _ u => ToLower (su_status u) ∉ ["pending"; "retry"]
  | OpRequeue _ _ | OpQueue _ _ _ _ => False
  end.
(** The table has a row for the key only if it is not ready. *)
Definition held (k : string * string) (t : Table) : Prop :=
  ∀ r, tb_rows t !! k = Some r → br_status r ∉ ["pending"; "retry"].

Lemma held_not_ready k t now max : table_ok t → held k t → k ∉ row_key <$> leasable now max t.
Proof using Type.
  intros Hok Hh [r [-> Hr]]%list_elem_of_fmap.
  destruct (elem_of_leasable now max t r Hok Hr) as [Hk Hready]. unfold is_ready in Hready.
  apply andb_true_iff in Hready as [Hs%bool_decide_eq_true _]. by apply (Hh r Hk).
Qed.
Lemma merge_row_status now e b : br_status (merge_row now e b) = br_status e.
Proof using Type. done. Qed.

Lemma keeps_out_held o k t : table_ok t → keeps_out o → held k t → held k (run_op o t).2.
Proof using Type.
  intros Hok Hko Hh. destruct o; simpl in *; try done.
  - destruct (LeaseBuilds_cases now max t) as [[e ->]|(bs & -> & _)]; simpl; [done|].
    intros r. rewrite update_rows_out; [apply Hh|]. rewrite lease_keys. by apply held_not_ready.
  - unfold UpdateBuildStatus. case_decide; [done|]. intros r. simpl. rewrite lookup_insert.
    case_decide; [|apply Hh]. intros [= <-]. by destruct (tb_rows t !! _).
  - intros r. unfold DeleteBuilds. simpl. case_decide; [by rewrite lookup_empty|].
    rewrite map_lookup_filter_Some. intros [Hr _]. by apply Hh.
Qed.
Lemma run_op_hands_out o k t : table_ok t → held k t → k ∉ (run_op o t).1.
Proof using Type.
  intros Hok Hh. destruct o; simpl; try apply not_elem_of_nil.
  destruct (LeaseBuilds_cases now max t) as [[e ->]|(bs & -> & Hbs)]; simpl; [apply not_elem_of_nil|].
  rewrite (build_keys_of _ _ Hbs). by apply held_not_ready.
Qed.
Lemma handed_out_held o k t : table_ok t → k ∈ (run_op o t).1 → held k (run_op o t).2.
Proof using Type.
  intros Hok. destruct o; simpl; try by intros ?%elem_of_nil.
  destruct (LeaseBuilds_cases now max t) as [[e ->]|(bs & -> & Hbs)]; simpl; [by intros ?%elem_of_nil|].
  rewrite (build_keys_of _ _ Hbs). intros [r [-> Hr]]%list_elem_of_fmap r'.
  rewrite <-(lease_row_key now r), update_rows_in;
    [|by rewrite lease_keys; apply NoDup_leasable|by apply list_elem_of_fmap_2].
  intros [= <-]. simpl. intros Hin. by apply (bool_decide_pack _) in Hin.
Qed.
Lemma handed_out_NoDup o t : table_ok t → NoDup (run_op o t).1.
Proof using Type.
  intros Hok. destruct o; simpl; try apply NoDup_nil_2.
  destruct (LeaseBuilds_cases now max t) as [[e ->]|(bs & -> & Hbs)]; simpl; [apply NoDup_nil_2|].
  rewrite (build_keys_of _ _ Hbs). by apply NoDup_leasable.
Qed.

Lemma run_ops_hands_out os k t : table_ok t → Forall keeps_out os → held k t →
  k ∉ (run_ops os t).1 ∧ held k (run_ops os t).2.
Proof using Type.
  revert t. induction os as [|o os IH]; intros t Hok Hko Hh; simpl; [by split; [apply not_elem_of_nil|]|].
  apply Forall_cons in Hko as [Ho Hko].
  pose proof (run_op_hands_out o k t Hok Hh). pose proof (keeps_out_held o k t Hok Ho Hh).
  pose proof (run_op_ok o t Hok). destruct (run_op o t) as [ks t1]. simpl in *.
  destruct (IH t1) as [? ?]; [done..|]. destruct (run_ops os t1) as [ks' t2]. simpl in *.
  split; [|done]. rewrite not_elem_of_app. tauto.
Qed.

(** C5. No build is handed to two workers: however pops follow each other, mixed
    with workers' reports of progress and with deletions, no build is handed out
    twice, until something puts it back into the queue: a report of "pending" or
    "retry", the expiry of a lease, or a plan that queues it again. *)
Theorem no_double_lease os t : table_ok t → Forall keeps_out os → NoDup (run_ops os t).1.
Proof using Type.
  revert t. induction os as [|o os IH]; intros t Hok Hko; simpl; [apply NoDup_nil_2|].
  apply Forall_cons in Hko as [Ho Hko].
  pose proof (handed_out_NoDup o t Hok) as Hnd. pose proof (run_op_ok o t Hok) as Hok1.
  assert (Hheld : ∀ k, k ∈ (run_op o t).1 → held k (run_op o t).2) by (intros k; by apply handed_out_held).
  destruct (run_op o t) as [ks t1]. simpl in *. specialize (IH t1 Hok1 Hko).
  assert (Hdis : ∀ k, k ∈ ks → k ∉ (run_ops os t1).1).
  { intros k Hk. apply run_ops_hands_out; [done..|]. by apply Hheld. }
  destruct (run_ops os t1) as [ks' t2]. simpl in *. by apply NoDup_app.
Qed.

(** *** A build that is left "building" *)

(** The operation says nothing about this build. *)
Definition spares (k : string * string) (o : op) : Prop :=
  match o with
  | OpLease _ _ | OpRequeue _ _ => True
  | OpReport _ u => (su_package u, su_version u) ≠ k
  | OpQueue _ _ _ nodes => Forall (λ n, (fn_Name n, fn_Version n) ≠ k) nodes
  | OpDelete status => status ≠ "" ∧ status ≠ "building"
  end.

Lemma requeue_keys now (rs : list BuildRow) : row_key <$> (requeue_row now <$> rs) = row_key <$> rs.
Proof using Type. by rewrite <-list_fmap_compose. Qed.

Lemma building_kept k r o t :
  table_ok t → spares k o → tb_rows t !! k = Some r → br_status r = "building" →
  tb_rows (run_op o t).2 !! k = Some r.
Proof using Type.
  intros Hok Hsp Hk Hst. destruct o; simpl in *.
  - destruct (LeaseBuilds_cases now max t) as [[e ->]|(bs & -> & _)]; simpl; [done|].
    change (tb_rows (update_rows (lease_row now <$> leasable now max t) t) !! k = Some r).
    rewrite update_rows_out; [done|]. rewrite lease_keys. apply held_not_ready; [done|].
    intros r' Hr'. rewrite Hk in Hr'. simplify_eq. rewrite Hst. by intros ?%(bool_decide_pack _).
  - unfold RequeueStaleLeases. case_decide; [done|]. cbn [snd]. rewrite update_rows_out; [done|].
    rewrite requeue_keys. intros [r' [-> Hr']]%list_elem_of_fmap.
    apply list_elem_of_filter in Hr' as [Hs Hr']. apply elem_of_rows in Hr'; [|done].
    rewrite Hk in Hr'. simplify_eq. unfold is_stale in Hs. apply andb_true_iff in Hs as [Hs _].
    apply bool_decide_eq_true in Hs. by rewrite Hst in Hs.
  - unfold UpdateBuildStatus. case_decide; [done|]. cbn [snd tb_rows]. by rewrite lookup_insert_ne.
  - unfold QueueBuildsFromPlan. assert (Hall : Forall (λ n, (fn_Name n, fn_Version n) ≠ k)
      (filter is_build_node nodes)).
    { apply Forall_forall. intros n [_ Hn]%list_elem_of_filter. by eapply Forall_forall in Hsp. }
    revert Hall. generalize (filter is_build_node nodes) as ns. intros ns Hall. clear Hsp Hok.
    revert t Hk. induction Hall as [|n ns Hn Hall IH]; intros t Hk; [done|]. simpl. apply IH.
    unfold queue_node. simpl. by rewrite lookup_insert_ne.
  - unfold DeleteBuilds. cbn [snd tb_rows]. rewrite decide_False by tauto.
    apply map_lookup_filter_Some. split; [done|]. simpl. rewrite Hst. naive_solver.
Qed.

(** A build whose last report is "building" stays so, and is never handed out
    again: no pop, no expiry of leases (which looks at "leased" rows only), no
    other build's report or plan changes its row.  Only a report or a plan about
    this build, or its deletion, can free it. *)
Theorem building_is_stuck k r os t :
  table_ok t → Forall (spares k) os → tb_rows t !! k = Some r → br_status r = "building" →
  tb_rows (run_ops os t).2 !! k = Some r ∧ k ∉ (run_ops os t).1.
Proof using Type.
  intros Hok Hsp Hk Hst. revert t Hok Hk. induction Hsp as [|o os Ho Hsp IH]; intros t Hok Hk; simpl.
  { split; [done|]. apply not_elem_of_nil. }
  pose proof (building_kept k r o t Hok Ho Hk Hst) as Hk1. pose proof (run_op_ok o t Hok) as Hok1.
  assert (Hout : k ∉ (run_op o t).1).
  { apply run_op_hands_out; [done|]. intros r' Hr'. rewrite Hk in Hr'. simplify_eq. rewrite Hst.
    by intros ?%(bool_decide_pack _). }
  destruct (run_op o t) as [ks t1]. simpl in *. destruct (IH t1 Hok1 Hk1) as [Hk2 Hout2].
  destruct (run_ops os t1) as [ks' t2]. simpl in *. split; [done|]. rewrite not_elem_of_app. tauto.
Qed.

(** *** The rows an operation can leave *)
Record row_ok (r : BuildRow) : Prop := {
  ro_attempts : 0 <= br_attempts r <= int4_max;
  ro_leased : br_status r = "leased" → is_Some (br_leased_at r);
  ro_building : br_status r = "building" → is_Some (br_started_at r);
  ro_finished : br_status r ∈ ["built"; "failed"] → is_Some (br_finished_at r) }.
Definition rows_ok (t : Table) : Prop := map_Forall (λ k r, row_key r = k ∧ row_ok r) (tb_rows t).

Lemma rows_ok_table t : rows_ok t → table_ok t.
Proof using Type. intros Hok k r Hk. by apply Hok. Qed.
Lemma rows_ok_insert k r t next :
  rows_ok t → row_key r = k → row_ok r → rows_ok (mkTable (<[k := r]> (tb_rows t)) next).
Proof using Type. intros Hok Hk Hr. by apply map_Forall_insert_2. Qed.
Lemma rows_ok_update (f : BuildRow → BuildRow) rs t :
  (∀ r, r ∈ rs → row_ok (f r)) → rows_ok t → rows_ok (update_rows (f <$> rs) t).
Proof using Type.
  unfold update_rows, rows_ok; simpl. intros Hf Hok. induction rs as [|x rs IH] using rev_ind; [done|].
  rewrite fmap_app, foldl_app. simpl. apply map_Forall_insert_2; [|apply IH; set_solver].
  split; [done|]. apply Hf. set_solver.
Qed.
Lemma lease_row_ok now r : row_ok r → br_attempts r ≠ int4_max → row_ok (lease_row now r).
Proof using Type.
  intros [Ha _ _ _] Hne. split; simpl; [lia|eauto|done|]. intros Hin. by apply (bool_decide_pack _) in Hin.
Qed.
Lemma requeue_row_ok now r : row_ok r → row_ok (requeue_row now r).
Proof using Type.
  intros [Ha _ _ _]. split; simpl; [done..|]. intros Hin. by apply (bool_decide_pack _) in Hin.
Qed.
Lemma excluded_row_ok now id u : su_attempts u <= int4_max → row_ok (excluded_row now id u).
Proof using Type.
  intros Ha. unfold excluded_row. split; simpl.
  - case_decide; unfold int4_max in *; lia.
  - intros ->. by eexists.
  - intros ->. by eexists.
  - intros Hin. rewrite decide_True by done. eauto.
Qed.
Lemma merge_row_ok now e b : row_ok e → row_ok (merge_row now e b).
Proof using Type.
  intros [Ha _ _ _]. split; simpl; [done| | |].
  - intros ->. simpl. by eexists.
  - intros ->. simpl. by eexists.
  - intros Hin. destruct (decide (br_status e ∈ ["pending"; "retry"; "leased"; "building"])) as [H'|_].
    + apply elem_of_cons in Hin as [Hs|[Hs|[]%elem_of_nil]%elem_of_cons]; rewrite Hs in H';
        by apply (bool_decide_pack _) in H'.
    + rewrite decide_True by done. eauto.
Qed.
Lemma queue_row_ok now id run plan n old : row_ok (queue_row now id run plan n old).
Proof using Type.
  destruct old as [b|]; (split; simpl; [unfold int4_max; lia|done|done|]);
    intros Hin; by apply (bool_decide_pack _) in Hin.
Qed.

Lemma run_op_rows_ok o t : rows_ok t → rows_ok (run_op o t).2.
Proof using Type.
  intros Hok. pose proof (rows_ok_table t Hok) as Ht.
  assert (Hrow : ∀ r, tb_rows t !! row_key r = Some r → row_ok r) by (intros r Hr; by apply (Hok (row_key r) r)).
  destruct o; simpl.
  - unfold LeaseBuilds. case_decide as Hmax; [done|]. destruct (scan_builds _); [|done]. simpl.
    apply rows_ok_update; [|done]. intros r Hr.
    destruct (elem_of_leasable now max t r Ht Hr) as [Hk _]. apply lease_row_ok; [by apply Hrow|].
    intros Heq. apply Hmax, Exists_exists. by exists r.
  - unfold RequeueStaleLeases. case_decide; [done|]. apply rows_ok_update; [|done].
    intros r [_ Hr]%list_elem_of_filter. by apply requeue_row_ok, Hrow, elem_of_rows.
  - unfold UpdateBuildStatus. case_decide; [done|]. pose proof (UpdateBuildStatus_ok now u t Ht) as Hok'.
    unfold UpdateBuildStatus in Hok'. rewrite decide_False in Hok' by done.
    assert (He : row_ok (excluded_row now (tb_next t) u)) by (apply excluded_row_ok; lia).
    apply rows_ok_insert; [done| |].
    + apply (table_ok_lookup _ _ _ Hok'). simpl. by rewrite lookup_insert_eq.
    + destruct (tb_rows t !! _); [by apply merge_row_ok|done].
  - unfold QueueBuildsFromPlan. clear Hrow. generalize (filter is_build_node nodes) as ns. intros ns.
    revert t Hok Ht. induction ns as [|n ns IH]; intros t Hok Ht; [done|]. simpl.
    pose proof (queue_node_ok now run plan t n Ht) as Ht'. apply IH; [|done].
    apply rows_ok_insert; [done| |apply queue_row_ok].
    apply (table_ok_lookup _ _ _ Ht'). simpl. by rewrite lookup_insert_eq.
  - unfold DeleteBuilds. simpl. case_decide; [apply map_Forall_empty|].
    intros k r [Hr _]%map_lookup_filter_Some. by apply Hok.
Qed.

(** The rows any sequence of operations leaves in the table: each under its own
    package and version, with a number of attempts the column can hold; a row that
    is "leased" has the time of its lease, one that is "building" the time it
    started, and one that is "built" or "failed" the time it finished. *)
Theorem build_rows_invariant os : rows_ok (run_ops os empty_table).2.
Proof using Type.
  assert (Hgen : ∀ t, rows_ok t → rows_ok (run_ops os t).2); [|apply Hgen, map_Forall_empty].
  induction os as [|o os IH]; intros t Hok; [done|]. simpl.
  pose proof (run_op_rows_ok o t Hok) as Hok1. destruct (run_op o t) as [ks t1]. simpl in *.
  specialize (IH t1 Hok1). by destruct (run_ops os t1).
Qed.

(** *** A report about a build the table does not have *)
Lemma scan_builds_has_null rs r : r ∈ rs → br_plan_id r = None → is_ok (scan_builds rs) = false.
Proof using Type.
  intros Hin Hnull. rewrite scan_builds_Err. apply not_true_is_false. rewrite forallb_forall.
  intros Hall. specialize (Hall r (proj1 (list_elem_of_In _ _) Hin)). unfold scan_build in Hall.
  rewrite Hnull in Hall. by destruct (br_python_tag r), (br_platform_tag r), (br_run_id r).
Qed.

(** A report about a build that is not in the table blocks the queue.  The
    upsert inserts a row without tags, run and plan, and from then on listing the
    builds fails; and if the report is "pending" or "retry", every pop that is
    large enough to reach the row fails as well, and hands out no build at all,
    though others are ready, because the row's NULLs cannot be scanned. *)
Theorem unknown_report_blocks_queue now u t :
  table_ok t → tb_rows t !! (su_package u, su_version u) = None → su_attempts u <= int4_max →
  let t' := (UpdateBuildStatus now u t).2 in
  is_ok (ListBuilds "" 0 0 "" "" t') = false ∧
  (ToLower (su_status u) ∈ ["pending"; "retry"] → su_backoff u <= 0 →
   ∀ now' max, Z.of_nat (length (rows t')) <= max → ∃ e, LeaseBuilds now' max t' = (Err e, t')).
Proof using Type.
  intros Hok Hnone Hatt t'. pose proof (UpdateBuildStatus_ok now u t Hok) as Hok'. fold t' in Hok'.
  set (e := excluded_row now (tb_next t) u).
  assert (He : tb_rows t' !! row_key e = Some e).
  { unfold t', UpdateBuildStatus. rewrite decide_False by lia. cbn [snd tb_rows]. fold e.
    change (row_key e) with (su_package u, su_version u). rewrite Hnone. apply lookup_insert_eq. }
  assert (Hin : e ∈ rows t') by by apply elem_of_rows. split.
  - unfold ListBuilds. rewrite decide_False by done. apply (scan_builds_has_null _ e); [|done].
    rewrite by_created_perm. by apply list_elem_of_filter.
  - intros Hst Hback now' max Hmax.
    assert (Hready : is_ready now' e = true).
    { unfold is_ready. simpl. rewrite bool_decide_true by done. by rewrite decide_False by lia. }
    assert (Hlease : e ∈ leasable now' max t').
    { unfold leasable. rewrite take_ge; [by apply elem_of_ready|].
      rewrite by_created_perm. etrans; [apply length_filter|]. case_decide; lia. }
    unfold LeaseBuilds. case_decide; [by eexists|].
    destruct (scan_builds _) as [bs|err] eqn:Hs; [|by eexists]. exfalso.
    assert (is_ok (scan_builds (returning (lease_row now' <$> leasable now' max t'))) = false) as Hf.
    { apply (scan_builds_has_null _ (lease_row now' e)); [|done]. rewrite returning_perm.
      by apply list_elem_of_fmap_2. }
    by rewrite Hs in Hf.
Qed.
End lease.

(** ** Examples *)
Definition created_le (a b : BuildRow) : Prop := br_created_at a <= br_created_at b.
#[export] Instance created_le_dec : RelDecision created_le.
Proof. intros a b. unfold created_le. apply _. Defined.
#[export] Instance created_le_total : Total created_le.
Proof. intros a b. unfold created_le. lia. Qed.
#[export] Instance created_le_trans : Transitive created_le.
Proof. intros a b c. unfold created_le. lia. Qed.
Definition sample_db : Database := {|
  by_created := merge_sort created_le;
  by_created_perm l := merge_sort_Permutation _ l;
  by_created_sorted l := StronglySorted_merge_sort created_le l;
  returning l := l;
  returning_perm l := reflexivity l |}.
Definition sample_node (name : string) : FlatNode :=
  mkFlatNode name "1.0" "3.11" "cp311" "linux_s390x" "build" [] [].
Definition sample_table : Table :=
  QueueBuildsFromPlan 0 "run" 1 [sample_node "a"; sample_node "b"] empty_table.
Definition sample_report (name status : string) : StatusUpdate :=
  mkStatusUpdate name "1.0" status "" "" 1 0 None None.
Lemma sample_table_ok : table_ok sample_table.
Proof.
  change sample_table with (@run_op sample_db (OpQueue 0 "run" 1 [sample_node "a"; sample_node "b"]) empty_table).2.
  apply run_op_ok, map_Forall_empty.
Qed.

Lemma LeaseBuilds_spec_witness :
  let ready := filter (λ r, is_ready 5 r = true) (rows sample_table) in
  match @LeaseBuilds sample_db 5 1 sample_table with
  | (Err _, t') => t' = sample_table
  | (Ok bs, t') => ∃ picked,
      length picked = Nat.min (Z.to_nat (if decide (1 <= 0) then 1 else 1)) (length ready) ∧
      NoDup (row_key <$> picked) ∧
      (λ b, (build_key b, bs_Attempts b)) <$> bs ≡ₚ (λ r, (row_key r, br_attempts r + 1)) <$> picked ∧
      (∀ r, r ∈ picked → tb_rows sample_table !! row_key r = Some r ∧ is_ready 5 r = true ∧
         tb_rows t' !! row_key r = Some (lease_row 5 r)) ∧
      (∀ k, k ∉ row_key <$> picked → tb_rows t' !! k = tb_rows sample_table !! k) ∧
      (∀ r r', r ∈ picked → r' ∈ ready → r' ∉ picked → br_created_at r <= br_created_at r')
  end.
Proof. apply (@LeaseBuilds_spec sample_db 5 1 sample_table). apply sample_table_ok. Defined.

Definition sample_pops : list op :=
  [OpLease 5 1; OpReport 6 (sample_report "a" "building"); OpLease 7 5; OpLease 8 5].
Lemma no_double_lease_witness :
  length (@run_ops sample_db sample_pops sample_table).1 = 2%nat ∧
  NoDup (@run_ops sample_db sample_pops sample_table).1.
Proof.
  split; [vm_compute; reflexivity|].
  apply (@no_double_lease sample_db sample_pops sample_table); [apply sample_table_ok|].
  repeat (constructor; [try exact I|]); [|constructor]. by apply (bool_decide_unpack _).
Defined.

Definition building_table : Table := (UpdateBuildStatus 6 (sample_report "a" "building") sample_table).2.
Definition building_row : BuildRow :=
  default (excluded_row 0 0 (sample_report "" "")) (tb_rows building_table !! ("a", "1.0")).
Definition sample_expiry : list op := [OpRequeue 1000000000 60; OpLease 1000000001 5; OpReport 1000000002 (sample_report "b" "built")].
Lemma building_is_stuck_witness :
  tb_rows (@run_ops sample_db sample_expiry building_table).2 !! ("a", "1.0") = Some building_row ∧
  ("a", "1.0") ∉ (@run_ops sample_db sample_expiry building_table).1.
Proof.
  apply (@building_is_stuck sample_db ("a", "1.0") building_row sample_expiry building_table).
  - apply UpdateBuildStatus_ok, sample_table_ok.
  - repeat (constructor; [try exact I|]); [|constructor]. discriminate.
  - vm_compute. reflexivity.
  - vm_compute. reflexivity.
Defined.

Lemma unknown_report_blocks_queue_witness :
  let t' := (UpdateBuildStatus 9 (sample_report "c" "retry") sample_table).2 in
  is_ok (@ListBuilds sample_db "" 0 0 "" "" t') = false ∧
  (ToLower "retry" ∈ ["pending"; "retry"] → 0 <= 0 →
   ∀ now' max, Z.of_nat (length (rows t')) <= max → ∃ e, @LeaseBuilds sample_db now' max t' = (Err e, t')).
Proof.
  apply (@unknown_report_blocks_queue sample_db 9 (sample_report "c" "retry") sample_table).
  - apply sample_table_ok.
  - vm_compute. reflexivity.
  - vm_compute. discriminate.
Defined.
