(* ===== verification/PendingFacts.v ===== *)
(** What the tables of pending inputs and plans promise: an invariant of every
    sequence of requests, and what the requests do to an input and its plan. *)
From S2P Require Import Prelude.
From S2P Require Import GoStr.
From S2P Require Import PlanTypes.
From S2P Require Import Queue.
From S2P Require Import Sql.
From S2P Require Import BuildStore.
From S2P Require Import Pending.
From S2P Require Import BuildQueue.
From S2P Require Import PlanLoop.
From S2P Require Import Upload.
From S2P Require Import System.
From S2P Require Import SystemSamples.
From Stdlib Require Import Ascii.
Local Open Scope string_scope.
Local Open Scope list_scope.
Local Open Scope Z_scope.

(** ** The invariant *)
(** The time stamps a status promises. *)
Record stamps_ok (r : PendingRow) : Prop := {
  so_planning : pr_status r = "planning" → is_Some (pr_loaded_at r);
  so_planned : pr_status r = "planned" → is_Some (pr_planned_at r);
  so_queued : pr_status r ∈ ["queued"; "build_queued"] → is_Some (pr_processed_at r) }.
Definition input_ok (next : Z) (k : Z) (r : PendingRow) : Prop :=
  pr_id r = k ∧ k < next ∧ stamps_ok r.
(** Each row of [plan_metadata] has the input and the plan it refers to. *)
Definition references_ok (p : Planning) : Prop :=
  ∀ m, m ∈ pn_meta p → is_Some (pn_inputs p !! pm_input m) ∧ is_Some (pn_plans p !! pm_plan m).
Record planning_ok (p : Planning) : Prop := {
  po_inputs : map_Forall (input_ok (pn_next_input p)) (pn_inputs p);
  po_plans : map_Forall (λ k pl, pl_id pl = k ∧ 0 < k < pn_next_plan p) (pn_plans p);
  po_next : 0 < pn_next_plan p;
  po_refs : references_ok p;
  po_builds : rows_ok (pn_builds p) }.

Lemma fresh_input p : planning_ok p → pn_inputs p !! pn_next_input p = None.
Proof.
  intros Hok. destruct (pn_inputs p !! _) as [r|] eqn:Hr; [|done].
  apply (po_inputs _ Hok) in Hr as (_ & Hlt & _). lia.
Qed.
Lemma fresh_plan p : planning_ok p → pn_plans p !! pn_next_plan p = None.
Proof.
  intros Hok. destruct (pn_plans p !! _) as [r|] eqn:Hr; [|done].
  apply (po_plans _ Hok) in Hr as [_ Hlt]. lia.
Qed.

(** Changing rows in place: the keys and references stay. *)
Lemma planning_ok_rows m p :
  planning_ok p → map_Forall (input_ok (pn_next_input p)) m → dom m = dom (pn_inputs p) →
  planning_ok (with_inputs m p).
Proof.
  intros [_ Hplans Hnx Hrefs Hb] Hm Hdom. split; [done..| |done]. intros x Hx. simpl.
  destruct (Hrefs x Hx) as [Hi Hp]. split; [|done]. apply elem_of_dom. rewrite Hdom. by apply elem_of_dom.
Qed.
Lemma dom_alter_const {V} (f : V → V) (k : Z) (m : gmap Z V) : dom (alter f k m) = dom m.
Proof. apply dom_alter_L. Qed.

(** *** Rows *)
Lemma update_status_row_stamps now status err r : stamps_ok r → stamps_ok (update_status_row now status err r).
Proof.
  intros _. split; unfold update_status_row, pr_status; simpl.
  - intros ->. by eexists.
  - intros ->. by eexists.
  - intros Hin. rewrite bool_decide_true by done. by eexists.
Qed.
Lemma plain_stamps r : pr_status r = "pending" ∨ pr_status r = "deleted" → stamps_ok r.
Proof. intros [Hs|Hs]; split; rewrite Hs; try done; intros Hin; by apply (bool_decide_pack _) in Hin. Qed.
Lemma for_plan_row_stamps now status r :
  status ∈ ["pending"; "queued"; "build_queued"] → stamps_ok (for_plan_row now status r).
Proof.
  intros [->|[->|[->|[]%elem_of_nil]%elem_of_cons]%elem_of_cons]%elem_of_cons;
    [by apply plain_stamps; left|split; unfold pr_status; simpl; try done; by eexists..].
Qed.

(** *** Statements *)
Lemma AddPendingInput_ok now i p : planning_ok p → in_Status i = "pending" → planning_ok (AddPendingInput now i p).2.
Proof.
  intros Hok Hst. pose proof (fresh_input p Hok) as Hfresh. destruct Hok as [Hin Hpl Hnx Hrefs Hb].
  split; simpl; [|done|done| |done].
  - apply map_Forall_insert_2.
    + split_and!; simpl; [done|lia|]. apply plain_stamps. by left.
    + eapply map_Forall_impl; [exact Hin|]. intros k r (? & ? & ?). split_and!; [done|lia|done].
  - intros m Hm. destruct (Hrefs m Hm) as [Hi Hp]. split; [|done]. simpl.
    destruct (decide (pm_input m = pn_next_input p)) as [->|]; [rewrite lookup_insert_eq; eauto|].
    by rewrite lookup_insert_ne.
Qed.
Lemma set_input_ok r p : planning_ok p → is_Some (pn_inputs p !! pr_id r) → stamps_ok r → planning_ok (set_input r p).
Proof.
  intros Hok [r0 Hr0] Hst. apply planning_ok_rows; [done| |].
  - apply map_Forall_insert_2; [|apply Hok]. destruct (po_inputs p Hok _ _ Hr0) as (_ & ? & _). done.
  - apply dom_insert_lookup_L. eauto.
Qed.
Lemma UpdatePendingInputStatus_ok now id status err p :
  planning_ok p → planning_ok (UpdatePendingInputStatus now id status err p).
Proof.
  intros Hok. apply planning_ok_rows; [done| |apply dom_alter_L].
  intros k r. rewrite lookup_alter. case_decide as Hk; [subst|by apply Hok].
  intros (r0 & Hr0 & ->)%fmap_Some. destruct (po_inputs p Hok _ _ Hr0) as (? & ? & ?).
  split_and!; [done..|]. by apply update_status_row_stamps.
Qed.
Lemma DeletePendingInput_ok now id p : planning_ok p → planning_ok (DeletePendingInput now id p).2.
Proof.
  intros Hok. unfold DeletePendingInput. destruct (pn_inputs p !! id) as [r|] eqn:Hr; [|done]. simpl.
  destruct (po_inputs p Hok _ _ Hr) as (Hid & _ & _). apply set_input_ok; [done| |apply plain_stamps; by right].
  simpl. rewrite Hid. eauto.
Qed.
Lemma RestorePendingInput_ok now id p : planning_ok p → planning_ok (RestorePendingInput now id p).2.
Proof.
  intros Hok. unfold RestorePendingInput. destruct (pn_inputs p !! id) as [r|] eqn:Hr; [|done]. simpl.
  destruct (po_inputs p Hok _ _ Hr) as (Hid & _ & _). apply set_input_ok; [done| |apply plain_stamps; by left].
  simpl. rewrite Hid. eauto.
Qed.
Lemma LinkPlanToPendingInput_ok now i pl p p' :
  planning_ok p → LinkPlanToPendingInput now i pl p = Ok p' → planning_ok p'.
Proof.
  intros [Hin Hpl Hnx Hrefs Hb]. unfold LinkPlanToPendingInput. case_decide as Hex; intros; simplify_eq.
  split; [done..| |done]. intros m Hm. apply elem_of_app in Hm as [Hm|Hm]; [by apply Hrefs|].
  apply list_elem_of_singleton in Hm as ->. done.
Qed.
Lemma UpdatePendingInputsForPlan_ok now planID status p :
  status ∈ ["pending"; "queued"; "build_queued"] →
  planning_ok p → planning_ok (UpdatePendingInputsForPlan now planID status p).2.
Proof.
  intros Hs Hok. apply planning_ok_rows; [done| |apply dom_fmap_L].
  intros k r. rewrite lookup_fmap. intros (r0 & Hr0 & ->)%fmap_Some.
  destruct (po_inputs p Hok _ _ Hr0) as (? & ? & ?). case_decide; [|done].
  split_and!; [done..|]. by apply for_plan_row_stamps.
Qed.
Lemma SavePlan_ok now run nodes dag p : planning_ok p → planning_ok (SavePlan now run nodes dag p).2.
Proof.
  intros Hok. destruct Hok as [Hin Hpl Hnx Hrefs Hb]. split; simpl; [done| |lia| |done].
  - apply map_Forall_insert_2; [simpl; split; [done|lia]|].
    eapply map_Forall_impl; [exact Hpl|]. intros k pl [? ?]. split; [done|lia].
  - intros m Hm. destruct (Hrefs m Hm) as [Hi Hp]. split; [done|]. simpl.
    destruct (decide (pm_plan m = pn_next_plan p)) as [->|]; [rewrite lookup_insert_eq; eauto|].
    by rewrite lookup_insert_ne.
Qed.
Lemma DeletePlans_ok planID p : planning_ok p → planning_ok (DeletePlans planID p).2.
Proof.
  intros [Hin Hpl Hnx Hrefs Hb]. unfold DeletePlans. case_decide; (split; simpl; [done| |done| |done]).
  - by apply map_Forall_delete.
  - intros m [Hne Hm]%list_elem_of_filter. destruct (Hrefs m Hm) as [Hi Hp]. split; [done|]. simpl.
    by rewrite lookup_delete_ne.
  - apply map_Forall_empty.
  - by intros m Hm%elem_of_nil.
Qed.
Lemma queue_plan_builds_ok now run planID nodes p :
  planning_ok p → planning_ok (queue_plan_builds now run planID nodes p).
Proof.
  intros [Hin Hpl Hnx Hrefs Hb]. split; [done..|]. simpl.
  (* independent of the order of queries, so any database will do *)
  exact (@run_op_rows_ok sample_db (OpQueue now run planID nodes) (pn_builds p) Hb).
Qed.

(** *** Requests *)
Section requests.
Context `{SqlOrder} {S : Type} `{Redis S, Codec (gmap string string)} (planq : option RedisQueue).
Abbreviation serve := (serve planq).
Abbreviation serve_all := (serve_all planq).
Abbreviation ok := (λ a : Api S, planning_ok (api_db a)).

Lemma set_statuses_ok now status ids a : ok a → ok (set_statuses now status ids a).
Proof using Type.
  unfold set_statuses. revert a. induction ids as [|i ids IH]; intros a Hok; simpl; [done|].
  apply IH. destruct (ParseInt i); [|done]. by apply UpdatePendingInputStatus_ok.
Qed.
Lemma delete_listed_ok now l p : planning_ok p → planning_ok (delete_listed now l p).
Proof using Type.
  unfold delete_listed. revert p. induction l as [|r l IH]; intros p Hok; simpl; [done|].
  by apply IH, DeletePendingInput_ok.
Qed.
Lemma mark_queued_ok now planID p : planning_ok p → planning_ok (mark_queued now planID p).
Proof using Type.
  intros Hok. unfold mark_queued.
  pose proof (UpdatePendingInputsForPlan_ok now planID "queued" p ltac:(by apply (bool_decide_unpack _)) Hok) as Hs1.
  destruct (UpdatePendingInputsForPlan now planID "queued" p) as [n p1]. simpl in Hs1. case_decide; [|done].
  apply UpdatePendingInputsForPlan_ok; [|done]. by apply (bool_decide_unpack _).
Qed.
Lemma save_plan_ok now b a : ok a → ok (save_plan now b a).2.
Proof using Type.
  intros Hok. unfold save_plan.
  pose proof (SavePlan_ok now (pb_run b) (pb_plan b) (pb_dag b) (api_db a) Hok) as Hs1.
  destruct (SavePlan _ _ _ _ _) as [id p1]. simpl in Hs1.
  assert (Hrest : ∀ p, planning_ok p → planning_ok (if api_AutoBuild a then
    let p' := queue_plan_builds now (pb_run b) id (pb_plan b) p in
    if decide (0 < pb_pending b) then UpdatePendingInputStatus now (pb_pending b) "queued" "" p' else p'
    else p)).
  { intros p Hp. destruct (api_AutoBuild a); [|done]. cbv zeta.
    pose proof (queue_plan_builds_ok now (pb_run b) id (pb_plan b) p Hp).
    case_decide; [by apply UpdatePendingInputStatus_ok|done]. }
  destruct (decide (0 < pb_pending b)); [|by apply Hrest].
  destruct (LinkPlanToPendingInput _ _ _ _) as [p2|e] eqn:Hl; [|done]. simpl.
  apply Hrest, UpdatePendingInputStatus_ok. by eapply LinkPlanToPendingInput_ok.
Qed.
Lemma enqueue_builds_ok now pl nodes n a : ok a → ok (enqueue_builds now pl nodes n a).2.
Proof using Type. intros Hok. by apply mark_queued_ok, queue_plan_builds_ok. Qed.
Lemma register_input_ok now i a : ok a → in_Status i = "pending" → ok (register_input planq now i a).2.
Proof using Type.
  intros Hok Hst. unfold register_input.
  pose proof (AddPendingInput_ok now i (api_db a) Hok Hst) as Hs1.
  destruct (AddPendingInput _ _ _) as [id p1]. simpl in Hs1.
  destruct planq as [q|]; [|done]. destruct (api_AutoPlan a); [|done].
  destruct (PlanQueue_Enqueue _ _ _) as [e s]. by apply UpdatePendingInputStatus_ok.
Qed.

(** The uploads register inputs as "pending". *)
Definition well_formed (r : request) : Prop :=
  match r with ReqRegister _ i => in_Status i = "pending" | _ => True end.

Ltac handle :=
  repeat match goal with
  | |- planning_ok (api_db (snd (if ?b then _ else _))) => destruct b
  | |- planning_ok (api_db (snd (match ?x with _ => _ end))) => destruct x eqn:?
  | |- planning_ok (api_db (snd (answer _ _ _))) => cbn [answer snd with_db api_db]
  | |- planning_ok (api_db (snd (refuse _ _))) => cbn [refuse answer snd]
  end.
Lemma serve_ok r a : well_formed r → ok a → ok (serve r a).2.
Proof using Type.
  intros Hwf Hok.
  assert (Hdel : ∀ now id r p, DeletePendingInput now id (api_db a) = (r, p) → planning_ok p).
  { intros now id r' p Hd. pose proof (DeletePendingInput_ok now id _ Hok) as H'. by rewrite Hd in H'. }
  assert (Hres : ∀ now id r p, RestorePendingInput now id (api_db a) = (r, p) → planning_ok p).
  { intros now id r' p Hd. pose proof (RestorePendingInput_ok now id _ Hok) as H'. by rewrite Hd in H'. }
  destruct r; cbn [Pending.serve].
  - pose proof (register_input_ok now i a Hok Hwf). by destruct (register_input _ _ _ _).
  - unfold pendingInputs. by handle.
  - unfold pendingInputsClear. handle; [done..|]. by apply delete_listed_ok.
  - unfold pendingInputAction. cbv zeta. handle; try done.
    + by eapply Hdel.
    + by apply UpdatePendingInputStatus_ok.
    + by eapply Hres.
  - unfold pendingInputPop. handle; try done. cbn [snd]. by apply set_statuses_ok.
  - unfold pendingInputStatus. cbv zeta. handle; try done. by apply UpdatePendingInputStatus_ok.
  - unfold planQueueClear. handle; try done. by apply set_statuses_ok.
  - unfold plan. handle; try done. by apply save_plan_ok.
  - unfold plans. handle; try done.
    match goal with E : UpdatePendingInputsForPlan ?t ?i ?st ?q = (_, ?p1), D : DeletePlans ?i ?p1 = _ |- _ =>
      pose proof (UpdatePendingInputsForPlan_ok t i st q) as Hu; rewrite E in Hu;
      pose proof (DeletePlans_ok i p1) as Hdp; rewrite D in Hdp
    end.
    apply Hdp, Hu; [by apply (bool_decide_unpack _)|done].
  - unfold planLatest. by handle.
  - unfold planByID. cbv zeta. handle; try done; by apply enqueue_builds_ok.
Qed.

Lemma serve_all_ok rs a : Forall well_formed rs → ok a → ok (serve_all rs a).
Proof using Type.
  unfold Pending.serve_all. intros Hwf. revert a. induction Hwf as [|r rs Hr _ IH]; intros a Hok; simpl; [done|].
  by apply IH, serve_ok.
Qed.
Lemma empty_planning_ok : planning_ok empty_planning.
Proof using Type. split; simpl; [apply map_Forall_empty..|done| |apply map_Forall_empty]. by intros m Hm%elem_of_nil. Qed.

(** C17. Whatever requests the control plane serves, in any order, the tables stay
    well formed: each input and plan is stored under its own id, below the next
    one; an input that is "planning" has the time it was loaded, a "planned" one
    the time it was planned, and a queued one the time it was processed; each link
    between an input and a plan refers to rows that exist, and the rows of the
    build queue are well formed. *)
Theorem planning_invariant rs auto build s :
  Forall well_formed rs → planning_ok (api_db (serve_all rs (mkApi empty_planning s auto build))).
Proof using Type.
  intros Hwf. apply serve_all_ok; [done|apply empty_planning_ok].
Qed.
End requests.

(** ** Requests on one input or one plan *)
Definition int64 (z : Z) : Prop := - 2 ^ 63 <= z < 2 ^ 63.
Lemma itoa_no_slash z : str_forall (λ d, negb (bool_decide (d = "/"%char))) (itoa z) = true.
Proof. apply itoa_forall; [|done]. intros c. by destruct c as [[] [] [] [] [] [] [] []]. Qed.
Lemma path_parts_id prefix id : path_parts prefix (prefix +:+ itoa id) = [itoa id].
Proof. unfold path_parts. rewrite TrimPrefix_app. apply Split_no_sep, itoa_no_slash. Qed.
Lemma path_parts_action prefix id action :
  str_forall (λ d, negb (bool_decide (d = "/"%char))) action = true →
  path_parts prefix (prefix +:+ itoa id +:+ String "/" action) = [itoa id; action].
Proof.
  intros Ha. unfold path_parts. rewrite TrimPrefix_app, Split_app_sep.
  by rewrite !Split_no_sep by (done || apply itoa_no_slash).
Qed.

Lemma elem_of_values {V} (m : gmap Z V) v : v ∈ values m ↔ ∃ k, m !! k = Some v.
Proof.
  unfold values. rewrite list_elem_of_fmap. split.
  - intros ([k v'] & -> & Hin%elem_of_map_to_list). eauto.
  - intros [k Hk]. exists (k, v). split; [done|]. by apply elem_of_map_to_list.
Qed.

(** *** Clearing pending inputs *)
Section clear.
Context `{SqlOrder}.
Lemma elem_of_listing status p r :
  planning_ok p → r ∈ (ListPendingInputs status p).*1 ↔ pn_inputs p !! pr_id r = Some r ∧ listed status r.
Proof using Type.
  intros Hok. unfold ListPendingInputs. rewrite <-list_fmap_compose, (list_fmap_ext _ id) by done.
  rewrite list_fmap_id, order_desc_perm, list_elem_of_filter, elem_of_values. split.
  - intros [Hl [k Hk]]. destruct (po_inputs p Hok _ _ Hk) as (-> & _). done.
  - intros [? ?]. eauto.
Qed.
Lemma delete_listed_lookup now l p k :
  (∀ j r, pn_inputs p !! j = Some r → pr_id r = j) →
  pn_inputs (delete_listed now l p) !! k =
    (if decide (k ∈ (λ r : PendingRow * option Z, pr_id r.1) <$> l) then delete_row now <$> pn_inputs p !! k
     else pn_inputs p !! k).
Proof using Type.
  unfold delete_listed. revert p. induction l as [|r l IH]; intros p Hkeys; simpl; [done|].
  rewrite IH.
  - unfold DeletePendingInput. destruct (pn_inputs p !! pr_id r.1) as [r0|] eqn:Hr; simpl.
    + pose proof (Hkeys _ _ Hr) as Hid. rewrite Hid.
      destruct (decide (k = pr_id r.1)) as [->|Hne].
      * rewrite lookup_insert_eq, Hr. rewrite (decide_True (P := _ ∈ _ :: _)) by by left.
        by case_decide.
      * rewrite lookup_insert_ne by done. f_equal.
        destruct (decide (k ∈ (λ r, pr_id r.1) <$> l)) as [Hin|Hin].
        -- rewrite decide_True; [done|by right].
        -- rewrite decide_False; [done|]. by intros [?|?]%elem_of_cons.
    + destruct (decide (k = pr_id r.1)) as [->|Hne]; [rewrite Hr; by repeat case_decide|].
      destruct (decide (k ∈ (λ r, pr_id r.1) <$> l)) as [Hin|Hin].
      * rewrite decide_True; [done|by right].
      * rewrite decide_False; [done|]. by intros [?|?]%elem_of_cons.
  - clear IH. intros j r'. unfold DeletePendingInput. destruct (pn_inputs p !! pr_id r.1) as [r0|] eqn:Hr; [|apply Hkeys].
    simpl. rewrite lookup_insert. case_decide; [|apply Hkeys].
    intros; simplify_eq. simpl. done.
Qed.

Context {S : Type} `{Redis S, Codec (gmap string string)}.
(** Clearing pending inputs: every live input with the status asked for
    ("pending" by default) is deleted, and reported in the count; no other input,
    no plan and no build changes, and nothing with that status is listed after it.
    The queue of plan IDs is not touched: a cleared input can still be queued. *)
Theorem pendingInputsClear_spec now status (a : Api S) :
  planning_ok (api_db a) →
  let st := if decide (status = "") then "pending" else status in
  let '((code, r), a') := pendingInputsClear now "POST" true status a in
  code = 200 ∧ r = RCount (PendingInputCount st (api_db a)) ∧
  (∀ k row, pn_inputs (api_db a) !! k = Some row →
     pn_inputs (api_db a') !! k = Some (if decide (listed st row) then delete_row now row else row)) ∧
  ListPendingInputs st (api_db a') = [] ∧
  pn_plans (api_db a') = pn_plans (api_db a) ∧ pn_builds (api_db a') = pn_builds (api_db a) ∧
  api_queue a' = api_queue a.
Proof using Type.
  intros Hok st. unfold pendingInputsClear. fold st. simpl.
  set (l := ListPendingInputs st (api_db a)).
  assert (Hkeys : ∀ j r, pn_inputs (api_db a) !! j = Some r → pr_id r = j)
    by (intros j r Hr; by apply (po_inputs _ Hok)).
  assert (Hlook : ∀ k row, pn_inputs (api_db a) !! k = Some row →
    pn_inputs (delete_listed now l (api_db a)) !! k =
      Some (if decide (listed st row) then delete_row now row else row)).
  { intros k row Hk. rewrite delete_listed_lookup, Hk by done.
    assert (Hiff : k ∈ (λ r : PendingRow * option Z, pr_id r.1) <$> l ↔ listed st row).
    { rewrite list_elem_of_fmap. pose proof (Hkeys _ _ Hk) as Hid. split.
      - intros (x & -> & Hx). apply (list_elem_of_fmap_2 fst) in Hx. unfold l in Hx.
        apply elem_of_listing in Hx as [Hx Hl]; [|done]. congruence.
      - intros Hl. assert (Hin : row ∈ l.*1) by (apply elem_of_listing; [done|by rewrite Hid]).
        apply list_elem_of_fmap in Hin as (x & -> & Hx). by exists x. }
    destruct (decide (k ∈ _)) as [Hin|Hin]; destruct (decide (listed st row)); tauto || done. }
  assert (Hrest : ∀ l p, pn_plans (delete_listed now l p) = pn_plans p ∧
    pn_builds (delete_listed now l p) = pn_builds p).
  { clear. induction l as [|r l IH]; intros p; [done|]. unfold delete_listed in *. simpl.
    destruct (IH (DeletePendingInput now (pr_id r.1) p).2) as [-> ->]. unfold DeletePendingInput.
    by destruct (pn_inputs p !! _). }
  destruct (Hrest l (api_db a)) as [Hpl Hb]. split_and!; [done| | | |done..].
  - unfold l, ListPendingInputs, PendingInputCount. by rewrite length_fmap, order_desc_perm.
  - apply Hlook.
  - pose proof (delete_listed_ok now l (api_db a) Hok) as Hok'.
    destruct (ListPendingInputs st (delete_listed now l (api_db a))) as [|x l'] eqn:Hl'; [done|]. exfalso.
    assert (Hx : x.1 ∈ (ListPendingInputs st (delete_listed now l (api_db a))).*1) by (rewrite Hl'; by left).
    apply elem_of_listing in Hx as [Hx Hlisted]; [|done].
    destruct (pn_inputs (api_db a) !! pr_id x.1) as [row|] eqn:Hrow.
    + rewrite (Hlook _ _ Hrow) in Hx. injection Hx as Hx. destruct (decide (listed st row)) as [|Hn].
      * destruct Hlisted as [Hd _]. by rewrite <-Hx in Hd.
      * apply Hn. by rewrite Hx.
    + rewrite delete_listed_lookup, Hrow in Hx by done. destruct (decide _) in Hx; discriminate Hx.
Qed.
End clear.

(** *** Queueing the builds of a plan *)
(** The row a plan leaves for one of its build nodes. *)
Record queued_by (run : string) (plan : Z) (r : BuildRow) : Prop := {
  qb_status : br_status r = "pending"; qb_attempts : br_attempts r = 0;
  qb_backoff : br_backoff_until r = None;
  qb_run : br_run_id r = Some run; qb_plan : br_plan_id r = Some plan }.
Lemma queue_row_queued now id run plan n old : queued_by run plan (queue_row now id run plan n old).
Proof. by destruct old. Qed.
Lemma QueueBuildsFromPlan_rows now run plan nodes t n :
  n ∈ nodes → is_build_node n →
  ∃ r, tb_rows (QueueBuildsFromPlan now run plan nodes t) !! (fn_Name n, fn_Version n) = Some r ∧ queued_by run plan r.
Proof.
  intros Hn Hb. unfold QueueBuildsFromPlan.
  assert (Hin : n ∈ filter is_build_node nodes) by by apply list_elem_of_filter.
  clear Hn. revert Hin. generalize (filter is_build_node nodes) as ns. intros ns. revert t.
  induction ns as [|x ns IH] using rev_ind; intros t Hin; [by apply elem_of_nil in Hin|].
  rewrite foldl_snoc. unfold queue_node at 1. cbn [tb_rows].
  destruct (decide ((fn_Name n, fn_Version n) = (fn_Name x, fn_Version x))) as [->|Hne].
  - rewrite lookup_insert_eq. eexists. split; [done|]. apply queue_row_queued.
  - rewrite lookup_insert_ne by done. apply IH. apply elem_of_app in Hin as [?|Hx%list_elem_of_singleton]; [done|].
    by subst.
Qed.
Lemma QueueBuildsFromPlan_other now run plan nodes t k :
  Forall (λ n, (fn_Name n, fn_Version n) ≠ k) nodes →
  tb_rows (QueueBuildsFromPlan now run plan nodes t) !! k = tb_rows t !! k.
Proof.
  intros Hall. unfold QueueBuildsFromPlan.
  assert (Hf : Forall (λ n, (fn_Name n, fn_Version n) ≠ k) (filter is_build_node nodes)).
  { apply Forall_forall. intros n [_ Hn]%list_elem_of_filter. by eapply Forall_forall in Hall. }
  revert t. induction Hf as [|n ns Hn _ IH]; intros t; [done|]. simpl. rewrite IH. simpl. by rewrite lookup_insert_ne.
Qed.
Lemma plan_queued_row p planID k r :
  tb_rows (pn_builds p) !! k = Some r → br_plan_id r = Some planID → br_status r ∈ queued_statuses →
  plan_queued p planID = true.
Proof.
  intros Hk Hp Hs. unfold plan_queued. apply existsb_exists. exists r. split.
  - apply list_elem_of_In. unfold rows. apply list_elem_of_fmap. exists (k, r). split; [done|].
    by apply elem_of_map_to_list.
  - by rewrite !bool_decide_true.
Qed.

(** The inputs of a plan. *)
Lemma for_plan_lookup now planID status p k :
  planning_ok p →
  pn_inputs (UpdatePendingInputsForPlan now planID status p).2 !! k =
    (λ r, if decide (pr_deleted_at r = None ∧ linked planID p k) then for_plan_row now status r else r)
      <$> pn_inputs p !! k.
Proof.
  intros Hok. simpl. rewrite lookup_fmap. destruct (pn_inputs p !! k) as [r|] eqn:Hk; [|done].
  destruct (po_inputs p Hok _ _ Hk) as (Hid & _). simpl. by rewrite Hid.
Qed.
(** The fallback of [mark_queued] has nothing to update. *)
Lemma mark_queued_eq now planID p :
  planning_ok p → mark_queued now planID p = (UpdatePendingInputsForPlan now planID "queued" p).2.
Proof.
  intros Hok. unfold mark_queued, UpdatePendingInputsForPlan. case_decide as Hz; [|done].
  set (hit r := pr_deleted_at r = None ∧ linked planID p (pr_id r)) in *.
  assert (Hnone : ∀ r, r ∈ values (pn_inputs p) → ¬ hit r).
  { intros r Hr Hh. assert (Hin : r ∈ filter hit (values (pn_inputs p))) by by apply list_elem_of_filter.
    destruct (filter hit _); [by apply elem_of_nil in Hin|simpl in Hz; lia]. }
  assert (Hid : ∀ st, (λ r, if decide (pr_deleted_at r = None ∧ linked planID p (pr_id r))
                            then for_plan_row now st r else r) <$> pn_inputs p = pn_inputs p).
  { intros st. apply map_eq. intros k. rewrite lookup_fmap. destruct (pn_inputs p !! k) as [r|] eqn:Hk; [|done].
    simpl. rewrite decide_False; [done|]. apply Hnone, elem_of_values. eauto. }
  assert (Hp : ∀ st, with_inputs ((λ r, if decide (pr_deleted_at r = None ∧ linked planID p (pr_id r))
                                        then for_plan_row now st r else r) <$> pn_inputs p) p = p).
  { intros st. rewrite Hid. by destruct p. }
  cbn [fst snd]. by rewrite !Hp.
Qed.

Section plan_requests.
Context `{SqlOrder} {S : Type} `{Redis S, Codec (gmap string string)} (planq : option RedisQueue).

Definition enqueue_builds_path (planID : Z) : string := "/api/plan/" +:+ itoa planID +:+ "/enqueue-builds".
Lemma planByID_enqueue now planID body (a : Api S) pl :
  int64 planID → pn_plans (api_db a) !! planID = Some pl →
  planByID now "POST" (enqueue_builds_path planID) body a =
    if plan_queued (api_db a) planID then refuse 409 a
    else enqueue_builds now pl (pl_plan pl) (count_builds (pl_plan pl)) a.
Proof using Type.
  intros Hid Hpl. unfold planByID. cbv zeta. unfold enqueue_builds_path.
  rewrite (path_parts_action "/api/plan/" planID "enqueue-builds") by done. cbn [lookup list_lookup from_option id].
  rewrite decide_False by apply itoa_nonempty. rewrite ParseInt_itoa by done.
  unfold PlanSnapshot. rewrite Hpl. by repeat (rewrite decide_False by naive_solver || rewrite decide_True by done).
Qed.


(** Deleting one plan: the plan and its links are gone, every live input made
    into it is "pending" again and can be planned anew, the other plans keep
    their rows and links, and its builds stay in the queue. *)
Theorem delete_plan_spec now planID (a : Api S) pl :
  planning_ok (api_db a) → int64 planID → pn_plans (api_db a) !! planID = Some pl →
  let '((code, r), a') := plans now "DELETE" true "" (itoa planID) a in
  code = 200 ∧ r = RCount 1 ∧
  pn_plans (api_db a') = delete planID (pn_plans (api_db a)) ∧
  (∀ k, ¬ linked planID (api_db a') k) ∧
  (∀ m, m ∈ pn_meta (api_db a') ↔ m ∈ pn_meta (api_db a) ∧ pm_plan m ≠ planID) ∧
  (∀ k row, pn_inputs (api_db a) !! k = Some row → pn_inputs (api_db a') !! k =
     Some (if decide (pr_deleted_at row = None ∧ linked planID (api_db a) k)
           then for_plan_row now "pending" row else row)) ∧
  pn_builds (api_db a') = pn_builds (api_db a).
Proof using Type.
  intros Hok Hid Hpl. destruct (po_plans _ Hok _ _ Hpl) as (Hplid & Hpos & _).
  unfold plans. rewrite decide_False, decide_True by done. cbn [negb].
  rewrite (decide_False (P := itoa planID = "")) by apply itoa_nonempty. rewrite ParseInt_itoa by done.
  cbn [mbind option_bind]. rewrite (decide_False (P := planID <= 0)) by lia.
  pose proof (for_plan_lookup now planID "pending" (api_db a)) as Hlook.
  destruct (UpdatePendingInputsForPlan now planID "pending" (api_db a)) as [count p1] eqn:Hu.
  assert (Hp1 : pn_plans p1 = pn_plans (api_db a) ∧ pn_meta p1 = pn_meta (api_db a) ∧
                pn_builds p1 = pn_builds (api_db a)).
  { unfold UpdatePendingInputsForPlan in Hu. by simplify_eq. }
  destruct Hp1 as (Hplans & Hmeta & Hbuilds). unfold DeletePlans. rewrite decide_True by lia.
  rewrite Hplans, Hpl. simpl.
  assert (Hm : ∀ m, m ∈ filter (λ m, pm_plan m ≠ planID) (pn_meta p1) ↔ m ∈ pn_meta (api_db a) ∧ pm_plan m ≠ planID).
  { intros m. rewrite list_elem_of_filter, Hmeta. tauto. }
  split_and!; [done|done|done| |done| |done].
  - intros k (m & Hin & _ & Heq)%Exists_exists. apply Hm in Hin as [_ Hne]. by apply Hne, Heq.
  - intros k row Hk. simpl in Hlook. by rewrite Hlook, Hk by done.
Qed.

(** A plan posted for an input the store does not know is refused with 500, but
    it is already saved: it is a plan of no input, and if no other plan is as
    new, it is the plan the control plane serves from then on. *)
Theorem unknown_input_leaves_plan now run nodes dag pending (a : Api S) :
  planning_ok (api_db a) → nodes ≠ [] → 0 < pending → pn_inputs (api_db a) !! pending = None →
  (∀ k pl, pn_plans (api_db a) !! k = Some pl → pl_created_at pl < now) →
  let '((code, _), a') := plan now "POST" (Some (mkPlanBody run nodes dag pending)) a in
  code = 500 ∧ Plan (api_db a') = nodes ∧
  pn_meta (api_db a') = pn_meta (api_db a) ∧ pn_inputs (api_db a') = pn_inputs (api_db a).
Proof using Type.
  intros Hok Hne Hpos Hnone Hnew. unfold plan. rewrite decide_False, decide_True by done. cbn [pb_plan]. rewrite decide_False by done.
  unfold save_plan, SavePlan. cbn [pb_pending pb_run pb_plan pb_dag]. rewrite decide_True by done.
  unfold LinkPlanToPendingInput. rewrite decide_False.
  2:{ intros [[r Hr] _]. simpl in Hr. by rewrite Hnone in Hr. }
  simpl. split_and!; [done| |done|done]. unfold Plan, latest_plan. cbn [pn_plans].
  set (m := <[_ := _]> _).
  destruct (newest pl_created_at (values m)) as [pl|] eqn:Hl.
  - apply newest_Some in Hl as [Hin Hmax]. apply elem_of_values in Hin as [k Hk]. unfold m in Hk.
    rewrite lookup_insert in Hk. case_decide; [by simplify_eq/=|].
    assert (Hself : mkPlanRow (pn_next_plan (api_db a)) run nodes dag now ∈ values m).
    { apply elem_of_values. exists (pn_next_plan (api_db a)). apply lookup_insert_eq. }
    apply Hmax in Hself. simpl in Hself. specialize (Hnew k pl Hk). lia.
  - apply newest_None in Hl. exfalso.
    assert (Hself : mkPlanRow (pn_next_plan (api_db a)) run nodes dag now ∈ values m).
    { apply elem_of_values. exists (pn_next_plan (api_db a)). apply lookup_insert_eq. }
    rewrite Hl in Hself. by apply elem_of_nil in Hself.
Qed.

(** A failure to queue an upload is hidden.  With automatic planning on, an input
    whose id could not be put into the queue is recorded as "planning" all the
    same, and the upload succeeds: no worker will ever be given the id. *)
Theorem failed_enqueue_is_planning q now i (a : Api S) e s :
  planq = Some q → api_AutoPlan a = true →
  PlanQueue_Enqueue q (itoa (pn_next_input (api_db a))) (api_queue a) = (Some e, s) →
  let '(id, a') := register_input planq now i a in
  PlanQueue_ids q (api_queue a') = PlanQueue_ids q (api_queue a) ∧
  ∃ r, pn_inputs (api_db a') !! id = Some r ∧ pr_status r = "planning" ∧ pr_error r = Some "".
Proof using Type.
  intros -> Hauto He. unfold register_input, AddPendingInput. cbv zeta beta iota. rewrite Hauto.
  cbn [with_db api_queue]. pose proof (PlanQueue_Enqueue_ids q (itoa (pn_next_input (api_db a))) (api_queue a)) as Hids.
  rewrite He in Hids |- *. split; [done|]. eexists. cbn [set_status with_db with_queue api_db UpdatePendingInputStatus with_inputs pn_inputs].
  by rewrite lookup_alter_eq, lookup_insert_eq.
Qed.
End plan_requests.

(** ** Witnesses *)
Lemma sample_requests_wf : Forall well_formed sample_requests.
Proof. by repeat constructor. Qed.
Lemma sample_planned_ok : planning_ok (api_db sample_planned).
Proof. apply serve_all_ok; [apply sample_requests_wf|apply empty_planning_ok]. Qed.
Definition sample_plan_row : PlanRow := mkPlanRow 1 "run" [sample_build "six"] "" 7.

Lemma planning_invariant_witness : planning_ok (api_db sample_planned).
Proof. apply (planning_invariant (Some sample_planq) sample_requests false false ∅). by repeat constructor. Defined.

Lemma pendingInputsClear_spec_witness :
  ListPendingInputs "pending" (api_db (pendingInputsClear 9 "POST" true "" sample_planned).2) = [].
Proof.
  pose proof (pendingInputsClear_spec 9 "" sample_planned sample_planned_ok) as Hspec. cbv zeta in Hspec.
  destruct (pendingInputsClear _ _ _ _ _) as [[code r] a']. apply Hspec.
Defined.


Lemma delete_plan_spec_witness : (plans 9 "DELETE" true "" (itoa 1) sample_planned).1 = (200, RCount 1).
Proof.
  pose proof (delete_plan_spec 9 1 sample_planned sample_plan_row sample_planned_ok) as Hspec.
  specialize (Hspec ltac:(done)). specialize (Hspec ltac:(vm_compute; reflexivity)).
  destruct (plans _ _ _ _ _ _) as [[code r] a']. destruct Hspec as (-> & -> & _). reflexivity.
Defined.

Lemma unknown_input_leaves_plan_witness :
  Plan (api_db (plan 9 "POST" (Some (mkPlanBody "run2" [sample_build "idna"] "" 77)) sample_planned).2) = [sample_build "idna"].
Proof.
  pose proof (unknown_input_leaves_plan 9 "run2" [sample_build "idna"] "" 77 sample_planned sample_planned_ok) as Hspec.
  specialize (Hspec ltac:(done) ltac:(done)). specialize (Hspec ltac:(vm_compute; reflexivity)).
  assert (Hnew : ∀ k pl, pn_plans (api_db sample_planned) !! k = Some pl → pl_created_at pl < 9).
  { intros k pl Hk. assert (Hm : map_Forall (λ _ pl, pl_created_at pl < 9) (pn_plans (api_db sample_planned)))
      by (apply (bool_decide_unpack _); vm_compute; reflexivity). exact (Hm k pl Hk). }
  specialize (Hspec Hnew). destruct (plan _ _ _ _) as [[code r] a']. apply Hspec.
Defined.

Lemma failed_enqueue_is_planning_witness :
  ∃ r, pn_inputs (api_db (register_input (Some (mkRedisQueue false "plans")) 9 sample_input sample_api).2) !! 1 = Some r ∧
    pr_status r = "planning" ∧ pr_error r = Some "".
Proof.
  pose proof (failed_enqueue_is_planning (Some (mkRedisQueue false "plans")) (mkRedisQueue false "plans") 9 sample_input
    sample_api plan_queue_not_configured ∅ eq_refl eq_refl eq_refl) as Hspec.
  destruct Hspec as [_ Hspec]. exact Hspec.
Defined.
