(* ===== verification/AutoFix.v ===== *)
(** [go-worker/internal/service/auto_fix.go] and [log_summary.go]: after a
    failed build, hints from the catalog are matched against the end of the log;
    where none has a recipe a hint is inferred from well-known error messages;
    the recipes are added to the job for the next attempt, and inferred hints are
    saved in the control plane.

    The regular expressions of the source are a parameter ([LogScan]); so are
    floating-point confidences ([Confidence]) and the control plane's answers. *)
From S2P Require Import Prelude.
From S2P Require Import GoStr.
From S2P Require Import Json.
From S2P Require Import Artifact.
From S2P Require Import Http.
From S2P Require Import Parse.
From S2P Require Import PlanTypes.
From S2P Require Import Planner.
From S2P Require Import Hints.
From S2P Require Import Queue.
From S2P Require Import Match.
From S2P Require Import Config.
From Stdlib Require Import Ascii.
Local Open Scope string_scope.
Local Open Scope list_scope.
Local Open Scope nat_scope.

(** The expressions of [inferHintFromLog], in the order they are tried, and
    those of [summaryPatterns] together. [scan] is [FindStringSubmatch]. *)
Inductive log_pattern :=
  | MissingModule | MissingHeader | MissingLib | PkgConfigMissing | CmakeMissing | MissingTool
  | RustMissing.
Class LogScan := {
  scan : log_pattern → string → option (list string);
  quote_meta : string → string;
  summary_line : string → bool }.

(** [float64] and [strconv.ParseFloat]. *)
Class Confidence := {
  F : Type; f_less : F → F → bool; f_zero : F; f_low : F; f_medium : F; f_high : F;
  parse_float : string → option F }.

Definition tailLogLines (logContent : string) (maxLines : Z) : string :=
  if decide (maxLines <= 0)%Z then logContent
  else
    let lines := Split logContent newline in
    let n := Z.to_nat maxLines in
    if decide (length lines ≤ n) then logContent
    else Join (drop (length lines - n) lines) (String newline "").

(** [dedupeStrings]: like [mergeRecipes], sorted. *)
Definition dedupeStrings (l : list string) : list string := sort_strings (dedupe merge_item ∅ l).

(** ** The log summary *)
Definition noise : list string :=
  ["running setup.py"; "building wheel"; "installing build dependencies"; "collecting"; "copying";
   "writing"].
Definition isNoiseLine (line : string) : bool :=
  existsb (Contains (ToLower line)) noise.
Definition trimSummary (line : string) : string :=
  if decide (String.length line ≤ 240) then line else str_take 240 line +:+ "...".
Definition summary_candidates (logContent : string) : list string :=
  filter (λ line, line ≠ "" ∧ isNoiseLine line = false)
    (TrimSpace <$> reverse (Split (tailLogLines logContent 200) newline)).
Definition summarizeLog `{LogScan} (logContent : string) : string :=
  if decide (TrimSpace logContent = "") then ""
  else
    let lines := summary_candidates logContent in
    match list_find (λ l, summary_line l = true) lines with
    | Some (_, line) => trimSummary line
    | None => match lines with line :: _ => trimSummary line | [] => "" end
    end.

(** ** Confidence *)
Section confidence.
Context `{Confidence}.
Definition named_confidence (raw : string) (otherwise : F) : F :=
  if decide (raw = "low") then f_low else if decide (raw = "medium") then f_medium
  else if decide (raw = "high") then f_high else otherwise.
Definition autoFixThreshold (raw : string) : F :=
  if decide (raw = "") then f_zero
  else let raw := TrimSpace (ToLower raw) in
       match parse_float raw with Some v => v | None => named_confidence raw f_zero end.
Definition confidenceScore (conf : string) : F :=
  let conf := TrimSpace (ToLower conf) in
  if decide (conf = "") then f_low
  else match parse_float conf with Some v => v | None => named_confidence conf f_low end.
End confidence.

(** ** Recipes of the inferred hints *)
Abbreviation Recipes := (gmap string (list string)).
Definition apt_dnf (a d : list string) : Recipes := list_to_map [("apt", a); ("dnf", d)].
Definition recipe_table (t : list (list string * (string * string))) (name : string) : option Recipes :=
  match list_find (λ e, name ∈ e.1) t with
  | Some (_, e) => Some (apt_dnf [e.2.1] [e.2.2])
  | None => None
  end.

Definition last_segment (s : string) : string := default "" (last (Split s "/"%char)).
Definition headerBase (header : string) : string :=
  ToLower (TrimPrefix (TrimSuffix (last_segment header) ".h") "lib").
Definition header_table : list (list string * (string * string)) :=
  [(["z"; "zlib"], ("zlib1g-dev", "zlib-devel")); (["ssl"; "openssl"], ("libssl-dev", "openssl-devel"));
   (["ffi"], ("libffi-dev", "libffi-devel")); (["bz2"; "bzip2"], ("libbz2-dev", "bzip2-devel"));
   (["lzma"; "xz"], ("liblzma-dev", "xz-devel")); (["png"], ("libpng-dev", "libpng-devel"));
   (["jpeg"; "jpg"], ("libjpeg-dev", "libjpeg-turbo-devel")); (["xml2"], ("libxml2-dev", "libxml2-devel"));
   (["xslt"], ("libxslt1-dev", "libxslt-devel")); (["sqlite3"; "sqlite"], ("libsqlite3-dev", "sqlite-devel"))].
Definition headerRecipes (base : string) : Recipes :=
  match recipe_table header_table base with
  | Some r => r
  | None => if decide (base = "") then ∅
            else apt_dnf ["lib" +:+ base +:+ "-dev"] [base +:+ "-devel"]
  end.

Definition library_table : list (list string * (string * string)) :=
  [(["z"], ("zlib1g-dev", "zlib-devel")); (["ssl"; "crypto"], ("libssl-dev", "openssl-devel"));
   (["ffi"], ("libffi-dev", "libffi-devel")); (["bz2"], ("libbz2-dev", "bzip2-devel"));
   (["lzma"], ("liblzma-dev", "xz-devel")); (["png"], ("libpng-dev", "libpng-devel"));
   (["jpeg"], ("libjpeg-dev", "libjpeg-turbo-devel")); (["xml2"], ("libxml2-dev", "libxml2-devel"));
   (["xslt"], ("libxslt1-dev", "libxslt-devel")); (["sqlite3"], ("libsqlite3-dev", "sqlite-devel"))].
Definition libraryRecipes (lib : string) : Recipes :=
  if decide (lib = "") then ∅
  else match recipe_table library_table lib with
       | Some r => r
       | None => let base := TrimPrefix (ToLower lib) "lib" in
                 apt_dnf ["lib" +:+ base +:+ "-dev"] [base +:+ "-devel"]
       end.

Definition toolRecipes (tool : string) : Recipes :=
  let t := ToLower tool in
  if decide (t = "cmake") then apt_dnf ["cmake"] ["cmake"]
  else if decide (t = "ninja") then apt_dnf ["ninja-build"] ["ninja-build"]
  else if decide (t ∈ ["pkg-config"; "pkgconf"]) then apt_dnf ["pkg-config"] ["pkgconf"]
  else if decide (t ∈ ["rustc"; "cargo"]) then apt_dnf ["rustc"; "cargo"] ["rust"; "cargo"]
  else if decide (t = "make") then apt_dnf ["make"] ["make"]
  else if decide (t = "gcc") then apt_dnf ["gcc"] ["gcc"]
  else if decide (t ∈ ["g++"; "c++"]) then apt_dnf ["g++"] ["gcc-c++"]
  else ∅.

(** ** Hints *)

(** [service.platformFamily]; the architecture is read as in the planner. *)
Definition svc_platformFamily (platformTag : string) : string :=
  let tag := ToLower platformTag in
  if Contains tag "manylinux" || Contains tag "linux" then "linux"
  else if Contains tag "darwin" || Contains tag "macos" then "darwin"
  else if Contains tag "win" then "windows" else "".

Definition nonempty_entry (key value : string) (vals : list string) : Recipes :=
  if decide (value = "") then ∅ else {[key := vals]}.
Definition baseAutoHint (ctx : hintContext) (pattern : string) : Hint :=
  let pkg := hc_Package ctx in
  let plat := hc_PlatformTag ctx in
  let arch := archFromPlatformTag plat in
  let family := svc_platformFamily plat in
  let python := if decide (hc_PythonVersion ctx = "")
                then nonempty_entry "python_tags" (hc_PythonTag ctx) [ToLower (hc_PythonTag ctx)]
                else {["python_versions" := [hc_PythonVersion ctx]]} in
  let applies := nonempty_entry "platforms" family [family] ∪ nonempty_entry "arch" arch [arch] ∪
                 python ∪ nonempty_entry "platform_tags" plat [ToLower plat] ∪
                 nonempty_entry "packages" pkg [ToLower pkg] in
  mkHint "" pattern ∅ "" ["auto"; "generated"] "error" applies "low" [].

Section infer.
Context `{GoRuntime, LogScan}.

Definition flattenRecipeMap (recipes : Recipes) : list string :=
  concat ((λ mgr,
    (λ step, mgr +:+ ":" +:+ step)
    <$> filter (λ s, s ≠ "") (TrimSpace <$> default [] (recipes !! mgr)))
  <$> sort_strings (fst <$> map_range recipes)).

(** A base hint with the tags, confidence, note, recipes and example added. *)
Definition auto_hint (ctx : hintContext) (pattern : string) (tags : list string)
    (confidence note : string) (recipes : Recipes) (example : string) : Hint :=
  let h := baseAutoHint ctx pattern in
  mkHint (h_ID h) (h_Pattern h) recipes note (h_Tags h ++ tags) (h_Severity h) (h_AppliesTo h)
    confidence [example].
(** [return hint, flattenRecipeMap(hint.Recipes), hint.Note, true]. *)
Definition found (h : Hint) : option (Hint * list string * string) :=
  Some (h, flattenRecipeMap (h_Recipes h), h_Note h).

Definition quotes : string := "['" +:+ String dquote "]".

Definition infer_module (log : string) (ctx : hintContext)
    : option (option (Hint * list string * string)) :=
  match scan MissingModule log with
  | Some [m0; m1] =>
    let mod_ := TrimSpace m1 in
    if decide (mod_ = "") then Some None
    else Some (found (auto_hint ctx
      ("ModuleNotFoundError: No module named " +:+ quotes +:+ quote_meta mod_ +:+ quotes)
      ["missing-module"; "python"] "low"
      ("Auto-detected missing Python module " +:+ mod_ +:+ " from build logs.")
      {["pip" := [mod_]]} m0))
  | _ => None
  end.
Definition infer_header (log : string) (ctx : hintContext) : option (Hint * list string * string) :=
  match scan MissingHeader log with
  | Some [m0; m1] =>
    let header := TrimSpace m1 in
    found (auto_hint ctx ("fatal error: " +:+ quote_meta header +:+ ": No such file or directory")
      ["missing-header"] "medium"
      ("Auto-detected missing header " +:+ header +:+ " from build logs.")
      (headerRecipes (headerBase header)) m0)
  | _ => None
  end.
Definition infer_lib (log : string) (ctx : hintContext) : option (Hint * list string * string) :=
  match scan MissingLib log with
  | Some [m0; m1] =>
    let lib := TrimSpace m1 in
    found (auto_hint ctx ("cannot find -l" +:+ quote_meta lib) ["missing-lib"] "medium"
      ("Auto-detected missing linker library " +:+ lib +:+ " from build logs.")
      (libraryRecipes lib) m0)
  | _ => None
  end.
Definition infer_pkgconfig (log : string) (ctx : hintContext) : option (Hint * list string * string) :=
  match scan PkgConfigMissing log with
  | Some (m0 :: groups) =>
    let name := firstNonEmpty groups in
    if decide (name = "") then None
    else found (auto_hint ctx ("No package '" +:+ quote_meta name +:+ "' found")
      ["pkg-config"; "missing-lib"] "medium"
      ("Auto-detected missing pkg-config package " +:+ name +:+ " from build logs.")
      (libraryRecipes name) m0)
  | _ => None
  end.
Definition infer_cmake (log : string) (ctx : hintContext) : option (Hint * list string * string) :=
  match scan CmakeMissing log with
  | Some [m0; m1] =>
    let name := TrimSpace m1 in
    if decide (name = "") then None
    else found (auto_hint ctx ("Could NOT find " +:+ quote_meta name) ["cmake"; "missing-lib"] "medium"
      ("Auto-detected missing CMake dependency " +:+ name +:+ " from build logs.")
      (libraryRecipes name) m0)
  | _ => None
  end.
Definition infer_tool (log : string) (ctx : hintContext) : option (Hint * list string * string) :=
  match scan MissingTool log with
  | Some [m0; m1] =>
    let tool := TrimSpace m1 in
    if decide (toolRecipes tool = ∅) then None
    else found (auto_hint ctx (quote_meta tool +:+ ": command not found") ["missing-tool"] "medium"
      ("Auto-detected missing tool " +:+ tool +:+ " from build logs.") (toolRecipes tool) m0)
  | _ => None
  end.
Definition infer_rust (log : string) (ctx : hintContext) : option (Hint * list string * string) :=
  match scan RustMissing log with
  | Some (m0 :: _) =>
    if decide (toolRecipes "cargo" = ∅) then None
    else found (auto_hint ctx "rust compiler not found" ["missing-tool"; "rust"] "medium"
      "Auto-detected missing Rust toolchain from build logs." (toolRecipes "cargo") m0)
  | _ => None
  end.

Fixpoint first_some {A} (l : list (option A)) : option A :=
  match l with [] => None | Some a :: _ => Some a | None :: l' => first_some l' end.

Definition inferHintFromLog (log : string) (ctx : hintContext) : option (Hint * list string * string) :=
  match infer_module log ctx with
  | Some answer => answer
  | None => first_some [infer_header log ctx; infer_lib log ctx; infer_pkgconfig log ctx;
                        infer_cmake log ctx; infer_tool log ctx; infer_rust log ctx]
  end.
End infer.

(** ** Similar hints *)
Section similar.
Context `{GoRuntime}.

Definition hintRecipeKey (h : Hint) : string := ToLower (Join (flattenRecipeMap (h_Recipes h)) "|").
Definition hintPackage (h : Hint) : string :=
  match list_find (λ kv : string * list string,
          norm kv.1 ∈ ["packages"; "package"; "package_names"] ∧ kv.2 ≠ [])
          (map_range (h_AppliesTo h)) with
  | Some (_, (_, v :: _)) => norm v
  | _ => ""
  end.

Definition with_examples (h : Hint) (examples : list string) : Hint :=
  mkHint (h_ID h) (h_Pattern h) (h_Recipes h) (h_Note h) (h_Tags h) (h_Severity h) (h_AppliesTo h)
    (h_Confidence h) examples.
Definition new_example (ex : string) : option (string * string) :=
  let t := TrimSpace ex in if decide (t = "") then None else Some (t, t).
(** The examples that are new, and whether there are any. *)
Definition mergeHintExamples (h : Hint) (examples : list string) : Hint * bool :=
  let fresh := dedupe new_example (list_to_set (h_Examples h)) examples in
  (with_examples h (h_Examples h ++ fresh), negb (bool_decide (fresh = []))).

Definition is_similar (candidate h : Hint) : bool :=
  let candPattern := norm (h_Pattern candidate) in
  let candKey := hintRecipeKey candidate in
  let candPkg := hintPackage candidate in
  (negb (bool_decide (candPattern = "")) && bool_decide (norm (h_Pattern h) = candPattern)) ||
  (negb (bool_decide (candKey = "")) && bool_decide (hintRecipeKey h = candKey) &&
   (bool_decide (candPkg = "") || bool_decide (candPkg = hintPackage h))).
(** The merged hint, whether one was found, and whether merging changed it. *)
Definition findSimilarHint (existing : list Hint) (candidate : Hint) : Hint * bool * bool :=
  match list_find (λ h, is_similar candidate h = true) existing with
  | Some (_, h) => let '(merged, updated) := mergeHintExamples h (h_Examples candidate) in
                   (merged, true, updated)
  | None => (mkHint "" "" ∅ "" [] "" ∅ "" [], false, false)
  end.
End similar.

(** ** What the recipes of a job may do to the build machine *)
Definition high_impact : list string :=
  ["build-essential"; "gcc"; "g++"; "clang"; "llvm"; "rust"; "rustc"; "cargo"; "gcc-c++"].
Fixpoint recipe_impact_loop (recipes : list string) : string * string :=
  match recipes with
  | [] => ("normal", "")
  | recipe :: recipes' =>
    let parts := SplitN2 recipe ":"%char in
    let mgr := TrimSpace (default "" (head parts)) in
    let arg := TrimSpace (default "" (parts !! 1)) in
    if decide (mgr = "env") then ("high", "environment override")
    else if decide (mgr ∈ ["apt"; "dnf"; "pip"]) then
      match list_find (λ tok, ToLower tok ∈ high_impact) (Fields arg) with
      | Some (_, tok) => ("high", "installs " +:+ tok)
      | None => recipe_impact_loop recipes'
      end
    else recipe_impact_loop recipes'
  end.
Definition recipeImpact (recipes : list string) : string * string :=
  if decide (recipes = []) then ("", "")
  else if decide (6 ≤ length recipes) then ("high", "bulk dependency install")
  else recipe_impact_loop recipes.

(** ** The automation *)
Record autoFixResult := mkAutoFixResult {
  af_Applied : bool; af_Recipes : list string; af_HintIDs : list string;
  af_SavedHintIDs : list string; af_Reason : string; af_BlockedReason : string;
  af_BlockedHints : list string; af_Impact : string; af_ImpactReason : string }.
Definition no_fix : autoFixResult := mkAutoFixResult false [] [] [] "" "" [] "" "".

(** What [autoFix] shares with the rest of the worker: when a hint was last saved
    for a package ([autoHintLast]), the IDs known to the control plane
    ([knownHints]), and the world behind the HTTP client. *)
Record FixState (W : Type) := mkFixState {
  fx_last : gmap string Z; fx_known : gset string; fx_world : W }.
Arguments mkFixState {W}. Arguments fx_last {W}. Arguments fx_known {W}. Arguments fx_world {W}.

Section autofix.
Context {W : Type} `{GoRuntime, Sha256, Regexp, LogScan, Confidence, HttpClient W}.
Context (hint_json : Hint → string) (cfg : Config).

Definition autoHintID (h : Hint) (ctx : hintContext) : string :=
  let steps mgr := Join (default [] (h_Recipes h !! mgr)) "," in
  let key := Join [TrimSpace (h_Pattern h); Join (h_Tags h) ","; steps "apt"; steps "dnf";
                   steps "pip"; hc_Package ctx; hc_PlatformTag ctx; hc_PythonVersion ctx] "|" in
  "auto-" +:+ str_take 12 (sha256_hex key).
Definition with_id (h : Hint) (id : string) : Hint :=
  mkHint id (h_Pattern h) (h_Recipes h) (h_Note h) (h_Tags h) (h_Severity h) (h_AppliesTo h)
    (h_Confidence h) (h_Examples h).

(** [upsertHint]: POST the hint to the control plane. *)
Definition json_headers : list (string * string) :=
  ("Content-Type", "application/json") ::
  (if decide (cf_ControlPlaneToken cfg = "") then []
   else [("X-Worker-Token", cf_ControlPlaneToken cfg)]).
Definition upsertHint (ctx : Ctx) (h : Hint) (w : W) : result unit * W :=
  if decide (cf_ControlPlaneURL cfg = "") then (Err "control plane URL not set", w)
  else
    let url := TrimRight (cf_ControlPlaneURL cfg) "/"%char +:+ "/api/hints" in
    match http_call ctx "POST" url json_headers (hint_json h) w with
    | (Err e, w') => (Err e, w')
    | (Ok resp, w') => if decide (rs_Status resp = 200)%Z then (Ok tt, w')
                       else (Err ("upsert hint status " +:+ itoa (rs_Status resp)), w')
    end.

(** The rate limit: one saved hint per package and window. *)
Definition canSaveAutoHint (now : Z) (pkg : string) (last : gmap string Z) : bool :=
  let window := wrap64 (cf_AutoHintRateLimitMin cfg * Minute) in
  if decide (window <= 0 ∨ pkg = "")%Z then true
  else match last !! ToLower pkg with
       | None => true
       | Some t => bool_decide (window <= now - t)%Z
       end.
Definition markAutoHintSaved (now : Z) (pkg : string) (last : gmap string Z) : gmap string Z :=
  if decide (pkg = "") then last else <[ToLower pkg := now]> last.

Definition job_context (job : Job) : hintContext :=
  mkHintContext (jb_Name job) (jb_Version job) (jb_PythonVersion job) (jb_PythonTag job)
    (jb_PlatformTag job) "".

(** The loop over the catalog: IDs matched, IDs blocked, recipes. *)
Record Matched := mkMatched { mt_IDs : list string; mt_Blocked : list string; mt_Recipes : list string }.
Definition match_step (ctx : hintContext) (log : string) (threshold : F) (m : Matched) (h : Hint)
    : Matched :=
  match MatchHintForLog h ctx log with
  | None => m
  | Some (_, recs) =>
    if f_less (confidenceScore (h_Confidence h)) threshold
    then mkMatched (mt_IDs m) (mt_Blocked m ++ [h_ID h]) (mt_Recipes m)
    else mkMatched (mt_IDs m ++ [h_ID h]) (mt_Blocked m) (mt_Recipes m ++ recipeNames recs)
  end.
Definition match_catalog (hints : list Hint) (ctx : hintContext) (log : string) (threshold : F)
    : Matched :=
  foldl (match_step ctx log threshold) (mkMatched [] [] []) hints.

Definition saves : bool := cf_AutoSaveHints cfg && negb (bool_decide (cf_ControlPlaneURL cfg = "")).

(** Saving an inferred hint.  The three answers of [findSimilarHint] are bound as
    [existing, merged, ok], though they are the hint, "found" and "updated". *)
Definition save_merged (ctx : Ctx) (hints : list Hint) (h : Hint) (st : FixState W)
    : Hint * list string * FixState W :=
  let '(existing, merged, ok) := findSimilarHint hints h in
  if ok then
    if merged && saves then
      match upsertHint ctx existing (fx_world st) with
      | (Ok _, w') => (existing, [h_ID existing], mkFixState (fx_last st) (fx_known st) w')
      | (Err _, w') => (existing, [], mkFixState (fx_last st) (fx_known st) w')
      end
    else (existing, [], st)
  else (h, [], st).
Definition save_new (ctx : Ctx) (now : Z) (pkg : string) (h : Hint) (st : FixState W)
    : list string * string * FixState W :=
  if saves then
    if canSaveAutoHint now pkg (fx_last st) && negb (bool_decide (h_ID h ∈ fx_known st)) then
      match upsertHint ctx h (fx_world st) with
      | (Ok _, w') => ([h_ID h], "",
                       mkFixState (markAutoHintSaved now pkg (fx_last st)) ({[h_ID h]} ∪ fx_known st) w')
      | (Err _, w') => ([], "", mkFixState (fx_last st) (fx_known st) w')
      end
    else if canSaveAutoHint now pkg (fx_last st) then ([], "", st)
    else ([], "rate limit: hint not saved", st)
  else ([], "", st).

(** The end of [autoFix]: the recipes are merged into the job's. *)
Definition fix_outcome (job : Job) (matched blocked saved recipes : list string) (reason : string)
    : autoFixResult :=
  let merged := mergeRecipes (jb_Recipes job) recipes in
  let applied := bool_decide (length (jb_Recipes job) < length merged) in
  let reason := if applied && bool_decide (reason = "") then "applied hint recipes" else reason in
  let '(impact, impactReason) := recipeImpact merged in
  mkAutoFixResult applied merged (dedupeStrings matched) (dedupeStrings saved) reason ""
    (dedupeStrings blocked) impact impactReason.

Definition autoFix (ctx : Ctx) (now : Z) (job : Job) (logContent : string) (hints : list Hint)
    (st : FixState W) : autoFixResult * FixState W :=
  if negb (cf_AutoFixEnabled cfg) then (no_fix, st)
  else
    let log := tailLogLines logContent 200 in
    let hctx := job_context job in
    let threshold := autoFixThreshold (cf_AutoFixMinConfidence cfg) in
    let m := match_catalog hints hctx log threshold in
    if decide (mt_Recipes m ≠ []) then
      (fix_outcome job (mt_IDs m) (mt_Blocked m) [] (mt_Recipes m) "", st)
    else
      match inferHintFromLog log hctx with
      | None => (fix_outcome job (mt_IDs m) (mt_Blocked m) [] [] "", st)
      | Some (h, recipes, note) =>
        let h := if decide (h_ID h = "") then with_id h (autoHintID h hctx) else h in
        if f_less (confidenceScore (h_Confidence h)) threshold then
          (mkAutoFixResult false [] [] [] "" "confidence below threshold"
             (dedupeStrings (mt_Blocked m ++ [h_ID h])) "" "", st)
        else
          let '(h, saved1, st1) := save_merged ctx hints h st in
          let h := if decide (h_ID h = "") then with_id h (autoHintID h hctx) else h in
          let '(saved2, _, st2) := save_new ctx now (jb_Name job) h st1 in
          (fix_outcome job (mt_IDs m ++ [h_ID h]) (mt_Blocked m) (saved1 ++ saved2) recipes note, st2)
      end.
End autofix.

(** ** What automation promises *)
Section facts.
Context {W : Type} `{GoRuntime, Sha256, Regexp, LogScan, Confidence, HttpClient W}.
Context (hint_json : Hint → string) (cfg : Config).

(** A hint that automation may act on. *)
Definition confident (h : Hint) : Prop :=
  f_less (confidenceScore (h_Confidence h)) (autoFixThreshold (cf_AutoFixMinConfidence cfg)) = false.
(** A recipe with a reason: from a catalog hint that matches the end of the log
    or from the hint inferred from it, in either case a confident one. *)
Definition trusted (job : Job) (logContent : string) (hints : list Hint) (x : string) : Prop :=
  let log := tailLogLines logContent 200 in
  (∃ h m recs, h ∈ hints ∧ confident h ∧ MatchHintForLog h (job_context job) log = Some (m, recs) ∧
     x ∈ recipeNames recs) ∨
  (∃ h recipes note, inferHintFromLog log (job_context job) = Some (h, recipes, note) ∧ confident h ∧
     x ∈ recipes).

Lemma match_catalog_trusted job logContent hints x :
  x ∈ mt_Recipes (match_catalog hints (job_context job) (tailLogLines logContent 200)
                    (autoFixThreshold (cf_AutoFixMinConfidence cfg))) →
  trusted job logContent hints x.
Proof using Type.
  unfold match_catalog. revert x. induction hints as [|h hints IH] using rev_ind; intros x.
  { by intros ?%not_elem_of_nil. }
  rewrite foldl_snoc. set (m := foldl _ _ hints) in *. unfold match_step.
  assert (Hmono : trusted job logContent hints x → trusted job logContent (hints ++ [h]) x).
  { intros [(h' & mm & recs & Hh & Hc)|Hi]; [left|by right].
    exists h', mm, recs. split; [apply elem_of_app; by left|done]. }
  destruct (MatchHintForLog h _ _) as [[mm recs]|] eqn:Hm; [|by intros ?%IH%Hmono].
  destruct (f_less _ _) eqn:Hf; simpl; [by intros ?%IH%Hmono|].
  intros [Hx%IH%Hmono|Hx]%elem_of_app; [done|]. left. exists h, mm, recs.
  split; [apply elem_of_app; right; left|done].
Qed.

Lemma fix_outcome_recipes job matched blocked saved recipes reason :
  af_Recipes (fix_outcome job matched blocked saved recipes reason) = mergeRecipes (jb_Recipes job) recipes ∧
  (af_Applied (fix_outcome job matched blocked saved recipes reason) = true ↔
    length (jb_Recipes job) < length (mergeRecipes (jb_Recipes job) recipes)).
Proof using Type.
  unfold fix_outcome. destruct (recipeImpact _) as [impact ir]. simpl. split; [done|].
  apply bool_decide_eq_true.
Qed.

(** The result of [autoFix] is an outcome with trusted recipes, or no fix. *)
Lemma autoFix_cases ctx now job logContent hints (st : FixState W) :
  let r := (autoFix hint_json cfg ctx now job logContent hints st).1 in
  (∃ matched blocked saved recipes reason,
    r = fix_outcome job matched blocked saved recipes reason ∧
    ∀ x, x ∈ recipes → trusted job logContent hints x) ∨
  (af_Applied r = false ∧ af_Recipes r = [] ∧ af_SavedHintIDs r = []).
Proof using Type.
  unfold autoFix. destruct (negb _); [by right|]. cbv zeta. case_decide as Hne.
  { left. do 5 eexists. split; [done|]. intros x. apply match_catalog_trusted. }
  destruct (inferHintFromLog _ _) as [[[h recipes] note]|] eqn:Hi.
  - set (h' := if decide (h_ID h = "") then _ else h).
    destruct (f_less _ _) eqn:Hf; [by right|]. left.
    destruct (save_merged _ _ _ _ _ _) as [[h2 saved1] st1].
    destruct (save_new _ _ _ _ _ _ _) as [[saved2 r2] st2].
    do 5 eexists. split; [done|]. intros x Hx. right. exists h, recipes, note.
    split; [done|]. split; [|done]. unfold confident. rewrite <-Hf. subst h'. by case_decide.
  - left. do 5 eexists. split; [done|]. by intros x ?%not_elem_of_nil.
Qed.


Lemma upsertHint_cancelled h (w : W) :
  upsertHint hint_json cfg cancelled h w = (Err (if decide (cf_ControlPlaneURL cfg = "")
    then "control plane URL not set"
    else if url_ok (TrimRight (cf_ControlPlaneURL cfg) "/"%char +:+ "/api/hints")
         then "context canceled" else "parse " +:+ (TrimRight (cf_ControlPlaneURL cfg) "/"%char +:+ "/api/hints")), w).
Proof using Type. unfold upsertHint. case_decide; [done|]. by rewrite http_call_cancelled. Qed.

(** With a context that is already cancelled automation saves no hint: no request
    reaches the control plane and no hint is reported as saved. *)
Lemma autoFix_cancelled now job logContent hints (st : FixState W) :
  let '(r, st') := autoFix hint_json cfg cancelled now job logContent hints st in
  fx_world st' = fx_world st ∧ af_SavedHintIDs r = [].
Proof using Type.
  assert (Hout : ∀ ma bl re reason, af_SavedHintIDs (fix_outcome job ma bl [] re reason) = []).
  { intros. unfold fix_outcome. by destruct (recipeImpact _). }
  unfold autoFix. destruct (negb _); [done|]. cbv zeta. case_decide; [by rewrite Hout|].
  destruct (inferHintFromLog _ _) as [[[h recipes] note]|]; [|by rewrite Hout].
  set (h' := if decide (h_ID h = "") then _ else h).
  destruct (f_less _ _); [done|].
  assert (Hm : ∃ h2 st1, save_merged hint_json cfg cancelled hints h' st = (h2, [], st1) ∧
    fx_world st1 = fx_world st).
  { unfold save_merged. destruct (findSimilarHint hints h') as [[e merged] ok].
    destruct ok; [|eauto]. destruct (merged && _); [|eauto]. rewrite upsertHint_cancelled. eauto. }
  destruct Hm as (h2 & st1 & -> & Hw).
  set (h3 := if decide (h_ID h2 = "") then _ else h2).
  assert (Hn : ∃ r2 st2, save_new hint_json cfg cancelled now (jb_Name job) h3 st1 = ([], r2, st2) ∧
    fx_world st2 = fx_world st1).
  { unfold save_new. destruct (saves cfg); [|eauto]. destruct (canSaveAutoHint _ _ _ _), (bool_decide _);
      simpl; eauto. rewrite upsertHint_cancelled. eauto. }
  destruct Hn as (r2 & st2 & -> & Hw2). rewrite Hout. split; [|done]. by rewrite Hw2.
Qed.

(** The three answers of [findSimilarHint] are taken for "merged" and "ok": a
    catalog hint that is similar and has the example already is ignored, and the
    inferred hint is posted again under an ID of its own. *)
Theorem autoFix_duplicates_similar_hint ctx now pkg hints h e (st : FixState W) :
  findSimilarHint hints h = (e, true, false) → saves cfg = true →
  canSaveAutoHint cfg now pkg (fx_last st) = true → h_ID h ∉ fx_known st →
  save_merged hint_json cfg ctx hints h st = (h, [], st) ∧
  fx_world (save_new hint_json cfg ctx now pkg h st).2 = (upsertHint hint_json cfg ctx h (fx_world st)).2.
Proof using Type.
  intros Hsim Hs Hcan Hk. unfold save_merged, save_new. rewrite Hsim, Hs, Hcan.
  rewrite bool_decide_false by done. simpl. split; [done|].
  by destruct (upsertHint _ _ _ _ _) as [[u|err] w'].
Qed.

(** The rate limit: after a hint was saved for a package, no other is posted
    for it, in any case, before the window has passed. *)
Theorem autoFix_rate_limit ctx ctx' now now' pkg pkg' h h' (st : FixState W) id reason st1 :
  let window := wrap64 (cf_AutoHintRateLimitMin cfg * Minute) in
  save_new hint_json cfg ctx now pkg h st = ([id], reason, st1) →
  (0 < window)%Z → pkg ≠ "" → ToLower pkg' = ToLower pkg → (now <= now' < now + window)%Z →
  save_new hint_json cfg ctx' now' pkg' h' st1 = ([], "rate limit: hint not saved", st1).
Proof using Type.
  intros window Hsave Hw Hp Hp' Hnow. unfold save_new in *.
  destruct (saves cfg) eqn:Hs; [|done].
  destruct (canSaveAutoHint cfg now pkg (fx_last st) && _); [|by case_match].
  destruct (upsertHint _ _ _ _ _) as [[u|e] w']; [|done]. simplify_eq. simpl.
  assert (Hno : canSaveAutoHint cfg now' pkg' (markAutoHintSaved now pkg (fx_last st)) = false).
  { unfold canSaveAutoHint, markAutoHintSaved. fold window.
    assert (pkg' ≠ "") by (intros ->; by destruct pkg). rewrite decide_False by naive_solver lia.
    rewrite (decide_False (P := pkg = "")) by done. rewrite Hp', lookup_insert_eq.
    apply bool_decide_eq_false. lia. }
  by rewrite Hno.
Qed.
End facts.

Lemma str_length_take n s : String.length (str_take n s) ≤ n.
Proof.
  revert s. induction n as [|n IH]; intros [|c s]; simpl; [lia..|]. specialize (IH s). lia.
Qed.

(** The failure summary is at most 243 bytes, and it is a line of the log, or
    the start of one: trimmed, not empty and not noise; it is empty only when the
    last 200 lines of the log hold no such line. *)
Theorem summarizeLog_spec `{LogScan} logContent :
  String.length (summarizeLog logContent) ≤ 243 ∧
  (summarizeLog logContent ≠ "" →
    ∃ line, line ∈ summary_candidates logContent ∧ summarizeLog logContent = trimSummary line) ∧
  (TrimSpace logContent ≠ "" → summary_candidates logContent ≠ [] → summarizeLog logContent ≠ "").
Proof.
  assert (Hlen : ∀ l, String.length (trimSummary l) ≤ 243).
  { intros l. unfold trimSummary. case_decide; [lia|]. rewrite str_length_app.
    change (String.length "...") with 3. pose proof (str_length_take 240 l). lia. }
  assert (Hne : ∀ l, l ∈ summary_candidates logContent → trimSummary l ≠ "").
  { intros l Hl. unfold summary_candidates in Hl. apply list_elem_of_filter in Hl as [[Hl _] _].
    unfold trimSummary. case_decide; [done|]. intros Heq%(f_equal String.length).
    rewrite str_length_app in Heq. change (String.length "...") with 3 in Heq.
    change (String.length "") with 0 in Heq. lia. }
  unfold summarizeLog. case_decide as Ht; [split_and!; [simpl; lia|done..]|].
  destruct (list_find _ _) as [[i line]|] eqn:E.
  - apply list_find_Some in E as (Hi%list_elem_of_lookup_2 & _).
    split_and!; [done|by exists line|auto].
  - destruct (summary_candidates logContent) as [|line ls]; split_and!; try done; [simpl; lia| |].
    + intros _. exists line. split; [left|done].
    + intros _ _. apply Hne. left.
Qed.

(** ** Witnesses *)
Definition demo_scan : LogScan := {|
  scan p log := match p with
                | MissingLib => if Contains log "cannot find -lz"
                                then Some ["cannot find -lz"; "z"] else None
                | _ => None
                end;
  quote_meta s := s;
  summary_line l := Contains l "error" |}.
Definition demo_confidence : Confidence := {|
  F := Z; f_less a b := (a <? b)%Z; f_zero := 0%Z; f_low := 3%Z; f_medium := 6%Z; f_high := 9%Z;
  parse_float _ := None |}.
Definition demo_sha : Sha256 := {| sha256_hex s := s |}.
(** A server that accepts everything and keeps the requests. *)
Definition demo_http : HttpClient (list HttpReq) := {|
  url_ok _ := true; do_req r w := (Ok (mkResp 200 "" ""), w ++ [r]) |}.
Definition demo_cfg : Config :=
  mkConfig "http://cp" "" "" 10 2 true 3 true true "low" 60 "/output" "/cache" "/cache/cas" "" "" "" ""
    false false false false "" "" "" "" "" "" "" "3.11" "linux_s390x" 2.
Definition demo_job : Job :=
  mkJob "lxml" "5.0" "3.11" "cp311" "linux_s390x" [] "" "build" "" [] "" [] "" "" "".
Definition demo_state : FixState (list HttpReq) := mkFixState ∅ ∅ [].

(** The hint inferred from a log, and a catalog that holds it already. *)
Definition demo_inferred : Hint :=
  with_id (auto_hint (job_context demo_job) "cannot find -lz" ["missing-lib"] "medium" "note"
    (libraryRecipes "z") "cannot find -lz") "auto-1".
Definition demo_catalog : list Hint := [with_id demo_inferred "h1"].

Lemma autoFix_duplicates_similar_hint_witness :
  @save_merged _ reference_runtime demo_http (λ _, "{}") demo_cfg live demo_catalog demo_inferred
    demo_state = (demo_inferred, [], demo_state) ∧
  fx_world (@save_new _ demo_http (λ _, "{}") demo_cfg live 0 "lxml" demo_inferred demo_state).2 =
    (@upsertHint _ demo_http (λ _, "{}") demo_cfg live demo_inferred []).2.
Proof.
  apply (@autoFix_duplicates_similar_hint _ reference_runtime demo_http (λ _, "{}") demo_cfg live 0
    "lxml" demo_catalog demo_inferred (with_id demo_inferred "h1") demo_state);
    [vm_compute; reflexivity|reflexivity|reflexivity|].
  simpl. apply not_elem_of_empty.
Defined.

Lemma autoFix_rate_limit_witness :
  let st1 := (@save_new _ demo_http (λ _, "{}") demo_cfg live 0 "lxml" demo_inferred demo_state).2 in
  @save_new _ demo_http (λ _, "{}") demo_cfg live 5 "LXML" demo_inferred st1 =
    ([], "rate limit: hint not saved", st1).
Proof.
  apply (@autoFix_rate_limit _ demo_http (λ _, "{}") demo_cfg live live 0 5 "lxml" "LXML" demo_inferred
    demo_inferred demo_state "auto-1" "");
    [reflexivity|vm_compute; reflexivity|discriminate|reflexivity|].
  split; [discriminate|vm_compute; reflexivity].
Defined.
