(* ===== verification/Resolve.v ===== *)
(** The half of [go-worker/internal/service/worker.go] that touches the machine,
    and [go-worker/internal/builder/builder.go]: artifacts are fetched from the
    registry and verified, packs and runtimes are built by shell commands, packed
    and extracted, and jobs are made from requests and a plan.

    The archive format, the shell and the names of temporary directories are
    parameters.  A directory exists when a file is in it. *)
From S2P Require Import Prelude.
From S2P Require Import GoStr.
From S2P Require Import Artifact.
From S2P Require Import Http.
From S2P Require Import Cas.
From S2P Require Import Parse.
From S2P Require Import PlanTypes.
From S2P Require Import Planner.
From S2P Require Import Queue.
From S2P Require Import Match.
From S2P Require Import Config.
From S2P Require Import AutoFix.
From Stdlib Require Import Ascii.
Local Open Scope string_scope.
Local Open Scope list_scope.
Local Open Scope nat_scope.

(** [archive/tar], the regular files of an archive; reading may stop early. *)
Class Tar := {
  tar_write : list (string * string) → string;
  tar_read : string → list (string * string) * option string;
  tar_read_write l : tar_read (tar_write l) = (l, None) }.
(** [sh -c]: whether the command succeeded, and the files after it. *)
Class Shell := {
  sh_run : string → Files → bool * Files;
  sh_run_env : list (string * string) → string → Files → bool * Files;
  mkdir_temp : string → Files → result string }.
(** [json.Marshal] of an artifact's manifest. *)
Class ManifestJson := { manifest_json : string → string → string → gmap string any → string }.

(** ** Directories *)
Definition remove_all (dir : string) (fs : Files) : Files :=
  filter (λ kv, in_dir dir kv.1 = false ∧ kv.1 ≠ dir) fs.
(** [isManifestOnly], of a directory that exists. *)
Definition isManifestOnly (dir : string) (fs : Files) : bool :=
  forallb (λ p, bool_decide (p = path_join dir "manifest.json")) (files_in dir fs).

(** ** Digests *)
Section verify.
Context `{Sha256}.
Definition content_digest (data : string) : string := "sha256:" +:+ sha256_hex data.
Definition verifyBytesDigest (data expected : string) : bool :=
  if bool_decide (expected = "") || negb (HasPrefix expected "sha256:") then true
  else bool_decide (content_digest data = expected).
Definition verifyFileDigest (path expected : string) (fs : Files) : result bool :=
  if bool_decide (expected = "") || negb (HasPrefix expected "sha256:") then Ok true
  else let? data := read_file path fs in Ok (verifyBytesDigest data expected).
End verify.

(** ** The builder *)
Section builder.
Context `{Machine, Tar, Shell, ManifestJson}.

Fixpoint shell_escape (s : string) : string :=
  match s with
  | EmptyString => ""
  | String c s' => if decide (c = "'"%char)
                   then "'" +:+ String Json.dquote "'" +:+ String Json.dquote "'" +:+ shell_escape s'
                   else String c (shell_escape s')
  end.
Definition shellQuote (value : string) : string :=
  if decide (value = "") then "''" else "'" +:+ shell_escape value +:+ "'".

(** [filterEnv]: the environment without the entries for a key. *)
Definition filterEnv (env : list string) (key : string) : list string :=
  filter (λ e, HasPrefix e (key +:+ "=") = false) env.

(** [writeTar]: a manifest and one placeholder file. *)
Definition writeTar (path manifest : string) (fs : Files) : result Files :=
  write_file path (tar_write [("manifest.json", manifest); ("usr/local/.keep", "keep")]) fs.

(** [runCommand]: the output directory is temporary, and removed at the end. *)
Definition runCommand (cmd outputEnv destDir : string) (fs : Files) : result unit * Files :=
  if decide (cmd = "") then (Ok tt, fs)
  else match mkdir_temp destDir fs with
       | Err e => (Err e, fs)
       | Ok tmp =>
         let '(ok, fs') := sh_run (outputEnv +:+ "=" +:+ shellQuote tmp +:+ " " +:+ cmd) fs in
         (if ok then Ok tt else Err "exit status", remove_all tmp fs')
       end.

Definition path_dir (path : string) : string :=
  Join (take (length (Split path "/"%char) - 1) (Split path "/"%char)) "/".
Definition build_artifact (path cmd outputEnv manifest : string) (fs : Files) : result unit * Files :=
  match runCommand cmd outputEnv (path_dir path) fs with
  | (Err e, fs1) => (Err e, fs1)
  | (Ok _, fs1) =>
    match writeTar path manifest fs1 with
    | Ok fs2 => (Ok tt, fs2)
    | Err e => (Err e, fs1)
    end
  end.
Definition BuildPack (path digest cmd : string) (meta : gmap string any) (fs : Files) : result unit * Files :=
  build_artifact path cmd "PACK_OUTPUT" (manifest_json "pack" digest "" meta) fs.
Definition BuildRuntime (path digest pythonVersion cmd : string) (meta : gmap string any) (fs : Files)
    : result unit * Files :=
  build_artifact path cmd "RUNTIME_OUTPUT" (manifest_json "runtime" digest pythonVersion meta) fs.

(** [extractTar]: empty the destination, then write the entries until one fails. *)
Fixpoint extract_entries (dest : string) (entries : list (string * string)) (fs : Files)
    : result unit * Files :=
  match entries with
  | [] => (Ok tt, fs)
  | (name, data) :: entries' =>
    match write_file (path_join dest name) data fs with
    | Ok fs' => extract_entries dest entries' fs'
    | Err e => (Err e, fs)
    end
  end.
Definition extractTar (src dest : string) (fs : Files) : result unit * Files :=
  let fs1 := remove_all dest fs in
  match read_file src fs1 with
  | Err e => (Err e, fs1)
  | Ok data =>
    let '(entries, e) := tar_read data in
    match extract_entries dest entries fs1 with
    | (Ok _, fs2) => (if e is Some msg then Err msg else Ok tt, fs2)
    | (Err e', fs2) => (Err e', fs2)
    end
  end.
End builder.

(** ** The worker's machine: its files, the world, and the packs extracted so far *)
Record WorkerState (W : Type) := mkWorkerState {
  wk_fs : Files; wk_world : W; wk_packPath : gmap string string }.
Arguments mkWorkerState {W}. Arguments wk_fs {W}. Arguments wk_world {W}. Arguments wk_packPath {W}.
Definition set_fs {W} (fs : Files) (s : WorkerState W) : WorkerState W :=
  mkWorkerState fs (wk_world s) (wk_packPath s).
Definition set_packPath {W} (digest dir : string) (s : WorkerState W) : WorkerState W :=
  mkWorkerState (wk_fs s) (wk_world s) (<[digest := dir]> (wk_packPath s)).

Section resolve.
Context {W : Type} `{GoRuntime, Sha256, Machine, Tar, Shell, ManifestJson, HttpClient W}.
Context (cfg : Config).

Definition cas_dir : string :=
  if decide (cf_LocalCASDir cfg = "") then path_join (cf_CacheDir cfg) "cas" else cf_LocalCASDir cfg.
Definition digest_file (digest : string) : string := ReplaceAll digest ":"%char "_".
Definition dest_path (digest ext : string) : string :=
  path_join cas_dir (digest_file digest +:+ ext).
Definition extract_dir (digest : string) : string := path_join cas_dir (digest_file digest).

(** Fetch an artifact into the local store and check its digest. *)
Definition fetch_verified (ctx : Ctx) (id : ID) (dest : string) (s : WorkerState W)
    : bool * WorkerState W :=
  if decide (cf_CASRegistryURL cfg = "") then (false, s)
  else
    let '(r, w', fs') := Fetch (CASFetcher cfg) ctx id dest (wk_world s) (wk_fs s) in
    let s' := mkWorkerState fs' w' (wk_packPath s) in
    match r with
    | Err _ => (false, s')
    | Ok _ =>
      match fs' !! dest, verifyFileDigest dest (id_Digest id) fs' with
      | Some _, Ok true => (true, s')
      | _, _ => (false, s')
      end
    end.

(** [fetchWheel]. *)
Definition fetchWheel (ctx : Ctx) (job : Job) (s : WorkerState W) : result unit * WorkerState W :=
  let digest := jb_WheelDigest job in
  if decide (digest = "" ∨ cf_CASRegistryURL cfg = "") then (Ok tt, s)
  else if negb (fs_writable cas_dir) then (Err ("mkdir " +:+ cas_dir), s)
  else
    let dest := dest_path digest ".bin" in
    let '(r, w', fs') := Fetch (CASFetcher cfg) ctx (mkID WheelType digest) dest (wk_world s) (wk_fs s) in
    let s' := mkWorkerState fs' w' (wk_packPath s) in
    match r with
    | Err e => (Err e, s')
    | Ok _ =>
      match fs' !! dest with
      | None => (Err ("stat " +:+ dest), s')
      | Some _ =>
        match verifyFileDigest dest digest fs' with
        | Err e => (Err e, s')
        | Ok false => (Err ("wheel digest mismatch: expected " +:+ digest), s')
        | Ok true => (Ok tt, s')
        end
      end
    end.

(** The command that builds a pack. *)
Definition pack_command (digest : string) (meta : Meta) (fs : Files) : string :=
  if decide (cf_PackBuilderCmd cfg ≠ "") then cf_PackBuilderCmd cfg
  else
    let script := path_join (cf_PackRecipesDir cfg) (pack_name meta (mkID PackType digest) +:+ ".sh") in
    if decide (pack_name meta (mkID PackType digest) ≠ "" ∧ is_Some (fs !! script))
    then script else cf_DefaultPackCmd cfg.
Definition depPrefixes (groups : list (list string)) : list string :=
  (λ p, path_join (path_join p "usr") "local") <$> filter (λ p, p ≠ "") (concat groups).

(** One pack of [resolvePacks]; [paths] and [depsBuilt] accumulate. *)
Definition resolve_step (ctx : Ctx) (actions : gmap string string) (meta : Meta)
    (acc : list string * list string * WorkerState W) (id : ID)
    : list string * list string * WorkerState W :=
  let '(paths, depsBuilt, s) := acc in
  let digest := id_Digest id in
  if decide (id_Type id ≠ PackType) then acc
  else match wk_packPath s !! digest with
  | Some p => (paths ++ [p], depsBuilt, s)
  | None =>
    if negb (fs_writable cas_dir) then acc
    else
      let dest := dest_path digest ".tar" in
      let '(fetched, s1) := fetch_verified ctx id dest s in
      let '(fetched, depsBuilt, s2) :=
        if negb fetched && bool_decide (actions !! digest = Some "build") then
          let prefixes := Join (depPrefixes [paths; depsBuilt]) ":" in
          let cmd := pack_command digest meta (wk_fs s1) in
          let cmd := if decide (prefixes = "") then cmd
                     else "DEPS_PREFIXES=" +:+ prefixes +:+ " " +:+ cmd in
          match BuildPack dest digest cmd (default ∅ (meta !! digest)) (wk_fs s1) with
          | (Ok _, fs') => (true, depsBuilt ++ [dest], set_fs fs' s1)
          | (Err _, fs') => (false, depsBuilt, set_fs fs' s1)
          end
        else (fetched, depsBuilt, s1) in
      if fetched then
        match extractTar dest (extract_dir digest) (wk_fs s2) with
        | (Err _, fs') => (paths, depsBuilt, set_fs fs' s2)
        | (Ok _, fs') =>
          (paths ++ [extract_dir digest], depsBuilt,
           set_packPath digest (extract_dir digest) (set_fs fs' s2))
        end
      else (paths, depsBuilt, s2)
  end.
(** The IDs are sorted in place, so the caller sees them in the new order. *)
Definition resolvePacks (ctx : Ctx) (ids : list ID) (actions : gmap string string) (meta : Meta)
    (s : WorkerState W) : list ID * list string * WorkerState W :=
  let ids := sortPacksByPriority ids meta in
  let '(paths, _, s') := foldl (resolve_step ctx actions meta) ([], [], s) ids in
  (ids, paths, s').

(** [fetchRuntime]: the directory of the runtime, or "". *)
Definition fetchRuntime (ctx : Ctx) (pythonVersion : string) (rtID : ID) (action : string)
    (meta : gmap string any) (s : WorkerState W) : string * WorkerState W :=
  let digest := id_Digest rtID in
  if decide (pythonVersion = "" ∨ digest = "") then ("", s)
  else if negb (fs_writable cas_dir) then ("", s)
  else
    let dest := dest_path digest ".tar" in
    let dir := extract_dir digest in
    let '(fetched, s1) := fetch_verified ctx rtID dest s in
    let '(done, s2) :=
      if fetched then
        match extractTar dest dir (wk_fs s1) with
        | (Ok _, fs') => (negb (isManifestOnly dir fs'), set_fs fs' s1)
        | (Err _, fs') => (false, set_fs fs' s1)
        end
      else (false, s1) in
    if done then (dir, s2)
    else if decide (action = "build") then
      let cmd := if decide (cf_RuntimeBuilderCmd cfg = "") then cf_DefaultRuntimeCmd cfg
                 else cf_RuntimeBuilderCmd cfg in
      match BuildRuntime dest digest pythonVersion cmd meta (wk_fs s2) with
      | (Err _, fs') => ("", set_fs fs' s2)
      | (Ok _, fs') =>
        match extractTar dest dir fs' with
        | (Err _, fs'') => ("", set_fs fs'' s2)
        | (Ok _, fs'') => (dir, set_fs fs'' s2)
        end
      end
    else ("", s2).

(** *** Jobs *)
Definition actions_of (ty : NodeType) (dag : list DAGNode) : gmap string string :=
  fill_map ((λ n, (id_Digest (dn_ID n), dn_Action n)) <$> filter (λ n, dn_Type n = ty) dag).
Definition meta_of_nodes (ty : NodeType) (dag : list DAGNode) : Meta :=
  fill_map ((λ n, (id_Digest (dn_ID n), dn_Metadata n)) <$> filter (λ n, dn_Type n = ty) dag).

(** A node of the plan answers a request. *)
Definition node_answers (req : Request) (node : FlatNode) : bool :=
  negb (bool_decide (fn_Name node = "")) && negb (bool_decide (fn_Version node = "")) &&
  equalsIgnoreCase (fn_Name node) (rq_Package req) &&
  (bool_decide (rq_Version req = "") || bool_decide (rq_Version req = "latest") ||
   bool_decide (rq_Version req = fn_Version node)).

Definition make_job (ctx : Ctx) (dag : list DAGNode) (req : Request) (node : FlatNode)
    (s : WorkerState W) : option (Job * WorkerState W) :=
  let '(wheelDigest, wheelAction, packIDs, runtimeID) := findWheelArtifact dag node req in
  ordered ← topoSortFromDag packIDs dag;
  let python := firstNonEmpty [rq_PythonVersion req; fn_PythonVersion node] in
  let '(sorted, paths, s1) :=
    resolvePacks ctx ordered (actions_of NodePack dag) (meta_of_nodes NodePack dag) s in
  let '(runtimePath, s2) :=
    fetchRuntime ctx python runtimeID
      (default "" (actions_of NodeRuntime dag !! id_Digest runtimeID))
      (default ∅ (meta_of_nodes NodeRuntime dag !! id_Digest runtimeID)) s1 in
  Some (mkJob (fn_Name node) (fn_Version node) python
          (firstNonEmpty [fn_PythonTag node; pyTagFromVersion python]) (fn_PlatformTag node)
          (mergeRecipes (rq_Recipes req) (recipeNames (fn_Recipes node)))
          wheelDigest wheelAction runtimePath paths (id_Digest runtimeID) (packDigests sorted)
          (findWheelSourceDigest dag wheelDigest) (findRepairToolVersion dag wheelDigest)
          (findRepairPolicyHash dag wheelDigest), s2).

(** [match]: for each request, each node that answers it. *)
Definition match_pairs (snap : Snapshot) (reqs : list Request) : list (Request * FlatNode) :=
  concat ((λ req, pair req <$> filter (λ n, node_answers req n = true) (sn_Plan snap)) <$> reqs).
Definition match_jobs (ctx : Ctx) (snap : Snapshot) (reqs : list Request) (s : WorkerState W)
    : option (list Job * WorkerState W) :=
  fold_opt (λ rn acc,
      '(job, s') ← make_job ctx (sn_DAG snap) rn.1 rn.2 acc.2; Some (acc.1 ++ [job], s'))
    (match_pairs snap reqs) ([], s).
End resolve.

(** ** Publishing what a build left ([uploadArtifacts])

    What is published depends on the files only, so it is computed first, as a
    list of calls in the order the code makes them, and then carried out; the
    errors of the calls are ignored by the code. *)
Inductive upload :=
  | PutObject (key data : string)
  | PushBlob (id : ID) (data : string).

(** [objectstore.Store]: [Put], whose error the worker ignores, and the [URL] method
    an implementation may have. *)
Record ObjectStore (W : Type) := mkObjectStore {
  os_Put : Ctx → string → string → W → W; os_URL : option (string → string) }.
Arguments mkObjectStore {W}. Arguments os_Put {W}. Arguments os_URL {W}.

(** The documents that stand for an artifact the worker does not have; [generated_at]
    is the time as RFC 3339. *)
Definition stubPayload (kind digest : string) (meta : gmap string string) : string :=
  Json.MarshalIndent (meta ∪ {["kind" := kind; "digest" := digest]}).
Definition writeStubArtifact `{Machine} (generated_at path kind digest : string) (meta : gmap string string)
    (fs : Files) : result Files :=
  write_file path
    (Json.MarshalIndent (meta ∪ {["kind" := kind; "digest" := digest; "generated_at" := generated_at]})) fs.

Section upload.
Context {W : Type} `{Sha256, Machine, Shell, HttpClient W}.
(** The object store, if there is one; the time a job's stub is written. *)
Context (store : option (ObjectStore W)) (generated_at : Job → string).
Context (cfg : Config) (repairCmd : string).

(** [os.ReadDir] of the output directory: the names of its files, sorted. *)
Definition dir_names (dir : string) (fs : Files) : list string :=
  if negb (fs_listable dir) then [] else sort_strings (filter (λ n, Contains n "/" = false)
    ((λ p, str_drop (String.length dir + 1) p) <$> files_in dir fs)).
Definition wheel_names (job : Job) (fs : Files) : list string :=
  filter (λ n, HasSuffix n ".whl" = true ∧ Contains (ToLower n) (ToLower (jb_Name job)) = true)
    (dir_names (cf_OutputDir cfg) fs).
Definition wheelFileForJob (job : Job) (fs : Files) : option string :=
  path_join (cf_OutputDir cfg) <$> head (wheel_names job fs).

Definition pushes (enabled : bool) : bool := enabled && negb (bool_decide (cf_CASRegistryURL cfg = "")).

Definition wheel_upload (job : Job) (fs : Files) (name : string) : list upload :=
  match read_file (path_join (cf_OutputDir cfg) name) fs with
  | Err _ => []
  | Ok data =>
    if negb (bool_decide (jb_WheelDigest job = "")) && negb (verifyBytesDigest data (jb_WheelDigest job))
    then []
    else PutObject (ToLower (jb_Name job) +:+ "/" +:+ jb_Version job +:+ "/" +:+ name) data ::
         if pushes (cf_CASPushEnabled cfg) && negb (bool_decide (jb_WheelDigest job = ""))
         then [PushBlob (mkID WheelType (jb_WheelDigest job)) data] else []
  end.
Definition wheel_uploads (job : Job) (fs : Files) : list upload :=
  concat (wheel_upload job fs <$> wheel_names job fs).

(** [runRepair]: the command must leave the repaired wheel. *)
Definition runRepair (wheelPath repairPath : string) (fs : Files) : Files :=
  (sh_run_env [("WHEEL_PATH", wheelPath); ("REPAIR_OUTPUT", repairPath);
               ("REPAIR_TOOL_VERSION", cf_RepairToolVersion cfg);
               ("REPAIR_POLICY_HASH", cf_RepairPolicyHash cfg)] repairCmd fs).2.
Definition repair_path (job : Job) : string :=
  path_join (cf_OutputDir cfg) (jb_Name job +:+ "-" +:+ jb_Version job +:+ "-repair.whl").
Definition repair_key (job : Job) : RepairKey :=
  mkRepairKey (jb_WheelDigest job) (cf_RepairToolVersion cfg) (cf_RepairPolicyHash cfg).
Definition repair_data (job : Job) (fs : Files) : string * Files :=
  let path := repair_path job in
  match read_file path fs with
  | Ok data => (data, fs)
  | Err _ =>
    let fs' := match wheelFileForJob job fs with
               | Some wheel => runRepair wheel path fs
               | None => match writeStubArtifact (generated_at job) path "repair" (jb_WheelDigest job)
                                 {["name" := jb_Name job; "version" := jb_Version job]} fs with
                         | Ok fs' => fs' | Err _ => fs end
               end in
    (if read_file path fs' is Ok data then data else "", fs')
  end.
Definition repair_uploads (job : Job) (fs : Files) : list upload * Files :=
  if pushes (cf_RepairPushEnabled cfg) && negb (bool_decide (jb_WheelDigest job = "")) then
    let '(data, fs') := repair_data job fs in
    let digest := RepairKey_Digest (repair_key job) in
    if decide (data = "") then ([], fs')
    else if negb (verifyBytesDigest data digest) then ([], fs')
    else ([PushBlob (mkID RepairType digest) data;
           PutObject (ToLower (jb_Name job) +:+ "/" +:+ jb_Version job +:+ "/repair-"
                      +:+ jb_WheelDigest job +:+ ".whl") data], fs')
  else ([], fs).

(** The paths of the packs are matched with their digests by index. *)
Definition pack_upload (job : Job) (fs : Files) (idx : nat) (d : string) : list upload :=
  let stub := [PushBlob (mkID PackType d) (stubPayload "pack" d ∅)] in
  match jb_PackPaths job !! idx with
  | None => stub
  | Some p =>
    if decide (p = "") then stub
    else match read_file p fs with
         | Err _ => stub
         | Ok data => if verifyBytesDigest data d then [PushBlob (mkID PackType d) data] else []
         end
  end.
Definition pack_uploads (job : Job) (fs : Files) : list upload :=
  if cf_PackPushEnabled cfg then concat (imap (pack_upload job fs) (jb_PackDigests job)) else [].
Definition runtime_uploads (job : Job) (fs : Files) : list upload :=
  let d := jb_RuntimeDigest job in
  if cf_RuntimePushEnabled cfg && negb (bool_decide (d = "")) then
    let stub := [PushBlob (mkID RuntimeType d) (stubPayload "runtime" d ∅)] in
    if decide (jb_RuntimePath job = "") then stub
    else match read_file (jb_RuntimePath job) fs with
         | Err _ => stub
         | Ok data => if verifyBytesDigest data d then [PushBlob (mkID RuntimeType d) data] else []
         end
  else [].

Definition uploads (job : Job) (fs : Files) : list upload * Files :=
  if negb (fs_listable (cf_OutputDir cfg)) then ([], fs)
  else
    let wheels := wheel_uploads job fs in
    let '(repairs, fs') := repair_uploads job fs in
    (wheels ++ repairs ++ pack_uploads job fs' ++ runtime_uploads job fs', fs').

Definition perform (os : ObjectStore W) (ctx : Ctx) (u : upload) (w : W) : W :=
  match u with
  | PutObject key data => os_Put os ctx key data w
  | PushBlob id data => (Push (CASPusher cfg) ctx id data "application/octet-stream" w).2
  end.
Definition uploadArtifacts (ctx : Ctx) (job : Job) (s : WorkerState W) : WorkerState W :=
  match store with
  | None => s
  | Some os =>
    let '(us, fs') := uploads job (wk_fs s) in
    mkWorkerState fs' (foldl (λ w u, perform os ctx u w) (wk_world s) us) (wk_packPath s)
  end.
End upload.

(** ** What the machine's operations promise *)
Lemma has_prefix_app a b : HasPrefix (a +:+ b) a = true.
Proof. unfold HasPrefix. induction a as [|c a IH]; str_norm; [by destruct b|]. simpl. by destruct (ascii_dec c c). Qed.

Section builder_facts.
Context `{Machine, Tar, Shell, ManifestJson}.

(** A built pack holds nothing of what its recipe produced: whatever the
    command does, the archive left by a successful [BuildPack] is the manifest and
    one placeholder; and when the command writes in its output directory only, no
    other file of the machine has changed either, so the output is lost. *)
Theorem BuildPack_discards_output path digest cmd meta fs fs' :
  BuildPack path digest cmd meta fs = (Ok tt, fs') →
  (∃ data, fs' !! path = Some data ∧
    tar_read data = ([("manifest.json", manifest_json "pack" digest "" meta);
                      ("usr/local/.keep", "keep")], None)) ∧
  ((∀ tmp p, mkdir_temp (path_dir path) fs = Ok tmp → in_dir tmp p = false → p ≠ tmp →
      (sh_run ("PACK_OUTPUT=" +:+ shellQuote tmp +:+ " " +:+ cmd) fs).2 !! p = fs !! p) →
   ∀ p, p ≠ path → (∀ tmp, mkdir_temp (path_dir path) fs = Ok tmp → in_dir tmp p = false ∧ p ≠ tmp) →
     fs' !! p = fs !! p).
Proof using Type.
  unfold BuildPack, build_artifact. intros Hb.
  destruct (runCommand _ _ _ fs) as [[[]|e] fs1] eqn:Er; [|done].
  unfold writeTar, write_file in Hb. destruct (fs_writable path); [|done]. simplify_eq. split.
  - eexists. split; [apply lookup_insert_eq|]. apply tar_read_write.
  - intros Hconf p Hp Hout. rewrite lookup_insert_ne by done.
    unfold runCommand in Er. case_decide; [by simplify_eq|].
    destruct (mkdir_temp _ fs) as [tmp|e] eqn:Et; [|done].
    destruct (sh_run _ fs) as [ok fsx] eqn:Es. simplify_eq.
    destruct (Hout tmp eq_refl) as [Hin Hne]. unfold remove_all.
    pose proof (Hconf tmp p eq_refl Hin Hne) as Hsame. change ("PACK_OUTPUT" +:+ "=" +:+ ?x) with
      ("PACK_OUTPUT=" +:+ x) in Es. rewrite Es in Hsame. simpl in Hsame.
    rewrite <-Hsame. destruct (fsx !! p) as [d|] eqn:Ed.
    + apply map_lookup_filter_Some. done.
    + apply map_lookup_filter_None. by left.
Qed.
End builder_facts.

Section resolve_facts.
Context {W : Type} `{GoRuntime, Sha256, Machine, Tar, Shell, ManifestJson, HttpClient W}.
Context (cfg : Config).

(** [fetchWheel] succeeds only with a file whose content has the digest of
    the job's wheel, when a registry is configured and the digest is a SHA-256. *)
Theorem fetchWheel_verified ctx job (s s' : WorkerState W) :
  fetchWheel cfg ctx job s = (Ok tt, s') →
  jb_WheelDigest job ≠ "" → cf_CASRegistryURL cfg ≠ "" → HasPrefix (jb_WheelDigest job) "sha256:" = true →
  ∃ data, wk_fs s' !! dest_path cfg (jb_WheelDigest job) ".bin" = Some data ∧
    content_digest data = jb_WheelDigest job.
Proof using Type.
  unfold fetchWheel. intros Hf Hd Hu Hp. rewrite decide_False in Hf by tauto.
  destruct (negb _); [done|].
  destruct (Fetch _ _ _ _ _ _) as [[[u|e] w'] fs']; [|done].
  set (dest := dest_path cfg (jb_WheelDigest job) ".bin") in *.
  destruct (fs' !! dest) as [data|] eqn:Ed; [|done].
  unfold verifyFileDigest, read_file in Hf. rewrite Ed, Hp in Hf.
  rewrite bool_decide_false in Hf by done. simpl in Hf.
  unfold verifyBytesDigest in Hf. rewrite Hp, bool_decide_false in Hf by done. simpl in Hf.
  destruct (bool_decide _) eqn:Eb; [|done]. simplify_eq. simpl. exists data.
  split; [done|]. by apply bool_decide_eq_true in Eb.
Qed.

(** The packs extracted so far are in their own directories. *)
Definition packPath_ok (s : WorkerState W) : Prop :=
  map_Forall (λ d p, p = extract_dir cfg d) (wk_packPath s).

Lemma fetch_verified_packPath ctx id dest (s : WorkerState W) :
  wk_packPath (fetch_verified cfg ctx id dest s).2 = wk_packPath s.
Proof using Type.
  unfold fetch_verified. case_decide; [done|]. destruct (Fetch _ _ _ _ _ _) as [[r w'] fs'].
  by repeat case_match.
Qed.

Lemma resolve_step_spec ctx actions meta paths depsBuilt (s : WorkerState W) id :
  packPath_ok s →
  let '(paths', _, s') := resolve_step cfg ctx actions meta (paths, depsBuilt, s) id in
  packPath_ok s' ∧
  (paths' = paths ∨ id_Type id = PackType ∧ paths' = paths ++ [extract_dir cfg (id_Digest id)]).
Proof using Type.
  intros Hok. unfold resolve_step. case_decide as Hty; [by split; [|left]|].
  destruct (wk_packPath s !! id_Digest id) as [p|] eqn:Ep.
  { split; [done|right]. by rewrite (Hok _ _ Ep). }
  destruct (negb _); [by split; [|left]|].
  pose proof (fetch_verified_packPath ctx id (dest_path cfg (id_Digest id) ".tar") s) as Hpp.
  destruct (fetch_verified cfg ctx id _ s) as [fetched s1]. simpl in Hpp.
  assert (Hok1 : packPath_ok s1) by (unfold packPath_ok; by rewrite Hpp).
  match goal with |- context [if ?c then match BuildPack ?a ?b ?c' ?d ?e with _ => _ end else _] =>
    destruct c; [destruct (BuildPack a b c' d e) as [[[]|err] fsb]|] end;
    try (destruct fetched); simpl; try (by split; [|left]);
    destruct (extractTar _ _ _) as [[[]|err'] fse]; simpl; try (by split; [|left]);
    (split; [|by right]); unfold packPath_ok; simpl; by apply map_Forall_insert_2.
Qed.

(** [resolvePacks] returns the directories of the packs it could prepare, in
    the order it visited them and each in its own directory; a pack it could not
    prepare leaves no entry, so the list may be shorter than the list of packs. *)
Theorem resolvePacks_paths ctx ids actions meta (s : WorkerState W) :
  packPath_ok s →
  let '(sorted, paths, s') := resolvePacks cfg ctx ids actions meta s in
  packPath_ok s' ∧ sorted ≡ₚ ids ∧
  paths `sublist_of` (extract_dir cfg ∘ id_Digest <$> filter (λ i, id_Type i = PackType) sorted).
Proof using Type.
  intros Hok. unfold resolvePacks.
  enough (∀ l paths deps s, packPath_ok s →
    let '(paths', _, s') := foldl (resolve_step cfg ctx actions meta) (paths, deps, s) l in
    packPath_ok s' ∧ ∃ more, paths' = paths ++ more ∧
      more `sublist_of` (extract_dir cfg ∘ id_Digest <$> filter (λ i, id_Type i = PackType) l)) as Hgen.
  { specialize (Hgen (sortPacksByPriority ids meta) [] [] s Hok).
    destruct (foldl _ _ _) as [[paths deps] s']. destruct Hgen as (? & more & -> & ?).
    split; [done|]. split; [apply sort_slice_perm|done]. }
  clear s Hok. induction l as [|id l IH]; intros paths deps s Hok; cbn [foldl].
  { split; [done|]. exists []. by rewrite app_nil_r. }
  pose proof (resolve_step_spec ctx actions meta paths deps s id Hok) as Hstep.
  destruct (resolve_step cfg ctx actions meta (paths, deps, s) id) as [[p1 d1] s1].
  destruct Hstep as [Hok1 Hp]. specialize (IH p1 d1 s1 Hok1).
  destruct (foldl _ _ l) as [[p2 d2] s2]. destruct IH as (Hok2 & more & -> & Hsub).
  split; [done|]. rewrite filter_cons. destruct Hp as [->|[Hty ->]].
  - exists more. split; [done|]. case_decide; [|done]. simpl. by apply sublist_cons.
  - rewrite decide_True by done. exists (extract_dir cfg (id_Digest id) :: more).
    split; [by rewrite <-(assoc_L (++))|]. simpl. by apply sublist_skip.
Qed.

Lemma make_job_total ctx dag req node (s : WorkerState W) :
  ∃ job s', make_job cfg ctx dag req node s = Some (job, s') ∧
    jb_Name job = fn_Name node ∧ jb_Version job = fn_Version node ∧
    jb_PlatformTag job = fn_PlatformTag node ∧
    jb_Recipes job = mergeRecipes (rq_Recipes req) (recipeNames (fn_Recipes node)).
Proof using Type.
  unfold make_job. destruct (findWheelArtifact dag node req) as [[[wd wa] pids] rt].
  destruct (topoSortFromDag_total pids dag) as [ordered ->]. simpl.
  destruct (resolvePacks _ _ _ _ _ _) as [[sorted paths] s1].
  destruct (fetchRuntime _ _ _ _ _ _ _) as [rp s2]. do 2 eexists. split; [done|]. done.
Qed.

Lemma match_jobs_total ctx snap reqs (s : WorkerState W) : is_Some (match_jobs cfg ctx snap reqs s).
Proof using Type.
  unfold match_jobs. apply fold_opt_total. intros rn [acc s0] _. simpl.
  destruct (make_job_total ctx (sn_DAG snap) rn.1 rn.2 s0) as (job & s1 & -> & _). simpl. eauto.
Qed.

(** Matching makes exactly one job for every pair of a request and a named
    plan node it asks for, in order, with the node's name and version and both
    sources of recipes, whatever the registry, the shell and the files do. *)
Theorem match_jobs_spec ctx snap reqs (s : WorkerState W) :
  ∃ jobs s', match_jobs cfg ctx snap reqs s = Some (jobs, s') ∧
    ((λ j, (jb_Name j, jb_Version j, jb_PlatformTag j, jb_Recipes j)) <$> jobs) =
    ((λ rn : Request * FlatNode, (fn_Name rn.2, fn_Version rn.2, fn_PlatformTag rn.2,
        mergeRecipes (rq_Recipes rn.1) (recipeNames (fn_Recipes rn.2)))) <$> match_pairs snap reqs) ∧
    (∀ req node, (req, node) ∈ match_pairs snap reqs ↔
      req ∈ reqs ∧ node ∈ sn_Plan snap ∧ node_answers req node = true).
Proof using Type.
  assert (Hpairs : ∀ req node, (req, node) ∈ match_pairs snap reqs ↔
      req ∈ reqs ∧ node ∈ sn_Plan snap ∧ node_answers req node = true).
  { intros req node. unfold match_pairs. rewrite list_elem_of_In, in_concat.
    setoid_rewrite <-list_elem_of_In. setoid_rewrite list_elem_of_fmap. split.
    - intros (x & (r & -> & Hr) & (n & [= -> ->] & Hn%list_elem_of_filter)%list_elem_of_fmap). tauto.
    - intros (Hr & Hn & Ha). exists (pair req <$> filter (λ n, node_answers req n = true) (sn_Plan snap)).
      split; [eauto|]. apply list_elem_of_fmap. exists node. split; [done|].
      by apply list_elem_of_filter. }
  unfold match_jobs. generalize (match_pairs snap reqs) at 1 2 as pairs. intros pairs.
  enough (∀ acc s, ∃ jobs s', fold_opt (λ rn a,
      '(job, s'') ← make_job cfg ctx (sn_DAG snap) rn.1 rn.2 a.2; Some (a.1 ++ [job], s''))
      pairs (acc, s) = Some (acc ++ jobs, s') ∧
    ((λ j, (jb_Name j, jb_Version j, jb_PlatformTag j, jb_Recipes j)) <$> jobs) =
    ((λ rn : Request * FlatNode, (fn_Name rn.2, fn_Version rn.2, fn_PlatformTag rn.2,
        mergeRecipes (rq_Recipes rn.1) (recipeNames (fn_Recipes rn.2)))) <$> pairs)) as Hgen.
  { destruct (Hgen [] s) as (jobs & s' & ? & ?). exists jobs, s'. split; [done|]. split; [done|exact Hpairs]. }
  clear s Hpairs. induction pairs as [|[req node] pairs IH]; intros acc s; simpl.
  { exists [], s. by rewrite app_nil_r. }
  destruct (make_job_total ctx (sn_DAG snap) req node s) as (job & s1 & -> & Hn & Hv & Hp & Hr). simpl.
  destruct (IH (acc ++ [job]) s1) as (jobs & s2 & -> & Heq). exists (job :: jobs), s2.
  split; [by rewrite <-(assoc_L (++))|]. rewrite !fmap_cons, Hn, Hv, Hp, Hr. by f_equal.
Qed.
End resolve_facts.

Section upload_facts.
Context `{Sha256, Machine, Shell}.
Context (generated_at : Job → string).
Context (cfg : Config) (repairCmd : string).

Lemma wheel_uploads_verified job fs u :
  u ∈ wheel_uploads cfg job fs →
  match u with
  | PushBlob id data => id = mkID WheelType (jb_WheelDigest job) ∧
                        verifyBytesDigest data (jb_WheelDigest job) = true
  | PutObject _ data => verifyBytesDigest data (jb_WheelDigest job) = true
  end.
Proof using Type.
  unfold wheel_uploads. rewrite list_elem_of_In, in_concat.
  intros (l & (name & -> & _)%list_elem_of_In%list_elem_of_fmap & Hu%list_elem_of_In).
  unfold wheel_upload in Hu.
  destruct (read_file _ fs) as [data|e]; [|by apply not_elem_of_nil in Hu].
  assert (Hv : verifyBytesDigest data (jb_WheelDigest job) = true ∨
    negb (bool_decide (jb_WheelDigest job = "")) && negb (verifyBytesDigest data (jb_WheelDigest job)) = true).
  { destruct (verifyBytesDigest data _) eqn:E; [by left|right]. case_bool_decide as Hd; [|done].
    unfold verifyBytesDigest in E. by rewrite Hd in E. }
  destruct Hv as [Hv|Hv]; [|rewrite Hv in Hu; by apply not_elem_of_nil in Hu].
  rewrite Hv, andb_false_r in Hu. apply elem_of_cons in Hu as [->|Hu]; [done|].
  destruct (_ && _); [|by apply not_elem_of_nil in Hu].
  by apply list_elem_of_singleton in Hu as ->.
Qed.

Lemma repair_uploads_verified job fs u :
  u ∈ (repair_uploads generated_at cfg repairCmd job fs).1 →
  let digest := RepairKey_Digest (repair_key cfg job) in
  match u with
  | PushBlob id data => id = mkID RepairType digest ∧ verifyBytesDigest data digest = true
  | PutObject _ data => verifyBytesDigest data digest = true
  end.
Proof using Type.
  unfold repair_uploads. destruct (_ && _); [|by intros ?%not_elem_of_nil].
  destruct (repair_data _ _ _ _ _) as [data fs']. case_decide; [by intros ?%not_elem_of_nil|].
  destruct (verifyBytesDigest data _) eqn:E; simpl; [|by intros ?%not_elem_of_nil].
  intros [->|[->|?%not_elem_of_nil]%elem_of_cons]%elem_of_cons; done.
Qed.

Lemma pack_upload_elem job fs idx d u :
  u ∈ pack_upload job fs idx d →
  ∃ data, u = PushBlob (mkID PackType d) data ∧
    (verifyBytesDigest data d = true ∨ data = stubPayload "pack" d ∅).
Proof using Type.
  unfold pack_upload. intros Hu.
  repeat case_match; try (by apply not_elem_of_nil in Hu);
    apply list_elem_of_singleton in Hu as ->; eauto.
Qed.
Lemma runtime_upload_elem job fs u :
  u ∈ runtime_uploads cfg job fs →
  let d := jb_RuntimeDigest job in
  ∃ data, u = PushBlob (mkID RuntimeType d) data ∧
    (verifyBytesDigest data d = true ∨ data = stubPayload "runtime" d ∅).
Proof using Type.
  unfold runtime_uploads. intros Hu. cbv zeta in *.
  destruct (_ && _); [|by apply not_elem_of_nil in Hu].
  repeat case_match; try (by apply not_elem_of_nil in Hu);
    apply list_elem_of_singleton in Hu as ->; eauto.
Qed.


(** Packs are published as stubs: the paths [resolvePacks] gives a job are
    directories, which cannot be read as files, so with pack pushing enabled every
    pack digest of the job gets the stub document as its content. *)
Theorem pack_uploads_are_stubs job fs :
  cf_PackPushEnabled cfg = true → (∀ p, p ∈ jb_PackPaths job → fs !! p = None) →
  pack_uploads cfg job fs =
    ((λ d, PushBlob (mkID PackType d) (stubPayload "pack" d ∅)) <$> jb_PackDigests job).
Proof using Type.
  intros Hen Hdir. unfold pack_uploads. rewrite Hen.
  assert (Hstep : ∀ idx d, pack_upload job fs idx d =
    [PushBlob (mkID PackType d) (stubPayload "pack" d ∅)]).
  { intros idx d. unfold pack_upload. destruct (jb_PackPaths job !! idx) as [p|] eqn:Ep; [|done].
    case_decide; [done|]. unfold read_file. by rewrite (Hdir p) by by eapply list_elem_of_lookup_2. }
  rewrite (imap_ext _ (const (λ d, [PushBlob (mkID PackType d) (stubPayload "pack" d ∅)]))) by (intros; apply Hstep).
  rewrite imap_const. induction (jb_PackDigests job) as [|d ds IH]; simpl; [done|]. by f_equal.
Qed.
End upload_facts.

(** ** Witnesses *)
#[export, refine] Instance demo_tar : Tar := {|
  tar_write l := pos_digits (encode l);
  tar_read s := (default [] (decode (digits_pos s)), None) |}.
Proof. intros l. by rewrite digits_pos_digits, decode_encode. Defined.
(** A shell whose commands succeed and leave one file in the temporary directory. *)
Definition demo_shell : Shell := {|
  sh_run _ fs := (true, <["/cas/tmp/out" := "built"]> fs);
  sh_run_env _ _ fs := (true, fs);
  mkdir_temp _ _ := Ok "/cas/tmp" |}.
Definition demo_manifest : ManifestJson := {| manifest_json kind d _ _ := kind +:+ d |}.
Definition demo_registry : HttpClient (list HttpReq) := {|
  url_ok _ := true; do_req r w := (Ok (mkResp 200 "" "content"), w ++ [r]) |}.
Definition demo_worker_cfg : Config :=
  mkConfig "http://cp" "" "" 10 2 true 3 false false "low" 60 "/output" "/cache" "/cas" "http://zot" ""
    "" "" false false true false "" "" "" "" "" "" "" "3.11" "linux_s390x" 2.
Definition demo_wheel_job : Job :=
  mkJob "six" "1.16" "3.11" "cp311" "any" [] "sha256:content" "reuse" "" [] "" ["d1"] "" "" "".

Lemma BuildPack_discards_output_witness :
  ∃ data, (@BuildPack sample_machine demo_tar demo_shell demo_manifest "/cas/p.tar" "d" "make" ∅ ∅).2
            !! "/cas/p.tar" = Some data ∧
    @tar_read demo_tar data = ([("manifest.json", "packd"); ("usr/local/.keep", "keep")], None).
Proof.
  apply (@BuildPack_discards_output sample_machine demo_tar demo_shell demo_manifest "/cas/p.tar" "d"
    "make" ∅ ∅). reflexivity.
Defined.

Lemma fetchWheel_verified_witness :
  let s := mkWorkerState ∅ [] ∅ in
  ∃ data, wk_fs (@fetchWheel _ demo_sha sample_machine demo_registry demo_worker_cfg live demo_wheel_job s).2
            !! "/cas/sha256_content.bin" = Some data ∧
    @content_digest demo_sha data = "sha256:content".
Proof.
  apply (@fetchWheel_verified _ demo_sha sample_machine demo_registry demo_worker_cfg live demo_wheel_job
    (mkWorkerState ∅ [] ∅)); reflexivity || discriminate.
Defined.

Lemma resolvePacks_paths_witness :
  let '(sorted, paths, s') := @resolvePacks _ reference_runtime demo_sha sample_machine demo_tar demo_shell
    demo_manifest demo_registry demo_worker_cfg live [mkID PackType "d1"] {["d1" := "build"]} ∅
    (mkWorkerState ∅ [] ∅) in
  packPath_ok demo_worker_cfg s' ∧ sorted ≡ₚ [mkID PackType "d1"] ∧
  paths `sublist_of` (extract_dir demo_worker_cfg ∘ id_Digest <$> filter (λ i, id_Type i = PackType) sorted).
Proof.
  apply (@resolvePacks_paths _ reference_runtime demo_sha sample_machine demo_tar demo_shell
    demo_manifest demo_registry demo_worker_cfg live [mkID PackType "d1"] {["d1" := "build"]} ∅
    (mkWorkerState ∅ [] ∅)).
  apply map_Forall_empty.
Defined.


Lemma pack_uploads_are_stubs_witness :
  @pack_uploads demo_sha demo_worker_cfg demo_wheel_job ∅ =
    [PushBlob (mkID PackType "d1") (stubPayload "pack" "d1" ∅)].
Proof.
  apply (@pack_uploads_are_stubs demo_sha demo_worker_cfg demo_wheel_job ∅);
    [reflexivity|]. intros p Hp. apply lookup_empty.
Defined.
