(* ===== verification/Drain.v ===== *)
(** The pool of goroutines of [Worker.Drain] ([go-worker/internal/service/worker.go]):
    each job is run by a goroutine, which fetches the wheel if it is to be reused,
    reports that it is building, runs the build and stores the result.

    The pool is a machine whose threads take one step at a time ([step_task]); a
    run follows a schedule, any list of thread numbers, so a theorem about all
    schedules covers every interleaving of the goroutines.  The context of
    [errgroup.WithContext] is part of its state: the first error cancels it, and
    so does [Wait] on its return. *)
From S2P Require Import Prelude.
From S2P Require Import GoStr.
From S2P Require Import Artifact.
From S2P Require Import Http.
From S2P Require Import Cas.
From S2P Require Import Parse.
From S2P Require Import PlanTypes.
From S2P Require Import Planner.
From S2P Require Import Hints.
From S2P Require Import Queue.
From S2P Require Import Match.
From S2P Require Import Config.
From S2P Require Import AutoFix.
From S2P Require Import Resolve.
From Stdlib Require Import Ascii.
Local Open Scope string_scope.
Local Open Scope list_scope.
Local Open Scope nat_scope.

(** [runner.Runner]: duration (nanoseconds), log, error. *)
Class Runner := { run_job : Ctx → Job → Files → (Z * string * option string) * Files }.

(** [result]; the zero value stands where a goroutine stored none. *)
Record RunResult := mkRunResult {
  rr_job : Job; rr_duration : Z; rr_log : string; rr_err : option string;
  rr_repair : option ID; rr_attempt : Z }.
Definition zero_job : Job := mkJob "" "" "" "" "" [] "" "" "" [] "" [] "" "" "".
Definition zero_result : RunResult := mkRunResult zero_job 0 "" None None 0.

(** [reqAttempts]: the highest attempt number of each package and version. *)
Definition attempt_step (m : gmap string Z) (r : Request) : gmap string Z :=
  let key := queueKey (rq_Package r) (rq_Version r) in
  if decide (default 0 (m !! key) < rq_Attempts r)%Z then <[key := rq_Attempts r]> m else m.
Definition reqAttempts (reqs : list Request) : gmap string Z := foldl attempt_step ∅ reqs.
Definition job_attempt (m : gmap string Z) (job : Job) : Z :=
  default 0%Z (m !! queueKey (jb_Name job) (jb_Version job)).

(** What [reportBuildStatus] posts. *)
Record StatusReport := mkStatusReport {
  sr_package : string; sr_version : string; sr_status : string; sr_error : option string;
  sr_summary : string; sr_attempts : Z; sr_backoff : Z; sr_recipes : list string;
  sr_hint_ids : list string }.

(** Where a goroutine stands. *)
Inductive pc := Idle | Started | Ready | Building | Finished | Failed.
#[export] Instance pc_eq_dec : EqDecision pc.
Proof. solve_decision. Defined.
Definition active (p : pc) : bool := bool_decide (p ∈ [Started; Ready; Building]).
Definition ended (p : pc) : bool := bool_decide (p ∈ [Finished; Failed]).

Record Pool (W : Type) := mkPool {
  pl_pcs : list pc; pl_results : list RunResult; pl_ctx : Ctx; pl_s : WorkerState W }.
Arguments mkPool {W}. Arguments pl_pcs {W}. Arguments pl_results {W}.
Arguments pl_ctx {W}. Arguments pl_s {W}.

Definition set_world {W} (w : W) (s : WorkerState W) : WorkerState W :=
  mkWorkerState (wk_fs s) w (wk_packPath s).

Section pool.
Context {W : Type} `{Sha256, Machine, HttpClient W, Runner}.
Context (status_json : StatusReport → string) (cfg : Config).

Definition reportBuildStatus (ctx : Ctx) (r : StatusReport) (w : W) : W :=
  if decide (cf_ControlPlaneURL cfg = "") then w
  else (http_call ctx "POST" (TrimRight (cf_ControlPlaneURL cfg) "/"%char +:+ "/api/builds/status")
          (json_headers cfg) (status_json r) w).2.

Context (attempts : gmap string Z) (limit : Z) (jobs : list Job).

(** The steps of goroutine [i]: [g.Go] starts them in order while the pool has
    room; then the wheel is fetched if it is to be reused, "building" is
    reported, and the job is run. *)
Definition start_task (i : nat) (p : Pool W) : option (Pool W) :=
  if forallb (λ q, negb (bool_decide (q = Idle))) (take i (pl_pcs p)) &&
     (bool_decide (limit <= 0)%Z || bool_decide (Z.of_nat (length (filter (λ q, active q = true) (pl_pcs p))) < limit)%Z)
  then Some (mkPool (<[i := Started]> (pl_pcs p)) (pl_results p) (pl_ctx p) (pl_s p)) else None.
Definition needs_fetch (job : Job) : bool :=
  bool_decide (jb_WheelAction job = "reuse") && negb (bool_decide (jb_WheelDigest job = "")).
Definition fetch_task (i : nat) (job : Job) (p : Pool W) : Pool W :=
  if needs_fetch job then
    match fetchWheel cfg (pl_ctx p) job (pl_s p) with
    | (Ok _, s') => mkPool (<[i := Ready]> (pl_pcs p)) (pl_results p) (pl_ctx p) s'
    | (Err _, s') => mkPool (<[i := Failed]> (pl_pcs p)) (pl_results p) cancelled s'
    end
  else mkPool (<[i := Ready]> (pl_pcs p)) (pl_results p) (pl_ctx p) (pl_s p).
Definition building_report (job : Job) : StatusReport :=
  mkStatusReport (jb_Name job) (jb_Version job) "building" None "" (job_attempt attempts job) 0
    (jb_Recipes job) [].
Definition report_task (i : nat) (job : Job) (p : Pool W) : Pool W :=
  mkPool (<[i := Building]> (pl_pcs p)) (pl_results p) (pl_ctx p)
    (set_world (reportBuildStatus (pl_ctx p) (building_report job) (wk_world (pl_s p))) (pl_s p)).
Definition run_result (job : Job) (out : Z * string * option string) : RunResult :=
  let '(dur, log, err) := out in
  let log := match err with
             | Some e => if decide (TrimSpace log = "") then "error: " +:+ e else log
             | None => log
             end in
  let repair := match err with
                | None => if cf_RepairPushEnabled cfg && negb (bool_decide (jb_WheelDigest job = "")) &&
                             negb (bool_decide (cf_CASRegistryURL cfg = ""))
                          then Some (mkID RepairType (RepairKey_Digest (mkRepairKey (jb_WheelDigest job) "" "")))
                          else None
                | Some _ => None
                end in
  mkRunResult job dur log err repair (job_attempt attempts job).
Definition run_task (i : nat) (job : Job) (p : Pool W) : Pool W :=
  let '(out, fs') := run_job (pl_ctx p) job (wk_fs (pl_s p)) in
  mkPool (<[i := Finished]> (pl_pcs p)) (<[i := run_result job out]> (pl_results p)) (pl_ctx p)
    (set_fs fs' (pl_s p)).

Definition step_task (i : nat) (p : Pool W) : option (Pool W) :=
  job ← jobs !! i; q ← pl_pcs p !! i;
  match q with
  | Idle => start_task i p
  | Started => Some (fetch_task i job p)
  | Ready => Some (report_task i job p)
  | Building => Some (run_task i job p)
  | Finished | Failed => None
  end.

Definition initial_pool (ctx : Ctx) (s : WorkerState W) : Pool W :=
  mkPool (replicate (length jobs) Idle) (replicate (length jobs) zero_result) ctx s.
(** A schedule; a thread that cannot step is skipped. *)
Definition run_pool (sched : list nat) (p : Pool W) : Pool W :=
  foldl (λ p i, default p (step_task i p)) p sched.
Definition pool_done (p : Pool W) : Prop := Forall (λ q, ended q = true) (pl_pcs p).
#[export] Instance pool_done_dec p : Decision (pool_done p).
Proof using Type. unfold pool_done. apply _. Defined.

(** ** Facts about every schedule *)

(** How far the goroutines are from their ends. *)
Definition remaining (q : pc) : nat :=
  match q with Idle => 4 | Started => 3 | Ready => 2 | Building => 1 | Finished | Failed => 0 end.
Definition work_left (p : Pool W) : nat := sum_list (remaining <$> pl_pcs p).

(** The state of a goroutine and what is stored for it. *)
Definition stored_ok (q : pc) (job : Job) (r : RunResult) : Prop :=
  match q with
  | Finished => ∃ ctx fs, r = run_result job (run_job ctx job fs).1
  | Failed => r = zero_result ∧ needs_fetch job = true
  | _ => r = zero_result
  end.
Record pool_inv (p : Pool W) : Prop := {
  pv_pcs : length (pl_pcs p) = length jobs;
  pv_results : length (pl_results p) = length jobs;
  pv_stored : ∀ i q job r, pl_pcs p !! i = Some q → jobs !! i = Some job →
    pl_results p !! i = Some r → stored_ok q job r;
  pv_failed : Failed ∈ pl_pcs p → pl_ctx p = cancelled }.

Lemma initial_pool_inv ctx s : pool_inv (initial_pool ctx s).
Proof using Type.
  split; simpl; rewrite ?length_replicate; try done.
  - intros i q job r Hq Hj Hr. apply lookup_replicate in Hq as [-> _], Hr as [-> _]. done.
  - intros Hf. by apply elem_of_replicate in Hf as [? _].
Qed.

(** One goroutine moves on, and stores nothing or its result. *)
Lemma pool_inv_step p i job q q' rs ctx s :
  pool_inv p → jobs !! i = Some job → pl_pcs p !! i = Some q → q ≠ Finished →
  (rs = pl_results p ∧ q' ≠ Finished ∧ (q' = Failed → needs_fetch job = true) ∧ q ≠ Failed ∨
   ∃ r, rs = <[i := r]> (pl_results p) ∧ q' = Finished ∧ stored_ok Finished job r) →
  (q' = Failed ∧ ctx = cancelled ∨ q' ≠ Failed ∧ ctx = pl_ctx p) →
  pool_inv (mkPool (<[i := q']> (pl_pcs p)) rs ctx s).
Proof using Type.
  intros [Hp Hr Hs Hf] Hj Hq Hne Hrs Hctx. split; simpl.
  - by rewrite length_insert.
  - destruct Hrs as [(-> & _)|(r & -> & _)]; by rewrite ?length_insert.
  - intros k qk jk rk Hqk Hjk Hrk. destruct (decide (k = i)) as [->|Hki].
    + rewrite list_lookup_insert_eq in Hqk by (apply lookup_lt_Some in Hq; done).
      rewrite Hj in Hjk. simplify_eq. destruct Hrs as [(-> & Hq' & Hneed & Hnf)|(r & -> & -> & Hst)].
      * pose proof (Hs i q jk rk Hq Hj Hrk) as Hold. destruct q; try done;
          unfold stored_ok in *; destruct qk; naive_solver.
      * rewrite list_lookup_insert_eq in Hrk by (rewrite Hr; apply lookup_lt_Some in Hj; done).
        by simplify_eq.
    + rewrite list_lookup_insert_ne in Hqk by done.
      destruct Hrs as [(-> & _)|(r & -> & _)]; [by eapply Hs|].
      rewrite list_lookup_insert_ne in Hrk by done. by eapply Hs.
  - intros Hin. destruct Hctx as [[_ ->]|[Hnf ->]]; [done|]. apply Hf.
    apply list_elem_of_lookup in Hin as [k Hk]. destruct (decide (k = i)) as [->|Hki].
    + rewrite list_lookup_insert_eq in Hk by (apply lookup_lt_Some in Hq; done). by simplify_eq.
    + rewrite list_lookup_insert_ne in Hk by done. by eapply list_elem_of_lookup_2.
Qed.

Lemma step_task_inv i p p' : pool_inv p → step_task i p = Some p' → pool_inv p'.
Proof using Type.
  intros Hinv. unfold step_task. destruct (jobs !! i) as [job|] eqn:Hj; [|done].
  destruct (pl_pcs p !! i) as [q|] eqn:Hq; [|done]. simpl. destruct q; intros Hs; simplify_eq.
  - unfold start_task in Hs. destruct (_ && _); simplify_eq.
    eapply pool_inv_step; [done..|by left|by right].
  - unfold fetch_task. destruct (needs_fetch job) eqn:Hneed.
    + destruct (fetchWheel _ _ _ _) as [[u|e] s']; eapply pool_inv_step;
        first [done|by left|by right].
    + eapply pool_inv_step; [done..|by left|by right].
  - eapply pool_inv_step; [done..|by left|by right].
  - unfold run_task. destruct (run_job _ _ _) as [out fs'] eqn:Hrun.
    eapply pool_inv_step; [done..| |by right]. right. eexists. split; [done|]. split; [done|].
    exists (pl_ctx p), (wk_fs (pl_s p)). by rewrite Hrun.
Qed.

Lemma run_pool_inv sched p : pool_inv p → pool_inv (run_pool sched p).
Proof using Type.
  unfold run_pool. revert p. induction sched as [|i sched IH]; intros p Hp; simpl; [done|].
  apply IH. destruct (step_task i p) eqn:E; [by eapply step_task_inv|done].
Qed.
(** Every step takes a goroutine closer to its end. *)
Lemma remaining_insert (l : list pc) i q q' :
  l !! i = Some q → remaining q' < remaining q →
  sum_list (remaining <$> <[i := q']> l) < sum_list (remaining <$> l).
Proof using Type.
  intros Hi Hlt. revert i Hi. induction l as [|x l IH]; intros [|i] Hi; simplify_eq/=; [lia|].
  specialize (IH i Hi). lia.
Qed.

Lemma step_decreases i p p' : step_task i p = Some p' → work_left p' < work_left p.
Proof using Type.
  unfold step_task, work_left. destruct (jobs !! i) as [job|]; [|done].
  destruct (pl_pcs p !! i) as [q|] eqn:Hq; [|done]. simpl. destruct q; intros Hs; simplify_eq.
  - unfold start_task in Hs. destruct (_ && _); simplify_eq. eapply remaining_insert; [done|simpl; lia].
  - unfold fetch_task. repeat case_match; (eapply remaining_insert; [done|simpl; lia]).
  - eapply remaining_insert; [done|simpl; lia].
  - unfold run_task. destruct (run_job _ _ _). eapply remaining_insert; [done|simpl; lia].
Qed.

(** While a goroutine has not ended, one can step: an active one, or, when the
    pool is empty, the first that has not started. *)
Lemma step_enabled p : pool_inv p → ¬ pool_done p → ∃ i, i < length jobs ∧ is_Some (step_task i p).
Proof using Type.
  intros Hinv Hdone. assert (Hbound : ∀ i q, pl_pcs p !! i = Some q → i < length jobs).
  { intros i q Hi. rewrite <-(pv_pcs p Hinv). by eapply lookup_lt_Some. }
  destruct (decide (Exists (λ q, active q = true) (pl_pcs p))) as [Hact|Hact].
  - apply Exists_exists in Hact as (q & Hin & Hq). apply list_elem_of_lookup in Hin as [i Hi].
    exists i. pose proof (Hbound i q Hi) as Hlt. split; [done|]. unfold step_task.
    destruct (lookup_lt_is_Some_2 jobs i Hlt) as [job ->]. rewrite Hi. simpl. by destruct q.
  - unfold pool_done in Hdone. apply not_Forall_Exists in Hdone; [|intros q; apply _].
    destruct (list_find (λ q, q = Idle) (pl_pcs p)) as [[i q]|] eqn:Hf.
    + apply list_find_Some in Hf as (Hi & -> & Hfirst). exists i. pose proof (Hbound i _ Hi) as Hlt.
      split; [done|]. unfold step_task. destruct (lookup_lt_is_Some_2 jobs i Hlt) as [job ->].
      rewrite Hi. simpl. unfold start_task. rewrite (proj2 (andb_true_iff _ _)); [done|]. split.
      * apply forallb_forall. intros q Hq. apply list_elem_of_In, list_elem_of_lookup in Hq as [j Hj]. apply lookup_take_Some in Hj as [Hj Hji].
        apply negb_true_iff, bool_decide_eq_false. intros ->. by eapply Hfirst.
      * assert (filter (λ q, active q = true) (pl_pcs p) = []) as ->.
        { apply elem_of_nil_inv. intros q [Ha Hq]%list_elem_of_filter. apply Hact, Exists_exists. eauto. }
        simpl. destruct (decide (limit <= 0)%Z) as [Hl|Hl]; [by rewrite (bool_decide_true _ Hl)|].
        rewrite (bool_decide_true (0 < limit)%Z) by lia. by rewrite orb_true_r.
    + exfalso. apply list_find_None in Hf. apply Exists_exists in Hdone as (q & Hin & Hq).
      rewrite Forall_forall in Hf. pose proof (Hf q Hin) as Hidle. apply Hact, Exists_exists. exists q.
      split; [done|]. destruct q; [by destruct Hidle|done..|by destruct Hq|by destruct Hq].
Qed.

(** A round visits every goroutine once. *)
Definition round : list nat := seq 0 (length jobs).
Lemma run_pool_app s1 s2 p : run_pool (s1 ++ s2) p = run_pool s2 (run_pool s1 p).
Proof using Type. unfold run_pool. by rewrite foldl_app. Qed.
Lemma run_pool_le sched p : work_left (run_pool sched p) <= work_left p.
Proof using Type.
  revert p. induction sched as [|i sched IH]; intros p; [done|]. simpl.
  destruct (step_task i p) as [p'|] eqn:E; simpl; [|apply IH].
  apply step_decreases in E. specialize (IH p'). unfold run_pool in *. lia.
Qed.
Lemma run_pool_progress sched i p : i ∈ sched → is_Some (step_task i p) →
  work_left (run_pool sched p) < work_left p.
Proof using Type.
  intros Hin [p1 Hp1]. revert Hin. induction sched as [|j sched IH]; intros Hin; [by apply elem_of_nil in Hin|].
  unfold run_pool. cbn [foldl]. destruct (step_task j p) as [p'|] eqn:E; simpl.
  - apply step_decreases in E. pose proof (run_pool_le sched p'). unfold run_pool in *. lia.
  - apply IH. apply elem_of_cons in Hin as [->|]; [congruence|done].
Qed.
Lemma rounds_finish n p : pool_inv p → work_left p <= n → pool_done (run_pool (concat (replicate n round)) p).
Proof using Type.
  revert p. induction n as [|n IH]; intros p Hinv Hle.
  - simpl. destruct (decide (pool_done p)) as [|Hnd]; [done|].
    destruct (step_enabled p Hinv Hnd) as (i & _ & [p' Hs]). apply step_decreases in Hs. lia.
  - simpl. rewrite run_pool_app. apply IH; [by apply run_pool_inv|].
    destruct (decide (pool_done p)) as [Hd|Hnd].
    + assert (work_left p = 0) as Hzero.
      { unfold work_left. unfold pool_done in Hd. clear -Hd. induction Hd as [|q l Hq Hd IHd]; [done|].
        destruct q; simpl in *; solve [done | by exfalso | lia]. }
      pose proof (run_pool_le round p). lia.
    + destruct (step_enabled p Hinv Hnd) as (i & Hi & Hs).
      pose proof (run_pool_progress round i p) as Hp. unfold round in Hp at 1. rewrite elem_of_seq in Hp.
      specialize (Hp ltac:(lia) Hs). lia.
Qed.
Lemma initial_work ctx s : work_left (initial_pool ctx s) = 4 * length jobs.
Proof using Type.
  unfold work_left, initial_pool. simpl pl_pcs. generalize (length jobs) as n.
  induction n as [|n IH]; [done|]. cbn in *. lia.
Qed.
End pool.

(** ** The pool as a whole *)
Section pool_theorems.
Context {W : Type} `{Sha256, Machine, HttpClient W, Runner}.
Context (status_json : StatusReport → string) (cfg : Config) (attempts : gmap string Z) (limit : Z).

(** C10. The pool of [Drain] never gets stuck and always ends.  However the
    goroutines have been interleaved so far, either all have ended or one of them
    can take a step, and each step brings the pool closer to its end: four steps
    for a goroutine.  So [Wait] returns, whatever the pool's size and whichever
    fetches and builds fail. *)
Theorem pool_terminates jobs ctx (s : WorkerState W) sched :
  let run := run_pool status_json cfg attempts limit jobs in
  let p := run sched (initial_pool jobs ctx s) in
  work_left p ≤ 4 * length jobs ∧
  (pool_done p ∨ ∃ i p', step_task status_json cfg attempts limit jobs i p = Some p' ∧
     work_left p' < work_left p) ∧
  pool_done (run (concat (replicate (4 * length jobs) (round jobs))) p).
Proof using Type.
  intros run p. pose proof (initial_work jobs ctx s) as Hw.
  pose proof (run_pool_le status_json cfg attempts limit jobs sched (initial_pool jobs ctx s)) as Hle.
  fold run in Hle. fold p in Hle.
  assert (Hinv : pool_inv cfg attempts jobs p) by (apply run_pool_inv, initial_pool_inv).
  split; [lia|]. split; [|by apply rounds_finish; [|lia]].
  destruct (decide (pool_done p)) as [|Hnd]; [by left|right].
  destruct (step_enabled status_json cfg attempts limit jobs p Hinv Hnd) as (i & _ & [p' Hs]).
  exists i, p'. split; [done|]. by eapply step_decreases.
Qed.

End pool_theorems.
