(* ===== verification/Podman.v ===== *)
(** The runner of the worker ([go-worker/internal/runner/runner.go]): the command
    line it gives podman for a job, and what it makes of the container's output.

    Running the command is a parameter: its lines in the order in which the two
    goroutines that read the pipes write them down, how it ended, and whether the
    deadline had passed. *)
From S2P Require Import Prelude.
From S2P Require Import GoStr.
From S2P Require Import Http.
From S2P Require Import Parse.
From S2P Require Import Match.
From S2P Require Import Drain.
From Stdlib Require Import Ascii.
Local Open Scope string_scope.
Local Open Scope list_scope.

Record PodmanRunner := mkPodmanRunner {
  po_Image : string; po_InputDir : string; po_OutputDir : string; po_CacheDir : string;
  po_PythonTag : string; po_PlatformTag : string; po_Bin : string; po_Timeout : Z;
  po_RunCmd : list string }.

Definition pyTagFromVersion (ver : string) : string :=
  let trimmed := ReplaceAll ver "."%char "" in
  if decide (trimmed = "") then ""
  else if HasPrefix trimmed "cp" then trimmed
  else if HasPrefix trimmed "3" then "cp" +:+ trimmed
  else trimmed.
Definition defaultImage (p : PodmanRunner) : string :=
  if decide (po_Image p ≠ "") then po_Image p else "refinery-rocky:latest".

(** The script that builds a wheel, which the program only passes on; "~" stands
    for a quotation mark. *)
Definition build_script : string := ReplaceAll "set -euo pipefail
spec=~${JOB_NAME:-}~
if [ -z ~$spec~ ]; then
  echo ~runner: JOB_NAME is required~ >&2
  exit 1
fi
if [ -n ~${JOB_VERSION:-}~ ]; then
  spec=~${spec}==${JOB_VERSION}~
fi
PYBIN=~${PYTHON_BIN:-${PYTHON_PATH:-python3}}~
export PIP_NO_INPUT=1
export PIP_CACHE_DIR=~${PIP_CACHE_DIR:-/cache/pip}~
if [ -n ~${DEPS_PREFIXES:-}~ ]; then
  pc_paths=~~
  for pfx in $(echo ~${DEPS_PREFIXES}~ | tr ':' ' '); do
    pc_paths=~${pc_paths}${pfx}/lib/pkgconfig:~
    export CFLAGS=~${CFLAGS:-} -I${pfx}/include~
    export LDFLAGS=~${LDFLAGS:-} -L${pfx}/lib~
    export LD_LIBRARY_PATH=~${LD_LIBRARY_PATH:-}:${pfx}/lib:${pfx}/lib64~
  done
  export PKG_CONFIG_PATH=~${pc_paths}${PKG_CONFIG_PATH:-}~
fi
if [ -n ~${RECIPES:-}~ ]; then
  IFS=',' read -r -a recipe_list <<< ~${RECIPES}~
  apt_pkgs=()
  dnf_pkgs=()
  pip_pkgs=()
  for r in ~${recipe_list[@]}~; do
    r=~$(echo ~$r~ | xargs)~
    if [ -z ~$r~ ]; then
      continue
    fi
    case ~$r~ in
      apt:*) apt_pkgs+=(~${r#apt:}~) ;;
      dnf:*) dnf_pkgs+=(~${r#dnf:}~) ;;
      pip:*) pip_pkgs+=(~${r#pip:}~) ;;
      env:*) export ~${r#env:}~ ;;
      *) ;;
    esac
  done
  if command -v dnf >/dev/null 2>&1 && [ ${#dnf_pkgs[@]} -gt 0 ]; then
    dnf -y install ~${dnf_pkgs[@]}~
  fi
  if command -v apt-get >/dev/null 2>&1 && [ ${#apt_pkgs[@]} -gt 0 ]; then
    apt-get update
    apt-get install -y ~${apt_pkgs[@]}~
  fi
  if [ ${#pip_pkgs[@]} -gt 0 ]; then
    ~${PYBIN}~ -m pip install ~${pip_pkgs[@]}~
  fi
fi
exec ~${PYBIN}~ -m pip wheel ~${spec}~ -w /output --no-deps" "~"%char (String (ascii_of_N 34) "").

Section runner.
Definition buildCmd (p : PodmanRunner) : list string :=
  if decide (po_RunCmd p ≠ []) then po_RunCmd p else ["/bin/sh"; "-c"; build_script].

(** ** The arguments *)
(** An option and its operand, which are always appended together. *)
Definition volume (v : string) : string * string := ("-v", v).
Definition setenv (k v : string) : string * string := ("-e", k +:+ "=" +:+ v).
Definition setenv_unless_empty (k v : string) : list (string * string) :=
  if decide (v = "") then [] else [setenv k v].
Definition pack_mount (i : nat) : string := "/opt/packs/pack" +:+ itoa (Z.of_nat i).
Definition python_tag (p : PodmanRunner) (job : Job) : string :=
  let tag := if decide (jb_PythonTag job = "") then pyTagFromVersion (jb_PythonVersion job) else jb_PythonTag job in
  if decide (tag = "") then po_PythonTag p else tag.
Definition runtime_options (path : string) : list (string * string) :=
  if decide (path = "") then []
  else [volume (path +:+ ":/opt/runtime:ro"); setenv "RUNTIME_PATH" "/opt/runtime";
        setenv "PYTHONHOME" "/opt/runtime";
        setenv "PATH" "/opt/runtime/bin:/usr/local/sbin:/usr/local/bin:/usr/sbin:/usr/bin";
        setenv "LD_LIBRARY_PATH" "/opt/runtime/lib:/opt/runtime/lib64:/opt/packs/lib"].
Definition dep_prefixes (paths : list string) : list string :=
  imap (λ i _, pack_mount i +:+ "/usr/local") paths.
Definition options (p : PodmanRunner) (job : Job) : list (string * string) :=
  [volume (po_OutputDir p +:+ ":/output"); volume (po_CacheDir p +:+ ":/cache");
   setenv "JOB_NAME" (jb_Name job); setenv "JOB_VERSION" (jb_Version job)] ++
  (if decide (po_InputDir p = "") then [] else [volume (po_InputDir p +:+ ":/input:ro")]) ++
  setenv_unless_empty "PYTHON_VERSION" (jb_PythonVersion job) ++
  setenv_unless_empty "PYTHON_TAG" (python_tag p job) ++
  [setenv "PLATFORM_TAG" (jb_PlatformTag job)] ++
  (if decide (jb_Recipes job = []) then [] else [setenv "RECIPES" (Join (jb_Recipes job) ",")]) ++
  runtime_options (jb_RuntimePath job) ++
  imap (λ i path, volume (path +:+ ":" +:+ pack_mount i +:+ ":ro")) (jb_PackPaths job) ++
  setenv_unless_empty "RUNTIME_DIGEST" (jb_RuntimeDigest job) ++
  (if decide (jb_PackDigests job = []) then [] else [setenv "PACK_DIGESTS" (Join (jb_PackDigests job) ",")]) ++
  (if decide (dep_prefixes (jb_PackPaths job) = []) then []
   else [setenv "DEPS_PREFIXES" (Join (dep_prefixes (jb_PackPaths job)) ":")]) ++
  setenv_unless_empty "WHEEL_SOURCE_DIGEST" (jb_WheelSourceDigest job) ++
  setenv_unless_empty "REPAIR_TOOL_VERSION" (jb_RepairToolVersion job) ++
  setenv_unless_empty "REPAIR_POLICY_HASH" (jb_RepairPolicyHash job).
Definition buildArgs (p : PodmanRunner) (job : Job) : list string :=
  ["run"; "--rm"] ++ concat ((λ o, [o.1; o.2]) <$> options p job) ++ defaultImage p :: buildCmd p.

(** ** Running the command *)
Record Outcome := mkOutcome {
  oc_start : option string; oc_lines : list string; oc_wait : option string; oc_deadline : bool; oc_ms : Z }.
Context (lookpath : option string) (exec : Ctx → Z → string → list string → Files → Outcome * Files).

Definition status_line (o : Outcome) : string :=
  match oc_wait o with
  | Some _ => "status=error reason=" +:+ (if oc_deadline o then "timeout" else "error") +:+
              " elapsed_ms=" +:+ itoa (oc_ms o)
  | None => "status=ok elapsed_ms=" +:+ itoa (oc_ms o)
  end.
Definition write_lines (lines : list string) : string :=
  foldr (λ l s, l +:+ String newline "" +:+ s) "" lines.
Definition Run (p : PodmanRunner) (ctx : Ctx) (job : Job) (fs : Files) : (Z * string * option string) * Files :=
  match (if decide (po_Bin p = "") then lookpath else Some (po_Bin p)) with
  | None => ((0%Z, "", Some "podman binary not found; set PODMAN_BIN"), fs)
  | Some bin =>
    let '(o, fs') := exec ctx (po_Timeout p) bin (buildArgs p job) fs in
    match oc_start o with
    | Some e => ((oc_ms o, "", Some e), fs')
    | None =>
      let log := TrimRight (write_lines (oc_lines o ++ [status_line o])) newline in
      ((oc_ms o, log,
        (λ e, "podman run failed (" +:+ (if oc_deadline o then "timeout" else "error") +:+ "): " +:+ e) <$> oc_wait o), fs')
    end
  end.
#[local] Instance podman (p : PodmanRunner) : Runner := {| run_job := Run p |}.

(** ** What podman reads *)
(** Options with their operands up to the first argument that is neither [-v] nor
    [-e], which is the image; the rest is the command. *)
Fixpoint read_options (fuel : nat) (args : list string) : option (list string * list string * string * list string) :=
  match fuel, args with
  | S fuel, "-v" :: v :: args =>
    '(vols, envs, image, cmd) ← read_options fuel args; Some (v :: vols, envs, image, cmd)
  | S fuel, "-e" :: e :: args =>
    '(vols, envs, image, cmd) ← read_options fuel args; Some (vols, e :: envs, image, cmd)
  | S _, image :: cmd => Some ([], [], image, cmd)
  | _, _ => None
  end.
Definition read_run (args : list string) : option (list string * list string * string * list string) :=
  match args with
  | "run" :: "--rm" :: args => read_options (length args) args
  | _ => None
  end.
(** [name=value]: the name ends at the first [=]. *)
Definition variable (e : string) : string * string :=
  match Index e "=" with Some i => (str_take i e, str_drop (i + 1) e) | None => (e, "") end.
End runner.

(** ** Theorems *)
Lemma variable_setenv k v :
  str_forall (λ d, negb (bool_decide (d = "="%char))) k = true → variable (setenv k v).2 = (k, v).
Proof.
  intros Hk. unfold variable. cbn [setenv snd]. change ("=" +:+ v) with (String "=" v). rewrite Index_first by done.
  rewrite str_take_app. f_equal.
  replace (String.length k + 1)%nat with (String.length (k +:+ "=")) by (rewrite str_length_app; done).
  change (String "=" v) with ("=" +:+ v). rewrite <-append_assoc. apply str_drop_app.
Qed.
Definition volumes_of (opts : list (string * string)) : list string :=
  omap (λ o, if decide (o.1 = "-v") then Some o.2 else None) opts.
Definition envs_of (opts : list (string * string)) : list string :=
  omap (λ o, if decide (o.1 = "-e") then Some o.2 else None) opts.
Definition is_option (o : string * string) : Prop := o.1 = "-v" ∨ o.1 = "-e".
Lemma read_options_render opts image cmd fuel :
  Forall is_option opts → image ≠ "-v" → image ≠ "-e" → length opts < fuel →
  read_options fuel (concat ((λ o, [o.1; o.2]) <$> opts) ++ image :: cmd) = Some (volumes_of opts, envs_of opts, image, cmd).
Proof.
  intros Hopts Hv He. revert fuel. induction Hopts as [|[f x] opts [Hf|Hf] _ IH]; intros [|fuel] Hlen; simpl in *;
    [lia| |lia| |lia|]; [|subst f; by rewrite IH by lia..].
  repeat (case_match; try done; simplify_eq).
Qed.

Section podman.
Context (p : PodmanRunner) (job : Job).
Abbreviation options := (options p job).

Definition given (v : string) : option string := if decide (v = "") then None else Some v.
Definition joined (sep : string) (l : list string) : option string := if decide (l = []) then None else Some (Join l sep).
Definition with_runtime (v : string) : option string := if decide (jb_RuntimePath job = "") then None else Some v.
(** What each variable of the container is meant to be. *)
Definition job_variables : list (string * option string) :=
  [("JOB_NAME", Some (jb_Name job)); ("JOB_VERSION", Some (jb_Version job));
   ("PYTHON_VERSION", given (jb_PythonVersion job)); ("PYTHON_TAG", given (python_tag p job));
   ("PLATFORM_TAG", Some (jb_PlatformTag job)); ("RECIPES", joined "," (jb_Recipes job));
   ("RUNTIME_PATH", with_runtime "/opt/runtime"); ("PYTHONHOME", with_runtime "/opt/runtime");
   ("PATH", with_runtime "/opt/runtime/bin:/usr/local/sbin:/usr/local/bin:/usr/sbin:/usr/bin");
   ("LD_LIBRARY_PATH", with_runtime "/opt/runtime/lib:/opt/runtime/lib64:/opt/packs/lib");
   ("RUNTIME_DIGEST", given (jb_RuntimeDigest job)); ("PACK_DIGESTS", joined "," (jb_PackDigests job));
   ("DEPS_PREFIXES", joined ":" (dep_prefixes (jb_PackPaths job)));
   ("WHEEL_SOURCE_DIGEST", given (jb_WheelSourceDigest job));
   ("REPAIR_TOOL_VERSION", given (jb_RepairToolVersion job)); ("REPAIR_POLICY_HASH", given (jb_RepairPolicyHash job))].
Definition set_variables : list (string * string) := omap (λ kv, v ← kv.2; Some (kv.1, v)) job_variables.

Lemma envs_of_app a b : envs_of (a ++ b) = envs_of a ++ envs_of b.
Proof using Type. apply omap_app. Qed.
Lemma pack_volumes_envs : envs_of (imap (λ i path, volume (path +:+ ":" +:+ pack_mount i +:+ ":ro")) (jb_PackPaths job)) = [].
Proof using Type. unfold envs_of. induction (jb_PackPaths job) as [|x l IH] using rev_ind; [done|]. by rewrite imap_app, omap_app, IH. Qed.
Lemma options_valid : Forall is_option options.
Proof using Type.
  assert (Hs : ∀ k v, is_option (setenv k v)) by by right.
  assert (Hv : ∀ v, is_option (volume v)) by by left.
  assert (Hse : ∀ k v, Forall is_option (setenv_unless_empty k v)).
  { intros k v. unfold setenv_unless_empty. case_decide; [constructor|]. constructor; [apply Hs|constructor]. }
  unfold Podman.options, runtime_options.
  repeat (apply Forall_app; split); auto; repeat case_decide; repeat (apply Forall_cons; split); auto.
  apply Forall_forall. intros o (i & x & -> & _)%elem_of_lookup_imap. apply Hv.
Qed.
(** The variables set are those that are meant to be, in order. *)
Lemma options_variables : variable <$> envs_of options = set_variables.
Proof using Type.
  assert (Hone : ∀ k v l, str_forall (λ d, negb (bool_decide (d = "="%char))) k = true →
    variable <$> envs_of (setenv k v :: l) = (k, v) :: (variable <$> envs_of l)).
  { intros k v l Hk. change (envs_of (setenv k v :: l)) with ((setenv k v).2 :: envs_of l). cbn [fmap list_fmap].
    by rewrite variable_setenv. }
  assert (Hvol : ∀ v l, envs_of (volume v :: l) = envs_of l) by done.
  assert (Hun : ∀ k v, str_forall (λ d, negb (bool_decide (d = "="%char))) k = true →
    variable <$> envs_of (setenv_unless_empty k v) = omap (λ kv, v ← kv.2; Some (kv.1, v)) [(k, given v)]).
  { intros k v Hk. unfold setenv_unless_empty, given. case_decide; [done|]. by rewrite Hone. }
  unfold Podman.options. rewrite !envs_of_app, !fmap_app, !Hun by done. rewrite pack_volumes_envs.
  assert (Hset : set_variables = omap (λ kv : string * option string, v ← kv.2; Some (kv.1, v))
    (take 2 job_variables ++ [("PYTHON_VERSION", given (jb_PythonVersion job))] ++
     [("PYTHON_TAG", given (python_tag p job))] ++ take 6 (drop 4 job_variables) ++
     [("RUNTIME_DIGEST", given (jb_RuntimeDigest job))] ++ take 2 (drop 11 job_variables) ++
     [("WHEEL_SOURCE_DIGEST", given (jb_WheelSourceDigest job))] ++
     [("REPAIR_TOOL_VERSION", given (jb_RepairToolVersion job))] ++
     [("REPAIR_POLICY_HASH", given (jb_RepairPolicyHash job))])) by reflexivity.
  rewrite Hset, !omap_app. clear Hset Hun. cbn [take drop job_variables].
  unfold joined, with_runtime, runtime_options.
  repeat rewrite Hvol. rewrite !Hone by done. change (envs_of []) with (@nil string).
  destruct (decide (po_InputDir p = "")); destruct (decide (jb_Recipes job = [])); destruct (decide (jb_RuntimePath job = ""));
    destruct (decide (jb_PackDigests job = [])); destruct (decide (dep_prefixes (jb_PackPaths job) = []));
    repeat rewrite Hvol; rewrite ?Hone by done; reflexivity.
Qed.
Lemma pack_volume_in i path :
  jb_PackPaths job !! i = Some path → path +:+ ":" +:+ pack_mount i +:+ ":ro" ∈ volumes_of options.
Proof using Type.
  intros Hi. unfold volumes_of. apply list_elem_of_omap.
  exists (volume (path +:+ ":" +:+ pack_mount i +:+ ":ro")). split; [|done]. unfold Podman.options.
  do 7 (apply elem_of_app; right). apply elem_of_app. left.
  apply elem_of_lookup_imap. by exists i, path.
Qed.

Lemma Split_Join (ws : list string) (c : ascii) :
  ws ≠ [] → Forall (λ w, str_forall (λ d, negb (bool_decide (d = c))) w = true) ws → Split (Join ws (String c "")) c = ws.
Proof using Type.
  intros Hne Hall. induction Hall as [|w ws Hw Hall IH]; [done|]. destruct ws as [|x ws]; [by apply Split_no_sep|].
  change (Join (w :: x :: ws) (String c "")) with (w +:+ String c (Join (x :: ws) (String c ""))).
  rewrite Split_app_sep, Split_no_sep by done. by rewrite IH.
Qed.
Lemma dep_prefixes_no_colon paths :
  Forall (λ w, str_forall (λ d, negb (bool_decide (d = ":"%char))) w = true) (dep_prefixes paths).
Proof using Type.
  apply Forall_forall. intros w (i & x & -> & _)%elem_of_lookup_imap. unfold pack_mount.
  rewrite !str_forall_app. rewrite itoa_forall; [done| |done]. intros c. by destruct c as [[] [] [] [] [] [] [] []].
Qed.

End podman.

(** ** Runs *)
Lemma trim_right_drop (q : ascii → bool) s c : q c = true → trim_right q (s +:+ String c "") = trim_right q s.
Proof.
  intros Hc. induction s as [|d s IH]; [simpl; by rewrite Hc|]. rewrite append_cons. cbn [trim_right]. by rewrite IH.
Qed.
Lemma trim_right_keeps (q : ascii → bool) a s :
  s ≠ "" → str_forall (λ c, negb (q c)) s = true → trim_right q (a +:+ s) = a +:+ s.
Proof.
  intros Hne Hs. assert (Hts : trim_right q s = s).
  { clear Hne a. induction s as [|c s IH]; [done|]. cbn [str_forall] in Hs. apply andb_true_iff in Hs as [Hc Hs].
    cbn [trim_right]. rewrite (IH Hs). destruct s; [|done]. by destruct (q c). }
  induction a as [|c a IH]; [done|]. rewrite append_cons. cbn [trim_right]. rewrite IH. destruct a; [by destruct s|done].
Qed.
Lemma status_line_clean o :
  status_line o ≠ "" ∧ str_forall (λ c, negb (bool_decide (c = newline))) (status_line o) = true.
Proof.
  assert (Hi : str_forall (λ c, negb (bool_decide (c = newline))) (itoa (oc_ms o)) = true).
  { apply itoa_forall; [|done]. intros c. by destruct c as [[] [] [] [] [] [] [] []]. }
  unfold status_line. destruct (oc_wait o); [destruct (oc_deadline o)|]; rewrite ?str_forall_app, Hi; done.
Qed.
Lemma write_lines_Join lines last :
  write_lines (lines ++ [last]) = Join (lines ++ [last]) (String newline "") +:+ String newline "".
Proof.
  induction lines as [|l lines IH]; [done|]. cbn [write_lines app foldr]. fold (write_lines (lines ++ [last])).
  rewrite IH. destruct lines as [|x lines]; cbn [app Join]; by rewrite !append_assoc.
Qed.

(** The log of a run is what the container wrote, line by line, and then the
    line that says how it ended; the run is an error exactly if the command failed,
    and the last line says "timeout" exactly if the deadline had passed by then. *)
Theorem Run_log lookpath exec p ctx job fs bin o fs' :
  (if decide (po_Bin p = "") then lookpath else Some (po_Bin p)) = Some bin →
  exec ctx (po_Timeout p) bin (buildArgs p job) fs = (o, fs') → oc_start o = None →
  Forall (λ l, str_forall (λ c, negb (bool_decide (c = newline))) l = true) (oc_lines o) →
  let '((ms, log, err), fs2) := Run lookpath exec p ctx job fs in
  fs2 = fs' ∧ ms = oc_ms o ∧ Split log newline = oc_lines o ++ [status_line o] ∧ (err = None ↔ oc_wait o = None).
Proof.
  intros Hbin Hexec Hstart Hlines. unfold Run. rewrite Hbin, Hexec, Hstart.
  destruct (status_line_clean o) as [Hne Hclean]. split_and!; [done|done| |by destruct (oc_wait o)].
  rewrite write_lines_Join. unfold TrimRight. rewrite trim_right_drop by by apply bool_decide_true.
  assert (Hall : Forall (λ l, str_forall (λ c, negb (bool_decide (c = newline))) l = true) (oc_lines o ++ [status_line o])).
  { apply Forall_app. split; [done|]. by constructor. }
  assert (Hj : ∃ a, Join (oc_lines o ++ [status_line o]) (String newline "") = a +:+ status_line o).
  { clear Hall Hlines. induction (oc_lines o) as [|l lines [a IH]]; [by exists ""|].
    exists (l +:+ String newline "" +:+ a).
    rewrite <-app_comm_cons, Join_cons, IH. destruct lines; by rewrite !append_assoc. }
  destruct Hj as [a Hj]. rewrite Hj, trim_right_keeps, <-Hj by done. apply Split_Join; [by destruct (oc_lines o)|done].
Qed.

(** ** Witnesses *)
Definition podman_sample : PodmanRunner :=
  mkPodmanRunner "" "" "/output" "/cache" "" "linux_s390x" "/usr/bin/podman" 900 [].
Definition podman_job : Job :=
  mkJob "-rf" "1.0" "3.11" "" "linux_s390x" ["dnf:gcc"; "env:A=B"] "" "" "/rt" ["/packs/a"; "/packs/b"] "" [] "" "" "".
Definition podman_exec (_ : Ctx) (_ : Z) (_ : string) (_ : list string) (fs : Files) : Outcome * Files :=
  (mkOutcome None ["building"; "done"] (Some "exit status 1") false 1500, fs).
Lemma Run_log_witness :
  Split (Run None podman_exec podman_sample live podman_job ∅).1.1.2 newline =
    ["building"; "done"; "status=error reason=error elapsed_ms=1500"].
Proof.
  pose proof (Run_log None podman_exec podman_sample live podman_job ∅ "/usr/bin/podman"
    (mkOutcome None ["building"; "done"] (Some "exit status 1") false 1500) ∅ eq_refl eq_refl eq_refl) as Hspec.
  specialize (Hspec ltac:(by repeat constructor)).
  destruct (Run _ _ _ _ _ _) as [[[ms log] err] fs2]. destruct Hspec as (_ & _ & Hs & _). exact Hs.
Defined.
