(* ===== verification/Finish.v ===== *)
(** The second half of [Worker.Drain] ([go-worker/internal/service/worker.go]):
    what happens to the results once the pool of goroutines is done, and [Drain]
    as a whole.

    The variable [ctx] of [Drain] has been reassigned by [errgroup.WithContext],
    so the calls made after [g.Wait()] use a context that [Wait] has cancelled;
    [Drain] passes [cancelled] to them.  The reporter's posts use no context. *)
From S2P Require Import Prelude.
From S2P Require Import GoStr.
From S2P Require Import Artifact.
From S2P Require Import Http.
From S2P Require Import Cas.
From S2P Require Import PlanTypes.
From S2P Require Import Planner.
From S2P Require Import Hints.
From S2P Require Import Queue.
From S2P Require Import Match.
From S2P Require Import Config.
From S2P Require Import HintFeed.
From S2P Require Import BuildStore.
From S2P Require Import AutoFix.
From S2P Require Import Resolve.
From S2P Require Import Drain.
From Stdlib Require Import Ascii.
Local Open Scope string_scope.
Local Open Scope list_scope.
Local Open Scope nat_scope.

(** ** URLs in the reports *)
Definition casURL (cfg : Config) (id : ID) : string :=
  if decide (cf_CASRegistryURL cfg = "" ∨ id_Digest id = "") then ""
  else
    let repo := if decide (cf_CASRegistryRepo cfg = "") then "artifacts" else cf_CASRegistryRepo cfg in
    TrimRight (cf_CASRegistryURL cfg) "/"%char +:+ "/v2/" +:+ Trim repo "/"%char +:+ "/blobs/"
      +:+ id_Digest id.
Definition objectURL {W} (store : option (ObjectStore W)) (job : Job) (kind : string) : string :=
  let base := ToLower (jb_Name job) +:+ "/" +:+ jb_Version job +:+ "/" in
  let key := if decide (kind = "repair" ∧ jb_WheelDigest job ≠ "")
             then base +:+ "repair-" +:+ jb_WheelDigest job else base in
  match store ≫= os_URL with Some url => url key | None => "" end.

(** ** What is reported of one result: the fields of the log entry, the manifest
    entry and the history event *)
Record Outcome := mkOutcome {
  oc_job : Job; oc_duration : Z; oc_log : string; oc_err : option string; oc_attempt : Z;
  oc_status : string; oc_summary : string; oc_detail : string; oc_recipes : list string;
  oc_fix : autoFixResult; oc_backoff : Z;
  oc_wheel_url : string; oc_runtime_url : string; oc_pack_urls : list string;
  oc_repair : string; oc_repair_url : string }.

Definition first_nonempty_url (a b : string) : string := if decide (a = "") then b else a.
Definition set_blocked (r : autoFixResult) (reason : string) : autoFixResult :=
  mkAutoFixResult (af_Applied r) (af_Recipes r) (af_HintIDs r) (af_SavedHintIDs r) (af_Reason r)
    reason (af_BlockedHints r) (af_Impact r) (af_ImpactReason r).

(** The state the loop over the results threads. *)
Record Finish (W : Type) := mkFinish {
  fi_s : WorkerState W; fi_last : gmap string Z; fi_known : gset string;
  fi_outcomes : list Outcome }.
Arguments mkFinish {W}. Arguments fi_s {W}. Arguments fi_last {W}. Arguments fi_known {W}.
Arguments fi_outcomes {W}.

(** [json.Marshal] of what is posted. *)
Class Encoders := {
  status_json : StatusReport → string; hint_json : Hint → string;
  log_json : Outcome → string; manifest_json : list Outcome → string;
  event_json : Z → Outcome → string }.

Section finish.
Context {W : Type} `{GoRuntime, Sha256, Regexp, LogScan, Confidence, Machine, Shell, HttpClient W,
  Encoders}.
Context (store : option (ObjectStore W)).
Context (generated_at : Job → string).
Context (cfg : Config) (repairCmd : string).

(** [reporter.Client.post]; [BuildWorker] gives it the control plane's URL. *)
Definition post (path body : string) (w : W) : W :=
  let base := TrimRight (cf_ControlPlaneURL cfg) "/"%char in
  if decide (base = "") then w
  else (http_call live "POST" (base +:+ path) (json_headers cfg) body w).2.

(** The status of a failed build. *)
Definition failure_status (attempts : gmap string Z) (res : RunResult) (applied : bool) : string :=
  if applied && bool_decide (rr_attempt res < cf_MaxRequeueAttempts cfg)%Z then "retry"
  else if shouldRequeue (cf_RequeueOnFailure cfg) (cf_MaxRequeueAttempts cfg) attempts (rr_job res)
  then "retry" else "failed".

(** The failure part of the loop's body: automation, then the status. *)
Definition failure_fix (ctx : Ctx) (now : Z) (hints : list Hint) (attempts : gmap string Z)
    (res : RunResult) (err : string) (st : FixState W)
    : string * string * autoFixResult * FixState W :=
  let summary := let sum := summarizeLog (rr_log res) in if decide (sum = "") then err else sum in
  let log := if decide (TrimSpace (rr_log res) = "") then summary else rr_log res in
  let '(fix_, st') := autoFix hint_json cfg ctx now (rr_job res) log hints st in
  let status := failure_status attempts res (af_Applied fix_) in
  let fix_ := if af_Applied fix_ && negb (bool_decide (status = "retry"))
              then set_blocked fix_ "max attempts reached" else fix_ in
  (status, summary, fix_, st').

Definition event_detail (fix_ : autoFixResult) (err : option string) : string :=
  let detail := if af_Applied fix_ then "auto-fix applied: " +:+ af_Reason fix_ else "" in
  match err with
  | None => detail
  | Some e => if decide (detail = "") then e else detail +:+ " | " +:+ e
  end.

Definition outcome_of (res : RunResult) (status summary : string) (fix_ : autoFixResult) (backoff : Z)
    : Outcome :=
  let job := rr_job res in
  let repair := if rr_repair res is Some id then id_Digest id else "" in
  mkOutcome job (rr_duration res) (rr_log res) (rr_err res) (rr_attempt res) status summary
    (event_detail fix_ (rr_err res))
    (if af_Applied fix_ then af_Recipes fix_ else jb_Recipes job) fix_ backoff
    (if decide (jb_WheelDigest job = "") then ""
     else first_nonempty_url (casURL cfg (mkID WheelType (jb_WheelDigest job)))
            (objectURL store job "wheel"))
    (if decide (jb_RuntimeDigest job = "") then ""
     else casURL cfg (mkID RuntimeType (jb_RuntimeDigest job)))
    (filter (λ u, u ≠ "") ((λ d, casURL cfg (mkID PackType d)) <$> jb_PackDigests job))
    repair
    (if decide (repair = "") then ""
     else first_nonempty_url (casURL cfg (mkID RepairType repair)) (objectURL store job "repair")).

Definition final_report (o : Outcome) : StatusReport :=
  mkStatusReport (jb_Name (oc_job o)) (jb_Version (oc_job o)) (oc_status o) (oc_err o)
    (oc_summary o) (oc_attempt o) (oc_backoff o) (oc_recipes o) (af_HintIDs (oc_fix o)).
(** The three posts of the reporter. *)
Definition post_outcome (now : Z) (o : Outcome) (w : W) : W :=
  post "/api/history" (event_json now o)
    (post "/api/manifest" (manifest_json [o]) (post "/api/logs" (log_json o) w)).

(** The body of the loop over [results]; [now] in nanoseconds and [jitter] are
    the clock and the random number of this turn. *)
Definition finish_result (ctx : Ctx) (attempts : gmap string Z) (hints : list Hint)
    (st : Finish W) (turn : (Z * Z) * RunResult) : Finish W :=
  let '(now, jitter, res) := turn in
  let s := fi_s st in
  let fx := mkFixState (fi_last st) (fi_known st) (wk_world s) in
  let '(status, summary, fix_, fx') :=
    match rr_err res with
    | None => ("built", "", no_fix, fx)
    | Some err => failure_fix ctx now hints attempts res err fx
    end in
  let backoff := if decide (status = "retry") then backoffTime now jitter (rr_attempt res) else 0%Z in
  let o := outcome_of res status summary fix_ backoff in
  let w1 := reportBuildStatus status_json cfg ctx (final_report o) (fx_world fx') in
  let w2 := post_outcome (now / Second)%Z o w1 in
  let s2 := set_world w2 s in
  let s3 := match rr_err res with
            | None => uploadArtifacts store generated_at cfg repairCmd ctx (rr_job res) s2
            | Some _ => s2
            end in
  mkFinish s3 (fx_last fx') (fx_known fx') (fi_outcomes st ++ [o]).

Definition finish_results (ctx : Ctx) (attempts : gmap string Z) (hints : list Hint)
    (turns : list ((Z * Z) * RunResult)) (st : Finish W) : Finish W :=
  foldl (finish_result ctx attempts hints) st turns.

(** [writeManifest], best effort. *)
Definition writeManifest (os : list Outcome) (fs : Files) : Files :=
  if decide (os = [] ∨ cf_OutputDir cfg = "") then fs
  else match write_file (path_join (cf_OutputDir cfg) "manifest.json") (manifest_json os) fs with
       | Ok fs' => fs' | Err _ => fs
       end.
Definition firstErr (results : list RunResult) : option string := head (omap rr_err results).
End finish.

(** ** Popping from the build queue, and fetching plans *)

Definition request_of_build (b : PoppedBuild) : Request :=
  mkRequest (pb_Package b) (pb_Version b) (pyVersionFromTag (pb_PythonTag b)) (pb_PythonTag b)
    (pb_PlatformTag b) (pb_Recipes b) 0 (pb_Attempts b) (pb_PlanID b) (pb_RunID b).

(** The decoders of the answers, and [url.Values] setting one parameter. *)
Class Decoders := {
  decode_builds : string → option (list PoppedBuild);
  decode_plan : string → option (string * list FlatNode * list DAGNode);
  decode_snapshot : string → option Snapshot;
  decode_hints : string → option (list Hint);
  set_query : string → string → string → string }.

Section drain.
Context {W : Type} `{GoRuntime, Sha256, Regexp, LogScan, Confidence, Machine, Tar, Shell, ManifestJson,
  HttpClient W, Runner, Encoders, Decoders}.
Context {Q : Type} `{Backend Q}.
Context (store : option (ObjectStore W)).
Context (generated_at : Job → string).
Context (cfg : Config) (repairCmd : string).
(** [plan.Generate] on the worker's machine, the last resort of [LoadPlan]. *)
Context (generate : WorkerState W → result Snapshot * WorkerState W).

(** [BuildWorker]: the URL the queue is popped from. *)
Definition BuildWorker_popURL : string :=
  if decide (cf_BuildPopURL cfg = "" ∧ cf_ControlPlaneURL cfg ≠ "")
  then TrimRight (cf_ControlPlaneURL cfg) "/"%char +:+ "/api/build-queue/pop"
  else cf_BuildPopURL cfg.

Definition popBuildQueue (ctx : Ctx) (w : W) : result (list Request) * W :=
  let url := BuildWorker_popURL in
  if decide (url = "") then (Ok [], w)
  else if negb (url_ok url) then (Err ("parse " +:+ url), w)
  else
    let url := if decide (0 < cf_BatchSize cfg)%Z then set_query url "max" (itoa (cf_BatchSize cfg))
               else url in
    match http_do ctx (mkReq "POST" url (token_headers cfg) "") w with
    | (Err e, w') => (Err e, w')
    | (Ok resp, w') =>
      if decide (rs_Status resp = 200)%Z then
        match decode_builds (rs_Body resp) with
        | None => (Err "invalid json", w')
        | Some builds => (Ok (request_of_build <$> builds), w')
        end
      else (Err ("build queue pop: status " +:+ itoa (rs_Status resp) +:+ ": " +:+ rs_Body resp), w')
    end.

Definition fetchPlanSnapshot (ctx : Ctx) (planID : Z) (w : W) : result Snapshot * W :=
  if decide (cf_ControlPlaneURL cfg = "") then (Err "control plane URL not set", w)
  else
    let url := TrimRight (cf_ControlPlaneURL cfg) "/"%char +:+ "/api/plan/" +:+ itoa planID in
    match http_call ctx "GET" url (token_headers cfg) "" w with
    | (Err e, w') => (Err e, w')
    | (Ok resp, w') =>
      if decide (rs_Status resp = 200)%Z then
        match decode_plan (rs_Body resp) with
        | None => (Err "invalid json", w')
        | Some (run, nodes, dag) => (Ok (mkSnapshot run nodes dag None), w')
        end
      else (Err ("plan fetch status " +:+ itoa (rs_Status resp) +:+ ": " +:+ rs_Body resp), w')
    end.

(** [jobsFromBuildQueue]: requests by plan; a request without a plan and a plan
    that cannot be fetched are left out. *)
Definition group_request (m : gmap Z (list Request)) (r : Request) : gmap Z (list Request) :=
  if decide (rq_PlanID r = 0%Z) then m
  else <[rq_PlanID r := default [] (m !! rq_PlanID r) ++ [r]]> m.
Definition grouped (reqs : list Request) : gmap Z (list Request) := foldl group_request ∅ reqs.
Definition group_jobs (ctx : Ctx) (g : Z * list Request) (acc : list Job * WorkerState W)
    : option (list Job * WorkerState W) :=
  let '(r, w') := fetchPlanSnapshot ctx g.1 (wk_world acc.2) in
  let s := set_world w' acc.2 in
  match r with
  | Err _ => Some (acc.1, s)
  | Ok snap => '(jobs, s') ← match_jobs cfg ctx snap g.2 s; Some (acc.1 ++ jobs, s')
  end.
Definition jobsFromBuildQueue (ctx : Ctx) (reqs : list Request) (s : WorkerState W)
    : option (list Job * WorkerState W) :=
  fold_opt (group_jobs ctx) (map_range (grouped reqs)) ([], s).

(** [LoadPlan]: plan.json of the output or of the cache directory, or a new plan. *)
Definition Load (path : string) (fs : Files) : result Snapshot :=
  match read_file path fs with
  | Err e => Err e
  | Ok data => match decode_snapshot data with
               | Some snap => Ok snap | None => Err "unmarshal plan" end
  end.
Definition LoadPlan (inputDir : string) (s : WorkerState W) : result Snapshot * WorkerState W :=
  match Load (path_join (cf_OutputDir cfg) "plan.json") (wk_fs s) with
  | Ok snap => (Ok snap, s)
  | Err _ =>
    match Load (path_join (cf_CacheDir cfg) "plan.json") (wk_fs s) with
    | Ok snap => (Ok snap, s)
    | Err _ => if decide (inputDir = "") then (Err "plan not found and input dir disabled", s)
               else generate s
    end
  end.

(** ** [Drain]

    [None] stands for a run that does not end: a pool whose goroutines have not
    all ended under the schedule, or hints that do not end within [fuel] pages. *)
Record DrainState := mkDrainState {
  ds_s : WorkerState W; ds_last : gmap string Z; ds_queue : Q; ds_outcomes : list Outcome }.

(** Up to [errgroup.WithContext]: the requests and the jobs. *)
Definition drain_jobs (ctx : Ctx) (inputDir : string) (st : DrainState)
    : option (result (list Request * list Job) * DrainState) :=
  let s := ds_s st in
  let with_s s' q' := mkDrainState s' (ds_last st) q' (ds_outcomes st) in
  if decide (BuildWorker_popURL ≠ "") then
    let '(r, w') := popBuildQueue ctx (wk_world s) in
    let s' := set_world w' s in
    match r with
    | Err e => Some (Err e, with_s s' (ds_queue st))
    | Ok [] => Some (Ok ([], []), with_s s' (ds_queue st))
    | Ok reqs => '(jobs, s2) ← jobsFromBuildQueue ctx reqs s';
                 Some (Ok (reqs, jobs), with_s s2 (ds_queue st))
    end
  else
    match LoadPlan inputDir s with
    | (Err e, s') => Some (Err ("load plan: " +:+ e), with_s s' (ds_queue st))
    | (Ok snap, s') =>
      let '((reqs, err), q') := q_Pop ctx (cf_BatchSize cfg) (ds_queue st) in
      match err, reqs with
      | Some e, _ => Some (Err e, with_s s' q')
      | None, [] => Some (Ok ([], []), with_s s' q')
      | None, _ => '(jobs, s2) ← match_jobs cfg ctx snap reqs s'; Some (Ok (reqs, jobs), with_s s2 q')
      end
    end.

(** The hint catalog and the known IDs, when automation is enabled. *)
Definition drain_hints (fuel : nat) (w : W) : option (list Hint * gset string * W) :=
  if negb (cf_AutoFixEnabled cfg) then Some ([], ∅, w)
  else
    '(hints, err, w') ← fetchHints decode_hints cfg fuel live w;
    match err with
    | Some _ => Some ([], ∅, w')
    | None => Some (hints, list_to_set (filter (λ i, i ≠ "") (h_ID <$> hints)), w')
    end.

(** From [g.Wait()] on. *)
Definition drain_finish (fuel : nat) (clock : nat → Z * Z) (attempts : gmap string Z)
    (results : list RunResult) (st : DrainState) : option (option string * DrainState) :=
  '(hints, known, w') ← drain_hints fuel (wk_world (ds_s st));
  let turns := imap (λ i r, (clock i, r)) results in
  let f := finish_results store generated_at cfg repairCmd cancelled attempts
             hints turns (mkFinish (set_world w' (ds_s st)) (ds_last st) known []) in
  let s' := set_fs (writeManifest cfg (fi_outcomes f) (wk_fs (fi_s f))) (fi_s f) in
  Some (firstErr results, mkDrainState s' (fi_last f) (ds_queue st) (ds_outcomes st ++ fi_outcomes f)).

Definition Drain (fuel : nat) (ctx : Ctx) (inputDir : string) (sched : list nat)
    (clock : nat → Z * Z) (poolSize : Z) (st : DrainState) : option (option string * DrainState) :=
  '(r, st1) ← drain_jobs ctx inputDir st;
  match r with
  | Err e => Some (Some e, st1)
  | Ok ([], _) => Some (None, st1)
  | Ok (reqs, jobs) =>
    let attempts := reqAttempts reqs in
    let p := run_pool status_json cfg attempts poolSize jobs sched (initial_pool jobs ctx (ds_s st1)) in
    if decide (pool_done p) then
      drain_finish fuel clock attempts (pl_results p)
        (mkDrainState (pl_s p) (ds_last st1) (ds_queue st1) (ds_outcomes st1))
    else None
  end.

(** ** [Drain] returns *)
Lemma jobsFromBuildQueue_total ctx reqs (s : WorkerState W) : is_Some (jobsFromBuildQueue ctx reqs s).
Proof using Type.
  unfold jobsFromBuildQueue. apply fold_opt_total. intros g [acc s0] _. unfold group_jobs. simpl.
  destruct (fetchPlanSnapshot ctx g.1 (wk_world s0)) as [[snap|e] w']; [|eauto].
  destruct (match_jobs_total cfg ctx snap g.2 (set_world w' s0)) as [[jobs s'] ->]. simpl. eauto.
Qed.

Lemma drain_jobs_total ctx inputDir st : is_Some (drain_jobs ctx inputDir st).
Proof using Type.
  unfold drain_jobs. case_decide.
  - destruct (popBuildQueue ctx _) as [[[|r reqs]|e] w']; [eauto| |eauto].
    destruct (jobsFromBuildQueue_total ctx (r :: reqs) (set_world w' (ds_s st))) as [[jobs s2] ->].
    simpl. eauto.
  - destruct (LoadPlan inputDir (ds_s st)) as [[snap|e] s']; [|eauto].
    destruct (q_Pop ctx _ _) as [[reqs [err|]] q']; [eauto|]. destruct reqs as [|r reqs]; [eauto|].
    destruct (match_jobs_total cfg ctx snap (r :: reqs) s') as [[jobs s2] ->]. simpl. eauto.
Qed.

(** C40. [Drain] returns: when the hints can be fetched (or automation is off), for
    every state and every answer of the control plane, the registry and the queue,
    whatever was popped and whatever fails: after any interleaving of the
    goroutines so far, giving each of the [n] jobs its turn [4 * n] times more
    ends the pool, and [Drain] comes to its result. *)
Theorem Drain_returns fuel ctx inputDir clock poolSize st :
  (∀ w, is_Some (drain_hints fuel w)) →
  ∃ n, ∀ sched,
    is_Some (Drain fuel ctx inputDir (sched ++ concat (replicate (4 * n) (seq 0 n))) clock poolSize st).
Proof using Type.
  intros Hhints. destruct (drain_jobs_total ctx inputDir st) as [[r st1] Hj]. unfold Drain. rewrite Hj. simpl.
  destruct r as [[reqs jobs]|e]; [|exists 0; by eauto]. destruct reqs as [|req reqs]; [exists 0; by eauto|].
  exists (length jobs). intros sched. rewrite decide_True.
  - unfold drain_finish. cbn [ds_s].
    match goal with |- context [drain_hints fuel ?w] => destruct (Hhints w) as [[[hints known] w'] ->] end.
    simpl. eauto.
  - rewrite run_pool_app. apply rounds_finish; [apply run_pool_inv, initial_pool_inv|].
    etrans; [apply run_pool_le|]. by rewrite initial_work.
Qed.
End drain.

(** ** What is reported *)
Section finish_facts.
Context {W : Type} `{GoRuntime, Sha256, Regexp, LogScan, Confidence, Machine, Shell, HttpClient W,
  Encoders}.
Context (store : option (ObjectStore W)).
Context (generated_at : Job → string).
Context (cfg : Config) (repairCmd : string).

(** The outcome of a result: its status, when it is retried, and until when it is
    held back. *)
Definition may_retry (attempts : gmap string Z) (res : RunResult) (applied : bool) : Prop :=
  applied = true ∧ (rr_attempt res < cf_MaxRequeueAttempts cfg)%Z ∨
  cf_RequeueOnFailure cfg = true ∧ (job_attempt attempts (rr_job res) < cf_MaxRequeueAttempts cfg)%Z.
Definition outcome_matches (attempts : gmap string Z) (turn : (Z * Z) * RunResult) (o : Outcome)
    : Prop :=
  let '(now, jitter, res) := turn in
  oc_job o = rr_job res ∧ oc_err o = rr_err res ∧ oc_attempt o = rr_attempt res ∧
  match rr_err res with
  | None => oc_status o = "built" ∧ oc_backoff o = 0%Z ∧ oc_recipes o = jb_Recipes (rr_job res)
  | Some e =>
    (oc_status o = "retry" ∧ may_retry attempts res (af_Applied (oc_fix o)) ∧
       oc_backoff o = backoffTime now jitter (rr_attempt res) ∨
     oc_status o = "failed" ∧ ¬ may_retry attempts res (af_Applied (oc_fix o)) ∧ oc_backoff o = 0%Z) ∧
    (oc_summary o = "" → e = "")
  end.

Lemma failure_status_spec attempts res applied :
  failure_status cfg attempts res applied = "retry" ∧ may_retry attempts res applied ∨
  failure_status cfg attempts res applied = "failed" ∧ ¬ may_retry attempts res applied.
Proof using Type.
  unfold failure_status, shouldRequeue, may_retry, job_attempt.
  destruct applied, (cf_RequeueOnFailure cfg); simpl; repeat case_bool_decide; repeat case_decide;
    solve [left; split; [done|]; first [by left|right; split; [done|lia]]
          |right; split; [done|]; intros [[? ?]|[? ?]]; (done || lia)].
Qed.

Lemma finish_result_outcome ctx attempts hints (st : Finish W) turn :
  ∃ o, fi_outcomes (finish_result store generated_at cfg repairCmd ctx
         attempts hints st turn) = fi_outcomes st ++ [o] ∧ outcome_matches attempts turn o.
Proof using Type.
  destruct turn as [[now jitter] res]. unfold finish_result, outcome_matches.
  destruct (rr_err res) as [err|] eqn:Herr.
  - unfold failure_fix. destruct (autoFix _ _ _ _ _ _ _ _) as [fix_ st'] eqn:Hfix.
    cbn [fi_outcomes]. eexists. split; [done|]. cbn.
    split; [done|]. split; [by rewrite Herr|]. split; [done|]. split.
    + assert (∀ b, af_Applied (if b : bool then set_blocked fix_ "max attempts reached" else fix_)
                   = af_Applied fix_) as -> by by intros [].
      destruct (failure_status_spec attempts res (af_Applied fix_)) as [[-> Hm]|[-> Hm]]; [by left|by right].
    + destruct (decide (summarizeLog (rr_log res) = "")); naive_solver.
  - cbn [fi_outcomes]. eexists. split; [done|]. cbn. by rewrite Herr.
Qed.

Lemma finish_results_outcomes ctx attempts hints turns (st : Finish W) :
  ∃ os, fi_outcomes (finish_results store generated_at cfg repairCmd ctx
          attempts hints turns st) = fi_outcomes st ++ os ∧
    Forall2 (outcome_matches attempts) turns os.
Proof using Type.
  unfold finish_results. revert st. induction turns as [|t turns IH]; intros st; cbn [foldl].
  - exists []. by rewrite app_nil_r.
  - destruct (finish_result_outcome ctx attempts hints st t) as (o & Ho & Hm).
    destruct (IH (finish_result store generated_at cfg repairCmd ctx attempts
                    hints st t)) as (os & -> & Hos).
    exists (o :: os). rewrite Ho, <-app_assoc. split; [done|]. by constructor.
Qed.

(** C12. What [Drain] reports of the results of its pool, whatever context it uses:
    one outcome for each result, in order, with the job, the error and the attempt
    of that result.  A result without an error is "built".  One with an error is
    "retry", held back by [backoffTime], exactly when automation applied a fix or
    requeueing is enabled, and the attempts made are below the maximum; otherwise
    it is "failed".  A failure is never reported without a summary, unless its
    error is empty. *)
Theorem finish_statuses ctx attempts hints turns (st : Finish W) :
  ∃ os, fi_outcomes (finish_results store generated_at cfg repairCmd ctx
          attempts hints turns st) = fi_outcomes st ++ os ∧
    Forall2 (outcome_matches attempts) turns os.
Proof using Type. apply finish_results_outcomes. Qed.

(** *** The requests the reports are sent with *)
Section trace.
Context (sent : W → list HttpReq).
Context (sent_do : ∀ r w, sent (do_req r w).2 = sent w ++ [r]).
(** The object store's client, too, sends nothing under a cancelled context. *)
Context (put_cancelled : ∀ os, store = Some os →
  ∀ key data w, sent (os_Put os cancelled key data w) = sent w).

Definition is_post (r : HttpReq) : Prop :=
  ∃ path, path ∈ ["/api/logs"; "/api/manifest"; "/api/history"] ∧
    rq_URL r = TrimRight (cf_ControlPlaneURL cfg) "/"%char +:+ path.
Definition only_posts (w w' : W) : Prop := ∃ l, sent w' = sent w ++ l ∧ Forall is_post l.

Lemma only_posts_refl w : only_posts w w.
Proof using Type. exists []. by rewrite app_nil_r. Qed.
Lemma only_posts_trans w1 w2 w3 : only_posts w1 w2 → only_posts w2 w3 → only_posts w1 w3.
Proof using Type.
  intros (l1 & Hl1 & Hf1) (l2 & Hl2 & Hf2). exists (l1 ++ l2).
  rewrite Hl2, Hl1, <-app_assoc. split; [done|]. by apply Forall_app.
Qed.

Lemma post_sends path body w :
  path ∈ ["/api/logs"; "/api/manifest"; "/api/history"] → only_posts w (post cfg path body w).
Proof using sent_do.
  intros Hp. unfold post. case_decide; [apply only_posts_refl|]. unfold http_call.
  destruct (url_ok _); [|apply only_posts_refl]. unfold http_do. simpl.
  eexists. split; [apply sent_do|]. constructor; [|done]. by exists path.
Qed.
Lemma post_outcome_sends now o w : only_posts w (post_outcome cfg now o w).
Proof using sent_do.
  unfold post_outcome. eapply only_posts_trans; [|apply post_sends, (bool_decide_unpack _); exact I].
  eapply only_posts_trans; apply post_sends, (bool_decide_unpack _); exact I.
Qed.

Lemma report_cancelled r w : reportBuildStatus status_json cfg cancelled r w = w.
Proof using Type. unfold reportBuildStatus. case_decide; [done|]. by rewrite http_call_cancelled. Qed.

Lemma upload_cancelled job (s : WorkerState W) :
  sent (wk_world (uploadArtifacts store generated_at cfg repairCmd cancelled job s)) =
    sent (wk_world s).
Proof using put_cancelled.
  unfold uploadArtifacts. destruct store as [os|]; [|done].
  destruct (uploads _ _ _ _ _) as [us fs']. simpl.
  generalize (wk_world s). induction us as [|u us IH]; intros w; [done|]. simpl. rewrite IH.
  destruct u as [key data|id data]; simpl; [by apply put_cancelled|].
  by rewrite (proj2 (Push_cancelled _ _ _ _ _)).
Qed.

Lemma finish_result_sends attempts hints (st : Finish W) turn :
  only_posts (wk_world (fi_s st))
    (wk_world (fi_s (finish_result store generated_at cfg repairCmd cancelled
       attempts hints st turn))).
Proof using sent_do put_cancelled.
  destruct turn as [[now jitter] res]. unfold finish_result. destruct (rr_err res) as [err|] eqn:Herr.
  - unfold failure_fix. cbv zeta.
    pose proof (autoFix_cancelled hint_json cfg now (rr_job res)
      (if decide (TrimSpace (rr_log res) = "")
       then (if decide (summarizeLog (rr_log res) = "") then err else summarizeLog (rr_log res))
       else rr_log res) hints
      (mkFixState (fi_last st) (fi_known st) (wk_world (fi_s st)))) as Hfix.
    destruct (autoFix _ _ _ _ _ _ _ _) as [fix_ st'] eqn:E. destruct Hfix as [Hw _]. simpl in Hw.
    cbn [fi_s]. unfold set_world. cbn [wk_world]. rewrite report_cancelled, Hw.
    apply post_outcome_sends.
  - cbn [fi_s fx_world]. rewrite report_cancelled.
    destruct (post_outcome_sends (now / Second)%Z
      (outcome_of store cfg res "built" "" no_fix (if decide ("built" = "retry")
         then backoffTime now jitter (rr_attempt res) else 0%Z)) (wk_world (fi_s st))) as (l & Hl & Hf).
    exists l. by rewrite upload_cancelled.
Qed.

End trace.
End finish_facts.

(** ** Failed fetches *)
Section failed_fetches.
Context {W : Type} `{GoRuntime, Sha256, Regexp, LogScan, Confidence, Machine, Tar, Shell, ManifestJson,
  HttpClient W, Runner, Encoders, Decoders}.
Context {Q : Type} `{Backend Q}.
Context (store : option (ObjectStore W)).
Context (generated_at : Job → string).
Context (cfg : Config) (repairCmd : string).
Context (generate : WorkerState W → result Snapshot * WorkerState W).

Lemma all_failed attempts jobs (p : Pool W) :
  pool_inv cfg attempts jobs p → Forall (λ q, q = Failed) (pl_pcs p) →
  pl_results p = replicate (length jobs) zero_result.
Proof using Type.
  intros Hinv Hf. symmetry. apply replicate_as_elem_of. split; [apply (pv_results _ _ _ _ Hinv)|].
  intros r Hr. apply list_elem_of_lookup in Hr as [i Hr].
  pose proof (lookup_lt_Some _ _ _ Hr) as Hlt. rewrite (pv_results _ _ _ _ Hinv) in Hlt.
  destruct (lookup_lt_is_Some_2 jobs i Hlt) as [job Hj].
  rewrite <-(pv_pcs _ _ _ _ Hinv) in Hlt. destruct (lookup_lt_is_Some_2 _ i Hlt) as [q Hq].
  pose proof (Forall_lookup_1 _ _ _ _ Hf Hq) as ->.
  by destruct (pv_stored _ _ _ _ Hinv i Failed job r Hq Hj Hr) as [-> _].
Qed.

(** A wheel that cannot be fetched is reported as built.  When the goroutines
    of a [Drain] all fail to fetch their wheels, [Drain] returns no error, and it
    reports for each job the status "built", under an empty package name. *)
Theorem Drain_swallows_failed_fetches fuel ctx inputDir sched clock poolSize st st1 req reqs jobs :
  drain_jobs cfg generate ctx inputDir st = Some (Ok (req :: reqs, jobs), st1) →
  let p := run_pool status_json cfg (reqAttempts (req :: reqs)) poolSize jobs sched
             (initial_pool jobs ctx (ds_s st1)) in
  Forall (λ q, q = Failed) (pl_pcs p) →
  (∀ w, is_Some (drain_hints cfg fuel w)) →
  ∃ st' os,
    Drain store generated_at cfg repairCmd generate fuel ctx inputDir sched clock
      poolSize st = Some (None, st') ∧
    ds_outcomes st' = ds_outcomes st1 ++ os ∧ length os = length jobs ∧
    Forall (λ o, oc_status o = "built" ∧ oc_job o = zero_job ∧ jb_Name (oc_job o) = "") os.
Proof using Type.
  intros Hj p Hfailed Hhints. unfold Drain. rewrite Hj. simpl. fold p. rewrite decide_True.
  2: { unfold pool_done. eapply Forall_impl; [exact Hfailed|]. by intros q ->. }
  assert (Hres : pl_results p = replicate (length jobs) zero_result).
  { eapply all_failed; [apply run_pool_inv, initial_pool_inv|done]. }
  unfold drain_finish. cbn [ds_s ds_last ds_queue ds_outcomes].
  destruct (Hhints (wk_world (pl_s p))) as [[[hints known] w'] ->]. cbn [mbind option_bind]. rewrite Hres.
  match goal with |- context [finish_results ?a ?b ?c ?d ?e ?f ?g ?t ?x] =>
    destruct (finish_results_outcomes a b c d e f g t x) as (os & Hos & Hall);
    set (fin := finish_results a b c d e f g t x) in * end.
  eexists _, os. split; [|split; [|split]].
  - f_equal. f_equal. unfold firstErr. clear. induction (length jobs); [done|]. simpl. done.
  - cbn [ds_outcomes]. by rewrite Hos.
  - rewrite <-(Forall2_length _ _ _ Hall), length_imap. apply length_replicate.
  - apply Forall_forall. intros o Ho. apply list_elem_of_lookup in Ho as [k Ho].
    destruct (Forall2_lookup_r _ _ _ _ _ Hall Ho) as (turn & Hturn & Hm).
    apply list_lookup_imap_Some in Hturn as (r & Hr & ->). apply lookup_replicate in Hr as [-> _].
    destruct (clock k). destruct Hm as (-> & _ & _ & Hb). simpl in Hb. by destruct Hb as (-> & _).
Qed.
End failed_fetches.

(** ** A run: one request is popped, its wheel is to be reused, and the registry
    does not have it *)
Definition run_world : HttpClient (list HttpReq) := {|
  url_ok _ := true;
  do_req r w := (Ok (mkResp (if Contains (rq_URL r) "/blobs/" then 404 else 200)%Z "" ""), w ++ [r]) |}.
Definition run_runner : Runner := {| run_job _ job fs := ((5%Z, "built " +:+ jb_Name job, None), fs) |}.
Definition run_encoders : Encoders := {|
  status_json r := sr_status r; hint_json _ := "{}"; log_json o := oc_status o;
  manifest_json _ := "[]"; event_json _ o := oc_status o |}.
Definition run_plan : string * list FlatNode * list DAGNode :=
  ("run", [mkFlatNode "six" "1.16" "3.11" "cp311" "any" "reuse" [] []],
   [mkDAGNode (mkID WheelType "sha256:aa") NodeWheel []
      (meta_of [("name", "six"); ("version", "1.16")]) "reuse"]).
Definition run_decoders : Decoders := {|
  decode_builds _ := Some [mkPoppedBuild "six" "1.16" "cp311" "any" 1 "run" 7 [] []];
  decode_plan _ := Some run_plan; decode_snapshot _ := None; decode_hints _ := Some [];
  set_query url k v := url +:+ "?" +:+ k +:+ "=" +:+ v |}.
Definition run_cfg : Config :=
  mkConfig "http://cp" "" "" 10 2 true 3 false false "low" 60 "/output" "/cache" "/cas" "http://zot" ""
    "" "" false false true false "" "" "" "" "" "" "" "3.11" "linux_s390x" 2.
Definition run_store : option (ObjectStore (list HttpReq)) := Some (mkObjectStore (λ _ _ _ w, w) None).
Definition run_start : DrainState (W := list HttpReq) (Q := Files) := mkDrainState (mkWorkerState ∅ [] ∅) ∅ ∅ [].
Definition run_no_plan (s : WorkerState (list HttpReq)) : result Snapshot * WorkerState (list HttpReq) :=
  (Err "no plan", s).
Definition run_Drain (sched : list nat) : option (option string * DrainState (W := list HttpReq) (Q := Files)) :=
  @Drain (list HttpReq) reference_runtime demo_sha literal_regexp demo_scan demo_confidence sample_machine
    demo_tar demo_shell demo_manifest run_world run_runner run_encoders run_decoders Files
    sample_file_queue run_store (λ _, "2026-01-01T00:00:00Z") run_cfg "true"
    run_no_plan 1 live "" sched (λ _, (0%Z, 0%Z)) 2 run_start.
Lemma run_hints w : is_Some (@drain_hints (list HttpReq) run_world run_decoders run_cfg 1 w).
Proof. by eexists. Defined.


Lemma Drain_returns_witness : ∃ n, ∀ sched,
  is_Some (run_Drain (sched ++ concat (replicate (4 * n) (seq 0 n)))).
Proof.
  apply (@Drain_returns (list HttpReq) reference_runtime demo_sha literal_regexp demo_scan demo_confidence
    sample_machine demo_tar demo_shell demo_manifest run_world run_runner run_encoders run_decoders Files
    sample_file_queue run_store (λ _, "2026-01-01T00:00:00Z") run_cfg "true" run_no_plan
    1 live "" (λ _, (0%Z, 0%Z)) 2 run_start).
  apply run_hints.
Defined.

Definition run_request : Request := mkRequest "six" "1.16" "3.11" "cp311" "any" [] 0 1 7 "run".
Definition run_popped : list Job * DrainState (W := list HttpReq) (Q := Files) :=
  match @drain_jobs (list HttpReq) reference_runtime demo_sha sample_machine demo_tar demo_shell
    demo_manifest run_world run_decoders Files sample_file_queue run_cfg run_no_plan live "" run_start with
  | Some (Ok (_, jobs), st1) => (jobs, st1)
  | _ => ([], run_start)
  end.
Lemma Drain_swallows_failed_fetches_witness : length run_popped.1 = 1 ∧ ∃ st' os,
  run_Drain [0; 0] = Some (None, st') ∧ ds_outcomes st' = ds_outcomes run_popped.2 ++ os ∧
  length os = length run_popped.1 ∧
  Forall (λ o, oc_status o = "built" ∧ oc_job o = zero_job ∧ jb_Name (oc_job o) = "") os.
Proof.
  split; [vm_compute; reflexivity|].
  apply (@Drain_swallows_failed_fetches (list HttpReq) reference_runtime demo_sha literal_regexp demo_scan
    demo_confidence sample_machine demo_tar demo_shell demo_manifest run_world run_runner run_encoders
    run_decoders Files sample_file_queue run_store (λ _, "2026-01-01T00:00:00Z") run_cfg
    "true" run_no_plan 1 live "" [0; 0] (λ _, (0%Z, 0%Z)) 2 run_start run_popped.2 run_request []
    run_popped.1).
  - vm_compute. reflexivity.
  - vm_compute. repeat constructor.
  - apply run_hints.
Defined.
