(* ===== verification/Samples.v ===== *)
(** Concrete instances and inputs, on which the theorems' witnesses evaluate:
    a digest function, the reference runtime, a small pack catalog and the
    inputs of a small plan. *)
From S2P Require Import Prelude.
From S2P Require Import GoStr.
From S2P Require Import Artifact.
From S2P Require Import Pack.
From S2P Require Import Http.
From S2P Require Import Cas.
From S2P Require Import Parse.
From S2P Require Import PlanTypes.
From S2P Require Import Planner.
Local Open Scope string_scope.
Local Open Scope list_scope.

(** A digest that keeps the content readable. *)
#[export] Instance sample_sha : Sha256 := {| sha256_hex := λ s, s |}.
#[export] Instance sample_runtime : GoRuntime := reference_runtime.
#[export] Instance sample_store : CasStore := NullStore.

Definition sample_catalog : Catalog := mkCatalog
  (list_to_map [("openssl", mkPackDef "openssl" "3.0" "" ""); ("zlib", mkPackDef "zlib" "1.3" "" "")])
  [mkRule "crypto" "" ["openssl"; "missing"] ""].
(** Stored under "zlib", but named "openssl", which depends on "zlib". *)
Definition misnamed_catalog : Catalog := mkCatalog
  (list_to_map [("zlib", mkPackDef "openssl" "3.0" "" "")]) [mkRule "crypto" "" ["zlib"] ""].

Definition sample_opts (strategy : string) (c : Catalog) : Options :=
  mkOptions strategy 0 (list_to_map [("idna", "==3.6")]) "" (Some c).
Definition sample_reqs : list DepSpec :=
  [mkDepSpec "cryptography" "41.0"; mkDepSpec "six" ""; mkDepSpec "" "1"].
Definition sample_wheel : WheelInput :=
  mkWheelInput "requests-2.31.0-py3-none-any.whl"
    (mkWheelInfo "requests" "2.31.0" "py3" "none" "any") "sha256:aa"
    [mkDepSpec "idna" ""; mkDepSpec "six" ">=1.0"].
Definition sample_wheels : list WheelInput := [sample_wheel].
(** The latest version of every package is "9". *)
Definition sample_resolver : Resolver := Some (λ _, Ok "9").

Definition sample_plan (strategy : string) : option (result Snapshot) :=
  computeWithResolverInputs ∅ "run" sample_reqs sample_wheels "3.11" "linux_s390x"
    (sample_opts strategy sample_catalog) sample_resolver.
Definition ok_or {A} (d : A) (r : option (result A)) : A :=
  if r is Some (Ok a) then a else d.
Definition sample_snap (strategy : string) : Snapshot :=
  ok_or (mkSnapshot "" [] [] None) (sample_plan strategy).
Definition dag_at (snap : Snapshot) (k : nat) : DAGNode :=
  default (mkDAGNode (mkID PackType "") NodePack [] ∅ "") (sn_DAG snap !! k).
