(* ===== verification/PlanTheorems.v ===== *)
(** What planning promises, stated on [computeWithResolverInputs]. *)
From S2P Require Import Prelude.
From S2P Require Import GoStr.
From S2P Require Import Artifact.
From S2P Require Import Pack.
From S2P Require Import Http.
From S2P Require Import Cas.
From S2P Require Import Parse.
From S2P Require Import PlanTypes.
From S2P Require Import Planner.
From S2P Require Import PlannerFacts.
From S2P Require Import Samples.
Local Open Scope string_scope.
Local Open Scope list_scope.
Local Open Scope nat_scope.

Section theorems.
Context `{GoRuntime, Sha256, CasStore}.
Context (fs : Files) (runID : string) (reqs : list DepSpec) (wheels : list WheelInput).
Context (py plat : string) (opts : Options) (resolver : Resolver).

Abbreviation eff := (default_max_deps opts).
Abbreviation constraints := (Plan.loadConstraints fs (op_ConstraintsPath opts)).

Lemma default_max_deps_eq :
  op_UpgradeStrategy eff = op_UpgradeStrategy opts ∧
  op_PackageOverrides eff = op_PackageOverrides opts ∧
  op_ConstraintsPath eff = op_ConstraintsPath opts ∧
  op_PackCatalog eff = op_PackCatalog opts ∧ (0 < op_MaxDeps eff)%Z.
Proof using Type. unfold default_max_deps. case_decide; split_and!; simpl; try done; lia. Qed.

(** A run that returns, split into its loops and its verdict. *)
Lemma compute_loops r :
  computeWithResolverInputs fs runID reqs wheels py plat opts resolver = Some r → ∃ st,
    plan_loops eff resolver constraints py plat (plan_fuel eff) reqs wheels = Some st ∧
    plan_result eff runID st = r.
Proof using Type.
  unfold computeWithResolverInputs. destruct default_max_deps_eq as (_ & _ & -> & _).
  intros Hc. apply fmap_Some in Hc as (st & Hst & ->). eauto.
Qed.

Lemma plan_result_ok st snap :
  plan_result eff runID st = Ok snap →
  ps_hasInput st = true ∧ ps_depTruncated st = false ∧
  sn_Plan snap = ps_nodes st ∧ sn_DAG snap = ps_dagNodes st.
Proof using Type.
  unfold plan_result. destruct (ps_hasInput st), (ps_depTruncated st); simpl; intros; by simplify_eq.
Qed.

Lemma compute_ok snap :
  computeWithResolverInputs fs runID reqs wheels py plat opts resolver = Some (Ok snap) → ∃ st,
    plan_inv py st ∧ loops_result eff resolver constraints reqs wheels st ∧
    Forall (flat_justified eff py plat wheels) (ps_nodes st) ∧
    Forall (dag_justified eff py plat wheels) (ps_dagNodes st) ∧
    ps_depTruncated st = false ∧ sn_Plan snap = ps_nodes st ∧ sn_DAG snap = ps_dagNodes st.
Proof using Type.
  intros (st & Hl & (_ & Htr & Hp & Hd)%plan_result_ok)%compute_loops.
  pose proof Hl as Hinv%plan_loops_inv. pose proof Hl as Hr%plan_loops_result.
  apply plan_loops_actions in Hl as [??]. exists st. split_and!; done.
Qed.

(** The keys of the flat plan. *)
Definition planned (snap : Snapshot) (name version : string) : Prop :=
  ∃ n, n ∈ sn_Plan snap ∧ plan_key (fn_Name n) (fn_Version n) = plan_key name version.

Lemma planned_seen snap st name version :
  plan_inv py st → sn_Plan snap = ps_nodes st →
  plan_key name version ∈ ps_seen st → planned snap name version.
Proof using Type.
  intros Hinv Hp (n & Hk & Hn)%(pi_seen _ _ Hinv)%list_elem_of_fmap.
  exists n. rewrite Hp. split; [done|]. by rewrite Hk.
Qed.

Lemma dep_version_eager (o : Options) r c dep spec ver :
  op_UpgradeStrategy o = "eager" → latest_or r dep "" = ver → ver ≠ "" →
  dep_version o r c dep spec = ver.
Proof using Type.
  intros He Hl Hne. unfold dep_version. rewrite Hl. cbv zeta.
  rewrite bool_decide_true by done. by rewrite decide_False.
Qed.

(** Planning returns: with a catalog whose packs carry the name they are
    stored under, [computeWithResolverInputs] ends, with a plan or an error,
    on every input, whatever the map order, the store and the resolver are. *)
Theorem plan_returns : wf_opts opts → is_Some (computeWithResolverInputs fs runID reqs wheels py plat opts resolver).
Proof using Type.
  intros Hwf. unfold computeWithResolverInputs. apply fmap_is_Some, plan_loops_total.
  unfold wf_opts in *. by destruct default_max_deps_eq as (_ & _ & _ & -> & _).
Qed.

(** C1. The DAG of a plan is closed and in topological order: every input of a
    node is the ID of a node at a smaller index, so a builder that walks the
    list in order finds every input made before it is needed. *)
Theorem plan_dag_topological snap k n i :
  computeWithResolverInputs fs runID reqs wheels py plat opts resolver = Some (Ok snap) → sn_DAG snap !! k = Some n → i ∈ dn_Inputs n →
  ∃ j m, j < k ∧ sn_DAG snap !! j = Some m ∧ dn_ID m = i.
Proof using Type.
  intros (st & Hinv & _ & _ & _ & _ & _ & Hd)%compute_ok Hk Hi. rewrite Hd in *.
  apply (closed_dag_lookup _ k n); [|done..]. apply Hinv.
Qed.


(** C39. A plan names no package at the same version twice, and its length is at
    most the number of requirements and wheels plus the dependency bound (1000
    where none is configured). *)
Theorem plan_unique_and_bounded snap :
  computeWithResolverInputs fs runID reqs wheels py plat opts resolver = Some (Ok snap) →
  NoDup ((λ n, plan_key (fn_Name n) (fn_Version n)) <$> sn_Plan snap) ∧
  (Z.of_nat (length (sn_Plan snap)) <= Z.of_nat (length reqs + length wheels) +
    Z.max (Z.of_nat (length reqs)) (op_MaxDeps eff))%Z.
Proof using Type.
  intros (st & Hinv & Hr & _ & _ & _ & -> & _)%compute_ok.
  split; [apply Hinv|apply Hr].
Qed.

(** What a failed plan means: the only two errors are that no requirement
    has a name and no wheel a name and a version, or that more dependencies
    were met than allowed; and the first is reported exactly in its case. *)
Theorem plan_errors r :
  computeWithResolverInputs fs runID reqs wheels py plat opts resolver = Some r →
  let no_input := (∀ spec, spec ∈ reqs → ¬ valid_requirement spec) ∧
                  (∀ w, w ∈ wheels → ¬ valid_wheel w) in
  (no_input ↔ r = Err "no wheels or requirements found in input set") ∧
  (is_ok r = true ∨ no_input ∨
   r = Err ("dependency expansion exceeded MaxDeps (" +:+ itoa (op_MaxDeps eff)
            +:+ "); increase MAX_DEPS or trim input")).
Proof using Type.
  intros (st & Hl & <-)%compute_loops no_input.
  pose proof (lr_input _ _ _ _ _ _ (plan_loops_result _ _ _ _ _ _ _ _ Hl)) as Hin.
  assert (Hno : no_input ↔ ps_hasInput st = false).
  { rewrite <-not_true_iff_false, Hin. unfold no_input. naive_solver. }
  rewrite Hno. unfold plan_result.
  destruct (ps_hasInput st), (ps_depTruncated st); simpl; split_and!; auto; split; intros; done.
Qed.


(** The eager strategy plans the latest version of every requirement, next
    to the version the requirement pins, which is planned too. *)
Theorem plan_eager_adds_latest snap spec resolve ver :
  computeWithResolverInputs fs runID reqs wheels py plat opts resolver = Some (Ok snap) → op_UpgradeStrategy opts = "eager" → resolver = Some resolve →
  spec ∈ reqs → valid_requirement spec →
  resolve (normalizeName (ds_Name spec)) = Ok ver → ver ≠ "" →
  planned snap (normalizeName (ds_Name spec)) ver ∧
  planned snap (normalizeName (ds_Name spec)) (requirement_version resolver spec).
Proof using Type.
  intros (st & Hinv & [_ Hreqs Hdeps _ _ _] & _ & _ & _ & Hp & _)%compute_ok He Hres Hs Hv Hver Hne.
  split; [|eapply planned_seen; eauto].
  destruct (Hdeps spec Hs Hv) as [s Hk]. eapply planned_seen; [done|done|].
  rewrite (dep_version_eager _ _ _ _ _ ver) in Hk; [done| |by rewrite Hres; simpl; rewrite Hver|done].
  by destruct default_max_deps_eq as (-> & _).
Qed.
End theorems.

Section divergence.
Context `{GoRuntime, Sha256, CasStore}.

Lemma addPack_cycle opts c def dep rest fuel st :
  op_PackCatalog opts = Some c → packDependencies (pd_Name def) = dep :: rest →
  cat_Packs c !! dep = Some def → id_Digest (packIDForDef def) ∉ ps_packSeen st →
  addPack opts fuel def st = None.
Proof.
  intros Hc Hdeps Hdef Hseen. revert st Hseen. induction fuel as [|fuel IH]; intros st Hseen; [done|].
  simpl. rewrite decide_False by done. rewrite Hc, Hdeps. simpl. rewrite Hdef.
  by rewrite IH.
Qed.

(** A catalog with a pack stored under the name of its own dependency
    ("zlib" holding a definition named "openssl") makes planning recurse
    forever: no amount of fuel returns a plan for a package that selects it. *)
Theorem plan_diverges opts resolver constraints py plat c def dep rest defs spec reqs wheels fuel :
  op_PackCatalog opts = Some c → packDependencies (pd_Name def) = dep :: rest →
  cat_Packs c !! dep = Some def → normalizeName (ds_Name spec) ≠ "" →
  (selectPacks opts (normalizeName (ds_Name spec))).1.1 = def :: defs →
  plan_loops opts resolver constraints py plat fuel (spec :: reqs) wheels = None.
Proof.
  intros Hc Hdeps Hdef Hname Hsel. unfold plan_loops. simpl.
  unfold requirement_step. rewrite decide_False by done.
  unfold emitOnce. rewrite decide_False by (simpl; set_solver). unfold emitWheel.
  destruct (selectPacks opts (normalizeName (ds_Name spec))) as [[ds pids] digests].
  simpl in Hsel. subst ds. unfold addPackNodes. simpl.
  rewrite (addPack_cycle opts c def dep rest); [done..|]. simpl. set_solver.
Qed.
End divergence.

(** ** Witnesses *)
Abbreviation lazy := (sample_snap "lazy").
Abbreviation lopts := (sample_opts "lazy" sample_catalog).

Lemma sample_plan_ok : sample_plan "lazy" = Some (Ok lazy).
Proof. vm_compute. reflexivity. Qed.

Lemma sample_wf : wf_opts lopts.
Proof. apply (bool_decide_unpack (wf_catalog sample_catalog)). vm_compute. done. Qed.

Lemma plan_returns_witness : is_Some (sample_plan "lazy").
Proof.
  exact (plan_returns ∅ "run" sample_reqs sample_wheels "3.11" "linux_s390x" lopts
    sample_resolver sample_wf).
Defined.

(** The wheel at index 3 is made from the runtime and the pack "openssl", found
    at the indices 0 and 2. *)
Lemma plan_dag_topological_witness :
  ∃ j m, j < 3 ∧ sn_DAG lazy !! j = Some m ∧ dn_ID m = dn_ID (dag_at lazy 2).
Proof.
  apply (plan_dag_topological ∅ "run" sample_reqs sample_wheels "3.11" "linux_s390x" lopts
    sample_resolver lazy 3 (dag_at lazy 3)).
  - exact sample_plan_ok.
  - vm_compute. reflexivity.
  - apply (bool_decide_unpack (_ ∈ _)). vm_compute. done.
Defined.


Lemma plan_unique_and_bounded_witness : (Z.of_nat (length (sn_Plan lazy)) <= 4 + 1000)%Z.
Proof.
  apply (plan_unique_and_bounded ∅ "run" sample_reqs sample_wheels "3.11" "linux_s390x" lopts
    sample_resolver lazy sample_plan_ok).
Defined.

Lemma plan_errors_witness :
  computeWithResolverInputs ∅ "run" [mkDepSpec "" "1"] [] "3.11" "linux_s390x" lopts None =
    Some (Err "no wheels or requirements found in input set").
Proof.
  destruct (plan_returns ∅ "run" [mkDepSpec "" "1"] [] "3.11" "linux_s390x" lopts None
    sample_wf) as [r Hr].
  rewrite Hr. f_equal. apply (plan_errors _ _ _ _ _ _ _ _ r Hr).
  split; [|set_solver]. intros spec ->%list_elem_of_singleton Hv. by apply Hv.
Defined.


(** "cryptography==41.0" is planned at 41.0 and at the latest version, 9. *)
Lemma plan_eager_adds_latest_witness :
  planned (sample_snap "eager") "cryptography" "9" ∧ planned (sample_snap "eager") "cryptography" "41.0".
Proof.
  apply (plan_eager_adds_latest ∅ "run" sample_reqs sample_wheels "3.11" "linux_s390x"
    (sample_opts "eager" sample_catalog) sample_resolver (sample_snap "eager")
    (mkDepSpec "cryptography" "41.0") (λ _, Ok "9") "9").
  - vm_compute. reflexivity.
  - done.
  - done.
  - set_solver.
  - done.
  - done.
  - done.
Defined.

Lemma plan_diverges_witness :
  plan_loops (sample_opts "" misnamed_catalog) None ∅ "3.11" "linux_s390x" 1000
    [mkDepSpec "cryptography" ""] [] = None.
Proof.
  eapply (plan_diverges _ _ _ _ _ misnamed_catalog (mkPackDef "openssl" "3.0" "" "") "zlib" [] []);
    by vm_compute.
Defined.
