(* ===== verification/GenerateTheorems.v ===== *)
(** Theorems about the entry points of the planner and the index client
    ([Generate]). *)
From S2P Require Import Prelude.
From S2P Require Import GoStr.
From S2P Require Import Artifact.
From S2P Require Import Pack.
From S2P Require Import Http.
From S2P Require Import Cas.
From S2P Require Import Parse.
From S2P Require Import PlanTypes.
From S2P Require Import Planner.
From S2P Require Import PlannerFacts.
From S2P Require Import Hints.
From S2P Require Import Queue.
From S2P Require Import Generate.
From S2P Require Import Codecs.
From S2P Require Import BuildStore.
From S2P Require Import Samples.
From S2P Require Import PlanTheorems.
Local Open Scope string_scope.
Local Open Scope list_scope.

(** ** The index client *)
Section index.
Context `{IndexPeer}.

(** A base whose host is not PyPI's is refused before any request. *)
Definition foreign_host (base : string) : Prop :=
  ∀ scheme host, url_parse base = Ok (scheme, host) → Contains host "pypi.org" = false.
Lemma fetchLatest_foreign c base name :
  foreign_host base → ∃ e, fetchLatest c base name = Some (Err e).
Proof.
  intros Hf. unfold fetchLatest. destruct (url_parse base) as [[scheme host]|e] eqn:Hu; [|eauto].
  rewrite (Hf scheme host Hu). eauto.
Qed.
Lemma ResolveLatest_foreign c name :
  Forall foreign_host (indexes c) → ∃ e, ResolveLatest c name = Some (Err e).
Proof.
  unfold ResolveLatest. generalize (@nil string) as errs. intros errs Hall. revert errs.
  induction Hall as [|base bases Hb _ IH]; intros errs; simpl; [eauto|].
  destruct (fetchLatest_foreign c base name Hb) as [e ->]. simpl. apply IH.
Qed.

(** The answer is that of the first index that gives a version. *)
Lemma resolve_loop_spec c name bases errs :
  match resolve_loop c name bases errs with
  | None => ∃ k base, bases !! k = Some base ∧ fetchLatest c base name = None
  | Some (Ok ver) => ver ≠ "" ∧ ∃ k base, bases !! k = Some base ∧ fetchLatest c base name = Some (Ok ver) ∧
      ∀ j b, j < k → bases !! j = Some b → fetchLatest c b name = Some (Ok "") ∨
        ∃ e, fetchLatest c b name = Some (Err e)
  | Some (Err _) => ∀ b, b ∈ bases → fetchLatest c b name = Some (Ok "") ∨
        ∃ e, fetchLatest c b name = Some (Err e)
  end.
Proof.
  revert errs. induction bases as [|base bases IH]; intros errs; simpl; [set_solver|].
  destruct (fetchLatest c base name) as [[ver|e]|] eqn:Hf; simpl.
  - case_decide as Hv; [subst ver|split; [done|]; exists 0, base; split_and!; [done..|lia]].
    specialize (IH (errs ++ [base +:+ ": empty response"])).
    destruct (resolve_loop _ _ _ _) as [[ver|e]|].
    + destruct IH as (Hne & k & b & Hk & Hfb & Hbefore). split; [done|]. exists (S k), b. split_and!; [done..|].
      intros [|j] b' Hj Hb'; simplify_eq/=; [by left|]. apply (Hbefore j); [lia|done].
    + intros b [->|Hb]%elem_of_cons; [by left|by apply IH].
    + destruct IH as (k & b & Hk & Hfb). by exists (S k), b.
  - specialize (IH (errs ++ [base +:+ ": " +:+ e])).
    destruct (resolve_loop _ _ _ _) as [[ver|e']|].
    + destruct IH as (Hne & k & b & Hk & Hfb & Hbefore). split; [done|]. exists (S k), b. split_and!; [done..|].
      intros [|j] b' Hj Hb'; simplify_eq/=; [right; eauto|]. apply (Hbefore j); [lia|done].
    + intros b [->|Hb]%elem_of_cons; [right; eauto|by apply IH].
    + destruct IH as (k & b & Hk & Hfb). by exists (S k), b.
  - by exists 0, base.
Qed.
End index.

(** ** What a run asks and whether it returns *)
Section generate.
Context `{GoRuntime, Sha256, CasStore, Regexp, Machine, Zip, IndexPeer, Codec Snapshot}.
Context (env : string → string) (atoi : string → option Z).
Context (decode_overrides : string → option (gmap string string)) (runID : string).

Abbreviation GenerateFromInputs := (GenerateFromInputs env atoi decode_overrides runID).
Abbreviation options a := (generate_options env atoi decode_overrides a (ga_ConstraintsPath a)).
Abbreviation client a := (generate_client env a).
(** The names [GenerateFromInputs] asks the indexes for. *)
Definition generate_asks (inputs : InputSet) (a : GenerateArgs) (fs : Files) : list string :=
  asked (default_max_deps (options a)) (index_resolver (client a))
    (Plan.loadConstraints fs (ga_ConstraintsPath a)) (ga_PythonVersion a) (ga_PlatformTag a)
    (plan_fuel (options a)) (is_Requirements inputs) (is_Wheels inputs).

Lemma asks_along_in {A} (asks : A → PlanState → list string) step (l : list A) st st' x name :
  fold_opt step l st = Some st' → x ∈ l → (∀ s, name ∈ asks x s) → name ∈ asks_along asks step l st.
Proof using Type.
  revert st. induction l as [|y l IH]; intros st Hf Hx Hn; [by apply elem_of_nil in Hx|]. simpl in *.
  destruct (step y st) as [s|]; [|done]. simpl in Hf. rewrite elem_of_app.
  apply elem_of_cons in Hx as [->|Hx]; [by left|right]. by apply IH.
Qed.

Lemma plan_fuel_default opts : plan_fuel (default_max_deps opts) = plan_fuel opts.
Proof using Type. unfold plan_fuel, default_max_deps. by case_decide. Qed.

(** A requirement can bring the planner down.  The index client builds a
    request from the package's name and uses it without looking at the error: if
    PyPI's URL for the name does not parse (a name with a broken percent escape
    is enough, and the upload accepts it), planning any input set with this
    requirement at no version panics, and with it the worker's process. *)
Theorem requirement_panics_planner inputs a fs spec scheme host e :
  spec ∈ is_Requirements inputs → normalizeName (ds_Name spec) ≠ "" → TrimSpace (ds_Version spec) = "" →
  ga_IndexURL a ≠ "" → url_parse (ga_IndexURL a) = Ok (scheme, host) → Contains host "pypi.org" = true →
  url_parse (api_url scheme host (normalizeName (ds_Name spec))) = Err e →
  GenerateFromInputs inputs a fs = None.
Proof using Type.
  intros Hin Hne Hver Hurl Hbase Hhost Hbad.
  assert (Hpanic : ResolveLatest (client a) (normalizeName (ds_Name spec)) = None).
  { unfold ResolveLatest, indexes, generate_client. cbn [ic_BaseURL ic_ExtraIndexURL].
    rewrite filter_cons_True by done. rewrite decide_False by done. cbn [resolve_loop].
    unfold fetchLatest. by rewrite Hbase, Hhost, Hbad. }
  unfold Generate.GenerateFromInputs, compute_from_index. case_decide as Hex; [done|].
  unfold computeWithResolverInputs.
  destruct (plan_loops _ _ _ _ _ _ _ _) as [st|] eqn:Hl; [|done]. exfalso. apply Hex, Exists_exists.
  exists (normalizeName (ds_Name spec)). split; [|done].
  unfold asked, plan_loops in *. cbv zeta in *. rewrite plan_fuel_default in Hl.
  destruct (fold_opt _ (is_Requirements inputs) _) as [s1|] eqn:E1; [|done].
  rewrite elem_of_app. left. eapply asks_along_in; [exact E1|exact Hin|].
  intros s. unfold requirement_asks. rewrite decide_False by done. rewrite Hver. simpl. by left.
Qed.

Lemma GenerateFromInputs_total inputs a fs :
  wf_opts (options a) →
  Forall (λ name, is_Some (ResolveLatest (client a) name)) (generate_asks inputs a fs) →
  is_Some (GenerateFromInputs inputs a fs).
Proof using Type.
  intros Hwf Hall. unfold Generate.GenerateFromInputs, compute_from_index. rewrite fmap_is_Some.
  change (asked _ _ _ _ _ _ _ _) with (generate_asks inputs a fs). rewrite decide_False.
  - unfold computeWithResolverInputs. apply fmap_is_Some, plan_loops_total.
    unfold wf_opts in *. by destruct (default_max_deps_eq (options a)) as (_ & _ & _ & -> & _).
  - rewrite Exists_exists. intros (n & Hn & Hnone). rewrite Forall_forall in Hall.
    specialize (Hall n Hn). rewrite Hnone in Hall. by destruct Hall.
Qed.


(** What a successful run leaves: the snapshot it returns is the computed plan
    with hints and registry added, reading plan.json back gives that snapshot, and
    no other file has changed; a run with an error has changed no file. *)
Theorem GenerateFromInputs_writes_plan inputs a fs r fs' :
  GenerateFromInputs inputs a fs = Some (r, fs') →
  match r with
  | Err _ => fs' = fs
  | Ok snap =>
    Load (plan_path a) fs' = Ok snap ∧
    (∀ path, path ≠ plan_path a → fs' !! path = fs !! path) ∧
    ∃ computed, snap = finish_snapshot a computed ∧
      computeWithResolverInputs fs runID (is_Requirements inputs) (is_Wheels inputs)
        (ga_PythonVersion a) (ga_PlatformTag a) (options a) (index_resolver (client a)) =
        Some (Ok computed)
  end.
Proof using Type.
  unfold Generate.GenerateFromInputs. intros (c & Hc & Hw)%fmap_Some. unfold write_snapshot in Hw.
  destruct c as [computed|e]; [|by simplify_eq].
  destruct (Write _ _ _) as [fs1|e] eqn:Hwr; simplify_eq; [|done]. split_and!.
  - by eapply Load_Write.
  - intros path Hne. by eapply Write_only.
  - exists computed. split; [done|]. unfold compute_from_index in Hc. by case_decide.
Qed.

(** INDEX_URL and EXTRA_INDEX_URL are accepted but not used unless their host is
    PyPI's: with other indexes every resolution fails without a request, and a
    requirement without a version is planned at the empty version, which the
    build queue then drops. *)
Theorem private_index_is_not_used inputs a fs snap spec fs' :
  Forall foreign_host (indexes (client a)) →
  GenerateFromInputs inputs a fs = Some (Ok snap, fs') →
  spec ∈ is_Requirements inputs → normalizeName (ds_Name spec) ≠ "" → TrimSpace (ds_Version spec) = "" →
  (∃ e, ResolveLatest (client a) (normalizeName (ds_Name spec)) = Some (Err e)) ∧
  ∃ n, n ∈ sn_Plan snap ∧
    plan_key (fn_Name n) (fn_Version n) = plan_key (normalizeName (ds_Name spec)) "" ∧
    (fn_Name n = normalizeName (ds_Name spec) → ¬ is_build_node n).
Proof using Type.
  intros Hf Hg Hin Hne Hver.
  destruct (ResolveLatest_foreign (client a) (normalizeName (ds_Name spec)) Hf) as [e He].
  split; [eauto|]. unfold Generate.GenerateFromInputs in Hg. apply fmap_Some in Hg as (c & Hc & Hw).
  unfold write_snapshot in Hw. destruct c as [computed|e']; [|done].
  destruct (Write _ _ _) as [fs1|e']; simplify_eq. unfold compute_from_index in Hc. case_decide; [done|].
  apply compute_ok in Hc as (st & Hinv & [_ Hreqs _ _ _ _] & _ & _ & _ & Hp & _).
  specialize (Hreqs spec Hin Hne).
  assert (requirement_version (index_resolver (client a)) spec = "") as Hrv.
  { unfold requirement_version. rewrite Hver. unfold latest_or, index_resolver.
    rewrite He. simpl. done. }
  rewrite Hrv in Hreqs. destruct (planned_seen _ computed st _ _ Hinv Hp Hreqs) as (n & Hn & Hkey).
  assert (Hplan : ∃ n', n' ∈ sn_Plan (finish_snapshot a computed) ∧
    fn_Name n' = fn_Name n ∧ fn_Version n' = fn_Version n).
  { assert (sn_Plan (finish_snapshot a computed) = sn_Plan (AttachHints computed (ga_Hints a))) as ->
      by (unfold finish_snapshot; by case_decide).
    unfold AttachHints. case_decide; [by exists n|]. simpl. exists (attach_node (ga_Hints a) n).
    split; [by apply list_elem_of_fmap_2|]. unfold attach_node. by repeat case_match. }
  destruct Hplan as (n' & Hn' & Hname & Hvers). exists n'. split; [done|]. rewrite Hname, Hvers.
  split; [done|]. intros Heq [_ [_ Hv]]. apply Hv. rewrite Hvers. rewrite Heq in Hkey.
  unfold plan_key in Hkey. by repeat apply (inj (String.append _)) in Hkey.
Qed.
End generate.

(** ** Examples *)
(** URLs split at "://" and "/"; a broken percent escape does not parse. *)
Definition sample_url_parse (url : string) : result (string * string) :=
  if Contains url "%zz" then Err "invalid URL escape"
  else match Index url "://" with
       | None => Ok ("", "")
       | Some i =>
         let rest := str_drop (i + 3) url in
         Ok (str_take i url, match Index rest "/" with Some j => str_take j rest | None => rest end)
       end.
Definition sample_index : IndexPeer := {|
  url_parse := sample_url_parse; index_get _ _ := Ok (mkResp 200%Z "" "9"); info_version body := Ok body |}.
#[local] Existing Instances sample_index literal_regexp sample_machine snapshot_codec.
#[local] Instance no_zip : Zip := {| zip_read _ := Err "zip: not a valid zip file" |}.
Definition no_env (_ : string) : string := "".
Definition no_atoi (_ : string) : option Z := None.
Definition no_overrides (_ : string) : option (gmap string string) := None.
Definition sample_args (index : string) : GenerateArgs :=
  mkGenerateArgs "/cache" "3.11" "linux_s390x" index "" "pinned" "" [] (Some sample_catalog) "" "".
Definition sample_inputs (name version : string) : InputSet := mkInputSet [mkDepSpec name version] [].
Definition sample_generate (index name version : string) : option (result Snapshot * Files) :=
  GenerateFromInputs no_env no_atoi no_overrides "run" (sample_inputs name version) (sample_args index) ∅.
Definition generated (index name version : string) : Snapshot * Files :=
  match sample_generate index name version with
  | Some (Ok snap, fs) => (snap, fs)
  | _ => (mkSnapshot "" [] [] None, ∅)
  end.

Lemma requirement_panics_planner_witness :
  sample_generate "https://pypi.org/simple" "six%zz" "" = None.
Proof.
  apply (requirement_panics_planner no_env no_atoi no_overrides "run" (sample_inputs "six%zz" "")
    (sample_args "https://pypi.org/simple") ∅ (mkDepSpec "six%zz" "") "https" "pypi.org" "invalid URL escape").
  - apply list_elem_of_here.
  - discriminate.
  - reflexivity.
  - discriminate.
  - reflexivity.
  - reflexivity.
  - vm_compute. reflexivity.
Defined.


Lemma GenerateFromInputs_writes_plan_witness :
  Load "/cache/plan.json" (generated "" "six" "1.0").2 = Ok (generated "" "six" "1.0").1.
Proof.
  apply (GenerateFromInputs_writes_plan no_env no_atoi no_overrides "run" (sample_inputs "six" "1.0")
    (sample_args "") ∅ (Ok (generated "" "six" "1.0").1) (generated "" "six" "1.0").2).
  vm_compute. reflexivity.
Defined.

Lemma private_index_is_not_used_witness :
  ∃ e, ResolveLatest (generate_client no_env (sample_args "http://devpi/simple")) "six" = Some (Err e).
Proof.
  apply (private_index_is_not_used no_env no_atoi no_overrides "run" (sample_inputs "six" "")
    (sample_args "http://devpi/simple") ∅ (generated "http://devpi/simple" "six" "").1 (mkDepSpec "six" "")
    (generated "http://devpi/simple" "six" "").2).
  - constructor; [|constructor]. intros scheme host. vm_compute. intros Heq. injection Heq as <- <-. reflexivity.
  - vm_compute. reflexivity.
  - apply list_elem_of_here.
  - discriminate.
  - reflexivity.
Defined.
