(* ===== verification/UploadFacts.v ===== *)
(** What the upload handlers promise: where an upload is stored, and that the
    worker reads back from an accepted input what was uploaded. *)
From S2P Require Import Prelude.
From S2P Require Import GoStr.
From S2P Require Import Artifact.
From S2P Require Import Http.
From S2P Require Import Parse.
From S2P Require Import PlanTypes.
From S2P Require Import Planner.
From S2P Require Import Queue.
From S2P Require Import Generate.
From S2P Require Import Config.
From S2P Require Import Sql.
From S2P Require Import BuildStore.
From S2P Require Import Pending.
From S2P Require Import PlanLoop.
From S2P Require Import Upload.
From S2P Require Import System.
From S2P Require Import Codecs.
From S2P Require Import SystemSamples.
From S2P Require Import BuildQueue.
From S2P Require Import PendingFacts.
From Stdlib Require Import Ascii.
Local Open Scope string_scope.
Local Open Scope list_scope.

(** ** Object keys *)
(** Replacing ".." leaves none: what is put in its place has no dot. *)
Lemma replace_dots s k :
  Index (replace_go ".." "_" k s) ".." = None ∧
  (HasPrefix (replace_go ".." "_" k s) "." = true → HasPrefix (str_drop k s) "." = true ∧
                                                    HasPrefix (str_drop k s) ".." = false).
Proof.
  revert k. induction s as [|c s IH]; intros [|k]; [done..| |].
  - cbn [replace_go str_drop]. destruct (HasPrefix (String c s) "..") eqn:Hp.
    + destruct (IH (String.length ".." - 1)) as [Hi _]. rewrite append_cons, append_nil_l. split; [|done].
      cbn [Index]. rewrite HasPrefix_cons. by rewrite Hi.
    + destruct (IH 0%nat) as [Hi Hd]. split.
      * cbn [Index]. rewrite Hi. destruct (HasPrefix (String c (replace_go _ _ _ _)) "..") eqn:Hq; [|done]. exfalso.
        rewrite HasPrefix_cons in Hq, Hp. apply andb_true_iff in Hq as [Hc Hq]. rewrite Hc in Hp. simpl in Hp.
        apply Hd in Hq as [Hq _]. cbn [str_drop] in Hq. congruence.
      * rewrite !HasPrefix_cons. intros [Hc _]%andb_true_iff. rewrite Hc. split; [by destruct s|].
        rewrite <-Hp. by rewrite HasPrefix_cons.
  - apply IH.
Qed.
Lemma HasPrefix_map_dots s : HasPrefix (str_map (λ c, if bool_decide (c = "/"%char) then "_"%char else c) s) ".." = HasPrefix s "..".
Proof.
  destruct s as [|a [|b s]]; [done| |]; cbn [str_map]; rewrite !HasPrefix_cons.
  - change (HasPrefix "" ".") with false. by rewrite !andb_false_r.
  - assert (Hd : ∀ x, bool_decide ((if bool_decide (x = "/"%char) then "_"%char else x) = "."%char) = bool_decide (x = "."%char)).
    { intros x. destruct (bool_decide (x = "/"%char)) eqn:Hx; [|done]. by apply bool_decide_eq_true in Hx as ->. }
    rewrite !Hd. do 2 f_equal. by destruct s.
Qed.
Lemma Index_map_dots s : Index s ".." = None →
  Index (str_map (λ c, if bool_decide (c = "/"%char) then "_"%char else c) s) ".." = None.
Proof.
  induction s as [|c s IH]; [done|]. pose proof (HasPrefix_map_dots (String c s)) as Hm.
  cbn [str_map Index] in *. rewrite Hm. destruct (HasPrefix (String c s) ".."); [done|].
  destruct (Index s "..") as [i|]; [done|]. intros _. by rewrite IH.
Qed.
Lemma str_forall_map (p : ascii → bool) f s : (∀ c, p (f c) = true) → str_forall p (str_map f s) = true.
Proof. intros Hf. induction s as [|c s IH]; [done|]. simpl. by rewrite Hf. Qed.

(** C37. The key of an upload stays under the digest of its content: below the
    configured prefix it is the digest, one slash, and the file's name with no
    slash and no ".." in it, whatever name the client sent. *)
Theorem inputObjectKey_confined prefix digestHex filename :
  ∃ dir name, inputObjectKey prefix digestHex filename = dir +:+ digestHex +:+ "/" +:+ name ∧
    (dir = "" ∨ dir = Trim prefix "/"%char +:+ "/") ∧
    str_forall (λ c, negb (bool_decide (c = "/"%char))) name = true ∧ Contains name ".." = false.
Proof.
  assert (Hclean : str_forall (λ c, negb (bool_decide (c = "/"%char))) (clean_filename filename) = true ∧
                   Contains (clean_filename filename) ".." = false).
  { unfold clean_filename, ReplaceSub. set (t := if decide _ then _ else _). rewrite ReplaceAll_map. split.
    - apply str_forall_map. intros c. by repeat case_bool_decide.
    - unfold Contains. rewrite Index_map_dots; [done|]. by apply replace_dots. }
  unfold inputObjectKey. cbv zeta. case_decide.
  - exists "", (clean_filename filename). split_and!; [done|by left|apply Hclean..].
  - exists (Trim prefix "/"%char +:+ "/"), (clean_filename filename). split_and!; [|by right|apply Hclean..].
    by rewrite <-(append_assoc _ "/").
Qed.

(** ** Reading back what was uploaded *)
Lemma lint_length data : is_ok (Api.lintRequirements data) = true → (Z.of_nat (String.length data) <= 128 * 1024)%Z.
Proof. unfold Api.lintRequirements. repeat case_decide; try done. Qed.
Lemma length_str_take n s : (String.length (str_take n s) = Nat.min n (String.length s))%nat.
Proof. revert s. induction n as [|n IH]; intros [|c s]; simpl; [done..|]. by rewrite IH. Qed.
(** What the limit cuts off is longer than what is accepted. *)
Lemma read_limited_whole n s k :
  (Z.of_nat (String.length (read_limited n s)) <= k)%Z → (0 <= k < n)%Z → read_limited n s = s.
Proof. unfold read_limited. case_decide as Hd; [done|]. rewrite length_str_take. lia. Qed.

Section upload.
Context `{SqlOrder, Sha256, Zip} {S : Type} `{Redis S, Codec (gmap string string), Codec pendingMeta}.
Context (planq : option RedisQueue) (store : input_store) (ucfg : UploadConfig).
Context (cfg : PlannerConfig).
(** The two programs are configured with the same bucket. *)
Context (Hbucket : pc_ObjectStoreBucket cfg = "" ∨ pc_ObjectStoreBucket cfg = uc_Bucket ucfg).

Abbreviation requirementsUpload := (requirementsUpload object_put planq store ucfg).
Abbreviation wheelsUpload := (wheelsUpload object_put planq store ucfg).
Abbreviation read_input := (inputSetFromPending (@object_get S) cfg live).

(** The row [accept] leaves, whether or not the input was queued for planning. *)
Lemma register_input_row now i (a : Api S) :
  let '(id, a') := register_input planq now i a in
  id = pn_next_input (api_db a) ∧ ∃ r, pn_inputs (api_db a') !! id = Some r ∧
  pr_id r = id ∧ pr_deleted_at r = None ∧ with_status "" (pr_input r) = with_status "" i.
Proof using Type.
  unfold register_input, AddPendingInput. cbv zeta beta iota. set (row := mkPendingRow _ _ _ _ _ _ _ _ _).
  assert (Hrow : ∀ m, (<[pn_next_input (api_db a) := row]> m : gmap Z PendingRow) !! pn_next_input (api_db a) = Some row).
  { intros m. apply lookup_insert_eq. }
  destruct planq as [q|]; [|split; [done|]; exists row; split; [apply Hrow|done]].
  destruct (api_AutoPlan a); [|split; [done|]; exists row; split; [apply Hrow|done]].
  destruct (PlanQueue_Enqueue _ _ _) as [e s]. split; [done|]. exists (update_status_row now "planning" "" row).
  split; [|done]. simpl. by rewrite lookup_alter_eq, Hrow.
Qed.
Lemma to_wire_fields r n i :
  with_status "" (pr_input r) = with_status "" i →
  ∃ st err, to_wire (r, n) = mkPending (pr_id r) (in_Filename i) st err (in_SourceType i) (in_Digest i)
    (in_ObjectBucket i) (in_ObjectKey i) (in_Metadata i).
Proof using Type.
  destruct r as [id [] ? ? ? ? ? ? ?], i. unfold with_status, to_wire. simpl. intros Hi. injection Hi as ? ? ? ? ? ? ? ?. subst. eauto.
Qed.
Lemma fetch_stored id filename st err source digest key meta data (w : Sys S) :
  uc_Bucket ucfg ≠ "" → key ≠ "" → sys_objects w !! key = Some data →
  fetchInputObject (@object_get S) cfg live
    (mkPending id filename st err source digest (uc_Bucket ucfg) key meta) w = (Ok data, w).
Proof using Hbucket.
  intros Hb Hk Ho. unfold fetchInputObject, object_get. cbn [pi_ObjectKey pi_ObjectBucket].
  rewrite decide_False by done. rewrite decide_False, Ho; [done|]. intros (? & _ & ?). by destruct Hbucket.
Qed.
Lemma inputObjectKey_nonempty prefix digest filename : inputObjectKey prefix digest filename ≠ "".
Proof using Type.
  unfold inputObjectKey. cbv zeta. case_decide; intros He; apply (f_equal String.length) in He;
    rewrite !str_length_app in He; simpl in He; lia.
Qed.

(** C16. What the worker reads from an accepted requirements file.  The whole file
    was stored, nothing of it cut off; the worker's input set for the row is the
    requirements the upload parsed, or if it found none, those the worker's own
    parser finds in the stored file; if both find none, reading the input is an
    error although the upload was accepted. *)
Theorem requirementsUpload_read_back now filename file a o n key id a' o' (w : Sys S) :
  requirementsUpload now "POST" (FormFile filename file) a o = ((200%Z, RUploaded n key id), (a', o')) →
  sys_objects w = o' →
  n = Z.of_nat (String.length file) ∧ o' !! key = Some file ∧
  ∃ r, pn_inputs (api_db a') !! id = Some r ∧ pr_deleted_at r = None ∧ ∀ p,
    (read_input (to_wire (r, p)) w).1 =
      (let reqs := if decide (Api.parseRequirements file = []) then Service.parseRequirementsBytes file
                   else Api.parseRequirements file in
       if decide (reqs = []) then Err ("no requirements metadata for " +:+ filename) else Ok (mkInputSet reqs [])).
Proof using Hbucket.
  unfold Upload.requirementsUpload. rewrite decide_False by by intros [].
  destruct (store_ready store ucfg) eqn:Hready; [|done]. cbn [negb].
  destruct (is_ok (Api.lintRequirements (read_limited (256 * 1024) file))) eqn:Hlint; [|done]. cbn [negb orb].
  apply lint_length in Hlint. rewrite (read_limited_whole (256 * 1024) file (128 * 1024)) by (done || lia).
  destruct (Api.looksLikeHTMLOrScript file); [done|]. unfold store_file, object_put, accept.
  set (k := inputObjectKey _ _ _). set (i := new_input _ _ _ _ _ _ _).
  pose proof (register_input_row now i a) as Hreg. destruct (register_input planq now i a) as [id' a1].
  destruct Hreg as (_ & r & Hr & Hid & Hdel & Hi). intros Heq Ho. injection Heq as <- <- <- <- <-. cbn [i new_input in_SizeBytes in_ObjectKey].
  rewrite lookup_insert_eq. split_and!; [done..|]. exists r. split_and!; [done..|]. intros p.
  destruct (to_wire_fields r p i Hi) as (st & err & ->). unfold inputSetFromPending. cbn [pi_Metadata i new_input in_Metadata].
  rewrite decide_False by apply marshal_nonempty. rewrite unmarshal_marshal. unfold input_from_meta.
  cbn [pi_SourceType i new_input in_SourceType me_Type me_Requirements pi_Filename in_Filename].
  rewrite (decide_False (P := "requirements" = "")) by done. rewrite decide_True by done.
  apply andb_true_iff in Hready as [Hr1 _]. apply negb_true_iff, bool_decide_eq_false in Hr1.
  cbn [in_Digest in_ObjectBucket in_ObjectKey].
  case_decide as Hnil; [|by rewrite decide_False].
  rewrite (fetch_stored _ _ _ _ _ _ _ _ file); [| |apply inputObjectKey_nonempty|by rewrite Ho; apply lookup_insert_eq].
  - cbn [fst]. done.
  - intros Hb. apply Hr1. by right.
Qed.

(** What the worker reads from an accepted wheel: one wheel with the metadata its
    file name parses to, the digest of the stored bytes and the requirements in
    its archive.  Only a name that parses to no package or no version is accepted
    and then cannot be read. *)
Theorem wheelsUpload_read_back now filename file a o n key id a' o' (w : Sys S) :
  wheelsUpload now "POST" (FormFile filename file) a o = ((200%Z, RUploaded n key id), (a', o')) →
  sys_objects w = o' →
  let data := read_limited (256 * 1024 * 1024) file in
  n = Z.of_nat (String.length data) ∧ o' !! key = Some data ∧ validateWheelArchive data = None ∧
  ∃ wmeta reqs r, Api.parseWheelFilename filename = Ok wmeta ∧ readWheelMetadata data = Ok reqs ∧
    pn_inputs (api_db a') !! id = Some r ∧ pr_deleted_at r = None ∧ ∀ p,
    (read_input (to_wire (r, p)) w).1 =
      (if decide (wi_Name wmeta = "" ∨ wi_Version wmeta = "") then Err ("no wheel metadata for " +:+ filename)
       else Ok (mkInputSet [] [mkWheelInput filename wmeta ("sha256:" +:+ sha256_hex data) reqs])).
Proof using Hbucket.
  unfold Upload.wheelsUpload. rewrite decide_False by by intros [].
  destruct (store_ready store ucfg) eqn:Hready; [|done]. cbn [negb].
  destruct (HasSuffix (ToLower filename) ".whl"); [|done]. cbn [negb]. set (data := read_limited _ file). cbv zeta.
  destruct (validateWheelArchive data) eqn:Hval; [done|]. unfold store_file, object_put, accept.
  set (k := inputObjectKey _ _ _).
  destruct (Api.parseWheelFilename filename) as [wmeta|e] eqn:Hname; [|done].
  destruct (readWheelMetadata data) as [reqs|e]; [|done]. set (i := new_input _ _ _ _ _ _ _).
  pose proof (register_input_row now i a) as Hreg. destruct (register_input planq now i a) as [id' a1].
  destruct Hreg as (_ & r & Hr & Hid & Hdel & Hi). intros Heq Ho. injection Heq as <- <- <- <- <-.
  cbn [i new_input in_SizeBytes in_ObjectKey].
  rewrite lookup_insert_eq. split_and!; [done..|]. exists wmeta, reqs, r. split_and!; [done..|]. intros p.
  destruct (to_wire_fields r p i Hi) as (st & err & ->). unfold inputSetFromPending. cbn [pi_Metadata i new_input in_Metadata].
  rewrite decide_False by apply marshal_nonempty. rewrite unmarshal_marshal. unfold input_from_meta.
  cbn [pi_SourceType i new_input in_SourceType me_Type me_Wheel me_Requires pi_Filename in_Filename].
  rewrite (decide_False (P := "wheel" = "")) by done. rewrite decide_False, decide_True by done.
  apply andb_true_iff in Hready as [Hr1 _]. apply negb_true_iff, bool_decide_eq_false in Hr1.
  unfold wheel_named. cbn [mbind option_bind in_Digest in_ObjectBucket in_ObjectKey].
  destruct (decide (wi_Name wmeta = "" ∨ wi_Version wmeta = "")) as [Hbad|Hnamed]; [|done].
  rewrite (fetch_stored _ _ _ _ _ _ _ _ data); [| |apply inputObjectKey_nonempty|by rewrite Ho; apply lookup_insert_eq].
  - change (Service.parseWheelFilename filename) with (Api.parseWheelFilename filename). rewrite Hname.
    cbn [fst]. by rewrite decide_True.
  - intros Hb. apply Hr1. by right.
Qed.

(** An upload keeps the tables well formed. *)
Lemma requirementsUpload_ok now form (a : Api S) o :
  planning_ok (api_db a) → planning_ok (api_db (requirementsUpload now "POST" form a o).2.1).
Proof using Type.
  intros Hok. unfold Upload.requirementsUpload. repeat case_match; try done.
  unfold store_file, object_put, accept in *. simplify_eq.
  pose proof (register_input_ok planq now (new_input ucfg filename (read_limited (256 * 1024) data)
    (inputObjectKey (uc_Prefix ucfg) (sha256_hex (read_limited (256 * 1024) data)) filename) "requirements" "text/plain"
    (mkMeta "requirements" (Api.parseRequirements (read_limited (256 * 1024) data)) None [])) a Hok eq_refl) as Hr.
  by destruct (register_input _ _ _ _).
Qed.
End upload.

(** ** Witnesses *)
#[local] Existing Instances plain_sha one_wheel_zip.
Lemma sample_bucket : pc_ObjectStoreBucket sample_planner = uc_Bucket sample_upload.
Proof. reflexivity. Qed.

Lemma requirementsUpload_read_back_witness :
  ∃ r, pn_inputs (api_db planned_upload.2.1) !! 1%Z = Some r ∧
    (inputSetFromPending object_get sample_planner live (to_wire (r, None))
       (mkSys planned_upload.2.1 [] planned_upload.2.2 8)).1 = Ok (mkInputSet [mkDepSpec "six" "1.0"] []).
Proof.
  pose proof (requirementsUpload_read_back (Some sample_planq) KeepStore sample_upload sample_planner
    (or_intror sample_bucket) 7 "reqs.txt" "six==1.0" sample_api ∅ 8 "uploads/six==1.0/reqs.txt" 1
    planned_upload.2.1 planned_upload.2.2 (mkSys planned_upload.2.1 [] planned_upload.2.2 8)) as Hspec.
  destruct (Hspec ltac:(vm_compute; reflexivity) eq_refl) as (_ & _ & r & Hr & _ & Hread).
  exists r. split; [exact Hr|]. rewrite (Hread None). vm_compute. reflexivity.
Defined.

Definition sample_wheel_upload := wheelsUpload object_put (Some sample_planq) KeepStore sample_upload 7 "POST"
  (FormFile "six-1.0-py3-none-any.whl" "zip") sample_api (∅ : gmap string string).
Lemma wheelsUpload_read_back_witness :
  ∃ r, pn_inputs (api_db sample_wheel_upload.2.1) !! 1%Z = Some r ∧
    (inputSetFromPending object_get sample_planner live (to_wire (r, None))
       (mkSys sample_wheel_upload.2.1 [] sample_wheel_upload.2.2 8)).1 =
      Ok (mkInputSet [] [mkWheelInput "six-1.0-py3-none-any.whl" (mkWheelInfo "six" "1.0" "py3" "none" "any")
                           "sha256:zip" [mkDepSpec "idna" ""]]).
Proof.
  pose proof (wheelsUpload_read_back (Some sample_planq) KeepStore sample_upload sample_planner
    (or_intror sample_bucket) 7 "six-1.0-py3-none-any.whl" "zip" sample_api ∅ 3 "uploads/zip/six-1.0-py3-none-any.whl" 1
    sample_wheel_upload.2.1 sample_wheel_upload.2.2 (mkSys sample_wheel_upload.2.1 [] sample_wheel_upload.2.2 8)) as Hspec.
  destruct (Hspec ltac:(vm_compute; reflexivity) eq_refl) as (_ & _ & _ & wmeta & reqs & r & Hname & Hreqs & Hr & _ & Hread).
  exists r. split; [exact Hr|]. rewrite (Hread None). vm_compute in Hname, Hreqs. injection Hname as <-. injection Hreqs as <-.
  vm_compute. reflexivity.
Defined.
