(* ===== verification/SystemFacts.v ===== *)
(** The planning loop run against the control plane: what a round does to the
    inputs it pops, under every interleaving of its goroutines. *)
From S2P Require Import Prelude.
From S2P Require Import GoStr.
From S2P Require Import Artifact.
From S2P Require Import Pack.
From S2P Require Import Http.
From S2P Require Import Cas.
From S2P Require Import Parse.
From S2P Require Import PlanTypes.
From S2P Require Import Planner.
From S2P Require Import PlannerFacts.
From S2P Require Import Hints.
From S2P Require Import Queue.
From S2P Require Import Generate.
From S2P Require Import Config.
From S2P Require Import HintFeed.
From S2P Require Import Interleave.
From S2P Require Import Sql.
From S2P Require Import BuildStore.
From S2P Require Import Pending.
From S2P Require Import PlanLoop.
From S2P Require Import Upload.
From S2P Require Import System.
From S2P Require Import BuildQueue.
From S2P Require Import PendingFacts.
From S2P Require Import GenerateTheorems.
From S2P Require Import Codecs.
From S2P Require Import SystemSamples.
From S2P Require Import UploadFacts.
From Stdlib Require Import Ascii.
Local Open Scope string_scope.
Local Open Scope list_scope.

Section facts.
Context `{SqlOrder} {S : Type} `{Redis S}.
Context `{GoRuntime, Sha256, CasStore, Regexp, Machine, Zip, IndexPeer}.
Context `{Codec Snapshot, Codec (list string), Codec (list pendingInput), Codec pendingMeta,
          Codec (gmap string string), Codec PlanBody, Codec (list DAGNode), Codec (list Hint)}.
Context (env : string → string) (atoi : string → option Z).
Context (decode_overrides : string → option (gmap string string)).
Context (newRunID : pendingInput → string) (planq : option RedisQueue) (token base : string).
Context (cfg : PlannerConfig) (hint_pages : nat).

(** The worker's configuration points to this server. *)
Record connected : Prop := {
  cn_base : base ≠ ""; cn_slash : TrimRight base "/"%char = base;
  cn_url : cf_ControlPlaneURL (pc_Config cfg) = base;
  cn_pop : pc_popURL cfg = base +:+ "/api/pending-inputs/pop";
  cn_status : pc_statusURL cfg = base +:+ "/api/pending-inputs/status";
  cn_list : pc_listURL cfg = base +:+ "/api/pending-inputs";
  cn_token : pc_WorkerToken cfg = token }.
Context (Hcn : connected).

#[local] Instance sys_server : HttpClient (Sys S) := server marshal planq token base.
Abbreviation get := (@object_get S).
Abbreviation St := (State (W := Sys S)).
Abbreviation db w := (api_db (sys_api w)).

(** *** What a call does *)
Definition ticked (a : Api S) (w : Sys S) : Sys S :=
  mkSys a (sys_hints w) (sys_objects w) (sys_now w + 1).
Lemma worker_authorized :
  requireWorkerToken token (header_get "X-Worker-Token" (worker_headers cfg)) "" = true ∧
  requireWorkerToken token (header_get "X-Worker-Token" (json_content :: worker_headers cfg)) "" = true.
Proof using Hcn.
  unfold worker_headers. rewrite (cn_token Hcn). unfold requireWorkerToken.
  destruct (decide (token = "")) as [|Hne]; [done|].
  assert (∀ l, l = [("X-Worker-Token", token)] ∨ l = [json_content; ("X-Worker-Token", token)] →
    header_get "X-Worker-Token" l = token) as Hg by (by intros l [-> | ->]).
  rewrite (Hg [_]) by by left. rewrite (Hg [_; _]) by by right. rewrite decide_False by done. by rewrite bool_decide_true.
Qed.
Lemma trim_base url : TrimPrefix (base +:+ url) base = url.
Proof using Type. apply TrimPrefix_app. Qed.
Lemma split_query_none path :
  str_forall (λ d, negb (bool_decide (d = "?"%char))) path = true → split_query path = (path, "").
Proof using Type. intros Hp. unfold split_query. by rewrite Index_absent. Qed.
Lemma split_query_some path query :
  str_forall (λ d, negb (bool_decide (d = "?"%char))) path = true →
  split_query (path +:+ String "?" query) = (path, query).
Proof using Type.
  intros Hp. unfold split_query. rewrite Index_first by done. rewrite str_take_app. f_equal.
  replace (String.length path + 1)%nat with (String.length (path +:+ "?"))
    by (rewrite str_length_app; done).
  change (String "?" query) with ("?" +:+ query). rewrite <-append_assoc. apply str_drop_app.
Qed.

Lemma status_call k err w :
  int64 k →
  updatePendingStatus cfg live k (status_body err) w =
    ticked (set_status (sys_now w) k (if err is Some _ then "failed" else "planned") (default "" err) (sys_api w)) w.
Proof using Hcn.
  intros Hid. unfold updatePendingStatus, http_call, http_do. cbn [url_ok sys_server server ctx_cancelled live do_req].
  rewrite (cn_status Hcn), append_assoc. unfold server_do.
  set (path := "/api/pending-inputs/status/" +:+ itoa k).
  assert (Hpath : split_query (TrimPrefix (base +:+ ("/api/pending-inputs/status" +:+ ("/" +:+ itoa k))) base) = (path, "")).
  { rewrite trim_base. apply split_query_none. change ("/api/pending-inputs/status" +:+ ("/" +:+ itoa k)) with path.
    unfold path. rewrite str_forall_app. apply andb_true_iff. split; [done|]. apply itoa_forall; [|done].
    intros c. by destruct c as [[] [] [] [] [] [] [] []]. }
  unfold serve_hints, route. cbn [rq_URL rq_Method rq_Headers rq_Body]. rewrite Hpath.
  assert (Hne : ∀ p, HasPrefix p "/api/pending-inputs/status/" = false → path ≠ p).
  { intros p Hp <-. unfold path in Hp. by rewrite HasPrefix_app in Hp. }
  rewrite decide_False by (intros [Heq _]; by eapply Hne in Heq).
  rewrite !decide_False by by apply Hne.
  unfold path at 1. rewrite HasPrefix_app. cbn [query_get]. change (query_get "token" "") with "".
  destruct worker_authorized as [_ Hauth]. rewrite Hauth.
  cbn [Pending.serve]. unfold pendingInputStatus. rewrite decide_False by (intros Hm; by apply Hm). cbn [negb].
  assert (Hpp : path_parts "/api/pending-inputs/status/" path = [itoa k]) by apply path_parts_id.
  rewrite Hpp. cbn [lookup list_lookup from_option id].
  rewrite decide_False by apply itoa_nonempty. rewrite ParseInt_itoa by done.
  unfold decode_status. rewrite unmarshal_marshal. by destruct err.
Qed.

Lemma plan_call body w :
  http_call live "POST" (base +:+ "/api/plan") (json_content :: token_headers (pc_Config cfg)) (marshal body) w =
    (let '((code, rep), a) := plan (sys_now w) "POST" (Some body) (sys_api w) in
     (Ok (mkResp code "" (reply_body rep)), ticked a w)).
Proof using Type.
  unfold http_call, http_do. cbn [url_ok sys_server server ctx_cancelled live do_req]. unfold server_do.
  unfold serve_hints, route. cbn [rq_URL rq_Method rq_Headers rq_Body]. rewrite trim_base.
  rewrite split_query_none by done. cbn [fst snd]. rewrite unmarshal_marshal. cbn [Pending.serve]. done.
Qed.
Lemma pop_call batch w :
  popPlanIDs cfg live batch w =
    (let '((code, rep), a) := pendingInputPop planq (sys_now w) "POST" true (itoa batch) (sys_api w) in
     (if decide (code = 200%Z) then
        match unmarshal (reply_body rep) with Some ids => Ok ids | None => Err "invalid JSON" end
      else Err ("pop status " +:+ itoa code +:+ ": " +:+ reply_body rep), ticked a w)).
Proof using Hcn.
  unfold popPlanIDs, http_call, http_do. cbn [url_ok sys_server server ctx_cancelled live do_req].
  rewrite (cn_pop Hcn), append_assoc. unfold server_do.
  assert (Hpath : split_query (TrimPrefix (base +:+ ("/api/pending-inputs/pop" +:+ ("?max=" +:+ itoa batch))) base) =
    ("/api/pending-inputs/pop", "max=" +:+ itoa batch)).
  { rewrite trim_base. rewrite (append_cons "?"%char "max="). by apply split_query_some. }
  assert (Hq : Split ("max=" +:+ itoa batch) "&"%char = ["max=" +:+ itoa batch]).
  { apply Split_no_sep. rewrite str_forall_app. apply andb_true_iff. split; [done|].
    apply itoa_forall; [|done]. intros c. by destruct c as [[] [] [] [] [] [] [] []]. }
  assert (Hmax : query_get "max" ("max=" +:+ itoa batch) = itoa batch).
  { unfold query_get. rewrite Hq. cbn [omap list_omap]. change ("max" +:+ "=") with "max=".
    rewrite HasPrefix_app, TrimPrefix_app. done. }
  assert (Htok : query_get "token" ("max=" +:+ itoa batch) = "").
  { unfold query_get. rewrite Hq. cbn [omap list_omap]. done. }
  unfold serve_hints, route. cbn [rq_URL rq_Method rq_Headers rq_Body]. rewrite Hpath, Hmax, Htok.
  destruct worker_authorized as [-> _]. rewrite decide_False by by intros [? _].
  rewrite decide_False, decide_True by done. cbn [Pending.serve].
  destruct (pendingInputPop _ _ _ _ _ _) as [[code rep] a]. done.
Qed.
Lemma list_call w :
  fetchPendingMap cfg live w =
    (fill_map ((λ pi, (itoa (pi_ID pi), pi)) <$> (to_wire <$> ListPendingInputs "" (db w))), ticked (sys_api w) w).
Proof using Hcn.
  unfold fetchPendingMap, http_call, http_do. cbn [url_ok sys_server server ctx_cancelled live do_req].
  rewrite (cn_list Hcn). unfold server_do, serve_hints, route. cbn [rq_URL rq_Method rq_Headers rq_Body].
  rewrite trim_base, split_query_none by done. rewrite decide_False by by intros [? _].
  rewrite decide_True by done. cbn [Pending.serve]. unfold pendingInputs. rewrite decide_True by done.
  cbn [answer reply_body rs_Body]. by rewrite unmarshal_marshal.
Qed.
Lemma hints_page_short (hs : list Hint) limit offset :
  (Z.of_nat (length (hints_page ParseInt hs limit offset)) < fetch_limit)%Z.
Proof using Type.
  unfold hints_page, ListHintsPaged, fetch_limit. rewrite length_take. repeat case_decide; lia.
Qed.
(** The hints arrive in one page, and reading them changes no table. *)
Lemma hints_call w : hint_pages ≠ 0%nat →
  ∃ hints e, fetchHints unmarshal (pc_Config cfg) hint_pages live w = Some (hints, e, ticked (sys_api w) w).
Proof using Hcn.
  intros Hfuel. unfold fetchHints. rewrite (cn_url Hcn), decide_False by apply (cn_base Hcn).
  destruct hint_pages as [|n]; [done|]. cbn [fetch_loop]. unfold hints_url. rewrite (cn_url Hcn), (cn_slash Hcn).
  unfold http_call, http_do. cbn [url_ok sys_server server ctx_cancelled live do_req].
  set (query := itoa fetch_limit +:+ ("&offset=" +:+ itoa 0)).
  assert (Hpath : split_query (TrimPrefix (base +:+ ("/api/hints?limit=" +:+ query)) base) =
    ("/api/hints", "limit=" +:+ query)).
  { rewrite trim_base. change ("/api/hints?limit=" +:+ query) with ("/api/hints" +:+ String "?" ("limit=" +:+ query)).
    by apply split_query_some. }
  unfold server_do, serve_hints. cbn [rq_URL rq_Method rq_Headers rq_Body]. rewrite Hpath.
  rewrite decide_True by done. cbn [rs_Status rs_Body]. rewrite decide_True by done. rewrite unmarshal_marshal.
  case_decide; [eauto|]. rewrite decide_True by apply hints_page_short. eauto.
Qed.

(** *** What the worker's requests can do to the inputs *)
Definition outcomes : list string := ["planned"; "queued"; "failed"].
Definition known (k : Z) (p : Planning) : Prop := is_Some (pn_inputs p !! k).
Definition settled (k : Z) (p : Planning) : Prop :=
  ∃ r, pn_inputs p !! k = Some r ∧ pr_status r ∈ outcomes.
Record grows (p p' : Planning) : Prop := {
  gr_ok : planning_ok p → planning_ok p';
  gr_known : ∀ k, known k p → known k p';
  gr_settled : ∀ k, settled k p → settled k p' }.
Lemma grows_inputs p p' : (planning_ok p → planning_ok p') → pn_inputs p' = pn_inputs p → grows p p'.
Proof using Type. intros Hok Hi. split; [done|unfold known..|unfold settled]; by rewrite Hi. Qed.
Lemma grows_trans p q r : grows p q → grows q r → grows p r.
Proof using Type. intros [] []. split; auto. Qed.

Lemma status_lookup now j st err p k :
  pn_inputs (UpdatePendingInputStatus now j st err p) !! k =
    (if decide (k = j) then update_status_row now st err <$> pn_inputs p !! k else pn_inputs p !! k).
Proof using Type. simpl. rewrite lookup_alter. repeat case_decide; congruence. Qed.
Lemma status_settles now j st err p :
  st ∈ outcomes → known j p → settled j (UpdatePendingInputStatus now j st err p).
Proof using Type.
  intros Hst [r Hr]. exists (update_status_row now st err r). by rewrite status_lookup, decide_True, Hr.
Qed.
Lemma status_grows now j st err p : st ∈ outcomes → grows p (UpdatePendingInputStatus now j st err p).
Proof using Type.
  intros Hst. split.
  - apply UpdatePendingInputStatus_ok.
  - intros k Hk. unfold known. rewrite status_lookup. case_decide; [by apply fmap_is_Some|done].
  - intros k (r & Hr & Hin). destruct (decide (k = j)) as [->|Hne].
    + apply status_settles; [done|]. by exists r.
    + exists r. by rewrite status_lookup, decide_False.
Qed.
Lemma save_plan_grows now b (a : Api S) : grows (api_db a) (api_db (save_plan now b a).2).
Proof using Type.
  unfold save_plan. destruct (SavePlan now _ _ _ _) as [id p1] eqn:Hs.
  assert (Hg1 : grows (api_db a) p1).
  { pose proof (SavePlan_ok now (pb_run b) (pb_plan b) (pb_dag b) (api_db a)) as Hok. rewrite Hs in Hok.
    apply grows_inputs; [done|]. unfold SavePlan in Hs. by simplify_eq. }
  assert (Hrest : ∀ p, grows (api_db a) p → grows (api_db a) (if api_AutoBuild a then
    let p' := queue_plan_builds now (pb_run b) id (pb_plan b) p in
    if decide (0 < pb_pending b)%Z then UpdatePendingInputStatus now (pb_pending b) "queued" "" p' else p'
    else p)).
  { intros p Hp. destruct (api_AutoBuild a); [|done]. cbv zeta.
    assert (Hq : grows (api_db a) (queue_plan_builds now (pb_run b) id (pb_plan b) p)).
    { eapply grows_trans; [exact Hp|]. apply grows_inputs; [apply queue_plan_builds_ok|done]. }
    case_decide; [|done]. eapply grows_trans; [exact Hq|]. apply status_grows. by apply (bool_decide_unpack _). }
  case_decide; [|by apply Hrest].
  destruct (LinkPlanToPendingInput _ _ _ _) as [p2|e] eqn:Hl; [|done]. simpl. apply Hrest.
  assert (Hg2 : grows p1 p2).
  { apply grows_inputs; [intros Hok; by eapply LinkPlanToPendingInput_ok|].
    unfold LinkPlanToPendingInput in Hl. by case_decide; simplify_eq. }
  eapply grows_trans; [by eapply grows_trans|]. apply status_grows. by apply (bool_decide_unpack _).
Qed.
Lemma plan_grows now b (a : Api S) : grows (api_db a) (api_db (plan now "POST" (Some b) a).2).
Proof using Type.
  unfold plan. rewrite decide_False, decide_True by done. case_decide; [by apply grows_inputs|apply save_plan_grows].
Qed.

(** *** The goroutines' rely and guarantee *)
Definition evolves (s s' : St) : Prop := grows (db s.1) (db s'.1) ∧ sys_objects s'.1 = sys_objects s.1.
#[local] Instance evolves_preorder : PreOrder evolves.
Proof using Type.
  split; [intros s; split; [by apply grows_inputs|done]|].
  intros s t u [Hg Ho] [Hg' Ho']. split; [by eapply grows_trans|congruence].
Qed.
Abbreviation read_input := (inputSetFromPending get cfg live).
(** Reading an input changes nothing, and depends on the stored objects only. *)
Lemma read_input_pure pi w : (read_input pi w).2 = w.
Proof using Type.
  unfold inputSetFromPending, input_from_meta, fetchInputObject, object_get.
  repeat (case_match; simplify_eq/=; try done).
Qed.
Lemma read_input_objects pi w w' :
  sys_objects w' = sys_objects w → (read_input pi w').1 = (read_input pi w).1.
Proof using Type.
  intros Ho. unfold inputSetFromPending, input_from_meta, fetchInputObject, object_get. rewrite Ho.
  repeat (case_match; simplify_eq/=; try done).
Qed.

(** What a goroutine promises for its input. *)
Definition promise (pi : pendingInput) (e : option string) (s : St) : Prop :=
  settled (pi_ID pi) (db s.1) ∨ ∃ m, (read_input pi s.1).1 = Err m.
Lemma promise_stable pi : stable evolves (promise pi).
Proof using Type.
  intros e s s' Hp [Hg Ho]. destruct Hp as [Hs|[m Hm]]; [left; by apply (gr_settled _ _ Hg)|right].
  exists m. by rewrite (read_input_objects _ _ _ Ho).
Qed.

(** The planner ends: the catalog's packs carry the names they are stored under. *)
Record planner_safe : Prop := {
  sf_catalog : if pc_PackCatalog cfg is Some c then wf_catalog c else True;
  sf_pages : hint_pages ≠ 0%nat }.
Context (Hsafe : planner_safe).
(** The index client answers, or refuses, every name that planning the input asks
    it for: it does not panic. *)
Definition asks_answered (settings : string * string) (pi : pendingInput) (objects : gmap string string) : Prop :=
  ∀ w inputs hints fs, sys_objects w = objects → (read_input pi w).1 = Ok inputs →
  Forall (λ name, is_Some (ResolveLatest (generate_client env (generate_args cfg settings pi hints)) name))
    (generate_asks env atoi decode_overrides inputs (generate_args cfg settings pi hints) fs).

Abbreviation planOne := (planOne (W := Sys S) env atoi decode_overrides unmarshal hint_pages get newRunID cfg live).
Lemma generate_returns settings pi inputs hints fs w :
  asks_answered settings pi (sys_objects w) → (read_input pi w).1 = Ok inputs →
  is_Some (GenerateFromInputs env atoi decode_overrides (newRunID pi) inputs (generate_args cfg settings pi hints) fs).
Proof using Hsafe. intros Ha Hr. apply GenerateFromInputs_total; [apply (sf_catalog Hsafe)|by eapply Ha]. Qed.
Lemma ticked_evolves a w fs : grows (db w) (api_db a) → evolves (w, fs) (ticked a w, fs).
Proof using Type. by split. Qed.
Lemma post_plan_evolves snap k w fs : evolves (w, fs) ((postPlan cfg live snap k w).2, fs).
Proof using Hcn.
  unfold postPlan. case_decide; [done|]. rewrite (cn_url Hcn), (cn_slash Hcn), plan_call.
  pose proof (plan_grows (sys_now w) (plan_body snap k) (sys_api w)) as Hg.
  destruct (plan _ _ _ _) as [[code rep] a]. simpl in *. by apply ticked_evolves.
Qed.
Lemma status_step k err w fs :
  int64 k → known k (db w) →
  let w' := updatePendingStatus cfg live k (status_body err) w in
  evolves (w, fs) (w', fs) ∧ settled k (db w').
Proof using Hcn.
  intros Hid Hk. cbv zeta. rewrite status_call by done. set (st := if err is Some _ then "failed" else "planned").
  assert (Hst : st ∈ outcomes) by (unfold st; destruct err; by apply (bool_decide_unpack _)).
  split; [apply ticked_evolves; by apply status_grows|]. by apply status_settles.
Qed.
Lemma evolves_known k (s s' : St) : evolves s s' → known k (db s.1) → known k (db s'.1).
Proof using Type. intros [Hg _]. apply (gr_known _ _ Hg). Qed.

Lemma report_rg pi r s :
  int64 (pi_ID pi) → known (pi_ID pi) (db s.1) → rg evolves (promise pi) (report_step cfg live pi r) s.
Proof using Hcn.
  intros Hid Hk. unfold report_step, post_step. cbn [rg]. intros [w fs] Hs.
  pose proof (evolves_known _ _ _ Hs Hk) as Hk'. simpl in Hk'.
  destruct r as [snap|e]; cbn [fst snd rg].
  - destruct (status_step (pi_ID pi) None w fs Hid Hk') as [Hev Hset]. split; [done|].
    intros [w2 fs2] Hs2. pose proof (post_plan_evolves snap (pi_ID pi) w2 fs2) as Hp.
    cbn [fst snd]. destruct (postPlan _ _ _ _ w2) as [e w3]. cbn [fst snd rg] in *. split; [done|].
    left. apply (gr_settled _ _ (proj1 Hp)). by apply (gr_settled _ _ (proj1 Hs2)).
  - destruct (status_step (pi_ID pi) (Some e) w fs Hid Hk') as [Hev Hset]. split; [done|]. by left.
Qed.
Lemma planOne_rg settings pi s :
  int64 (pi_ID pi) → known (pi_ID pi) (db s.1) → asks_answered settings pi (sys_objects s.1) →
  rg evolves (promise pi) (planOne settings pi) s.
Proof using Hcn Hsafe.
  intros Hid Hk Hans. unfold PlanLoop.planOne, hints_step, generate_step. cbn [rg]. intros [w fs] Hs.
  cbn [fst snd]. pose proof (read_input_pure pi w) as Hpure. destruct (read_input pi w) as [[inputs|e] w1] eqn:Hread;
    cbn [snd] in Hpure; subst w1; cbn [fst snd rg]; (split; [done|]).
  - assert (Hr : (read_input pi w).1 = Ok inputs) by by rewrite Hread.
    rewrite <-(proj2 Hs : sys_objects w = sys_objects s.1) in Hans.
    intros [w2 fs2] Hs2. cbn [fst snd]. destruct (hints_call w2 (sf_pages Hsafe)) as (hints & e & ->).
    cbn [fst snd rg]. assert (Hev2 : evolves (w2, fs2) (ticked (sys_api w2) w2, fs2)) by (apply ticked_evolves; by apply grows_inputs).
    split; [done|].
    intros [w3 fs3] Hs3. cbn [fst snd]. destruct (generate_returns settings pi inputs hints fs3 w Hans Hr) as [[r fs4] ->].
    cbn [fst snd]. split; [done|]. apply report_rg; [done|]. cbn [fst].
    assert (H' : evolves s (w3, fs3)) by (etrans; [done|]; etrans; [done|]; etrans; done).
    exact (evolves_known _ _ _ H' Hk).
  - right. exists e. cbn [fst]. by rewrite Hread.
Qed.
Lemma planOne_bounded settings pi : bounded 5 (planOne settings pi).
Proof using Type.
  unfold PlanLoop.planOne, hints_step, generate_step, report_step, post_step. cbn [bounded]. intros s.
  destruct (read_input pi s.1) as [[inputs|e] w]; cbn [fst]; [|done]. intros s2.
  destruct (fetchHints _ _ _ _ s2.1) as [[[hints e] w2]|]; cbn [fst]; [|done]. intros s3.
  destruct (GenerateFromInputs _ _ _ _ _ _ s3.2) as [[r fs]|]; cbn [fst]; [|done]. intros s4.
  destruct r as [snap|e']; cbn [fst]; [|done]. intros s5. by destruct (postPlan _ _ _ _ s5.1).
Qed.

(** *** What a round pops and lists *)
(** The row is of the same upload: what reading it depends on is the same. *)
Record same_upload (r r' : PendingRow) : Prop := {
  su_id : pr_id r' = pr_id r; su_deleted : pr_deleted_at r' = pr_deleted_at r;
  su_input : with_status "" (pr_input r') = with_status "" (pr_input r) }.
Lemma same_upload_trans r s t : same_upload r s → same_upload s t → same_upload r t.
Proof using Type. intros [] []. split; congruence. Qed.
Lemma read_input_same r r' n n' w :
  same_upload r r' → read_input (to_wire (r', n')) w = read_input (to_wire (r, n)) w.
Proof using Type.
  destruct r as [id [] ? ? ? ? ? ? ?], r' as [id' [] ? ? ? ? ? ? ?]. intros [Hid _ Hin].
  unfold with_status in Hin. simpl in *. injection Hin as Hf1 Hf2 Hf3 Hf4 Hf5 Hf6 Hf7 Hf8. subst. reflexivity.
Qed.
Lemma set_statuses_row now st ids (a : Api S) k r :
  pn_inputs (api_db a) !! k = Some r →
  ∃ r', pn_inputs (api_db (set_statuses now st ids a)) !! k = Some r' ∧ same_upload r r' ∧
        (k ∈ omap ParseInt ids → pr_status r' = st) ∧ (k ∉ omap ParseInt ids → r' = r).
Proof using Type.
  unfold set_statuses. revert a r. induction ids as [|i ids IH] using rev_ind; intros a r Hk.
  { exists r. simpl. split_and!; [done..| |done]. by intros Hin%elem_of_nil. }
  rewrite foldl_snoc. destruct (IH a r Hk) as (r1 & Hr1 & Hs & Hin & Hout).
  rewrite omap_app. simpl. destruct (ParseInt i) as [j|] eqn:Hj.
  - cbn [set_status with_db api_db]. rewrite status_lookup. case_decide as Heq.
    + subst j. rewrite Hr1. eexists. split; [done|]. split_and!.
      * eapply same_upload_trans; [exact Hs|]. by split.
      * done.
      * intros Hn. exfalso. apply Hn, elem_of_app. right. by left.
    + exists r1. rewrite Hr1. split_and!; [done..| |].
      * intros [?|Hx%list_elem_of_singleton]%elem_of_app; [by apply Hin|done].
      * intros Hn. apply Hout. intros Hi. by apply Hn, elem_of_app; left.
  - exists r1. rewrite app_nil_r. done.
Qed.
Lemma set_statuses_known now st ids (a : Api S) k :
  known k (api_db (set_statuses now st ids a)) → known k (api_db a).
Proof using Type.
  unfold set_statuses. revert a. induction ids as [|i ids IH]; intros a; [done|]. simpl.
  intros Hk%IH. destruct (ParseInt i) as [j|]; [|done]. unfold known in *.
  cbn [set_status with_db api_db] in Hk. rewrite status_lookup in Hk. case_decide; [|done].
  by apply fmap_is_Some in Hk.
Qed.
(** A successful pop has set every popped input to "planning". *)
Lemma pop_marks batch w ids w1 :
  popPlanIDs cfg live batch w = (Ok ids, w1) →
  ∃ q, w1 = ticked (set_statuses (sys_now w) "planning" ids (with_queue q (sys_api w))) w.
Proof using Hcn.
  rewrite pop_call. unfold pendingInputPop. cbn [negb]. rewrite (decide_False (P := "POST" ≠ "POST")) by by intros [].
  destruct planq as [pq|]; [|simpl; intros; simplify_eq].
  destruct (PlanQueue_Pop _ _ _) as [[out e] q]. destruct e as [e|]; [simpl; intros; simplify_eq|].
  cbn [answer]. rewrite decide_True by done. cbn [reply_body]. rewrite unmarshal_marshal. intros; simplify_eq. by exists q.
Qed.

(** The map of listed inputs, by the decimal of their ids. *)
Definition ids_fit (p : Planning) : Prop := map_Forall (λ k _, int64 k) (pn_inputs p).
Definition pending_map (p : Planning) : gmap string pendingInput :=
  fill_map ((λ pi, (itoa (pi_ID pi), pi)) <$> (to_wire <$> ListPendingInputs "" p)).
Lemma pending_map_sound p id pi :
  planning_ok p → pending_map p !! id = Some pi →
  ∃ r n, pi = to_wire (r, n) ∧ id = itoa (pr_id r) ∧ pn_inputs p !! pr_id r = Some r ∧ pr_deleted_at r = None.
Proof using Type.
  intros Hok. unfold pending_map. rewrite fill_map_list_to_map.
  intros Hin%elem_of_list_to_map_2. rewrite elem_of_reverse in Hin. apply list_elem_of_fmap in Hin as (pi' & Heq & Hin). simplify_eq.
  apply list_elem_of_fmap in Hin as ([r n] & -> & Hin). exists r, n. split_and!; [done..| |];
    apply (list_elem_of_fmap_2 fst), elem_of_listing in Hin as [Hr [Hl _]]; done.
Qed.
Lemma pending_map_complete p k r :
  planning_ok p → ids_fit p → pn_inputs p !! k = Some r → pr_deleted_at r = None →
  ∃ n, pending_map p !! itoa k = Some (to_wire (r, n)).
Proof using Type.
  intros Hok Hfit Hk Hl. destruct (po_inputs _ Hok _ _ Hk) as (Hid & _).
  assert (Hdom : itoa k ∈ dom (pending_map p)).
  { unfold pending_map. apply fill_map_dom. rewrite <-!list_fmap_compose. apply list_elem_of_fmap.
    assert (Hin : r ∈ (ListPendingInputs "" p).*1).
    { apply elem_of_listing; [done|]. rewrite Hid. split; [done|]. split; [done|by left]. }
    apply list_elem_of_fmap in Hin as (x & -> & Hx). exists x. split; [|done]. simpl. by rewrite Hid. }
  apply elem_of_dom in Hdom as [pi Hpi].
  destruct (pending_map_sound p _ _ Hok Hpi) as (r' & n & -> & Hitoa & Hr' & _).
  assert (Heq : k = pr_id r').
  { apply (f_equal ParseInt) in Hitoa. rewrite !ParseInt_itoa in Hitoa by (by eapply Hfit). congruence. }
  subst k. rewrite <-Heq in Hr'. rewrite Hk in Hr'. simplify_eq. by exists n.
Qed.

(** *** A round *)
Local Open Scope nat_scope.
Abbreviation round := (planner_round (W := Sys S) env atoi decode_overrides unmarshal hint_pages get newRunID cfg live).
Abbreviation jobs := (round_jobs (W := Sys S) env atoi decode_overrides unmarshal hint_pages get newRunID cfg live).
Lemma round_eq pool settings sched w fs ids w1 :
  popPlanIDs cfg live (plan_batch cfg) w = (Ok ids, w1) → ids ≠ [] →
  round pool settings sched (w, fs) =
    (let '(g, s') := turns sched (spawn (Z.to_nat (plan_pool cfg pool)) (jobs settings ids (pending_map (db w1))))
                       (ticked (sys_api w1) w1, fs) in (Some g, s')).
Proof using Hcn.
  intros Hp Hne. unfold planner_round. cbn [fst snd]. rewrite Hp. destruct ids as [|i ids]; [done|].
  rewrite list_call. done.
Qed.
Lemma plan_pool_pos pool : 0 < Z.to_nat (plan_pool cfg pool).
Proof using Type. unfold plan_pool. cbv zeta. generalize (if decide (0 < pool)%Z then pool else cf_PlanPoolSize (pc_Config cfg)). intros n. case_decide; lia. Qed.
Lemma length_omap_le {A B} (f : A → option B) l : length (omap f l) ≤ length l.
Proof using Type. induction l as [|x l IH]; simpl; [done|]. destruct (f x); [by apply le_n_S|by apply Nat.le_le_succ_r]. Qed.

(** The state the goroutines start from. *)
Lemma popped_state batch w ids w1 :
  planning_ok (db w) → ids_fit (db w) → popPlanIDs cfg live batch w = (Ok ids, w1) →
  planning_ok (db w1) ∧ ids_fit (db w1) ∧ sys_objects w1 = sys_objects w ∧
  ∀ k r, itoa k ∈ ids → pn_inputs (db w) !! k = Some r →
    ∃ r', pn_inputs (db w1) !! k = Some r' ∧ same_upload r r' ∧ pr_status r' = "planning".
Proof using Hcn.
  intros Hok Hfit [q ->]%pop_marks. cbn [ticked sys_api sys_objects]. split_and!; [by apply set_statuses_ok| |done|].
  - intros k r Hr. destruct (set_statuses_known (sys_now w) "planning" ids (with_queue q (sys_api w)) k) as [r0 Hr0]; [by exists r|].
    by eapply Hfit.
  - intros k r Hin Hr. destruct (set_statuses_row (sys_now w) "planning" ids (with_queue q (sys_api w)) k r Hr)
      as (r' & Hr' & Hs & Hst & _). exists r'. split_and!; [done..|]. apply Hst, list_elem_of_omap. exists (itoa k).
    split; [done|]. apply ParseInt_itoa. by eapply Hfit.
Qed.
Lemma asks_answered_same settings r r' n n' o :
  same_upload r r' → asks_answered settings (to_wire (r, n)) o → asks_answered settings (to_wire (r', n')) o.
Proof using Type.
  intros Hs Ha w inputs hints fs Ho Hr. rewrite (read_input_same r r' n n' w Hs) in Hr.
  specialize (Ha w inputs hints fs Ho Hr). 
  assert (Hargs : generate_args cfg settings (to_wire (r', n')) hints = generate_args cfg settings (to_wire (r, n)) hints).
  { unfold generate_args. change (pi_ID (to_wire (r', n'))) with (pr_id r'). by rewrite (su_id _ _ Hs). }
  by rewrite Hargs.
Qed.
Definition popped_answered (settings : string * string) (ids : list string) (w : Sys S) : Prop :=
  ∀ k r, itoa k ∈ ids → pn_inputs (db w) !! k = Some r → asks_answered settings (to_wire (r, None)) (sys_objects w).
Lemma round_job batch settings w ids w1 pi :
  planning_ok (db w) → ids_fit (db w) → popPlanIDs cfg live batch w = (Ok ids, w1) → popped_answered settings ids w →
  pi ∈ omap (λ id, pending_map (db w1) !! id) ids →
  int64 (pi_ID pi) ∧ known (pi_ID pi) (db w1) ∧ asks_answered settings pi (sys_objects w1).
Proof using Hcn.
  intros Hok Hfit Hpop Hans (id & Hin & Hid)%list_elem_of_omap.
  destruct (popped_state _ w ids w1 Hok Hfit Hpop) as (Hok1 & Hfit1 & Hobj & Hrows).
  destruct (pending_map_sound _ id pi Hok1 Hid) as (r' & n & -> & -> & Hr' & _).
  split_and!; [by eapply Hfit1|by exists r'|]. rewrite Hobj. cbn [to_wire pi_ID] in Hr'.
  pose proof Hpop as Hmarks. apply pop_marks in Hmarks as [q ->].
  destruct (set_statuses_known (sys_now w) "planning" ids (with_queue q (sys_api w)) (pr_id r')) as [r Hr]; [by exists r'|].
  destruct (Hrows _ r Hin Hr) as (r2 & Hr2 & Hs & _). rewrite Hr' in Hr2. injection Hr2 as <-.
  eapply asks_answered_same; [exact Hs|]. by eapply Hans.
Qed.


(** *** What a round leaves alone *)
Definition untouched (k : Z) (s s' : St) : Prop :=
  pn_inputs (db s'.1) !! k = pn_inputs (db s.1) !! k ∧ sys_objects s'.1 = sys_objects s.1.
#[local] Instance untouched_preorder k : PreOrder (untouched k).
Proof using Type. split; [by intros s|]. intros s t u [Hs Ho] [Ht Hp]. split; congruence. Qed.
Abbreviation true_promise := (λ (_ : option string) (_ : St), True).

Lemma save_plan_untouched now b (a : Api S) k :
  pb_pending b ≠ k ∨ (pb_pending b <= 0)%Z →
  pn_inputs (api_db (plan now "POST" (Some b) a).2) !! k = pn_inputs (api_db a) !! k.
Proof using Type.
  intros Hk. unfold plan. rewrite decide_False, decide_True by done. case_decide; [done|].
  unfold save_plan. cbn [SavePlan fst snd].
  assert (Hst : ∀ st p, (0 < pb_pending b)%Z →
    pn_inputs (UpdatePendingInputStatus now (pb_pending b) st "" p) !! k = pn_inputs p !! k).
  { intros st p Hpos. rewrite status_lookup, decide_False; [done|]. destruct Hk; lia. }
  set (p1 := mkPlanning _ _ _ _ _ _). change (pn_inputs (api_db a)) with (pn_inputs p1).
  assert (Hauto : ∀ p, pn_inputs p !! k = pn_inputs p1 !! k → pn_inputs (if api_AutoBuild a then
     let p' := queue_plan_builds now (pb_run b) (pn_next_plan (api_db a)) (pb_plan b) p in
     if decide (0 < pb_pending b)%Z then UpdatePendingInputStatus now (pb_pending b) "queued" "" p' else p'
     else p) !! k = pn_inputs p1 !! k).
  { intros p Hp. destruct (api_AutoBuild a); [|done]. cbv zeta. case_decide; [|done]. by rewrite Hst. }
  case_decide as Hpos; [|by apply Hauto].
  destruct (LinkPlanToPendingInput _ _ _ _) as [p2|e] eqn:Hl; [|done]. simpl. apply Hauto. rewrite Hst by done.
  unfold LinkPlanToPendingInput in Hl. by case_decide; simplify_eq.
Qed.
Lemma other_rg k settings pi s :
  int64 (pi_ID pi) → pi_ID pi ≠ k → asks_answered settings pi (sys_objects s.1) →
  rg (untouched k) true_promise (planOne settings pi) s.
Proof using Hcn Hsafe.
  intros Hid Hk Hans. unfold PlanLoop.planOne, hints_step, generate_step, report_step, post_step. cbn [rg]. intros [w fs] Hs.
  cbn [fst snd]. pose proof (read_input_pure pi w) as Hpure. destruct (read_input pi w) as [[inputs|e] w1] eqn:Hread;
    cbn [snd] in Hpure; subst w1; cbn [fst snd rg]; (split; [done|]); [|done]. intros [w2 fs2] _. cbn [fst snd].
  assert (Hr : (read_input pi w).1 = Ok inputs) by by rewrite Hread.
  rewrite <-(proj2 Hs : sys_objects w = sys_objects s.1) in Hans.
  destruct (hints_call w2 (sf_pages Hsafe)) as (hints & e & ->). cbn [fst snd rg]. split; [done|].
  intros [w3 fs3] _. cbn [fst snd]. destruct (generate_returns settings pi inputs hints fs3 w Hans Hr) as [[r fs4] ->].
  cbn [fst snd rg]. split; [done|]. intros [w4 fs5] _. cbn [fst snd].
  assert (Hst : ∀ err, untouched k (w4, fs5) (updatePendingStatus cfg live (pi_ID pi) (status_body err) w4, fs5)).
  { intros err. rewrite status_call by done. split; [|done]. cbn [fst ticked sys_api set_status with_db api_db].
    by rewrite status_lookup, decide_False. }
  destruct r as [snap|err]; cbn [fst snd rg]; (split; [apply Hst|]); [|done]. intros [w5 fs6] _. cbn [fst snd].
  assert (Hp : untouched k (w5, fs6) ((postPlan cfg live snap (pi_ID pi) w5).2, fs6)).
  { unfold postPlan. case_decide; [done|]. rewrite (cn_url Hcn), (cn_slash Hcn), plan_call.
    pose proof (save_plan_untouched (sys_now w5) (plan_body snap (pi_ID pi)) (sys_api w5) k) as Hsv.
    destruct (plan _ _ _ _) as [[code rep] a]. split; [|done]. apply Hsv. cbn [plan_body pb_pending].
    case_decide; [by left|right; lia]. }
  destruct (postPlan _ _ _ _ w5) as [e' w6]. cbn [fst snd rg] in *. done.
Qed.
Lemma unreadable_rg k settings pi m s :
  (read_input pi s.1).1 = Err m → rg (untouched k) true_promise (planOne settings pi) s.
Proof using Type.
  intros Hm. unfold PlanLoop.planOne. cbn [rg]. intros [w fs] [_ Ho]. cbn [fst snd].
  pose proof (read_input_pure pi w) as Hpure. rewrite <-(read_input_objects pi s.1 w Ho) in Hm.
  destruct (read_input pi w) as [[inputs|e] w1]; cbn [fst snd] in *; [done|]. by subst w1.
Qed.

(** An input whose upload cannot be read stays "planning".  Nothing reports the
    error to the control plane: after a round in which its id was popped, whatever
    the schedule and the other inputs, the input is "planning", as the pop left it. *)
Theorem unreadable_input_stays_planning pool settings sched w fs ids w1 k r m :
  planning_ok (db w) → ids_fit (db w) →
  popPlanIDs cfg live (plan_batch cfg) w = (Ok ids, w1) → itoa k ∈ ids → popped_answered settings ids w →
  pn_inputs (db w) !! k = Some r → (read_input (to_wire (r, None)) w).1 = Err m →
  ∃ g s' r', round pool settings sched (w, fs) = (Some g, s') ∧ pn_inputs (db s'.1) !! k = Some r' ∧
    pr_status r' = "planning" ∧ same_upload r r'.
Proof using Hcn Hsafe.
  intros Hok Hfit Hpop Hin Hans Hr Hm. assert (Hne : ids ≠ []) by by (intros ->; apply elem_of_nil in Hin).
  rewrite (round_eq pool settings sched w fs ids w1 Hpop Hne).
  destruct (popped_state _ w ids w1 Hok Hfit Hpop) as (Hok1 & Hfit1 & Hobj & Hrows).
  destruct (Hrows k r Hin Hr) as (r' & Hr' & Hs & Hst).
  set (pis := omap (λ id, pending_map (db w1) !! id) ids).
  pose proof (spawn_sound (untouched k) (Z.to_nat (plan_pool cfg pool)) (jobs settings ids (pending_map (db w1)))
    ((λ _, true_promise) <$> pis) sched (ticked (sys_api w1) w1, fs)) as Hsound.
  destruct (turns _ _ _) as [g s']. destruct Hsound as ([Hk _] & _).
  { apply Forall_fmap, Forall_forall. by intros pi _. }
  { unfold round_jobs. fold pis. apply Forall2_fmap, Forall_Forall2_diag, Forall_forall. intros pi Hpi.
    destruct (round_job _ settings w ids w1 pi Hok Hfit Hpop Hans Hpi) as (Hid & _ & Ha).
    destruct (decide (pi_ID pi = k)) as [Heq|Hne']; [|by apply other_rg].
    apply list_elem_of_omap in Hpi as (id & _ & Hid').
    destruct (pending_map_sound (db w1) id pi Hok1 Hid') as (r2 & n & -> & _ & Hr2 & _). simpl in Heq. rewrite Heq, Hr' in Hr2.
    simplify_eq. apply (unreadable_rg _ _ _ m). cbn [fst].
    by rewrite (read_input_objects _ w), (read_input_same r r2 None n w Hs). }
  exists g, s', r'. by rewrite Hk.
Qed.

(** The setting for the number of concurrent plans is kept: at no time of a round
    are more inputs planned than [planPool] says or, if it is not positive, the
    worker's own pool size, or 2. *)
Theorem round_pool_bound pool settings sched s g s' :
  round pool settings sched s = (Some g, s') →
  (Z.of_nat (length (gr_running g)) <= plan_pool cfg pool)%Z ∧
  plan_pool cfg pool = (if decide (0 < pool)%Z then pool
                        else if decide (0 < cf_PlanPoolSize (pc_Config cfg))%Z
                        then cf_PlanPoolSize (pc_Config cfg) else 2%Z).
Proof using Type.
  unfold planner_round. destruct (popPlanIDs _ _ _ _) as [[[|i ids]|e] w1]; [done| |done].
  destruct (fetchPendingMap _ _ w1) as [m w2].
  set (l := jobs _ _ _). set (lim := Z.to_nat _).
  pose proof (turns_running lim sched (spawn lim l) (w2, s.2)) as Hr.
  destruct (turns _ _ _) as [g1 s1]. intros; simplify_eq. split.
  - assert (length (gr_running g) ≤ lim) as Hl by (apply Hr; simpl; rewrite length_take; lia).
    unfold lim in Hl. pose proof (plan_pool_pos pool). lia.
  - unfold plan_pool. cbv zeta. repeat case_decide; lia.
Qed.
End facts.

(** ** Witnesses *)
#[local] Existing Instances plain_sha one_wheel_zip reference_runtime NullStore literal_regexp sample_machine sample_index.
Abbreviation sample_round := (planner_round (H := server marshal (Some sample_planq) "" "http://cp") no_env no_atoi no_overrides
  unmarshal 1 object_get (λ pi, "run") sample_planner live).
Lemma sample_connected : connected "" "http://cp" sample_planner.
Proof. split; reflexivity || discriminate. Qed.
Lemma sample_safe : planner_safe sample_planner 1.
Proof.
  split; [apply map_Forall_empty|done].
Qed.
(** The index is not PyPI, so the index client refuses every name. *)
Lemma sample_answered ids (w : Sys sample_redis_state) : popped_answered no_env no_atoi no_overrides sample_planner ("", "") ids w.
Proof.
  intros k r _ _ w' inputs hints fs _ _. apply Forall_forall. intros name _.
  destruct (ResolveLatest_foreign (generate_client no_env (generate_args sample_planner ("", "") (to_wire (r, None)) hints)) name)
    as [e ->]; [|eauto].
  constructor; [|constructor]. intros scheme host. vm_compute. intros Heq. injection Heq as <- <-. reflexivity.
Qed.
Lemma sample_sys_ok : planning_ok (api_db (sys_api sample_sys)).
Proof. apply requirementsUpload_ok, requirementsUpload_ok, empty_planning_ok. Qed.
Lemma sample_sys_fit : ids_fit (api_db (sys_api sample_sys)).
Proof.
  apply (bool_decide_unpack (map_Forall (λ (k : Z) (_ : PendingRow), (- 2 ^ 63 <= k < 2 ^ 63)%Z)
                               (pn_inputs (api_db (sys_api sample_sys))))). vm_compute. reflexivity.
Qed.


Definition comment_row : PendingRow :=
  default (mkPendingRow 0 sample_input None None None None None 0 0) (pn_inputs (api_db (sys_api sample_sys)) !! 2%Z).
Lemma unreadable_input_stays_planning_witness :
  ∃ g s' r', sample_round 0 ("", "") (seq 0 12) (sample_sys, ∅) = (Some g, s') ∧
    pn_inputs (api_db (sys_api s'.1)) !! 2%Z = Some r' ∧ pr_status r' = "planning".
Proof.
  destruct (unreadable_input_stays_planning no_env no_atoi no_overrides (λ pi, "run") (Some sample_planq) "" "http://cp"
    sample_planner 1 sample_connected sample_safe 0 ("", "") (seq 0 12) sample_sys ∅ ["1"; "2"] sample_popped.2
    2%Z comment_row "no requirements metadata for reqs.txt" sample_sys_ok sample_sys_fit) as (g & s' & r' & Hr & Hk & Hst & _).
  - vm_compute. reflexivity.
  - apply (bool_decide_unpack _). vm_compute. reflexivity.
  - apply sample_answered.
  - vm_compute. reflexivity.
  - vm_compute. reflexivity.
  - exists g, s', r'. split; [exact Hr|]. split; [exact Hk|exact Hst].
Defined.

Lemma round_pool_bound_witness :
  ∃ g s', sample_round 0 ("", "") (seq 0 3) (sample_sys, ∅) = (Some g, s') ∧ (Z.of_nat (length (gr_running g)) <= 1)%Z.
Proof.
  assert (∃ g s', sample_round 0 ("", "") (seq 0 3) (sample_sys, ∅) = (Some g, s')) as (g & s' & Hr).
  { pose proof (round_eq no_env no_atoi no_overrides (λ pi, "run") (Some sample_planq) "" "http://cp"
      sample_planner 1 sample_connected 0 ("", "") (seq 0 3) sample_sys ∅ ["1"; "2"] sample_popped.2) as Heq.
    specialize (Heq ltac:(vm_compute; reflexivity) ltac:(discriminate)).
    destruct (turns _ _ _) as [g s'] in Heq. exists g, s'. exact Heq. }
  exists g, s'. split; [exact Hr|].
  exact (proj1 (round_pool_bound no_env no_atoi no_overrides (λ pi, "run") (Some sample_planq) "" "http://cp"
    sample_planner 1 0 ("", "") (seq 0 3) (sample_sys, ∅) g s' Hr)).
Defined.
