(* ===== verification/HintAdmin.v ===== *)
(** The hint catalog of the control plane: [store/hint_validation.go], the table
    [hints] of [store/postgres.go], the handlers [hints], [hintsBulk] and
    [hintByID] of [api/handlers.go], and the seeding from a directory of
    [store/hints_seed.go] that [server.go] does at every start.

    What the code takes from elsewhere is in the class [HintEnv]: the order of
    [ORDER BY id] and [ILIKE] of PostgreSQL, the rows it refuses, the regular
    expressions' messages, [strconv.ParseFloat], [os.Stat] and the YAML decoder. *)
From S2P Require Import Prelude.
From S2P Require Import GoStr.
From S2P Require Import Http.
From S2P Require Import PlanTypes.
From S2P Require Import Hints.
From S2P Require Import Queue.
From S2P Require Import HintFeed.
From Stdlib Require Import Ascii.
From Stdlib Require Import QArith.
Local Open Scope string_scope.
Local Open Scope list_scope.
Local Open Scope Z_scope.

(** A 64-bit float as the code compares it. *)
Inductive float64 := NaN | Number (q : Q).
Inductive Stat := StatMissing | StatError (e : string) | StatOk (is_dir : bool).

Class HintEnv := {
  by_id : list Hint → list Hint;              (* ORDER BY id *)
  by_id_perm l : by_id l ≡ₚ l;
  ilike : string → string → bool;             (* value ILIKE pattern *)
  json_text : string → string;                (* jsonb::text *)
  db_refuses : Hint → option string;          (* the error of the INSERT *)
  re_error : string → string;                 (* the error of regexp.Compile *)
  ParseFloat : string → option float64;
  os_stat : string → Files → Stat;
  yaml_hints : string → result (list Hint) }.

(** ** hint_validation.go *)
Definition trimStringSlice (items : list string) : list string :=
  filter (λ t, t ≠ "") (TrimSpace <$> items).
Definition trim_entry (kv : string * list string) : option (string * list string) :=
  let key := TrimSpace (kv.1) in
  let trimmed := trimStringSlice (kv.2) in
  if decide (key = "") then None
  else if decide (trimmed = []) then None
  else Some (key, trimmed).
Definition hasRecipes (recipes : gmap string (list string)) : bool :=
  existsb (λ kv, negb (bool_decide (kv.2 = []))) (map_to_list recipes).
Definition bad_applies (m : gmap string (list string)) : bool :=
  existsb (λ kv, bool_decide (TrimSpace (kv.1) = "") || bool_decide (kv.2 = [])) (map_to_list m).

Section validation.
Context `{GoRuntime, Regexp, HintEnv}.

(** Keys equal up to white space overwrite each other in the order the map is visited. *)
Definition trimStringMap (m : gmap string (list string)) : gmap string (list string) :=
  fill_map (omap trim_entry (map_range m)).
Definition NormalizeHint (h : Hint) : Hint :=
  mkHint (TrimSpace (h_ID h)) (TrimSpace (h_Pattern h)) (trimStringMap (h_Recipes h))
    (TrimSpace (h_Note h)) (trimStringSlice (h_Tags h)) (ToLower (TrimSpace (h_Severity h)))
    (trimStringMap (h_AppliesTo h)) (ToLower (TrimSpace (h_Confidence h)))
    (trimStringSlice (h_Examples h)).

Definition fails (b : bool) (e : string) : list string := if b then [e] else [].
(** [err != nil || f < 0 || f > 1]: no comparison holds of a NaN. *)
Definition bad_confidence (s : string) : bool :=
  match ParseFloat s with
  | None => true
  | Some NaN => false
  | Some (Number f) => negb (Qle_bool 0 f && Qle_bool f 1)
  end.
Definition pattern_errors (p : string) : list string :=
  if decide (p = "") then ["pattern required"]
  else match re_compile p with
       | None => ["pattern invalid: " +:+ re_error p]
       | Some _ => []
       end.
Definition ValidateHint (h : Hint) : list string :=
  fails (bool_decide (h_ID h = "")) "id required" ++
  pattern_errors (h_Pattern h) ++
  fails (bool_decide (h_Note h = "")) "note required" ++
  fails (negb (hasRecipes (h_Recipes h))) "recipes required" ++
  fails (bool_decide (h_Severity h ∉ [""; "info"; "warn"; "warning"; "error"]))
    "severity must be info|warn|warning|error" ++
  fails (bool_decide (h_Confidence h ∉ [""; "low"; "medium"; "high"]) && bad_confidence (h_Confidence h))
    "confidence must be low|medium|high or 0..1" ++
  fails (bad_applies (h_AppliesTo h)) "applies_to entries must have non-empty keys and values".
End validation.

(** ** The table *)
Record HintRow := mkHintRow {
  hr_pattern : string; hr_recipes : string; hr_note : string; hr_tags : string;
  hr_severity : string; hr_applies_to : string; hr_confidence : string; hr_examples : string;
  hr_deleted_at : option Z }.
Abbreviation HintTable := (gmap string HintRow).

Section table.
Context `{HintEnv, Codec (gmap string (list string)), Codec (list string)}.

Definition row_of (h : Hint) : HintRow :=
  mkHintRow (h_Pattern h) (marshal (h_Recipes h)) (h_Note h) (marshal (h_Tags h)) (h_Severity h)
    (marshal (h_AppliesTo h)) (h_Confidence h) (marshal (h_Examples h)) None.
(** A column that does not parse is dropped. *)
Definition scan_hint (kr : string * HintRow) : Hint :=
  let r := kr.2 in
  mkHint (kr.1) (hr_pattern r) (default ∅ (unmarshal (hr_recipes r))) (hr_note r)
    (default [] (unmarshal (hr_tags r))) (hr_severity r) (default ∅ (unmarshal (hr_applies_to r)))
    (hr_confidence r) (default [] (unmarshal (hr_examples r))).
Definition live_rows (t : HintTable) : list (string * HintRow) :=
  filter (λ kr, hr_deleted_at (kr.2) = None) (map_to_list t).

Definition ListHints (t : HintTable) : list Hint := scan_hint <$> live_rows t.
Definition search_columns (kr : string * HintRow) : list string :=
  let r := kr.2 in
  [kr.1; hr_pattern r; hr_note r; json_text (hr_tags r); json_text (hr_recipes r);
   json_text (hr_applies_to r); json_text (hr_examples r)].
Definition row_matches (query : string) (kr : string * HintRow) : bool :=
  if decide (TrimSpace query = "") then true
  else existsb (λ col, ilike col ("%" +:+ query +:+ "%")) (search_columns kr).
(** [ListHintsPaged] with its search; the page is [HintFeed.ListHintsPaged]. *)
Definition search_hints (t : HintTable) (query : string) : list Hint :=
  by_id (scan_hint <$> filter (λ kr, row_matches query kr = true) (live_rows t)).
Definition HintCount (t : HintTable) : Z := Z.of_nat (size t).
(** [deleted_at] is not asked for. *)
Definition GetHint (id : string) (t : HintTable) : result Hint :=
  match t !! id with Some r => Ok (scan_hint (id, r)) | None => Err "sql: no rows in result set" end.
Definition PutHint (h : Hint) (t : HintTable) : result HintTable :=
  match db_refuses h with
  | Some e => Err e
  | None => Ok (<[h_ID h := row_of h]> t)
  end.
Definition DeleteHint (now : Z) (id : string) (t : HintTable) : HintTable :=
  alter (λ r, mkHintRow (hr_pattern r) (hr_recipes r) (hr_note r) (hr_tags r) (hr_severity r)
                (hr_applies_to r) (hr_confidence r) (hr_examples r) (Some now)) id t.
End table.

(** ** The handlers *)
Inductive HintReply :=
  | RError (e : string) | RInvalid (details : list string) | RDetail (d : string)
  | RHints (l : list Hint) | RHint (h : Hint) | RBulk (loaded skipped : Z) (errors : list string).
(** What became of one hint of a request or a file. *)
Inductive outcome := Invalid (errs : list string) | Refused (e : string) | Stored (t : HintTable).

Section handlers.
Context `{GoRuntime, Regexp, HintEnv, Codec (gmap string (list string)), Codec (list string)}.

Definition store_hint (h : Hint) (t : HintTable) : outcome :=
  match ValidateHint h with
  | [] => match PutHint h t with Ok t' => Stored t' | Err e => Refused e end
  | errs => Invalid errs
  end.
Definition reply (detail : string) (o : outcome) (t : HintTable) : (Z * HintReply) * HintTable :=
  match o with
  | Invalid errs => ((400, RInvalid errs), t)
  | Refused e => ((500, RError e), t)
  | Stored t' => ((200, RDetail detail), t')
  end.

(** The search and the page of a store without [ListHintsPaged]. *)
Definition hintMatchesQuery (q : string) (h : Hint) : bool :=
  let query := ToLower (TrimSpace q) in
  if decide (query = "") then true
  else
    let parts := [h_ID h; h_Pattern h; h_Note h; h_Severity h; h_Confidence h] ++ h_Tags h ++ h_Examples h
      ++ concat (snd <$> map_range (h_Recipes h)) ++ concat (snd <$> map_range (h_AppliesTo h)) in
    Contains (ToLower (Join parts " ")) query.
Definition page_in_memory (limit offset : Z) (query : string) (l : list Hint) : list Hint :=
  let l := if decide (query = "") then l else filter (λ h, hintMatchesQuery query h = true) l in
  let n := Z.of_nat (length l) in
  let l := if decide (0 < offset ∧ offset < n) then drop (Z.to_nat offset) l
           else if decide (n <= offset) then [] else l in
  if decide (0 < limit ∧ limit < Z.of_nat (length l)) then take (Z.to_nat limit) l else l.

Definition hints (pager : bool) (meth limit offset query : string) (body : option Hint) (t : HintTable)
    : (Z * HintReply) * HintTable :=
  if decide (meth = "GET") then
    let limit := parseIntDefault ParseInt limit 10 200 in
    let offset := parseIntDefault ParseInt offset 0 100000 in
    let query := TrimSpace query in
    let l := if pager then ListHintsPaged (search_hints t query) limit offset
             else page_in_memory limit offset query (ListHints t) in
    ((200, RHints l), t)
  else if decide (meth = "POST") then
    match body with
    | None => ((400, RError "invalid json"), t)
    | Some h => reply "created" (store_hint (NormalizeHint h) t) t
    end
  else ((405, RError "method not allowed"), t).

(** [id] is what follows "/api/hints/" in the path. *)
Definition hintByID (now : Z) (meth id : string) (body : option Hint) (t : HintTable)
    : (Z * HintReply) * HintTable :=
  if decide (id = "") then ((400, RError "id required"), t)
  else if decide (meth = "GET") then
    match GetHint id t with
    | Err e => ((500, RError e), t)
    | Ok h => ((200, RHint h), t)
    end
  else if decide (meth = "PUT") then
    match body with
    | None => ((400, RError "invalid json"), t)
    | Some h =>
      let h := mkHint id (h_Pattern h) (h_Recipes h) (h_Note h) (h_Tags h) (h_Severity h)
                 (h_AppliesTo h) (h_Confidence h) (h_Examples h) in
      reply "updated" (store_hint (NormalizeHint h) t) t
    end
  else if decide (meth = "DELETE") then ((200, RDetail "deleted"), DeleteHint now id t)
  else ((405, RError "method not allowed"), t).

Record bulk := mkBulk { bk_table : HintTable; bk_loaded : Z; bk_skipped : Z; bk_errors : list string }.
Definition bulk_step (b : bulk) (ih : nat * Hint) : bulk :=
  let h := NormalizeHint (ih.2) in
  match store_hint h (bk_table b) with
  | Invalid errs =>
    let label := if decide (h_ID h = "") then "index " +:+ itoa (Z.of_nat (ih.1)) else h_ID h in
    mkBulk (bk_table b) (bk_loaded b) (bk_skipped b + 1) (bk_errors b ++ [label +:+ ": " +:+ Join errs "; "])
  | Refused e =>
    mkBulk (bk_table b) (bk_loaded b) (bk_skipped b + 1) (bk_errors b ++ [h_ID h +:+ ": " +:+ e])
  | Stored t => mkBulk t (bk_loaded b + 1) (bk_skipped b) (bk_errors b)
  end.
Definition bulk_load (l : list Hint) (t : HintTable) : bulk :=
  foldl bulk_step (mkBulk t 0 0 []) (imap pair l).
(** [data] is the bytes of the form's file or of the body, or the error of reading
    them; [json_hints] is [json.Unmarshal]. *)
Definition hintsBulk (json_hints : string → option (list Hint)) (meth : string) (data : result string)
    (t : HintTable) : (Z * HintReply) * HintTable :=
  if decide (meth ≠ "POST") then ((405, RError "method not allowed"), t)
  else match data with
  | Err e => ((400, RError e), t)
  | Ok data =>
    if decide (data = "") then ((400, RError "empty payload"), t)
    else
      match (match yaml_hints data with Ok l => Some l | Err _ => json_hints data end) with
      | None => ((400, RError "invalid yaml/json"), t)
      | Some l =>
        let b := bulk_load l t in
        ((200, RBulk (bk_loaded b) (bk_skipped b) (bk_errors b)), bk_table b)
      end
  end.

(** ** hints_seed.go *)
Record SeedResult := mkSeedResult {
  sr_Files : Z; sr_Loaded : Z; sr_Skipped : Z; sr_Errors : list string }.
Definition no_seeds : SeedResult := mkSeedResult 0 0 0 [].
(** [filepath.Ext] of a name without a slash. *)
Definition Ext (name : string) : string :=
  match Split name "."%char with
  | [] | [_] => ""
  | pieces => "." +:+ default "" (last pieces)
  end.
Definition seed_error (r : SeedResult) (e : string) : SeedResult :=
  mkSeedResult (sr_Files r) (sr_Loaded r) (sr_Skipped r) (sr_Errors r ++ [e]).
Definition seed_hint (name : string) (s : SeedResult * HintTable) (h : Hint) : SeedResult * HintTable :=
  let '(r, t) := s in
  let h := NormalizeHint h in
  match store_hint h t with
  | Invalid errs =>
    let label := if decide (h_ID h = "") then "unknown-id" else h_ID h in
    (mkSeedResult (sr_Files r) (sr_Loaded r) (sr_Skipped r + 1)
       (sr_Errors r ++ [name +:+ ":" +:+ label +:+ ": " +:+ Join errs "; "]), t)
  | Refused e => (seed_error r (name +:+ ":" +:+ h_ID h +:+ ": " +:+ e), t)
  | Stored t' => (mkSeedResult (sr_Files r) (sr_Loaded r + 1) (sr_Skipped r) (sr_Errors r), t')
  end.
Definition seed_file (dir : string) (fs : Files) (s : SeedResult * HintTable) (name : string)
    : SeedResult * HintTable :=
  let '(r, t) := s in
  if decide (ToLower (Ext name) ∉ [".yaml"; ".yml"]) then (r, t)
  else
    let r := mkSeedResult (sr_Files r + 1) (sr_Loaded r) (sr_Skipped r) (sr_Errors r) in
    match read_file (path_join dir name) fs with
    | Err e => (seed_error r (name +:+ ": " +:+ e), t)
    | Ok data =>
      match yaml_hints data with
      | Err e => (seed_error r (name +:+ ": " +:+ e), t)
      | Ok l => foldl (seed_hint name) (r, t) l
      end
    end.
(** For a store that is there. *)
Definition SeedHintsFromDir `{Machine} (dir : string) (fs : Files) (t : HintTable)
    : (SeedResult * option string) * HintTable :=
  if decide (dir = "") then ((no_seeds, None), t)
  else match os_stat dir fs with
  | StatMissing => ((no_seeds, None), t)
  | StatError e => ((no_seeds, Some e), t)
  | StatOk false => ((no_seeds, Some ("hints path is not a directory: " +:+ dir)), t)
  | StatOk true =>
    match read_dir dir fs with
    | Err e => ((no_seeds, Some e), t)
    | Ok names => let '(r, t') := foldl (seed_file dir fs) (no_seeds, t) names in ((r, None), t')
    end
  end.

(** ** The life of the table: requests, and starts of the process *)
Inductive event :=
  | Hints (meth limit offset query : string) (body : option Hint)
  | HintByID (now : Z) (meth id : string) (body : option Hint)
  | HintsBulk (json_hints : string → option (list Hint)) (meth : string) (data : result string)
  | Start (seed : bool) (dir : string) (fs : Files).
Definition handle `{Machine} (t : HintTable) (e : event) : HintTable :=
  match e with
  | Hints meth limit offset query body => (hints true meth limit offset query body t).2
  | HintByID now meth id body => (hintByID now meth id body t).2
  | HintsBulk json_hints meth data => (hintsBulk json_hints meth data t).2
  | Start seed dir fs => if seed then (SeedHintsFromDir dir fs t).2 else t
  end.
Definition life `{Machine} (es : list event) : HintTable := foldl handle ∅ es.
End handlers.

(** ** Normal forms *)
Definition clean_list (l : list string) : Prop := Forall (λ s, TrimSpace s = s ∧ s ≠ "") l.
Definition clean_map (m : gmap string (list string)) : Prop :=
  map_Forall (λ k v, (TrimSpace k = k ∧ k ≠ "") ∧ clean_list v ∧ v ≠ []) m.
Record normal (h : Hint) : Prop := {
  nh_id : TrimSpace (h_ID h) = h_ID h; nh_pattern : TrimSpace (h_Pattern h) = h_Pattern h;
  nh_note : TrimSpace (h_Note h) = h_Note h;
  nh_severity : ToLower (TrimSpace (h_Severity h)) = h_Severity h;
  nh_confidence : ToLower (TrimSpace (h_Confidence h)) = h_Confidence h;
  nh_tags : clean_list (h_Tags h); nh_examples : clean_list (h_Examples h);
  nh_recipes : clean_map (h_Recipes h); nh_applies : clean_map (h_AppliesTo h) }.

Lemma lower_trim_idem s : ToLower (TrimSpace (ToLower (TrimSpace s))) = ToLower (TrimSpace s).
Proof.
  rewrite (ToLower_map (TrimSpace s)), TrimSpace_map by apply lower_byte_space.
  by rewrite TrimSpace_idem, <- ToLower_map, ToLower_idem.
Qed.
Lemma trimStringSlice_clean l : clean_list (trimStringSlice l).
Proof.
  apply Forall_forall. intros s [Hs (s' & -> & _)%list_elem_of_fmap]%list_elem_of_filter.
  split; [apply TrimSpace_idem|done].
Qed.
Lemma trimStringSlice_fixed l : clean_list l → trimStringSlice l = l.
Proof.
  unfold trimStringSlice. induction 1 as [|s l [Hs Hne] Hl IH]; [done|].
  rewrite fmap_cons, filter_cons, Hs, decide_True by done. by rewrite IH.
Qed.

Section normal_forms.
Context `{GoRuntime}.
Lemma trimStringMap_clean m : clean_map (trimStringMap m).
Proof using Type.
  intros k v Hk. unfold trimStringMap in Hk. rewrite fill_map_list_to_map in Hk.
  apply elem_of_list_to_map_2 in Hk. rewrite elem_of_reverse in Hk.
  apply list_elem_of_omap in Hk as ([k0 v0] & _ & He).
  unfold trim_entry in He. repeat case_decide; simplify_eq.
  split_and!; [apply TrimSpace_idem|done|apply trimStringSlice_clean|done].
Qed.
(** A map whose entries are all kept as they are is refilled. *)
Lemma refill_map (f : string * list string → option (string * list string)) m :
  (∀ k v, m !! k = Some v → f (k, v) = Some (k, v)) → fill_map (omap f (map_range m)) = m.
Proof using Type.
  intros Hf. assert (Hid : omap f (map_range m) = map_range m).
  { assert (Hall : ∀ kv, kv ∈ map_range m → f kv = Some kv).
    { intros [k v]. rewrite map_range_perm, elem_of_map_to_list. apply Hf. }
    induction (map_range m) as [|kv l IH]; [done|]. csimpl.
    rewrite Hall by (by left). rewrite IH; [done|]. intros kv' Hin. apply Hall. by right. }
  rewrite Hid, (fill_map_unordered _ (map_to_list m)).
  - rewrite fill_map_list_to_map. rewrite (list_to_map_proper _ (map_to_list m)).
    + apply list_to_map_to_list.
    + rewrite reverse_Permutation. apply NoDup_fst_map_to_list.
    + apply reverse_Permutation.
  - rewrite map_range_perm. apply NoDup_fst_map_to_list.
  - apply map_range_perm.
Qed.
Lemma trimStringMap_fixed m : clean_map m → trimStringMap m = m.
Proof using Type.
  intros Hm. apply refill_map. intros k v Hk. destruct (Hm _ _ Hk) as ((Hk1 & Hk2) & Hv & Hne).
  unfold trim_entry. simpl. by rewrite Hk1, trimStringSlice_fixed, !decide_False by done.
Qed.
Lemma NormalizeHint_normal h : normal (NormalizeHint h).
Proof using Type.
  split; simpl; auto using TrimSpace_idem, lower_trim_idem, trimStringSlice_clean, trimStringMap_clean.
Qed.
Lemma NormalizeHint_fixed h : normal h → NormalizeHint h = h.
Proof using Type.
  destruct h. intros []. unfold NormalizeHint. simpl in *.
  f_equal; auto using trimStringSlice_fixed, trimStringMap_fixed.
Qed.
(** What is normal does not depend on the order in which maps are visited. *)
Lemma NormalizeHint_idem h : NormalizeHint (NormalizeHint h) = NormalizeHint h.
Proof using Type. apply NormalizeHint_fixed, NormalizeHint_normal. Qed.
End normal_forms.

(** ** What is stored *)
Section stored.
Context `{GoRuntime, Regexp, HintEnv, Codec (gmap string (list string)), Codec (list string)}.

Definition accepts (h : Hint) : Prop := ValidateHint h = [] ∧ db_refuses h = None.
#[export] Instance accepts_dec h : Decision (accepts h).
Proof using Type. apply _. Defined.
(** The hints of a list that are stored, and the rows they leave: of those with one
    id the last. *)
Definition accepted (l : list Hint) : list Hint := filter accepts (NormalizeHint <$> l).
Definition stored (l : list Hint) : HintTable := fill_map ((λ h, (h_ID h, row_of h)) <$> accepted l).

Lemma store_hint_cases h t :
  (accepts h ∧ store_hint h t = Stored (<[h_ID h := row_of h]> t)) ∨
  (¬ accepts h ∧ ((∃ errs, store_hint h t = Invalid errs) ∨ ∃ e, store_hint h t = Refused e)).
Proof using Type.
  unfold store_hint, accepts, PutHint.
  destruct (ValidateHint h) as [|e errs]; [destruct (db_refuses h) as [e|]|].
  - right. split; [by intros [_ ?]|]. eauto.
  - by left.
  - right. split; [by intros [? _]|]. eauto.
Qed.
Lemma accepted_snoc l h :
  accepted (l ++ [h]) = accepted l ++ (if decide (accepts (NormalizeHint h)) then [NormalizeHint h] else []).
Proof using Type. unfold accepted. rewrite fmap_app, filter_app. simpl. by rewrite filter_cons, filter_nil. Qed.
Lemma stored_snoc l h :
  stored (l ++ [h]) =
    if decide (accepts (NormalizeHint h))
    then <[TrimSpace (h_ID h) := row_of (NormalizeHint h)]> (stored l) else stored l.
Proof using Type.
  unfold stored. rewrite accepted_snoc. case_decide.
  - rewrite fmap_app. csimpl. by rewrite fill_map_snoc.
  - by rewrite app_nil_r.
Qed.
Lemma stored_app l1 l2 : stored (l1 ++ l2) = stored l2 ∪ stored l1.
Proof using Type.
  induction l2 as [|h l2 IH] using rev_ind.
  - rewrite app_nil_r. change (stored []) with (∅ : HintTable). by rewrite (left_id_L ∅ (∪)).
  - rewrite (assoc_L (++)), !stored_snoc, IH. case_decide; [|done]. by rewrite insert_union_l.
Qed.
(** A hint of a list that is accepted has a row, of a hint of the list with its id. *)
Lemma stored_has l h : h ∈ accepted l →
  ∃ h', h' ∈ accepted l ∧ h_ID h' = h_ID h ∧ stored l !! h_ID h = Some (row_of h').
Proof using Type.
  intros Hin. unfold stored. rewrite fill_map_list_to_map.
  destruct (list_to_map _ !! h_ID h) as [r|] eqn:E.
  - pose proof E as Hr. apply elem_of_list_to_map_2 in E. rewrite elem_of_reverse in E.
    apply list_elem_of_fmap in E as (h' & ? & ?). simplify_eq. exists h'. split_and!; [done|done|].
    by rewrite <- Hr.
  - apply not_elem_of_list_to_map in E. destruct E. rewrite fmap_reverse, elem_of_reverse.
    apply list_elem_of_fmap. exists (h_ID h, row_of h). split; [done|].
    apply list_elem_of_fmap. by exists h.
Qed.
Lemma stored_row l id r : stored l !! id = Some r → ∃ h, h ∈ accepted l ∧ h_ID h = id ∧ r = row_of h.
Proof using Type.
  unfold stored. rewrite fill_map_list_to_map. intros E%elem_of_list_to_map_2.
  rewrite elem_of_reverse in E. apply list_elem_of_fmap in E as (h & ? & ?). simplify_eq. eauto.
Qed.
Lemma accepted_ok l h : h ∈ accepted l → normal h ∧ accepts h.
Proof using Type.
  intros [Ha (h0 & -> & _)%list_elem_of_fmap]%list_elem_of_filter. split; [apply NormalizeHint_normal|done].
Qed.
End stored.

(** ** The operations against these rows *)
Section operations.
Context `{GoRuntime, Regexp, HintEnv, Codec (gmap string (list string)), Codec (list string), Machine}.

Lemma scan_row_of h : scan_hint (h_ID h, row_of h) = h.
Proof using Type. destruct h. unfold scan_hint, row_of. simpl. by rewrite !unmarshal_marshal. Qed.
Lemma bulk_load_snoc l h t : bulk_load (l ++ [h]) t = bulk_step (bulk_load l t) (length l, h).
Proof using Type. unfold bulk_load. rewrite imap_app, foldl_app. simpl. by rewrite Nat.add_0_r. Qed.

(** The hints of a seed file, and of the directory. *)
Definition file_hints (dir : string) (fs : Files) (name : string) : list Hint :=
  if decide (ToLower (Ext name) ∉ [".yaml"; ".yml"]) then []
  else match read_file (path_join dir name) fs with
       | Err _ => []
       | Ok data => match yaml_hints data with Ok l => l | Err _ => [] end
       end.
Definition dir_hints (dir : string) (fs : Files) : list Hint :=
  if decide (dir = "") then []
  else match os_stat dir fs, read_dir dir fs with
       | StatOk true, Ok names => concat (file_hints dir fs <$> names)
       | _, _ => []
       end.
Lemma seed_hint_table name l r t : (foldl (seed_hint name) (r, t) l).2 = stored l ∪ t.
Proof using Type.
  induction l as [|h l IH] using rev_ind.
  - simpl. change (stored []) with (∅ : HintTable). by rewrite (left_id_L ∅ (∪)).
  - rewrite foldl_app, stored_snoc. destruct (foldl _ _ l) as [r' t']. simpl in IH |- *. subst t'.
    destruct (store_hint_cases (NormalizeHint h) (stored l ∪ t)) as [[Ha ->]|[Ha [[? ->]|[? ->]]]].
    + rewrite decide_True by done. by rewrite <- insert_union_l.
    + by rewrite (decide_False (P := accepts _)) by done.
    + by rewrite (decide_False (P := accepts _)) by done.
Qed.
Lemma seed_file_table dir fs s name : (seed_file dir fs s name).2 = stored (file_hints dir fs name) ∪ s.2.
Proof using Type.
  destruct s as [r t]. unfold seed_file, file_hints.
  assert (Hnil : t = stored [] ∪ t) by (change (stored []) with (∅ : HintTable); by rewrite (left_id_L ∅ (∪))).
  case_decide; [exact Hnil|]. destruct (read_file _ _) as [data|]; [|exact Hnil].
  destruct (yaml_hints data) as [l|]; [apply seed_hint_table|exact Hnil].
Qed.
Lemma seed_files_table dir fs names s :
  (foldl (seed_file dir fs) s names).2 = stored (concat (file_hints dir fs <$> names)) ∪ s.2.
Proof using Type.
  induction names as [|name names IH] using rev_ind.
  - simpl. change (stored []) with (∅ : HintTable). by rewrite (left_id_L ∅ (∪)).
  - rewrite foldl_app. cbn [foldl]. rewrite seed_file_table, IH, fmap_app, concat_app. csimpl.
    by rewrite app_nil_r, stored_app, (assoc_L (∪)).
Qed.
Lemma SeedHintsFromDir_table dir fs t : (SeedHintsFromDir dir fs t).2 = stored (dir_hints dir fs) ∪ t.
Proof using Type.
  unfold SeedHintsFromDir, dir_hints.
  assert (Hnil : t = stored [] ∪ t) by (change (stored []) with (∅ : HintTable); by rewrite (left_id_L ∅ (∪))).
  case_decide; [exact Hnil|]. destruct (os_stat dir fs) as [|e|[]]; try exact Hnil.
  destruct (read_dir dir fs) as [names|]; [|exact Hnil].
  pose proof (seed_files_table dir fs names (no_seeds, t)) as Ht.
  destruct (foldl _ _ names) as [r t']. exact Ht.
Qed.

(** *** The invariant of the table *)
Definition row_ok (id : string) (r : HintRow) : Prop :=
  normal (scan_hint (id, r)) ∧ ValidateHint (scan_hint (id, r)) = [].
Definition table_ok (t : HintTable) : Prop := map_Forall row_ok t.
Lemma stored_ok l : table_ok (stored l).
Proof using Type.
  intros id r (h & [Hn [Hv _]]%accepted_ok & <- & ->)%stored_row. unfold row_ok. by rewrite scan_row_of.
Qed.
Lemma union_ok t1 t2 : table_ok t1 → table_ok t2 → table_ok (t1 ∪ t2).
Proof using Type. intros H1' H2'. by apply map_Forall_union_2. Qed.
Lemma store_hint_ok h t t' :
  normal h → table_ok t → store_hint h t = Stored t' → table_ok t'.
Proof using Type.
  intros Hn Ht Hs. destruct (store_hint_cases h t) as [[[Hv _] He]|[_ [[? He]|[? He]]]]; rewrite Hs in He; simplify_eq.
  apply map_Forall_insert_2; [|done]. unfold row_ok. by rewrite scan_row_of.
Qed.
Lemma reply_ok d h t : normal h → table_ok t → table_ok (reply d (store_hint h t) t).2.
Proof using Type. intros Hn Ht. destruct (store_hint h t) eqn:E; simpl; eauto using store_hint_ok. Qed.
Lemma DeleteHint_ok now id t : table_ok t → table_ok (DeleteHint now id t).
Proof using Type.
  intros Ht id' r. unfold DeleteHint. rewrite lookup_alter. case_decide; [|apply Ht].
  subst. intros (r' & Hr' & ->)%fmap_Some. exact (Ht _ _ Hr').
Qed.
Lemma bulk_load_table l t : bk_table (bulk_load l t) = stored l ∪ t.
Proof using Type.
  induction l as [|h l IH] using rev_ind.
  - change (stored []) with (∅ : HintTable). by rewrite (left_id_L ∅ (∪)).
  - rewrite bulk_load_snoc, stored_snoc. unfold bulk_step. simpl. rewrite IH.
    destruct (store_hint_cases (NormalizeHint h) (stored l ∪ t)) as [[Ha ->]|[Ha [[? ->]|[? ->]]]].
    + rewrite decide_True by done. simpl. by rewrite <- insert_union_l.
    + by rewrite (decide_False (P := accepts _)) by done.
    + by rewrite (decide_False (P := accepts _)) by done.
Qed.
Lemma handle_ok t e : table_ok t → table_ok (handle t e).
Proof using Type.
  intros Ht. destruct e as [meth limit offset query body|now meth id body|js meth data|seed dir fs]; simpl.
  - unfold hints. repeat case_decide; simpl; [done| |done].
    destruct body; [apply reply_ok; auto using NormalizeHint_normal|done].
  - unfold hintByID. repeat case_decide; simpl; [done| | |by apply DeleteHint_ok|done].
    + by destruct (GetHint id t).
    + destruct body; [apply reply_ok; auto using NormalizeHint_normal|done].
  - unfold hintsBulk. case_decide; [done|]. destruct data as [data|]; [|done]. case_decide; [done|].
    destruct (match yaml_hints data with Ok l => Some l | Err _ => js data end); simpl; [|done].
    rewrite bulk_load_table. auto using union_ok, stored_ok.
  - destruct seed; [|done]. rewrite SeedHintsFromDir_table. auto using union_ok, stored_ok.
Qed.
Lemma life_ok es : table_ok (life es).
Proof using Type.
  unfold life. induction es as [|e es IH] using rev_ind; [apply map_Forall_empty|].
  rewrite foldl_app. by apply handle_ok.
Qed.

(** What is listed. *)
Lemma elem_of_ListHints h t :
  h ∈ ListHints t ↔ ∃ r, t !! h_ID h = Some r ∧ hr_deleted_at r = None ∧ h = scan_hint (h_ID h, r).
Proof using Type.
  unfold ListHints, live_rows. rewrite list_elem_of_fmap. split.
  - intros ([id r] & -> & [Hd Hr%elem_of_map_to_list]%list_elem_of_filter). by exists r.
  - intros (r & Hr & Hd & Heq). exists (h_ID h, r). split; [done|].
    apply list_elem_of_filter. by rewrite elem_of_map_to_list.
Qed.
(** A page of a store with and without [ListHintsPaged]. *)
Lemma page_in_memory_page limit offset l :
  0 < limit <= 200 → 0 <= offset → page_in_memory limit offset "" l = ListHintsPaged l limit offset.
Proof using Type.
  intros Hl Ho. unfold page_in_memory, ListHintsPaged. cbv zeta. rewrite (decide_True (P := "" = "")) by done.
  rewrite (decide_False (P := limit <= 0)), (decide_False (P := 200 < limit)),
    (decide_False (P := offset < 0)) by lia.
  assert (Hdrop : (if decide (0 < offset ∧ offset < Z.of_nat (length l)) then drop (Z.to_nat offset) l
                   else if decide (Z.of_nat (length l) <= offset) then [] else l) = drop (Z.to_nat offset) l).
  { repeat case_decide; [done| |].
    - by rewrite drop_ge by lia.
    - by replace offset with 0 by lia. }
  rewrite Hdrop. destruct (decide (0 < limit ∧ _)) as [|Ht]; [done|]. rewrite take_ge; [done|lia].
Qed.
End operations.

(** ** Theorems *)
Section theorems.
Context `{GoRuntime, Regexp, HintEnv, Codec (gmap string (list string)), Codec (list string), Machine}.

(** The hint a PUT under [id] means. *)
Definition put_hint (id : string) (h : Hint) : Hint :=
  NormalizeHint (mkHint id (h_Pattern h) (h_Recipes h) (h_Note h) (h_Tags h) (h_Severity h)
    (h_AppliesTo h) (h_Confidence h) (h_Examples h)).
Lemma hintByID_put now id h t reply t' :
  hintByID now "PUT" id (Some h) t = ((200, reply), t') →
  id ≠ "" ∧ accepts (put_hint id h) ∧ t' = <[TrimSpace id := row_of (put_hint id h)]> t.
Proof using Type.
  unfold hintByID. rewrite (decide_False (P := "PUT" = "GET")), (decide_True (P := "PUT" = "PUT")) by done.
  case_decide as Hid; [done|]. fold (put_hint id h). unfold HintAdmin.reply.
  destruct (store_hint_cases (put_hint id h) t) as [[Ha ->]|[_ [[? ->]|[? ->]]]]; intros; simplify_eq.
  split_and!; done.
Qed.

(** C24. A hint that [PUT /api/hints/<id>] takes is what [GET] under the trimmed id
    returns from then on, in its normal form, it is listed, even when it had been
    deleted, and no other row changes. *)
Theorem hint_put_get now now' id h t reply t' :
  hintByID now "PUT" id (Some h) t = ((200, reply), t') →
  hintByID now' "GET" (TrimSpace id) None t' = ((200, RHint (put_hint id h)), t') ∧
  put_hint id h ∈ ListHints t' ∧
  ∀ other, other ≠ TrimSpace id → t' !! other = t !! other.
Proof using Type.
  intros (Hid & [Hv _] & ->)%hintByID_put. assert (Hscan : scan_hint (TrimSpace id, row_of (put_hint id h)) = put_hint id h)
    by exact (scan_row_of (put_hint id h)).
  assert (Hne : TrimSpace id ≠ "").
  { intros He. unfold ValidateHint in Hv. apply app_eq_nil in Hv as [Hv _].
    unfold put_hint in Hv. simpl in Hv. by rewrite He in Hv. }
  split_and!.
  - unfold hintByID. rewrite (decide_False (P := TrimSpace id = "")) by done. simpl.
    unfold GetHint. rewrite lookup_insert_eq. by rewrite Hscan.
  - apply elem_of_ListHints. exists (row_of (put_hint id h)). split_and!; [|done|by rewrite scan_row_of].
    apply lookup_insert_eq.
  - intros other Ho. by rewrite lookup_insert_ne.
Qed.

(** C18. Whatever requests and starts the table has seen: every row holds a hint in
    normal form that passes the validation. *)
Theorem hint_table_valid es :
  map_Forall (λ id r, NormalizeHint (scan_hint (id, r)) = scan_hint (id, r) ∧
                      ValidateHint (scan_hint (id, r)) = []) (life es).
Proof using Type.
  intros id r Hr. destruct (life_ok es id r Hr) as [Hn Hv]. split; [by apply NormalizeHint_fixed|done].
Qed.

(** A start with seeding overwrites the table with the accepted hints of the
    seed directory, the last of each id, and keeps the other rows.  So each id the
    files give an accepted hint is listed with a hint of the files afterwards, also
    when requests had deleted or changed it. *)
Theorem restart_restores_seeds es dir fs :
  life (es ++ [Start true dir fs]) = stored (dir_hints dir fs) ∪ life es ∧
  ∀ h, h ∈ accepted (dir_hints dir fs) →
    ∃ h', h' ∈ accepted (dir_hints dir fs) ∧ h_ID h' = h_ID h ∧
          h' ∈ ListHints (life (es ++ [Start true dir fs])).
Proof using Type.
  assert (Hlife : life (es ++ [Start true dir fs]) = stored (dir_hints dir fs) ∪ life es).
  { unfold life. rewrite foldl_app. simpl. apply SeedHintsFromDir_table. }
  split; [done|]. intros h (h' & Hin & Hid & Hrow)%stored_has. exists h'. split_and!; [done|done|].
  rewrite Hlife. apply elem_of_ListHints. exists (row_of h').
  split_and!; [|done|by rewrite scan_row_of]. rewrite Hid. by apply lookup_union_Some_l.
Qed.

(** A deleted hint is no longer listed, but [GET /api/hints/<id>] still
    returns it. *)
Theorem deleted_hint_served now now' id r t :
  id ≠ "" → t !! id = Some r →
  let t' := (hintByID now "DELETE" id None t).2 in
  (∀ h, h ∈ ListHints t' → h_ID h ≠ id) ∧
  hintByID now' "GET" id None t' = ((200, RHint (scan_hint (id, r))), t').
Proof using Type.
  intros Hid Hr. unfold hintByID. rewrite !(decide_False (P := id = "")) by done. simpl.
  unfold GetHint, DeleteHint. split.
  - intros h (r' & Hr' & Hd & _)%elem_of_ListHints Heq.
    rewrite Heq, lookup_alter_eq, Hr in Hr'. by simplify_eq/=.
  - by rewrite lookup_alter_eq, Hr.
Qed.

(** A bulk upload stores exactly the hints of the payload that are accepted, of
    those with one id the last, and counts them: each hint is loaded or skipped,
    and there is one error for each that is skipped. *)
Theorem bulk_load_spec l t :
  let b := bulk_load l t in
  bk_table b = stored l ∪ t ∧ bk_loaded b = Z.of_nat (length (accepted l)) ∧
  bk_loaded b + bk_skipped b = Z.of_nat (length l) ∧ Z.of_nat (length (bk_errors b)) = bk_skipped b.
Proof using Type.
  simpl. split; [apply bulk_load_table|].
  induction l as [|h l IH] using rev_ind; [done|].
  rewrite bulk_load_snoc, accepted_snoc, !length_app. unfold bulk_step. cbn [fst snd length].
  destruct (store_hint_cases (NormalizeHint h) (bk_table (bulk_load l t))) as [[Ha ->]|[Ha [[e ->]|[e ->]]]];
    [rewrite decide_True by done|rewrite (decide_False (P := accepts _)) by done..];
    simpl; rewrite ?length_app; simpl; lia.
Qed.
End theorems.

(** ** Witnesses *)
Definition demo_env : HintEnv := {|
  by_id l := l; by_id_perm l := reflexivity _;
  ilike v p := Contains v p; json_text s := s; db_refuses h := None; re_error p := "bad";
  ParseFloat s := if decide (s = "nan") then Some NaN else if decide (s = "0.5") then Some (Number (1 # 2)) else None;
  os_stat dir fs := StatOk true;
  yaml_hints data :=
    if decide (data = "gcc") then
      Ok [mkHint "gcc" "gcc: not found" {["dnf" := ["gcc"]]} "install gcc" [] "" ∅ "" [];
          mkHint "bad" "" ∅ "" [] "fatal" ∅ "" []]
    else Err "yaml" |}.
#[local] Existing Instances demo_env reference_runtime literal_regexp sample_machine.

Definition posted_hint : Hint :=
  mkHint "ignored" " gcc " {["dnf" := ["gcc "; " "]]} "edited" [" c "] "WARN" {["arch" := ["s390x"]]} "nan" [].
Definition put_table : HintTable := (hintByID 1 "PUT" " gcc" (Some posted_hint) ∅).2.
Lemma put_accepted : hintByID 1 "PUT" " gcc" (Some posted_hint) ∅ = ((200, RDetail "updated"), put_table).
Proof. reflexivity. Qed.
Lemma hint_put_get_witness :
  hintByID 2 "GET" (TrimSpace " gcc") None put_table = ((200, RHint (put_hint " gcc" posted_hint)), put_table).
Proof. apply (hint_put_get 1 2 " gcc" posted_hint ∅ (RDetail "updated") put_table), put_accepted. Defined.

Definition seed_files : Files := {["/hints/gcc.YAML" := "gcc"; "/hints/notes.txt" := "gcc"]}.
Definition seeded_hint : Hint := mkHint "gcc" "gcc: not found" {["dnf" := ["gcc"]]} "install gcc" [] "" ∅ "" [].
Lemma seeded : accepted (dir_hints "/hints" seed_files) = [seeded_hint].
Proof. reflexivity. Qed.
(** Edited and deleted by requests, the hint of the file is back after a start. *)
Lemma restart_restores_seeds_witness :
  seeded_hint ∈ ListHints (life [HintByID 1 "PUT" " gcc" (Some posted_hint); HintByID 2 "DELETE" "gcc" None;
                                 Start true "/hints" seed_files]).
Proof.
  destruct (restart_restores_seeds [HintByID 1 "PUT" " gcc" (Some posted_hint); HintByID 2 "DELETE" "gcc" None]
              "/hints" seed_files) as [_ Hall].
  destruct (Hall seeded_hint) as (h' & Hin & _ & Hlisted); [rewrite seeded; by left|].
  rewrite seeded in Hin. apply list_elem_of_singleton in Hin. by subst.
Defined.
Lemma put_row : put_table !! "gcc" = Some (row_of (put_hint " gcc" posted_hint)).
Proof. reflexivity. Qed.
Lemma gcc_row : scan_hint ("gcc", row_of (put_hint " gcc" posted_hint)) = put_hint " gcc" posted_hint.
Proof. exact (scan_row_of (put_hint " gcc" posted_hint)). Qed.
Lemma deleted_hint_served_witness :
  hintByID 3 "GET" "gcc" None (hintByID 2 "DELETE" "gcc" None put_table).2 =
    ((200, RHint (put_hint " gcc" posted_hint)), (hintByID 2 "DELETE" "gcc" None put_table).2).
Proof.
  destruct (deleted_hint_served 2 3 "gcc" _ put_table ltac:(done) put_row) as [_ Hget].
  rewrite Hget, gcc_row. reflexivity.
Defined.
