(* ===== verification/LogStream.v ===== *)
(** The stream of a build's log, as the worker sends it while the build runs:
    [go-worker/internal/service/log_stream.go].  [Write] cuts what the runner
    writes into lines; each becomes a numbered chunk in a channel of 256, which a
    goroutine of its own empties into the request to the control plane.  A chunk
    that finds the channel full is dropped. *)
From S2P Require Import Prelude.
From S2P Require Import GoStr.
From S2P Require Import Parse.
From Stdlib Require Import Ascii.
Local Open Scope string_scope.
Local Open Scope list_scope.
Local Open Scope nat_scope.

Definition logChunkMaxBytes : nat := 32 * 1024.
Definition channel_size : nat := 256.

(** ** Cutting into chunks

    [Write] of [logStreamWriter] without the channel: the contents emitted and
    what stays in the buffer.  Every turn of its loop takes a line off the
    buffer, so the length of the buffer is enough fuel. *)
Fixpoint write_loop (fuel : nat) (buf : string) : option (list string * string) :=
  match fuel with
  | O => None
  | S fuel =>
    match Index buf (String newline "") with
    | None => if decide (logChunkMaxBytes <= String.length buf) then Some ([buf], "") else Some ([], buf)
    | Some idx =>
      let line := str_take idx buf in
      '(emitted, rest) ← write_loop fuel (str_drop (idx + 1) buf);
      Some ((if decide (TrimSpace line = "") then emitted else line :: emitted), rest)
    end
  end.
Definition write_chunks (buf p : string) : option (list string * string) :=
  write_loop (S (String.length (buf +:+ p))) (buf +:+ p).
(** A writer's whole life: some writes, then [Close]. *)
Fixpoint stream_chunks (buf : string) (ps : list string) : option (list string) :=
  match ps with
  | [] => Some (if decide (0 < String.length buf) then [buf] else [])
  | p :: ps =>
    '(emitted, buf') ← write_chunks buf p;
    rest ← stream_chunks buf' ps;
    Some (emitted ++ rest)
  end.

(** ** The channel

    [ls_seq] chunks were emitted, [ls_ch] is in the channel and [ls_sent] has
    been written to the request, oldest first.  The goroutine returns when a
    write fails. *)
Record Stream := mkStream {
  ls_seq : Z; ls_ch : list (Z * string); ls_sent : list (Z * string); ls_failed : bool }.
Definition new_stream : Stream := mkStream 0 [] [] false.
Definition emitChunk (content : string) (s : Stream) : Stream :=
  let seq := (ls_seq s + 1)%Z in
  mkStream seq
    (if decide (length (ls_ch s) < channel_size) then ls_ch s ++ [(seq, content)] else ls_ch s)
    (ls_sent s) (ls_failed s).
(** One turn of the goroutine; [accepts n] says whether the pipe takes the n-th write. *)
Definition pump (accepts : nat → bool) (s : Stream) : Stream :=
  if ls_failed s then s
  else match ls_ch s with
       | [] => s
       | c :: ch =>
         if accepts (length (ls_sent s)) then mkStream (ls_seq s) ch (ls_sent s ++ [c]) false
         else mkStream (ls_seq s) ch (ls_sent s) true
       end.
(** The goroutine takes [n] turns before the first chunk is emitted, and so on;
    after [Close] it empties the channel. *)
Fixpoint emit_all (accepts : nat → bool) (sched : list nat) (contents : list string) (s : Stream) : Stream :=
  match contents with
  | [] => s
  | c :: contents =>
    emit_all accepts (tail sched) contents
      (emitChunk c (Nat.iter (default 0 (head sched)) (pump accepts) s))
  end.
Definition close_stream (accepts : nat → bool) (s : Stream) : Stream :=
  Nat.iter (length (ls_ch s)) (pump accepts) s.
(** The chunks that reach the request when the log is written as [ps]. *)
Definition send_log (accepts : nat → bool) (sched : list nat) (ps : list string) : option (list (Z * string)) :=
  contents ← stream_chunks "" ps;
  Some (ls_sent (close_stream accepts (emit_all accepts sched contents new_stream))).

(** ** Cutting is by lines *)
Definition no_newline (s : string) : Prop := str_forall (λ d, negb (bool_decide (d = newline))) s = true.
Definition nonblank (s : string) : Prop := TrimSpace s ≠ "".
(** The last line, without a newline at its end, and the lines before it. *)
Definition text_lines (s : string) : list string := Split s newline.
Definition full_lines (s : string) : list string := removelast (text_lines s).
Definition last_line (s : string) : string := List.last (text_lines s) "".

Lemma first_newline s :
  no_newline s ∨ ∃ a b, s = a +:+ String newline b ∧ no_newline a.
Proof.
  induction s as [|c s IH]; [by left|]. destruct (decide (c = newline)) as [->|Hc].
  - right. exists "", s. split; [by rewrite append_nil_l|done].
  - destruct IH as [Hs|(a & b & -> & Ha)].
    + left. unfold no_newline. cbn [str_forall]. by rewrite bool_decide_false.
    + right. exists (String c a), b. split; [by rewrite append_cons|].
      unfold no_newline. cbn [str_forall]. by rewrite bool_decide_false.
Qed.
Lemma lines_cons a b : no_newline a →
  full_lines (a +:+ String newline b) = a :: full_lines b ∧ last_line (a +:+ String newline b) = last_line b.
Proof.
  intros Ha. unfold full_lines, last_line, text_lines. rewrite Split_app_sep, (Split_no_sep a) by done. simpl.
  pose proof (Split_nonempty b newline) as Hb. by destruct (Split b newline).
Qed.
Lemma lines_last a : no_newline a → full_lines a = [] ∧ last_line a = a.
Proof. intros Ha. unfold full_lines, last_line, text_lines. by rewrite Split_no_sep. Qed.
Lemma str_drop_line a b : str_drop (String.length a + 1) (a +:+ String newline b) = b.
Proof.
  replace (String.length a + 1) with (String.length (a +:+ String newline "")) by (by rewrite str_length_app).
  rewrite <- (append_nil_l b) at 1. rewrite <- append_cons, <- append_assoc. apply str_drop_app.
Qed.
(** Induction over the lines of a text. *)
Lemma lines_ind (P : string → Prop) :
  (∀ a, no_newline a → P a) →
  (∀ a b, no_newline a → P b → P (a +:+ String newline b)) → ∀ s, P s.
Proof.
  intros Hlast Hcons s. remember (String.length s) as n eqn:Hn. revert s Hn.
  induction (lt_wf n) as [n _ IH]. intros s ->.
  destruct (first_newline s) as [Hs|(a & b & -> & Ha)]; [by apply Hlast|].
  apply Hcons; [done|]. apply (IH (String.length b)); [|done].
  rewrite str_length_app. simpl. lia.
Qed.
Lemma write_loop_lines s fuel : String.length s < fuel →
  write_loop fuel s = Some
    (if decide (logChunkMaxBytes <= String.length (last_line s))
     then (filter nonblank (full_lines s) ++ [last_line s], "")
     else (filter nonblank (full_lines s), last_line s)).
Proof.
  revert fuel. induction s as [s Hs|a b Ha IH] using lines_ind; intros [|fuel] Hf; [lia| |lia|].
  - destruct (lines_last s Hs) as [-> ->]. cbn [write_loop]. rewrite Index_absent by done. by case_decide.
  - destruct (lines_cons a b Ha) as [-> ->]. cbn [write_loop]. rewrite Index_first by done.
    rewrite str_take_app, str_drop_line, IH by (rewrite str_length_app in Hf; simpl in Hf; lia).
    rewrite filter_cons. destruct (decide (TrimSpace a = "")) as [Hb|Hb];
      [rewrite (decide_False (P := nonblank a)) by (by intros ?)|rewrite (decide_True (P := nonblank a)) by done];
      by destruct (decide (logChunkMaxBytes <= _)).
Qed.

Lemma last_line_no_newline s : no_newline (last_line s).
Proof.
  apply (Split_pieces s newline). unfold last_line, text_lines.
  pose proof (Split_nonempty s newline) as Hne. destruct (exists_last Hne) as (l & x & ->).
  rewrite last_last. set_solver.
Qed.
Lemma text_lines_eq s : text_lines s = full_lines s ++ [last_line s].
Proof. apply app_removelast_last, Split_nonempty. Qed.
Lemma lines_app a b :
  full_lines (a +:+ b) = full_lines a ++ full_lines (last_line a +:+ b) ∧
  last_line (a +:+ b) = last_line (last_line a +:+ b).
Proof.
  induction a as [a Ha|a a' Ha IH] using lines_ind.
  - by destruct (lines_last a Ha) as [-> ->].
  - rewrite append_assoc, append_cons. destruct (lines_cons a (a' +:+ b) Ha) as [-> ->].
    destruct (lines_cons a a' Ha) as [-> ->]. destruct IH as [-> ->]. done.
Qed.
(** What is left of a text's first part is the start of a line of the text. *)
Lemma last_line_start a b :
  ∃ w, w ∈ text_lines (a +:+ b) ∧ String.length (last_line a) <= String.length w.
Proof.
  induction a as [a Ha|a a' Ha (w & Hw & Hlen)] using lines_ind.
  - destruct (lines_last a Ha) as [_ ->]. destruct (first_newline b) as [Hb|(c & d & -> & Hc)].
    + exists (a +:+ b). split; [|rewrite str_length_app; lia]. unfold text_lines. rewrite Split_no_sep; [set_solver|].
      unfold no_newline in Ha, Hb. by rewrite str_forall_app, Ha, Hb.
    + exists (a +:+ c). split; [|rewrite str_length_app; lia].
      rewrite <- append_assoc. unfold text_lines. rewrite Split_app_sep, (Split_no_sep (a +:+ c)); [set_solver|].
      unfold no_newline in Ha, Hc. by rewrite str_forall_app, Ha, Hc.
  - exists w. destruct (lines_cons a a' Ha) as [_ ->]. split; [|done].
    rewrite append_assoc, append_cons. unfold text_lines. rewrite Split_app_sep. apply elem_of_app. by right.
Qed.

(** ** What the channel does *)
Definition numbered (contents : list string) : list (Z * string) :=
  imap (λ i c, (Z.of_nat (i + 1), c)) contents.
Lemma numbered_snoc cs c : numbered (cs ++ [c]) = numbered cs ++ [(Z.of_nat (length cs + 1), c)].
Proof. unfold numbered. rewrite imap_app. simpl. by rewrite Nat.add_0_r. Qed.

(** [s] has been given the chunks [cs]: they are numbered, and what is on its way
    is some of them, in order. *)
Definition carries (cs : list string) (s : Stream) : Prop :=
  ls_seq s = Z.of_nat (length cs) ∧ ls_sent s ++ ls_ch s `sublist_of` numbered cs.
(** ... or all of them, and nothing has failed. *)
Definition carries_all (cs : list string) (s : Stream) : Prop :=
  ls_seq s = Z.of_nat (length cs) ∧ ls_sent s ++ ls_ch s = numbered cs ∧ ls_failed s = false.
(** Every chunk finds room in the channel. *)
Fixpoint keeps_up (accepts : nat → bool) (sched : list nat) (contents : list string) (s : Stream) : Prop :=
  match contents with
  | [] => True
  | c :: contents =>
    let s := Nat.iter (default 0 (head sched)) (pump accepts) s in
    length (ls_ch s) < channel_size ∧ keeps_up accepts (tail sched) contents (emitChunk c s)
  end.

Section channel.
Context (accepts : nat → bool).
Lemma pump_carries cs s : carries cs s → carries cs (pump accepts s).
Proof using Type.
  unfold carries, pump. intros [Hseq Hsub]. destruct (ls_failed s); [done|].
  destruct (ls_ch s) as [|c ch] eqn:Hch; [by rewrite Hch|].
  destruct (accepts _); simpl; (split; [done|]).
  - by rewrite <- (assoc_L (++)).
  - etrans; [|exact Hsub]. apply sublist_app; [done|]. by apply sublist_cons.
Qed.
Lemma emit_carries cs c s : carries cs s → carries (cs ++ [c]) (emitChunk c s).
Proof using Type.
  unfold carries, emitChunk. intros [Hseq Hsub]. cbn [ls_seq ls_ch ls_sent]. rewrite length_app. simpl length.
  split; [lia|]. rewrite numbered_snoc, Hseq. case_decide.
  - rewrite (assoc_L (++)). apply sublist_app; [done|].
    by replace (Z.of_nat (length cs) + 1)%Z with (Z.of_nat (length cs + 1)) by lia.
  - by apply sublist_inserts_r.
Qed.
Lemma iter_pump (P : Stream → Prop) n s : (∀ s, P s → P (pump accepts s)) → P s → P (Nat.iter n (pump accepts) s).
Proof using Type. intros Hp Hs. induction n; simpl; auto. Qed.
Lemma emit_all_carries sched cs cs' s : carries cs s → carries (cs ++ cs') (emit_all accepts sched cs' s).
Proof using Type.
  revert sched cs s. induction cs' as [|c cs' IH]; intros sched cs s Hs; [by rewrite app_nil_r|].
  replace (cs ++ c :: cs') with ((cs ++ [c]) ++ cs') by (by rewrite <- (assoc_L (++))).
  cbn [emit_all]. apply IH, emit_carries, iter_pump; [|done]. intros. by apply pump_carries.
Qed.

Hypothesis Hok : ∀ n, accepts n = true.
Lemma pump_carries_all cs s : carries_all cs s → carries_all cs (pump accepts s).
Proof using Hok.
  unfold carries_all, pump. intros (Hseq & Heq & Hf). rewrite Hf.
  destruct (ls_ch s) as [|c ch] eqn:Hch; [by rewrite Hch|].
  rewrite Hok. simpl. split_and!; [done| |done]. by rewrite <- (assoc_L (++)).
Qed.
Lemma emit_carries_all cs c s :
  carries_all cs s → length (ls_ch s) < channel_size → carries_all (cs ++ [c]) (emitChunk c s).
Proof using Type.
  intros (Hseq & Heq & Hf) Hroom. unfold carries_all, emitChunk. cbn [ls_seq ls_ch ls_sent ls_failed].
  rewrite decide_True by done. rewrite length_app, numbered_snoc, (assoc_L (++)), Heq, Hseq. simpl length.
  split_and!; [lia| |done]. do 3 f_equal. lia.
Qed.
Lemma emit_all_carries_all sched cs cs' s :
  carries_all cs s → keeps_up accepts sched cs' s → carries_all (cs ++ cs') (emit_all accepts sched cs' s).
Proof using Hok.
  revert sched cs s. induction cs' as [|c cs' IH]; intros sched cs s Hs; [by rewrite app_nil_r|].
  replace (cs ++ c :: cs') with ((cs ++ [c]) ++ cs') by (by rewrite <- (assoc_L (++))).
  cbn [emit_all keeps_up]. intros [Hroom Hup]. apply IH; [|done]. apply emit_carries_all; [|done].
  apply iter_pump; [intros; by apply pump_carries_all|done].
Qed.
Lemma close_empties s : ls_failed s = false →
  ls_sent (close_stream accepts s) = ls_sent s ++ ls_ch s.
Proof using Hok.
  unfold close_stream. destruct s as [q ch sent f]. simpl. intros ->. revert sent.
  induction ch as [|c ch IH]; intros sent; [by rewrite app_nil_r|].
  cbn [length]. rewrite Nat.iter_succ_r. unfold pump at 2. cbn [ls_failed ls_ch ls_sent ls_seq].
  rewrite Hok, IH. by rewrite <- (assoc_L (++)).
Qed.
(** Up to 256 chunks always find room. *)
Lemma short_keeps_up sched cs cs' s :
  carries_all cs s → length (cs ++ cs') <= channel_size → keeps_up accepts sched cs' s.
Proof using Hok.
  revert sched cs s. induction cs' as [|c cs' IH]; intros sched cs s Hs Hlen; [done|].
  assert (Hs' : carries_all cs (Nat.iter (default 0 (head sched)) (pump accepts) s))
    by (apply iter_pump; [intros; by apply pump_carries_all|done]).
  assert (Hroom : length (ls_ch (Nat.iter (default 0 (head sched)) (pump accepts) s)) < channel_size).
  { destruct Hs' as (_ & Heq & _). apply (f_equal length) in Heq. unfold numbered in Heq.
    rewrite length_app, length_imap in Heq. rewrite length_app in Hlen. simpl in Hlen. lia. }
  cbn [keeps_up]. split; [done|]. apply (IH _ (cs ++ [c])).
  - by apply emit_carries_all.
  - by rewrite <- (assoc_L (++)).
Qed.
End channel.

(** ** A writer's whole life *)
Definition text_of (ps : list string) : string := foldr String.append "" ps.
(** The chunks of a text: its lines that are not blank, and what follows the last newline. *)
Definition log_chunks (text : string) : list string :=
  filter nonblank (full_lines text) ++ (if decide (last_line text = "") then [] else [last_line text]).
Definition short_lines (text : string) : Prop :=
  Forall (λ l, String.length l < logChunkMaxBytes) (text_lines text).

Lemma write_chunks_total buf p : is_Some (write_chunks buf p).
Proof. unfold write_chunks. rewrite write_loop_lines by lia. by case_decide. Qed.
Lemma stream_chunks_total buf ps : is_Some (stream_chunks buf ps).
Proof.
  revert buf. induction ps as [|p ps IH]; intros buf; [done|]. cbn [stream_chunks].
  destruct (write_chunks_total buf p) as [[e b] ->]. cbn. destruct (IH b) as [r ->]. done.
Qed.
Lemma StronglySorted_sublist {A} (R : relation A) l1 l2 :
  l1 `sublist_of` l2 → StronglySorted R l2 → StronglySorted R l1.
Proof.
  induction 1 as [|x l1 l2 Hsub IH|x l1 l2 Hsub IH]; [done| |]; intros [Hs Hall]%StronglySorted_inv; [|by apply IH].
  constructor; [by apply IH|]. apply Forall_forall. rewrite Forall_forall in Hall.
  intros y Hy. apply Hall. by eapply elem_of_sublist.
Qed.
Lemma string_empty_length (s : string) : s = "" ↔ String.length s = 0.
Proof. by destruct s. Qed.
Lemma stream_chunks_lines buf ps :
  no_newline buf → short_lines (buf +:+ text_of ps) → stream_chunks buf ps = Some (log_chunks (buf +:+ text_of ps)).
Proof.
  revert buf. induction ps as [|p ps IH]; intros buf Hbuf Hshort.
  - unfold text_of. cbn [foldr stream_chunks]. rewrite append_nil_r. unfold log_chunks.
    destruct (lines_last buf Hbuf) as [-> ->]. rewrite filter_nil, app_nil_l. f_equal.
    destruct (string_empty_length buf) as [H12 H21]. repeat case_decide; [|done|done|].
    + rewrite H12 in * by done. lia.
    + exfalso. apply H0, H21. lia.
  - unfold text_of in *. cbn [foldr stream_chunks] in *. fold (text_of ps) in *. rewrite <- append_assoc in Hshort |- *.
    set (s := buf +:+ p) in *. unfold write_chunks. fold s. rewrite write_loop_lines by lia.
    destruct (last_line_start s (text_of ps)) as (w & Hw & Hlen).
    unfold short_lines in Hshort. rewrite Forall_forall in Hshort. pose proof (Hshort w Hw) as Hwl.
    rewrite (decide_False (P := logChunkMaxBytes <= _)) by lia. cbn.
    destruct (lines_app s (text_of ps)) as [Hfull Hlast].
    rewrite IH; [|apply last_line_no_newline|].
    + cbn. f_equal. unfold log_chunks. rewrite Hfull, Hlast, filter_app, <- (assoc_L (++)). done.
    + apply Forall_forall. intros x Hx. apply Hshort. rewrite text_lines_eq in Hx |- *. rewrite Hfull, Hlast.
      rewrite <- (assoc_L (++)). apply elem_of_app. by right.
Qed.

Lemma send_log_carries accepts sched ps :
  ∃ contents sent, stream_chunks "" ps = Some contents ∧ send_log accepts sched ps = Some sent ∧
    sent `sublist_of` numbered contents.
Proof.
  destruct (stream_chunks_total "" ps) as [contents Hc]. unfold send_log. rewrite Hc. cbn. do 2 eexists. split_and!; [done..|].
  destruct (iter_pump accepts (carries contents) (length (ls_ch (emit_all accepts sched contents new_stream)))
              (emit_all accepts sched contents new_stream)) as [_ Hsub].
  - intros s. apply pump_carries.
  - by apply (emit_all_carries accepts sched [] contents).
  - etrans; [|exact Hsub]. by apply sublist_inserts_r.
Qed.
Lemma send_log_all accepts sched ps :
  (∀ n, accepts n = true) → short_lines (text_of ps) →
  keeps_up accepts sched (log_chunks (text_of ps)) new_stream ∨ length (log_chunks (text_of ps)) <= channel_size →
  send_log accepts sched ps = Some (numbered (log_chunks (text_of ps))).
Proof.
  intros Hok Hshort Hroom. unfold send_log. rewrite (stream_chunks_lines "" ps) by done. rewrite append_nil_l. cbn.
  assert (Hnew : carries_all [] new_stream) by done.
  assert (Hup : keeps_up accepts sched (log_chunks (text_of ps)) new_stream).
  { destruct Hroom as [|Hlen]; [done|]. by apply (short_keeps_up accepts Hok sched []). }
  destruct (emit_all_carries_all accepts Hok sched [] _ _ Hnew Hup) as (_ & Heq & Hf).
  rewrite (close_empties accepts Hok) by done. by rewrite Heq.
Qed.

(** ** Theorems *)
(** Whatever the runner writes, however the goroutine is scheduled and wherever
    the connection breaks: writing and closing end, and what was sent is a part of
    the chunks in their order, each under its own number, so that a gap in the
    numbers is where chunks were dropped. *)
Theorem stream_never_reorders accepts sched ps :
  ∃ contents sent, stream_chunks "" ps = Some contents ∧ send_log accepts sched ps = Some sent ∧
    StronglySorted (λ a b, a.1 < b.1)%Z sent ∧
    ∀ seq c, (seq, c) ∈ sent → contents !! Z.to_nat (seq - 1) = Some c ∧ (1 <= seq)%Z.
Proof.
  destruct (send_log_carries accepts sched ps) as (contents & sent & Hc & Hs & Hsub).
  exists contents, sent. split_and!; [done..| |].
  - eapply StronglySorted_sublist; [exact Hsub|].
    clear. induction contents as [|c cs IH] using rev_ind; [constructor|]. rewrite numbered_snoc.
    apply StronglySorted_app; split_and!; [|exact IH|repeat constructor].
    intros [q x] [q' x'] Hin Hin'. apply list_elem_of_singleton in Hin'. unfold numbered in Hin.
    apply elem_of_lookup_imap in Hin as (i & y & ? & Hi%lookup_lt_Some). simplify_eq/=. lia.
  - intros seq c Hin. apply (elem_of_sublist _ _ _ Hin) in Hsub as Hin'. clear Hin. rename Hin' into Hin. unfold numbered in Hin.
    apply elem_of_lookup_imap in Hin as (i & y & ? & Hi). simplify_eq/=. split; [|lia].
    by replace (Z.to_nat (Z.of_nat (i + 1) - 1)) with i by lia.
Qed.

(** The stream loses nothing when the goroutine keeps up or the log is short:
    with lines below 32 KiB the chunks sent are the lines of the log that are not
    blank, numbered from 1, wherever the runner's writes cut the text. *)
Theorem stream_lossless accepts sched ps :
  (∀ n, accepts n = true) → short_lines (text_of ps) →
  keeps_up accepts sched (log_chunks (text_of ps)) new_stream ∨ length (log_chunks (text_of ps)) <= channel_size →
  send_log accepts sched ps = Some (numbered (log_chunks (text_of ps))).
Proof. apply send_log_all. Qed.

(** ** Witnesses *)
Definition sample_writes : list string :=
  ["gcc -c a.c" +:+ String newline "  " +:+ String newline "lin"; "king" +:+ String newline "done"].
Lemma sample_short : short_lines (text_of sample_writes).
Proof. apply (bool_decide_unpack _). vm_compute. reflexivity. Qed.
Lemma sample_few : length (log_chunks (text_of sample_writes)) <= channel_size.
Proof. apply (bool_decide_unpack _). vm_compute. reflexivity. Qed.
Lemma stream_lossless_witness :
  send_log (λ _, true) [0; 1] sample_writes = Some [(1, "gcc -c a.c"); (2, "linking"); (3, "done")]%Z.
Proof.
  rewrite (stream_lossless (λ _, true) [0; 1] sample_writes); [|done|exact sample_short|right; exact sample_few].
  vm_compute. reflexivity.
Defined.
