(* ===== verification/Logs.v ===== *)
(** The logs of builds on the control plane: the table [log_chunks] of
    [store/postgres.go], its handlers [logsStream] and [logsChunks] of
    [api/handlers.go], and the hub of [api/log_hub.go] that passes new chunks to
    the viewers' websockets.

    [run_id], [attempt] and [seq] are NULL in the table where the Go value is
    zero, and zero again when read, so the rows hold the Go values. *)
From S2P Require Import Prelude.
From S2P Require Import GoStr.
From S2P Require Import Parse.
From S2P Require Import BuildStore.
From S2P Require Import HintFeed.
From S2P Require Import LogStream.
From S2P Require Import Queue.
From Stdlib Require Import Ascii.
Local Open Scope string_scope.
Local Open Scope list_scope.
Local Open Scope Z_scope.

(** ** The table: its rows in the order of their ids, and the next id *)
Record LogChunk := mkLogChunk {
  lc_ID : Z; lc_Name : string; lc_Version : string; lc_RunID : string; lc_Attempt : Z; lc_Seq : Z;
  lc_Content : string; lc_Timestamp : Z }.
Record ChunkTable := mkChunkTable { ct_rows : list LogChunk; ct_next : Z }.
#[export] Instance LogChunk_eq_dec : EqDecision LogChunk.
Proof. solve_decision. Defined.

Definition with_chunk_id (id : Z) (c : LogChunk) : LogChunk :=
  mkLogChunk id (lc_Name c) (lc_Version c) (lc_RunID c) (lc_Attempt c) (lc_Seq c) (lc_Content c) (lc_Timestamp c).
Definition PutLogChunk (now : Z) (c : LogChunk) (t : ChunkTable) : Z * ChunkTable :=
  let id := ct_next t in
  let ts := if decide (lc_Timestamp c <= 0) then now else lc_Timestamp c in
  let row := mkLogChunk id (lc_Name c) (lc_Version c) (lc_RunID c) (lc_Attempt c) (lc_Seq c) (lc_Content c) ts in
  (id, mkChunkTable (ct_rows t ++ [row]) (id + 1)).
(** [WHERE name=$1 AND version=$2] *)
Definition of_log (name version : string) (c : LogChunk) : Prop := lc_Name c = name ∧ lc_Version c = version.
#[export] Instance of_log_dec name version c : Decision (of_log name version c).
Proof. unfold of_log. apply _. Defined.
Definition log_rows (name version : string) (t : ChunkTable) : list LogChunk :=
  filter (of_log name version) (ct_rows t).
Definition clamp_limit (limit : Z) : nat :=
  Z.to_nat (let limit := if decide (limit <= 0) then 200 else limit in if decide (2000 < limit) then 2000 else limit).
Definition ListLogChunks (name version : string) (afterID limit : Z) (t : ChunkTable) : list LogChunk :=
  take (clamp_limit limit)
    (if decide (0 < afterID) then filter (λ c, afterID < lc_ID c) (log_rows name version t)
     else log_rows name version t).
Definition TailLogChunks (name version : string) (limit : Z) (t : ChunkTable) : list LogChunk :=
  reverse (take (clamp_limit limit) (reverse (log_rows name version t))).
(** The cutoff is the row at [OFFSET max] from the newest; rows below it go. *)
Definition TrimLogChunks (name version : string) (max : Z) (t : ChunkTable) : Z * ChunkTable :=
  if decide (max <= 0) then (0, t)
  else match reverse (log_rows name version t) !! Z.to_nat max with
       | None => (0, t)
       | Some cutoff =>
         let gone := λ c, of_log name version c ∧ lc_ID c < lc_ID cutoff in
         (Z.of_nat (length (filter gone (ct_rows t))),
          mkChunkTable (filter (λ c, ¬ gone c) (ct_rows t)) (ct_next t))
       end.

(** ** The hub: for each key the subscribers with the chunks in their channels *)
Abbreviation Hub := (gmap string (gmap nat (list LogChunk))).
Definition logStreamKey (name version : string) : string := ToLower name +:+ "::" +:+ ToLower version.
Definition subscribe (key : string) (v : nat) (h : Hub) : Hub :=
  <[key := <[v := []]> (default ∅ (h !! key))]> h.
Definition unsubscribe (key : string) (v : nat) (h : Hub) : Hub :=
  match h !! key with
  | None => h
  | Some subs =>
    let subs := delete v subs in
    if decide (subs = ∅) then delete key h else <[key := subs]> h
  end.
Definition send_chunk (c : LogChunk) (ch : list LogChunk) : list LogChunk :=
  if decide (length ch < 256)%nat then ch ++ [c] else ch.
Definition publish (key : string) (c : LogChunk) (h : Hub) : Hub := alter (fmap (send_chunk c)) key h.

(** ** Ingesting a stream *)
Record LogPayload := mkLogPayload { lp_Seq : Z; lp_Content : string; lp_Timestamp : Z }.
(** [json.Marshal] of the worker's payload, an object without white space between
    its parts, and [json.Unmarshal]: whether it succeeded and the value, filled as
    far as it got. *)
Class LogJson := {
  log_json : LogPayload → string;
  read_log_json : string → bool * LogPayload;
  read_log_json_of p : read_log_json (log_json p) = (true, p);
  log_json_object p : ∃ s, log_json p = "{" +:+ s +:+ "}" ∧ no_newline s }.

(** [bufio.Scanner] with its default split: the lines of a body without a
    carriage return at their end; one of 1 MiB ends the scan with an error. *)
Definition max_token : Z := 1024 * 1024.
Definition drop_cr (l : string) : string := TrimSuffix l (String (ascii_of_N 13) "").
Fixpoint scan_tokens (lines : list string) : list string * bool :=
  match lines with
  | [] => ([], true)
  | l :: lines =>
    if decide (max_token <= Z.of_nat (String.length l)) then ([], false)
    else let '(tokens, ok) := scan_tokens lines in (drop_cr l :: tokens, ok)
  end.
(** The lines of a body, where nothing follows the last newline. *)
Definition body_lines (body : string) : list string :=
  full_lines body ++ (if decide (last_line body = "") then [] else [last_line body]).

Record Ingest := mkIngest { in_table : ChunkTable; in_hub : Hub; in_seq : Z; in_trim : Z }.
Section ingest.
Context `{LogJson} (LogChunkMax : Z) (name version runID : string) (attempt : Z).
Definition read_payload (line : string) : LogPayload :=
  let '(ok, p) := read_log_json line in
  if ok then p else mkLogPayload (lp_Seq p) line (lp_Timestamp p).
(** The body of the scanner's loop; [now] is the time. *)
Definition ingest_line (now : Z) (s : Ingest) (raw : string) : Ingest :=
  let line := TrimSpace raw in
  if decide (line = "") then s
  else
    let p := read_payload line in
    if decide (lp_Content p = "") then s
    else
      let ts := if decide (lp_Timestamp p = 0) then now else lp_Timestamp p in
      let fallback := if decide (lp_Seq p = 0) then in_seq s + 1 else in_seq s in
      let seq := if decide (lp_Seq p = 0) then fallback else lp_Seq p in
      let chunk := mkLogChunk 0 name version runID attempt seq (lp_Content p) ts in
      let '(id, t) := PutLogChunk now chunk (in_table s) in
      let '(t, trim) :=
        if decide (0 < LogChunkMax) then
          if decide (50 <= in_trim s + 1) then ((TrimLogChunks name version LogChunkMax t).2, 0)
          else (t, in_trim s + 1)
        else (t, in_trim s) in
      mkIngest t (publish (logStreamKey name version) (with_chunk_id id chunk) (in_hub s)) fallback trim.
Definition ingest (now : Z) (body : string) (t : ChunkTable) (h : Hub) : (Z * ChunkTable) * Hub :=
  let '(tokens, ok) := scan_tokens (body_lines body) in
  let s := foldl (ingest_line now) (mkIngest t h 0 0) tokens in
  if ok then
    let t := if decide (0 < LogChunkMax ∧ 0 < in_trim s) then (TrimLogChunks name version LogChunkMax (in_table s)).2
             else in_table s in
    ((200, t), in_hub s)
  else ((500, in_table s), in_hub s).
End ingest.

Definition splitPath (p : string) : list string := filter (λ seg, seg ≠ "") (Split p "/"%char).
(** POST on [logsStream]. *)
Definition logsStream_post `{LogJson} (LogChunkMax : Z) (authorized : bool) (path runID attempt : string)
    (now : Z) (body : string) (t : ChunkTable) (h : Hub) : (Z * ChunkTable) * Hub :=
  match splitPath path with
  | _ :: _ :: _ :: name :: version :: _ =>
    if negb authorized then ((401, t), h)
    else ingest LogChunkMax name version runID (parseIntDefault ParseInt attempt 0 1000) now body t h
  | _ => ((400, t), h)
  end.
Definition parseInt64Default (val : string) (def : Z) : Z :=
  if decide (val = "") then def
  else match ParseInt val with
       | None => def
       | Some i => if decide (i <= 0) then def else i
       end.
(** The page a viewer asks for, by [logsChunks] or before the live chunks of [logsStream]. *)
Definition tail_on (tail : string) : bool := bool_decide (tail = "1") || EqualFold tail "true".
Definition chunk_page (tail : bool) (name version : string) (after limit : Z) (t : ChunkTable) : list LogChunk :=
  if tail then TailLogChunks name version limit t else ListLogChunks name version after limit t.
Definition logsChunks (meth path after limit tail : string) (t : ChunkTable) : Z * list LogChunk :=
  if decide (meth ≠ "GET") then (405, [])
  else match splitPath path with
       | _ :: _ :: _ :: name :: version :: _ => 
         (200, chunk_page (tail_on tail) name version (parseInt64Default after 0)
                 (parseIntDefault ParseInt limit 200 2000) t)
       | _ => (400, [])
       end.

(** ** A viewer's websocket: GET on [logsStream]

    Between listing, subscribing and each chunk of the loop other requests run. *)
Inductive phase := Opened | Listed | Subscribed | Gone.
Record Viewer := mkViewer {
  vw_name : string; vw_version : string; vw_after : Z; vw_sent : list LogChunk; vw_phase : phase }.
Definition viewer_key (v : Viewer) : string := logStreamKey (vw_name v) (vw_version v).
(** After sending the chunks of the table. *)
Definition view_page (page : list LogChunk) (v : Viewer) : Viewer :=
  mkViewer (vw_name v) (vw_version v) (from_option lc_ID (vw_after v) (last page)) (vw_sent v ++ page) Listed.
Definition view_subscribed (v : Viewer) : Viewer :=
  mkViewer (vw_name v) (vw_version v) (vw_after v) (vw_sent v) Subscribed.
Definition view_gone (v : Viewer) : Viewer :=
  mkViewer (vw_name v) (vw_version v) (vw_after v) (vw_sent v) Gone.
(** A chunk from the channel: skipped when it was listed. *)
Definition view_live (c : LogChunk) (v : Viewer) : Viewer :=
  mkViewer (vw_name v) (vw_version v) (vw_after v)
    (if decide (lc_ID c <= vw_after v) then vw_sent v else vw_sent v ++ [c]) (vw_phase v).

(** Chunks in [wd_flight] are stored and about to be published. *)
Record World := mkWorld {
  wd_table : ChunkTable; wd_hub : Hub; wd_flight : list LogChunk; wd_views : gmap nat Viewer }.
Definition chunk_key (c : LogChunk) : string := logStreamKey (lc_Name c) (lc_Version c).
Definition no_logs : World := mkWorld (mkChunkTable [] 1) ∅ [] ∅.
Inductive step : World → World → Prop :=
  | step_put now c t hub fl vs id t' :
    PutLogChunk now c t = (id, t') →
    step (mkWorld t hub fl vs) (mkWorld t' hub (with_chunk_id id c :: fl) vs)
  | step_trim name version max t hub fl vs :
    step (mkWorld t hub fl vs) (mkWorld (TrimLogChunks name version max t).2 hub fl vs)
  | step_publish c t hub fl1 fl2 vs :
    step (mkWorld t hub (fl1 ++ c :: fl2) vs) (mkWorld t (publish (chunk_key c) c hub) (fl1 ++ fl2) vs)
  | step_open v name version after t hub fl vs :
    vs !! v = None →
    step (mkWorld t hub fl vs) (mkWorld t hub fl (<[v := mkViewer name version after [] Opened]> vs))
  | step_list v vw tail limit t hub fl vs :
    vs !! v = Some vw → vw_phase vw = Opened →
    step (mkWorld t hub fl vs)
      (mkWorld t hub fl
         (<[v := view_page (chunk_page tail (vw_name vw) (vw_version vw) (vw_after vw) limit t) vw]> vs))
  | step_subscribe v vw t hub fl vs :
    vs !! v = Some vw → vw_phase vw = Listed →
    step (mkWorld t hub fl vs) (mkWorld t (subscribe (viewer_key vw) v hub) fl (<[v := view_subscribed vw]> vs))
  | step_receive v vw subs c ch t hub fl vs :
    vs !! v = Some vw → vw_phase vw = Subscribed →
    hub !! viewer_key vw = Some subs → subs !! v = Some (c :: ch) →
    step (mkWorld t hub fl vs)
      (mkWorld t (<[viewer_key vw := <[v := ch]> subs]> hub) fl (<[v := view_live c vw]> vs))
  | step_leave v vw t hub fl vs :
    vs !! v = Some vw → vw_phase vw = Subscribed →
    step (mkWorld t hub fl vs) (mkWorld t (unsubscribe (viewer_key vw) v hub) fl (<[v := view_gone vw]> vs)).

(** ** Invariants *)
Abbreviation ids l := (lc_ID <$> l).
Definition chan (h : Hub) (key : string) (v : nat) : list LogChunk := default [] (h !! key ≫= (.!! v)).
Definition by_ids : relation LogChunk := λ a b, lc_ID a < lc_ID b.
Record table_ok (t : ChunkTable) : Prop := {
  to_sorted : StronglySorted by_ids (ct_rows t); to_below : Forall (λ c, lc_ID c < ct_next t) (ct_rows t) }.
(** What a viewer has been sent: chunks of the table up to [vw_after], and later
    ones; none of these is in its channel or in flight. *)
Record view_ok (next : Z) (fl q : list LogChunk) (vw : Viewer) (listed live : list LogChunk) : Prop := {
  vo_sent : vw_sent vw = listed ++ live;
  vo_listed : NoDup (ids listed); vo_old : Forall (λ c, lc_ID c < next) listed; vo_after : Forall (λ c, lc_ID c <= vw_after vw) listed;
  vo_live : Forall (λ c, vw_after vw < lc_ID c) live;
  vo_once : NoDup (ids (live ++ q ++ fl)); vo_below : Forall (λ c, lc_ID c < next) (live ++ q ++ fl);
  vo_opened : vw_phase vw = Opened → listed = []; vo_early : vw_phase vw ∈ [Opened; Listed] → live = [] }.
Record world_ok (w : World) : Prop := {
  wo_table : table_ok (wd_table w);
  wo_flight : NoDup (ids (wd_flight w)) ∧ Forall (λ c, lc_ID c < ct_next (wd_table w)) (wd_flight w);
  wo_subs key subs v ch : wd_hub w !! key = Some subs → subs !! v = Some ch →
    ∃ vw, wd_views w !! v = Some vw ∧ viewer_key vw = key ∧ vw_phase vw = Subscribed;
  wo_views v vw : wd_views w !! v = Some vw → ∃ listed live,
    view_ok (ct_next (wd_table w)) (wd_flight w) (chan (wd_hub w) (viewer_key vw) v) vw listed live }.

(** *** The table *)
Lemma PutLogChunk_ok now c t id t' :
  PutLogChunk now c t = (id, t') → table_ok t → table_ok t' ∧ id = ct_next t ∧ ct_next t' = ct_next t + 1.
Proof.
  unfold PutLogChunk. intros Hp [Hs Hb]. simplify_eq/=. split_and!; [|done|done]. split; simpl.
  - apply StronglySorted_app. split_and!; [|done|repeat constructor].
    intros a b Ha Hin. apply list_elem_of_singleton in Hin as ->. rewrite Forall_forall in Hb. by apply Hb.
  - apply Forall_app. split; [|repeat constructor; simpl; lia].
    eapply Forall_impl; [exact Hb|]. simpl. intros. lia.
Qed.
Lemma StronglySorted_filter (P : LogChunk → Prop) `{∀ x, Decision (P x)} l :
  StronglySorted by_ids l → StronglySorted by_ids (filter P l).
Proof. intros Hs. eapply StronglySorted_sublist; [apply sublist_filter|done]. Qed.
Lemma TrimLogChunks_ok name version max t :
  table_ok t → table_ok (TrimLogChunks name version max t).2 ∧ ct_next (TrimLogChunks name version max t).2 = ct_next t.
Proof.
  intros Ht. unfold TrimLogChunks. case_decide; [done|]. case_match; [|done]. simpl. split; [|done].
  destruct Ht as [Hs Hb]. split; simpl; [by apply StronglySorted_filter|].
  apply Forall_forall. intros c [_ Hc]%list_elem_of_filter. rewrite Forall_forall in Hb. by apply Hb.
Qed.
Lemma by_ids_NoDup l : StronglySorted by_ids l → NoDup (ids l).
Proof.
  induction 1 as [|c l _ IH Hall]; csimpl; constructor; [|done].
  intros (d & Heq & Hd)%list_elem_of_fmap. rewrite Forall_forall in Hall. specialize (Hall d Hd). unfold by_ids in Hall. lia.
Qed.
Lemma by_ids_last l c : StronglySorted by_ids l → last l = Some c → Forall (λ d, lc_ID d <= lc_ID c) l.
Proof.
  intros Hs Hl. apply last_Some in Hl as [l' ->]. apply StronglySorted_app in Hs as (Hs & _ & _).
  apply Forall_app. split; [|repeat constructor; lia]. apply Forall_forall. intros d Hd.
  specialize (Hs d c Hd ltac:(set_solver)). unfold by_ids in Hs. lia.
Qed.
Lemma chunk_page_sublist tail name version after limit t :
  chunk_page tail name version after limit t `sublist_of` ct_rows t.
Proof.
  assert (Hrows : log_rows name version t `sublist_of` ct_rows t) by apply sublist_filter.
  unfold chunk_page. destruct tail.
  - unfold TailLogChunks. etrans; [|exact Hrows]. rewrite take_reverse, reverse_involutive. apply sublist_drop.
  - unfold ListLogChunks. etrans; [apply sublist_take|]. case_decide; [|done].
    etrans; [apply sublist_filter|done].
Qed.

(** *** The hub *)
Lemma chan_publish k c h key v :
  chan (publish k c h) key v = chan h key v ∨ (key = k ∧ chan (publish k c h) key v = chan h key v ++ [c]).
Proof.
  unfold chan, publish. rewrite lookup_alter. case_decide as Hk; [|by left]. subst.
  destruct (h !! key) as [subs|]; [|by left]. simpl. rewrite lookup_fmap.
  destruct (subs !! v) as [ch|]; [|by left]. simpl. unfold send_chunk. case_decide; [by right|by left].
Qed.
Lemma publish_subs k c h key subs v ch :
  publish k c h !! key = Some subs → subs !! v = Some ch →
  ∃ subs' ch', h !! key = Some subs' ∧ subs' !! v = Some ch'.
Proof.
  unfold publish. rewrite lookup_alter. case_decide; [|by eauto]. subst.
  intros (subs' & Hh & ->)%fmap_Some. rewrite lookup_fmap. intros (ch' & Hs & ->)%fmap_Some. eauto.
Qed.
(** Subscribing, receiving and leaving change one channel. *)
Lemma chan_insert h key subs key' v v' ch :
  default ∅ (h !! key) = subs →
  chan (<[key := <[v := ch]> subs]> h) key' v' = if decide (key' = key ∧ v' = v) then ch else chan h key' v'.
Proof.
  intros <-. unfold chan. rewrite lookup_insert. destruct (decide (key = key')) as [->|Hk].
  - simpl. rewrite lookup_insert. destruct (decide (v = v')) as [->|Hv].
    + by rewrite decide_True.
    + rewrite (decide_False (P := _ ∧ _)) by (intros [_ ?]; congruence). by destruct (h !! key').
  - by rewrite (decide_False (P := _ ∧ _)) by (intros [? _]; congruence).
Qed.
Lemma chan_unsubscribe h key key' v v' :
  chan (unsubscribe key v h) key' v' = if decide (key' = key ∧ v' = v) then [] else chan h key' v'.
Proof.
  unfold unsubscribe, chan. destruct (h !! key) as [subs|] eqn:Hh.
  - assert (Hchan : (if decide (delete v subs = ∅) then delete key h else <[key := delete v subs]> h) !! key' ≫= (.!! v') =
        if decide (key = key') then delete v subs !! v' else h !! key' ≫= (.!! v')).
    { case_decide as Hd.
      - rewrite lookup_delete. case_decide; [by rewrite Hd, lookup_empty|done].
      - rewrite lookup_insert. by case_decide. }
    rewrite Hchan, lookup_delete. destruct (decide (key = key')) as [->|Hk].
    + rewrite Hh. simpl. destruct (decide (v = v')) as [->|Hv]; [by rewrite decide_True|].
      by rewrite (decide_False (P := _ ∧ _)) by (intros [_ ?]; congruence).
    + by rewrite (decide_False (P := _ ∧ _)) by (intros [? _]; congruence).
  - destruct (decide (key' = key ∧ v' = v)) as [[-> ->]|]; [by rewrite Hh|done].
Qed.

(** *** The steps *)
Lemma view_change next fl q vw listed live next' fl' q' :
  view_ok next fl q vw listed live → next <= next' →
  NoDup (ids (live ++ q' ++ fl')) → Forall (λ c, lc_ID c < next') (live ++ q' ++ fl') →
  view_ok next' fl' q' vw listed live.
Proof.
  intros [Hs Hl Hold Ha Hlive _ _ Ho He] Hn ??. split; try done.
  eapply Forall_impl; [exact Hold|]. simpl. intros. lia.
Qed.
Lemma NoDup_ids_submseteq l l' : l' ⊆+ l → NoDup (ids l) → NoDup (ids l').
Proof.
  intros Hsub. assert (Hids : ids l' ⊆+ ids l) by by apply fmap_submseteq.
  apply submseteq_Permutation in Hids as [k ->]. by intros [? _]%NoDup_app.
Qed.
Lemma Forall_submseteq (P : LogChunk → Prop) l l' : l' ⊆+ l → Forall P l → Forall P l'.
Proof. intros [k ->]%submseteq_Permutation. by intros [? _]%Forall_app. Qed.
(** Some of the same chunks, in any order. *)
Lemma view_submseteq next fl q vw listed live fl' q' :
  view_ok next fl q vw listed live → live ++ q' ++ fl' ⊆+ live ++ q ++ fl → view_ok next fl' q' vw listed live.
Proof.
  intros Hok Hsub. apply (view_change _ _ _ _ _ _ _ _ _ Hok); [done| |].
  - eapply NoDup_ids_submseteq; [exact Hsub|]. by apply (vo_once _ _ _ _ _ _ Hok).
  - eapply Forall_submseteq; [exact Hsub|]. by apply (vo_below _ _ _ _ _ _ Hok).
Qed.
(** A viewer that is not subscribed has no channel. *)
Lemma not_subscribed w v key :
  world_ok w → (∀ vw, wd_views w !! v = Some vw → vw_phase vw ≠ Subscribed) → chan (wd_hub w) key v = [].
Proof.
  intros Hw Hno. unfold chan. destruct (wd_hub w !! key) as [subs|] eqn:Hh; [|done]. simpl.
  destruct (subs !! v) as [ch|] eqn:Hs; [|done].
  destruct (wo_subs _ Hw _ _ _ _ Hh Hs) as (vw & Hv & _ & Hp). by destruct (Hno vw).
Qed.
Lemma new_chunk_ok next fl q vw listed live c :
  lc_ID c = next → view_ok next fl q vw listed live → view_ok (next + 1) (c :: fl) q vw listed live.
Proof.
  intros Hid Hok. pose proof (vo_once _ _ _ _ _ _ Hok) as Hnd. pose proof (vo_below _ _ _ _ _ _ Hok) as Hb.
  assert (Hperm : live ++ q ++ c :: fl ≡ₚ c :: live ++ q ++ fl) by (by rewrite !(assoc_L (++)), Permutation_middle).
  apply (view_change _ _ _ _ _ _ _ _ _ Hok); [lia|rewrite Hperm..].
  - csimpl. constructor; [|done]. intros (d & Heq & Hd)%list_elem_of_fmap.
    rewrite Forall_forall in Hb. specialize (Hb d Hd). lia.
  - constructor; [lia|]. eapply Forall_impl; [exact Hb|]. simpl. intros. lia.
Qed.
(** The viewers, of whom one changes and the channels of the others do not. *)
Lemma views_update w hub' v vw' :
  world_ok w →
  (∀ key v', v' ≠ v → chan hub' key v' = chan (wd_hub w) key v') →
  (∃ listed live, view_ok (ct_next (wd_table w)) (wd_flight w) (chan hub' (viewer_key vw') v) vw' listed live) →
  ∀ v' vw, <[v := vw']> (wd_views w) !! v' = Some vw → ∃ listed live,
    view_ok (ct_next (wd_table w)) (wd_flight w) (chan hub' (viewer_key vw) v') vw listed live.
Proof.
  intros Hw Hothers Hnew v' vw. rewrite lookup_insert. case_decide as Hv.
  - intros [= <-]. by subst.
  - intros Hvw. rewrite Hothers by done. by apply (wo_views _ Hw).
Qed.
(** Subscribers stay subscribed when another viewer changes. *)
Lemma subs_update w key subs v ch v0 vw0 :
  world_ok w → wd_hub w !! key = Some subs → subs !! v = Some ch → v ≠ v0 →
  ∃ vw, <[v0 := vw0]> (wd_views w) !! v = Some vw ∧ viewer_key vw = key ∧ vw_phase vw = Subscribed.
Proof. intros Hw Hh Hs Hv. rewrite lookup_insert_ne by done. by eapply (wo_subs _ Hw). Qed.

Lemma step_put_ok now c t hub fl vs id t' :
  PutLogChunk now c t = (id, t') → world_ok (mkWorld t hub fl vs) → world_ok (mkWorld t' hub (with_chunk_id id c :: fl) vs).
Proof.
  intros Hp Hw. destruct Hw as [Ht [Hnd Hb] Hsubs Hviews]. simpl in *.
  destruct (PutLogChunk_ok _ _ _ _ _ Hp Ht) as (Ht' & -> & Hn). split; simpl; [done| |done|].
  - rewrite Hn. split.
    + csimpl. constructor; [|done]. intros (d & Heq & Hd)%list_elem_of_fmap.
      rewrite Forall_forall in Hb. specialize (Hb d Hd). simpl in Heq. lia.
    + constructor; [simpl; lia|]. eapply Forall_impl; [exact Hb|]. simpl. intros. lia.
  - intros v vw Hv. destruct (Hviews v vw Hv) as (listed & live & Hok). rewrite Hn.
    exists listed, live. by apply new_chunk_ok.
Qed.
Lemma step_publish_ok c t hub fl1 fl2 vs :
  world_ok (mkWorld t hub (fl1 ++ c :: fl2) vs) → world_ok (mkWorld t (publish (chunk_key c) c hub) (fl1 ++ fl2) vs).
Proof.
  intros Hw. destruct Hw as [Ht [Hnd Hb] Hsubs Hviews]. simpl in *.
  assert (Hsub : fl1 ++ fl2 ⊆+ fl1 ++ c :: fl2) by (apply submseteq_skips_l; by apply submseteq_cons).
  split; simpl; [done| | |].
  - split; [by eapply NoDup_ids_submseteq|by eapply Forall_submseteq].
  - intros key subs v ch Hk Hs. destruct (publish_subs _ _ _ _ _ _ _ Hk Hs) as (subs' & ch' & ? & ?). by eapply Hsubs.
  - intros v vw Hv. destruct (Hviews v vw Hv) as (listed & live & Hok). exists listed, live.
    destruct (chan_publish (chunk_key c) c hub (viewer_key vw) v) as [->|[_ ->]]; eapply view_submseteq; try exact Hok.
    + by do 2 apply submseteq_skips_l.
    + apply submseteq_skips_l. rewrite <- (assoc_L (++)). simpl. by rewrite Permutation_middle.
Qed.
Lemma step_open_ok v name version after t hub fl vs :
  vs !! v = None → world_ok (mkWorld t hub fl vs) →
  world_ok (mkWorld t hub fl (<[v := mkViewer name version after [] Opened]> vs)).
Proof.
  intros Hv Hw. pose proof Hw as [Ht [Hnd Hb] Hsubs Hviews]. simpl in *. split; simpl; [done|done| |].
  - intros key subs v' ch Hh Hs. apply (subs_update (mkWorld t hub fl vs) key subs v' ch v _ Hw Hh Hs).
    intros ->. destruct (Hsubs _ _ _ _ Hh Hs) as (? & ? & _). congruence.
  - apply (views_update (mkWorld t hub fl vs) hub v _ Hw); [done|]. exists [], [].
    rewrite (not_subscribed _ _ _ Hw) by (simpl; intros; congruence). split; simpl; try done; constructor.
Qed.
Lemma step_list_ok v vw tail limit t hub fl vs :
  vs !! v = Some vw → vw_phase vw = Opened → world_ok (mkWorld t hub fl vs) →
  world_ok (mkWorld t hub fl
    (<[v := view_page (chunk_page tail (vw_name vw) (vw_version vw) (vw_after vw) limit t) vw]> vs)).
Proof.
  intros Hv Hp Hw. pose proof Hw as [Ht [Hnd Hb] Hsubs Hviews]. simpl in *.
  set (page := chunk_page tail (vw_name vw) (vw_version vw) (vw_after vw) limit t).
  split; simpl; [done|done| |].
  - intros key subs v' ch Hh Hs. apply (subs_update (mkWorld t hub fl vs) key subs v' ch v _ Hw Hh Hs).
    intros ->. destruct (Hsubs _ _ _ _ Hh Hs) as (? & ? & _ & ?). congruence.
  - apply (views_update (mkWorld t hub fl vs) hub v _ Hw); [done|]. exists page, [].
    assert (Hsorted : StronglySorted by_ids page)
      by (eapply StronglySorted_sublist; [apply chunk_page_sublist|apply (to_sorted _ Ht)]).
    rewrite (not_subscribed _ _ _ Hw) by (simpl; intros; congruence).
    destruct (Hviews v vw Hv) as (listed & live & Hok).
    assert (Hsent : vw_sent vw = []).
    { rewrite (vo_sent _ _ _ _ _ _ Hok), (vo_opened _ _ _ _ _ _ Hok Hp), (vo_early _ _ _ _ _ _ Hok); [done|]. rewrite Hp. set_solver. }
    assert (Hold : Forall (λ c, lc_ID c < ct_next t) page).
    { apply Forall_forall. intros c Hc. pose proof (to_below _ Ht) as Hbelow. rewrite Forall_forall in Hbelow.
      apply Hbelow. eapply elem_of_sublist; [exact Hc|apply chunk_page_sublist]. }
    split; simpl; [by rewrite Hsent, app_nil_r|by apply by_ids_NoDup|done| |done|done|done|done|done].
    destruct (last page) as [c|] eqn:Hl; [by apply by_ids_last|]. apply last_None in Hl. by rewrite Hl.
Qed.
Lemma step_subscribe_ok v vw t hub fl vs :
  vs !! v = Some vw → vw_phase vw = Listed → world_ok (mkWorld t hub fl vs) →
  world_ok (mkWorld t (subscribe (viewer_key vw) v hub) fl (<[v := view_subscribed vw]> vs)).
Proof.
  intros Hv Hp Hw. pose proof Hw as [Ht [Hnd Hb] Hsubs Hviews]. simpl in *.
  split; simpl; [done|done| |].
  - intros key subs v' ch. unfold subscribe. rewrite lookup_insert. case_decide as Hk.
    + intros [= <-]. rewrite lookup_insert. case_decide as Hv'.
      * intros _. subst. exists (view_subscribed vw). by rewrite lookup_insert_eq.
      * destruct (hub !! viewer_key vw) as [subs|] eqn:Hh; [|simpl; by rewrite lookup_empty]. simpl. intros Hs. subst.
        by apply (subs_update (mkWorld t hub fl vs) _ subs v' ch v _ Hw Hh Hs).
    + intros Hh Hs. apply (subs_update (mkWorld t hub fl vs) key subs v' ch v _ Hw Hh Hs).
      intros ->. destruct (Hsubs _ _ _ _ Hh Hs) as (? & ? & _ & ?). congruence.
  - apply (views_update (mkWorld t hub fl vs) _ v _ Hw); unfold subscribe.
    + intros key v' Hne. rewrite (chan_insert _ _ _ _ _ _ _ eq_refl). by rewrite decide_False by (by intros [_ ?]).
    + rewrite (chan_insert _ _ _ _ _ _ _ eq_refl), decide_True by done.
      destruct (Hviews v vw Hv) as (listed & live & Hok). rewrite (not_subscribed _ _ _ Hw) in Hok by (simpl; intros; congruence).
      exists listed, live. assert (live = []) as -> by (apply (vo_early _ _ _ _ _ _ Hok); rewrite Hp; set_solver).
      destruct Hok. by split.
Qed.
Lemma step_receive_ok v vw subs c ch t hub fl vs :
  vs !! v = Some vw → vw_phase vw = Subscribed → hub !! viewer_key vw = Some subs → subs !! v = Some (c :: ch) →
  world_ok (mkWorld t hub fl vs) →
  world_ok (mkWorld t (<[viewer_key vw := <[v := ch]> subs]> hub) fl (<[v := view_live c vw]> vs)).
Proof.
  intros Hv Hp Hh Hc Hw. pose proof Hw as [Ht [Hnd Hb] Hsubs Hviews]. simpl in *.
  assert (Hdef : default ∅ (hub !! viewer_key vw) = subs) by by rewrite Hh.
  split; simpl; [done|done| |].
  - intros key subs' v' ch'. rewrite lookup_insert. case_decide as Hk.
    + intros [= <-]. rewrite lookup_insert. case_decide as Hv'.
      * intros _. subst key v'. exists (view_live c vw). by rewrite lookup_insert_eq.
      * intros Hs. subst key. by apply (subs_update (mkWorld t hub fl vs) _ subs v' ch' v _ Hw Hh Hs).
    + intros Hh' Hs. apply (subs_update (mkWorld t hub fl vs) key subs' v' ch' v _ Hw Hh' Hs).
      intros ->. destruct (Hsubs _ _ _ _ Hh' Hs) as (? & ? & ? & _). congruence.
  - apply (views_update (mkWorld t hub fl vs) _ v _ Hw).
    + intros key v' Hne. rewrite (chan_insert _ _ _ _ _ _ _ Hdef). by rewrite decide_False by (by intros [_ ?]).
    + rewrite (chan_insert _ _ _ _ _ _ _ Hdef), decide_True by done.
      destruct (Hviews v vw Hv) as (listed & live & Hok).
      assert (Hq : chan hub (viewer_key vw) v = c :: ch) by (unfold chan; rewrite Hh; simpl; by rewrite Hc).
      rewrite Hq in Hok. destruct Hok as [Hsent Hl Hold Ha Hlive Honce Hbelow Hopen Hearly]. unfold view_live.
      case_decide as Hid.
      * exists listed, live. split; simpl; try done.
        -- eapply NoDup_ids_submseteq; [|exact Honce]. apply submseteq_skips_l. by apply submseteq_cons.
        -- eapply Forall_submseteq; [|exact Hbelow]. apply submseteq_skips_l. by apply submseteq_cons.
      * exists listed, (live ++ [c]). split; simpl; try done.
        -- by rewrite Hsent, (assoc_L (++)).
        -- apply Forall_app. split; [done|]. repeat constructor. lia.
        -- by rewrite <- (assoc_L (++)).
        -- by rewrite <- (assoc_L (++)).
        -- rewrite Hp. set_solver.
Qed.
Lemma step_leave_ok v vw t hub fl vs :
  vs !! v = Some vw → vw_phase vw = Subscribed → world_ok (mkWorld t hub fl vs) →
  world_ok (mkWorld t (unsubscribe (viewer_key vw) v hub) fl (<[v := view_gone vw]> vs)).
Proof.
  intros Hv Hp Hw. pose proof Hw as [Ht [Hnd Hb] Hsubs Hviews]. simpl in *.
  split; simpl; [done|done| |].
  - intros key subs v' ch Hh Hs.
    assert (Hch : chan (unsubscribe (viewer_key vw) v hub) key v' = ch) by (unfold chan; rewrite Hh; simpl; by rewrite Hs).
    assert (Hold : ∃ subs', hub !! key = Some subs' ∧ subs' !! v' = Some ch ∧ ¬ (key = viewer_key vw ∧ v' = v)).
    { clear Hch. unfold unsubscribe in Hh. destruct (hub !! viewer_key vw) as [subs0|] eqn:Hh0.
      - destruct (decide (key = viewer_key vw)) as [->|Hk].
        + case_decide as Hd; [by rewrite lookup_delete_eq in Hh|]. rewrite lookup_insert_eq in Hh. simplify_eq.
          rewrite lookup_delete in Hs. case_decide; [done|]. exists subs0. split_and!; [done|done|intros [_ ?]; congruence].
        + exists subs. split_and!; [|done|by intros [? _]].
          case_decide; [by rewrite lookup_delete_ne in Hh|by rewrite lookup_insert_ne in Hh].
      - exists subs. split_and!; [done|done|]. intros [-> _]. congruence. }
    destruct Hold as (subs' & Hh' & Hs' & Hne). destruct (decide (v' = v)) as [->|Hv'].
    + destruct (Hsubs _ _ _ _ Hh' Hs') as (vw' & ? & ? & _). simplify_eq. by destruct Hne.
    + by apply (subs_update (mkWorld t hub fl vs) key subs' v' ch v _ Hw Hh' Hs').
  - apply (views_update (mkWorld t hub fl vs) _ v _ Hw).
    + intros key v' Hne. rewrite chan_unsubscribe. by rewrite decide_False by (by intros [_ ?]).
    + rewrite chan_unsubscribe, decide_True by done. destruct (Hviews v vw Hv) as (listed & live & Hok).
      exists listed, live. destruct Hok as [Hsent Hl Hold Ha Hlive Honce Hbelow Hopen Hearly]. split; simpl; try done.
      * eapply NoDup_ids_submseteq; [|exact Honce]. apply submseteq_skips_l. by apply submseteq_inserts_l.
      * eapply Forall_submseteq; [|exact Hbelow]. apply submseteq_skips_l. by apply submseteq_inserts_l.
      * set_solver.
Qed.
Lemma step_ok w w' : step w w' → world_ok w → world_ok w'.
Proof.
  intros [] Hw; eauto using step_put_ok, step_publish_ok, step_open_ok, step_list_ok, step_subscribe_ok,
    step_receive_ok, step_leave_ok.
  destruct Hw as [Ht Hfl Hsubs Hviews]. simpl in *. destruct (TrimLogChunks_ok name version max t Ht) as [Ht' Hn].
  split; simpl; rewrite ?Hn; done.
Qed.
Lemma no_logs_ok : world_ok no_logs.
Proof. split; simpl; [split; constructor|split; constructor|..]; intros *; by rewrite lookup_empty. Qed.
Lemma reachable_ok w w' : rtc step w w' → world_ok w → world_ok w'.
Proof. induction 1; eauto using step_ok. Qed.

(** *** A chunk that a viewer will never get *)
Record lost (v : nat) (id : Z) (w : World) : Prop := {
  lo_old : id < ct_next (wd_table w); lo_flight : id ∉ ids (wd_flight w);
  lo_view : ∃ vw, wd_views w !! v = Some vw ∧ vw_phase vw ≠ Opened ∧ id ∉ ids (vw_sent vw) ∧
                  id ∉ ids (chan (wd_hub w) (viewer_key vw) v) }.
Lemma not_in_ids_app id l1 l2 : id ∉ ids (l1 ++ l2) ↔ id ∉ ids l1 ∧ id ∉ ids l2.
Proof. rewrite fmap_app, elem_of_app. naive_solver. Qed.
(** What happens to the viewer's own entry. *)
Lemma lost_update v id w hub' v0 vw0 vw' :
  lost v id w → wd_views w !! v0 = Some vw0 →
  (∀ key v', v' ≠ v0 → chan hub' key v' = chan (wd_hub w) key v') →
  (v0 = v → vw_phase vw0 ≠ Opened → id ∉ ids (vw_sent vw0) → id ∉ ids (chan (wd_hub w) (viewer_key vw0) v) →
    vw_phase vw' ≠ Opened ∧ id ∉ ids (vw_sent vw') ∧ id ∉ ids (chan hub' (viewer_key vw') v)) →
  lost v id (mkWorld (wd_table w) hub' (wd_flight w) (<[v0 := vw']> (wd_views w))).
Proof.
  intros [Hold Hfl (vw & Hv & Hp & Hs & Hq)] Hv0 Hothers Hown. split; simpl; [done|done|].
  destruct (decide (v0 = v)) as [->|Hne].
  - exists vw'. rewrite lookup_insert_eq. simplify_eq. destruct (Hown eq_refl Hp Hs Hq) as (? & ? & ?). done.
  - exists vw. rewrite lookup_insert_ne, Hothers by done. done.
Qed.
Lemma lost_step v id w w' : world_ok w → step w w' → lost v id w → lost v id w'.
Proof.
  intros Hw Hstep Hl. destruct Hstep as [now c t hub fl vs id' t' Hp|name version max t hub fl vs|c t hub fl1 fl2 vs
    |v0 name version after t hub fl vs Hv0|v0 vw tail limit t hub fl vs Hv0 Hp|v0 vw t hub fl vs Hv0 Hp
    |v0 vw subs c ch t hub fl vs Hv0 Hp Hh Hc|v0 vw t hub fl vs Hv0 Hp].
  - destruct (PutLogChunk_ok _ _ _ _ _ Hp (wo_table _ Hw)) as (_ & -> & Hn). destruct Hl as [Hold Hfl Hview]. simpl in *.
    split; simpl; [lia| |done]. intros [Heq|Hin]%elem_of_cons; [simpl in Heq; lia|done].
  - destruct Hl. split; simpl in *; [|done..]. by rewrite (proj2 (TrimLogChunks_ok name version max t (wo_table _ Hw))).
  - destruct Hl as [Hold Hfl (vw & Hv & Hp & Hs & Hq)]. simpl in *.
    apply not_in_ids_app in Hfl as [Hfl1 Hfl2]. csimpl in Hfl2. apply not_elem_of_cons in Hfl2 as [Hc Hfl2].
    split; simpl; [done|by apply not_in_ids_app|]. exists vw. split_and!; [done..|].
    destruct (chan_publish (chunk_key c) c hub (viewer_key vw) v) as [->|[_ ->]]; [done|].
    apply not_in_ids_app. split; [done|]. csimpl. by intros ->%list_elem_of_singleton.
  - destruct Hl as [Hold Hfl (vw & Hv & Hrest)]. split; simpl in *; [done..|]. exists vw.
    rewrite lookup_insert_ne by congruence. done.
  - apply (lost_update v id _ hub v0 vw _ Hl Hv0); [done|]. by intros _ ?.
  - apply (lost_update v id _ _ v0 vw _ Hl Hv0).
    + intros key v' Hne. unfold subscribe. rewrite (chan_insert _ _ _ _ _ _ _ eq_refl). by rewrite decide_False by (by intros [_ ?]).
    + intros -> _ Hs Hq. split_and!; [done|done|]. unfold subscribe.
      rewrite (chan_insert _ _ _ _ _ _ _ eq_refl), decide_True by done. by apply not_elem_of_nil.
  - assert (Hdef : default ∅ (hub !! viewer_key vw) = subs) by by rewrite Hh.
    apply (lost_update v id _ _ v0 vw _ Hl Hv0); simpl.
    + intros key v' Hne. rewrite (chan_insert _ _ _ _ _ _ _ Hdef). by rewrite decide_False by (by intros [_ ?]).
    + intros -> Hp' Hs Hq. rewrite (chan_insert _ _ _ _ _ _ _ Hdef), (decide_True (P := _ ∧ _)) by done.
      unfold chan in Hq. rewrite Hh in Hq. simpl in Hq. rewrite Hc in Hq. csimpl in Hq.
      apply not_elem_of_cons in Hq as [Hcid Hq]. split_and!; [done| |done]. unfold view_live. simpl.
      case_decide; [done|]. apply not_in_ids_app. split; [done|]. csimpl. by intros ->%list_elem_of_singleton.
  - apply (lost_update v id _ _ v0 vw _ Hl Hv0).
    + intros key v' Hne. rewrite chan_unsubscribe. by rewrite decide_False by (by intros [_ ?]).
    + intros -> _ Hs Hq. split_and!; [done|done|]. rewrite chan_unsubscribe, decide_True by done. by apply not_elem_of_nil.
Qed.
Lemma lost_forever v id w w' : rtc step w w' → world_ok w → lost v id w → lost v id w'.
Proof. induction 1; eauto using step_ok, lost_step. Qed.

(** *** Trimming *)
Lemma filter_trimmed name version (P : LogChunk → Prop) `{∀ c, Decision (P c)} (l : list LogChunk) :
  filter (of_log name version) (filter (λ c, ¬ (of_log name version c ∧ P c)) l) =
    filter (λ c, ¬ P c) (filter (of_log name version) l).
Proof.
  induction l as [|c l IH]; [done|]. rewrite !filter_cons.
  destruct (decide (of_log name version c)) as [Hc|Hc], (decide (P c)) as [HP|HP].
  - rewrite decide_False by tauto. rewrite filter_cons, decide_False by tauto. done.
  - rewrite decide_True by tauto. rewrite !filter_cons, !decide_True by tauto. by rewrite IH.
  - rewrite decide_True by tauto. rewrite filter_cons, decide_False by done. done.
  - rewrite decide_True by tauto. rewrite filter_cons, decide_False by done. done.
Qed.
Lemma filter_from pre c post :
  StronglySorted by_ids (pre ++ c :: post) → filter (λ d, ¬ lc_ID d < lc_ID c) (pre ++ c :: post) = c :: post.
Proof.
  intros Hs. apply StronglySorted_app in Hs as (Hpre & _ & Hpost). rewrite filter_app.
  assert (Hnone : filter (λ d, ¬ lc_ID d < lc_ID c) pre = []).
  { clear Hpost. induction pre as [|d pre IH]; [done|]. rewrite filter_cons, decide_False.
    - apply IH. intros a b Ha Hb. apply Hpre; [by right|done].
    - specialize (Hpre d c ltac:(by left) ltac:(by left)). unfold by_ids in Hpre. lia. }
  rewrite Hnone, app_nil_l, filter_cons, decide_True by lia. f_equal.
  apply StronglySorted_inv in Hpost as [_ Hall]. clear -Hall. induction Hall as [|d post Hd _ IH]; [done|].
  rewrite filter_cons, decide_True, IH; [done|]. unfold by_ids in Hd. lia.
Qed.
Lemma trim_rows name version max t :
  table_ok t → 0 < max →
  log_rows name version (TrimLogChunks name version max t).2 =
    drop (length (log_rows name version t) - S (Z.to_nat max)) (log_rows name version t).
Proof.
  intros Ht Hmax. unfold TrimLogChunks. rewrite decide_False by lia.
  assert (Hs : StronglySorted by_ids (log_rows name version t)) by (apply StronglySorted_filter, (to_sorted _ Ht)).
  destruct (reverse (log_rows name version t) !! Z.to_nat max) as [cut|] eqn:Hcut.
  - unfold log_rows at 1. simpl. rewrite filter_trimmed. fold (log_rows name version t).
    pose proof (lookup_lt_Some _ _ _ Hcut) as Hlt. rewrite length_reverse in Hlt.
    rewrite reverse_lookup in Hcut by done.
    rewrite <- (take_drop_middle _ _ _ Hcut) in Hs |- * at 1. rewrite filter_from by done.
    apply (drop_S _ _ _) in Hcut. rewrite <- Hcut. f_equal.
  - apply lookup_ge_None in Hcut. rewrite length_reverse in Hcut. simpl.
    by replace (length (log_rows name version t) - S (Z.to_nat max))%nat with 0%nat by lia.
Qed.
Lemma trim_others name version max name' version' t :
  ¬ (name' = name ∧ version' = version) →
  log_rows name' version' (TrimLogChunks name version max t).2 = log_rows name' version' t.
Proof.
  intros Hne. unfold TrimLogChunks. case_decide; [done|]. destruct (reverse _ !! _) as [cut|]; [|done]. unfold log_rows. simpl.
  generalize (ct_rows t) as l. intros l. induction l as [|c l IH]; [done|]. rewrite !filter_cons.
  destruct (decide (of_log name' version' c)) as [[Hn Hv]|Hc].
  - rewrite decide_True by (intros [[? ?] _]; apply Hne; split; congruence).
    rewrite filter_cons, decide_True by done. by rewrite IH.
  - case_decide; [|done]. by rewrite filter_cons, decide_False.
Qed.

(** *** Ingesting what the worker sends *)
(** What the chunks of a log say. *)
Definition said (l : list LogChunk) : list (Z * string) := (λ c, (lc_Seq c, lc_Content c)) <$> l.
Section ingest_facts.
Context `{LogJson}.
Definition payload (now : Z) (x : Z * string) : LogPayload := mkLogPayload (x.1) (x.2) now.
(** The body of the request: one object on each line. *)
Definition stream_body (now : Z) (sent : list (Z * string)) : string :=
  foldr (λ x s, log_json (payload now x) +:+ String newline s) "" sent.
Definition fits (now : Z) (x : Z * string) : Prop := Z.of_nat (String.length (log_json (payload now x))) < max_token.

Lemma log_json_clean p :
  no_newline (log_json p) ∧ log_json p ≠ "" ∧ drop_cr (log_json p) = log_json p ∧ TrimSpace (log_json p) = log_json p.
Proof using Type.
  destruct (log_json_object p) as (s & -> & Hs). split_and!.
  - unfold no_newline in *. by rewrite !str_forall_app, Hs.
  - done.
  - unfold drop_cr, TrimSuffix. rewrite <- append_assoc. by rewrite HasSuffix_other.
  - unfold TrimSpace. replace (trim_left is_space ("{" +:+ s +:+ "}")) with ("{" +:+ s +:+ "}") by done.
    rewrite <- append_assoc. by apply trim_right_app_end.
Qed.
Lemma body_lines_stream now sent : body_lines (stream_body now sent) = (λ x, log_json (payload now x)) <$> sent.
Proof using Type.
  unfold body_lines. induction sent as [|x sent IH]; [done|].
  unfold stream_body. cbn [foldr]. fold (stream_body now sent).
  destruct (lines_cons (log_json (payload now x)) (stream_body now sent) (proj1 (log_json_clean _))) as [-> ->].
  cbn [app]. rewrite IH. done.
Qed.
Lemma scan_tokens_stream now sent : Forall (fits now) sent →
  scan_tokens ((λ x, log_json (payload now x)) <$> sent) = ((λ x, log_json (payload now x)) <$> sent, true).
Proof using Type.
  induction 1 as [|x sent Hx _ IH]; [done|]. rewrite fmap_cons. cbn [scan_tokens]. unfold fits in Hx.
  rewrite decide_False by lia. rewrite IH. destruct (log_json_clean (payload now x)) as (_ & _ & -> & _). done.
Qed.

Context (LogChunkMax : Z) (name version runID : string) (attempt now later : Z).
Abbreviation rows t := (log_rows name version t).
Definition room (t : ChunkTable) (n : nat) : Prop :=
  LogChunkMax <= 0 ∨ Z.of_nat (length (rows t) + n) <= LogChunkMax + 1.
Lemma trim_room t : table_ok t → room t 0 → 0 < LogChunkMax → rows (TrimLogChunks name version LogChunkMax t).2 = rows t.
Proof using Type.
  intros Ht Hroom Hmax. rewrite trim_rows by done. unfold room in Hroom.
  by replace (length (rows t) - S (Z.to_nat LogChunkMax))%nat with 0%nat by lia.
Qed.
Lemma ingest_line_sent s x :
  table_ok (in_table s) → room (in_table s) 1 → 0 < x.1 → x.2 ≠ "" → 0 < now →
  let s' := ingest_line LogChunkMax name version runID attempt later s (log_json (payload now x)) in
  table_ok (in_table s') ∧ said (rows (in_table s')) = said (rows (in_table s)) ++ [x] ∧
  length (rows (in_table s')) = S (length (rows (in_table s))).
Proof using Type.
  intros Ht Hroom Hseq Hc Hnow. unfold ingest_line. destruct (log_json_clean (payload now x)) as (_ & Hne & _ & ->).
  cbv zeta. rewrite (decide_False (P := _ = "")) by done. unfold read_payload. rewrite read_log_json_of.
  unfold payload. cbn [lp_Seq lp_Content lp_Timestamp].
  rewrite (decide_False (P := x.2 = "")), (decide_False (P := now = 0)), !(decide_False (P := x.1 = 0)) by (done || lia).
  set (chunk := mkLogChunk 0 name version runID attempt x.1 x.2 now).
  destruct (PutLogChunk later chunk (in_table s)) as [id t] eqn:Hput.
  destruct (PutLogChunk_ok _ _ _ _ _ Hput Ht) as (Ht' & _ & _).
  assert (Hrows : ∃ row, rows t = rows (in_table s) ++ [row] ∧ (lc_Seq row, lc_Content row) = x).
  { unfold PutLogChunk in Hput. simplify_eq. unfold log_rows. simpl. rewrite filter_app, filter_cons, decide_True, filter_nil by done.
    eexists. split; [done|]. by destruct x. }
  destruct Hrows as (row & Hrows & Hrow).
  assert (Hsaid : said (rows t) = said (rows (in_table s)) ++ [x]) by (unfold said; rewrite Hrows, fmap_app; csimpl; by rewrite Hrow).
  assert (Hlen : length (rows t) = S (length (rows (in_table s)))) by (rewrite Hrows, length_app; simpl; lia).
  destruct (decide (0 < LogChunkMax)); [destruct (decide (50 <= _))|]; cbn [in_table]; [|done..].
  assert (Hroom' : room t 0) by (unfold room in *; lia).
  rewrite trim_room by done. split; [by apply TrimLogChunks_ok|done].
Qed.
Lemma ingest_lines_sent sent s :
  table_ok (in_table s) → room (in_table s) (length sent) →
  Forall (λ x, 0 < x.1 ∧ x.2 ≠ "") sent → 0 < now →
  let s' := foldl (ingest_line LogChunkMax name version runID attempt later) s ((λ x, log_json (payload now x)) <$> sent) in
  table_ok (in_table s') ∧ said (rows (in_table s')) = said (rows (in_table s)) ++ sent ∧ room (in_table s') 0.
Proof using Type.
  revert s. induction sent as [|x sent IH]; intros s Ht Hroom Hsent Hnow; [by rewrite app_nil_r|].
  apply Forall_cons in Hsent as [[Hseq Hc] Hsent]. simpl length in Hroom.
  destruct (ingest_line_sent s x Ht) as (Ht' & Hsaid & Hlen); [unfold room in *; lia|done..|].
  rewrite fmap_cons. cbn [foldl]. destruct (IH _ Ht') as (Ht'' & Hsaid' & Hroom'); [unfold room in *; lia|done..|].
  split_and!; [done| |done]. by rewrite Hsaid', Hsaid, <- (assoc_L (++)).
Qed.
Lemma ingest_sent sent t h :
  table_ok t → room t (length sent) → Forall (λ x, 0 < x.1 ∧ x.2 ≠ "") sent → 0 < now → Forall (fits now) sent →
  let r := ingest LogChunkMax name version runID attempt later (stream_body now sent) t h in
  r.1.1 = 200 ∧ table_ok r.1.2 ∧ said (rows r.1.2) = said (rows t) ++ sent.
Proof using Type.
  intros Ht Hroom Hsent Hnow Hfits. unfold ingest. rewrite body_lines_stream, scan_tokens_stream by done.
  destruct (ingest_lines_sent sent (mkIngest t h 0 0) Ht Hroom Hsent Hnow) as (Ht' & Hsaid & Hroom').
  revert Ht' Hsaid Hroom'. generalize (foldl (ingest_line LogChunkMax name version runID attempt later) (mkIngest t h 0 0)
    ((λ x, log_json (payload now x)) <$> sent)). intros s Ht' Hsaid Hroom'. simpl in *.
  split; [done|]. case_decide as Htrim; [|done]. rewrite trim_room by (done || apply Htrim).
  split; [by apply TrimLogChunks_ok|done].
Qed.
End ingest_facts.

(** ** Theorems *)
(** C26. However storing, publishing, trimming and the viewers' own steps are
    interleaved: a viewer is never sent the same chunk twice. *)
Theorem viewer_no_duplicates w v vw :
  rtc step no_logs w → wd_views w !! v = Some vw → NoDup (ids (vw_sent vw)).
Proof.
  intros Hr Hv. pose proof (reachable_ok _ _ Hr no_logs_ok) as Hw.
  destruct (wo_views _ Hw v vw Hv) as (listed & live & [-> Hl _ Ha Hlive Honce _ _ _]).
  rewrite fmap_app. apply NoDup_app. split_and!; [done| |].
  - intros id (a & -> & Hin)%list_elem_of_fmap (b & Heq & Hin')%list_elem_of_fmap.
    rewrite Forall_forall in Ha, Hlive. specialize (Ha a Hin). specialize (Hlive b Hin'). lia.
  - rewrite fmap_app in Honce. by apply NoDup_app in Honce as [? _].
Qed.

(** A chunk that is stored and published after a viewer has listed the table
    and before it has subscribed is lost for this viewer: whatever happens later,
    it is never sent. *)
Theorem live_chunk_lost t hub fl vs v vw now c id t' :
  rtc step no_logs (mkWorld t hub fl vs) → vs !! v = Some vw → vw_phase vw = Listed → PutLogChunk now c t = (id, t') →
  let w := mkWorld t' (publish (chunk_key c) (with_chunk_id id c) hub) fl vs in
  rtc step (mkWorld t hub fl vs) w ∧
  ∀ w' vw', rtc step w w' → wd_views w' !! v = Some vw' → id ∉ ids (vw_sent vw').
Proof.
  intros Hr Hv Hp Hput w. pose proof (reachable_ok _ _ Hr no_logs_ok) as Hw.
  assert (Hsteps : rtc step (mkWorld t hub fl vs) w).
  { eapply rtc_l; [by eapply step_put|]. apply rtc_once. by apply (step_publish (with_chunk_id id c) t' hub [] fl vs). }
  split; [done|]. intros w' vw' Hr' Hv'.
  destruct (PutLogChunk_ok _ _ _ _ _ Hput (wo_table _ Hw)) as (_ & Hid & Hn). simpl in Hid, Hn.
  destruct (wo_views _ Hw v vw Hv) as (listed & live & Hok). simpl in Hok.
  assert (Hnew : ∀ l, Forall (λ d, lc_ID d < ct_next t) l → id ∉ ids l).
  { intros l Hl (d & Heq & Hd)%list_elem_of_fmap. rewrite Forall_forall in Hl. specialize (Hl d Hd). lia. }
  assert (Hsub : ∀ vw0, wd_views (mkWorld t hub fl vs) !! v = Some vw0 → vw_phase vw0 ≠ Subscribed)
    by (simpl; intros; congruence).
  assert (Hnone : ∀ key subs ch, hub !! key = Some subs → subs !! v = Some ch → False).
  { intros key subs ch Hh Hs. destruct (wo_subs _ Hw _ _ _ _ Hh Hs) as (vw0 & Hv0 & _ & Hp0). simpl in Hv0. congruence. }
  assert (Hlost : lost v id w).
  { split; simpl; [lia|by apply Hnew, (wo_flight _ Hw)|]. exists vw. split_and!; [done|congruence| |].
    - rewrite (vo_sent _ _ _ _ _ _ Hok). apply not_in_ids_app. split; apply Hnew; [apply Hok|].
      rewrite (vo_early _ _ _ _ _ _ Hok) by (rewrite Hp; set_solver). done.
    - pose proof (not_subscribed _ v (viewer_key vw) Hw Hsub) as Hnil. simpl in Hnil.
      destruct (chan_publish (chunk_key c) (with_chunk_id id c) hub (viewer_key vw) v) as [->|[Hkey Happ]]; [by rewrite Hnil; apply not_elem_of_nil|].
      exfalso. unfold chan, publish in Happ, Hnil. rewrite Hkey in Happ, Hnil. rewrite lookup_alter_eq in Happ.
      destruct (hub !! chunk_key c) as [subs|] eqn:Hh; [|done]. simpl in Happ, Hnil. rewrite lookup_fmap in Happ.
      destruct (subs !! v) as [ch|] eqn:Hs; [|done]. by destruct (Hnone _ _ _ Hh Hs). }
  destruct (lost_forever v id w w' Hr' (reachable_ok _ _ Hsteps Hw) Hlost) as [_ _ (vw0 & Hv0 & _ & Hgone & _)].
  congruence.
Qed.

(** Trimming a log to the newest [max] chunks leaves the newest [max + 1]: the
    row at OFFSET max is itself kept.  The chunks of other logs stay. *)
Theorem trim_keeps_one_more w name version max :
  rtc step no_logs w → 0 < max →
  let t := wd_table w in
  let t' := (TrimLogChunks name version max t).2 in
  log_rows name version t' =
    drop (length (log_rows name version t) - S (Z.to_nat max)) (log_rows name version t) ∧
  length (log_rows name version t') = Nat.min (length (log_rows name version t)) (S (Z.to_nat max)) ∧
  ∀ name' version', ¬ (name' = name ∧ version' = version) →
    log_rows name' version' t' = log_rows name' version' t.
Proof.
  intros Hr Hmax t t'. pose proof (reachable_ok _ _ Hr no_logs_ok) as Hw.
  assert (Hrows : log_rows name version t' =
    drop (length (log_rows name version t) - S (Z.to_nat max)) (log_rows name version t))
    by (apply trim_rows; [apply Hw|done]).
  split_and!; [done| |intros; by apply trim_others]. rewrite Hrows, length_drop. lia.
Qed.

(** C25. From the build to the viewer: what the runner writes, cut anywhere, reaches
    the page of [GET /api/logs/chunks] as the lines of the log that are not blank,
    in their order, when the worker's channel never fills, lines are short, the
    log was empty, and it stays within [LogChunkMax]. *)
Theorem log_reaches_viewer `{LogJson} accepts sched ps w h LogChunkMax name version runID attempt now later limit :
  (∀ n, accepts n = true) → short_lines (text_of ps) →
  keeps_up accepts sched (log_chunks (text_of ps)) new_stream ∨ (length (log_chunks (text_of ps)) <= channel_size)%nat →
  rtc step no_logs w → log_rows name version (wd_table w) = [] →
  LogChunkMax <= 0 ∨ Z.of_nat (length (log_chunks (text_of ps))) <= LogChunkMax + 1 →
  0 < now → Forall (fits now) (numbered (log_chunks (text_of ps))) →
  Z.of_nat (length (log_chunks (text_of ps))) <= limit <= 2000 →
  ∃ sent, send_log accepts sched ps = Some sent ∧
    let r := ingest LogChunkMax name version runID attempt later (stream_body now sent) (wd_table w) h in
    r.1.1 = 200 ∧ said (chunk_page false name version 0 limit r.1.2) = numbered (log_chunks (text_of ps)).
Proof.
  intros Hok Hshort Hroom Hr Hempty Hmax Hnow Hfits Hlimit. set (cs := log_chunks (text_of ps)) in *.
  exists (numbered cs). split; [by apply send_log_all|].
  assert (Hlen : length (numbered cs) = length cs) by (unfold numbered; by rewrite length_imap).
  assert (Hgood : Forall (λ x, 0 < x.1 ∧ x.2 ≠ "") (numbered cs)).
  { apply Forall_forall. intros x (i & c & -> & Hc)%elem_of_lookup_imap. simpl. split; [lia|].
    apply list_elem_of_lookup_2 in Hc. unfold cs, log_chunks in Hc. apply elem_of_app in Hc as [[Hne _]%list_elem_of_filter|Hc].
    - intros ->. by apply Hne.
    - case_decide; [by apply elem_of_nil in Hc|]. by apply list_elem_of_singleton in Hc as ->. }
  destruct (ingest_sent LogChunkMax name version runID attempt now later (numbered cs) (wd_table w) h) as (Hcode & _ & Hsaid);
    [by apply reachable_ok in Hr as []; [|apply no_logs_ok]|unfold room; rewrite Hempty, Hlen; simpl; lia|done..|].
  cbv zeta. split; [done|]. rewrite Hempty in Hsaid. change (said [] ++ numbered cs) with (numbered cs) in Hsaid.
  unfold chunk_page, ListLogChunks. rewrite (decide_False (P := 0 < 0)) by lia. rewrite take_ge; [done|].
  apply (f_equal length) in Hsaid. unfold said in Hsaid. rewrite length_fmap, Hlen in Hsaid. simpl in Hsaid.
  rewrite Hsaid. unfold clamp_limit. rewrite (decide_False (P := 2000 < _)) by (case_decide; lia). case_decide; lia.
Qed.

(** ** Witnesses *)
Lemma pos_digits_no_newline p : no_newline (pos_digits p).
Proof. unfold no_newline. induction p as [p IH|p IH|]; cbn [pos_digits str_forall]; rewrite ?IH; done. Qed.
#[refine] Definition demo_json : LogJson := {|
  log_json p := "{" +:+ marshal (lp_Seq p, lp_Content p, lp_Timestamp p) +:+ "}";
  read_log_json s :=
    match unmarshal (str_drop 1 (TrimSuffix s "}")) with
    | Some (seq, content, ts) => (true, mkLogPayload seq content ts)
    | None => (false, mkLogPayload 0 "" 0)
    end |}.
Proof.
  - intros [seq content ts]. rewrite <- append_assoc, TrimSuffix_app.
    replace (str_drop 1 ("{" +:+ marshal (seq, content, ts))) with (marshal (seq, content, ts))
      by (symmetry; apply (str_drop_app "{")). by rewrite unmarshal_marshal.
  - intros p. eexists. split; [done|]. apply pos_digits_no_newline.
Defined.
#[local] Existing Instance demo_json.

#[local] Instance fits_dec now x : Decision (fits now x).
Proof. unfold fits. apply _. Defined.
Lemma sample_fits : Forall (fits 100) (numbered (log_chunks (text_of sample_writes))).
Proof. apply (bool_decide_unpack _). vm_compute. reflexivity. Qed.
Lemma sample_three : length (log_chunks (text_of sample_writes)) = 3%nat.
Proof. vm_compute. reflexivity. Qed.
Lemma log_reaches_viewer_witness :
  ∃ sent, send_log (λ _, true) [0; 1]%nat sample_writes = Some sent ∧
    let r := ingest 5000 "cffi" "1.16" "" 1 200 (stream_body 100 sent) (wd_table no_logs) ∅ in
    r.1.1 = 200 ∧ said (chunk_page false "cffi" "1.16" 0 200 r.1.2) = numbered (log_chunks (text_of sample_writes)).
Proof.
  apply (log_reaches_viewer (λ _, true) [0; 1]%nat sample_writes no_logs ∅ 5000 "cffi" "1.16" "" 1 100 200 200);
    [done|exact sample_short|right; exact sample_few|apply rtc_refl|done|rewrite sample_three; lia|lia|exact sample_fits
    |rewrite sample_three; lia].
Defined.

(** Three chunks are stored and published; a viewer lists after the first one,
    subscribes after the second and receives the third. *)
Definition line (content : string) : LogChunk := mkLogChunk 0 "cffi" "1.16" "" 1 1 content 100.
Definition stored1 : World := mkWorld (PutLogChunk 1 (line "a") (mkChunkTable [] 1)).2 ∅ [] ∅.
Definition watcher : Viewer := mkViewer "cffi" "1.16" 0 [] Opened.
Definition watching : Viewer := view_page [with_chunk_id 1 (line "a")] watcher.
Definition listed1 : World := mkWorld (wd_table stored1) ∅ [] (<[0%nat := watching]> (<[0%nat := watcher]> ∅)).
Lemma publish_empty k c : publish k c ∅ = ∅.
Proof. apply map_eq. intros i. unfold publish. rewrite lookup_alter. by case_decide. Qed.
Lemma stored1_reached : rtc step no_logs stored1.
Proof.
  eapply rtc_l; [by eapply (step_put 1 (line "a"))|]. apply rtc_once.
  pose proof (step_publish (with_chunk_id 1 (line "a")) (wd_table stored1) ∅ [] [] ∅) as Hs. rewrite publish_empty in Hs. exact Hs.
Qed.
Lemma listed1_reached : rtc step no_logs listed1.
Proof.
  etrans; [apply stored1_reached|]. eapply rtc_l; [by apply (step_open 0%nat "cffi" "1.16" 0)|]. apply rtc_once.
  by apply (step_list 0%nat watcher false 200).
Qed.
Definition missed : World :=
  mkWorld (PutLogChunk 1 (line "b") (wd_table listed1)).2 (publish "cffi::1.16" (with_chunk_id 2 (line "b")) ∅) []
    (wd_views listed1).
Definition following : World :=
  mkWorld (wd_table missed) (subscribe "cffi::1.16" 0%nat (wd_hub missed)) []
    (<[0%nat := view_subscribed watching]> (wd_views missed)).
Lemma following_after : rtc step missed following.
Proof. apply rtc_once. by apply (step_subscribe 0%nat watching). Qed.
Lemma live_chunk_lost_witness :
  rtc step no_logs following ∧ 2 ∉ ids (vw_sent (view_subscribed watching)).
Proof.
  destruct (live_chunk_lost (wd_table listed1) ∅ [] (wd_views listed1) 0%nat watching 1 (line "b") 2
    (PutLogChunk 1 (line "b") (wd_table listed1)).2 listed1_reached eq_refl eq_refl eq_refl) as [Hr Hlost].
  split; [etrans; [apply listed1_reached|]; etrans; [exact Hr|exact following_after]|].
  exact (Hlost following _ following_after eq_refl).
Defined.
Lemma viewer_no_duplicates_witness : NoDup (ids (vw_sent watching)).
Proof. exact (viewer_no_duplicates listed1 0%nat watching listed1_reached eq_refl). Defined.
Lemma trim_keeps_one_more_witness :
  log_rows "cffi" "1.16" (TrimLogChunks "cffi" "1.16" 1 (wd_table missed)).2 = log_rows "cffi" "1.16" (wd_table missed).
Proof.
  assert (Hr : rtc step no_logs missed).
  { etrans; [apply listed1_reached|]. eapply rtc_l; [by eapply (step_put 1 (line "b"))|]. apply rtc_once.
    apply (step_publish (with_chunk_id 2 (line "b")) _ ∅ [] []). }
  destruct (trim_keeps_one_more missed "cffi" "1.16" 1 Hr ltac:(lia)) as [Hrows _]. exact Hrows.
Defined.
