(* ===== verification/History.v ===== *)
(** The history of the builds: the table [events] with its statements in
    [go-control-plane/internal/store/postgres.go] ([RecordEvent] to
    [TopSlowest]), and the handlers of [api/handlers.go] that read and write it.

    A column that the only INSERT never leaves NULL is not an [option].  Times
    are seconds, which is what [RecordEvent] stores. *)
From S2P Require Import Prelude.
From S2P Require Import GoStr.
From S2P Require Import HintFeed.
From S2P Require Import Sql.
From S2P Require Import Values.
From S2P Require Import Logs.
From Stdlib Require Import QArith.
Local Open Scope string_scope.
Local Open Scope list_scope.
Local Open Scope Z_scope.

(** ** Data *)
Record Event := mkEvent {
  e_RunID : string; e_Name : string; e_Version : string; e_PythonTag : string;
  e_PlatformTag : string; e_Status : string; e_Detail : string;
  e_Metadata : option (gmap string json); e_Timestamp : Z;
  e_MatchedHintIDs : option (list string); e_DurationMS : Z }.
Definition zero_event : Event := mkEvent "" "" "" "" "" "" "" None 0 None 0.

Record EventRow := mkEventRow {
  er_run_id : string; er_name : string; er_version : string; er_python_tag : string;
  er_platform_tag : string; er_status : string; er_detail : string;
  er_metadata : option (gmap string json);  (* None: the jsonb value null *)
  er_matched_hint_ids : option (list string);
  er_duration_ms : option Z; er_timestamp : Z }.

(** The fields of [Event] by their JSON names. *)
Section decode.
Context `{Floats}.
Definition set_name (s : string) (e : Event) : Event :=
  mkEvent (e_RunID e) s (e_Version e) (e_PythonTag e) (e_PlatformTag e) (e_Status e) (e_Detail e)
    (e_Metadata e) (e_Timestamp e) (e_MatchedHintIDs e) (e_DurationMS e).
Definition event_fields : list (string * (json → Event → option Event)) := [
  ("run_id", λ v e, s ← decode_string v (e_RunID e);
     Some (mkEvent s (e_Name e) (e_Version e) (e_PythonTag e) (e_PlatformTag e) (e_Status e)
             (e_Detail e) (e_Metadata e) (e_Timestamp e) (e_MatchedHintIDs e) (e_DurationMS e)));
  ("name", λ v e, s ← decode_string v (e_Name e); Some (set_name s e));
  ("version", λ v e, s ← decode_string v (e_Version e);
     Some (mkEvent (e_RunID e) (e_Name e) s (e_PythonTag e) (e_PlatformTag e) (e_Status e)
             (e_Detail e) (e_Metadata e) (e_Timestamp e) (e_MatchedHintIDs e) (e_DurationMS e)));
  ("python_tag", λ v e, s ← decode_string v (e_PythonTag e);
     Some (mkEvent (e_RunID e) (e_Name e) (e_Version e) s (e_PlatformTag e) (e_Status e)
             (e_Detail e) (e_Metadata e) (e_Timestamp e) (e_MatchedHintIDs e) (e_DurationMS e)));
  ("platform_tag", λ v e, s ← decode_string v (e_PlatformTag e);
     Some (mkEvent (e_RunID e) (e_Name e) (e_Version e) (e_PythonTag e) s (e_Status e)
             (e_Detail e) (e_Metadata e) (e_Timestamp e) (e_MatchedHintIDs e) (e_DurationMS e)));
  ("status", λ v e, s ← decode_string v (e_Status e);
     Some (mkEvent (e_RunID e) (e_Name e) (e_Version e) (e_PythonTag e) (e_PlatformTag e) s
             (e_Detail e) (e_Metadata e) (e_Timestamp e) (e_MatchedHintIDs e) (e_DurationMS e)));
  ("detail", λ v e, s ← decode_string v (e_Detail e);
     Some (mkEvent (e_RunID e) (e_Name e) (e_Version e) (e_PythonTag e) (e_PlatformTag e) (e_Status e)
             s (e_Metadata e) (e_Timestamp e) (e_MatchedHintIDs e) (e_DurationMS e)));
  ("metadata", λ v e, m ← decode_map v (e_Metadata e);
     Some (mkEvent (e_RunID e) (e_Name e) (e_Version e) (e_PythonTag e) (e_PlatformTag e) (e_Status e)
             (e_Detail e) m (e_Timestamp e) (e_MatchedHintIDs e) (e_DurationMS e)));
  ("timestamp", λ v e, n ← decode_int v (e_Timestamp e);
     Some (mkEvent (e_RunID e) (e_Name e) (e_Version e) (e_PythonTag e) (e_PlatformTag e) (e_Status e)
             (e_Detail e) (e_Metadata e) n (e_MatchedHintIDs e) (e_DurationMS e)));
  ("matched_hint_ids", λ v e, l ← decode_strings v (e_MatchedHintIDs e);
     Some (mkEvent (e_RunID e) (e_Name e) (e_Version e) (e_PythonTag e) (e_PlatformTag e) (e_Status e)
             (e_Detail e) (e_Metadata e) (e_Timestamp e) l (e_DurationMS e)));
  ("duration_ms", λ v e, n ← decode_int v (e_DurationMS e);
     Some (mkEvent (e_RunID e) (e_Name e) (e_Version e) (e_PythonTag e) (e_PlatformTag e) (e_Status e)
             (e_Detail e) (e_Metadata e) (e_Timestamp e) (e_MatchedHintIDs e) n)) ].
Definition decode_event (v : json) : option Event := decode_struct event_fields v zero_event.
End decode.

(** ** [RecordEvent] *)
(** The range of [TO_TIMESTAMP], in seconds. *)
Definition timestamp_in_range (t : Z) : bool := (-210866803200 <=? t) && (t <? 9224318016000).
Definition metadata_ok (m : option (gmap string json)) : bool :=
  match m with
  | None => true
  | Some m => forallb (λ kv, no_nul (kv.1) && json_no_nul (kv.2)) (map_to_list m)
  end.
Definition event_ok (e : Event) : bool :=
  forallb no_nul [e_RunID e; e_Name e; e_Version e; e_PythonTag e; e_PlatformTag e; e_Status e; e_Detail e]
  && metadata_ok (e_Metadata e) && forallb no_nul (default [] (e_MatchedHintIDs e)).
(** The INSERT names every column but [duration_ms]. *)
Definition event_row (e : Event) : EventRow :=
  mkEventRow (e_RunID e) (e_Name e) (e_Version e) (e_PythonTag e) (e_PlatformTag e) (e_Status e)
    (e_Detail e) (e_Metadata e) (e_MatchedHintIDs e) None (e_Timestamp e).
Definition RecordEvent (e : Event) (t : list EventRow) : option string * list EventRow :=
  if negb (event_ok e) then (Some nul_error, t)
  else if negb (timestamp_in_range (e_Timestamp e)) then (Some "pq: timestamp out of range", t)
  else (None, t ++ [event_row e]).

(** ** The queries *)
(** One row read back; only [Recent] and [History] select the duration. *)
Definition scan_event (with_duration : bool) (r : EventRow) : Event :=
  mkEvent (er_run_id r) (er_name r) (er_version r) (er_python_tag r) (er_platform_tag r) (er_status r)
    (er_detail r) (er_metadata r) (er_timestamp r) (er_matched_hint_ids r)
    (if with_duration then default 0 (er_duration_ms r) else 0).

Record HistoryFilter := mkHistoryFilter {
  hf_Package : string; hf_Status : string; hf_RunID : string; hf_FromTs : Z; hf_ToTs : Z;
  hf_Limit : Z; hf_Offset : Z }.
Definition unset_or (want have : string) : bool := bool_decide (want = "" ∨ have = want).
Definition matches (f : HistoryFilter) (r : EventRow) : bool :=
  unset_or (hf_Package f) (er_name r) && unset_or (hf_Status f) (er_status r) &&
  unset_or (hf_RunID f) (er_run_id r) &&
  ((hf_FromTs f <=? 0) || (hf_FromTs f <=? er_timestamp r)) &&
  ((hf_ToTs f <=? 0) || (er_timestamp r <=? hf_ToTs f)).

(** [LIMIT] and [OFFSET]. *)
Definition page {A} (limit offset : Z) (l : list A) : list A :=
  take (Z.to_nat limit) (drop (Z.to_nat offset) l).
(** A parameter with a zero byte is refused. *)
Definition with_params {A} (ps : list string) (a : A) : result A :=
  if forallb no_nul ps then Ok a else Err nul_error.

(** [SELECT k, count( * ) ... GROUP BY k]. *)
Definition count_of (k : string) (l : list string) : Z := Z.of_nat (length (filter (λ x, x = k) l)).
Definition group_count (l : list string) : list (string * Z) :=
  (λ k, (k, count_of k l)) <$> elements (list_to_set l : gset string).

Record Summary_ := mkSummary { sm_StatusCounts : gmap string Z; sm_Failures : list Event }.
Record PackageSummary_ := mkPackageSummary {
  ps_Name : string; ps_StatusCounts : gmap string Z; ps_Latest : option Event }.

(** [(metadata->>'duration_ms')::bigint] of a value that is not null, the mean of
    some of them as a float, and [ORDER BY] on floats. *)
Class SlowSql := {
  bigint_of : json → option Z;
  bigint_of_int n : - 2 ^ 63 <= n < 2 ^ 63 → bigint_of (js_int n) = Some n;
  avg_float : Z → positive → Q;
  avg_float_mono s1 n1 s2 n2 : (s1 # n1 <= s2 # n2)%Q → (avg_float s1 n1 <= avg_float s2 n2)%Q;
  by_avg : list (string * Q) → list (string * Q);
  by_avg_perm l : by_avg l ≡ₚ l;
  by_avg_sorted l : StronglySorted (λ a b, (b.2 <= a.2)%Q) (by_avg l) }.

Section queries.
Context `{SqlOrder}.

Definition by_time (l : list EventRow) : list EventRow := order_desc er_timestamp l.

Definition Recent (limit offset : Z) (pkg status : string) (t : list EventRow) : result (list Event) :=
  with_params [pkg; status]
    (scan_event true <$> page limit (if decide (0 < offset) then offset else 0)
       (by_time (filter (λ r, unset_or pkg (er_name r) && unset_or status (er_status r) = true) t))).
Definition History (f : HistoryFilter) (t : list EventRow) : result (list Event) :=
  let limit := if decide (hf_Limit f <= 0) then 50 else hf_Limit f in
  let limit := if decide (500 < limit) then 500 else limit in
  with_params [hf_Package f; hf_Status f; hf_RunID f]
    (scan_event true <$> page limit (if decide (0 < hf_Offset f) then hf_Offset f else 0)
       (by_time (filter (λ r, matches f r = true) t))).
Definition failed_rows (t : list EventRow) : list EventRow := filter (λ r, er_status r = "failed") t.
Definition Summary (failureLimit : Z) (t : list EventRow) : Summary_ :=
  let limit := if decide (failureLimit <= 0) then 20 else failureLimit in
  mkSummary (fill_map (group_count (er_status <$> t)))
    (scan_event false <$> page limit 0 (by_time (failed_rows t))).
Definition rows_of (name : string) (t : list EventRow) : list EventRow := filter (λ r, er_name r = name) t.
(** The error of the second query is dropped, but the first fails first. *)
Definition PackageSummary (name : string) (t : list EventRow) : result PackageSummary_ :=
  with_params [name]
    (mkPackageSummary name (fill_map (group_count (er_status <$> rows_of name t)))
       (scan_event false <$> newest er_timestamp (rows_of name t))).
Definition LatestEvent (name version : string) (t : list EventRow) : result Event :=
  result_bind (with_params [name; version]
                 (newest er_timestamp (filter (λ r, er_name r = name ∧ er_version r = version) t)))
    (λ r, match r with Some r => Ok (scan_event false r) | None => Err "sql: no rows in result set" end).
Definition Failures (name : string) (limit : Z) (t : list EventRow) : result (list Event) :=
  let limit := if decide (limit <= 0) then 50 else limit in
  with_params [name]
    (scan_event false <$> page limit 0 (by_time (filter (λ r, unset_or name (er_name r) = true) (failed_rows t)))).
Definition Variants (name : string) (limit : Z) (t : list EventRow) : result (list Event) :=
  let limit := if decide (limit <= 0) then 100 else limit in
  with_params [name] (scan_event false <$> page limit 0 (by_time (rows_of name t))).

Definition top_limit (limit : Z) : Z :=
  let limit := if decide (limit <= 0) then 10 else limit in if decide (200 < limit) then 200 else limit.
(** The counts are floats that are whole numbers. *)
Definition TopFailures (limit : Z) (t : list EventRow) : list (string * Z) :=
  page (top_limit limit) 0 (order_desc snd (group_count (er_name <$> failed_rows t))).

(** The durations of a package, SQL's NULLs left out; [None] when one does not cast. *)
Context `{SlowSql}.
Definition duration_value (r : EventRow) : option json := er_metadata r ≫= (.!! "duration_ms").
Definition duration_of (v : json) : option (option Z) :=
  match v with JsNull => Some None | v => Some <$> bigint_of v end.
Definition durations (l : list EventRow) : option (list (string * option Z)) :=
  mapM (λ r, v ← duration_value r; d ← duration_of v; Some (er_name r, d))
    (filter (λ r, is_Some (duration_value r)) l).
Definition values_of (name : string) (ds : list (string * option Z)) : list Z :=
  omap (λ d, if decide (d.1 = name) then d.2 else None) ds.
(** [avg] of no value is NULL, which comes first in a descending order. *)
Definition average (zs : list Z) : option Q :=
  match zs with [] => None | _ => Some (avg_float (foldr Z.add 0 zs) (Pos.of_nat (length zs))) end.
Definition group_avg (ds : list (string * option Z)) : list (string * option Q) :=
  (λ k, (k, average (values_of k ds))) <$> elements (list_to_set ds.*1 : gset string).
Definition TopSlowest (limit : Z) (t : list EventRow) : result (list (string * Q)) :=
  match durations t with
  | None => Err "pq: invalid input syntax for type bigint"
  | Some ds =>
    match mapM (λ kv, q ← kv.2; Some (kv.1, q)) (group_avg ds) with
    | None => Err "sql: Scan error on column avg_ms: converting NULL to float64 is unsupported"
    | Some avgs => Ok (page (top_limit limit) 0 (by_avg avgs))
    end
  end.
End queries.

(** ** The handlers: the HTTP status, and the answer of a 200 *)
Inductive answer (A : Type) := Answer (a : A) | Failed (status : Z).
Arguments Answer {A}. Arguments Failed {A}.
Definition or_500 {A} (r : result A) : answer A := match r with Ok a => Answer a | Err _ => Failed 500 end.
Definition status_of {A} (a : answer A) : Z := match a with Answer _ => 200 | Failed s => s end.

Section handlers.
Context `{SqlOrder, SlowSql, Floats}.

Definition get {A} (meth : string) (k : answer A) : answer A := if decide (meth = "GET") then k else Failed 405.
Definition summary (meth failure_limit : string) (t : list EventRow) : answer Summary_ :=
  get meth (Answer (Summary (parseIntDefault ParseInt failure_limit 20 200) t)).
Definition recent (meth limit offset pkg status : string) (t : list EventRow) : answer (list Event) :=
  get meth (or_500 (Recent (parseIntDefault ParseInt limit 50 500) (parseIntDefault ParseInt offset 0 10000)
                      pkg status t)).
Record HistoryQuery := mkHistoryQuery {
  hq_package : string; hq_status : string; hq_run_id : string; hq_from : string; hq_to : string;
  hq_limit : string; hq_offset : string }.
Definition history_filter (q : HistoryQuery) : HistoryFilter :=
  mkHistoryFilter (hq_package q) (hq_status q) (hq_run_id q)
    (parseIntDefault ParseInt (hq_from q) 0 0) (parseIntDefault ParseInt (hq_to q) 0 0)
    (parseIntDefault ParseInt (hq_limit q) 50 500) (parseIntDefault ParseInt (hq_offset q) 0 10000).
Definition history_get (q : HistoryQuery) (t : list EventRow) : answer (list Event) :=
  or_500 (History (history_filter q) t).
(** POST takes no token.  [body] is the first JSON value of the body. *)
Definition history_post (now : Z) (body : option json) (t : list EventRow) : Z * list EventRow :=
  match body ≫= decode_event with
  | None => (400, t)
  | Some e =>
    if decide (e_Name e = "" ∨ e_Version e = "" ∨ e_Status e = "") then (400, t)
    else
      let e := if decide (e_Timestamp e = 0)
               then mkEvent (e_RunID e) (e_Name e) (e_Version e) (e_PythonTag e) (e_PlatformTag e)
                      (e_Status e) (e_Detail e) (e_Metadata e) now (e_MatchedHintIDs e) (e_DurationMS e)
               else e in
      match RecordEvent e t with (Some _, t') => (500, t') | (None, t') => (200, t') end
  end.
Definition path_part (n : nat) (path : string) : option string := splitPath path !! n.
Definition packageSummary (meth path : string) (t : list EventRow) : answer PackageSummary_ :=
  get meth (match path_part 2 path with
            | None => Failed 400 | Some name => or_500 (PackageSummary name t)
            end).
Definition eventByVersion (meth path : string) (t : list EventRow) : answer Event :=
  get meth (match path_part 2 path, path_part 3 path with
            | Some name, Some version => or_500 (LatestEvent name version t)
            | _, _ => Failed 400
            end).
Definition failures (meth name limit : string) (t : list EventRow) : answer (list Event) :=
  get meth (or_500 (Failures name (parseIntDefault ParseInt limit 50 500) t)).
Definition variants (meth path limit : string) (t : list EventRow) : answer (list Event) :=
  get meth (match path_part 2 path with
            | None => Failed 400
            | Some name => or_500 (Variants name (parseIntDefault ParseInt limit 100 500) t)
            end).
Definition topFailures (meth limit : string) (t : list EventRow) : answer (list (string * Z)) :=
  get meth (Answer (TopFailures (parseIntDefault ParseInt limit 10 200) t)).
Definition topSlowest (meth limit : string) (t : list EventRow) : answer (list (string * Q)) :=
  get meth (or_500 (TopSlowest (parseIntDefault ParseInt limit 10 200) t)).
End handlers.
