(* ===== verification/Manifest.v ===== *)
(** The tables [manifests] and [logs] of the control plane: their statements in
    [go-control-plane/internal/store/postgres.go], and the handlers [manifest],
    [artifacts], [logsIngest], [logsByNameVersion] and [logsSearch] of
    [api/handlers.go]. *)
From S2P Require Import Prelude.
From S2P Require Import GoStr.
From S2P Require Import HintFeed.
From S2P Require Import BuildStore.
From S2P Require Import Sql.
From S2P Require Import Values.
From S2P Require Import Logs.
From S2P Require Import History.
From Stdlib Require Import Ascii.
Local Open Scope string_scope.
Local Open Scope list_scope.
Local Open Scope Z_scope.

(** ** Manifests *)
(** A row of the table has the same columns. *)
Record ManifestEntry := mkManifestEntry {
  me_Name : string; me_Version : string; me_Wheel : string; me_WheelURL : string;
  me_RepairURL : string; me_RepairDigest : string; me_RuntimeURL : string;
  me_PackURLs : option (list string); me_PythonTag : string; me_PlatformTag : string;
  me_Status : string; me_CreatedAt : Z }.
Definition zero_entry : ManifestEntry := mkManifestEntry "" "" "" "" "" "" "" None "" "" "" 0.

(** The struct has no tags: its JSON names are its Go names. *)
Definition string_field (get : ManifestEntry → string) (set : string → ManifestEntry → ManifestEntry)
    : json → ManifestEntry → option ManifestEntry :=
  λ v m, s ← decode_string v (get m); Some (set s m).
Definition manifest_fields : list (string * (json → ManifestEntry → option ManifestEntry)) := [
  ("Name", string_field me_Name (λ s m, mkManifestEntry s (me_Version m) (me_Wheel m) (me_WheelURL m)
     (me_RepairURL m) (me_RepairDigest m) (me_RuntimeURL m) (me_PackURLs m) (me_PythonTag m)
     (me_PlatformTag m) (me_Status m) (me_CreatedAt m)));
  ("Version", string_field me_Version (λ s m, mkManifestEntry (me_Name m) s (me_Wheel m) (me_WheelURL m)
     (me_RepairURL m) (me_RepairDigest m) (me_RuntimeURL m) (me_PackURLs m) (me_PythonTag m)
     (me_PlatformTag m) (me_Status m) (me_CreatedAt m)));
  ("Wheel", string_field me_Wheel (λ s m, mkManifestEntry (me_Name m) (me_Version m) s (me_WheelURL m)
     (me_RepairURL m) (me_RepairDigest m) (me_RuntimeURL m) (me_PackURLs m) (me_PythonTag m)
     (me_PlatformTag m) (me_Status m) (me_CreatedAt m)));
  ("WheelURL", string_field me_WheelURL (λ s m, mkManifestEntry (me_Name m) (me_Version m) (me_Wheel m) s
     (me_RepairURL m) (me_RepairDigest m) (me_RuntimeURL m) (me_PackURLs m) (me_PythonTag m)
     (me_PlatformTag m) (me_Status m) (me_CreatedAt m)));
  ("RepairURL", string_field me_RepairURL (λ s m, mkManifestEntry (me_Name m) (me_Version m) (me_Wheel m)
     (me_WheelURL m) s (me_RepairDigest m) (me_RuntimeURL m) (me_PackURLs m) (me_PythonTag m)
     (me_PlatformTag m) (me_Status m) (me_CreatedAt m)));
  ("RepairDigest", string_field me_RepairDigest (λ s m, mkManifestEntry (me_Name m) (me_Version m)
     (me_Wheel m) (me_WheelURL m) (me_RepairURL m) s (me_RuntimeURL m) (me_PackURLs m) (me_PythonTag m)
     (me_PlatformTag m) (me_Status m) (me_CreatedAt m)));
  ("RuntimeURL", string_field me_RuntimeURL (λ s m, mkManifestEntry (me_Name m) (me_Version m)
     (me_Wheel m) (me_WheelURL m) (me_RepairURL m) (me_RepairDigest m) s (me_PackURLs m) (me_PythonTag m)
     (me_PlatformTag m) (me_Status m) (me_CreatedAt m)));
  ("PackURLs", λ v m, l ← decode_strings v (me_PackURLs m); Some (mkManifestEntry (me_Name m) (me_Version m)
     (me_Wheel m) (me_WheelURL m) (me_RepairURL m) (me_RepairDigest m) (me_RuntimeURL m) l (me_PythonTag m)
     (me_PlatformTag m) (me_Status m) (me_CreatedAt m)));
  ("PythonTag", string_field me_PythonTag (λ s m, mkManifestEntry (me_Name m) (me_Version m)
     (me_Wheel m) (me_WheelURL m) (me_RepairURL m) (me_RepairDigest m) (me_RuntimeURL m) (me_PackURLs m) s
     (me_PlatformTag m) (me_Status m) (me_CreatedAt m)));
  ("PlatformTag", string_field me_PlatformTag (λ s m, mkManifestEntry (me_Name m) (me_Version m)
     (me_Wheel m) (me_WheelURL m) (me_RepairURL m) (me_RepairDigest m) (me_RuntimeURL m) (me_PackURLs m)
     (me_PythonTag m) s (me_Status m) (me_CreatedAt m)));
  ("Status", string_field me_Status (λ s m, mkManifestEntry (me_Name m) (me_Version m)
     (me_Wheel m) (me_WheelURL m) (me_RepairURL m) (me_RepairDigest m) (me_RuntimeURL m) (me_PackURLs m)
     (me_PythonTag m) (me_PlatformTag m) s (me_CreatedAt m)));
  ("CreatedAt", λ v m, n ← decode_int v (me_CreatedAt m); Some (mkManifestEntry (me_Name m) (me_Version m)
     (me_Wheel m) (me_WheelURL m) (me_RepairURL m) (me_RepairDigest m) (me_RuntimeURL m) (me_PackURLs m)
     (me_PythonTag m) (me_PlatformTag m) (me_Status m) n)) ].
Definition decode_entries (v : json) : option (list ManifestEntry) :=
  match v with
  | JsNull => Some []
  | JsArr l => mapM (λ v, decode_struct manifest_fields v zero_entry) l
  | _ => None
  end.

Definition entry_ok (m : ManifestEntry) : bool :=
  forallb no_nul ([me_Name m; me_Version m; me_Wheel m; me_WheelURL m; me_RepairURL m; me_RepairDigest m;
                   me_RuntimeURL m; me_PythonTag m; me_PlatformTag m; me_Status m] ++ default [] (me_PackURLs m)).
Definition dated (now : Z) (m : ManifestEntry) : ManifestEntry :=
  if decide (me_CreatedAt m = 0)
  then mkManifestEntry (me_Name m) (me_Version m) (me_Wheel m) (me_WheelURL m) (me_RepairURL m)
         (me_RepairDigest m) (me_RuntimeURL m) (me_PackURLs m) (me_PythonTag m) (me_PlatformTag m)
         (me_Status m) now
  else m.
(** One INSERT after the other, without a transaction. *)
Fixpoint SaveManifest (now : Z) (entries : list ManifestEntry) (t : list ManifestEntry)
    : option string * list ManifestEntry :=
  match entries with
  | [] => (None, t)
  | m :: entries =>
    let m := dated now m in
    if negb (entry_ok m) then (Some nul_error, t)
    else if negb (timestamp_in_range (me_CreatedAt m)) then (Some "pq: timestamp out of range", t)
    else SaveManifest now entries (t ++ [m])
  end.

Record Artifact := mkArtifact { ar_Name : string; ar_Version : string; ar_Path : string; ar_URL : string }.
Definition artifact_of (m : ManifestEntry) : Artifact :=
  mkArtifact (me_Name m) (me_Version m) (me_Wheel m) (me_WheelURL m).

Section manifest.
Context `{SqlOrder}.
Definition Manifest (limit : Z) (t : list ManifestEntry) : list ManifestEntry :=
  page (if decide (limit <= 0) then 200 else limit) 0 (order_desc me_CreatedAt t).
Definition Artifacts (limit : Z) (t : list ManifestEntry) : list Artifact := artifact_of <$> Manifest limit t.

Definition manifest_get (limit : string) (t : list ManifestEntry) : answer (list ManifestEntry) :=
  Answer (Manifest (parseIntDefault ParseInt limit 200 1000) t).
(** POST takes no token. *)
Definition manifest_post (now : Z) (body : option json) (t : list ManifestEntry)
    : Z * list ManifestEntry :=
  match body ≫= decode_entries with
  | None | Some [] => (400, t)
  | Some entries =>
    match SaveManifest now entries t with (Some _, t') => (500, t') | (None, t') => (200, t') end
  end.
Definition artifacts (meth limit : string) (t : list ManifestEntry) : answer (list Artifact) :=
  get meth (Answer (Artifacts (parseIntDefault ParseInt limit 200 1000) t)).
End manifest.

(** ** Logs *)
Definition log_fields : list (string * (json → LogEntry → option LogEntry)) := [
  ("name", λ v l, s ← decode_string v (le_Name l);
     Some (mkLogEntry s (le_Version l) (le_Content l) (le_Timestamp l)));
  ("version", λ v l, s ← decode_string v (le_Version l);
     Some (mkLogEntry (le_Name l) s (le_Content l) (le_Timestamp l)));
  ("content", λ v l, s ← decode_string v (le_Content l);
     Some (mkLogEntry (le_Name l) (le_Version l) s (le_Timestamp l)));
  ("timestamp", λ v l, n ← decode_int v (le_Timestamp l);
     Some (mkLogEntry (le_Name l) (le_Version l) (le_Content l) n)) ].
Definition decode_log (v : json) : option LogEntry := decode_struct log_fields v (mkLogEntry "" "" "" 0).

Definition PutLog (e : LogEntry) (t : list LogEntry) : option string * list LogEntry :=
  if negb (forallb no_nul [le_Name e; le_Version e; le_Content e]) then (Some nul_error, t)
  else if negb (timestamp_in_range (le_Timestamp e)) then (Some "pq: timestamp out of range", t)
  else (None, t ++ [e]).

(** [LIKE], on single bytes: [%] stands for any text, [_] for one character, and a
    backslash takes the next one literally.  [ILIKE] folds the case of both. *)
Definition percent : ascii := ascii_of_N 37.
Definition underscore : ascii := ascii_of_N 95.
Definition escape_char : ascii := ascii_of_N 92.
Definition like_char (c : ascii) (rest : string → bool) (s : string) : bool :=
  match s with EmptyString => false | String d s => bool_decide (c = d) && rest s end.
Fixpoint like_any (rest : string → bool) (s : string) : bool :=
  rest s || match s with EmptyString => false | String _ s => like_any rest s end.
Fixpoint like (p : string) : string → bool :=
  match p with
  | EmptyString => λ s, bool_decide (s = "")
  | String c p =>
    if decide (c = percent) then like_any (like p)
    else if decide (c = underscore) then
      λ s, match s with EmptyString => false | String _ s => like p s end
    else if decide (c = escape_char) then
      match p with EmptyString => λ _, false | String c p => like_char c (like p) end
    else like_char c (like p)
  end.
Definition ilike (s p : string) : bool := like (ToLower p) (ToLower s).

Section logs.
Context `{SqlOrder}.
Definition GetLog (name version : string) (t : list LogEntry) : result (option LogEntry) :=
  with_params [name; version]
    (newest le_Timestamp (filter (λ l, le_Name l = name ∧ le_Version l = version) t)).
Definition SearchLogs (q : string) (limit : Z) (t : list LogEntry) : result (list LogEntry) :=
  let limit := if decide (limit <= 0) then 50 else limit in
  let limit := if decide (200 < limit) then 200 else limit in
  with_params [q]
    (page limit 0 (order_desc le_Timestamp
       (filter (λ l, ilike (le_Content l) ("%" +:+ q +:+ "%") = true) t))).

(** POST takes no token; the length is that of the request's body. *)
Definition logsIngest (now : Z) (meth : string) (content_length : Z) (body : option json)
    (t : list LogEntry) : Z * list LogEntry :=
  if decide (meth ≠ "POST") then (405, t)
  else if decide (1000000 < content_length) then (413, t)
  else
    match body ≫= decode_log with
    | None => (400, t)
    | Some le =>
      if decide (le_Name le = "" ∨ le_Version le = "") then (400, t)
      else match PutLog (mkLogEntry (le_Name le) (le_Version le) (le_Content le) now) t with
           | (Some _, t') => (500, t') | (None, t') => (200, t')
           end
    end.
(** The content alone, as text, or the whole entry. *)
Definition logsByNameVersion (meth path raw acceptHeader : string) (t : list LogEntry)
    : answer (string + LogEntry) :=
  get meth
    (match path_part 2 path, path_part 3 path with
     | Some name, Some version =>
       match GetLog name version t with
       | Err _ => Failed 500
       | Ok None => Failed 404
       | Ok (Some l) =>
         Answer (if bool_decide (raw = "1") || EqualFold raw "true" || Contains acceptHeader "text/plain"
                 then inl (le_Content l) else inr l)
       end
     | _, _ => Failed 400
     end).
Definition logsSearch (meth q limit : string) (t : list LogEntry) : answer (list LogEntry) :=
  get meth (or_500 (SearchLogs q (parseIntDefault ParseInt limit 50 200) t)).
End logs.
