(* ===== verification/Reports.v ===== *)
(** What the worker reports of a build, field by field: the history event, the
    manifest entry and the log entry that the loop over the results builds
    ([Drain], [go-worker/internal/service/worker.go]), and the tables of the
    control plane they arrive in.

    [json.Marshal] sorts the keys of a map; they are listed here in the order the
    code sets them. *)
From S2P Require Import Prelude.
From S2P Require Import GoStr.
From S2P Require Import Http.
From S2P Require Import Config.
From S2P Require Import HintFeed.
From S2P Require Import BuildStore.
From S2P Require Import AutoFix.
From S2P Require Import Match.
From S2P Require Import Finish.
From S2P Require Import Sql.
From S2P Require Import Values.
From S2P Require Import History.
From S2P Require Import Manifest.
From Stdlib Require Import Ascii.
Local Open Scope string_scope.
Local Open Scope list_scope.
Local Open Scope Z_scope.

(** ** The payloads *)
Abbreviation fields := (list (string * json)).
(** A field set only when a string, or a slice, is not empty. *)
Definition if_set (k v : string) : fields := if decide (v = "") then [] else [(k, JsStr v)].
Definition if_any (k : string) (l : list string) : fields :=
  if decide (l = []) then [] else [(k, js_strings l)].
Definition or_nil (l : list string) : json := js_slice (if decide (l = []) then None else Some l).

Section payloads.
Context (cfg : Config).

Definition milliseconds (d : Z) : Z := Z.quot d 1000000.
(** The artifacts of the job, the same in the event and in the log. *)
Definition artifact_fields (o : Outcome) : fields :=
  let job := oc_job o in
  (if decide (jb_WheelDigest job = "") then []
   else ("wheel_digest", JsStr (jb_WheelDigest job)) ::
        if_set "wheel_source_digest" (jb_WheelSourceDigest job) ++ if_set "wheel_url" (oc_wheel_url o)) ++
  if_set "wheel_action" (jb_WheelAction job) ++
  (if decide (jb_RuntimeDigest job = "") then []
   else ("runtime_digest", JsStr (jb_RuntimeDigest job)) :: if_set "runtime_url" (oc_runtime_url o)) ++
  (if decide (jb_PackDigests job = []) then []
   else ("pack_digests", js_strings (jb_PackDigests job)) :: if_any "pack_urls" (oc_pack_urls o)) ++
  (if decide (oc_repair o = "") then []
   else ("repair_digest", JsStr (oc_repair o)) ::
        if_set "repair_tool_version" (cf_RepairToolVersion cfg) ++
        if_set "repair_policy_hash" (cf_RepairPolicyHash cfg) ++ if_set "repair_url" (oc_repair_url o)).

Definition automation_field (o : Outcome) : fields :=
  let f := oc_fix o in
  if af_Applied f || bool_decide (af_HintIDs f ≠ [] ∨ af_SavedHintIDs f ≠ []) then
    [("automation", JsObj [
       ("applied", JsBool (af_Applied f)); ("recipes", or_nil (oc_recipes o));
       ("hint_ids", or_nil (af_HintIDs f)); ("saved_hint_ids", or_nil (af_SavedHintIDs f));
       ("reason", JsStr (af_Reason f)); ("blocked", JsStr (af_BlockedReason f));
       ("blocked_hints", or_nil (af_BlockedHints f)); ("impact", JsStr (af_Impact f));
       ("impact_reason", JsStr (af_ImpactReason f))])]
  else [].
Definition meta (o : Outcome) : fields :=
  [("duration_ms", js_int (milliseconds (oc_duration o))); ("attempt", js_int (oc_attempt o))] ++
  match oc_err o with
  | None => []
  | Some e => [("error", JsStr e); ("failure_summary", JsStr (oc_summary o))]
  end ++
  if_any "recipes" (oc_recipes o) ++ automation_field o ++ artifact_fields o.

Definition event_payload (now : Z) (o : Outcome) : json :=
  let job := oc_job o in
  JsObj [("name", JsStr (jb_Name job)); ("version", JsStr (jb_Version job));
         ("python_tag", JsStr (jb_PythonTag job)); ("platform_tag", JsStr (jb_PlatformTag job));
         ("status", JsStr (oc_status o)); ("detail", JsStr (oc_detail o)); ("timestamp", js_int now);
         ("metadata", JsObj (meta o)); ("matched_hint_ids", or_nil (af_HintIDs (oc_fix o)))].
Definition manifest_payload (o : Outcome) : json :=
  let job := oc_job o in
  JsObj [("name", JsStr (jb_Name job)); ("version", JsStr (jb_Version job));
         ("status", JsStr (oc_status o)); ("python_tag", JsStr (jb_PythonTag job));
         ("platform_tag", JsStr (jb_PlatformTag job)); ("wheel", JsStr (oc_wheel_url o));
         ("repair_url", JsStr (oc_repair_url o)); ("repair_digest", JsStr (oc_repair o));
         ("metadata", JsObj (meta o))].
Definition log_payload (o : Outcome) : json :=
  let job := oc_job o in
  JsObj ([("name", JsStr (jb_Name job)); ("version", JsStr (jb_Version job));
          ("status", JsStr (oc_status o)); ("duration_ms", js_int (milliseconds (oc_duration o)));
          ("content", JsStr (oc_log o))] ++
         match oc_err o with
         | None => [] | Some e => ("error", JsStr e) :: if_set "failure_summary" (oc_summary o)
         end ++
         (if af_Applied (oc_fix o)
          then [("auto_fix", JsObj [("recipes", or_nil (oc_recipes o)); ("hints", or_nil (af_HintIDs (oc_fix o)));
                                    ("reason", JsStr (af_Reason (oc_fix o)))])]
          else []) ++
         artifact_fields o).
End payloads.

(** ** The tables they are posted to

    [json_write] and [json_read] are [json.Marshal] and the decoder's reading of
    the first value of a body. *)
Class JsonText := {
  json_write : json → string; json_read : string → option json;
  json_read_write v : json_read (json_write v) = Some v }.
Record Reports := mkReports {
  rp_events : list EventRow; rp_manifests : list ManifestEntry; rp_logs : list LogEntry }.

Section server.
Context `{JsonText, Floats}.
Context (cfg : Config) (clock : Z).  (* the control plane's seconds *)

Definition reports_handle (path body : string) (r : Reports) : Z * Reports :=
  if decide (path = "/api/history") then
    let '(s, t) := history_post clock (json_read body) (rp_events r) in
    (s, mkReports t (rp_manifests r) (rp_logs r))
  else if decide (path = "/api/manifest") then
    let '(s, t) := manifest_post clock (json_read body) (rp_manifests r) in
    (s, mkReports (rp_events r) t (rp_logs r))
  else if decide (path = "/api/logs") then
    let '(s, t) := logsIngest clock "POST" (Z.of_nat (String.length body)) (json_read body) (rp_logs r) in
    (s, mkReports (rp_events r) (rp_manifests r) t)
  else (404, r).
(** The control plane behind the worker's HTTP client, at its URL. *)
Definition reports_client : HttpClient Reports := {|
  url_ok _ := true;
  do_req rq r :=
    let path := TrimPrefix (rq_URL rq) (TrimRight (cf_ControlPlaneURL cfg) "/"%char) in
    let '(s, r') := reports_handle path (rq_Body rq) r in (Ok (mkResp s "" ""), r') |}.
(** The worker's encoders of the three posts; those of the other requests are left open. *)
Definition reports_encoders (base : Encoders) : Encoders := {|
  status_json := status_json; hint_json := hint_json;
  log_json o := json_write (log_payload cfg o);
  manifest_json os := json_write (JsArr (manifest_payload cfg <$> os));
  event_json now o := json_write (event_payload cfg now o) |}.
End server.
