(* ===== verification/HistoryFacts.v ===== *)
(** Facts of the history: what the queries return, and what a report of the worker
    becomes. *)
From S2P Require Import Prelude.
From S2P Require Import GoStr.
From S2P Require Import Http.
From S2P Require Import Config.
From S2P Require Import HintFeed.
From S2P Require Import BuildStore.
From S2P Require Import AutoFix.
From S2P Require Import Match.
From S2P Require Import Finish.
From S2P Require Import Sql.
From S2P Require Import Values.
From S2P Require Import Logs.
From S2P Require Import History.
From S2P Require Import Manifest.
From S2P Require Import Reports.
From Stdlib Require Import QArith Ascii.
Local Open Scope string_scope.
Local Open Scope list_scope.
Local Open Scope Z_scope.

(** ** A first page: the rows of it, in order, and nothing better left out *)
Definition top_of {A} (key : A → Z) (n : nat) (l shown : list A) : Prop :=
  ∃ rest, shown ++ rest ≡ₚ l ∧ length shown = Nat.min n (length l) ∧
    StronglySorted (λ a b, key b <= key a) shown ∧
    ∀ x y, x ∈ shown → y ∈ rest → key y <= key x.

Lemma StronglySorted_app_cross {A} (R : relation A) l1 l2 x y :
  StronglySorted R (l1 ++ l2) → x ∈ l1 → y ∈ l2 → R x y.
Proof.
  induction l1 as [|a l1 IH]; intros Hs Hx Hy; [by apply elem_of_nil in Hx|].
  apply StronglySorted_inv in Hs as [Hs Hall]. apply elem_of_cons in Hx as [->|Hx]; [|by apply IH].
  rewrite Forall_forall in Hall. apply Hall, elem_of_app. by right.
Qed.
Lemma StronglySorted_take {A} (R : relation A) n l : StronglySorted R l → StronglySorted R (take n l).
Proof.
  intros Hs. revert n. induction Hs as [|x l Hs IH Hall]; intros [|n]; simpl; constructor; auto.
  by apply Forall_take.
Qed.

Section order.
Context `{SqlOrder}.
Lemma page_top {A} (key : A → Z) limit l : top_of key (Z.to_nat limit) l (page limit 0 (order_desc key l)).
Proof using Type.
  unfold page. rewrite drop_0. exists (drop (Z.to_nat limit) (order_desc key l)).
  pose proof (order_desc_sorted key l) as Hs. pose proof (order_desc_perm key l) as Hp.
  split; [by rewrite take_drop|]. split; [by rewrite length_take, Hp|].
  split; [by apply StronglySorted_take|]. intros x y.
  apply (StronglySorted_app_cross (λ a b, key b <= key a)). by rewrite take_drop.
Qed.
End order.

(** ** Counting *)
Lemma count_of_pos k l : k ∈ l ↔ 0 < count_of k l.
Proof.
  unfold count_of. split.
  - intros Hin. assert (Hk : k ∈ filter (λ x, x = k) l) by by apply list_elem_of_filter.
    destruct (filter _ l); [by apply elem_of_nil in Hk|simpl; lia].
  - intros Hpos. destruct (filter (λ x, x = k) l) as [|x xs] eqn:Hf; simpl in Hpos; [lia|].
    assert (Hx : x ∈ filter (λ x, x = k) l) by (rewrite Hf; by left).
    by apply list_elem_of_filter in Hx as [-> ?].
Qed.
Lemma group_count_lookup k l :
  (fill_map (group_count l) : gmap string Z) !! k = if decide (k ∈ l) then Some (count_of k l) else None.
Proof.
  assert (Hnd : NoDup (group_count l).*1).
  { unfold group_count. rewrite <-list_fmap_compose. simpl. rewrite list_fmap_id. apply NoDup_elements. }
  rewrite fill_map_list_to_map.
  assert (Hnd' : NoDup (reverse (group_count l)).*1) by (by rewrite fmap_reverse, reverse_Permutation).
  case_decide as Hk.
  - apply elem_of_list_to_map_1; [done|]. apply elem_of_reverse, list_elem_of_fmap. exists k.
    split; [done|]. by apply elem_of_elements, elem_of_list_to_set.
  - apply not_elem_of_list_to_map_1. rewrite fmap_reverse, elem_of_reverse. unfold group_count.
    rewrite <-list_fmap_compose. simpl. rewrite list_fmap_id, elem_of_elements, elem_of_list_to_set. done.
Qed.

Definition zsum (l : list Z) : Z := foldr Z.add 0 l.
Lemma zsum_cons x l : zsum (x :: l) = x + zsum l.
Proof. done. Qed.
Lemma zsum_perm l1 l2 : l1 ≡ₚ l2 → zsum l1 = zsum l2.
Proof. induction 1; simpl in *; lia. Qed.
Lemma count_sum l ks : NoDup ks → (∀ x, x ∈ l → x ∈ ks) →
  zsum ((λ k, count_of k l) <$> ks) = Z.of_nat (length l).
Proof.
  intros Hnd. induction l as [|x l IH]; intros Hin.
  { clear. induction ks as [|k ks IHk]; [done|]. exact IHk. }
  cbn [length]. rewrite Nat2Z.inj_succ, <-IH by (intros y Hy; apply Hin; by right).
  assert (Hx : x ∈ ks) by (apply Hin; by left). clear -Hnd Hx.
  assert (Hstep : ∀ k, count_of k (x :: l) = count_of k l + (if decide (x = k) then 1 else 0)).
  { intros k. unfold count_of. rewrite filter_cons. case_decide; cbn [length]; lia. }
  assert (Hno : ∀ ks, x ∉ ks → zsum ((λ k, count_of k (x :: l)) <$> ks) = zsum ((λ k, count_of k l) <$> ks)).
  { clear -Hstep. intros ks. induction ks as [|k ks IH]; [done|]. rewrite not_elem_of_cons. intros [Hne Hk].
    rewrite !fmap_cons, !zsum_cons, Hstep, decide_False, IH by done. lia. }
  induction ks as [|k ks IH]; [by apply elem_of_nil in Hx|]. apply NoDup_cons in Hnd as [Hk Hnd].
  rewrite !fmap_cons, !zsum_cons, Hstep. apply elem_of_cons in Hx as [->|Hx].
  - rewrite decide_True, (Hno ks Hk) by done. lia.
  - rewrite decide_False by (intros ->; done). rewrite IH by done. lia.
Qed.
Lemma group_count_NoDup l : NoDup (group_count l).*1.
Proof. unfold group_count. rewrite <-list_fmap_compose. simpl. rewrite list_fmap_id. apply NoDup_elements. Qed.
Lemma group_count_sum l :
  zsum (map_to_list (fill_map (group_count l) : gmap string Z)).*2 = Z.of_nat (length l).
Proof.
  assert (Hnd : NoDup (reverse (group_count l)).*1)
    by (rewrite fmap_reverse, reverse_Permutation; apply group_count_NoDup).
  rewrite (zsum_perm _ ((group_count l).*2)).
  - unfold group_count. rewrite <-list_fmap_compose. apply count_sum; [apply NoDup_elements|].
    intros x. by rewrite elem_of_elements, elem_of_list_to_set.
  - rewrite fill_map_list_to_map, map_to_list_to_map by done. by rewrite reverse_Permutation.
Qed.

(** Values without a zero byte stay so. *)
Lemma no_nul_pairs (l : fields) : forallb (λ kv, no_nul (kv.1) && json_no_nul (kv.2)) l = true ↔
  ∀ k v, (k, v) ∈ l → no_nul k = true ∧ json_no_nul v = true.
Proof.
  rewrite forallb_forall. split.
  - intros Hl k v Hin. apply list_elem_of_In, Hl in Hin. by apply andb_true_iff in Hin.
  - intros Hl [k v] Hin. apply andb_true_iff, Hl. by apply list_elem_of_In.
Qed.
Lemma decode_any_no_nul `{Floats} : ∀ v w, decode_any v = Some w → json_no_nul v = true → json_no_nul w = true.
Proof.
  fix IH 1. intros v w Hw Hv. destruct v as [|b|lit|s|l|l]; cbn [decode_any] in Hw.
  - by simplify_eq.
  - by simplify_eq.
  - apply fmap_Some in Hw as (t & _ & ->). done.
  - by simplify_eq.
  - apply fmap_Some in Hw as (ys & Hys & ->). cbn [json_no_nul] in *.
    revert ys Hys Hv. induction l as [|x l IHl]; intros ys Hys Hv; [by simplify_eq|].
    apply bind_Some in Hys as (y & Hy & (ys' & Hys & [= <-])%bind_Some).
    cbn [forallb] in *. apply andb_true_iff in Hv as [Hx Hl]. rewrite (IH x y Hy Hx). by apply IHl.
  - apply fmap_Some in Hw as (ps & Hps & ->). cbn [json_no_nul] in *.
    assert (Hok : ∀ k u, (k, u) ∈ ps → no_nul k = true ∧ json_no_nul u = true).
    { revert ps Hps Hv. induction l as [|[k x] l IHl]; intros ps Hps Hv; [simplify_eq; set_solver|].
      apply bind_Some in Hps as (y & Hy & (ys' & Hys & [= <-])%bind_Some).
      cbn [forallb fst snd] in Hv. apply andb_true_iff in Hv as [[Hk Hx]%andb_true_iff Hl].
      intros k' u [[= -> ->]|Hin]%elem_of_cons; [split; [done|by eapply IH]|by eapply IHl]. }
    apply no_nul_pairs. intros k u Hin%elem_of_map_to_list. apply Hok.
    rewrite fill_map_list_to_map in Hin. apply elem_of_list_to_map_2 in Hin. by rewrite elem_of_reverse in Hin.
Qed.
Lemma decode_map_no_nul `{Floats} l ps : map_pairs decode_any l = Some ps →
  json_no_nul (JsObj l) = true → metadata_ok (Some (fill_map ps)) = true.
Proof.
  intros Hps Hl. pose proof (decode_any_no_nul (JsObj l) (JsObj (map_to_list (fill_map ps)))) as Hn.
  cbn [decode_any json_no_nul] in Hn. rewrite Hps in Hn. by apply Hn.
Qed.

(** ** What a report becomes *)
Section reports.
Context `{Floats}.
Context (cfg : Config).

(** The values of [meta] that are not objects come through unchanged. *)
Definition plain (kv : string * json) : Prop := decode_any (kv.2) = Some (kv.2).
Lemma plain_if_set k v : Forall plain (if_set k v).
Proof using Type. unfold if_set. case_decide; repeat constructor. Qed.
Lemma plain_if_any k l : Forall plain (if_any k l).
Proof using Type. unfold if_any. case_decide; repeat constructor. apply decode_any_strings. Qed.
Lemma plain_str k v : plain (k, JsStr v).
Proof using Type. done. Qed.
Lemma plain_strings k l : plain (k, js_strings l).
Proof using Type. apply decode_any_strings. Qed.
Hint Resolve plain_if_set plain_if_any plain_str plain_strings : plain.

Lemma plain_artifact_fields o : Forall plain (artifact_fields cfg o).
Proof using Type.
  unfold artifact_fields. repeat (apply Forall_app_2 || case_decide || apply Forall_cons_2); auto with plain.
Qed.

Definition event_numbers_ok (now : Z) (o : Outcome) : Prop :=
  - 2 ^ 63 <= now < 2 ^ 63 ∧ - 2 ^ 53 <= milliseconds (oc_duration o) <= 2 ^ 53 ∧
  - 2 ^ 53 <= oc_attempt o <= 2 ^ 53.

(** All but the automation field. *)
Definition plain_meta (o : Outcome) : fields :=
  [("duration_ms", js_int (milliseconds (oc_duration o))); ("attempt", js_int (oc_attempt o))] ++
  match oc_err o with
  | None => []
  | Some e => [("error", JsStr e); ("failure_summary", JsStr (oc_summary o))]
  end ++
  if_any "recipes" (oc_recipes o).
Lemma plain_plain_meta now o : event_numbers_ok now o → Forall plain (plain_meta o).
Proof using Type.
  intros (_ & Hd & Ha). unfold plain_meta. apply Forall_app_2.
  { repeat constructor; by apply decode_any_int. }
  apply Forall_app_2; [|auto with plain]. destruct (oc_err o); repeat constructor.
Qed.
Lemma meta_split o : meta cfg o = plain_meta o ++ automation_field o ++ artifact_fields cfg o.
Proof using Type. unfold meta, plain_meta. by rewrite <-!app_assoc. Qed.

Lemma map_pairs_app {A B} (f : A → option B) l1 l2 :
  map_pairs f (l1 ++ l2) = ps ← map_pairs f l1; qs ← map_pairs f l2; Some (ps ++ qs).
Proof using Type.
  induction l1 as [|[k v] l1 IH]; cbn; [by destruct (map_pairs f l2)|]. destruct (f v); [|done]. cbn.
  rewrite IH. destruct (map_pairs f l1); [|done]. cbn. by destruct (map_pairs f l2).
Qed.
Lemma map_pairs_plain l : Forall plain l → map_pairs decode_any l = Some l.
Proof using Type.
  induction 1 as [|[k v] l Hv _ IH]; [done|]. cbn. unfold plain in Hv. simpl in Hv.
  rewrite Hv. cbn. change (map_pairs decode_any l) with (map_pairs decode_any l) in IH. by rewrite IH.
Qed.
Lemma automation_decodes o : ∃ ps, map_pairs decode_any (automation_field o) = Some ps ∧
  (automation_field o).*1 = ps.*1.
Proof using Type.
  unfold automation_field, or_nil. destruct (_ || _); [|by exists []].
  refine (ex_intro _ [("automation", _)] (conj _ _)); [cbn; rewrite !decode_any_slice; reflexivity|done].
Qed.

(** The keys are distinct. *)
Definition meta_keys : list string := [
  "duration_ms"; "attempt"; "error"; "failure_summary"; "recipes"; "automation"; "wheel_digest";
  "wheel_source_digest"; "wheel_url"; "wheel_action"; "runtime_digest"; "runtime_url"; "pack_digests";
  "pack_urls"; "repair_digest"; "repair_tool_version"; "repair_policy_hash"; "repair_url"].
Lemma keys_if_set k v : (if_set k v).*1 `sublist_of` [k].
Proof using Type. unfold if_set. case_decide; simpl; repeat constructor. Qed.
Lemma keys_if_any k v : (if_any k v).*1 `sublist_of` [k].
Proof using Type. unfold if_any. case_decide; simpl; repeat constructor. Qed.
Lemma keys_block P `{Decision P} k v (l : fields) ks :
  l.*1 `sublist_of` ks → ((if decide P then [] else (k, v) :: l) : fields).*1 `sublist_of` k :: ks.
Proof using Type. intros Hl. case_decide; simpl; [apply sublist_nil_l|by apply sublist_skip]. Qed.
Lemma keys_app (l1 l2 : fields) ks1 ks2 :
  l1.*1 `sublist_of` ks1 → l2.*1 `sublist_of` ks2 → (l1 ++ l2).*1 `sublist_of` ks1 ++ ks2.
Proof using Type. rewrite fmap_app. apply sublist_app. Qed.
Lemma artifact_keys o : (artifact_fields cfg o).*1 `sublist_of` drop 6 meta_keys.
Proof using Type.
  change (drop 6 meta_keys) with (["wheel_digest"; "wheel_source_digest"; "wheel_url"] ++ ["wheel_action"] ++
    ["runtime_digest"; "runtime_url"] ++ ["pack_digests"; "pack_urls"] ++
    ["repair_digest"; "repair_tool_version"; "repair_policy_hash"; "repair_url"]).
  unfold artifact_fields.
  apply keys_app; [apply keys_block, (keys_app _ _ [_] [_]); apply keys_if_set|].
  apply keys_app; [apply keys_if_set|].
  apply keys_app; [apply keys_block, keys_if_set|].
  apply keys_app; [apply keys_block, keys_if_any|].
  apply keys_block, (keys_app _ _ [_] [_; _]); [|apply (keys_app _ _ [_] [_])]; apply keys_if_set.
Qed.
Lemma meta_keys_sublist o : (meta cfg o).*1 `sublist_of` meta_keys.
Proof using Type.
  change meta_keys with (["duration_ms"; "attempt"] ++ ["error"; "failure_summary"] ++ ["recipes"] ++
    ["automation"] ++ drop 6 meta_keys).
  unfold meta. apply keys_app; [done|].
  apply keys_app; [destruct (oc_err o); [done|apply sublist_nil_l]|].
  apply keys_app; [apply keys_if_any|]. apply keys_app; [|apply artifact_keys].
  unfold automation_field. destruct (_ || _); [done|apply sublist_nil_l].
Qed.
Lemma meta_NoDup o : NoDup (meta cfg o).*1.
Proof using Type.
  apply (sublist_NoDup _ meta_keys); [|apply meta_keys_sublist]. apply (bool_decide_unpack _). by vm_compute.
Qed.

Lemma fill_map_elem (l : fields) k v : NoDup l.*1 → (k, v) ∈ l → (fill_map l : gmap string json) !! k = Some v.
Proof using Type.
  intros Hnd Hin. rewrite fill_map_list_to_map. apply elem_of_list_to_map_1.
  - by rewrite fmap_reverse, reverse_Permutation.
  - by apply elem_of_reverse.
Qed.

Definition hint_ids_of (o : Outcome) : option (list string) :=
  if decide (af_HintIDs (oc_fix o) = []) then None else Some (af_HintIDs (oc_fix o)).
Definition reported_event (now : Z) (o : Outcome) (m : gmap string json) : Event :=
  mkEvent "" (jb_Name (oc_job o)) (jb_Version (oc_job o)) (jb_PythonTag (oc_job o))
    (jb_PlatformTag (oc_job o)) (oc_status o) (oc_detail o) (Some m) now (hint_ids_of o) 0.
Lemma decode_strings_slice l : decode_strings (js_slice l) None = Some l.
Proof using Type.
  destruct l as [l|]; [|done]. cbn. enough (decode_elems [] (JsStr <$> l) = Some l) as -> by done.
  induction l as [|s l IH]; [done|]. cbn in *. by rewrite IH.
Qed.
Lemma decode_event_payload now o : event_numbers_ok now o → ∃ m,
  decode_event (event_payload cfg now o) = Some (reported_event now o m) ∧
  (∀ k v, (k, v) ∈ plain_meta o ++ artifact_fields cfg o → m !! k = Some v) ∧
  (json_no_nul (JsObj (meta cfg o)) = true → metadata_ok (Some m) = true).
Proof using Type.
  intros Hok. destruct (automation_decodes o) as (ps & Hps & Hkeys).
  set (all := plain_meta o ++ ps ++ artifact_fields cfg o).
  assert (Hall : map_pairs decode_any (meta cfg o) = Some all).
  { rewrite meta_split, !map_pairs_app, Hps.
    rewrite (map_pairs_plain _ (plain_plain_meta now o Hok)), (map_pairs_plain _ (plain_artifact_fields o)).
    done. }
  exists (fill_map all). split; [|split; [|by apply decode_map_no_nul]].
  - unfold event_payload, decode_event, decode_struct.
    do 6 (erewrite decode_pairs_known by reflexivity).
    erewrite decode_pairs_known; [|reflexivity|].
    2:{ cbn. rewrite ParseInt_itoa by apply Hok. reflexivity. }
    erewrite decode_pairs_known; [|reflexivity|].
    2:{ cbn [id prod_map fst snd decode_map e_Metadata]. rewrite Hall. reflexivity. }
    erewrite decode_pairs_known; [|reflexivity|].
    2:{ unfold or_nil. cbn [id prod_map fst snd e_MatchedHintIDs]. rewrite decode_strings_slice. reflexivity. }
    cbn. unfold reported_event, hint_ids_of. repeat f_equal. apply map_union_empty.
  - intros k v Hin. apply fill_map_elem; [|set_solver].
    pose proof (meta_NoDup o) as Hnd. rewrite meta_split, !fmap_app, Hkeys in Hnd.
    unfold all. by rewrite !fmap_app.
Qed.

Definition manifest_row (now : Z) (o : Outcome) : ManifestEntry :=
  mkManifestEntry (jb_Name (oc_job o)) (jb_Version (oc_job o)) (oc_wheel_url o) "" "" "" "" None "" ""
    (oc_status o) now.
Lemma decode_manifest_payload o :
  decode_entries (JsArr [manifest_payload cfg o]) = Some [manifest_row 0 o].
Proof using Type. cbn [decode_entries mapM]. unfold manifest_payload, decode_struct. reflexivity. Qed.

Lemma decode_pairs_ignored {S} (fs : list (string * (json → S → option S))) l st :
  forallb (λ kv, if field_of fs (kv.1) is None then true else false) l = true → decode_pairs fs l st = Some st.
Proof using Type.
  induction l as [|[k v] l IH]; [done|]. cbn [forallb fst]. intros [Hk Hl]%andb_true_iff.
  rewrite decode_pairs_unknown; [by apply IH|]. by destruct (field_of fs k).
Qed.
Lemma ignored_keys {S} (fs : list (string * (json → S → option S))) (l : fields) ks :
  l.*1 `sublist_of` ks → forallb (λ k, if field_of fs k is None then true else false) ks = true →
  forallb (λ kv, if field_of fs (kv.1) is None then true else false) l = true.
Proof using Type.
  intros Hsub. rewrite !forallb_forall. intros Hks [k v] Hin. apply Hks, list_elem_of_In.
  apply (sublist_subseteq _ _ Hsub), list_elem_of_fmap. exists (k, v). split; [done|by apply list_elem_of_In].
Qed.
Lemma decode_log_payload o : decode_log (log_payload cfg o) =
  Some (mkLogEntry (jb_Name (oc_job o)) (jb_Version (oc_job o)) (oc_log o) 0).
Proof using Type.
  unfold decode_log, log_payload, decode_struct. cbn [app].
  do 2 (erewrite decode_pairs_known by reflexivity). do 2 (rewrite decode_pairs_unknown by reflexivity).
  erewrite decode_pairs_known by reflexivity. apply decode_pairs_ignored.
  rewrite !forallb_app. rewrite (ignored_keys _ (artifact_fields cfg o) (drop 6 meta_keys)); [|apply artifact_keys|by vm_compute].
  destruct (oc_err o), (af_Applied (oc_fix o)); unfold if_set; try case_decide; reflexivity.
Qed.
End reports.

(** ** The three posts, at the control plane *)
Section server.
Context `{SqlOrder, Floats, JsonText}.
Context (cfg : Config) (clock : Z) (base : Encoders).
Context (Hurl : TrimRight (cf_ControlPlaneURL cfg) "/"%char ≠ "").

Definition post_reports (now : Z) (o : Outcome) (r : Reports) : Reports :=
  @post_outcome Reports (reports_client cfg clock) (reports_encoders cfg base) cfg now o r.
Lemma post_handle path body r :
  @post Reports (reports_client cfg clock) cfg path body r = (reports_handle clock path body r).2.
Proof using Hurl.
  unfold post. rewrite decide_False by done. cbn. rewrite TrimPrefix_app.
  by destruct (reports_handle clock path body r).
Qed.

(** What the control plane stores of a report. *)
Definition postable (now : Z) (o : Outcome) : Prop :=
  event_numbers_ok now o ∧ timestamp_in_range now = true ∧ timestamp_in_range clock = true ∧ now ≠ 0 ∧
  (jb_Name (oc_job o) ≠ "" ∧ jb_Version (oc_job o) ≠ "" ∧ oc_status o ≠ "") ∧
  json_no_nul (event_payload cfg now o) = true ∧ no_nul (oc_wheel_url o) = true ∧ no_nul (oc_log o) = true.

Lemma postable_strings now o : postable now o →
  no_nul (jb_Name (oc_job o)) = true ∧ no_nul (jb_Version (oc_job o)) = true ∧
  no_nul (jb_PythonTag (oc_job o)) = true ∧ no_nul (jb_PlatformTag (oc_job o)) = true ∧
  no_nul (oc_status o) = true ∧ no_nul (oc_detail o) = true ∧
  json_no_nul (JsObj (meta cfg o)) = true ∧ json_no_nul (or_nil (af_HintIDs (oc_fix o))) = true.
Proof using Type.
  intros (_ & _ & _ & _ & _ & Htext & _). unfold event_payload in Htext.
  change (json_no_nul (JsObj ?l)) with (forallb (λ kv, no_nul (kv.1) && json_no_nul (kv.2)) l) in Htext.
  rewrite no_nul_pairs in Htext. repeat split;
    [refine (proj2 (Htext "name" (JsStr _) _))|refine (proj2 (Htext "version" (JsStr _) _))|
     refine (proj2 (Htext "python_tag" (JsStr _) _))|refine (proj2 (Htext "platform_tag" (JsStr _) _))|
     refine (proj2 (Htext "status" (JsStr _) _))|refine (proj2 (Htext "detail" (JsStr _) _))|
     refine (proj2 (Htext "metadata" _ _))|refine (proj2 (Htext "matched_hint_ids" _ _))];
    repeat (left || right).
Qed.
Lemma postable_event now o m : postable now o →
  (json_no_nul (JsObj (meta cfg o)) = true → metadata_ok (Some m) = true) →
  event_ok (reported_event now o m) = true.
Proof using Type.
  intros Hok Hm. destruct (postable_strings now o Hok) as (Hn & Hv & Hpy & Hpl & Hst & Hd & Hme & Hids).
  unfold event_ok, reported_event. cbn [e_RunID e_Name e_Version e_PythonTag e_PlatformTag e_Status e_Detail
    e_Metadata e_MatchedHintIDs forallb]. rewrite Hm, Hn, Hv, Hpy, Hpl, Hst, Hd by done. simpl.
  unfold or_nil in Hids. fold (hint_ids_of o) in Hids. destruct (hint_ids_of o) as [l|]; [|done]. simpl.
  cbn in Hids. clear -Hids. induction l as [|x l IH]; [done|]. cbn in *.
  apply andb_true_iff in Hids as [-> Hl]. by apply IH.
Qed.

Lemma postable_texts now o : postable now o →
  no_nul (jb_Name (oc_job o)) = true ∧ no_nul (jb_Version (oc_job o)) = true ∧ no_nul (oc_status o) = true.
Proof using Type.
  intros Hok. by apply postable_strings in Hok as (? & ? & _ & _ & ? & _).
Qed.
Definition stored_log (o : Outcome) : list LogEntry :=
  if decide (1000000 < Z.of_nat (String.length (json_write (log_payload cfg o)))) then []
  else [mkLogEntry (jb_Name (oc_job o)) (jb_Version (oc_job o)) (oc_log o) clock].
Lemma logs_handle now o r : postable now o →
  (reports_handle clock "/api/logs" (json_write (log_payload cfg o)) r).2 =
    mkReports (rp_events r) (rp_manifests r) (rp_logs r ++ stored_log o).
Proof using Type.
  intros Hok. destruct (postable_texts now o Hok) as (Hn1 & Hn2 & _).
  destruct Hok as (_ & _ & Hclock & _ & Hset & _ & _ & Hlog).
  unfold reports_handle, logsIngest. rewrite !decide_False by done. rewrite decide_True by done.
  rewrite decide_False by (intros Hne; by apply Hne).
  unfold stored_log. case_decide; [by rewrite app_nil_r|]. rewrite json_read_write. cbn [mbind option_bind].
  rewrite decode_log_payload. cbn [le_Name le_Version le_Content]. rewrite decide_False by tauto.
  unfold PutLog. cbn [le_Name le_Version le_Content le_Timestamp forallb].
  by rewrite Hn1, Hn2, Hlog, Hclock.
Qed.
Lemma manifest_handle now o r : postable now o →
  (reports_handle clock "/api/manifest" (json_write (JsArr [manifest_payload cfg o])) r).2 =
    mkReports (rp_events r) (rp_manifests r ++ [manifest_row clock o]) (rp_logs r).
Proof using Type.
  intros Hok. destruct (postable_texts now o Hok) as (Hn1 & Hn2 & Hn3).
  destruct Hok as (_ & _ & Hclock & _ & _ & _ & Hw & _).
  unfold reports_handle, manifest_post. rewrite decide_False, decide_True by done.
  rewrite json_read_write. cbn [mbind option_bind]. rewrite decode_manifest_payload.
  unfold SaveManifest, dated. rewrite decide_True by done. cbn [me_Name me_Version me_Wheel me_WheelURL
    me_RepairURL me_RepairDigest me_RuntimeURL me_PackURLs me_PythonTag me_PlatformTag me_Status manifest_row].
  unfold entry_ok. cbn [forallb app me_Name me_Version me_Wheel me_WheelURL me_RepairURL me_RepairDigest
    me_RuntimeURL me_PackURLs me_PythonTag me_PlatformTag me_Status me_CreatedAt default from_option].
  by rewrite Hn1, Hn2, Hw, Hn3, Hclock.
Qed.
Lemma history_handle now o m r : postable now o → event_ok (reported_event now o m) = true →
  decode_event (event_payload cfg now o) = Some (reported_event now o m) →
  (reports_handle clock "/api/history" (json_write (event_payload cfg now o)) r).2 =
    mkReports (rp_events r ++ [event_row (reported_event now o m)]) (rp_manifests r) (rp_logs r).
Proof using Type.
  intros (_ & Hnow & _ & Hn0 & Hset & _) Hev Hm. unfold reports_handle, history_post.
  rewrite decide_True by done. rewrite json_read_write. cbn [mbind option_bind]. rewrite Hm.
  cbn [e_Name e_Version e_Status reported_event]. rewrite decide_False by tauto.
  rewrite decide_False by done. unfold RecordEvent. rewrite Hev. cbn [e_Timestamp reported_event]. by rewrite Hnow.
Qed.

Lemma post_reports_spec now o r : postable now o → ∃ m,
  post_reports now o r = mkReports (rp_events r ++ [event_row (reported_event now o m)])
    (rp_manifests r ++ [manifest_row clock o]) (rp_logs r ++ stored_log o) ∧
  (∀ k v, (k, v) ∈ plain_meta o ++ artifact_fields cfg o → m !! k = Some v).
Proof using Hurl.
  intros Hok. destruct (decode_event_payload cfg now o (proj1 Hok)) as (m & Hm & Hmeta & Hmok).
  exists m. split; [|done]. pose proof (postable_event now o m Hok Hmok) as Hev.
  unfold post_reports, post_outcome. rewrite !post_handle.
  unfold reports_encoders. cbn [Finish.log_json manifest_json event_json fmap list_fmap].
  by rewrite (logs_handle now), (manifest_handle now), (history_handle now o m).
Qed.
End server.

(** ** The newest row *)
Lemma newest_last `{SqlOrder} {A} (key : A → Z) l x :
  (∀ y, y ∈ l → key y < key x) → newest key (l ++ [x]) = Some x.
Proof.
  intros Hlt. destruct (newest key (l ++ [x])) as [y|] eqn:Hn.
  - apply newest_Some in Hn as [Hin Hmax]. assert (Hx : key x <= key y) by (apply Hmax; set_solver).
    apply elem_of_app in Hin as [Hin|Hin]; [specialize (Hlt y Hin); lia|set_solver].
  - apply newest_None in Hn. by destruct l.
Qed.

(** ** Limits of a request *)
Lemma parseIntDefault_range s def max : 0 < def <= max → 0 < parseIntDefault ParseInt s def max <= max.
Proof. intros Hdef. unfold parseIntDefault. repeat case_match; lia. Qed.

(** ** The table only grows, and an integer duration is read as such *)
Lemma posts_keep `{Floats} (posts : list (Z * option json)) t r :
  r ∈ t → r ∈ foldl (λ t p, (history_post p.1 p.2 t).2) t posts.
Proof.
  revert t. induction posts as [|p posts IH]; intros t Hr; [done|]. cbn [foldl]. apply IH.
  unfold history_post. destruct (p.2 ≫= decode_event) as [e|]; [|done]. case_decide; [done|].
  set (e' := if decide (e_Timestamp e = 0) then _ else _). unfold RecordEvent.
  destruct (negb (event_ok e')); [done|]. destruct (negb (timestamp_in_range (e_Timestamp e'))); [done|].
  simpl. set_solver.
Qed.
Lemma durations_uncastable `{SlowSql} t r v :
  r ∈ t → duration_value r = Some v → v ≠ JsNull → bigint_of v = None → durations t = None.
Proof.
  intros Hr Hv Hnull Hcast. apply mapM_None, Exists_exists. exists r.
  split; [apply list_elem_of_filter; eauto|]. rewrite Hv. cbn [mbind option_bind].
  unfold duration_of. rewrite Hcast. by destruct v.
Qed.
Definition int_duration (r : EventRow) : Prop :=
  ∀ v, duration_value r = Some v → ∃ n, v = js_int n ∧ - 2 ^ 63 <= n < 2 ^ 63.
Lemma durations_ints `{SlowSql} t : Forall int_duration t → ∃ ds, durations t = Some ds ∧
  Forall (λ d, is_Some (d.2)) ds ∧ ∀ name, js_int <$> values_of name ds = omap duration_value (rows_of name t).
Proof.
  unfold durations, rows_of. induction 1 as [|r t Hr _ (ds & Hds & Hsome & Hvals)]; [by exists []|].
  destruct (duration_value r) as [v|] eqn:Hv.
  - destruct (Hr v Hv) as (n & -> & Hn). exists ((er_name r, Some n) :: ds).
    rewrite filter_cons_True by eauto. cbn [mapM]. rewrite Hv. cbn [mbind option_bind]. unfold duration_of.
    change (js_int n) with (JsNum (itoa n)). cbn match. fold (js_int n). rewrite bigint_of_int by done.
    cbn [fmap option_fmap option_map mbind option_bind].
    fold durations in Hds. change (mapM _ (filter _ t)) with (durations t). unfold durations at 1. rewrite Hds.
    cbn [mbind option_bind mret option_ret]. split; [done|]. split; [by constructor|].
    intros name. rewrite filter_cons. unfold values_of. cbn [omap list_omap fst snd].
    case_decide; [|by apply Hvals]. cbn [omap list_omap fmap list_fmap]. rewrite Hv. f_equal. apply Hvals.
  - exists ds. rewrite filter_cons_False by (rewrite Hv; by intros [? [=]]). split; [done|].
    split; [done|]. intros name. rewrite Hvals, filter_cons. case_decide; [|done].
    cbn [omap list_omap]. by rewrite Hv.
Qed.
#[export] Instance js_int_inj : Inj (=) (=) js_int.
Proof. intros a b Heq. unfold js_int in Heq. simplify_eq. by apply (inj pretty). Qed.

(** The mean of each group that has a value. *)
Definition means `{SlowSql} (ds : list (string * option Z)) : list (string * Q) :=
  (λ k, (k, avg_float (zsum (values_of k ds)) (Pos.of_nat (length (values_of k ds))))) <$>
    elements (list_to_set ds.*1 : gset string).
Lemma values_of_nonempty ds k : Forall (λ d, is_Some (d.2)) ds → values_of k ds ≠ [] ↔ k ∈ ds.*1.
Proof.
  unfold values_of. induction 1 as [|[j [z|]] ds [? Hz] Hall IH]; simplify_eq/=; [set_solver|].
  rewrite elem_of_cons. case_decide; naive_solver.
Qed.
Lemma group_avg_means `{SlowSql} ds : Forall (λ d, is_Some (d.2)) ds →
  mapM (λ kv, q ← kv.2; Some (kv.1, q)) (group_avg ds) = Some (means ds).
Proof.
  intros Hall. apply mapM_Some. unfold group_avg, means. apply Forall2_fmap_2, Forall_Forall2_diag, Forall_forall.
  intros k Hk. rewrite elem_of_elements, elem_of_list_to_set in Hk.
  apply (values_of_nonempty ds k Hall) in Hk. simpl. unfold average. by destruct (values_of k ds).
Qed.
Lemma means_NoDup `{SlowSql} ds : NoDup (means ds).*1.
Proof. unfold means. rewrite <-list_fmap_compose. simpl. rewrite list_fmap_id. apply NoDup_elements. Qed.
Lemma elem_of_means `{SlowSql} ds k q : Forall (λ d, is_Some (d.2)) ds →
  (k, q) ∈ means ds ↔ values_of k ds ≠ [] ∧ q = avg_float (zsum (values_of k ds)) (Pos.of_nat (length (values_of k ds))).
Proof.
  intros Hall. unfold means. rewrite (values_of_nonempty ds k Hall), list_elem_of_fmap. split.
  - intros (j & [= -> ->] & Hj). by rewrite elem_of_elements, elem_of_list_to_set in Hj.
  - intros [Hk ->]. exists k. by rewrite elem_of_elements, elem_of_list_to_set.
Qed.

(** ** Pages *)
Lemma order_desc_unique (o1 o2 : SqlOrder) {A} (key : A → Z) l :
  NoDup (key <$> l) → @order_desc o1 _ key l = @order_desc o2 _ key l.
Proof.
  intros Hnd. apply (StronglySorted_unique_strong (λ a b, key b <= key a)).
  - intros a b Ha Hb Hba Hab. rewrite order_desc_perm in Ha. rewrite order_desc_perm in Hb.
    apply list_elem_of_lookup in Ha as [i Hi], Hb as [j Hj].
    assert (Heq : key a = key b) by lia.
    assert (i = j) as ->; [|by simplify_eq].
    apply (NoDup_lookup _ _ _ (key a) Hnd); rewrite list_lookup_fmap; [by rewrite Hi|by rewrite Hj, Heq].
  - apply order_desc_sorted.
  - apply order_desc_sorted.
  - by rewrite !order_desc_perm.
Qed.
Lemma fmap_concat {A B} (f : A → B) (ls : list (list A)) : 
  (f <$> (concat ls : list A) : list B) = concat (((λ l : list A, (f <$> l) : list B) <$> ls) : list (list B)).
Proof. induction ls as [|l ls IH]; [done|]. cbn. by rewrite fmap_app, IH. Qed.
Lemma page_concat {A} n (l : list A) k : concat ((λ i, page (Z.of_nat n) (Z.of_nat (i * n)) l) <$> seq 0 k) = take (k * n) l.
Proof.
  induction k as [|k IH]; [done|].
  rewrite seq_S, fmap_app, concat_app, IH. simpl. rewrite app_nil_r. unfold page. rewrite !Nat2Z.id.
  rewrite <-(take_drop (k * n) (take (n + k * n) l)), take_take, Nat.min_l by lia. f_equal.
  rewrite skipn_firstn_comm. f_equal. lia.
Qed.
Lemma parseIntDefault_itoa n def max : 0 < n < 2 ^ 63 → 0 < max →
  parseIntDefault ParseInt (itoa n) def max = Z.min n max.
Proof.
  intros Hn Hmax. unfold parseIntDefault. rewrite decide_False by apply itoa_nonempty.
  rewrite ParseInt_itoa, decide_False by lia. case_decide; lia.
Qed.
Lemma parseIntDefault_itoa_0 n max : 0 <= n <= max → max < 2 ^ 63 →
  parseIntDefault ParseInt (itoa n) 0 max = n.
Proof.
  intros Hn Hmax. destruct (decide (n = 0)) as [->|]; [done|]. rewrite parseIntDefault_itoa by lia. lia.
Qed.

(** ** Patterns without wildcards *)
Definition plain_char (c : ascii) : bool := negb (bool_decide (c ∈ [percent; underscore; escape_char])).
Definition plain_pattern (q : string) : bool := str_forall plain_char q.
Lemma plain_lower q : plain_pattern q = true → plain_pattern (ToLower q) = true.
Proof.
  unfold plain_pattern. rewrite ToLower_map. induction q as [|c q IH]; [done|]. cbn.
  intros [Hc Hq]%andb_true_iff. rewrite IH by done. rewrite andb_true_r. clear -Hc.
  destruct c as [[] [] [] [] [] [] [] []]; vm_compute in *; done.
Qed.
Lemma like_prefix q s : plain_pattern q = true → like (q +:+ "%") s = HasPrefix s q.
Proof.
  revert s. induction q as [|c q IH]; intros s Hq.
  - change (like_any (λ s, bool_decide (s = "")) s = HasPrefix s ""). induction s as [|d s IHs]; [done|].
    cbn [like_any]. rewrite IHs. by destruct s.
  - cbn in Hq. apply andb_true_iff in Hq as [Hc Hq]. unfold plain_char in Hc.
    apply negb_true_iff, bool_decide_eq_false in Hc. rewrite append_cons. cbn [like].
    rewrite !decide_False by set_solver. destruct s as [|d s]; [done|]. cbn [like_char].
    rewrite IH, HasPrefix_cons by done. f_equal. apply bool_decide_ext. done.
Qed.
Lemma like_contains q s : plain_pattern q = true →
  like (ToLower "%" +:+ q +:+ ToLower "%") s = Contains s q.
Proof.
  intros Hq. change (like_any (like (q +:+ "%")) s = Contains s q).
  induction s as [|d s IH]; cbn [like_any].
  - rewrite like_prefix by done. unfold Contains. cbn [Index]. by destruct (HasPrefix "" q).
  - rewrite like_prefix, IH by done. unfold Contains. cbn [Index].
    destruct (HasPrefix (String d s) q); [done|]. by destruct (Index s q).
Qed.
