(* ===== verification/HistoryTheorems.v ===== *)
(** What the pages on the history show, and what becomes of the reports of the
    worker. *)
From S2P Require Import Prelude.
From S2P Require Import GoStr.
From S2P Require Import Http.
From S2P Require Import Config.
From S2P Require Import HintFeed.
From S2P Require Import BuildStore.
From S2P Require Import AutoFix.
From S2P Require Import Match.
From S2P Require Import Finish.
From S2P Require Import Sql.
From S2P Require Import Values.
From S2P Require Import Logs.
From S2P Require Import History.
From S2P Require Import Manifest.
From S2P Require Import Reports.
From S2P Require Import HistoryFacts.
From Stdlib Require Import QArith Ascii.
Local Open Scope string_scope.
Local Open Scope list_scope.
Local Open Scope Z_scope.

(** ** Instances for the witnesses *)
Fixpoint json_tree (v : json) : gen_tree string :=
  match v with
  | JsNull => GenNode 0 []
  | JsBool b => GenNode (if b then 1 else 2) []
  | JsNum lit => GenNode 3 [GenLeaf lit]
  | JsStr s => GenNode 4 [GenLeaf s]
  | JsArr l => GenNode 5 (json_tree <$> l)
  | JsObj l => GenNode 6 ((λ kv, GenNode 7 [GenLeaf (kv.1); json_tree (kv.2)]) <$> l)
  end.
Fixpoint tree_json (t : gen_tree string) : json :=
  match t with
  | GenNode 1 _ => JsBool true
  | GenNode 2 _ => JsBool false
  | GenNode 3 [GenLeaf lit] => JsNum lit
  | GenNode 4 [GenLeaf s] => JsStr s
  | GenNode 5 l => JsArr (tree_json <$> l)
  | GenNode 6 l =>
    JsObj ((λ t, match t with GenNode 7 [GenLeaf k; v] => (k, tree_json v) | _ => ("", JsNull) end) <$> l)
  | _ => JsNull
  end.
Lemma tree_json_tree : ∀ v, tree_json (json_tree v) = v.
Proof.
  fix IH 1. intros [|[]|lit|s|l|l]; try reflexivity.
  - cbn. f_equal. rewrite <-list_fmap_compose. induction l as [|x l IHl]; [done|]. cbn. by rewrite IH, IHl.
  - cbn. f_equal. rewrite <-list_fmap_compose. induction l as [|[k x] l IHl]; [done|]. cbn. by rewrite IH, IHl.
Qed.
Definition tree_write (v : json) : string := pretty (N.pos (encode (json_tree v))).
Definition tree_read (s : string) : option json :=
  match parse_unsigned s with Some (N.pos p) => tree_json <$> decode p | _ => None end.
Lemma tree_read_write v : tree_read (tree_write v) = Some v.
Proof.
  unfold tree_read, tree_write. rewrite parse_unsigned_pretty, decode_encode. simpl. by rewrite tree_json_tree.
Qed.
Definition tree_text : JsonText :=
  {| json_write := tree_write; json_read := tree_read; json_read_write := tree_read_write |}.
Definition exact_floats : Floats := {| float_text := Some; float_text_int _ _ := eq_refl |}.

Definition avg_ge : relation (string * Q) := λ a b, (b.2 <= a.2)%Q.
#[export] Instance avg_ge_dec : RelDecision avg_ge.
Proof. intros a b. unfold avg_ge. destruct (Qlt_le_dec (a.2) (b.2)); [right; by apply Qlt_not_le|by left]. Defined.
#[export] Instance avg_ge_total : Total avg_ge.
Proof. intros a b. unfold avg_ge. destruct (Qlt_le_dec (a.2) (b.2)); [right; by apply Qlt_le_weak|by left]. Qed.
#[export] Instance avg_ge_trans : Transitive avg_ge.
Proof. intros a b c. unfold avg_ge. intros. by eapply Qle_trans. Qed.
Definition int_of_json (v : json) : option Z := match v with JsNum lit => ParseInt lit | _ => None end.
Definition exact_slow : SlowSql := {|
  bigint_of := int_of_json; bigint_of_int n := ParseInt_itoa n;
  avg_float s n := s # n; avg_float_mono _ _ _ _ Hle := Hle;
  by_avg := merge_sort avg_ge; by_avg_perm l := merge_sort_Permutation _ l;
  by_avg_sorted l := StronglySorted_merge_sort avg_ge l |}.

(** ** The history *)
(** C7. What the worker posts of a build is what [/api/event/<name>/<version>]
    then answers: the status, the detail, the tags, the hints and the metadata of
    the outcome, the time in milliseconds among it, unless a later event of the
    same wheel is in the table; and the events that were there stay. *)
Theorem report_reaches_history `{SqlOrder, Floats, JsonText} cfg clock base now o r path :
  TrimRight (cf_ControlPlaneURL cfg) "/"%char ≠ "" → postable cfg clock now o →
  (∀ x, x ∈ rp_events r → er_name x = jb_Name (oc_job o) → er_version x = jb_Version (oc_job o) →
     er_timestamp x < now) →
  splitPath path = ["api"; "event"; jb_Name (oc_job o); jb_Version (oc_job o)] →
  let r' := post_reports cfg clock base now o r in
  ∃ m, eventByVersion "GET" path (rp_events r') = Answer (reported_event now o m) ∧
    m !! "duration_ms" = Some (js_int (milliseconds (oc_duration o))) ∧
    (∀ k v, (k, v) ∈ plain_meta o ++ artifact_fields cfg o → m !! k = Some v) ∧
    rp_events r `prefix_of` rp_events r'.
Proof.
  intros Hurl Hok Hnew Hpath r'. destruct (post_reports_spec cfg clock base Hurl now o r Hok) as (m & Hr & Hm).
  exists m. unfold r'. rewrite Hr. cbn [rp_events]. split; [|split; [|split; [done|by eexists]]].
  - unfold eventByVersion, get, path_part. rewrite decide_True, Hpath by done. cbn [lookup list_lookup].
    unfold LatestEvent, with_params. destruct (postable_texts cfg clock now o Hok) as (Hn & Hv & _).
    cbn [forallb]. rewrite Hn, Hv. cbn [andb result_bind].
    rewrite filter_app, (filter_cons_True _ (event_row _)), filter_nil by done.
    rewrite newest_last; [done|]. intros y [[? ?] Hy]%list_elem_of_filter. by apply Hnew.
  - apply Hm. by left.
Qed.

(** The summary counts each status by its number of events and lists no
    other; the counts add up to the events of the table; and the failures listed
    are the newest failed ones, newest first, up to the limit of the request. *)
Theorem summary_spec `{SqlOrder} failure_limit t : ∃ s,
  summary "GET" failure_limit t = Answer s ∧
  (∀ k, sm_StatusCounts s !! k =
     if decide (k ∈ er_status <$> t) then Some (count_of k (er_status <$> t)) else None) ∧
  zsum (map_to_list (sm_StatusCounts s)).*2 = Z.of_nat (length t) ∧
  ∃ limit shown, (0 < limit <= 200)%nat ∧ sm_Failures s = scan_event false <$> shown ∧
    top_of er_timestamp limit (failed_rows t) shown.
Proof.
  eexists. split; [by unfold summary, get; rewrite decide_True by done|]. split; [|split].
  - intros k. apply group_count_lookup.
  - cbn [sm_StatusCounts Summary]. rewrite group_count_sum, length_fmap. done.
  - destruct (parseIntDefault_range failure_limit 20 200) as [Hpos Hmax]; [lia|].
    unfold Summary. rewrite decide_False by lia.
    exists (Z.to_nat (parseIntDefault ParseInt failure_limit 20 200)). eexists.
    split; [lia|]. split; [done|apply page_top].
Qed.

(** The packages with the most failed builds: each is listed once with its
    number of failed events, most failures first, and no package left out has more
    failures than one listed. *)
Theorem top_failures_spec `{SqlOrder} limit t : ∃ n l,
  (0 < n <= 200)%nat ∧ topFailures "GET" limit t = Answer l ∧ NoDup l.*1 ∧
  (∀ name c, (name, c) ∈ l → c = count_of name (er_name <$> failed_rows t) ∧ 0 < c) ∧
  StronglySorted (λ a b, b.2 <= a.2) l ∧
  (∀ r, r ∈ failed_rows t → er_name r ∉ l.*1 → length l = n ∧
     ∀ name c, (name, c) ∈ l → count_of (er_name r) (er_name <$> failed_rows t) <= c).
Proof.
  destruct (parseIntDefault_range limit 10 200) as [Hpos Hmax]; [lia|].
  set (lim := parseIntDefault ParseInt limit 10 200) in *.
  exists (Z.to_nat lim), (TopFailures lim t).
  assert (Hlim : top_limit lim = lim) by (unfold top_limit; rewrite (decide_False (P := lim <= 0)) by lia; by rewrite decide_False by lia).
  set (names := er_name <$> failed_rows t).
  destruct (page_top snd lim (group_count names)) as (rest & Hperm & Hlen & Hsorted & Hbest).
  assert (Htop : TopFailures lim t = page lim 0 (order_desc snd (group_count names)))
    by (unfold TopFailures; by rewrite Hlim).
  rewrite Htop. set (l := page lim 0 (order_desc snd (group_count names))) in *.
  assert (Hin : ∀ name c, (name, c) ∈ l ++ rest ↔ name ∈ names ∧ c = count_of name names).
  { intros name c. rewrite Hperm. unfold group_count. rewrite list_elem_of_fmap. split.
    - intros (k & [= -> ->] & Hk). by rewrite elem_of_elements, elem_of_list_to_set in Hk.
    - intros [Hk ->]. exists name. by rewrite elem_of_elements, elem_of_list_to_set. }
  split; [lia|]. split; [unfold topFailures, get; rewrite decide_True by done; fold lim; by rewrite Htop|].
  split; [|split; [|split; [done|]]].
  - pose proof (group_count_NoDup names) as Hnd. rewrite <-Hperm, fmap_app in Hnd. by apply NoDup_app in Hnd as (? & _ & _).
  - intros name c Hnc. destruct (proj1 (Hin name c)) as [Hk ->]; [set_solver|]. split; [done|by apply count_of_pos].
  - intros r Hr Hout. assert (Hrest : (er_name r, count_of (er_name r) names) ∈ rest).
    { assert (Hlr : (er_name r, count_of (er_name r) names) ∈ l ++ rest)
        by (apply Hin; split; [by apply list_elem_of_fmap_2|done]).
      apply elem_of_app in Hlr as [Hl|Hl]; [|done]. destruct Hout. apply list_elem_of_fmap. by exists (er_name r, count_of (er_name r) names). }
    split; [|intros name c Hnc; by apply (Hbest (name, c) _ Hnc Hrest)].
    rewrite Hlen. apply Permutation_length in Hperm. rewrite length_app in Hperm.
    destruct rest; [by apply elem_of_nil in Hrest|]. simpl in Hperm. lia.
Qed.

(** The events of an answer. *)
Definition events_of (a : answer (list Event)) : list Event := if a is Answer l then l else [].
(** The query of the page [i] of [n] events. *)
Definition page_query (pkg status run from to : string) (n i : nat) : HistoryQuery :=
  mkHistoryQuery pkg status run from to (itoa (Z.of_nat n)) (itoa (Z.of_nat (i * n))).

(** C21. Reading the history page by page shows each matching event once, newest
    first, whatever order the database gives to equal times for each page, as long
    as the times of the matching events are distinct and the offset stays within
    10000. *)
Theorem history_pages (orders : nat → SqlOrder) pkg status run from to n k t :
  (0 < n <= 500)%nat → Z.of_nat (k * n) <= 10000 →
  forallb no_nul [pkg; status; run] = true →
  let found := filter (λ r, matches (history_filter (page_query pkg status run from to n 0)) r = true) t in
  NoDup (er_timestamp <$> found) →
  ∃ rows, rows ≡ₚ found ∧ StronglySorted (λ a b, er_timestamp b <= er_timestamp a) rows ∧
    concat ((λ i, events_of (@history_get (orders i) (page_query pkg status run from to n i) t)) <$> seq 0 k)
      = scan_event true <$> take (k * n) rows.
Proof.
  intros Hn Hk Hnul found Hnd. exists (@by_time (orders 0%nat) found).
  split; [apply order_desc_perm|]. split; [apply order_desc_sorted|].
  rewrite <-page_concat, fmap_concat, <-list_fmap_compose. f_equal. apply list_fmap_ext.
  intros j i Hi. apply lookup_seq in Hi as [-> Hi]. simpl. unfold history_get, History.
  set (f := history_filter (page_query pkg status run from to n j)).
  assert (Hlim : hf_Limit f = Z.of_nat n).
  { unfold f, history_filter. cbn [hf_Limit hq_limit page_query]. rewrite parseIntDefault_itoa by lia. lia. }
  assert (Hoff : hf_Offset f = Z.of_nat (j * n)).
  { unfold f, history_filter. cbn [hf_Offset hq_offset page_query]. apply parseIntDefault_itoa_0; [|lia].
    assert (j * n <= k * n)%nat by (apply Nat.mul_le_mono_r; lia). lia. }
  rewrite Hlim, Hoff. rewrite (decide_False (P := Z.of_nat n <= 0)) by lia.
  rewrite (decide_False (P := 500 < Z.of_nat n)) by lia. unfold with_params, or_500. replace (forallb no_nul _) with true by (symmetry; exact Hnul).
  cbn [events_of]. f_equal. unfold by_time. rewrite (order_desc_unique (orders j) (orders 0%nat)) by exact Hnd.
  case_decide; [done|]. unfold page. repeat f_equal. lia.
Qed.

(** Rows with equal times: with two orders the database may choose, one of three
    events built in the same second is on neither of the pages that show three. *)
Definition rotated_order : SqlOrder.
Proof.
  refine {| order_by A key l := @order_by merge_order A key (drop 1 l ++ take 1 l) |}.
  - intros A key l. rewrite order_by_perm, (Permutation_app_comm (drop 1 l)). by rewrite take_drop.
  - intros A key l. apply order_by_sorted.
Defined.
Definition tied (name : string) : EventRow := mkEventRow "" name "1.0" "" "" "built" "" None None None 1700000000.
Example history_page_ties :
  let t := [tied "a"; tied "b"; tied "c"] in
  let page o i := e_Name <$> events_of (@history_get o (page_query "" "" "" "" "" 2 i) t) in
  page merge_order 0%nat = ["c"; "a"] ∧ page rotated_order 1%nat = ["c"].
Proof. split; vm_compute; reflexivity. Qed.
(** Past 10000 rows every offset gives the same page. *)
Lemma history_offset_capped `{SqlOrder} q n m t : 10000 <= n < 2 ^ 63 → 10000 <= m < 2 ^ 63 →
  let at_offset z := mkHistoryQuery (hq_package q) (hq_status q) (hq_run_id q) (hq_from q) (hq_to q)
                       (hq_limit q) (itoa z) in
  history_get (at_offset n) t = history_get (at_offset m) t.
Proof.
  intros Hn Hm at_offset. unfold history_get, history_filter, at_offset.
  cbn [hq_package hq_status hq_run_id hq_from hq_to hq_limit hq_offset].
  by rewrite !parseIntDefault_itoa, !Z.min_r by lia.
Qed.

(** ** The slowest builds *)
(** One event whose metadata has a [duration_ms] that is no integer makes
    [/api/top-slowest] fail, and every event posted after it leaves it so;
    posting it takes no token. *)
Theorem slow_list_breaks `{SlowSql, Floats} now body e m v t posts limit :
  decode_event body = Some e → e_Name e ≠ "" → e_Version e ≠ "" → e_Status e ≠ "" →
  event_ok e = true → timestamp_in_range (e_Timestamp e) = true → e_Timestamp e ≠ 0 →
  e_Metadata e = Some m → m !! "duration_ms" = Some v → v ≠ JsNull → bigint_of v = None →
  let t1 := (history_post now (Some body) t).2 in
  (history_post now (Some body) t).1 = 200 ∧
  topSlowest "GET" limit (foldl (λ t p, (history_post p.1 p.2 t).2) t1 posts) = Failed 500.
Proof.
  intros Hdec Hn Hv Hs Hok Hts Ht0 Hm Hdur Hnull Hcast t1.
  assert (Hpost : history_post now (Some body) t = (200, t ++ [event_row e])).
  { unfold history_post. cbn [mbind option_bind]. rewrite Hdec. rewrite decide_False by tauto.
    rewrite decide_False by done. unfold RecordEvent. by rewrite Hok, Hts. }
  unfold t1. rewrite Hpost. split; [done|]. cbn [snd].
  set (t2 := foldl _ _ posts). assert (Hin : event_row e ∈ t2).
  { apply (posts_keep posts (t ++ [event_row e])). set_solver. }
  unfold topSlowest, get. rewrite decide_True by done. unfold TopSlowest.
  rewrite (durations_uncastable t2 (event_row e) v); [done|done| |done|done].
  unfold duration_value, event_row. cbn [er_metadata]. by rewrite Hm.
Qed.

(** When every duration is an integer, as the worker's are, the list holds the
    packages that have one, each once, with the mean of its durations, the slowest
    first; a package that is left out is not slower than one listed. *)
Theorem slow_list_spec `{SlowSql} limit t : Forall int_duration t →
  ∃ n l rest, (0 < n <= 200)%nat ∧ topSlowest "GET" limit t = Answer l ∧ NoDup (l ++ rest).*1 ∧
    length l = Nat.min n (length (l ++ rest)) ∧
    StronglySorted (λ a b, (b.2 <= a.2)%Q) (l ++ rest) ∧
    ∀ name q, (name, q) ∈ l ++ rest ↔ ∃ ns, ns ≠ [] ∧
      js_int <$> ns = omap duration_value (rows_of name t) ∧ q = avg_float (zsum ns) (Pos.of_nat (length ns)).
Proof.
  intros Hints. destruct (durations_ints t Hints) as (ds & Hds & Hsome & Hvals).
  destruct (parseIntDefault_range limit 10 200) as [Hpos Hmax]; [lia|].
  set (lim := parseIntDefault ParseInt limit 10 200) in *.
  set (avgs := by_avg (means ds)).
  exists (Z.to_nat lim), (take (Z.to_nat lim) avgs), (drop (Z.to_nat lim) avgs). rewrite take_drop.
  assert (Hp : avgs ≡ₚ means ds) by apply by_avg_perm.
  split; [lia|]. split; [|split; [|split; [by rewrite length_take|split; [apply by_avg_sorted|]]]].
  - unfold topSlowest, get. rewrite decide_True by done. fold lim. unfold TopSlowest.
    rewrite Hds, (group_avg_means ds Hsome). unfold top_limit.
    rewrite (decide_False (P := lim <= 0)) by lia. rewrite decide_False by lia.
    unfold page. by rewrite drop_0.
  - rewrite Hp. apply means_NoDup.
  - intros name q. rewrite Hp, (elem_of_means ds name q Hsome), <-Hvals. split.
    + intros [Hne ->]. by exists (values_of name ds).
    + intros (ns & Hne & Hns & ->). apply (inj (fmap js_int)) in Hns as ->. done.
Qed.

(** ** Manifests and logs *)
(** The manifest entry the worker posts keeps its name, version, wheel and
    status, and loses the tags, the repair's URL and the digest it was sent with,
    for the struct it is decoded into has no JSON names; [/api/manifest] lists it
    first until a later one comes. *)
Theorem report_manifest_kept `{SqlOrder, Floats, JsonText} cfg clock base now o r :
  TrimRight (cf_ControlPlaneURL cfg) "/"%char ≠ "" → postable cfg clock now o →
  (∀ x, x ∈ rp_manifests r → me_CreatedAt x < clock) →
  let r' := post_reports cfg clock base now o r in
  ∃ rest, manifest_get "" (rp_manifests r') = Answer (manifest_row clock o :: rest) ∧
    me_PythonTag (manifest_row clock o) = "" ∧ me_RepairURL (manifest_row clock o) = "" ∧
    artifacts "GET" "1" (rp_manifests r') =
      Answer [mkArtifact (jb_Name (oc_job o)) (jb_Version (oc_job o)) (oc_wheel_url o) ""].
Proof.
  intros Hurl Hok Hnew r'. destruct (post_reports_spec cfg clock base Hurl now o r Hok) as (m & Hr & _).
  unfold r'. rewrite Hr. cbn [rp_manifests].
  assert (Hh : head (order_desc me_CreatedAt (rp_manifests r ++ [manifest_row clock o])) = Some (manifest_row clock o))
    by exact (newest_last me_CreatedAt _ (manifest_row clock o) Hnew).
  unfold manifest_get, artifacts, get, Artifacts, Manifest. rewrite (decide_True (P := "GET" = "GET")) by done.
  destruct (order_desc me_CreatedAt _) as [|x l]; simplify_eq/=.
  exists (take 199 l). by vm_compute.
Qed.

(** The log of a build is kept when its entry is at most a million bytes, and
    [/api/logs/<name>/<version>] then gives it until a later one is stored; the log of
    a longer build is refused, and what was stored before is given. *)
Theorem report_log_kept `{SqlOrder, Floats, JsonText} cfg clock base now o r path :
  TrimRight (cf_ControlPlaneURL cfg) "/"%char ≠ "" → postable cfg clock now o →
  (∀ x, x ∈ rp_logs r → le_Timestamp x < clock) →
  splitPath path = ["api"; "logs"; jb_Name (oc_job o); jb_Version (oc_job o)] →
  let r' := post_reports cfg clock base now o r in
  let short := Z.of_nat (String.length (json_write (log_payload cfg o))) <= 1000000 in
  (short → logsByNameVersion "GET" path "true" "" (rp_logs r') = Answer (inl (oc_log o))) ∧
  (¬ short → ∀ raw accept_, logsByNameVersion "GET" path raw accept_ (rp_logs r') =
                            logsByNameVersion "GET" path raw accept_ (rp_logs r)).
Proof.
  intros Hurl Hok Hnew Hpath r' short. destruct (post_reports_spec cfg clock base Hurl now o r Hok) as (m & Hr & _).
  unfold r'. rewrite Hr. cbn [rp_logs]. unfold stored_log. split.
  - intros Hs. rewrite (decide_False (P := 1000000 < _)) by (apply Z.nlt_ge; exact Hs). unfold logsByNameVersion, get, path_part.
    rewrite decide_True, Hpath by done. cbn [lookup list_lookup].
    destruct (postable_texts cfg clock now o Hok) as (Hn & Hv & _).
    unfold GetLog, with_params. cbn [forallb]. rewrite Hn, Hv. cbn [andb].
    rewrite filter_app, filter_cons_True, filter_nil by done.
    rewrite newest_last; [done|]. intros y [_ Hy]%list_elem_of_filter. by apply Hnew.
  - intros Hs raw accept_. rewrite (decide_True (P := 1000000 < _)) by (apply Z.nle_gt; exact Hs).
    by rewrite app_nil_r.
Qed.

(** Searching the logs for a text without wildcards finds exactly the entries
    whose content has it, upper and lower case alike. *)
Theorem search_logs_spec q content :
  plain_pattern q = true → ilike content ("%" +:+ q +:+ "%") = Contains (ToLower content) (ToLower q).
Proof.
  intros Hq. unfold ilike. rewrite !ToLower_app. apply like_contains. by apply plain_lower.
Qed.

(** ** The theorems at concrete inputs *)
Definition sample_outcome : Outcome :=
  mkOutcome (mkJob "six" "1.16" "3.11" "cp311" "any" ["cmake"] "sha256:aa" "build" "" [] "" [] "" "" "")
    61000000000 "gcc: error" (Some "exit 1") 2 "retry" "gcc: error" "auto-fix applied: cmake | exit 1" ["cmake"]
    (mkAutoFixResult true ["cmake"] ["h1"] [] "cmake" "" [] "medium" "") 1700000100
    "http://zot/v2/artifacts/blobs/sha256:aa" "" [] "" "".
Lemma sample_postable : postable run_cfg 1700000001 1700000000 sample_outcome.
Proof.
  unfold postable, event_numbers_ok. repeat split;
    first [discriminate | vm_compute; reflexivity | vm_compute; discriminate].
Qed.

Lemma report_reaches_history_witness :
  ∃ m, @eventByVersion merge_order "GET" "/api/event/six/1.16"
    (rp_events (@post_reports exact_floats tree_text run_cfg 1700000001 run_encoders 1700000000 sample_outcome
                  (mkReports [] [] [])))
    = Answer (reported_event 1700000000 sample_outcome m) ∧ m !! "duration_ms" = Some (js_int 61000).
Proof.
  destruct (@report_reaches_history merge_order exact_floats tree_text run_cfg 1700000001 run_encoders 1700000000
    sample_outcome (mkReports [] [] []) "/api/event/six/1.16") as (m & Hget & Hms & _).
  - vm_compute. discriminate.
  - exact sample_postable.
  - intros x Hx. by apply elem_of_nil in Hx.
  - vm_compute. reflexivity.
  - exists m. split; [exact Hget|exact Hms].
Defined.

Lemma report_manifest_kept_witness :
  ∃ rest, @manifest_get merge_order ""
    (rp_manifests (@post_reports exact_floats tree_text run_cfg 1700000001 run_encoders 1700000000 sample_outcome
                     (mkReports [] [] [])))
    = Answer (manifest_row 1700000001 sample_outcome :: rest).
Proof.
  destruct (@report_manifest_kept merge_order exact_floats tree_text run_cfg 1700000001 run_encoders 1700000000
    sample_outcome (mkReports [] [] [])) as (rest & Hget & _).
  - vm_compute. discriminate.
  - exact sample_postable.
  - intros x Hx. by apply elem_of_nil in Hx.
  - exists rest. exact Hget.
Defined.

Lemma report_log_kept_witness : ∀ raw accept_,
  let r' := @post_reports exact_floats tree_text run_cfg 1700000001 run_encoders 1700000000 sample_outcome
              (mkReports [] [] []) in
  @logsByNameVersion merge_order "GET" "/api/logs/six/1.16" "true" "" (rp_logs r') = Answer (inl "gcc: error") ∨
  @logsByNameVersion merge_order "GET" "/api/logs/six/1.16" raw accept_ (rp_logs r') = Failed 404.
Proof.
  intros raw accept_ r'.
  destruct (@report_log_kept merge_order exact_floats tree_text run_cfg 1700000001 run_encoders 1700000000
    sample_outcome (mkReports [] [] []) "/api/logs/six/1.16") as [Hshort Hlong].
  - vm_compute. discriminate.
  - exact sample_postable.
  - intros x Hx. by apply elem_of_nil in Hx.
  - vm_compute. reflexivity.
  - destruct (decide (Z.of_nat (String.length (@json_write tree_text (log_payload run_cfg sample_outcome))) <= 1000000))
      as [Hs|Hs]; [left; exact (Hshort Hs)|right].
    exact (Hlong Hs raw accept_).
Defined.

Lemma history_pages_witness :
  let t := [tied "a"; mkEventRow "" "b" "1.0" "" "" "built" "" None None None 1700000009] in
  ∃ rows, StronglySorted (λ a b, er_timestamp b <= er_timestamp a) rows ∧
    concat ((λ i, events_of (@history_get merge_order (page_query "" "built" "" "" "" 1 i) t)) <$> seq 0 2)
      = scan_event true <$> take 2 rows.
Proof.
  intros t. destruct (history_pages (λ _, merge_order) "" "built" "" "" "" 1 2 t) as (rows & _ & Hs & Heq).
  - lia.
  - vm_compute. discriminate.
  - vm_compute. reflexivity.
  - apply (bool_decide_unpack _). vm_compute. exact I.
  - exists rows. split; [exact Hs|exact Heq].
Defined.

Definition bad_duration : json :=
  JsObj [("name", JsStr "six"); ("version", JsStr "1.16"); ("status", JsStr "built");
         ("timestamp", js_int 1700000000); ("metadata", JsObj [("duration_ms", JsBool true)])].
Lemma slow_list_breaks_witness :
  @topSlowest exact_slow "GET" ""
    (@history_post exact_floats 1700000001 (Some bad_duration) []).2 = Failed 500.
Proof.
  refine (proj2 (@slow_list_breaks exact_slow exact_floats 1700000001 bad_duration
    (set_name "six" (mkEvent "" "" "1.16" "" "" "built" "" (Some {["duration_ms" := JsBool true]}) 1700000000 None 0))
    {["duration_ms" := JsBool true]} (JsBool true) [] [] "" _ _ _ _ _ _ _ _ _ _ _));
    first [vm_compute; reflexivity | discriminate].
Defined.

Definition timed (name : string) (ms : Z) : EventRow :=
  mkEventRow "" name "1.0" "" "" "built" "" (Some {["duration_ms" := js_int ms]}) None None 1700000000.
Lemma timed_int name ms : - 2 ^ 63 <= ms < 2 ^ 63 → int_duration (timed name ms).
Proof. intros Hms v Hv. exists ms. split; [|done]. by injection Hv as <-. Qed.
Lemma slow_list_spec_witness :
  ∃ l, @topSlowest exact_slow "GET" "5" [timed "six" 10; timed "numpy" 900; timed "six" 30] = Answer l ∧
    StronglySorted (λ a b, (b.2 <= a.2)%Q) l.
Proof.
  destruct (@slow_list_spec exact_slow "5" [timed "six" 10; timed "numpy" 900; timed "six" 30])
    as (n & l & rest & _ & Hget & _ & _ & Hs & _).
  - repeat apply Forall_cons_2; [apply timed_int; lia..|constructor].
  - exists l. split; [exact Hget|].
    clear -Hs. induction l as [|x l IH]; [constructor|].
    apply StronglySorted_inv in Hs as [Hs Hall]. constructor; [by apply IH|].
    by apply Forall_app in Hall as [? _].
Defined.

Lemma search_logs_spec_witness : ilike "GCC: error" ("%" +:+ "gcc" +:+ "%") = Contains (ToLower "GCC: error") "gcc".
Proof. apply search_logs_spec. vm_compute. reflexivity. Defined.
