(* ===== verification/Kafka.v ===== *)
(** The Kafka backend of the request queue, the same in
    [go-control-plane/internal/queue/kafkaqueue.go] and
    [go-worker/internal/queue/kafkaqueue.go].

    Kafka and its client are a parameter, the class [Kafka]: a topic of one
    partition is a log that reading leaves as it is, and each consumer group has
    an offset into it, zero at first, which [ReadMessage] moves past the message it
    returns.  [ReadMessage] waits for a message until its context ends. *)
From S2P Require Import Prelude.
From S2P Require Import GoStr.
From S2P Require Import Http.
From S2P Require Import Queue.
Local Open Scope string_scope.
Local Open Scope list_scope.

(** ** The client *)
Inductive read_error := ContextDone | ReadError (e : string).
(** [kf_read group ends]: [ends] tells whether the context ends while the call
    waits; [None] is a call that waits for ever. *)
Class Kafka (S : Type) := {
  kf_write : Ctx → string → S → option string * S;
  kf_read : string → bool → S → option (string + read_error) * S;
  kf_bounds : S → result (Z * Z);             (* the first and the last offset *)
  kf_log : S → list string;
  kf_committed : S → string → nat;
  law_write ctx v s : let '(e, s') := kf_write ctx v s in
    (∀ g, kf_committed s' g = kf_committed s g) ∧
    (if e is None then kf_log s' = kf_log s ++ [v] else kf_log s' ∈ [kf_log s; kf_log s ++ [v]]);
  law_read g ends s : let '(r, s') := kf_read g ends s in
    kf_log s' = kf_log s ∧ (∀ h, h ≠ g → kf_committed s' h = kf_committed s h) ∧
    match r with
    | Some (inl v) => kf_log s !! kf_committed s g = Some v ∧ kf_committed s' g = Datatypes.S (kf_committed s g)
    | Some (inr ContextDone) => kf_committed s' g = kf_committed s g ∧ ends = true
    | Some (inr (ReadError _)) => kf_committed s' g = kf_committed s g
    | None => kf_committed s' g = kf_committed s g ∧ ends = false ∧ (length (kf_log s) <= kf_committed s g)%nat
    end;
  law_bounds s : match kf_bounds s with
                 | Ok (first, last) => (last - first)%Z = Z.of_nat (length (kf_log s)) | Err _ => True
                 end }.

Record KafkaQueue := mkKafkaQueue { kq_brokers : string; kq_topic : string; kq_groupID : string }.
Definition NewKafkaQueue (brokers topic : string) : KafkaQueue :=
  mkKafkaQueue brokers (if decide (topic = "") then "refinery.queue" else topic) "refinery-pop".
Definition peek_group : string := "refinery-peek".

Section kafka.
Context {S : Type} `{Kafka S, Codec Request} (k : KafkaQueue).

Definition ensure : option string :=
  if decide (kq_brokers k = "") then Some "kafka brokers not configured" else None.

Definition KafkaQueue_Enqueue (ctx : Ctx) (now : Z) (r : Request) (s : S) : option string * S :=
  match ensure with
  | Some e => (Some e, s)
  | None => kf_write ctx (marshal (stamp now r)) s
  end.
Definition KafkaQueue_Clear : option string := Some "clear not supported for kafka backend".
Definition KafkaQueue_Stats (s : S) : result Stats :=
  match ensure with
  | Some e => Err e
  | None => match kf_bounds s with
            | Ok (first, last) => Ok (mkStats (last - first) 0)
            | Err e => Err e
            end
  end.

(** The loops of [List] and [Pop]: read until there are [max] requests; a message
    that does not decode is dropped.  The result is the requests and the error that
    ended the loop, or [None] when a read waits for ever; the outer [None] is a run
    out of [fuel]. *)
Fixpoint read_loop (fuel : nat) (group : string) (ends : bool) (max : nat) (items : list Request) (s : S)
    : option (option (list Request * option read_error) * S) :=
  match fuel with
  | O => None
  | Datatypes.S fuel =>
    if decide (length items < max)%nat then
      match kf_read group ends s with
      | (None, s') => Some (None, s')
      | (Some (inr e), s') => Some (Some (items, Some e), s')
      | (Some (inl v), s') =>
        read_loop fuel group ends max (match unmarshal v with Some r => items ++ [r] | None => items end) s'
      end
    else Some (Some (items, None), s)
  end.
(** Enough fuel: each turn but the last reads a message. *)
Definition read_fuel (group : string) (s : S) : nat := 2 + length (kf_log s).

(** [List] reads for two seconds, and drops the error. *)
Definition KafkaQueue_List (fuel : nat) (s : S) : option (result (list Request) * S) :=
  match ensure with
  | Some e => Some (Err e, s)
  | None => '(r, s') ← read_loop fuel peek_group true 50 [] s;
            Some (Ok (match r with Some (items, _) => items | None => [] end), s')
  end.
(** [Pop]: [None] inside is a call that does not return. *)
Definition KafkaQueue_Pop (fuel : nat) (ends : bool) (max : Z) (s : S)
    : option (option (list Request * option string) * S) :=
  match ensure with
  | Some e => Some (Some ([], Some e), s)
  | None =>
    let max := if decide (max <= 0)%Z then 1%Z else max in
    '(r, s') ← read_loop fuel (kq_groupID k) ends (Z.to_nat max) [] s;
    Some (match r with
          | None => None
          | Some (items, Some (ReadError e)) => Some (items, Some e)
          | Some (items, _) => Some (items, None)
          end, s')
  end.

(** ** The queue behind a group's offset *)
Definition unread (group : string) (s : S) : list string := drop (kf_committed s group) (kf_log s).
Definition waiting (group : string) (s : S) : list Request := omap unmarshal (unread group s).

Lemma unread_cons group s s' v :
  kf_log s' = kf_log s → kf_log s !! kf_committed s group = Some v →
  kf_committed s' group = Datatypes.S (kf_committed s group) → unread group s = v :: unread group s'.
Proof using Type. intros Hlog Hv Hc. unfold unread. rewrite Hlog, Hc. by apply drop_S. Qed.

Definition read_post (group : string) (ends : bool) (max : nat) (items : list Request) (s : S)
    (r : option (list Request * option read_error)) (s' : S) : Prop :=
  kf_log s' = kf_log s ∧ (∀ h, h ≠ group → kf_committed s' h = kf_committed s h) ∧
  ∃ got, waiting group s = got ++ waiting group s' ∧
  match r with
  | None => ends = false ∧ waiting group s' = [] ∧ (length (items ++ got) < max)%nat
  | Some (out, e) => out = items ++ got ∧ (length items <= max → length out <= max)%nat ∧
      match e with
      | None => (max <= length out)%nat
      | Some ContextDone => ends = true ∧ (length out < max)%nat
      | Some (ReadError _) => (length out < max)%nat
      end
  end.
Lemma read_loop_spec fuel group ends max items s : (length (unread group s) + 2 <= fuel)%nat →
  ∃ r s', read_loop fuel group ends max items s = Some (r, s') ∧ read_post group ends max items s r s'.
Proof using Type.
  revert items s. induction fuel as [|fuel IH]; intros items s Hf; [lia|]. cbn [read_loop].
  case_decide as Hlt.
  2:{ eexists _, s. split; [done|]. split; [done|]. split; [done|]. exists []. rewrite app_nil_r. naive_solver lia. }
  pose proof (law_read group ends s) as Hlaw. destruct (kf_read group ends s) as [[[v|e]|] s'].
  - destruct Hlaw as (Hlog & Hoth & Hv & Hc). pose proof (unread_cons group s s' v Hlog Hv Hc) as Hun.
    set (items' := match unmarshal v with Some r => items ++ [r] | None => items end).
    destruct (IH items' s') as (r & s2 & Hrun & Hlog2 & Hoth2 & got & Hw & Hr).
    { rewrite Hun in Hf. simpl in Hf. lia. }
    exists r, s2. split; [done|]. split; [congruence|].
    split; [intros h Hh; rewrite Hoth2 by done; by apply Hoth|].
    assert (Hgot : ∃ new, items' = items ++ new ∧ waiting group s = new ++ waiting group s' ∧ (length items' <= max)%nat).
    { unfold waiting, items'. rewrite Hun. cbn [omap list_omap]. destruct (unmarshal v) as [q|].
      - exists [q]. rewrite length_app. simpl. split; [done|]. split; [done|lia].
      - exists []. rewrite app_nil_r. split; [done|]. split; [done|lia]. }
    destruct Hgot as (new & Hi & Hnew & Hlen). exists (new ++ got).
    split; [by rewrite Hnew, Hw, app_assoc|]. rewrite app_assoc, <-Hi.
    destruct r as [[out [[]|]]|]; naive_solver.
  - destruct Hlaw as (Hlog & Hoth & Hlaw). eexists _, s'. split; [done|]. split; [done|]. split; [done|].
    exists []. rewrite app_nil_r. assert (Hc : kf_committed s' group = kf_committed s group) by (destruct e; naive_solver).
    unfold waiting, unread. rewrite Hlog, Hc. split; [done|]. split; [done|]. split; [lia|]. destruct e; naive_solver.
  - destruct Hlaw as (Hlog & Hoth & Hc & He & Hend). eexists None, s'. split; [done|]. split; [done|]. split; [done|].
    exists []. rewrite app_nil_r. unfold waiting, unread. rewrite Hlog, Hc, drop_ge by done. naive_solver.
Qed.
(** The backend of both programs, on contexts that end while [Pop] waits. *)
Definition KafkaQueue_Backend : Backend S := {|
  q_Enqueue := KafkaQueue_Enqueue;
  q_List _ s := match KafkaQueue_List (read_fuel peek_group s) s with Some r => r | None => (Ok [], s) end;
  q_Clear _ s := (KafkaQueue_Clear, s);
  q_Stats _ _ s := (KafkaQueue_Stats s, s);
  q_Pop _ max s := match KafkaQueue_Pop (read_fuel (kq_groupID k) s) true max s with
                   | Some (Some r, s') => (r, s') | _ => (([], None), s)
                   end |}.
Lemma read_fuel_enough group s : (length (unread group s) + 2 <= read_fuel group s)%nat.
Proof using Type. unfold unread, read_fuel. rewrite length_drop. lia. Qed.
End kafka.

Section theorems.
Context {S : Type} `{Kafka S, Codec Request} (k : KafkaQueue) (Hbrokers : kq_brokers k ≠ "").

(** C15. [Pop] returns the requests at its group's offset, in order, each once, and
    never more than it was asked for; it returns fewer only when its context has
    ended or with the client's error; otherwise it waits for more, for ever if
    none comes.  The topic keeps them: [Stats] still counts what was popped. *)
Theorem kafka_pop_spec ends max s :
  let want := Z.to_nat (if decide (max <= 0)%Z then 1%Z else max) in
  ∃ r s' got, KafkaQueue_Pop k (read_fuel (kq_groupID k) s) ends max s = Some (r, s') ∧
    waiting (kq_groupID k) s = got ++ waiting (kq_groupID k) s' ∧
    (∀ h, h ≠ kq_groupID k → waiting h s' = waiting h s) ∧
    match r with
    | None => ends = false ∧ waiting (kq_groupID k) s' = [] ∧ (length got < want)%nat
    | Some (out, e) => out = got ∧ (length out <= want)%nat ∧
        (e = None → length out = want ∨ ends = true)
    end ∧
    ∀ a b, KafkaQueue_Stats k s = Ok a → KafkaQueue_Stats k s' = Ok b → st_Length b = st_Length a.
Proof using Hbrokers.
  intros want. unfold KafkaQueue_Pop, ensure. rewrite decide_False by done. fold want.
  destruct (read_loop_spec (read_fuel (kq_groupID k) s) (kq_groupID k) ends want [] s)
    as (r & s' & -> & Hlog & Hoth & got & Hw & Hr); [apply read_fuel_enough|].
  eexists _, s', got. split; [reflexivity|]. split; [done|]. split; [|split].
  - intros h Hh. unfold waiting, unread. by rewrite Hlog, Hoth.
  - destruct r as [[out [[|e]|]]|]; naive_solver lia.
  - intros a b. unfold KafkaQueue_Stats, ensure. rewrite decide_False by done.
    pose proof (law_bounds s) as Ha. pose proof (law_bounds s') as Hb.
    destruct (kf_bounds s) as [[f l]|], (kf_bounds s') as [[f' l']|]; intros; simplify_eq/=.
    rewrite Ha, Hb. by rewrite Hlog.
Qed.

(** [List] moves the offset of a group of its own: what it has listed it does not
    list again, though no one popped it. *)
Theorem kafka_lists_once s : peek_group ≠ kq_groupID k →
  ∃ items s', KafkaQueue_List k (read_fuel peek_group s) s = Some (Ok items, s') ∧
    waiting peek_group s = items ++ waiting peek_group s' ∧
    waiting (kq_groupID k) s' = waiting (kq_groupID k) s.
Proof using Hbrokers.
  intros Hne. unfold KafkaQueue_List, ensure. rewrite decide_False by done.
  destruct (read_loop_spec (read_fuel peek_group s) peek_group true 50 [] s)
    as (r & s' & -> & Hlog & Hoth & got & Hw & Hr); [apply read_fuel_enough|].
  destruct r as [[out e]|]; [|naive_solver]. destruct Hr as [-> _].
  exists got, s'. split; [done|]. split; [done|]. unfold waiting, unread. by rewrite Hlog, Hoth.
Qed.
End theorems.

(** ** A topic in memory, for the witness *)
Record Topic := mkTopic { tp_log : list string; tp_offsets : gmap string nat }.
Definition offset_of (t : Topic) (group : string) : nat := default 0%nat (tp_offsets t !! group).
Definition topic_kafka : Kafka Topic.
Proof.
  refine {|
    kf_write _ v t := (None, mkTopic (tp_log t ++ [v]) (tp_offsets t));
    kf_read group ends t :=
      match tp_log t !! offset_of t group with
      | Some v => (Some (inl v), mkTopic (tp_log t) (<[group := Datatypes.S (offset_of t group)]> (tp_offsets t)))
      | None => (if ends then Some (inr ContextDone) else None, t)
      end;
    kf_bounds t := Ok (0%Z, Z.of_nat (length (tp_log t)));
    kf_log := tp_log; kf_committed := offset_of |}.
  - done.
  - intros group ends t. destruct (tp_log t !! offset_of t group) as [v|] eqn:Hv; simpl.
    + split; [done|]. split; [|split; [done|]].
      * intros h Hh. unfold offset_of. simpl. by rewrite lookup_insert_ne.
      * unfold offset_of. simpl. by rewrite lookup_insert_eq.
    + apply lookup_ge_None in Hv. by destruct ends.
  - intros t. simpl. lia.
Defined.
Definition sample_topic : Topic :=
  mkTopic ["junk"; marshal (sample_request "six"); marshal (sample_request "numpy")] ∅.
Lemma kafka_pop_spec_witness :
  let k := NewKafkaQueue "kafka:9092" "" in
  ∃ out e s', @KafkaQueue_Pop Topic topic_kafka countable_codec k 5 true 1 sample_topic = Some (Some (out, e), s') ∧
    @waiting Topic topic_kafka countable_codec "refinery-pop" sample_topic =
      out ++ @waiting Topic topic_kafka countable_codec "refinery-pop" s' ∧ (length out <= 1)%nat.
Proof.
  intros k. destruct (@kafka_pop_spec Topic topic_kafka countable_codec k ltac:(discriminate) true 1 sample_topic)
    as (r & s' & got & Hpop & Hw & _ & Hr & _).
  destruct r as [[out e]|]; [destruct Hr as (-> & Hlen & _)|by destruct Hr].
  exists got, e, s'. split; [exact Hpop|]. split; [exact Hw|exact Hlen].
Defined.
