(* ===== verification/ObjectStore.v ===== *)
(** The object stores of both programs ([internal/objectstore/]): the MinIO
    client's setup and its three operations, and the store that discards.

    [minio-go] is a parameter, the class [Minio]. *)
From S2P Require Import Prelude.
From S2P Require Import GoStr.
From S2P Require Import Http.
Local Open Scope string_scope.
Local Open Scope list_scope.

(** [GetObject] and [ReadAll] as one step, and what [Stat] says of the type. *)
Class Minio (W : Type) := {
  mn_New : string → string → string → bool → option string;   (* endpoint, keys, secure: an error *)
  mn_BucketExists : string → W → result bool;
  mn_MakeBucket : string → W → option string * W;
  mn_PutObject : Ctx → string → string → string → string → W → option string * W;
  mn_GetObject : Ctx → string → string → W → result string * option string }.

Record MinIOStore := mkMinIOStore { mi_Bucket : string; mi_Endpoint : string; mi_UseSSL : bool }.
Inductive Store := NullStore | Minio_ (m : MinIOStore).

Definition normalizeEndpoint (endpoint : string) (useSSL : bool) : string * bool :=
  let endpoint := TrimSpace endpoint in
  if HasPrefix endpoint "http://" then (TrimPrefix endpoint "http://", false)
  else if HasPrefix endpoint "https://" then (TrimPrefix endpoint "https://", true)
  else (endpoint, useSSL).

Section minio.
Context {W : Type} `{Minio W}.

Definition NewMinIOStore (endpoint accessKey secretKey bucket : string) (useSSL : bool) (w : W)
    : result MinIOStore * W :=
  if decide (endpoint = "" ∨ bucket = "") then (Err "endpoint and bucket required", w)
  else
    let '(endpoint, useSSL) := normalizeEndpoint endpoint useSSL in
    match mn_New endpoint accessKey secretKey useSSL with
    | Some e => (Err e, w)
    | None =>
      match mn_BucketExists bucket w with
      | Err e => (Err e, w)
      | Ok true => (Ok (mkMinIOStore bucket endpoint useSSL), w)
      | Ok false => match mn_MakeBucket bucket w with
                    | (Some e, w') => (Err e, w')
                    | (None, w') => (Ok (mkMinIOStore bucket endpoint useSSL), w')
                    end
      end
    end.

Definition Put (ctx : Ctx) (s : Store) (key data contentType : string) (w : W) : option string * W :=
  match s with
  | NullStore => (None, w)
  | Minio_ m => mn_PutObject ctx (mi_Bucket m) key data contentType w
  end.
(** An error of [Stat] leaves the content type empty. *)
Definition Get (ctx : Ctx) (s : Store) (key : string) (w : W) : result (string * string) :=
  match s with
  | NullStore => Err "object store not configured"
  | Minio_ m =>
    match mn_GetObject ctx (mi_Bucket m) key w with
    | (Ok data, contentType) => Ok (data, default "" contentType)
    | (Err e, _) => Err e
    end
  end.
(** Both programs fall back to the store that discards. *)
Definition open_store (endpoint accessKey secretKey bucket : string) (useSSL : bool) (w : W) : Store * W :=
  if decide (endpoint = "" ∨ bucket = "") then (NullStore, w)
  else match NewMinIOStore endpoint accessKey secretKey bucket useSSL w with
       | (Ok m, w') => (Minio_ m, w') | (Err _, w') => (NullStore, w')
       end.
End minio.

Definition URL (s : Store) (key : string) : string :=
  match s with
  | NullStore => ""
  | Minio_ m => (if mi_UseSSL m then "https" else "http") +:+ "://" +:+ mi_Endpoint m +:+ "/" +:+ mi_Bucket m +:+ "/" +:+ key
  end.

(** ** Facts *)
Lemma trim_right_prefix p s : str_forall (λ c, negb (is_space c)) p = true →
  trim_right is_space (p +:+ s) = p +:+ trim_right is_space s.
Proof.
  induction p as [|c p IH]; [done|]. cbn [str_forall]. intros [Hc%negb_true_iff Hp]%andb_true_iff.
  rewrite !append_cons. cbn [trim_right]. rewrite IH, Hc by done. by destruct (p +:+ trim_right is_space s).
Qed.
(** An endpoint with a scheme decides for itself; the setting counts without one. *)
Lemma normalizeEndpoint_scheme host ssl1 ssl2 :
  normalizeEndpoint ("https://" +:+ host) ssl1 = normalizeEndpoint ("https://" +:+ host) ssl2 ∧
  normalizeEndpoint ("http://" +:+ host) ssl1 = normalizeEndpoint ("http://" +:+ host) ssl2.
Proof.
  split; unfold normalizeEndpoint, TrimSpace.
  - rewrite trim_left_id, trim_right_prefix, HasPrefix_app by done. by destruct (HasPrefix _ "http://").
  - by rewrite trim_left_id, trim_right_prefix, HasPrefix_app by done.
Qed.
