(* ===== verification/Server.v ===== *)
(** What surrounds the control plane's handlers
    ([go-control-plane/internal/server/]): [withCORS] of [cors.go], [withGzip] of
    [gzip.go], and [Start] of [server.go], which puts both around the routes.

    A handler is what it makes of a request on a [ResponseWriter]: the calls it
    makes on the writer, in order.  The bytes [compress/gzip] produces are kept as
    [Gzipped] pieces of the text they stand for. *)
From S2P Require Import Prelude.
From S2P Require Import GoStr.
From S2P Require Import Config.
From S2P Require Import Env.
Local Open Scope string_scope.
Local Open Scope list_scope.
Local Open Scope Z_scope.
Import ControlPlane.

(** ** Requests and writers *)
(** Headers by canonical name; [Get] is the first value. *)
Abbreviation Header := (gmap string (list string)).
Definition header_get (h : Header) (k : string) : string := default "" (head (default [] (h !! k))).
Definition header_set (k v : string) (h : Header) : Header := <[k := [v]]> h.
Definition header_add (k v : string) (h : Header) : Header := <[k := default [] (h !! k) ++ [v]]> h.
Definition header_del (k : string) (h : Header) : Header := delete k h.

Record WebRequest := mkWebRequest { wr_Method : string; wr_Header : Header }.
(** The calls of a handler on its writer: its headers, [WriteHeader], [Write],
    [Flush], and asking for the connection ([http.Hijacker]). *)
Inductive call := SetHeader (k v : string) | AddHeader (k v : string)
  | CallWriteHeader (code : Z) | CallWrite (data : string) | CallFlush | CallHijack.
Abbreviation Handler := (WebRequest → list call).

(** The server's own writer: the headers it sends are those at the first
    [WriteHeader]; a later one is ignored; a [Write] before it sends a 200. *)
Inductive piece := Plain (s : string) | Gzipped (s : string).
Definition piece_text (p : piece) : string := match p with Plain s | Gzipped s => s end.
Record Response := mkResponse {
  re_Header : Header;                       (* what the handler may still change *)
  re_sent : option (Z * Header);            (* status line and headers on the wire *)
  re_body : list piece; re_hijacked : bool; re_panicked : bool }.
Definition new_response : Response := mkResponse ∅ None [] false false.
Definition set_headers (f : Header → Header) (r : Response) : Response :=
  mkResponse (f (re_Header r)) (re_sent r) (re_body r) (re_hijacked r) (re_panicked r).
Definition under_WriteHeader (code : Z) (r : Response) : Response :=
  match re_sent r with
  | Some _ => r
  | None => mkResponse (re_Header r) (Some (code, re_Header r)) (re_body r) (re_hijacked r) (re_panicked r)
  end.
Definition under_Write (p : piece) (r : Response) : Response :=
  let r := under_WriteHeader 200 r in
  mkResponse (re_Header r) (re_sent r) (re_body r ++ [p]) (re_hijacked r) (re_panicked r).
Definition panic (r : Response) : Response :=
  mkResponse (re_Header r) (re_sent r) (re_body r) (re_hijacked r) true.
Definition under_call (c : call) (r : Response) : Response :=
  match c with
  | SetHeader k v => set_headers (header_set k v) r
  | AddHeader k v => set_headers (header_add k v) r
  | CallWriteHeader code => under_WriteHeader code r
  | CallWrite data => under_Write (Plain data) r
  | CallFlush => under_WriteHeader 200 r
  | CallHijack => mkResponse (re_Header r) (re_sent r) (re_body r) true (re_panicked r)
  end.
(** A handler that has panicked makes no more calls. *)
Definition run_calls {W} (step : call → W → W) (stopped : W → bool) (cs : list call) (w : W) : W :=
  foldl (λ w c, if stopped w then w else step c w) w cs.
Definition serve (h : Handler) (rq : WebRequest) : Response :=
  run_calls under_call re_panicked (h rq) new_response.

(** ** cors.go *)
Definition containsString (values : list string) (target : string) : bool := bool_decide (target ∈ values).
Definition or_default (l def : list string) : list string := if decide (l = []) then def else l.
Definition origin_allowed (cfg : CPConfig) (origin : string) : bool :=
  negb (bool_decide (origin = "")) &&
  (containsString (cp_CORSOrigins cfg) "*" || containsString (cp_CORSOrigins cfg) origin).
Definition cors_headers (cfg : CPConfig) (origin : string) : list call :=
  let allowOrigin := if containsString (cp_CORSOrigins cfg) "*" && negb (cp_CORSCredentials cfg)
                     then "*" else origin in
  [SetHeader "Access-Control-Allow-Origin" allowOrigin; AddHeader "Vary" "Origin";
   SetHeader "Access-Control-Allow-Methods"
     (Join (or_default (cp_CORSMethods cfg) ["GET"; "POST"; "PUT"; "DELETE"; "OPTIONS"]) ", ");
   SetHeader "Access-Control-Allow-Headers"
     (Join (or_default (cp_CORSHeaders cfg) ["Content-Type"; "Authorization"; "X-Worker-Token"]) ", ")] ++
  (if cp_CORSCredentials cfg then [SetHeader "Access-Control-Allow-Credentials" "true"] else []) ++
  (if decide (0 < cp_CORSMaxAge cfg) then [SetHeader "Access-Control-Max-Age" (itoa (cp_CORSMaxAge cfg))] else []).
Definition withCORS (cfg : CPConfig) (next : Handler) : Handler := λ rq,
  if decide (cp_CORSOrigins cfg = []) then next rq
  else
    let origin := header_get (wr_Header rq) "Origin" in
    if origin_allowed cfg origin then
      cors_headers cfg origin ++
      (if decide (wr_Method rq = "OPTIONS") then [CallWriteHeader 204] else next rq)
    else next rq.

(** ** gzip.go *)
Definition shouldCompress (h : Header) (status : Z) : bool :=
  if decide (status = 204 ∨ status = 304) then false
  else if Contains (ToLower (header_get h "Content-Encoding")) "gzip" then false
  else
    let contentType := ToLower (header_get h "Content-Type") in
    if decide (contentType = "") then true
    else HasPrefix contentType "application/json" || HasPrefix contentType "text/".

Record gzipResponseWriter := mkGzip {
  gz_under : Response; gz_writer : bool; gz_wroteHeader : bool; gz_compress : bool; gz_statusCode : Z }.
Definition gz_WriteHeader (code : Z) (g : gzipResponseWriter) : gzipResponseWriter :=
  if gz_wroteHeader g then g
  else if shouldCompress (re_Header (gz_under g)) code then
    mkGzip (under_WriteHeader code
              (set_headers (λ h, header_del "Content-Length" (header_set "Content-Encoding" "gzip" h)) (gz_under g)))
      true true true code
  else mkGzip (under_WriteHeader code (gz_under g)) (gz_writer g) true (gz_compress g) code.
Definition gz_Write (data : string) (g : gzipResponseWriter) : gzipResponseWriter :=
  let g := if gz_wroteHeader g then g else gz_WriteHeader 200 g in
  mkGzip (under_Write (if gz_compress g then Gzipped data else Plain data) (gz_under g))
    (gz_writer g) (gz_wroteHeader g) (gz_compress g) (gz_statusCode g).
(** Flushing the compressor writes what it holds; no text is added. *)
Definition gz_Flush (g : gzipResponseWriter) : gzipResponseWriter :=
  let u := if gz_compress g && gz_writer g then under_Write (Gzipped "") (gz_under g) else gz_under g in
  mkGzip (under_WriteHeader 200 u) (gz_writer g) (gz_wroteHeader g) (gz_compress g) (gz_statusCode g).
Definition gz_Close (g : gzipResponseWriter) : Response :=
  if gz_writer g then under_Write (Gzipped "") (gz_under g) else gz_under g.
(** The embedded interface is an [http.ResponseWriter]: the wrapper is no
    [http.Hijacker], and the websocket library's assertion that it is one panics. *)
Definition gz_call (c : call) (g : gzipResponseWriter) : gzipResponseWriter :=
  let on_under f := mkGzip (f (gz_under g)) (gz_writer g) (gz_wroteHeader g) (gz_compress g) (gz_statusCode g) in
  match c with
  | SetHeader k v => on_under (set_headers (header_set k v))
  | AddHeader k v => on_under (set_headers (header_add k v))
  | CallWriteHeader code => gz_WriteHeader code g
  | CallWrite data => gz_Write data g
  | CallFlush => gz_Flush g
  | CallHijack => on_under panic
  end.
Definition wants_gzip (rq : WebRequest) : bool := Contains (header_get (wr_Header rq) "Accept-Encoding") "gzip".
(** The response to a request, with the middleware of [Start] around [next]. *)
Definition withGzip (next : Handler) (before : list call) (rq : WebRequest) : Response :=
  let r := run_calls under_call re_panicked before new_response in
  if wants_gzip rq then
    let r := under_call (AddHeader "Vary" "Accept-Encoding") r in
    gz_Close (run_calls gz_call (λ g, re_panicked (gz_under g)) (next rq) (mkGzip r false false false 0))
  else run_calls under_call re_panicked (next rq) r.
(** [Start]: CORS first; it hands on to the compressed routes. *)
Definition Start (cfg : CPConfig) (routes : Handler) (rq : WebRequest) : Response :=
  let origin := header_get (wr_Header rq) "Origin" in
  if decide (cp_CORSOrigins cfg ≠ []) then
    if origin_allowed cfg origin then
      if decide (wr_Method rq = "OPTIONS") then serve (withCORS cfg routes) rq
      else withGzip routes (cors_headers cfg origin) rq
    else withGzip routes [] rq
  else withGzip routes [] rq.

(** The GET branch of [logsStream] asks for the connection before anything else. *)
Definition websocket_handler : Handler := λ _, [CallHijack].

(** ** What the middleware changes *)
Definition body_text (r : Response) : list string := piece_text <$> re_body r.
Definition texts (r : Response) : string := foldr String.append "" (body_text r).
(** A call of a handler that leaves the encoding to the middleware. *)
Definition plain_call (c : call) : bool :=
  match c with
  | SetHeader k _ | AddHeader k _ => negb (bool_decide (k = "Content-Encoding"))
  | CallHijack => false
  | _ => true
  end.
(** No [Flush] before something is written. *)
Fixpoint written_first (cs : list call) : bool :=
  match cs with
  | CallFlush :: _ => false
  | CallWriteHeader _ :: _ | CallWrite _ :: _ | [] => true
  | _ :: cs => written_first cs
  end.
Definition is_gzipped (p : piece) : bool := match p with Gzipped _ => true | Plain _ => false end.

(** The wrapped writer follows the writer it wraps. *)
Record gz_inv (r : Response) (g : gzipResponseWriter) : Prop := {
  gi_text : texts (gz_under g) = texts r;
  gi_status : fst <$> re_sent (gz_under g) = fst <$> re_sent r;
  gi_wrote : gz_wroteHeader g = bool_decide (is_Some (re_sent (gz_under g)));
  gi_writer : gz_writer g = gz_compress g;
  gi_panic : re_panicked (gz_under g) = false ∧ re_panicked r = false;
  gi_fresh : re_sent (gz_under g) = None →
    gz_compress g = false ∧ re_body (gz_under g) = [] ∧ re_Header (gz_under g) !! "Content-Encoding" = None;
  gi_encoding : ∀ code h, re_sent (gz_under g) = Some (code, h) →
    if gz_compress g then h !! "Content-Encoding" = Some ["gzip"] ∧ forallb is_gzipped (re_body (gz_under g)) = true
    else h !! "Content-Encoding" = None ∧ forallb (negb ∘ is_gzipped) (re_body (gz_under g)) = true }.

Lemma concat_snoc l s : foldr String.append "" (l ++ [s]) = foldr String.append "" l +:+ s.
Proof.
  induction l as [|t l IH]; [apply append_nil_r|].
  change (t +:+ foldr String.append "" (l ++ [s]) = (t +:+ foldr String.append "" l) +:+ s).
  by rewrite IH, append_assoc.
Qed.
Lemma texts_snoc r p : texts (under_Write p r) = texts r +:+ piece_text p.
Proof.
  unfold texts, body_text, under_Write, under_WriteHeader. destruct (re_sent r); cbn [re_body];
    rewrite fmap_app; apply concat_snoc.
Qed.
Lemma gz_inv_headers r g f : gz_inv r g →
  (∀ h, h !! "Content-Encoding" = None → f h !! "Content-Encoding" = None) →
  gz_inv (set_headers f r)
    (mkGzip (set_headers f (gz_under g)) (gz_writer g) (gz_wroteHeader g) (gz_compress g) (gz_statusCode g)).
Proof. intros [] Hf. constructor; cbn in *; try done. intros Hs. destruct (gi_fresh0 Hs) as (? & ? & ?). auto. Qed.

Lemma gz_inv_WriteHeader code r g : gz_inv r g → gz_inv (under_WriteHeader code r) (gz_WriteHeader code g).
Proof.
  intros Hinv. pose proof Hinv as []. unfold gz_WriteHeader. destruct (gz_wroteHeader g) eqn:Hw.
  - symmetry in gi_wrote0. apply bool_decide_eq_true in gi_wrote0 as [[c h] Hs].
    rewrite Hs in gi_status0. unfold under_WriteHeader. by destruct (re_sent r).
  - symmetry in gi_wrote0. apply bool_decide_eq_false in gi_wrote0.
    assert (Hs : re_sent (gz_under g) = None) by (destruct (re_sent (gz_under g)); [by destruct gi_wrote0|done]).
    assert (Hr : re_sent r = None) by (rewrite Hs in gi_status0; by destruct (re_sent r)).
    destruct (gi_fresh0 Hs) as (Hc & Hb & Hce). destruct gi_panic0.
    unfold under_WriteHeader, set_headers. rewrite Hr.
    destruct (shouldCompress (re_Header (gz_under g)) code); cbn; rewrite Hs;
      constructor; cbn; try done; try (intros ? ? [= <- <-]).
    + rewrite Hb. unfold header_del, header_set. by rewrite lookup_delete_ne, lookup_insert_eq.
    + by rewrite Hc, Hb.
Qed.
Lemma gz_inv_Write data r g : gz_inv r g → gz_inv (under_Write (Plain data) r) (gz_Write data g).
Proof.
  intros Hinv. unfold gz_Write.
  set (g' := if gz_wroteHeader g then g else gz_WriteHeader 200 g).
  assert (Hinv' : gz_inv (under_WriteHeader 200 r) g' ∧ gz_wroteHeader g' = true).
  { unfold g'. destruct (gz_wroteHeader g) eqn:Hw.
    - split; [|done]. pose proof (gz_inv_WriteHeader 200 r g Hinv) as Hh. unfold gz_WriteHeader in Hh. by rewrite Hw in Hh.
    - split; [by apply gz_inv_WriteHeader|]. unfold gz_WriteHeader. rewrite Hw. by case_match. }
  destruct Hinv' as [Hi Hw]. assert (Htext : texts (gz_under g') = texts r).
  { rewrite (gi_text _ _ Hi). unfold texts, body_text, under_WriteHeader. by destruct (re_sent r). }
  pose proof (gi_wrote _ _ Hi) as Hsent. rewrite Hw in Hsent. symmetry in Hsent.
  apply bool_decide_eq_true in Hsent as [[code h] Hsent].
  assert (Hr : under_WriteHeader 200 (gz_under g') = gz_under g') by (unfold under_WriteHeader; by rewrite Hsent).
  destruct (gi_panic _ _ Hi) as [Hp1 Hp2].
  constructor; cbn [gz_under gz_writer gz_wroteHeader gz_compress].
  - rewrite !texts_snoc, Htext. by destruct (gz_compress g').
  - unfold under_Write. cbn. rewrite Hr. apply (gi_status _ _ Hi).
  - unfold under_Write. cbn. rewrite Hr. apply (gi_wrote _ _ Hi).
  - apply (gi_writer _ _ Hi).
  - unfold under_Write. cbn. rewrite Hr. done.
  - unfold under_Write. cbn. rewrite Hr. congruence.
  - unfold under_Write. cbn. rewrite Hr. intros c' h' Hs'. pose proof (gi_encoding _ _ Hi c' h' Hs') as He.
    destruct (gz_compress g'); destruct He as [? He]; rewrite forallb_app, He; done.
Qed.
Lemma gz_inv_Flush r g : gz_inv r g → gz_wroteHeader g = true → gz_inv (under_WriteHeader 200 r) (gz_Flush g).
Proof.
  intros Hi Hw. pose proof (gi_wrote _ _ Hi) as Hsent. rewrite Hw in Hsent. symmetry in Hsent.
  apply bool_decide_eq_true in Hsent as [[code h] Hsent].
  assert (Hr : under_WriteHeader 200 (gz_under g) = gz_under g) by (unfold under_WriteHeader; by rewrite Hsent).
  assert (Hr0 : under_WriteHeader 200 r = r).
  { pose proof (gi_status _ _ Hi) as Hst. rewrite Hsent in Hst. unfold under_WriteHeader. by destruct (re_sent r). }
  rewrite Hr0. unfold gz_Flush. rewrite (gi_writer _ _ Hi), andb_diag.
  destruct (gz_compress g) eqn:Hc; [|pose proof (gi_writer _ _ Hi) as Hwr; destruct g as [u wr wh co st]; simpl in *; subst; rewrite Hr; exact Hi].
  assert (Hr2 : under_WriteHeader 200 (under_Write (Gzipped "") (gz_under g)) = under_Write (Gzipped "") (gz_under g)).
  { unfold under_Write. rewrite Hr. unfold under_WriteHeader. cbn. by rewrite Hsent. }
  rewrite Hr2. destruct (gi_panic _ _ Hi). constructor; cbn [gz_under gz_writer gz_wroteHeader gz_compress].
  - rewrite texts_snoc. cbn [piece_text]. by rewrite append_nil_r, (gi_text _ _ Hi).
  - unfold under_Write. rewrite Hr. cbn. apply (gi_status _ _ Hi).
  - unfold under_Write. rewrite Hr. cbn. apply (gi_wrote _ _ Hi).
  - done.
  - unfold under_Write. rewrite Hr. done.
  - unfold under_Write. rewrite Hr. cbn. congruence.
  - unfold under_Write. rewrite Hr. cbn. intros c' h' Hs'. pose proof (gi_encoding _ _ Hi c' h' Hs') as He.
    rewrite Hc in He. destruct He as [? He]. by rewrite forallb_app, He.
Qed.

Lemma gz_inv_call c r g : gz_inv r g → plain_call c = true → (c = CallFlush → gz_wroteHeader g = true) →
  gz_inv (under_call c r) (gz_call c g).
Proof.
  intros Hi Hp Hf. destruct c as [k v|k v|code|data| |]; cbn [under_call gz_call plain_call] in *.
  - apply (gz_inv_headers r g (header_set k v) Hi). intros h Hh. apply negb_true_iff, bool_decide_eq_false in Hp.
    unfold header_set. by rewrite lookup_insert_ne.
  - apply (gz_inv_headers r g (header_add k v) Hi). intros h Hh. apply negb_true_iff, bool_decide_eq_false in Hp.
    unfold header_add. by rewrite lookup_insert_ne.
  - by apply gz_inv_WriteHeader.
  - by apply gz_inv_Write.
  - apply gz_inv_Flush; auto.
  - done.
Qed.
Lemma gz_wrote_stays c g : gz_wroteHeader g = true → gz_wroteHeader (gz_call c g) = true.
Proof.
  intros Hw. destruct c; cbn; unfold gz_WriteHeader, gz_Write, gz_Flush; rewrite ?Hw; cbn; rewrite ?Hw; done.
Qed.
Lemma gz_inv_calls cs r g : gz_inv r g → forallb plain_call cs = true →
  (gz_wroteHeader g = true ∨ written_first cs = true) →
  gz_inv (run_calls under_call re_panicked cs r) (run_calls gz_call (λ g, re_panicked (gz_under g)) cs g).
Proof.
  unfold run_calls. revert r g. induction cs as [|c cs IH]; intros r g Hi Hp Hw; [done|].
  cbn [forallb] in Hp. apply andb_true_iff in Hp as [Hc Hp]. cbn [foldl].
  destruct (gi_panic _ _ Hi) as [-> ->]. apply IH; [|done|].
  - apply gz_inv_call; [done|done|]. intros ->. by destruct Hw.
  - destruct Hw as [Hw|Hw]; [left; by apply gz_wrote_stays|].
    destruct c; try (by right); try done; left; cbn; unfold gz_Write, gz_WriteHeader;
      destruct (gz_wroteHeader g) eqn:Hg; cbn; try done; by destruct (shouldCompress _ _).
Qed.

(** Calls that set headers only. *)
Definition header_call (c : call) : bool :=
  match c with SetHeader k _ | AddHeader k _ => negb (bool_decide (k = "Content-Encoding")) | _ => false end.
Lemma header_calls cs r : forallb header_call cs = true → re_panicked r = false →
  ∃ f, run_calls under_call re_panicked cs r = set_headers f r ∧
    (∀ h : Header, h !! "Content-Encoding" = None → f h !! "Content-Encoding" = None).
Proof.
  unfold run_calls. revert r. induction cs as [|c cs IH]; intros r Hc Hp.
  { exists id. split; [by destruct r|done]. }
  cbn [forallb] in Hc. apply andb_true_iff in Hc as [Hc Hcs]. cbn [foldl]. rewrite Hp.
  assert (Hg : ∃ g, under_call c r = set_headers g r ∧
    (∀ h : Header, h !! "Content-Encoding" = None → g h !! "Content-Encoding" = None)).
  { destruct c as [k v|k v| | | |]; cbn [header_call] in Hc; try done;
      apply negb_true_iff, bool_decide_eq_false in Hc; eexists; (split; [reflexivity|]);
      intros h Hh; unfold header_set, header_add; by rewrite lookup_insert_ne. }
  destruct Hg as (g & -> & Hg). destruct (IH (set_headers g r) Hcs Hp) as (f & -> & Hf).
  exists (f ∘ g). split; [done|]. intros h Hh. by apply Hf, Hg.
Qed.
Lemma cors_header_calls cfg origin : forallb header_call (cors_headers cfg origin) = true.
Proof. unfold cors_headers. destruct (cp_CORSCredentials cfg); case_decide; by vm_compute. Qed.

Lemma header_calls_plain cs : forallb header_call cs = true → forallb plain_call cs = true.
Proof. rewrite !forallb_forall. intros Hh c Hc. specialize (Hh c Hc). by destruct c. Qed.
Definition encoding_ok (r : Response) : Prop := ∀ code h, re_sent r = Some (code, h) →
  (h !! "Content-Encoding" = Some ["gzip"] ∧ forallb is_gzipped (re_body r) = true) ∨
  (h !! "Content-Encoding" = None ∧ forallb (negb ∘ is_gzipped) (re_body r) = true).
(** Without compression nothing is compressed, and the headers do not say so. *)
Lemma plain_calls_safe cs : forallb plain_call cs = true →
  let r := run_calls under_call re_panicked cs new_response in re_panicked r = false ∧ encoding_ok r.
Proof.
  intros Hcs r.
  set (inv r := re_panicked r = false ∧ re_Header r !! "Content-Encoding" = None ∧
    (∀ code h, re_sent r = Some (code, h) → h !! "Content-Encoding" = None) ∧
    forallb (negb ∘ is_gzipped) (re_body r) = true).
  assert (Hwh : ∀ code r, inv r → inv (under_WriteHeader code r)).
  { intros code r1 (Hp & Hh & Hs & Hb). unfold inv, under_WriteHeader. destruct (re_sent r1) eqn:E; [by rewrite E|].
    cbn. split; [done|]. split; [done|]. split; [by intros ? ? [= <- <-]|done]. }
  assert (Hstep : ∀ c r, plain_call c = true → inv r → inv (under_call c r)).
  { intros c r1 Hc Hi. destruct c as [k v|k v|code|data| |]; cbn [under_call plain_call] in *; try done; try by apply Hwh.
    - apply negb_true_iff, bool_decide_eq_false in Hc. destruct Hi as (? & ? & ? & ?). unfold inv. cbn.
      unfold header_set. by rewrite lookup_insert_ne.
    - apply negb_true_iff, bool_decide_eq_false in Hc. destruct Hi as (? & ? & ? & ?). unfold inv. cbn.
      unfold header_add. by rewrite lookup_insert_ne.
    - destruct (Hwh 200 r1 Hi) as (? & ? & ? & Hb). unfold inv, under_Write. cbn. by rewrite forallb_app, Hb. }
  assert (Hall : ∀ cs r, forallb plain_call cs = true → inv r → inv (run_calls under_call re_panicked cs r)).
  { clear -Hstep. unfold run_calls. induction cs as [|c cs IH]; intros r Hcs Hi; [done|]. cbn [forallb] in Hcs.
    apply andb_true_iff in Hcs as [Hc Hcs]. cbn [foldl]. destruct Hi as (Hp & Hi). rewrite Hp.
    apply IH; [done|]. by apply Hstep. }
  destruct (Hall cs new_response Hcs) as (Hp & _ & Hs & Hb); [done|]. split; [done|].
  intros code h Hsent. right. split; [by apply (Hs code)|done].
Qed.
Lemma gz_Close_spec r g : gz_inv r g →
  texts (gz_Close g) = texts r ∧ fst <$> re_sent (gz_Close g) = fst <$> re_sent r ∧
  re_panicked (gz_Close g) = false ∧ encoding_ok (gz_Close g).
Proof.
  intros Hi. unfold gz_Close, encoding_ok. rewrite (gi_writer _ _ Hi).
  destruct (gi_panic _ _ Hi) as [Hp _]. destruct (gz_compress g) eqn:Hc.
  - assert (Hsent : ∃ x, re_sent (gz_under g) = Some x).
    { destruct (re_sent (gz_under g)) eqn:Hs; [by eexists|]. destruct (gi_fresh _ _ Hi Hs). congruence. }
    destruct Hsent as [[code h] Hs].
    assert (Hr : under_WriteHeader 200 (gz_under g) = gz_under g) by (unfold under_WriteHeader; by rewrite Hs).
    rewrite texts_snoc. unfold under_Write. rewrite Hr. cbn. rewrite append_nil_r.
    split; [apply (gi_text _ _ Hi)|]. split; [apply (gi_status _ _ Hi)|]. split; [done|].
    intros c' h' Hs'. left. pose proof (gi_encoding _ _ Hi c' h' Hs') as He. rewrite Hc in He.
    destruct He as [? He]. by rewrite forallb_app, He.
  - split; [apply (gi_text _ _ Hi)|]. split; [apply (gi_status _ _ Hi)|]. split; [done|].
    intros c' h' Hs'. right. pose proof (gi_encoding _ _ Hi c' h' Hs') as He. by rewrite Hc in He.
Qed.
Lemma withGzip_spec next before rq :
  wants_gzip rq = true → forallb header_call before = true → forallb plain_call (next rq) = true →
  written_first (next rq) = true →
  let r := withGzip next before rq in
  let r0 := run_calls under_call re_panicked (before ++ next rq) new_response in
  texts r = texts r0 ∧ fst <$> re_sent r = fst <$> re_sent r0 ∧ re_panicked r = false ∧ encoding_ok r.
Proof.
  intros Hw Hb Hn Hf r r0. unfold r, r0, withGzip. rewrite Hw.
  destruct (header_calls before new_response Hb eq_refl) as (f & Hrun & Hce).
  unfold run_calls at 3 6. rewrite foldl_app. fold (run_calls under_call re_panicked before new_response).
  rewrite Hrun. fold (run_calls under_call re_panicked (next rq) (set_headers f new_response)).
  set (g0 := mkGzip (under_call (AddHeader "Vary" "Accept-Encoding") (set_headers f new_response)) false false false 0).
  assert (Hi : gz_inv (set_headers f new_response) g0).
  { constructor; cbn; try done. intros _. split; [done|]. split; [done|].
    unfold header_add. rewrite lookup_insert_ne by done. by apply Hce. }
  pose proof (gz_inv_calls (next rq) _ _ Hi Hn (or_intror Hf)) as Hi2.
  set (g := run_calls gz_call _ (next rq) g0) in *. set (r1 := run_calls under_call _ (next rq) _) in *.
  destruct (gz_Close_spec r1 g Hi2) as (Ht & Hs & Hp & He). done.
Qed.

(** ** The server *)
Section server.
Context (cfg : CPConfig) (routes : Handler).

Lemma Start_plain rq : wants_gzip rq = false → Start cfg routes rq = serve (withCORS cfg routes) rq.
Proof using Type.
  intros Hw. unfold Start, serve, withCORS, withGzip. rewrite Hw. unfold run_calls.
  destruct (decide (cp_CORSOrigins cfg = [])) as [->|Hne]; [done|]. rewrite decide_True by done.
  destruct (origin_allowed cfg _); [|done]. case_decide; [done|]. by rewrite foldl_app.
Qed.

Lemma cors_calls_plain rq : forallb plain_call (routes rq) = true → forallb plain_call (withCORS cfg routes rq) = true.
Proof using Type.
  intros Hp. unfold withCORS. destruct (decide (cp_CORSOrigins cfg = [])); [done|].
  destruct (origin_allowed cfg _); [|done].
  rewrite forallb_app, header_calls_plain by apply cors_header_calls. by case_decide.
Qed.
Lemma Start_cases rq : Start cfg routes rq = serve (withCORS cfg routes) rq ∨
  wants_gzip rq = true ∧ ∃ before, forallb header_call before = true ∧
    Start cfg routes rq = withGzip routes before rq ∧ withCORS cfg routes rq = before ++ routes rq.
Proof using Type.
  destruct (wants_gzip rq) eqn:Hw; [|left; by apply Start_plain]. unfold Start, withCORS.
  destruct (decide (cp_CORSOrigins cfg = [])) as [->|Hne]; [right; split; [done|]; by exists []|].
  rewrite decide_True by done. destruct (origin_allowed cfg _) eqn:Ho; [|right; split; [done|]; by exists []].
  destruct (decide (wr_Method rq = "OPTIONS")) as [Hopt|Hopt].
  - by left.
  - right. split; [done|]. eexists. split; [apply cors_header_calls|]. done.
Qed.


(** A page of another origin may read a response only when its origin is
    configured, or any is; the server then names that origin, or "*" where no
    credentials are allowed; and only such a page's preflight is answered without
    the routes. *)
Theorem cors_spec rq :
  (∀ k v, SetHeader k v ∈ routes rq ∨ AddHeader k v ∈ routes rq → k ≠ "Access-Control-Allow-Origin") →
  let origin := header_get (wr_Header rq) "Origin" in
  let calls := withCORS cfg routes rq in
  (∀ v, SetHeader "Access-Control-Allow-Origin" v ∈ calls ↔
     origin_allowed cfg origin = true ∧
     v = if containsString (cp_CORSOrigins cfg) "*" && negb (cp_CORSCredentials cfg) then "*" else origin) ∧
  (origin_allowed cfg origin = true → cp_CORSCredentials cfg = true →
     ∀ v, SetHeader "Access-Control-Allow-Origin" v ∈ calls → v = origin ∧ v ≠ "") ∧
  (origin_allowed cfg origin = true → wr_Method rq = "OPTIONS" →
     calls = cors_headers cfg origin ++ [CallWriteHeader 204]) ∧
  (origin_allowed cfg origin = false → calls = routes rq).
Proof using Type.
  intros Hroutes origin calls.
  assert (Hin : ∀ v, SetHeader "Access-Control-Allow-Origin" v ∈ cors_headers cfg origin ↔
    v = if containsString (cp_CORSOrigins cfg) "*" && negb (cp_CORSCredentials cfg) then "*" else origin).
  { intros v. unfold cors_headers. destruct (cp_CORSCredentials cfg); case_decide; set_solver. }
  assert (Hno : ∀ v, SetHeader "Access-Control-Allow-Origin" v ∉ routes rq).
  { intros v Hv. apply (Hroutes "Access-Control-Allow-Origin" v); [by left|done]. }
  assert (Hempty : cp_CORSOrigins cfg = [] → origin_allowed cfg origin = false).
  { unfold origin_allowed, containsString. intros ->. 
    rewrite (bool_decide_false ("*" ∈ [])), (bool_decide_false (origin ∈ [])) by apply not_elem_of_nil.
    by rewrite andb_false_r. }
  assert (Hcalls : calls = if origin_allowed cfg origin
    then cors_headers cfg origin ++ (if decide (wr_Method rq = "OPTIONS") then [CallWriteHeader 204] else routes rq)
    else routes rq).
  { unfold calls, withCORS. fold origin. case_decide as He; [by rewrite Hempty|done]. }
  assert (Hfirst : ∀ v, SetHeader "Access-Control-Allow-Origin" v ∈ calls ↔
     origin_allowed cfg origin = true ∧
     v = if containsString (cp_CORSOrigins cfg) "*" && negb (cp_CORSCredentials cfg) then "*" else origin).
  { intros v. rewrite Hcalls. destruct (origin_allowed cfg origin).
    - rewrite elem_of_app, Hin. case_decide; [set_solver|]. specialize (Hno v). naive_solver.
    - specialize (Hno v). naive_solver. }
  split; [done|]. split; [|split].
  - intros Hal Hcred v Hv%Hfirst. destruct Hv as [_ ->]. rewrite Hcred, andb_false_r. split; [done|].
    unfold origin_allowed in Hal. apply andb_true_iff in Hal as [Hal%negb_true_iff%bool_decide_eq_false _]. done.
  - intros Hal Hopt. by rewrite Hcalls, Hal, decide_True.
  - intros Hal. by rewrite Hcalls, Hal.
Qed.
End server.

Lemma withGzip_hijack before rq : forallb header_call before = true →
  let r := withGzip websocket_handler before rq in
  re_hijacked r = negb (wants_gzip rq) ∧ re_panicked r = wants_gzip rq.
Proof.
  intros Hb r. unfold r, withGzip. destruct (header_calls before new_response Hb eq_refl) as (f & -> & _).
  by destruct (wants_gzip rq).
Qed.
(** The live log of a build: a request that accepts gzip, as every browser's
    does, is not upgraded to a websocket but ends in a panic of the handler; only
    a client that does not accept it is served. *)
Theorem gzip_breaks_websocket cfg rq : wr_Method rq = "GET" →
  let r := Start cfg websocket_handler rq in
  re_hijacked r = negb (wants_gzip rq) ∧ re_panicked r = wants_gzip rq.
Proof.
  intros Hget r. unfold r, Start.
  destruct (decide (cp_CORSOrigins cfg ≠ [])); [|by apply withGzip_hijack].
  destruct (origin_allowed cfg _); [|by apply withGzip_hijack].
  rewrite decide_False by (by rewrite Hget). apply withGzip_hijack, cors_header_calls.
Qed.

(** ** At concrete inputs *)
Definition sample_cors : CPConfig :=
  FromEnv (λ k, if decide (k = "CORS_ORIGINS") then "https://ui.example, https://b.example" else "").
Definition sample_request_of (meth origin encoding : string) : WebRequest :=
  mkWebRequest meth {["Origin" := [origin]; "Accept-Encoding" := [encoding]]}.
Definition json_routes : Handler := λ _,
  [SetHeader "Content-Type" "application/json"; CallWriteHeader 200; CallWrite "[]"].
Lemma cors_spec_witness :
  withCORS sample_cors json_routes (sample_request_of "GET" "https://evil.example" "") =
    json_routes (sample_request_of "GET" "https://evil.example" "").
Proof.
  refine (proj2 (proj2 (proj2 (cors_spec sample_cors json_routes (sample_request_of "GET" "https://evil.example" "") _))) _).
  - intros k v Hkv. unfold json_routes in Hkv. set_solver.
  - vm_compute. reflexivity.
Defined.
Lemma gzip_breaks_websocket_witness :
  re_panicked (Start sample_cors websocket_handler (sample_request_of "GET" "https://ui.example" "gzip, deflate, br")) = true.
Proof.
  refine (eq_trans (proj2 (gzip_breaks_websocket sample_cors
    (sample_request_of "GET" "https://ui.example" "gzip, deflate, br") eq_refl)) _).
  vm_compute. reflexivity.
Defined.
