(* ===== verification/Workers.v ===== *)
(** The heartbeats of the workers: what [heartbeatLoop] of
    [go-worker/internal/service/heartbeat.go] sends, the handlers [workerHeartbeat]
    and [workers] of the control plane ([internal/api/handlers.go]), the table
    [worker_status] ([internal/store/postgres.go]) and the count of the workers in
    [metrics] and [promMetrics].  Times of the table are microseconds. *)
From S2P Require Import Prelude.
From S2P Require Import GoStr.
From S2P Require Import Http.
From S2P Require Import Config.
From S2P Require Import HintFeed.
From S2P Require Import BuildStore.
From S2P Require Import AutoFix.
From S2P Require Import Settings.
From S2P Require Import Values.
From S2P Require Import History.
From S2P Require Import Reports.
From S2P Require Import Env.
From S2P Require Import HistoryTheorems.
From Stdlib Require Import Ascii.
Local Open Scope string_scope.
Local Open Scope list_scope.
Local Open Scope Z_scope.

(** ** The table *)
Record WorkerRow := mkWorkerRow {
  wr_run_id : option string; wr_last_seen : Z; wr_active_builds : Z; wr_build_pool_size : Z;
  wr_plan_pool_size : Z; wr_heartbeat_interval_sec : Z; wr_created_at : Z; wr_updated_at : Z }.
Abbreviation WorkerTable := (gmap string WorkerRow).
Record WorkerStatus := mkWorkerStatus {
  ws_WorkerID : string; ws_RunID : string; ws_LastSeen : Z; ws_ActiveBuilds : Z; ws_BuildPoolSize : Z;
  ws_PlanPoolSize : Z; ws_HeartbeatIntervalSec : Z; ws_CreatedAt : Z; ws_UpdatedAt : Z }.

Definition nullableString (val : string) : option string := if decide (val = "") then None else Some val.
Definition int4 (z : Z) : bool := (- int4_max - 1 <=? z) && (z <=? int4_max).
Definition UpsertWorkerStatus (now : Z) (s : WorkerStatus) (t : WorkerTable) : option string * WorkerTable :=
  if decide (ws_WorkerID s = "") then (Some "worker_id required", t)
  else if negb (forallb no_nul [ws_WorkerID s; ws_RunID s]) then (Some nul_error, t)
  else if negb (forallb int4 [ws_ActiveBuilds s; ws_BuildPoolSize s; ws_PlanPoolSize s; ws_HeartbeatIntervalSec s])
  then (Some "pq: integer out of range", t)
  else
    (None, <[ws_WorkerID s :=
       mkWorkerRow (nullableString (ws_RunID s)) now (ws_ActiveBuilds s) (ws_BuildPoolSize s)
         (ws_PlanPoolSize s) (ws_HeartbeatIntervalSec s)
         (from_option wr_created_at now (t !! ws_WorkerID s)) now]> t).

(** [ORDER BY worker_id] depends on the collation of the database. *)
Class WorkerSql := {
  by_worker : list WorkerStatus → list WorkerStatus;
  by_worker_perm l : by_worker l ≡ₚ l }.
Definition scan_worker (kr : string * WorkerRow) : WorkerStatus :=
  let r := kr.2 in
  mkWorkerStatus kr.1 (default "" (wr_run_id r)) (epoch (wr_last_seen r)) (wr_active_builds r)
    (wr_build_pool_size r) (wr_plan_pool_size r) (wr_heartbeat_interval_sec r) (epoch (wr_created_at r))
    (epoch (wr_updated_at r)).
Definition ListWorkers `{WorkerSql} (t : WorkerTable) : list WorkerStatus := by_worker (scan_worker <$> map_to_list t).

(** ** The handlers *)
Definition heartbeat_fields : list (string * (json → WorkerStatus → option WorkerStatus)) := [
  ("worker_id", λ v s, x ← decode_string v (ws_WorkerID s);
     Some (mkWorkerStatus x (ws_RunID s) 0 (ws_ActiveBuilds s) (ws_BuildPoolSize s) (ws_PlanPoolSize s)
             (ws_HeartbeatIntervalSec s) 0 0));
  ("run_id", λ v s, x ← decode_string v (ws_RunID s);
     Some (mkWorkerStatus (ws_WorkerID s) x 0 (ws_ActiveBuilds s) (ws_BuildPoolSize s) (ws_PlanPoolSize s)
             (ws_HeartbeatIntervalSec s) 0 0));
  ("active_builds", λ v s, x ← decode_int v (ws_ActiveBuilds s);
     Some (mkWorkerStatus (ws_WorkerID s) (ws_RunID s) 0 x (ws_BuildPoolSize s) (ws_PlanPoolSize s)
             (ws_HeartbeatIntervalSec s) 0 0));
  ("build_pool_size", λ v s, x ← decode_int v (ws_BuildPoolSize s);
     Some (mkWorkerStatus (ws_WorkerID s) (ws_RunID s) 0 (ws_ActiveBuilds s) x (ws_PlanPoolSize s)
             (ws_HeartbeatIntervalSec s) 0 0));
  ("plan_pool_size", λ v s, x ← decode_int v (ws_PlanPoolSize s);
     Some (mkWorkerStatus (ws_WorkerID s) (ws_RunID s) 0 (ws_ActiveBuilds s) (ws_BuildPoolSize s) x
             (ws_HeartbeatIntervalSec s) 0 0));
  ("heartbeat_interval_sec", λ v s, x ← decode_int v (ws_HeartbeatIntervalSec s);
     Some (mkWorkerStatus (ws_WorkerID s) (ws_RunID s) 0 (ws_ActiveBuilds s) (ws_BuildPoolSize s)
             (ws_PlanPoolSize s) x 0 0)) ].
Definition decode_heartbeat (v : json) : option WorkerStatus :=
  decode_struct heartbeat_fields v (mkWorkerStatus "" "" 0 0 0 0 0 0 0).
Definition workerHeartbeat (now : Z) (meth : string) (authorized : bool) (body : option json) (t : WorkerTable)
    : Z * WorkerTable :=
  if decide (meth ≠ "POST") then (405, t)
  else if negb authorized then (401, t)
  else
    match body ≫= decode_heartbeat with
    | None => (400, t)
    | Some s =>
      if decide (ws_WorkerID s = "") then (400, t)
      else match UpsertWorkerStatus now s t with (Some _, t') => (500, t') | (None, t') => (200, t') end
    end.
Definition workers `{WorkerSql} (meth : string) (t : WorkerTable) : answer (list WorkerStatus) :=
  get meth (Answer (ListWorkers t)).

(** Who is online: [now] is in seconds. *)
Definition heartbeat_threshold (interval : Z) : Z :=
  let threshold := wrap64 ((if decide (interval <= 0) then 15 else interval) * 2) in
  if decide (threshold < 30) then 30 else threshold.
Definition online (now : Z) (ws : WorkerStatus) : bool :=
  now - ws_LastSeen ws <=? heartbeat_threshold (ws_HeartbeatIntervalSec ws).
Record WorkerMetrics := mkWorkerMetrics { wm_Total : Z; wm_Online : Z; wm_Stale : Z; wm_LatestSeenSec : Z }.
Definition count_worker (now : Z) (m : WorkerMetrics) (ws : WorkerStatus) : WorkerMetrics :=
  mkWorkerMetrics (wm_Total m + 1)
    (if online now ws then wm_Online m + 1 else wm_Online m)
    (if online now ws then wm_Stale m else wm_Stale m + 1)
    (if decide (wm_LatestSeenSec m < ws_LastSeen ws) then ws_LastSeen ws else wm_LatestSeenSec m).
Definition worker_metrics `{WorkerSql} (now : Z) (t : WorkerTable) : WorkerMetrics :=
  foldl (count_worker now) (mkWorkerMetrics 0 0 0 0) (ListWorkers t).

(** ** The worker *)
Definition defaultWorkerID (host : option string) (pid : Z) : string :=
  (match host with Some h => if decide (h = "") then "worker" else h | None => "worker" end) +:+ "-" +:+ itoa pid.
Definition defaultWorkerRunID (workerID : string) (nanos : Z) : string := workerID +:+ "-" +:+ itoa nanos.

Section worker.
Context (c : Worker.WorkerConfig) (workerID runID : string).
Abbreviation cfg := (Worker.wc_cfg c).
Definition heartbeat_interval : Z :=
  if decide (Worker.wc_HeartbeatIntervalSec c <= 0) then 15 else Worker.wc_HeartbeatIntervalSec c.
Definition heartbeat_payload (sh : Shared) (active : Z) : json :=
  JsObj [("worker_id", JsStr workerID); ("run_id", JsStr runID); ("active_builds", js_int active);
         ("build_pool_size", js_int (if decide (0 < sh_build sh) then sh_build sh else cf_BuildPoolSize cfg));
         ("plan_pool_size", js_int (if decide (0 < sh_plan sh) then sh_plan sh else cf_PlanPoolSize cfg));
         ("heartbeat_interval_sec", js_int heartbeat_interval)].
Definition postHeartbeat {W} `{HttpClient W, JsonText} (ctx : Ctx) (payload : json) (w : W) : option string * W :=
  let url := TrimRight (cf_ControlPlaneURL cfg) "/"%char +:+ "/api/worker/heartbeat" in
  match http_call ctx "POST" url (json_headers cfg) (json_write payload) w with
  | (Err e, w') => (Some e, w')
  | (Ok resp, w') => (if decide (300 <= rs_Status resp) then Some ("status " +:+ itoa (rs_Status resp)) else None, w')
  end.
(** One [send]; the loop sends at once and at every tick, until its context ends. *)
Definition send {W} `{HttpClient W, JsonText} (ctx : Ctx) (sh : Shared) (active : Z) (w : W) : option string * W :=
  postHeartbeat ctx (heartbeat_payload sh active) w.
Fixpoint heartbeatLoop {W} `{HttpClient W, JsonText} (ticks : list (Shared * Z)) (w : W) : W :=
  if decide (cf_ControlPlaneURL cfg = "") then w
  else match ticks with
       | [] => w
       | (sh, active) :: ticks => heartbeatLoop ticks (send live sh active w).2
       end.
End worker.

(** ** The control plane behind the worker's client *)
Section server.
Context `{JsonText} (token base : string) (now : Z).
Definition heartbeat_client : HttpClient WorkerTable := {|
  url_ok _ := true;
  do_req rq t :=
    if decide (rq_URL rq = TrimRight base "/"%char +:+ "/api/worker/heartbeat") then
      let sent := default "" (snd <$> head (filter (λ h, h.1 = "X-Worker-Token") (rq_Headers rq))) in
      let '(s, t') := workerHeartbeat now (rq_Method rq) (requireWorkerToken token sent "") (json_read (rq_Body rq)) t in
      (Ok (mkResp s "" ""), t')
    else (Ok (mkResp 404 "" ""), t) |}.
End server.

(** ** The list of the workers *)
Lemma nullableString_default s : default "" (nullableString s) = s.
Proof. unfold nullableString. by case_decide; subst. Qed.
Lemma elem_of_workers `{WorkerSql} (t : WorkerTable) ws :
  ws ∈ ListWorkers t ↔ ∃ r, t !! ws_WorkerID ws = Some r ∧ ws = scan_worker (ws_WorkerID ws, r).
Proof.
  unfold ListWorkers. rewrite by_worker_perm, list_elem_of_fmap. split.
  - intros ([k r] & -> & Hin). apply elem_of_map_to_list in Hin. by exists r.
  - intros (r & Hr & Heq). exists (ws_WorkerID ws, r). split; [done|]. by apply elem_of_map_to_list.
Qed.
Lemma threshold_max interval : int4 interval = true →
  heartbeat_threshold interval = Z.max 30 (2 * (if decide (interval <= 0) then 15 else interval)).
Proof.
  unfold int4, heartbeat_threshold, int4_max. intros [Hlo Hhi]%andb_true_iff.
  rewrite wrap64_id by (case_decide; lia). repeat case_decide; lia.
Qed.
Lemma count_workers now l m :
  foldl (count_worker now) m l =
    mkWorkerMetrics (wm_Total m + Z.of_nat (length l))
      (wm_Online m + Z.of_nat (length (filter (λ ws, online now ws = true) l)))
      (wm_Stale m + Z.of_nat (length (filter (λ ws, online now ws = false) l)))
      (foldl Z.max (wm_LatestSeenSec m) (ws_LastSeen <$> l)).
Proof.
  revert m. induction l as [|ws l IH]; intros [tot on st la]; [cbn; f_equal; lia|].
  cbn [foldl]. rewrite IH. unfold count_worker. cbn [wm_Total wm_Online wm_Stale wm_LatestSeenSec length fmap list_fmap foldl].
  assert (Hmax : (if decide (la < ws_LastSeen ws) then ws_LastSeen ws else la) = Z.max la (ws_LastSeen ws))
    by (case_decide; lia).
  rewrite Hmax. destruct (online now ws) eqn:Hon.
  - rewrite filter_cons_True, (filter_cons_False (λ ws, online now ws = false)) by congruence. cbn [length]. f_equal; lia.
  - rewrite filter_cons_False, (filter_cons_True (λ ws, online now ws = false)) by congruence. cbn [length]. f_equal; lia.
Qed.
Lemma foldl_max l z : (∀ x, x ∈ l → x <= foldl Z.max z l) ∧ z <= foldl Z.max z l ∧ (foldl Z.max z l = z ∨ foldl Z.max z l ∈ l).
Proof.
  revert z. induction l as [|y l IH]; intros z; cbn [foldl].
  { split; [intros x Hx; by apply elem_of_nil in Hx|split; [lia|by left]]. }
  destruct (IH (Z.max z y)) as (Hall & Hz & Hin). split; [|split; [lia|]].
  - intros x [->|Hx]%elem_of_cons; [lia|by apply Hall].
  - destruct Hin as [Hin|Hin]; [|right; by right].
rewrite Hin. destruct (Z.max_spec z y) as [[_ ->]|[_ ->]]; [right; left|by left].
Qed.

(** The counts of the metrics: every worker of the table is counted once, as
    online when its last heartbeat is at most twice its interval old, and never
    less than 30 seconds, and as stale otherwise; and the latest heartbeat is the
    greatest of theirs. *)
Theorem worker_metrics_spec `{WorkerSql} now (t : WorkerTable) :
  let m := worker_metrics now t in
  let l := ListWorkers t in
  wm_Total m = Z.of_nat (size t) ∧ wm_Total m = wm_Online m + wm_Stale m ∧
  wm_Online m = Z.of_nat (length (filter (λ ws, online now ws = true) l)) ∧
  NoDup (ws_WorkerID <$> l) ∧
  (∀ ws, ws ∈ l → ws_LastSeen ws <= wm_LatestSeenSec m) ∧
  (wm_LatestSeenSec m = 0 ∨ ∃ ws, ws ∈ l ∧ ws_LastSeen ws = wm_LatestSeenSec m).
Proof.
  intros m l. unfold m, worker_metrics. fold l. rewrite count_workers. cbn [wm_Total wm_Online wm_Stale wm_LatestSeenSec].
  assert (Hperm : l ≡ₚ scan_worker <$> map_to_list t) by apply by_worker_perm.
  destruct (foldl_max (ws_LastSeen <$> l) 0) as (Hall & _ & Hin).
  split; [|split; [|split; [lia|split; [|split]]]].
  - rewrite (Permutation_length Hperm), length_fmap, length_map_to_list. lia.
  - clear. induction l as [|ws l IH]; [done|]. rewrite !filter_cons. destruct (online now ws);
      rewrite ?(decide_True (P := true = true)), ?(decide_False (P := true = false)), ?(decide_True (P := false = false)),
        ?(decide_False (P := false = true)) by done; cbn [length]; lia.
  - rewrite Hperm, <-list_fmap_compose. rewrite (list_fmap_ext _ fst); [apply NoDup_fst_map_to_list|].
    by intros i [k r] _.
  - intros ws Hws. apply Hall. by apply list_elem_of_fmap_2.
  - destruct Hin as [Hz|Hin]; [by left|right]. apply list_elem_of_fmap in Hin as (ws & Heq & Hws). by exists ws.
Qed.

(** ** A heartbeat, from the worker to the table *)
Section heartbeat.
Context `{JsonText, WorkerSql} (c : Worker.WorkerConfig) (workerID runID token : string) (now : Z).
Abbreviation cfg := (Worker.wc_cfg c).
Definition sent_status (sh : Shared) (active : Z) : WorkerStatus :=
  mkWorkerStatus workerID runID 0 active (if decide (0 < sh_build sh) then sh_build sh else cf_BuildPoolSize cfg)
    (if decide (0 < sh_plan sh) then sh_plan sh else cf_PlanPoolSize cfg) (heartbeat_interval c) 0 0.
Definition beat_ok (sh : Shared) (active : Z) : Prop :=
  workerID ≠ "" ∧ forallb no_nul [workerID; runID] = true ∧
  forallb int4 [active; ws_BuildPoolSize (sent_status sh active); ws_PlanPoolSize (sent_status sh active);
                heartbeat_interval c] = true ∧
  (token = "" ∨ cf_ControlPlaneToken cfg = token).

Lemma int4_parse z : int4 z = true → ParseInt (itoa z) = Some z.
Proof using Type. unfold int4, int4_max. intros [? ?]%andb_true_iff. apply ParseInt_itoa. lia. Qed.
Lemma decode_heartbeat_payload sh active : beat_ok sh active →
  decode_heartbeat (heartbeat_payload c workerID runID sh active) = Some (sent_status sh active).
Proof using Type.
  intros (_ & _ & Hints & _). cbn [forallb sent_status ws_BuildPoolSize ws_PlanPoolSize] in Hints.
  apply andb_true_iff in Hints as [Ha Hints]. apply andb_true_iff in Hints as [Hb Hints].
  apply andb_true_iff in Hints as [Hp Hints]. apply andb_true_iff in Hints as [Hi _].
  unfold decode_heartbeat, heartbeat_payload, decode_struct.
  do 2 (erewrite decode_pairs_known by reflexivity).
  erewrite decode_pairs_known; [|reflexivity|cbn; rewrite int4_parse by done; reflexivity].
  erewrite decode_pairs_known; [|reflexivity|cbn; rewrite int4_parse by done; reflexivity].
  erewrite decode_pairs_known; [|reflexivity|cbn; rewrite int4_parse by done; reflexivity].
  erewrite decode_pairs_known; [|reflexivity|cbn; rewrite int4_parse by done; reflexivity].
  done.
Qed.

Lemma token_accepted sh active : beat_ok sh active →
  requireWorkerToken token (default "" (snd <$> head (filter (λ h, h.1 = "X-Worker-Token") (json_headers cfg)))) "" = true.
Proof using Type.
  intros (_ & _ & _ & Htok). unfold requireWorkerToken. case_decide as Hempty; [done|].
  destruct Htok as [->|Htok]; [done|]. unfold json_headers. rewrite Htok, (decide_False (P := token = "")) by done.
  rewrite filter_cons_False by done. rewrite filter_cons_True by done. cbn.
  rewrite decide_False by done. by apply bool_decide_eq_true.
Qed.
Lemma send_stores sh active (t : WorkerTable) : beat_ok sh active →
  @send c workerID runID WorkerTable (heartbeat_client token (cf_ControlPlaneURL cfg) now) _ live sh active t =
    (None, (UpsertWorkerStatus now (sent_status sh active) t).2).
Proof using Type.
  intros Hok. unfold send, postHeartbeat, http_call. cbn [url_ok heartbeat_client http_do ctx_cancelled live do_req].
  unfold http_do. cbn [ctx_cancelled live do_req heartbeat_client rq_URL rq_Headers rq_Method rq_Body].
  rewrite decide_True by done. rewrite (token_accepted sh active Hok), json_read_write. unfold workerHeartbeat.
  rewrite decide_False by (intros Hn; by apply Hn). cbn [negb mbind option_bind].
  rewrite decode_heartbeat_payload by done. destruct Hok as (Hid & Hnul & Hints & _).
  cbn [ws_WorkerID sent_status]. rewrite decide_False by done. unfold UpsertWorkerStatus.
  cbn [ws_WorkerID ws_RunID ws_ActiveBuilds ws_BuildPoolSize ws_PlanPoolSize ws_HeartbeatIntervalSec sent_status].
  rewrite (decide_False (P := workerID = "")) by done. rewrite Hnul.
  cbn [sent_status ws_BuildPoolSize ws_PlanPoolSize] in Hints. rewrite Hints. done.
Qed.

End heartbeat.

Section samples.
Local Existing Instance tree_text.
Local Instance sorted_workers : WorkerSql := {| by_worker l := l; by_worker_perm l := Permutation_refl l |}.
Definition beating : Worker.WorkerConfig := Worker.fromEnv (λ k,
  if decide (k = "CONTROL_PLANE_URL") then "http://cp:8080/" else if decide (k = "CONTROL_PLANE_TOKEN") then "t" else "").
Definition later_beat : WorkerTable :=
  (@send beating "w1" "w1-7" WorkerTable (heartbeat_client "t" "http://cp:8080/" 5000000) _ live
     (mkShared 0 4 "" "") 2 ∅).2.
End samples.
