(* ===== verification/Metrics.v ===== *)
(** The handlers of the control plane an operator reads: [health], [ready],
    [metrics], [promMetrics], [config], [sessionToken], [builds], and those of the
    retry queue, [queueList], [queueStats], [queueEnqueue] and [queueClear]
    ([internal/api/handlers.go]).  Times of the tables are microseconds, those the
    handlers report are seconds. *)
From S2P Require Import Prelude.
From S2P Require Import GoStr.
From S2P Require Import Http.
From S2P Require Import Config.
From S2P Require Import Queue.
From S2P Require Import HintFeed.
From S2P Require Import Sql.
From S2P Require Import BuildStore.
From S2P Require Import Pending.
From S2P Require Import Settings.
From S2P Require Import HintAdmin.
From S2P Require Import Values.
From S2P Require Import History.
From S2P Require Import Env.
From S2P Require Import Workers.
From Stdlib Require Import Ascii.
Local Open Scope string_scope.
Local Open Scope list_scope.
Local Open Scope Z_scope.

(** What the handlers look at: whether the database answers (the error it gives
    otherwise), its tables, the retry queue and the queue of plans. *)
Record Panel (Q S : Type) := mkPanel {
  pa_db : option string; pa_planning : Planning; pa_events : list EventRow; pa_workers : WorkerTable;
  pa_hints : HintTable; pa_settings : option string; pa_queue : Q; pa_plans : S }.
Arguments mkPanel {Q S}. Arguments pa_db {Q S}. Arguments pa_planning {Q S}. Arguments pa_events {Q S}.
Arguments pa_workers {Q S}. Arguments pa_hints {Q S}. Arguments pa_settings {Q S}. Arguments pa_queue {Q S}.
Arguments pa_plans {Q S}.
Definition ask {Q S A} (p : Panel Q S) (a : A) : result A :=
  match pa_db p with None => Ok a | Some e => Err e end.
Definition with_retries {Q S} (q : Q) (p : Panel Q S) : Panel Q S :=
  mkPanel (pa_db p) (pa_planning p) (pa_events p) (pa_workers p) (pa_hints p) (pa_settings p) q (pa_plans p).
Definition with_plans {Q S} (s : S) (p : Panel Q S) : Panel Q S :=
  mkPanel (pa_db p) (pa_planning p) (pa_events p) (pa_workers p) (pa_hints p) (pa_settings p) (pa_queue p) s.

(** ** The body of [queueEnqueue] *)
Definition request_fields : list (string * (json → Request → option Request)) := [
  ("package", λ v r, x ← decode_string v (rq_Package r);
     Some (mkRequest x (rq_Version r) (rq_PythonVersion r) (rq_PythonTag r) (rq_PlatformTag r) (rq_Recipes r)
             (rq_EnqueuedAt r) (rq_Attempts r) (rq_PlanID r) (rq_RunID r)));
  ("version", λ v r, x ← decode_string v (rq_Version r);
     Some (mkRequest (rq_Package r) x (rq_PythonVersion r) (rq_PythonTag r) (rq_PlatformTag r) (rq_Recipes r)
             (rq_EnqueuedAt r) (rq_Attempts r) (rq_PlanID r) (rq_RunID r)));
  ("python_version", λ v r, x ← decode_string v (rq_PythonVersion r);
     Some (mkRequest (rq_Package r) (rq_Version r) x (rq_PythonTag r) (rq_PlatformTag r) (rq_Recipes r)
             (rq_EnqueuedAt r) (rq_Attempts r) (rq_PlanID r) (rq_RunID r)));
  ("python_tag", λ v r, x ← decode_string v (rq_PythonTag r);
     Some (mkRequest (rq_Package r) (rq_Version r) (rq_PythonVersion r) x (rq_PlatformTag r) (rq_Recipes r)
             (rq_EnqueuedAt r) (rq_Attempts r) (rq_PlanID r) (rq_RunID r)));
  ("platform_tag", λ v r, x ← decode_string v (rq_PlatformTag r);
     Some (mkRequest (rq_Package r) (rq_Version r) (rq_PythonVersion r) (rq_PythonTag r) x (rq_Recipes r)
             (rq_EnqueuedAt r) (rq_Attempts r) (rq_PlanID r) (rq_RunID r)));
  ("recipes", λ v r, x ← decode_strings v (Some (rq_Recipes r));
     Some (mkRequest (rq_Package r) (rq_Version r) (rq_PythonVersion r) (rq_PythonTag r) (rq_PlatformTag r)
             (default [] x) (rq_EnqueuedAt r) (rq_Attempts r) (rq_PlanID r) (rq_RunID r)));
  ("enqueued_at", λ v r, x ← decode_int v (rq_EnqueuedAt r);
     Some (mkRequest (rq_Package r) (rq_Version r) (rq_PythonVersion r) (rq_PythonTag r) (rq_PlatformTag r)
             (rq_Recipes r) x (rq_Attempts r) (rq_PlanID r) (rq_RunID r)));
  ("attempts", λ v r, x ← decode_int v (rq_Attempts r);
     Some (mkRequest (rq_Package r) (rq_Version r) (rq_PythonVersion r) (rq_PythonTag r) (rq_PlatformTag r)
             (rq_Recipes r) (rq_EnqueuedAt r) x (rq_PlanID r) (rq_RunID r))) ].
Definition decode_request (v : json) : option Request :=
  decode_struct request_fields v (mkRequest "" "" "" "" "" [] 0 0 0 "").

Section retry_queue.
Context {Q S : Type} `{Backend Q} (backend : string) (AutoBuild : bool).
Abbreviation Panel := (Panel Q S).

Record QueueListing := mkQueueListing {
  ql_Items : list Request; ql_Length : Z; ql_WorkerMode : string; ql_OldestAge : Z; ql_AutoBuild : bool }.
Definition queueList (now : Z) (meth : string) (p : Panel) : answer QueueListing * Panel :=
  if decide (meth ≠ "GET") then (Failed 405, p)
  else
    match q_List live (pa_queue p) with
    | (Err _, q) => (Failed 500, with_retries q p)
    | (Ok items, q) =>
      let '(stats, q) := q_Stats live now q in
      (Answer (mkQueueListing items (Z.of_nat (length items)) backend
                 (if stats is Ok st then st_OldestAge st else 0) AutoBuild), with_retries q p)
    end.
Definition queueStats (now : Z) (meth : string) (p : Panel) : answer Stats * Panel :=
  if decide (meth ≠ "GET") then (Failed 405, p)
  else let '(r, q) := q_Stats live now (pa_queue p) in (or_500 r, with_retries q p).
Definition queueEnqueue (now : Z) (meth : string) (body : option json) (p : Panel) : Z * Panel :=
  if decide (meth ≠ "POST") then (405, p)
  else
    match body ≫= decode_request with
    | None => (400, p)
    | Some req =>
      if decide (rq_Package req = "") then (400, p)
      else let '(e, q) := q_Enqueue live now req (pa_queue p) in
           (if e is None then 200 else 500, with_retries q p)
    end.
Definition queueClear (meth : string) (p : Panel) : Z * Panel :=
  if decide (meth ≠ "POST") then (405, p)
  else let '(e, q) := q_Clear live (pa_queue p) in (if e is None then 200 else 500, with_retries q p).

(** ** Health *)
Definition ping (now : Z) (p : Panel) : option string * Panel :=
  match pa_db p with
  | Some e => (Some e, p)
  | None => let '(r, q) := q_Stats live now (pa_queue p) in
            (if r is Err e then Some e else None, with_retries q p)
  end.
(** The HTTP status, the status in the answer, and its detail. *)
Definition health (now : Z) (p : Panel) : (Z * string * option string) * Panel :=
  let '(e, p) := ping now p in ((200, if e is None then "ok" else "degraded", e), p).
Definition ready (now : Z) (p : Panel) : (Z * string * option string) * Panel :=
  let '(e, p) := ping now p in
  ((if e is None then 200 else 503, if e is None then "ready" else "unready", e), p).
End retry_queue.

(** [builds]: the list of the build queue, and clearing it. *)
Inductive builds_reply := BuildList (l : list BuildStatus) | BuildsCleared (count : Z) | BuildsRefused.
Definition builds `{Database} (meth : string) (authorized : bool) (status pkg version limit plan_id : string)
    (t : Table) : (Z * builds_reply) * Table :=
  if decide (meth = "GET") then
    match (if decide (plan_id = "") then Some 0
           else match ParseInt plan_id with Some id => if decide (id <= 0) then None else Some id | None => None end) with
    | None => ((400, BuildsRefused), t)
    | Some planID =>
      match ListBuilds status (parseIntDefault ParseInt limit 200 1000) planID pkg version t with
      | Err _ => ((500, BuildsRefused), t)
      | Ok l => ((200, BuildList l), t)
      end
    end
  else if decide (meth = "DELETE") then
    if negb authorized then ((401, BuildsRefused), t)
    else let '(count, t') := DeleteBuilds status t in ((200, BuildsCleared count), t')
  else ((405, BuildsRefused), t).

(** The cookie [sessionToken] sets: its name, value and path. *)
Definition sessionToken (meth token : string) : Z * option (string * string * string) :=
  if decide (meth ≠ "POST") then (405, None)
  else if decide (token = "") then (400, None)
  else (200, Some ("worker_token", token, "/")).

(** ** Metrics *)
Record QueueMetrics := mkQueueMetrics {
  qm_Backend : string; qm_Length : Z; qm_OldestAgeSec : Z; qm_ConsumerState : string }.
Record MetricsView := mkMetricsView {
  mv_queue : QueueMetrics; mv_pending_count : Z; mv_plan_queue : Z; mv_build : QueueStats;
  mv_hints : Z; mv_workers : WorkerMetrics; mv_db : string * string; mv_status_counts : gmap string Z;
  mv_recent_failures : list History.Event; mv_auto_plan : bool; mv_auto_build : bool;
  mv_plan_pool : Z; mv_build_pool : Z }.
(** A sample of the Prometheus text: name, label and value. *)
Record Sample := mkSample { sa_name : string; sa_label : option (string * string); sa_value : Z }.

Section metrics.
Context {Q S : Type} `{Backend Q, Redis S, SqlOrder, WorkerSql, FillCodec Settings}.
Context (c : ControlPlane.CPConfig) (auto_plan auto_build : bool) (planq : option RedisQueue).
Abbreviation Panel := (Panel Q S).

Definition pool_sizes (p : Panel) : Z * Z :=
  match pa_db p, GetSettings (pa_settings p) with
  | None, Ok s => (st_PlanPoolSize s, st_BuildPoolSize s)
  | _, _ => (0, 0)
  end.
Definition or_zero (r : result Z) : Z := if r is Ok n then n else 0.
(** The length of the plan queue, when there is one and it answers. *)
Definition plan_queue_length (p : Panel) : result Z * Panel :=
  match planq with
  | None => (Err "no plan queue", p)
  | Some pq => let '(r, s) := PlanQueue_Len pq (pa_plans p) in (r, with_plans s p)
  end.

Definition metrics (now : Z) (meth : string) (p : Panel) : answer MetricsView * Panel :=
  if decide (meth ≠ "GET") then (Failed 405, p)
  else
    let sum := if ask p (Summary 10 (pa_events p)) is Ok s then s else mkSummary ∅ [] in
    let '(stats, q) := q_Stats live (epoch now) (pa_queue p) in
    let '(len, p1) := plan_queue_length (with_retries q p) in
    (Answer (mkMetricsView
      (match stats with
       | Ok st => mkQueueMetrics (ControlPlane.cp_QueueBackend c) (st_Length st) (st_OldestAge st) ""
       | Err e => mkQueueMetrics (ControlPlane.cp_QueueBackend c) 0 0 ("stats_error: " +:+ e)
       end)
      (or_zero (ask p (PendingInputCount "" (pa_planning p)))) (or_zero len)
      (if ask p (BuildQueueStats now (pn_builds (pa_planning p))) is Ok s
       then mkQueueStats (qs_Length s) (qs_OldestAgeSec s) (qs_Pending s) (qs_Retry s) 0 0
       else mkQueueStats 0 0 0 0 0 0)
      (or_zero (ask p (HintCount (pa_hints p))))
      (if ask p () is Ok _ then worker_metrics (epoch now) (pa_workers p) else mkWorkerMetrics 0 0 0 0)
      (match pa_db p with None => ("ok", "") | Some e => ("degraded", e) end)
      (sm_StatusCounts sum) (sm_Failures sum) auto_plan auto_build (pool_sizes p).1 (pool_sizes p).2), p1).

Definition gauge (name : string) (v : Z) : Sample := mkSample name None v.
Definition promMetrics (now : Z) (meth : string) (p : Panel) : answer (list Sample) * Panel :=
  if decide (meth ≠ "GET") then (Failed 405, p)
  else
    let counts := if ask p (Summary 10 (pa_events p)) is Ok s then sm_StatusCounts s else ∅ in
    let '(qstats, q1) := q_Stats live (epoch now) (pa_queue p) in
    let '(buildStats, q2) := q_Stats live (epoch now) q1 in
    let field (f : Stats → Z) (r : result Stats) := if r is Ok st then f st else 0 in
    let '(len, p1) := plan_queue_length (with_retries q2 p) in
    (Answer
      ([mkSample "refinery_queue_length" (Some ("backend", ControlPlane.cp_QueueBackend c)) (field st_Length qstats);
        gauge "refinery_queue_oldest_seconds" (field st_OldestAge qstats);
        gauge "refinery_build_queue_length" (field st_Length buildStats);
        gauge "refinery_build_queue_oldest_seconds" (field st_OldestAge buildStats);
        gauge "refinery_pool_size_plan" (pool_sizes p).1;
        gauge "refinery_pool_size_build" (pool_sizes p).2] ++
       match len with Ok n => [gauge "refinery_plan_queue_length" n] | Err _ => [] end ++
       match ask p (ListPendingInputs "" (pa_planning p)) with
       | Ok l => [gauge "refinery_pending_inputs_total" (Z.of_nat (length l))]
       | Err _ => []
       end ++
       match ask p (ListWorkers (pa_workers p)) with
       | Ok l => [gauge "refinery_workers_total" (Z.of_nat (length l));
                  gauge "refinery_workers_online"
                    (Z.of_nat (length (filter (λ ws, online (epoch now) ws = true) l)))]
       | Err _ => []
       end ++
       [gauge "refinery_db_up" (if pa_db p is None then 1 else 0)] ++
       ((λ kn, mkSample "refinery_status_count" (Some ("status", kn.1)) kn.2) <$> map_to_list counts)), p1).
End metrics.

(** ** The configuration as [config] shows it *)
Record ConfigView := mkConfigView {
  cv_strings : list (string * string); cv_flags : list (string * bool);
  cv_input_object : string * string * string; cv_settings : Settings }.
Definition config `{Machine, FillCodec Settings} (c : ControlPlane.CPConfig) (meth : string) (fs : Files)
    : answer ConfigView :=
  get meth
    (let current := Load (ControlPlane.cp_SettingsPath c) fs in
     let set s := negb (bool_decide (s = "")) in
     Answer (mkConfigView
      [("http_addr", ControlPlane.cp_HTTPAddr c); ("queue_backend", ControlPlane.cp_QueueBackend c);
       ("queue_file", ControlPlane.cp_QueueFile c); ("redis_url", ControlPlane.cp_RedisURL c);
       ("redis_key", ControlPlane.cp_RedisKey c); ("plan_redis_key", ControlPlane.cp_PlanRedisKey c);
       ("kafka_brokers", ControlPlane.cp_KafkaBrokers c); ("kafka_topic", ControlPlane.cp_KafkaTopic c);
       ("db", "postgres"); ("settings_path", ControlPlane.cp_SettingsPath c);
       ("hints_dir", ControlPlane.cp_HintsDir c)]
      [("worker_webhook", set (ControlPlane.cp_WorkerWebhookURL c));
       ("worker_local_cmd", set (ControlPlane.cp_WorkerLocalCmd c));
       ("hints_seed", ControlPlane.cp_SeedHints c); ("auto_plan", BoolValue (st_AutoPlan current));
       ("auto_build", BoolValue (st_AutoBuild current))]
      (ControlPlane.cp_ObjectStoreEndpoint c, ControlPlane.cp_ObjectStoreBucket c, ControlPlane.cp_InputObjectPrefix c)
      current)).

(** ** Theorems *)
Section facts.
Context {Q S : Type} `{Backend Q, Redis S, SqlOrder, WorkerSql, FillCodec Settings}.
Context (c : ControlPlane.CPConfig) (auto_plan auto_build : bool) (planq : option RedisQueue).
Abbreviation metrics := (metrics (Q := Q) (S := S) c auto_plan auto_build planq).
Abbreviation promMetrics := (promMetrics (Q := Q) (S := S) c planq).

(** What [metrics] shows of the samples of [promMetrics], by name and label. *)
Definition shown (m : MetricsView) (s : Sample) : option Z :=
  let n := sa_name s in
  if decide (n = "refinery_queue_length") then Some (qm_Length (mv_queue m))
  else if decide (n = "refinery_queue_oldest_seconds") then Some (qm_OldestAgeSec (mv_queue m))
  else if decide (n = "refinery_pool_size_plan") then Some (mv_plan_pool m)
  else if decide (n = "refinery_pool_size_build") then Some (mv_build_pool m)
  else if decide (n = "refinery_plan_queue_length") then Some (mv_plan_queue m)
  else if decide (n = "refinery_pending_inputs_total") then Some (mv_pending_count m)
  else if decide (n = "refinery_workers_total") then Some (wm_Total (mv_workers m))
  else if decide (n = "refinery_workers_online") then Some (wm_Online (mv_workers m))
  else if decide (n = "refinery_db_up") then Some (if decide ((mv_db m).1 = "ok") then 1 else 0)
  else if decide (n = "refinery_status_count") then
    match sa_label s with Some (_, status) => mv_status_counts m !! status | None => None end
  else None.
Definition build_queue_sample (s : Sample) : Prop :=
  sa_name s ∈ ["refinery_build_queue_length"; "refinery_build_queue_oldest_seconds"].

Lemma pending_counts p : PendingInputCount "" p = Z.of_nat (length (ListPendingInputs "" p)).
Proof using Type. unfold PendingInputCount, ListPendingInputs. by rewrite length_fmap, order_desc_perm. Qed.
Lemma worker_counts now t :
  wm_Total (worker_metrics now t) = Z.of_nat (length (ListWorkers t)) ∧
  wm_Online (worker_metrics now t) = Z.of_nat (length (filter (λ ws, online now ws = true) (ListWorkers t))).
Proof using Type. unfold worker_metrics. rewrite count_workers. cbn [wm_Total wm_Online]. lia. Qed.

End facts.

(** ** The retry queue behind its handlers *)
Section retries.
Context {Q S : Type} (q_stamp : Z → Request → Request) `{B : Backend Q, !LawfulBackend Q q_stamp}.
Context (backend : string) (AutoBuild : bool).

End retries.

(** [ready] is the health of both stores: the database and the retry queue. *)
Lemma ready_iff {Q S} `{Backend Q} now (p : Panel Q S) :
  ((ready now p).1.1.1 = 200 ↔ pa_db p = None ∧ is_ok (q_Stats live now (pa_queue p)).1 = true) ∧
  (health now p).1.1.1 = 200.
Proof.
  unfold ready, health, ping. destruct (pa_db p); [naive_solver|].
  destruct (q_Stats live now (pa_queue p)) as [[st|e] q]; naive_solver.
Qed.

(** The settings a store keeps are not those [config] shows. *)
Lemma config_stale `{Machine, FillCodec Settings} {S} c path meth body (h : Host S) m :
  ho_store h = true → config c m (ho_files (settings path meth body h).2) = config c m (ho_files h).
Proof. intros Hs. unfold settings. rewrite Hs. by repeat case_match. Qed.

(** The build queue of the Prometheus text is not the build queue: whatever builds the
    table holds, the text is the same. *)
Lemma prom_ignores_builds {Q S} `{Backend Q, Redis S, SqlOrder, WorkerSql, FillCodec Settings}
    c planq now meth (p : Panel Q S) t :
  let p' := mkPanel (pa_db p) (with_builds t (pa_planning p)) (pa_events p) (pa_workers p) (pa_hints p)
              (pa_settings p) (pa_queue p) (pa_plans p) in
  (promMetrics c planq now meth p').1 = (promMetrics c planq now meth p).1.
Proof.
  intros p'. unfold promMetrics. destruct (decide (meth ≠ "GET")); [done|]. cbn [pa_queue pa_db p'].
  destruct (q_Stats live (epoch now) (pa_queue p)) as [qs q1].
  destruct (q_Stats live (epoch now) q1) as [bs q2]. unfold plan_queue_length. cbn [pa_plans with_retries p'].
  destruct planq as [pq|]; [destruct (PlanQueue_Len pq (pa_plans p))|]; done.
Qed.

Definition posted_retry : Z * Panel Files unit :=
  @queueEnqueue Files unit sample_file_queue 7 "POST" (Some (JsObj [("package", JsStr "six")]))
    (mkPanel None empty_planning [] ∅ ∅ None ∅ ()).
