(* ===== verification/Service.v ===== *)
(** The worker's service ([go-worker/internal/service/service.go],
    [build_loop.go]): how [runDrain] keeps the drains of the build loop and of the
    [/trigger] requests apart, and the handlers of its HTTP server.

    A drain is the list of its actions on the state of the worker, which the
    goroutines of the service may interleave; [CompareAndSwap] and [Store] of the
    flag [drainInProgress] are single steps. *)
From S2P Require Import Prelude.
From S2P Require Import GoStr.
From S2P Require Import Http.
From S2P Require Import Artifact.
From S2P Require Import Cas.
From S2P Require Import Planner.
From S2P Require Import PlanTypes.
From S2P Require Import Hints.
From S2P Require Import Queue.
From S2P Require Import Generate.
From S2P Require Import Config.
From S2P Require Import HintFeed.
From S2P Require Import BuildStore.
From S2P Require Import Env.
From Stdlib Require Import Ascii.
From Stdlib Require Import Relations.
Local Open Scope string_scope.
Local Open Scope list_scope.
Local Open Scope nat_scope.

(** ** [runDrain] *)
Section drains.
Context {D : Type} (RunOnce : nat → list (D → D)).

(** A call of [runDrain]: not begun, inside with the actions it has left, returned
    [true], or returned [false] because a drain was in progress. *)
Inductive call := Calling | Inside (rest : list (D → D)) | Ran | Skipped.
(** [sv_entered] records the calls that got in, in that order. *)
Record Service := mkService { sv_d : D; sv_drainInProgress : bool; sv_calls : list call; sv_entered : list nat }.
Definition start (d : D) : Service := mkService d false [] [].
Definition set_call (i : nat) (c : call) (s : Service) : list call := <[i := c]> (sv_calls s).

Inductive step (s : Service) : Service → Prop :=
  | Arrive : step s (mkService (sv_d s) (sv_drainInProgress s) (sv_calls s ++ [Calling]) (sv_entered s))
  | Swap i : sv_calls s !! i = Some Calling → sv_drainInProgress s = false →
      step s (mkService (sv_d s) true (set_call i (Inside (RunOnce i)) s) (sv_entered s ++ [i]))
  | Skip i : sv_calls s !! i = Some Calling → sv_drainInProgress s = true →
      step s (mkService (sv_d s) true (set_call i Skipped s) (sv_entered s))
  | Act i f rest : sv_calls s !! i = Some (Inside (f :: rest)) →
      step s (mkService (f (sv_d s)) (sv_drainInProgress s) (set_call i (Inside rest) s) (sv_entered s))
  | Leave i : sv_calls s !! i = Some (Inside []) →
      step s (mkService (sv_d s) false (set_call i Ran s) (sv_entered s)).
Abbreviation reachable d := (rtc step (start d)).

(** The reference: whole drains, one after the other. *)
Definition run_all (fs : list (D → D)) (d : D) : D := foldl (λ d f, f d) d fs.
Definition one_by_one (l : list nat) (d : D) : D := foldl (λ d i, run_all (RunOnce i) d) d l.

(** What holds in every state: the flag is set exactly while one call is inside,
    which is the last that got in; what it has done and has left make its drain. *)
Definition entered (c : call) : bool := match c with Inside _ | Ran => true | _ => false end.
Record service_inv (d0 : D) (s : Service) : Prop := {
  inv_entered i : i ∈ sv_entered s ↔ from_option entered false (sv_calls s !! i) = true;
  inv_nodup : NoDup (sv_entered s);
  inv_free : sv_drainInProgress s = false →
    (∀ i rest, sv_calls s !! i ≠ Some (Inside rest)) ∧ sv_d s = one_by_one (sv_entered s) d0;
  inv_busy : sv_drainInProgress s = true → ∃ before i did rest,
    sv_entered s = before ++ [i] ∧ sv_calls s !! i = Some (Inside rest) ∧ RunOnce i = did ++ rest ∧
    sv_d s = run_all did (one_by_one before d0) ∧ ∀ j r, sv_calls s !! j = Some (Inside r) → j = i }.

Lemma one_by_one_snoc l i d : one_by_one (l ++ [i]) d = run_all (RunOnce i) (one_by_one l d).
Proof using Type. unfold one_by_one. by rewrite foldl_app. Qed.
Lemma start_inv d : service_inv d (start d).
Proof using Type.
  split; [|constructor|done|done]. intros i. cbn. split; [by intros ?%elem_of_nil|done].
Qed.
Lemma set_call_entered i c s c0 j : sv_calls s !! i = Some c0 → entered c = entered c0 →
  from_option entered false (set_call i c s !! j) = from_option entered false (sv_calls s !! j).
Proof using Type.
  intros Hi Hc. unfold set_call. destruct (decide (j = i)) as [->|Hne].
  - rewrite list_lookup_insert_eq by (by eapply lookup_lt_Some). by rewrite Hi.
  - by rewrite list_lookup_insert_ne.
Qed.
Lemma set_call_at i c s : is_Some (sv_calls s !! i) → set_call i c s !! i = Some c.
Proof using Type. intros [c0 Hi]. apply list_lookup_insert_eq. by eapply lookup_lt_Some. Qed.
Lemma set_call_inside i c s j r : set_call i c s !! j = Some (Inside r) →
  (j = i ∧ c = Inside r) ∨ (j ≠ i ∧ sv_calls s !! j = Some (Inside r)).
Proof using Type.
  clear RunOnce. unfold set_call. intros Hj%list_lookup_insert_Some. naive_solver.
Qed.

Lemma step_inv d0 s s' : service_inv d0 s → step s s' → service_inv d0 s'.
Proof using Type.
  intros [Hent Hnd Hfree Hbusy] Hstep. destruct Hstep as [|i Hi Hf|i Hi Hf|i f rest Hi|i Hi].
  - assert (Hold : ∀ j r, (sv_calls s ++ [Calling]) !! j = Some (Inside r) → sv_calls s !! j = Some (Inside r))
      by (intros j r [?|[? ?%list_lookup_singleton_Some]]%lookup_app_Some; naive_solver).
    split; cbn [sv_d sv_drainInProgress sv_calls sv_entered]; [|done| |].
    + intros j. rewrite Hent. destruct (decide (j < length (sv_calls s))) as [Hlt|Hge].
      * by rewrite lookup_app_l.
      * rewrite (lookup_ge_None_2 (sv_calls s)), lookup_app_r by lia.
        destruct (j - length (sv_calls s)) as [|[|?]]; by cbn.
    + intros Hf. destruct (Hfree Hf) as [Hno Hd]. split; [|done]. intros j r Hj%Hold. by eapply Hno.
    + intros Hb. destruct (Hbusy Hb) as (before & i & did & rest & He & Hi & Hdid & Hd & Hone).
      exists before, i, did, rest. split; [done|]. split; [by apply lookup_app_l_Some|]. split; [done|].
      split; [done|]. intros j r Hj%Hold. by eapply Hone.
  - destruct (Hfree Hf) as [Hno Hd]. split; cbn [sv_d sv_drainInProgress sv_calls sv_entered]; [| |done|].
    + intros j. rewrite elem_of_app, list_elem_of_singleton, Hent. destruct (decide (j = i)) as [->|Hne].
      * rewrite set_call_at by done. cbn. naive_solver.
      * unfold set_call. rewrite list_lookup_insert_ne by done. naive_solver.
    + apply NoDup_app. split; [done|]. split; [|apply NoDup_singleton]. intros j Hj%Hent ->%list_elem_of_singleton.
      by rewrite Hi in Hj.
    + intros _. exists (sv_entered s), i, [], (RunOnce i). split; [done|]. split; [by apply set_call_at|].
      split; [done|]. split; [done|]. intros j r [[-> _]|[_ Hj]]%set_call_inside; [done|by apply Hno in Hj].
  - split; cbn [sv_d sv_drainInProgress sv_calls sv_entered]; [|done|done|].
    + intros j. rewrite Hent. by rewrite (set_call_entered i Skipped s Calling).
    + intros _. destruct (Hbusy Hf) as (before & k & did & rest & He & Hk & Hdid & Hd & Hone).
      exists before, k, did, rest. split; [done|]. split; [|split; [done|split; [done|]]].
      * unfold set_call. rewrite list_lookup_insert_ne; [done|]. intros ->. by rewrite Hk in Hi.
      * intros j r [[_ [=]]|[_ Hj]]%set_call_inside. by eapply Hone.
  - destruct (sv_drainInProgress s) eqn:Hb; [|by destruct (Hfree eq_refl) as [Hno _]; apply Hno in Hi].
    destruct (Hbusy eq_refl) as (before & k & did & rest' & He & Hk & Hdid & Hd & Hone).
    pose proof (Hone _ _ Hi) as ->. rewrite Hi in Hk. injection Hk as <-.
    split; cbn [sv_d sv_drainInProgress sv_calls sv_entered]; [|done|done|].
    + intros j. rewrite Hent. by rewrite (set_call_entered k (Inside rest) s (Inside (f :: rest))).
    + intros _. exists before, k, (did ++ [f]), rest. split; [done|]. split; [by apply set_call_at|].
      split; [by rewrite <-(assoc_L app)|]. split; [unfold run_all in *; by rewrite foldl_app, <-Hd|].
      intros j r [[-> _]|[_ Hj]]%set_call_inside; [done|by eapply Hone].
  - destruct (sv_drainInProgress s) eqn:Hb; [|by destruct (Hfree eq_refl) as [Hno _]; apply Hno in Hi].
    destruct (Hbusy eq_refl) as (before & k & did & rest' & He & Hk & Hdid & Hd & Hone).
    pose proof (Hone _ _ Hi) as ->. rewrite Hi in Hk. injection Hk as <-.
    split; cbn [sv_d sv_drainInProgress sv_calls sv_entered]; [|done| |done].
    + intros j. rewrite Hent. by rewrite (set_call_entered k Ran s (Inside [])).
    + intros _. split.
      * intros j r [[_ [=]]|[Hne Hj]]%set_call_inside. by apply Hone in Hj.
      * rewrite He, one_by_one_snoc, Hd. by rewrite Hdid, (right_id_L [] app).
Qed.
Lemma reachable_inv d s : reachable d s → service_inv d s.
Proof using Type.
  intros Hr. eapply (rtc_ind_r (service_inv d) (start d)); [apply start_inv| |done].
  intros y z _ Hyz IH. by eapply step_inv.
Qed.

(** C6. At most one drain runs at any time, whatever the build loop and the requests
    do: while one runs, the flag refuses every other, and what the worker's state has
    seen are the whole drains that got in before, one after the other, and then the
    part of the running one that is done; a drain that ends lets the next one in. *)
Theorem drains_one_at_a_time d s : reachable d s →
  (∀ i j r r', sv_calls s !! i = Some (Inside r) → sv_calls s !! j = Some (Inside r') → i = j) ∧
  (sv_drainInProgress s = true ↔ ∃ i r, sv_calls s !! i = Some (Inside r)) ∧
  NoDup (sv_entered s) ∧
  (sv_drainInProgress s = false → sv_d s = one_by_one (sv_entered s) d) ∧
  (∀ i rest, sv_calls s !! i = Some (Inside rest) → ∃ before did,
     sv_entered s = before ++ [i] ∧ RunOnce i = did ++ rest ∧ sv_d s = run_all did (one_by_one before d)).
Proof using Type.
  intros Hr. destruct (reachable_inv d s Hr) as [_ Hnd Hfree Hbusy].
  destruct (sv_drainInProgress s); [destruct (Hbusy eq_refl) as (before & k & did & rest & He & Hk & Hdid & Hd & Hone)|
    destruct (Hfree eq_refl) as [Hno Hd]].
  - split; [|split; [|split; [done|split; [done|]]]].
    + intros i j r r' Hi Hj. rewrite (Hone _ _ Hi). by rewrite (Hone _ _ Hj).
    + split; [intros _; by exists k, rest|done].
    + intros i r Hi. pose proof (Hone _ _ Hi) as ->. rewrite Hk in Hi. injection Hi as <-. by exists before, did.
  - split; [intros i j r r' Hi; by apply Hno in Hi|]. split; [split; [done|intros (i & r & Hi); by apply Hno in Hi]|].
    split; [done|split; [done|]]. intros i r Hi. by apply Hno in Hi.
Qed.
End drains.

(** Two calls: the first drain writes twice; the second call comes in between. *)
Definition write_twice (i : nat) : list (list nat → list nat) := [λ l, l ++ [i]; λ l, l ++ [i]].
Definition mid_drain : Service := mkService [0] true [Inside [λ l, l ++ [0]]; Skipped] [0].
Lemma drains_one_at_a_time_witness :
  rtc (step write_twice) (start []) mid_drain ∧ NoDup (sv_entered mid_drain).
Proof.
  assert (Hr : rtc (step write_twice) (start []) mid_drain).
  { eapply rtc_l; [apply Arrive|]. eapply rtc_l; [apply Arrive|]. eapply rtc_l; [by apply (Swap _ _ 0)|].
    eapply rtc_l; [by apply (Skip _ _ 1)|]. eapply rtc_l; [by eapply (Act _ _ 0)|]. apply rtc_refl. }
  split; [done|]. by apply (drains_one_at_a_time write_twice [] mid_drain Hr).
Defined.

(** ** The handlers *)
(** [runDrain] as its caller sees it: whether it ran, and its error. *)
Definition runDrain {D} (busy : bool) (RunOnce : D → option string * D) (d : D) : (bool * option string) * D :=
  if busy then ((false, None), d) else let '(e, d') := RunOnce d in ((true, e), d').
(** The HTTP status, and the message in the body. *)
Definition worker_health : Z * string := (200%Z, "ok").
Definition worker_ready : Z * string := (200%Z, "ready").
Definition trigger {D} (meth : string) (authorized busy : bool) (RunOnce : D → option string * D) (d : D)
    : (Z * string) * D :=
  if decide (meth ≠ "POST") then ((405%Z, ""), d)
  else if negb authorized then ((403%Z, ""), d)
  else match runDrain busy RunOnce d with
       | ((false, _), d') => ((409%Z, "worker already running"), d')
       | ((true, Some e), d') => ((500%Z, e), d')
       | ((true, None), d') => ((200%Z, "worker ran"), d')
       end.
Definition build_interval (c : Worker.WorkerConfig) : Z :=
  if decide (Worker.wc_BuildPollIntervalSec c <= 0)%Z then 5 else Worker.wc_BuildPollIntervalSec c.
(** [buildLoop], one turn for each tick of its timer: whether it finds a drain in
    progress, and what is done meanwhile. *)
Fixpoint buildLoop {D} (turns : list (bool * (D → D))) (RunOnce : D → option string * D) (d : D) : D :=
  match turns with
  | [] => d
  | (busy, meanwhile) :: turns => buildLoop turns RunOnce (meanwhile (runDrain busy RunOnce d).2)
  end.

(** *** The plan *)
(** The message of an error, a snapshot, or nothing. *)
Inductive plan_reply := PlanError (e : string) | PlanOf (snap : Snapshot) | PlanNothing.
Section plan.
Context `{GoRuntime, Sha256, CasStore, Regexp, Machine, Zip, IndexPeer, Codec Snapshot}.
Context {W : Type} `{HttpClient W} (decode_hints : string → option (list Hint)).
Context (env : string → string) (decode_overrides : string → option (gmap string string)).
Context (c : Worker.WorkerConfig) (runID : string).
Abbreviation cfg := (Worker.wc_cfg c).

Definition plan_args (hints : list Hint) : GenerateArgs :=
  mkGenerateArgs (cf_CacheDir cfg) (cf_PythonVersion cfg) (cf_PlatformTag cfg) (Worker.wc_IndexURL c)
    (Worker.wc_ExtraIndexURL c) (Worker.wc_UpgradeStrategy c) (Worker.wc_ConstraintsPath c) hints None
    (cf_CASRegistryURL cfg) (cf_CASRegistryRepo cfg).
Definition plan_get (fs : Files) : Z * plan_reply :=
  match Load (path_join (cf_OutputDir cfg) "plan.json") fs with
  | Ok snap => (200%Z, PlanOf snap)
  | Err _ => match Load (path_join (cf_CacheDir cfg) "plan.json") fs with
             | Ok snap => (200%Z, PlanOf snap)
             | Err _ => (404%Z, PlanError "plan not found")
             end
  end.
(** [None]: the handler does not answer, as [Generate] panics or the hints do not
    end.  An error of [fetchHints] leaves the hints read before it. *)
Definition plan_post (fuel : nat) (authorized : bool) (s : Files * W) : option ((Z * plan_reply) * (Files * W)) :=
  if decide (Worker.wc_InputDir c = "")
  then Some ((400%Z, PlanError "input dir disabled; use pending-input planning"), s)
  else if negb authorized then Some ((403%Z, PlanNothing), s)
  else
    '(hints, _, w) ← fetchHints decode_hints cfg fuel live s.2;
    '(r, fs) ← Generate env ParseInt decode_overrides runID (Worker.wc_InputDir c) (Worker.wc_RequirementsPath c)
                 (plan_args hints) s.1;
    Some (match r with Err e => (500%Z, PlanError e) | Ok snap => (200%Z, PlanOf snap) end, (fs, w)).
Definition plan_handler (fuel : nat) (meth : string) (authorized : bool) (s : Files * W)
    : option ((Z * plan_reply) * (Files * W)) :=
  if decide (meth = "GET") then Some (plan_get s.1, s)
  else if decide (meth = "POST") then plan_post fuel authorized s
  else Some ((405%Z, PlanNothing), s).
End plan.
