(* ===== verification/PlanProxy.v ===== *)
(** The control plane as the client of the worker ([internal/api/handlers.go]):
    [workerTrigger], [workerSmoke] and [planCompute] with [callWorkerWebhook],
    [callWorkerLocal] and [callWorkerPlan]; the JSON of the snapshot the worker's
    [/plan] answers, as [encoding/json] writes it from the struct tags of
    [go-worker/internal/plan/plan.go] and [hints.go], and as the control plane reads
    it into the nodes of [internal/store/store.go].

    [json.Unmarshal] goes on after a value of the wrong type, and [planCompute]
    ignores its error: a field of a wrong type stays as it is. *)
From S2P Require Import Prelude.
From S2P Require Import GoStr.
From S2P Require Import Http.
From S2P Require Import Artifact.
From S2P Require Import PlanTypes.
From S2P Require Import Queue.
From S2P Require Import Config.
From S2P Require Import HintFeed.
From S2P Require Import BuildStore.
From S2P Require Import Pending.
From S2P Require Import Values.
From S2P Require Import History.
From S2P Require Import Reports.
From S2P Require Import HistoryFacts.
From S2P Require Import HistoryTheorems.
From S2P Require Import Planner.
From S2P Require Import Hints.
From S2P Require Import Generate.
From S2P Require Import Codecs.
From S2P Require Import GenerateTheorems.
From S2P Require Import Samples.
From S2P Require Import Env.
From S2P Require Import Service.
From S2P Require Import Metrics.
From Stdlib Require Import Ascii.
Local Open Scope string_scope.
Local Open Scope list_scope.
Local Open Scope Z_scope.

(** ** The snapshot the worker writes *)
Definition omit_string (k s : string) : list (string * json) := if decide (s = "") then [] else [(k, JsStr s)].
Definition omit_list {A} (k : string) (f : A → json) (l : list A) : list (string * json) :=
  match l with [] => [] | _ => [(k, JsArr (f <$> l))] end.
Definition string_lists_json (m : gmap string (list string)) : json :=
  JsObj ((λ kv, (kv.1, js_strings kv.2)) <$> map_to_list m).
Definition hint_json (h : HintMatch) : json :=
  JsObj ([("id", JsStr (hm_ID h))] ++ omit_string "pattern" (hm_Pattern h) ++ omit_string "note" (hm_Note h) ++
         omit_string "reason" (hm_Reason h) ++ omit_list "tags" JsStr (hm_Tags h) ++
         (if decide (hm_Recipes h = ∅) then [] else [("recipes", string_lists_json (hm_Recipes h))])).
Definition recipe_json (r : RecipeMatch) : json :=
  JsObj ([("name", JsStr (rm_Name r))] ++ omit_string "version" (rm_Version r) ++ omit_string "reason" (rm_Reason r)).
Definition node_json (n : FlatNode) : json :=
  JsObj ([("name", JsStr (fn_Name n)); ("version", JsStr (fn_Version n))] ++
         omit_string "python_version" (fn_PythonVersion n) ++
         [("python_tag", JsStr (fn_PythonTag n)); ("platform_tag", JsStr (fn_PlatformTag n));
          ("action", JsStr (fn_Action n))] ++
         omit_list "hints" hint_json (fn_Hints n) ++ omit_list "recipes" recipe_json (fn_Recipes n)).
(** The JSON of the DAG is a parameter. *)
Definition snapshot_json (dag_json : list DAGNode → json) (s : Snapshot) : json :=
  JsObj ([("run_id", JsStr (sn_RunID s)); ("plan", JsArr (node_json <$> sn_Plan s))] ++
         match sn_DAG s with [] => [] | _ => [("dag", dag_json (sn_DAG s))] end ++
         match sn_CAS s with
         | None => []
         | Some cas => [("cas", JsObj (omit_string "registry_url" (ci_RegistryURL cas) ++
                                       omit_string "registry_repo" (ci_RegistryRepo cas)))]
         end).

(** ** The nodes the control plane reads *)
Definition fill_string (v : json) (old : string) : string := match v with JsStr s => s | _ => old end.
(** The elements are read over those of the slice the field had. *)
Definition fill_slice {A} (elem : json → A → A) (zero : A) (v : json) (old : list A) : list A :=
  match v with
  | JsNull => []
  | JsArr l => imap (λ i x, elem x (default zero (old !! i))) l
  | _ => old
  end.
Definition fill_strings : json → list string → list string := fill_slice fill_string "".
Definition fill_lists (v : json) (old : gmap string (list string)) : gmap string (list string) :=
  match v with
  | JsNull => ∅
  | JsObj l => foldl (λ m kv, <[kv.1 := fill_strings kv.2 []]> m) old l
  | _ => old
  end.
Definition fill_struct {A} (fields : list (string * (json → A → option A))) (v : json) (old : A) : A :=
  default old (decode_struct fields v old).

Definition hint_match_fields : list (string * (json → HintMatch → option HintMatch)) := [
  ("id", λ v h, Some (mkHintMatch (fill_string v (hm_ID h)) (hm_Pattern h) (hm_Note h) (hm_Reason h) (hm_Tags h) (hm_Recipes h)));
  ("pattern", λ v h, Some (mkHintMatch (hm_ID h) (fill_string v (hm_Pattern h)) (hm_Note h) (hm_Reason h) (hm_Tags h) (hm_Recipes h)));
  ("note", λ v h, Some (mkHintMatch (hm_ID h) (hm_Pattern h) (fill_string v (hm_Note h)) (hm_Reason h) (hm_Tags h) (hm_Recipes h)));
  ("reason", λ v h, Some (mkHintMatch (hm_ID h) (hm_Pattern h) (hm_Note h) (fill_string v (hm_Reason h)) (hm_Tags h) (hm_Recipes h)));
  ("tags", λ v h, Some (mkHintMatch (hm_ID h) (hm_Pattern h) (hm_Note h) (hm_Reason h) (fill_strings v (hm_Tags h)) (hm_Recipes h)));
  ("recipes", λ v h, Some (mkHintMatch (hm_ID h) (hm_Pattern h) (hm_Note h) (hm_Reason h) (hm_Tags h) (fill_lists v (hm_Recipes h)))) ].
Definition zero_hint_match : HintMatch := mkHintMatch "" "" "" "" [] ∅.
Definition recipe_fields : list (string * (json → RecipeMatch → option RecipeMatch)) := [
  ("name", λ v r, Some (mkRecipeMatch (fill_string v (rm_Name r)) (rm_Version r) (rm_Reason r)));
  ("version", λ v r, Some (mkRecipeMatch (rm_Name r) (fill_string v (rm_Version r)) (rm_Reason r)));
  ("reason", λ v r, Some (mkRecipeMatch (rm_Name r) (rm_Version r) (fill_string v (rm_Reason r)))) ].
Definition zero_recipe : RecipeMatch := mkRecipeMatch "" "" "".
Definition node_fields : list (string * (json → FlatNode → option FlatNode)) := [
  ("name", λ v n, Some (mkFlatNode (fill_string v (fn_Name n)) (fn_Version n) (fn_PythonVersion n) (fn_PythonTag n)
     (fn_PlatformTag n) (fn_Action n) (fn_Hints n) (fn_Recipes n)));
  ("version", λ v n, Some (mkFlatNode (fn_Name n) (fill_string v (fn_Version n)) (fn_PythonVersion n) (fn_PythonTag n)
     (fn_PlatformTag n) (fn_Action n) (fn_Hints n) (fn_Recipes n)));
  ("python_version", λ v n, Some (mkFlatNode (fn_Name n) (fn_Version n) (fill_string v (fn_PythonVersion n))
     (fn_PythonTag n) (fn_PlatformTag n) (fn_Action n) (fn_Hints n) (fn_Recipes n)));
  ("python_tag", λ v n, Some (mkFlatNode (fn_Name n) (fn_Version n) (fn_PythonVersion n)
     (fill_string v (fn_PythonTag n)) (fn_PlatformTag n) (fn_Action n) (fn_Hints n) (fn_Recipes n)));
  ("platform_tag", λ v n, Some (mkFlatNode (fn_Name n) (fn_Version n) (fn_PythonVersion n) (fn_PythonTag n)
     (fill_string v (fn_PlatformTag n)) (fn_Action n) (fn_Hints n) (fn_Recipes n)));
  ("action", λ v n, Some (mkFlatNode (fn_Name n) (fn_Version n) (fn_PythonVersion n) (fn_PythonTag n)
     (fn_PlatformTag n) (fill_string v (fn_Action n)) (fn_Hints n) (fn_Recipes n)));
  ("hints", λ v n, Some (mkFlatNode (fn_Name n) (fn_Version n) (fn_PythonVersion n) (fn_PythonTag n)
     (fn_PlatformTag n) (fn_Action n) (fill_slice (fill_struct hint_match_fields) zero_hint_match v (fn_Hints n))
     (fn_Recipes n)));
  ("recipes", λ v n, Some (mkFlatNode (fn_Name n) (fn_Version n) (fn_PythonVersion n) (fn_PythonTag n)
     (fn_PlatformTag n) (fn_Action n) (fn_Hints n)
     (fill_slice (fill_struct recipe_fields) zero_recipe v (fn_Recipes n)))) ].
Definition zero_node : FlatNode := mkFlatNode "" "" "" "" "" "" [] [].
Definition fill_nodes (v : json) : list FlatNode := fill_slice (fill_struct node_fields) zero_node v [].

(** ** [planCompute] *)
(** [toString] of the value of a map, nil when it is not there. *)
Definition toString `{JsonText} (v : option json) : string :=
  match v with None | Some JsNull => "" | Some (JsStr s) => s | Some v => json_write v end.
(** The nodes, and the second way of reading them, for a plan of which the first gave
    none. *)
Definition snapshot_nodes `{JsonText} (snap : gmap string json) : list FlatNode :=
  let nodes := from_option fill_nodes [] (snap !! "plan") in
  if decide (nodes ≠ []) then nodes
  else match snap !! "plan" with
       | Some (JsArr l) =>
         omap (λ raw, match raw with
                      | JsObj ps =>
                        let m : gmap string json := fill_map ps in
                        Some (mkFlatNode (toString (m !! "name")) (toString (m !! "version"))
                                (toString (m !! "python_version")) (toString (m !! "python_tag"))
                                (toString (m !! "platform_tag")) (toString (m !! "action")) [] [])
                      | _ => None
                      end) l
       | _ => []
       end.
Definition replace_first (s old new : string) : string :=
  match Index s old with
  | None => s
  | Some i => str_take i s +:+ new +:+ str_drop (i + String.length old) s
  end.
Definition worker_plan_url (c : ControlPlane.CPConfig) : string :=
  if decide (ControlPlane.cp_WorkerPlanURL c = "" ∧ ControlPlane.cp_WorkerWebhookURL c ≠ "")
  then replace_first (ControlPlane.cp_WorkerWebhookURL c) "/trigger" "/plan" else ControlPlane.cp_WorkerPlanURL c.
Definition worker_token_headers (c : ControlPlane.CPConfig) : list (string * string) :=
  if decide (ControlPlane.cp_WorkerToken c = "") then [] else [("X-Worker-Token", ControlPlane.cp_WorkerToken c)].

Inductive compute_reply := ComputeError (e : string) | Computed (snap : option (gmap string json)).
Section planCompute.
Context `{JsonText, Floats} {W : Type} `{HttpClient W} (c : ControlPlane.CPConfig) (AutoBuild : bool).

(** [None]: the URL does not parse, the request is nil, and its use panics. *)
Definition callWorkerPlan (w : W) : option (result (option (gmap string json)) * W) :=
  let url := worker_plan_url c in
  if decide (url = "") then Some (Err "worker plan URL not configured", w)
  else if negb (url_ok url) then None
  else
    match http_do live (mkReq "POST" url (worker_token_headers c) "") w with
    | (Err e, w') => Some (Err e, w')
    | (Ok resp, w') =>
      Some (match v ← json_read (rs_Body resp); decode_map v None with
            | None => Err "invalid json"
            | Some snap => Ok snap
            end, w')
    end.
Definition save_computed (now : Z) (snap : gmap string json) (p : Planning) : Planning :=
  let nodes := snapshot_nodes snap in
  if decide (nodes = []) then p
  else
    let runID := toString (snap !! "run_id") in
    let dagRaw := from_option json_write "" (snap !! "dag") in
    let '(planID, p1) := SavePlan now runID nodes dagRaw p in
    if AutoBuild then queue_plan_builds now runID planID nodes p1 else p1.
Definition planCompute (now : Z) (meth : string) (authorized : bool) (s : Planning * W)
    : option ((Z * compute_reply) * (Planning * W)) :=
  if decide (meth ≠ "POST") then Some ((405, ComputeError "method not allowed"), s)
  else if negb authorized then Some ((401, ComputeError "invalid worker token"), s)
  else
    '(r, w') ← callWorkerPlan s.2;
    Some (match r with
          | Err e => ((502, ComputeError e), (s.1, w'))
          | Ok snap => ((200, Computed snap), (save_computed now (default ∅ snap) s.1, w'))
          end).
End planCompute.
(** The second way of reading the nodes never gives any. *)
Lemma second_reading_is_dead `{JsonText} (m : gmap string json) :
  snapshot_nodes m = from_option fill_nodes [] (m !! "plan").
Proof.
  unfold snapshot_nodes. destruct (m !! "plan") as [[| | | |l|]|]; try done.
  destruct l; [done|]. by rewrite decide_True.
Qed.

(** ** [workerTrigger] and [workerSmoke] *)
(** The local command, run with one argument, and the text of a status line. *)
Class LocalWorker (W : Type) := {
  local_run : string → string → W → option string * W;
  status_line : HttpResp → string }.
Section trigger.
Context {W Q S : Type} `{HttpClient W, LocalWorker W, Backend Q, JsonText} (c : ControlPlane.CPConfig).

Definition callWorkerWebhook (w : W) : option (result string * W) :=
  let url := ControlPlane.cp_WorkerWebhookURL c in
  if negb (url_ok url) then None
  else
    let headers := [("Content-Type", "application/json")] ++ worker_token_headers c in
    match http_do live (mkReq "POST" url headers (json_write (JsObj [("action", JsStr "drain")]))) w with
    | (Err e, w') => Some (Err e, w')
    | (Ok resp, w') => Some (Ok ("webhook status " +:+ status_line resp), w')
    end.
Definition callWorkerLocal (w : W) : result string * W :=
  let '(e, w') := local_run (ControlPlane.cp_WorkerLocalCmd c) "drain" w in
  (match e with Some e => Err e | None => Ok "local worker triggered" end, w').
Definition detail_of (what : string) (r : result string) : string :=
  match r with Ok s => s | Err e => what +:+ ": " +:+ e end.
(** The answer's detail and length of the retry queue; 0 when its statistics fail. *)
Definition workerTrigger (now : Z) (meth : string) (authorized : bool) (s : Q * W)
    : option ((Z * option (string * Z)) * (Q * W)) :=
  if decide (meth ≠ "POST") then Some ((405, None), s)
  else if negb authorized then Some ((401, None), s)
  else
    '(d1, w1) ← (if decide (ControlPlane.cp_WorkerWebhookURL c = "") then Some ([], s.2)
                 else '(r, w) ← callWorkerWebhook s.2; Some ([detail_of "webhook error" r], w));
    let '(d2, w2) := if decide (ControlPlane.cp_WorkerLocalCmd c = "") then ([], w1)
                     else let '(r, w) := callWorkerLocal w1 in ([detail_of "local worker error" r], w) in
    let '(stats, q) := q_Stats live now s.1 in
    Some ((200, Some (Join (d1 ++ d2) "; ", if stats is Ok st then st_Length st else 0)), (q, w2)).
Definition workerSmoke (now : Z) (meth : string) (authorized : bool) (q : Q) : (Z * option (string * Z)) * Q :=
  if decide (meth ≠ "POST") then ((405, None), q)
  else if negb authorized then ((401, None), q)
  else let '(stats, q') := q_Stats live now q in
       ((200, Some ("smoke-ok", if stats is Ok st then st_Length st else 0)), q').
End trigger.

(** ** Reading what was written *)
Section read.
Context `{Floats}.

(** The value [any] holds for [v] is read as [a]. *)
Definition reads {A} (fill : json → A → A) (zero : A) (v : json) (a : A) : Prop :=
  ∃ v', decode_any v = Some v' ∧ fill v' zero = a.

Lemma read_list {A} (f : A → json) fill (zero : A) l : (∀ a, reads fill zero (f a) a) →
  reads (fill_slice fill zero) [] (JsArr (f <$> l)) l.
Proof using Type.
  intros Hf. unfold reads.
  enough (∃ ys, decode_any (JsArr (f <$> l)) = Some (JsArr ys) ∧ (λ y, fill y zero) <$> ys = l) as (ys & Hd & Hys).
  { exists (JsArr ys). split; [done|]. cbn [fill_slice]. rewrite <-Hys, <-imap_const.
    apply imap_ext. intros i y _. by rewrite lookup_nil. }
  induction l as [|a l IH]; [by exists []|]. destruct IH as (ys & Hd & Hys). destruct (Hf a) as (y & Hy & Ha).
  exists (y :: ys). split; [|by rewrite fmap_cons, Ha, Hys].
  cbn [decode_any fmap list_fmap] in Hd |- *. rewrite Hy. cbn [mbind option_bind].
  apply fmap_Some in Hd as (zs & Hzs & [= ->]). rewrite Hzs. done.
Qed.

Section struct.
Context {A : Type} (fields : list (string * (json → A → option A))).
Definition commuting : Prop := ∀ k1 k2, k1 ∈ fields.*1 → k2 ∈ fields.*1 → k1 ≠ k2 → ∀ v1 v2 s,
  decode_pairs fields [(k1, v1); (k2, v2)] s = decode_pairs fields [(k2, v2); (k1, v1)] s.
Lemma decode_pairs_perm l l' s : commuting → l ≡ₚ l' → l.*1 ⊆ fields.*1 → NoDup l.*1 →
  decode_pairs fields l s = decode_pairs fields l' s.
Proof using Type.
  intros Hc Hp. revert s. induction Hp as [|[k v] l l' Hp IH|[k1 v1] [k2 v2] l|l1 l2 l3 Hp1 IH1 Hp2 IH2]; intros s Hin Hnd.
  - done.
  - cbn [decode_pairs]. destruct (match field_of fields k with None => Some s | Some f => f v s end); [|done].
    apply IH; [set_solver|by apply NoDup_cons in Hnd as [_ ?]].
  - change ((k1, v1) :: (k2, v2) :: l) with ([(k1, v1); (k2, v2)] ++ l).
    change ((k2, v2) :: (k1, v1) :: l) with ([(k2, v2); (k1, v1)] ++ l).
    rewrite !decode_pairs_app, Hc; [done|set_solver..|]. apply NoDup_cons in Hnd as [Hnot _]. set_solver.
  - rewrite IH1 by done. apply IH2; [by rewrite <-Hp1|by rewrite <-Hp1].
Qed.
Lemma map_pairs_fst (ps qs : list (string * json)) : map_pairs decode_any ps = Some qs → qs.*1 = ps.*1.
Proof using Type.
  revert qs. induction ps as [|[k v] ps IH]; intros qs Hq; [by injection Hq as <-|].
  cbn [map_pairs] in Hq. apply bind_Some in Hq as (w & _ & (ws & Hws & [= <-])%bind_Some).
  cbn [fmap list_fmap fst]. by rewrite (IH ws).
Qed.
(** What a list of fields, as it is written, makes of a value. *)
Definition writes (ps : list (string * json)) (a b : A) : Prop :=
  ∃ qs, map_pairs decode_any ps = Some qs ∧ decode_pairs fields qs a = Some b.
Lemma writes_nil a : writes [] a a.
Proof using Type. by exists []. Qed.
Lemma writes_app ps1 ps2 a b c : writes ps1 a b → writes ps2 b c → writes (ps1 ++ ps2) a c.
Proof using Type.
  intros (q1 & H1 & D1) (q2 & H2 & D2). exists (q1 ++ q2). rewrite map_pairs_app, H1. cbn [mbind option_bind].
  rewrite H2. split; [done|]. rewrite decode_pairs_app, D1. done.
Qed.
Lemma writes_cons k v v' f ps a b c : decode_any v = Some v' → field_of fields k = Some f → f v' a = Some b →
  writes ps b c → writes ((k, v) :: ps) a c.
Proof using Type.
  intros Hv Hf Hb (qs & Hps & Hd). exists ((k, v') :: qs). cbn [map_pairs]. rewrite Hv. cbn [mbind option_bind].
  rewrite Hps. split; [done|]. cbn [decode_pairs]. by rewrite Hf, Hb.
Qed.
Lemma writes_omit_string k s f a b : field_of fields k = Some f → f (JsStr s) a = Some b → (s = "" → b = a) →
  writes (omit_string k s) a b.
Proof using Type.
  intros Hf Hb Hs. unfold omit_string. case_decide as Hem; [rewrite (Hs Hem); apply writes_nil|].
  by eapply writes_cons; [..|apply writes_nil].
Qed.
Lemma writes_omit_list {B} k (g : B → json) fill zero (l : list B) f a b : (∀ x, reads fill zero (g x) x) →
  field_of fields k = Some f → (∀ v, fill_slice fill zero v [] = l → f v a = Some b) → (l = [] → b = a) →
  writes (omit_list k g l) a b.
Proof using Type.
  intros Hg Hf Hb Hl. destruct (decide (l = [])) as [Hem|Hne]; [rewrite (Hl Hem), Hem; apply writes_nil|].
  destruct (read_list g fill zero l Hg) as (v & Hv & Hfill).
  replace (omit_list k g l) with [(k, JsArr (g <$> l))] by (by destruct l).
  eapply writes_cons; [done|done|by apply Hb|apply writes_nil].
Qed.
Lemma read_struct ps zero a : commuting → NoDup fields.*1 → ps.*1 `sublist_of` fields.*1 → writes ps zero a →
  reads (fill_struct fields) zero (JsObj ps) a.
Proof using Type.
  intros Hc Hnd Hsub (qs & Hps & Ha). exists (JsObj (map_to_list (fill_map qs : gmap string json))).
  cbn [decode_any]. rewrite Hps. split; [done|]. rewrite <-(map_pairs_fst _ _ Hps) in Hsub.
  assert (Hqs : NoDup qs.*1) by (eapply sublist_NoDup; done).
  assert (Hperm : map_to_list (fill_map qs : gmap string json) ≡ₚ qs).
  { rewrite fill_map_list_to_map, map_to_list_to_map; [by rewrite reverse_Permutation|].
    by rewrite fmap_reverse, reverse_Permutation. }
  unfold fill_struct. cbn [decode_struct]. rewrite (decode_pairs_perm _ qs); [by rewrite Ha|done|done| |].
  - intros k Hk. eapply sublist_subseteq; [exact Hsub|]. by rewrite <-Hperm.
  - by rewrite Hperm.
Qed.
End struct.
End read.

Ltac each_key :=
  repeat match goal with
    | H : _ ∈ _ :: _ |- _ => apply elem_of_cons in H as [->|H]
    | H : _ ∈ [] |- _ => by apply elem_of_nil in H
    end.
Lemma recipe_fields_commute : commuting recipe_fields.
Proof. intros k1 k2 H1 H2 Hne v1 v2 s. cbn in H1, H2. each_key; reflexivity || done. Qed.
Lemma hint_fields_commute : commuting hint_match_fields.
Proof. intros k1 k2 H1 H2 Hne v1 v2 s. cbn in H1, H2. each_key; reflexivity || done. Qed.
Lemma node_fields_commute : commuting node_fields.
Proof. intros k1 k2 H1 H2 Hne v1 v2 s. cbn in H1, H2. each_key; reflexivity || done. Qed.

Section snapshots.
Context `{Floats}.
Lemma fill_strings_written l : fill_strings (js_strings l) [] = l.
Proof using Type.
  unfold fill_strings, js_strings. cbn [fill_slice].
  assert (Hl : ∀ f : nat → json → string, (∀ i s, f i (JsStr s) = s) → imap f (JsStr <$> l) = l).
  { induction l as [|s l IH]; intros f Hf; [done|]. cbn. rewrite Hf. f_equal. apply IH. intros i t. apply Hf. }
  by apply Hl.
Qed.
Lemma fill_map_fmap {V V'} (f : V → V') (m : gmap string V) :
  fill_map ((λ kv, (kv.1, f kv.2)) <$> map_to_list m) = f <$> m.
Proof using Type.
  rewrite fill_map_list_to_map, <-fmap_reverse.
  change (λ kv : string * V, (kv.1, f kv.2)) with (prod_map (@id string) f).
  rewrite list_to_map_fmap. f_equal. rewrite (list_to_map_proper _ (map_to_list m)); [apply list_to_map_to_list| |].
  - rewrite fmap_reverse, reverse_Permutation. apply NoDup_fst_map_to_list.
  - apply reverse_Permutation.
Qed.
Lemma read_string_lists m : reads fill_lists ∅ (string_lists_json m) m.
Proof using Type.
  exists (JsObj (map_to_list (js_strings <$> m))). split.
  - unfold string_lists_json. cbn [decode_any]. rewrite map_pairs_plain.
    { apply (f_equal (λ m, Some (JsObj (map_to_list m)))), fill_map_fmap. }
    apply Forall_fmap, Forall_forall. intros [k l] _. apply decode_any_strings.
  - cbn [fill_lists].
    transitivity (fill_map ((λ kv : string * json, (kv.1, fill_strings kv.2 [])) <$> map_to_list (js_strings <$> m))).
    { unfold fill_map. by rewrite foldl_fmap. }
    rewrite (fill_map_fmap (λ v, fill_strings v [])), <-map_fmap_compose. rewrite <-(map_fmap_id m) at 2. apply map_fmap_ext.
    intros k l _. apply fill_strings_written.
Qed.

Lemma omit_string_key k s : (omit_string k s).*1 `sublist_of` [k].
Proof using Type. unfold omit_string. case_decide; [apply sublist_nil_l|done]. Qed.
Lemma omit_list_key {B} k (g : B → json) l : (omit_list k g l).*1 `sublist_of` [k].
Proof using Type. destruct l; [apply sublist_nil_l|done]. Qed.
Lemma read_string s : reads fill_string "" (JsStr s) s.
Proof using Type. by eexists. Qed.

Lemma read_recipe r : reads (fill_struct recipe_fields) zero_recipe (recipe_json r) r.
Proof using Type.
  destruct r as [name version reason]. apply read_struct; [apply recipe_fields_commute|apply (bool_decide_unpack _); done| |].
  - rewrite !fmap_app. change (recipe_fields.*1) with (["name"] ++ ["version"] ++ ["reason"]).
    repeat apply sublist_app; [done|apply omit_string_key..].
  - eapply writes_app; [by eapply writes_cons; [..|apply writes_nil]|].
    eapply writes_app; [eapply writes_omit_string; [reflexivity..|by cbn; intros; subst]|].
    eapply writes_omit_string; [reflexivity..|by cbn; intros; subst].
Qed.
Lemma read_hint h : reads (fill_struct hint_match_fields) zero_hint_match (hint_json h) h.
Proof using Type.
  destruct h as [id pattern note reason tags recipes].
  apply read_struct; [apply hint_fields_commute|apply (bool_decide_unpack _); done| |].
  - rewrite !fmap_app. change (hint_match_fields.*1) with
      (["id"] ++ ["pattern"] ++ ["note"] ++ ["reason"] ++ ["tags"] ++ ["recipes"]).
    repeat apply sublist_app; [done|apply omit_string_key..|apply omit_list_key|].
    case_decide; [apply sublist_nil_l|done].
  - eapply writes_app; [by eapply writes_cons; [..|apply writes_nil]|].
    do 3 (eapply writes_app; [eapply writes_omit_string; [reflexivity..|by cbn; intros; subst]|]).
    eapply writes_app; [eapply writes_omit_list; [apply read_string|reflexivity|by intros v Hv; cbn; unfold fill_strings; rewrite Hv|by cbn; intros; subst]|].
    case_decide as Hrec; [cbn in Hrec |- *; subst; apply writes_nil|].
    destruct (read_string_lists recipes) as (v & Hv & Hfill).
    eapply writes_cons; [exact Hv|reflexivity| |apply writes_nil]. cbn. by rewrite Hfill.
Qed.
Lemma read_node n : reads (fill_struct node_fields) zero_node (node_json n) n.
Proof using Type.
  destruct n as [name version py tag plat action hints recipes].
  apply read_struct; [apply node_fields_commute|apply (bool_decide_unpack _); done| |].
  - rewrite !fmap_app. change (node_fields.*1) with
      (["name"; "version"] ++ ["python_version"] ++ ["python_tag"; "platform_tag"; "action"] ++ ["hints"] ++ ["recipes"]).
    repeat apply sublist_app; [done|apply omit_string_key|done|apply omit_list_key..].
  - eapply writes_app; [do 2 (eapply writes_cons; [reflexivity..|]); apply writes_nil|].
    eapply writes_app; [eapply writes_omit_string; [reflexivity..|by cbn; intros; subst]|].
    eapply writes_app; [do 3 (eapply writes_cons; [reflexivity..|]); apply writes_nil|].
    eapply writes_app; [eapply writes_omit_list; [apply read_hint|reflexivity|by intros v Hv; cbn; unfold fill_strings; rewrite Hv|by cbn; intros; subst]|].
    eapply writes_omit_list; [apply read_recipe|reflexivity|by intros v Hv; cbn; unfold fill_strings; rewrite Hv|by cbn; intros; subst].
Qed.
Lemma read_nodes l : ∃ v, decode_any (JsArr (node_json <$> l)) = Some v ∧ fill_nodes v = l.
Proof using Type. apply read_list, read_node. Qed.
End snapshots.

(** ** The worker behind the control plane's client *)
Section peer.
Context `{JsonText} {W : Type} (dag_json : list DAGNode → json) (token url : string).
Context (handle : string → bool → W → option ((Z * plan_reply) * W)).
(** An error of the planner is written as it is, the other messages as JSON. *)
Definition plan_body (st : Z) (r : plan_reply) : string :=
  match r with
  | PlanError e => if decide (st = 500) then e else json_write (JsObj [("error", JsStr e)])
  | PlanOf snap => json_write (snapshot_json dag_json snap)
  | PlanNothing => ""
  end.
Definition worker_do (rq : HttpReq) (w : W) : result HttpResp * W :=
  if decide (rq_URL rq = url) then
    let sent := default "" (snd <$> head (filter (λ h, h.1 = "X-Worker-Token") (rq_Headers rq))) in
    match handle (rq_Method rq) (requireWorkerToken token sent "") w with
    | None => (Err "EOF", w)
    | Some ((st, r), w') => (Ok (mkResp st "" (plan_body st r)), w')
    end
  else (Ok (mkResp 404 "" ""), w).
Definition worker_server : HttpClient W := {| url_ok _ := true; do_req := worker_do |}.
End peer.

Section computed.
Context `{JsonText, Floats} {W : Type} (dag_json : list DAGNode → json) (c : ControlPlane.CPConfig) (AutoBuild : bool).
Context (handle : string → bool → W → option ((Z * plan_reply) * W)).
Hypothesis url_set : worker_plan_url c ≠ "".
Abbreviation compute := (@planCompute _ _ W
  (worker_server dag_json (ControlPlane.cp_WorkerToken c) (worker_plan_url c) handle) c AutoBuild).

Lemma same_token : requireWorkerToken (ControlPlane.cp_WorkerToken c)
  (default "" (snd <$> head (filter (λ h, h.1 = "X-Worker-Token") (worker_token_headers c)))) "" = true.
Proof using Type.
  unfold requireWorkerToken, worker_token_headers. case_decide as Htok; [done|].
  rewrite filter_cons_True by done. cbn. rewrite decide_False by done. by apply bool_decide_eq_true.
Qed.
Lemma compute_answer now p w st r w' : handle "POST" true w = Some ((st, r), w') →
  compute now "POST" true (p, w) =
    Some (match (v ← json_read (plan_body dag_json st r); decode_map v None) with
          | None => ((502, ComputeError "invalid json"), (p, w'))
          | Some snap => ((200, Computed snap), (save_computed AutoBuild now (default ∅ snap) p, w'))
          end).
Proof using url_set.
  intros Hh. unfold planCompute, callWorkerPlan. rewrite decide_False by tauto. cbn [negb snd fst].
  rewrite (decide_False (P := _ = "")) by done. cbn [url_ok worker_server negb].
  unfold http_do. cbn [ctx_cancelled live do_req worker_server]. unfold worker_do.
  cbn [rq_URL rq_Headers rq_Method]. rewrite decide_True, same_token, Hh by done. cbn [rs_Body mbind option_bind].
  by destruct (v ← json_read (plan_body dag_json st r); decode_map v None).
Qed.

Definition dag_text (snap : Snapshot) : string :=
  match sn_DAG snap with [] => "" | _ => from_option json_write "" (decode_any (dag_json (sn_DAG snap))) end.
(** What the control plane finds in the snapshot. *)
Lemma snapshot_read snap : is_Some (decode_any (dag_json (sn_DAG snap))) → ∃ m,
  decode_map (snapshot_json dag_json snap) None = Some (Some m) ∧ m !! "run_id" = Some (JsStr (sn_RunID snap)) ∧
  from_option fill_nodes [] (m !! "plan") = sn_Plan snap ∧ from_option json_write "" (m !! "dag") = dag_text snap.
Proof using Type.
  clear url_set handle c AutoBuild. intros [dag Hdag]. destruct (read_nodes (sn_Plan snap)) as (v & Hv & Hnodes). unfold dag_text. rewrite Hdag.
  set (dags := match sn_DAG snap with [] => [] | _ => [("dag", dag)] end : list (string * json)).
  assert (Hcas : ∃ cas : list (string * json), map_pairs decode_any match sn_CAS snap with
            | None => []
            | Some cas => [("cas", JsObj (omit_string "registry_url" (ci_RegistryURL cas) ++
                                          omit_string "registry_repo" (ci_RegistryRepo cas)))]
            end = Some cas ∧ (cas = [] ∨ ∃ x, cas = [("cas", x)])).
  { destruct (sn_CAS snap) as [[a b]|]; [|exists []; naive_solver].
    assert (is_Some (decode_any (JsObj (omit_string "registry_url" a ++ omit_string "registry_repo" b)))) as [x Hx]
      by (unfold omit_string; repeat case_decide; by eexists).
    exists [("cas", x)]. cbn [ci_RegistryURL ci_RegistryRepo map_pairs]. rewrite Hx. split; [done|by right; exists x]. }
  destruct Hcas as (cas & Hcas & Hform).
  assert (Hps : map_pairs decode_any
    ([("run_id", JsStr (sn_RunID snap)); ("plan", JsArr (node_json <$> sn_Plan snap))] ++
         match sn_DAG snap with [] => [] | _ => [("dag", dag_json (sn_DAG snap))] end ++
         match sn_CAS snap with
         | None => []
         | Some cas => [("cas", JsObj (omit_string "registry_url" (ci_RegistryURL cas) ++
                                       omit_string "registry_repo" (ci_RegistryRepo cas)))]
         end) = Some ([("run_id", JsStr (sn_RunID snap)); ("plan", v)] ++ dags ++ cas)).
  { rewrite !map_pairs_app, Hcas. cbn [map_pairs]. rewrite Hv. unfold dags. destruct (sn_DAG snap); [done|].
    cbn [map_pairs]. by rewrite Hdag. }
  eexists. unfold snapshot_json, decode_map. rewrite Hps. split; [reflexivity|]. cbn [default].
  assert (Hnd : NoDup ([("run_id", JsStr (sn_RunID snap)); ("plan", v)] ++ dags ++ cas).*1).
  { unfold dags. destruct (sn_DAG snap), Hform as [->|[x ->]]; apply (bool_decide_unpack _); vm_compute; done. }
  assert (Hin : ∀ k x, (k, x) ∈ [("run_id", JsStr (sn_RunID snap)); ("plan", v)] ++ dags ++ cas →
    (fill_map ([("run_id", JsStr (sn_RunID snap)); ("plan", v)] ++ dags ++ cas) ∪ ∅ : gmap string json) !! k = Some x).
  { intros k x Hx. rewrite (right_id_L ∅ (∪)). by apply fill_map_elem. }
  split; [apply Hin; set_solver|]. split; [by rewrite (Hin "plan" v) by set_solver|].
  unfold dags in *. destruct (sn_DAG snap) as [|d ds].
  - rewrite (right_id_L ∅ (∪)).
    destruct (fill_map _ !! "dag") eqn:Hd; [|done]. apply elem_of_dom_2, fill_map_dom in Hd.
    destruct Hform as [->|[x ->]]; cbn in Hd; set_solver.
  - by rewrite (Hin "dag" dag) by set_solver.
Qed.

(** C8. A plan computed through the control plane is saved as the worker made it: its
    run, its nodes in their order with their hints and recipes, and its DAG, as a new
    plan, whose builds are queued when builds are automatic. *)
Theorem plan_compute_saves now p w snap w' :
  handle "POST" true w = Some ((200, PlanOf snap), w') → sn_Plan snap ≠ [] →
  is_Some (decode_any (dag_json (sn_DAG snap))) →
  ∃ m, compute now "POST" true (p, w) = Some ((200, Computed (Some m)),
    (let '(id, p1) := SavePlan now (sn_RunID snap) (sn_Plan snap) (dag_text snap) p in
     if AutoBuild then queue_plan_builds now (sn_RunID snap) id (sn_Plan snap) p1 else p1, w')).
Proof using url_set.
  intros Hh Hne Hdag. destruct (snapshot_read snap Hdag) as (m & Hm & Hrun & Hplan & Hd).
  exists m. rewrite (compute_answer now p w _ _ _ Hh). cbn [plan_body]. rewrite json_read_write.
  cbn [mbind option_bind]. rewrite Hm. change (default ∅ (Some m)) with m. unfold save_computed, snapshot_nodes. rewrite Hplan.
  rewrite (decide_True (P := sn_Plan snap ≠ [])), decide_False by done. by rewrite Hrun, Hd.
Qed.

(** C38. The worker's refusal does not reach the caller: when the worker answers 400 with
    a message, as it does for every [/plan] request unless it has an input directory,
    the control plane answers 200, with that message for a snapshot, and saves nothing. *)
Theorem plan_compute_hides_refusal now p w st e w' :
  handle "POST" true w = Some ((st, PlanError e), w') → st ≠ 500 →
  compute now "POST" true (p, w) = Some ((200, Computed (Some {["error" := JsStr e]})), (p, w')).
Proof using url_set.
  intros Hh Hst. rewrite (compute_answer now p w _ _ _ Hh). cbn [plan_body].
  rewrite decide_False, json_read_write by done. done.
Qed.
End computed.

(** ** The two programs, with and without an input directory *)
Section samples.
Local Existing Instances sample_index literal_regexp sample_machine snapshot_codec tree_text exact_floats no_zip.
Local Instance no_peer : HttpClient unit := {| url_ok _ := true; do_req _ w := (Err "connection refused", w) |}.
Definition planning_worker (input : string) : Worker.WorkerConfig :=
  Worker.fromEnv (λ k, if decide (k = "INPUT_DIR") then input else "").
Definition asked_of (input meth : string) (authorized : bool) (s : Files * unit)
    : option ((Z * plan_reply) * (Files * unit)) :=
  plan_handler (λ _, None) no_env no_overrides (planning_worker input) "run" 1 meth authorized s.
Definition webhook_only : ControlPlane.CPConfig :=
  ControlPlane.FromEnv (λ k, if decide (k = "WORKER_WEBHOOK_URL") then "http://worker:9000/trigger" else "").
Definition requirements_there : Files := {["/input/requirements.txt" := "six==1.0"]}.
Definition six_planned : Snapshot * (Files * unit) :=
  match asked_of "/input" "POST" true (requirements_there, ()) with
  | Some ((_, PlanOf snap), s) => (snap, s)
  | _ => (mkSnapshot "" [] [] None, (∅, ()))
  end.
Lemma plan_compute_saves_witness : length (sn_Plan six_planned.1) = 1%nat ∧ ∃ m,
  @planCompute tree_text exact_floats _ (worker_server (λ _, JsNull) "" "http://worker:9000/plan" (asked_of "/input"))
    webhook_only false 7 "POST" true (empty_planning, (requirements_there, ())) =
  Some ((200, Computed (Some m)), ((SavePlan 7 (sn_RunID six_planned.1) (sn_Plan six_planned.1)
    (dag_text (λ _, JsNull) six_planned.1) empty_planning).2, six_planned.2)).
Proof.
  split; [vm_compute; reflexivity|].
  apply (@plan_compute_saves tree_text exact_floats _ (λ _, JsNull) webhook_only false (asked_of "/input")).
  - discriminate.
  - vm_compute. reflexivity.
  - vm_compute. discriminate.
  - by eexists.
Defined.
Lemma plan_compute_hides_refusal_witness :
  @planCompute tree_text exact_floats _ (worker_server (λ _, JsNull) "" "http://worker:9000/plan" (asked_of ""))
    webhook_only true 7 "POST" true (empty_planning, (requirements_there, ())) =
  Some ((200, Computed (Some {["error" := JsStr "input dir disabled; use pending-input planning"]})),
        (empty_planning, (requirements_there, ()))).
Proof.
  apply (@plan_compute_hides_refusal tree_text exact_floats _ (λ _, JsNull) webhook_only true (asked_of "")
    ltac:(discriminate) 7 empty_planning (requirements_there, ()) 400); [reflexivity|discriminate].
Defined.
End samples.
