(* ===== verification/Routes.v ===== *)
(** The routes of the control plane ([Handler.Routes] of [internal/api/handlers.go]),
    [http.ServeMux] choosing among them, and the requests the worker sends:
    [openLogStream] of [go-worker/internal/service/log_stream.go], and the paths of
    the other clients. *)
From S2P Require Import Prelude.
From S2P Require Import GoStr.
From S2P Require Import Http.
From S2P Require Import PlanTypes.
From S2P Require Import Match.
From Stdlib Require Import Ascii.
Local Open Scope string_scope.
Local Open Scope list_scope.

Inductive endpoint :=
  | EHealth | EReady | EMetrics | EPromMetrics | EConfig | ESettings | EPendingInputs | EPendingInputsClear
  | EPendingInputAction | EPendingInputPop | EPendingInputStatus | EPlanQueueClear | ERequirementsUpload
  | EWheelsUpload | EBuilds | EBuildStatusUpdate | EBuildQueuePop | ESessionToken | ESummary | ERecent | EHistory
  | EPackageSummary | EEventByVersion | EFailures | EVariants | ETopFailures | ETopSlowest | EPlan | EPlanLatest
  | EPlanByID | EPlans | EPlanCompute | EManifest | EArtifacts | EQueueList | EQueueStats | EQueueEnqueue
  | EQueueClear | EHints | EHintsBulk | EHintByID | ELogsByNameVersion | ELogsSearch | ELogsIngest | ELogsStream
  | ELogsChunks | EWorkers | EWorkerHeartbeat | EWorkerTrigger | EWorkerSmoke.
#[export] Instance endpoint_eq_dec : EqDecision endpoint.
Proof. solve_decision. Defined.

Definition Routes : list (string * endpoint) := [
  ("/api/health", EHealth); ("/api/ready", EReady); ("/api/metrics", EMetrics); ("/metrics", EPromMetrics);
  ("/api/config", EConfig); ("/api/settings", ESettings); ("/api/pending-inputs", EPendingInputs);
  ("/api/pending-inputs/clear", EPendingInputsClear); ("/api/pending-inputs/", EPendingInputAction);
  ("/api/pending-inputs/pop", EPendingInputPop); ("/api/pending-inputs/status/", EPendingInputStatus);
  ("/api/plan-queue/clear", EPlanQueueClear); ("/api/requirements/upload", ERequirementsUpload);
  ("/api/wheels/upload", EWheelsUpload); ("/api/builds", EBuilds); ("/api/builds/status", EBuildStatusUpdate);
  ("/api/build-queue/pop", EBuildQueuePop); ("/api/session/token", ESessionToken); ("/api/summary", ESummary);
  ("/api/recent", ERecent); ("/api/history", EHistory); ("/api/package/", EPackageSummary);
  ("/api/event/", EEventByVersion); ("/api/failures", EFailures); ("/api/variants/", EVariants);
  ("/api/top-failures", ETopFailures); ("/api/top-slowest", ETopSlowest); ("/api/plan", EPlan);
  ("/api/plan/latest", EPlanLatest); ("/api/plan/", EPlanByID); ("/api/plans", EPlans);
  ("/api/plan/compute", EPlanCompute); ("/api/manifest", EManifest); ("/api/artifacts", EArtifacts);
  ("/api/queue", EQueueList); ("/api/queue/stats", EQueueStats); ("/api/queue/enqueue", EQueueEnqueue);
  ("/api/queue/clear", EQueueClear); ("/api/hints", EHints); ("/api/hints/bulk", EHintsBulk);
  ("/api/hints/", EHintByID); ("/api/logs/", ELogsByNameVersion); ("/api/logs/search", ELogsSearch);
  ("/api/logs", ELogsIngest); ("/api/logs/stream/", ELogsStream); ("/api/logs/chunks/", ELogsChunks);
  ("/api/workers", EWorkers); ("/api/worker/heartbeat", EWorkerHeartbeat); ("/api/worker/trigger", EWorkerTrigger);
  ("/api/worker/smoke", EWorkerSmoke) ].

(** ** [http.ServeMux]

    A pattern that ends in a slash covers the paths it begins; the longest pattern
    that covers the path is chosen.  Paths are clean. *)
Definition covers (pattern path : string) : bool :=
  if HasSuffix pattern "/" then HasPrefix path pattern else String.eqb pattern path.
Definition longer (best : option (string * endpoint)) (r : string * endpoint) : option (string * endpoint) :=
  match best with
  | Some b => if decide (String.length b.1 < String.length r.1)%nat then Some r else best
  | None => Some r
  end.
Inductive routed := Serve (e : endpoint) | Redirect (path : string) | NotFound.
Definition serve_mux (path : string) : routed :=
  match foldl longer None (filter (λ r, covers r.1 path = true) Routes) with
  | Some r => Serve r.2
  | None => if decide (path +:+ "/" ∈ Routes.*1) then Redirect (path +:+ "/") else NotFound
  end.

(** ** [openLogStream] *)
(** [url.PathEscape]. *)
Definition unescaped (c : ascii) : bool :=
  in_range 97 122 c || in_range 65 90 c || in_range 48 57 c ||
  bool_decide (c ∈ ["-"; "_"; "."; "~"; "$"; "&"; "+"; ":"; "="; "@"]%char).
Definition hex_digit (n : N) : ascii := ascii_of_N (if decide (n < 10)%N then 48 + n else 55 + n).
Fixpoint PathEscape (s : string) : string :=
  match s with
  | "" => ""
  | String c s =>
    if unescaped c then String c (PathEscape s)
    else String "%"%char (String (hex_digit (byte_N c / 16)) (String (hex_digit (byte_N c mod 16)) (PathEscape s)))
  end.
Definition stream_path (name version : string) : string :=
  "/api/logs/stream/" +:+ PathEscape name +:+ "/" +:+ PathEscape version.
(** The request a log is streamed in; [None]: the log is not streamed. *)
Definition openLogStream {W} `{HttpClient W} (BaseURL Token : string) (job : Job) (attempt : Z) : option HttpReq :=
  if decide (BaseURL = "") then None
  else
    let endpoint := TrimRight BaseURL "/"%char +:+ stream_path (jb_Name job) (jb_Version job) +:+
                    (if decide (0 < attempt)%Z then "?attempt=" +:+ itoa attempt else "") in
    if url_ok endpoint then
      Some (mkReq "POST" endpoint
              ([("Content-Type", "application/x-ndjson")] ++ if decide (Token = "") then [] else [("X-Worker-Token", Token)]) "")
    else None.

(** ** Which handler serves a path *)
(** The patterns that do not cover a path that begins with a literal. *)
Ltac no_cover := match goal with |- covers ?p ?q ≠ true =>
  let b := eval vm_compute in (covers p q) in match b with false => change (false ≠ true); discriminate end end.
Ltac candidates := unfold serve_mux; rewrite ?fmap_cons; unfold Routes;
  repeat first [rewrite filter_cons_False by (cbn [fst]; no_cover)
               |rewrite filter_cons; cbn [fst]; match goal with H : covers _ _ = _ |- _ => rewrite H; clear H end].

Lemma logs_routed t : serve_mux ("/api/logs/" +:+ t) =
  Serve (if HasPrefix t "stream/" then ELogsStream else if HasPrefix t "chunks/" then ELogsChunks
         else if String.eqb "search" t then ELogsSearch else ELogsByNameVersion).
Proof.
  assert (H1 : covers "/api/logs/" ("/api/logs/" +:+ t) = true) by (by destruct t).
  assert (H2 : covers "/api/logs/stream/" ("/api/logs/" +:+ t) = HasPrefix t "stream/") by (by destruct t).
  assert (H3 : covers "/api/logs/chunks/" ("/api/logs/" +:+ t) = HasPrefix t "chunks/") by (by destruct t).
  assert (H4 : covers "/api/logs/search" ("/api/logs/" +:+ t) = String.eqb "search" t) by (by destruct t).
  assert (Hboth : HasPrefix t "stream/" = true → HasPrefix t "chunks/" = true → False).
  { destruct t as [|c t]; [done|]. unfold HasPrefix. cbn [String.prefix String.append].
    destruct (ascii_dec "s" c) as [<-|]; [|done]. by destruct (ascii_dec "c" "s"). }
  candidates. destruct (String.eqb_spec "search" t) as [<-|Hs]; [reflexivity|].
  destruct (HasPrefix t "stream/"), (HasPrefix t "chunks/"); [by exfalso; apply Hboth|reflexivity..].
Qed.
Lemma plan_routed t : serve_mux ("/api/plan/" +:+ t) =
  Serve (if String.eqb "latest" t then EPlanLatest else if String.eqb "compute" t then EPlanCompute else EPlanByID).
Proof.
  assert (H1 : covers "/api/plan/" ("/api/plan/" +:+ t) = true) by (by destruct t).
  assert (H2 : covers "/api/plan/latest" ("/api/plan/" +:+ t) = String.eqb "latest" t) by (by destruct t).
  assert (H3 : covers "/api/plan/compute" ("/api/plan/" +:+ t) = String.eqb "compute" t) by (by destruct t).
  candidates. destruct (String.eqb_spec "latest" t) as [<-|Hl]; [reflexivity|].
  destruct (String.eqb "compute" t); reflexivity.
Qed.
Lemma status_routed t : serve_mux ("/api/pending-inputs/status/" +:+ t) = Serve EPendingInputStatus.
Proof. by destruct t. Qed.
Lemma hints_routed t : serve_mux ("/api/hints/" +:+ t) =
  Serve (if String.eqb "bulk" t then EHintsBulk else EHintByID).
Proof.
  assert (H1 : covers "/api/hints/" ("/api/hints/" +:+ t) = true) by (by destruct t).
  assert (H2 : covers "/api/hints/bulk" ("/api/hints/" +:+ t) = String.eqb "bulk" t) by (by destruct t).
  candidates. destruct (String.eqb "bulk" t); reflexivity.
Qed.

Definition no_slash (s : string) : Prop := str_forall (λ c, negb (Ascii.eqb c "/")) s = true.
Lemma prefix_segment n k v : no_slash n → no_slash k →
  HasPrefix (n +:+ "/" +:+ v) (k +:+ "/") = bool_decide (n = k).
Proof.
  unfold no_slash, HasPrefix. revert k. induction n as [|c n IH]; intros [|d k] Hn Hk;
    try change (String c n +:+ "/" +:+ v) with (String c (n +:+ "/" +:+ v));
    try change ("" +:+ "/" +:+ v) with (String "/" v);
    try change (String d k +:+ "/") with (String d (k +:+ "/")); try change ("" +:+ "/") with (String "/" "").
  - by destruct v.
  - cbn [str_forall String.prefix] in Hk |- *. apply andb_true_iff in Hk as [Hd _].
    destruct (ascii_dec d "/") as [->|]; [done|]. by rewrite bool_decide_eq_false_2 by (intros [=]).
  - cbn [str_forall String.prefix] in Hn |- *. apply andb_true_iff in Hn as [Hc _].
    destruct (ascii_dec "/" c) as [<-|]; [done|]. by rewrite bool_decide_eq_false_2 by (intros [=]).
  - cbn [str_forall] in Hn, Hk. apply andb_true_iff in Hn as [_ Hn], Hk as [_ Hk]. cbn [String.prefix].
    destruct (ascii_dec d c) as [->|Hne].
    + rewrite (IH k Hn Hk). apply bool_decide_ext. split; [by intros ->|by intros [=]].
    + rewrite bool_decide_eq_false_2; [done|]. by intros [=].
Qed.

(** An escaped segment has no slash. *)
Lemma hex_digit_no_slash n : (n < 16)%N → Ascii.eqb (hex_digit n) "/" = false.
Proof.
  intros Hn. assert (Hall : forallb (λ k, negb (Ascii.eqb (hex_digit (N.of_nat k)) "/")) (seq 0 16) = true)
    by (vm_compute; reflexivity).
  rewrite forallb_forall in Hall. apply negb_true_iff. rewrite <-(N2Nat.id n). apply Hall, in_seq. lia.
Qed.
Lemma PathEscape_no_slash s : no_slash (PathEscape s).
Proof.
  unfold no_slash. induction s as [|c s IH]; [done|]. cbn [PathEscape]. destruct (unescaped c) eqn:Hu.
  - cbn [str_forall]. rewrite IH, andb_true_r. destruct (Ascii.eqb_spec c "/") as [->|]; [done|done].
  - cbn [str_forall]. rewrite IH. pose proof (N_ascii_bounded c : (byte_N c < 256)%N).
    rewrite (hex_digit_no_slash (byte_N c / 16)), (hex_digit_no_slash (byte_N c mod 16)); [done| |].
    + apply N.mod_lt. lia.
    + apply N.Div0.div_lt_upper_bound. lia.
Qed.

(** ** The worker's requests *)
(** The paths the worker builds from parts, and the handler each is meant for. *)
Inductive worker_request :=
  | WStream (name version : string) | WPlan (planID : Z) | WInputStatus (id : string) | WFixed (path : string).
Definition fixed_paths : list (string * endpoint) := [
  ("/api/manifest", EManifest); ("/api/plan", EPlan); ("/api/logs", ELogsIngest); ("/api/history", EHistory);
  ("/api/builds/status", EBuildStatusUpdate); ("/api/build-queue/pop", EBuildQueuePop);
  ("/api/worker/heartbeat", EWorkerHeartbeat); ("/api/hints", EHints); ("/api/pending-inputs", EPendingInputs);
  ("/api/pending-inputs/pop", EPendingInputPop); ("/api/settings", ESettings)].
Definition request_path (r : worker_request) : string :=
  match r with
  | WStream name version => stream_path name version
  | WPlan planID => "/api/plan/" +:+ itoa planID
  | WInputStatus id => "/api/pending-inputs/status" +:+ "/" +:+ id
  | WFixed path => path
  end.
Definition meant_for (r : worker_request) : option endpoint :=
  match r with
  | WStream _ _ => Some ELogsStream
  | WPlan _ => Some EPlanByID
  | WInputStatus _ => Some EPendingInputStatus
  | WFixed path => snd <$> head (filter (λ f, f.1 = path) fixed_paths)
  end.
Definition sendable (r : worker_request) : Prop :=
  match r with
  | WPlan planID => (- 2 ^ 63 <= planID < 2 ^ 63)%Z
  | WFixed path => path ∈ fixed_paths.*1
  | _ => True
  end.


(** The URL of a log stream is that path after the control plane's address. *)
Lemma openLogStream_url {W} `{HttpClient W} base token job attempt rq :
  openLogStream base token job attempt = Some rq → ∃ query,
  rq_URL rq = TrimRight base "/"%char +:+ request_path (WStream (jb_Name job) (jb_Version job)) +:+ query ∧
  rq_Method rq = "POST".
Proof. unfold openLogStream. case_decide; [done|]. case_match; [|done]. intros [= <-]. by eexists. Qed.

(** Some names are taken by other routes: the logs of a package called "stream" or
    "chunks" cannot be asked for by name and version, nor a hint called "bulk" by its
    id. *)
Lemma log_path_routed n v : no_slash n → no_slash v →
  serve_mux ("/api/logs/" +:+ n +:+ "/" +:+ v) =
    Serve (if decide (n = "stream") then ELogsStream else if decide (n = "chunks") then ELogsChunks
           else ELogsByNameVersion).
Proof.
  intros Hn Hv. rewrite logs_routed. change "stream/" with ("stream" +:+ "/"). change "chunks/" with ("chunks" +:+ "/").
  rewrite !(prefix_segment n _ v) by done.
  case_decide as Hs; [by rewrite bool_decide_eq_true_2|rewrite bool_decide_eq_false_2 by done].
  case_decide as Hc; [by rewrite bool_decide_eq_true_2|rewrite bool_decide_eq_false_2 by done].
  destruct (String.eqb_spec "search" (n +:+ "/" +:+ v)) as [Heq|_]; [|done]. exfalso. clear -Heq.
  do 6 (destruct n as [|? n]; [discriminate Heq|]). destruct n; discriminate Heq.
Qed.
