(* ===== verification/Control.v ===== *)
(** The control plane as a whole: its state, and how a request reaches a handler of
    one of its parts and what the handler leaves ([ServeHTTP] of the mux that
    [Handler.Routes] fills, [go-control-plane/internal/api/handlers.go]).

    A request stands for what the handlers read of it: the clock, the method, the
    path, the query, the headers, the body and the parsed form.  The answer is the
    HTTP status; the bodies are those of the parts. *)
From S2P Require Import Prelude.
From S2P Require Import GoStr.
From S2P Require Import Artifact.
From S2P Require Import Http.
From S2P Require Import Hints.
From S2P Require Import PlanTypes.
From S2P Require Import Match.
From S2P Require Import Queue.
From S2P Require Import Config.
From S2P Require Import HintFeed.
From S2P Require Import Sql.
From S2P Require Import BuildStore.
From S2P Require Import Pending.
From S2P Require Import PlanLoop.
From S2P Require Import Upload.
From S2P Require Import Settings.
From S2P Require Import HintAdmin.
From S2P Require Import Logs.
From S2P Require Import Values.
From S2P Require Import History.
From S2P Require Import Manifest.
From S2P Require Import Reports.
From S2P Require Import Env.
From S2P Require Import Workers.
From S2P Require Import Metrics.
From S2P Require Import PlanProxy.
From S2P Require Import Routes.
Local Open Scope string_scope.
Local Open Scope list_scope.
Local Open Scope Z_scope.

(** [r], and what its body and its form hold. *)
Record WebCall := mkWebCall {
  wc_now : Z;                       (* microseconds *)
  wc_Method : string; wc_Path : string;
  wc_Query : string → string;       (* r.URL.Query().Get *)
  wc_Header : string → string;      (* r.Header.Get *)
  wc_ContentLength : Z; wc_Body : string;
  wc_form : upload_form;            (* the file of a multipart form *)
  wc_payload : result string }.     (* the file, or else the body, of a bulk upload *)

(** [json.Decode] of the bodies that are structs of the parts. *)
Class Bodies := {
  bd_settings : string → option Settings;
  bd_status : string → option (string * string);
  bd_plan : string → option PlanBody;
  bd_target : string → option (string * string);
  bd_report : string → option StatusUpdate;
  bd_hint : string → option Hint;
  bd_hints : string → option (list Hint);
  rfc3339 : Z → string }.

(** The settings and the planning tables, the retry queue, the uploaded objects, the
    catalog, the history, the logs of running builds and their viewers, the workers,
    and the worker the control plane calls. *)
Record Control (Q S O W : Type) := mkControl {
  co_host : Host S; co_retries : Q; co_objects : O; co_hints : HintTable; co_reports : Reports;
  co_chunks : ChunkTable; co_hub : Hub; co_workers : WorkerTable; co_peer : W }.
Arguments mkControl {Q S O W}. Arguments co_host {Q S O W}. Arguments co_retries {Q S O W}.
Arguments co_objects {Q S O W}. Arguments co_hints {Q S O W}. Arguments co_reports {Q S O W}.
Arguments co_chunks {Q S O W}. Arguments co_hub {Q S O W}. Arguments co_workers {Q S O W}. Arguments co_peer {Q S O W}.

Section state.
Context {Q S O W : Type}.
Implicit Type s : Control Q S O W.
Definition co_api s : Api S := ho_api (co_host s).
Definition co_planning s : Planning := api_db (co_api s).
Definition with_host (h : Host S) s : Control Q S O W :=
  mkControl h (co_retries s) (co_objects s) (co_hints s) (co_reports s) (co_chunks s) (co_hub s) (co_workers s) (co_peer s).
Definition with_api (a : Api S) s : Control Q S O W :=
  with_host (mkHost (ho_store (co_host s)) (ho_payload (co_host s)) (ho_files (co_host s)) a) s.
Definition with_retry_queue (q : Q) s : Control Q S O W :=
  mkControl (co_host s) q (co_objects s) (co_hints s) (co_reports s) (co_chunks s) (co_hub s) (co_workers s) (co_peer s).
Definition with_objects (o : O) s : Control Q S O W :=
  mkControl (co_host s) (co_retries s) o (co_hints s) (co_reports s) (co_chunks s) (co_hub s) (co_workers s) (co_peer s).
Definition with_hints (t : HintTable) s : Control Q S O W :=
  mkControl (co_host s) (co_retries s) (co_objects s) t (co_reports s) (co_chunks s) (co_hub s) (co_workers s) (co_peer s).
Definition with_reports (r : Reports) s : Control Q S O W :=
  mkControl (co_host s) (co_retries s) (co_objects s) (co_hints s) r (co_chunks s) (co_hub s) (co_workers s) (co_peer s).
Definition with_events (t : list EventRow) s : Control Q S O W :=
  with_reports (mkReports t (rp_manifests (co_reports s)) (rp_logs (co_reports s))) s.
Definition with_manifests (t : list ManifestEntry) s : Control Q S O W :=
  with_reports (mkReports (rp_events (co_reports s)) t (rp_logs (co_reports s))) s.
Definition with_logs (t : list LogEntry) s : Control Q S O W :=
  with_reports (mkReports (rp_events (co_reports s)) (rp_manifests (co_reports s)) t) s.
Definition with_chunks (t : ChunkTable) (h : Hub) s : Control Q S O W :=
  mkControl (co_host s) (co_retries s) (co_objects s) (co_hints s) (co_reports s) t h (co_workers s) (co_peer s).
Definition with_workers (t : WorkerTable) s : Control Q S O W :=
  mkControl (co_host s) (co_retries s) (co_objects s) (co_hints s) (co_reports s) (co_chunks s) (co_hub s) t (co_peer s).
Definition with_peer (w : W) s : Control Q S O W :=
  mkControl (co_host s) (co_retries s) (co_objects s) (co_hints s) (co_reports s) (co_chunks s) (co_hub s) (co_workers s) w.
(** What the operator's handlers look at, with a database that answers. *)
Definition panel_of s : Panel Q S :=
  mkPanel None (co_planning s) (rp_events (co_reports s)) (co_workers s) (co_hints s)
    (ho_payload (co_host s)) (co_retries s) (api_queue (co_api s)).
Definition with_panel (p : Panel Q S) s : Control Q S O W :=
  with_retry_queue (pa_queue p) (with_api (with_queue (pa_plans p) (co_api s)) s).
End state.

Section control.
Context {Q S O W : Type}.
Context `{GoRuntime, Sha256, Machine, Zip, Regexp, SqlOrder, Database, SlowSql, WorkerSql, HintEnv}.
Context `{Floats, JsonText, LogJson, Bodies}.
Context `{Backend Q, Redis S, HttpClient W, LocalWorker W}.
Context `{Codec (gmap string string), Codec (gmap string (list string)), Codec (list string), Codec pendingMeta}.
Context `{FillCodec Settings}.
Context (put : string → string → string → O → option string * O) (store : input_store).
Context (c : ControlPlane.CPConfig) (planq : option RedisQueue).
Abbreviation Control := (Control Q S O W).

Definition upload_config : UploadConfig :=
  mkUploadConfig (ControlPlane.cp_ObjectStoreEndpoint c) (ControlPlane.cp_ObjectStoreBucket c)
    (ControlPlane.cp_InputObjectPrefix c).

(** *** From the handlers of the parts to the whole state *)
Definition on_api (f : handler (S := S)) (s : Control) : Z * Control :=
  let '((code, _), a) := f (co_api s) in (code, with_api a s).
Definition on_upload (f : Api S → O → upload_result (S := S) (O := O)) (s : Control) : Z * Control :=
  let '((code, _), (a, o)) := f (co_api s) (co_objects s) in (code, with_api a (with_objects o s)).
Definition on_hints {A} (f : HintTable → (Z * A) * HintTable) (s : Control) : Z * Control :=
  let '((code, _), t) := f (co_hints s) in (code, with_hints t s).
Definition on_panel {A} (f : Panel Q S → answer A * Panel Q S) (s : Control) : Z * Control :=
  let '(a, p) := f (panel_of s) in (status_of a, with_panel p s).
Definition on_builds {A} (f : Table → (Z * A) * Table) (s : Control) : Z * Control :=
  let '((code, _), t) := f (pn_builds (co_planning s)) in
  (code, with_api (with_db (with_builds t (co_planning s)) (co_api s)) s).
Definition shows {A} (a : answer A) (s : Control) : Z * Control := (status_of a, s).

(** The event and the log entry that [buildStatusUpdate] adds to the tables; both
    errors are dropped. *)
Definition status_event (hint_ids : option (list string)) (e : BuildStore.Event) : History.Event :=
  mkEvent "" (ev_Name e) (ev_Version e) "" "" (ev_Status e) (ev_Detail e)
    (Some (list_to_map
      ((if ev_Attempt e is Some n then [("attempt", js_int n)] else []) ++
       (if decide (ev_Recipes e = []) then [] else [("recipes", JsArr (JsStr <$> ev_Recipes e))]) ++
       (if decide (ev_HintIDs e = []) then [] else [("hint_ids", JsArr (JsStr <$> ev_HintIDs e))]))))
    (ev_Timestamp e) hint_ids 0.
Definition build_report (r : WebCall) (authorized : bool) (s : Control) : Z * Control :=
  let '(code, cp) := buildStatusUpdate rfc3339 (wc_now r) (bool_decide (wc_Method r = "POST")) authorized
                       (bd_report (wc_Body r)) (mkControlPlane (pn_builds (co_planning s)) [] []) in
  let s1 := with_api (with_db (with_builds (cp_builds cp) (co_planning s)) (co_api s)) s in
  let s2 := with_events (foldl (λ t e, (RecordEvent (status_event (bd_report (wc_Body r) ≫= su_hint_ids) e) t).2) (rp_events (co_reports s1)) (cp_events cp)) s1 in
  (code, with_logs (foldl (λ t l, (PutLog l t).2) (rp_logs (co_reports s2)) (cp_logs cp)) s2).

(** *** The handlers, one for each endpoint; [None]: the handler panics *)
Definition query_auth (r : WebCall) : bool :=
  requireWorkerToken (ControlPlane.cp_WorkerToken c) (wc_Header r "X-Worker-Token") (wc_Query r "token").

(** Those that only show something of the state. *)
Definition display (e : endpoint) (r : WebCall) (s : Control) : option (Z * Control) :=
  let meth := wc_Method r in let path := wc_Path r in let q := wc_Query r in
  let events := rp_events (co_reports s) in
  match e with
  | EHealth => Some (let '((code, _, _), p) := health (wc_now r) (panel_of s) in (code, with_panel p s))
  | EReady => Some (let '((code, _, _), p) := ready (wc_now r) (panel_of s) in (code, with_panel p s))
  | EMetrics => Some (on_panel (metrics c (api_AutoPlan (co_api s)) (api_AutoBuild (co_api s)) planq (wc_now r) meth) s)
  | EPromMetrics => Some (on_panel (promMetrics c planq (wc_now r) meth) s)
  | EConfig => Some (shows (Metrics.config c meth (ho_files (co_host s))) s)
  | ESessionToken => Some ((sessionToken meth (q "token")).1, s)
  | ESummary => Some (shows (summary meth (q "failure_limit") events) s)
  | ERecent => Some (shows (recent meth (q "limit") (q "offset") (q "package") (q "status") events) s)
  | EPackageSummary => Some (shows (packageSummary meth path events) s)
  | EEventByVersion => Some (shows (eventByVersion meth path events) s)
  | EFailures => Some (shows (failures meth (q "name") (q "limit") events) s)
  | EVariants => Some (shows (variants meth path (q "limit") events) s)
  | ETopFailures => Some (shows (topFailures meth (q "limit") events) s)
  | ETopSlowest => Some (shows (topSlowest meth (q "limit") events) s)
  | EArtifacts => Some (shows (artifacts meth (q "limit") (rp_manifests (co_reports s))) s)
  | EQueueList => Some (on_panel (queueList (ControlPlane.cp_QueueBackend c) (api_AutoBuild (co_api s)) (epoch (wc_now r)) meth) s)
  | EQueueStats => Some (on_panel (queueStats (epoch (wc_now r)) meth) s)
  | ELogsByNameVersion => Some (shows (logsByNameVersion meth path (q "raw") (wc_Header r "Accept") (rp_logs (co_reports s))) s)
  | ELogsSearch => Some (shows (logsSearch meth (q "q") (q "limit") (rp_logs (co_reports s))) s)
  | ELogsChunks => Some ((logsChunks meth path (q "after") (q "limit") (q "tail") (co_chunks s)).1, s)
  | EWorkers => Some (shows (workers meth (co_workers s)) s)
  | _ => None
  end.

Definition serve_endpoint (e : endpoint) (r : WebCall) (s : Control) : option (Z * Control) :=
  let now := wc_now r in let meth := wc_Method r in let path := wc_Path r in let q := wc_Query r in
  let body := wc_Body r in let auth := query_auth r in
  match e with
  | ESettings => Some (let '((code, _), h) := settings (ControlPlane.cp_SettingsPath c) meth (bd_settings body) (co_host s) in
                       (code, with_host h s))
  | EPendingInputs => Some (on_api (serve planq (ReqInputs meth)) s)
  | EPendingInputsClear => Some (on_api (serve planq (ReqClear now meth auth (q "status"))) s)
  | EPendingInputAction => Some (on_api (serve planq (ReqAction now meth path auth)) s)
  | EPendingInputPop => Some (on_api (serve planq (ReqPop now meth auth (q "max"))) s)
  | EPendingInputStatus => Some (on_api (serve planq (ReqStatus now meth path auth (bd_status body))) s)
  | EPlanQueueClear => Some (on_api (serve planq (ReqQueueClear now meth auth)) s)
  | ERequirementsUpload => Some (on_upload (requirementsUpload put planq store upload_config now meth (wc_form r)) s)
  | EWheelsUpload => Some (on_upload (wheelsUpload put planq store upload_config now meth (wc_form r)) s)
  | EBuilds => Some (on_builds (builds meth auth (q "status") (q "package") (q "version") (q "limit") (q "plan_id")) s)
  | EBuildStatusUpdate => Some (build_report r auth s)
  | EBuildQueuePop =>
    Some (on_builds (λ t, let '(a, cp) := buildQueuePop ParseInt (ControlPlane.cp_BuildLeaseTimeout c) now
                                            (bool_decide (meth = "POST")) auth (q "max") (mkControlPlane t [] []) in
                          (a, cp_builds cp)) s)
  | EHistory =>
    Some (if decide (meth = "GET") then
            shows (history_get (mkHistoryQuery (q "package") (q "status") (q "run_id") (q "from") (q "to")
                                  (q "limit") (q "offset")) (rp_events (co_reports s))) s
          else if decide (meth = "POST") then
            let '(code, t) := history_post (epoch now) (json_read body) (rp_events (co_reports s)) in (code, with_events t s)
          else (405, s))
  | EManifest =>
    Some (if decide (meth = "GET") then shows (manifest_get (q "limit") (rp_manifests (co_reports s))) s
          else if decide (meth = "POST") then
            let '(code, t) := manifest_post (epoch now) (json_read body) (rp_manifests (co_reports s)) in
            (code, with_manifests t s)
          else (405, s))
  | ELogsIngest =>
    Some (let '(code, t) := logsIngest (epoch now) meth (wc_ContentLength r) (json_read body) (rp_logs (co_reports s)) in
          (code, with_logs t s))
  | EPlan => Some (on_api (serve planq (ReqPlan now meth (bd_plan body))) s)
  | EPlanLatest => Some (on_api (serve planq (ReqPlanLatest meth)) s)
  | EPlanByID => Some (on_api (serve planq (ReqPlanByID now meth path (bd_target body))) s)
  | EPlans => Some (on_api (serve planq (ReqPlans now meth auth (q "limit") (q "id"))) s)
  | EPlanCompute =>
    '((code, _), (p, w)) ← planCompute c (api_AutoBuild (co_api s)) now meth auth (co_planning s, co_peer s);
    Some (code, with_peer w (with_api (with_db p (co_api s)) s))
  | EQueueEnqueue => Some (let '(code, p) := queueEnqueue (epoch now) meth (json_read body) (panel_of s) in (code, with_panel p s))
  | EQueueClear => Some (let '(code, p) := queueClear meth (panel_of s) in (code, with_panel p s))
  | EHints => Some (on_hints (HintAdmin.hints true meth (q "limit") (q "offset") (q "q") (bd_hint body)) s)
  | EHintsBulk => Some (on_hints (hintsBulk bd_hints meth (wc_payload r)) s)
  | EHintByID => Some (on_hints (hintByID now meth (str_drop (String.length "/api/hints/") path) (bd_hint body)) s)
  (* the websocket of a viewer goes on after its request (Logs) *)
  | ELogsStream =>
    Some (if decide (meth = "POST") then
            let '((code, t), h) := logsStream_post (ControlPlane.cp_LogChunkMax c) auth path (q "run_id") (q "attempt")
                                     (epoch now) body (co_chunks s) (co_hub s) in
            (code, with_chunks t h s)
          else if decide (length (splitPath path) < 5)%nat then (400, s)
          else if decide (meth = "GET") then (101, s) else (405, s))
  | EWorkerHeartbeat => Some (let '(code, t) := workerHeartbeat now meth auth (json_read body) (co_workers s) in (code, with_workers t s))
  | EWorkerTrigger =>
    '((code, _), (rq, w)) ← workerTrigger c (epoch now) meth auth (co_retries s, co_peer s);
    Some (code, with_peer w (with_retry_queue rq s))
  | EWorkerSmoke => Some (let '((code, _), rq) := workerSmoke (epoch now) meth auth (co_retries s) in (code, with_retry_queue rq s))
  | _ => display e r s
  end.

(** [ServeHTTP]: a path without a handler changes nothing. *)
Definition ServeHTTP (r : WebCall) (s : Control) : option (Z * Control) :=
  match serve_mux (wc_Path r) with
  | Serve e => serve_endpoint e r s
  | Redirect _ => Some (301, s)
  | NotFound => Some (404, s)
  end.
(** A handler that panics leaves the state it found (net/http recovers from it). *)
Definition after (r : WebCall) (s : Control) : Control := default s (snd <$> ServeHTTP r s).

(** *** The start of the process ([New] and [routes] of server.go)

    The automatic modes are read from the stored settings, the hints of the seed
    directory are put into the catalog, and no viewer is connected. *)
Definition restart (s : Control) : Control :=
  with_chunks (co_chunks s) ∅
    (with_hints (HintAdmin.handle (co_hints s)
                   (Start (ControlPlane.cp_SeedHints c) (ControlPlane.cp_HintsDir c) (ho_files (co_host s))))
       (with_host (startup (ControlPlane.cp_SettingsPath c) (co_host s)) s)).
Inductive happening := Sent (r : WebCall) | Restarted.
Definition happen (s : Control) (e : happening) : Control :=
  match e with Sent r => after r s | Restarted => restart s end.
Definition run (es : list happening) (s : Control) : Control := foldl happen s es.
(** A new database: its tables are empty, the settings as they were found. *)
Definition first_start (payload : option string) (fs : Files) (q : Q) (plans : S) (o : O) (w : W) : Control :=
  restart (mkControl (mkHost true payload fs (mkApi empty_planning plans false false)) q o ∅ (mkReports [] [] [])
             (mkChunkTable [] 1) ∅ ∅ w).
End control.
