(* ===== verification/ControlFacts.v ===== *)
(** What holds of the control plane as a whole, whatever requests it is sent. *)
From S2P Require Import Prelude.
From S2P Require Import GoStr.
From S2P Require Import Artifact.
From S2P Require Import Http.
From S2P Require Import Parse.
From S2P Require Import Hints.
From S2P Require Import Queue.
From S2P Require Import Config.
From S2P Require Import HintFeed.
From S2P Require Import Sql.
From S2P Require Import BuildStore.
From S2P Require Import Pending.
From S2P Require Import PlanLoop.
From S2P Require Import Upload.
From S2P Require Import Settings.
From S2P Require Import BuildQueue.
From S2P Require Import PendingFacts.
From S2P Require Import HintAdmin.
From S2P Require Import Logs.
From S2P Require Import Values.
From S2P Require Import History.
From S2P Require Import Manifest.
From S2P Require Import Reports.
From S2P Require Import Env.
From S2P Require Import Workers.
From S2P Require Import Metrics.
From S2P Require Import PlanProxy.
From S2P Require Import Routes.
From S2P Require Import Control.
From S2P Require Import Codecs.
From S2P Require Import SystemSamples.
From S2P Require Import HistoryTheorems.
Local Open Scope string_scope.
Local Open Scope list_scope.
Local Open Scope Z_scope.

(** ** The tables, one by one *)
(** What a row of a table that only grows satisfies, and that the statements keep it. *)
Definition event_recorded (r : EventRow) : Prop :=
  forallb no_nul [er_name r; er_version r; er_status r] = true ∧ timestamp_in_range (er_timestamp r) = true.
Definition log_recorded (l : LogEntry) : Prop :=
  forallb no_nul [le_Name l; le_Version l; le_Content l] = true ∧ timestamp_in_range (le_Timestamp l) = true.
Definition worker_recorded (id : string) (w : WorkerRow) : Prop :=
  id ≠ "" ∧ forallb int4 [wr_active_builds w; wr_build_pool_size w; wr_plan_pool_size w; wr_heartbeat_interval_sec w] = true.

Lemma RecordEvent_spec e t :
  t `prefix_of` (RecordEvent e t).2 ∧ (Forall event_recorded t → Forall event_recorded (RecordEvent e t).2).
Proof.
  unfold RecordEvent. destruct (event_ok e) eqn:Hok; [|done]. destruct (timestamp_in_range _) eqn:Ht; [|done].
  cbn [negb snd]. split; [by eexists|]. intros Hall. apply Forall_app. split; [done|]. apply Forall_singleton.
  split; [|done]. unfold event_ok in Hok. apply andb_prop in Hok as [[Hf _]%andb_prop _].
  cbn [forallb event_row er_name er_version er_status] in Hf |- *. rewrite !andb_true_iff in *. tauto.
Qed.
Lemma PutLog_spec l t :
  t `prefix_of` (PutLog l t).2 ∧ (Forall log_recorded t → Forall log_recorded (PutLog l t).2).
Proof.
  unfold PutLog. destruct (forallb _ _) eqn:Hok; [|done]. destruct (timestamp_in_range _) eqn:Ht; [|done].
  cbn [negb snd]. split; [by eexists|]. intros Hall. apply Forall_app. split; [done|]. by apply Forall_singleton.
Qed.
(** A loop of statements of which each appends. *)
Lemma foldl_grows {A B} (f : list A → B → list A) (P : list A → Prop) bs :
  (∀ t b, t `prefix_of` f t b ∧ (P t → P (f t b))) → ∀ t, t `prefix_of` foldl f t bs ∧ (P t → P (foldl f t bs)).
Proof.
  intros Hf. induction bs as [|b bs IH]; intros t; [done|]. simpl.
  destruct (Hf t b) as [H1 H2], (IH (f t b)) as [H3 H4]. split; [by etrans|tauto].
Qed.
Lemma history_post_spec `{Floats} now body t :
  t `prefix_of` (history_post now body t).2 ∧
  (Forall event_recorded t → Forall event_recorded (history_post now body t).2).
Proof.
  unfold history_post. destruct (_ ≫= _) as [e|]; [|done]. case_decide; [done|].
  match goal with |- context [RecordEvent ?e t] => pose proof (RecordEvent_spec e t); by destruct (RecordEvent e t) as [[]] end.
Qed.
Lemma logsIngest_spec now meth n body t :
  t `prefix_of` (logsIngest now meth n body t).2 ∧
  (Forall log_recorded t → Forall log_recorded (logsIngest now meth n body t).2).
Proof.
  unfold logsIngest. repeat case_decide; [done..|]. destruct (_ ≫= _) as [e|]; [|done]. case_decide; [done|].
  match goal with |- context [PutLog ?e t] => pose proof (PutLog_spec e t); by destruct (PutLog e t) as [[]] end.
Qed.
Lemma SaveManifest_prefix now l t : t `prefix_of` (SaveManifest now l t).2.
Proof.
  revert t. induction l as [|m l IH]; intros t; [done|]. cbn [SaveManifest].
  destruct (negb (entry_ok _)); [done|]. destruct (negb (timestamp_in_range _)); [done|].
  etrans; [|apply IH]. by eexists.
Qed.
Lemma manifest_post_prefix now body t : t `prefix_of` (manifest_post now body t).2.
Proof.
  unfold manifest_post. destruct (_ ≫= _) as [[|m l]|]; [done| |done].
  pose proof (SaveManifest_prefix now (m :: l) t). by destruct (SaveManifest now (m :: l) t) as [[]].
Qed.
Lemma UpsertWorkerStatus_ok now ws t :
  map_Forall worker_recorded t → map_Forall worker_recorded (UpsertWorkerStatus now ws t).2.
Proof.
  intros Hok. unfold UpsertWorkerStatus. case_decide; [done|]. destruct (forallb no_nul _); [|done].
  destruct (forallb int4 _) eqn:Hi; [|done]. cbn [negb snd]. by apply map_Forall_insert_2.
Qed.
Lemma workerHeartbeat_ok now meth auth body t :
  map_Forall worker_recorded t → map_Forall worker_recorded (workerHeartbeat now meth auth body t).2.
Proof.
  intros Hok. unfold workerHeartbeat. case_decide; [done|]. destruct auth; [|done]. simpl.
  destruct (_ ≫= _) as [ws|]; [|done]. case_decide; [done|].
  pose proof (UpsertWorkerStatus_ok now ws t Hok). by destruct (UpsertWorkerStatus now ws t) as [[]].
Qed.

Section chunks.
Context `{LogJson}.
Lemma ingest_line_ok max name version run attempt now s raw :
  Logs.table_ok (in_table s) → Logs.table_ok (in_table (ingest_line max name version run attempt now s raw)).
Proof using Type.
  intros Hok. unfold ingest_line. case_decide; [done|]. cbv zeta. case_decide; [done|].
  match goal with |- context [PutLogChunk ?n ?x ?t] => destruct (PutLogChunk n x t) as [id t'] eqn:Hput end.
  apply PutLogChunk_ok in Hput as (Hok' & _); [|done].
  repeat case_decide; cbn [in_table]; first [done|by apply TrimLogChunks_ok].
Qed.
Lemma logsStream_post_ok max auth path run attempt now body t h :
  Logs.table_ok t → Logs.table_ok (logsStream_post max auth path run attempt now body t h).1.2.
Proof using Type.
  intros Hok. unfold logsStream_post. destruct (splitPath path) as [|? [|? [|? [|name [|version ?]]]]]; [done..|].
  destruct auth; [|done]. cbn [negb]. unfold ingest. destruct (scan_tokens _) as [tokens ok].
  assert (Hs : ∀ x, Logs.table_ok (in_table x) → Logs.table_ok (in_table
    (foldl (ingest_line max name version run (parseIntDefault ParseInt attempt 0 1000) now) x tokens))).
  { induction tokens as [|raw tokens IH]; intros x Hx; [done|]. by apply IH, ingest_line_ok. }
  specialize (Hs (mkIngest t h 0 0) Hok). destruct ok; cbn [fst snd]; [|done].
  case_decide; [|done]. by apply TrimLogChunks_ok.
Qed.
End chunks.

(** ** The planning requests *)
(** The automatic modes stay as they are. *)
Definition same_modes {S} (a a' : Api S) : Prop :=
  api_AutoPlan a' = api_AutoPlan a ∧ api_AutoBuild a' = api_AutoBuild a.
(** Nothing is deleted, and a plan is not changed. *)
Record planning_grows (p p' : Planning) : Prop := {
  pg_inputs : dom (pn_inputs p) ⊆ dom (pn_inputs p');
  pg_plans : pn_plans p ⊆ pn_plans p';
  pg_builds : dom (tb_rows (pn_builds p)) ⊆ dom (tb_rows (pn_builds p')) }.
#[export] Instance planning_grows_preorder : PreOrder planning_grows.
Proof. split; [done|]. intros p q r [] []. split; by etrans. Qed.

Lemma UpdatePendingInputStatus_grows now id st e p : planning_grows p (UpdatePendingInputStatus now id st e p).
Proof. split; simpl; [|done..]. by rewrite dom_alter_L. Qed.
Lemma AddPendingInput_grows now i p : planning_grows p (AddPendingInput now i p).2.
Proof. split; simpl; [|done..]. rewrite dom_insert_L. set_solver. Qed.
Lemma SavePlan_grows now run nodes dag p : planning_ok p → planning_grows p (SavePlan now run nodes dag p).2.
Proof. intros Hok. split; simpl; [done| |done]. by apply insert_subseteq, fresh_plan. Qed.
Lemma LinkPlanToPendingInput_grows now i pl p p' :
  LinkPlanToPendingInput now i pl p = Ok p' → planning_grows p p'.
Proof. unfold LinkPlanToPendingInput. case_decide; intros; simplify_eq. by split. Qed.
Lemma UpdatePendingInputsForPlan_grows now id st p : planning_grows p (UpdatePendingInputsForPlan now id st p).2.
Proof. split; simpl; [|done..]. by rewrite dom_fmap_L. Qed.
Lemma queue_plan_builds_grows now run id nodes p : planning_grows p (queue_plan_builds now run id nodes p).
Proof.
  split; simpl; [done..|]. unfold QueueBuildsFromPlan. generalize (filter is_build_node nodes) as ns.
  generalize (pn_builds p) as t. intros t ns. revert t. induction ns as [|n ns IH]; intros t; [done|]. simpl.
  etrans; [|apply IH]. unfold queue_node. simpl. rewrite dom_insert_L. set_solver.
Qed.

Ltac step_handler :=
  repeat match goal with
  | |- context [if ?b then _ else _] => destruct b
  | |- context [match ?x with _ => _ end] => destruct x eqn:?
  end.

Section planning.
Context `{SqlOrder} {S : Type} `{Redis S, Codec (gmap string string)} (planq : option RedisQueue).
Implicit Type a : Api S.

Lemma set_statuses_modes now st ids a : same_modes a (set_statuses now st ids a).
Proof using Type.
  unfold set_statuses. revert a. induction ids as [|i ids IH]; intros a; [done|]. simpl.
  destruct (ParseInt i); [|done]. exact (IH (set_status now _ st "" a)).
Qed.
Lemma mark_queued_grows now id p : planning_grows p (mark_queued now id p).
Proof using Type.
  unfold mark_queued. pose proof (UpdatePendingInputsForPlan_grows now id "queued" p) as Hg.
  destruct (UpdatePendingInputsForPlan now id "queued" p) as [n p']. case_decide; [|done].
  etrans; [exact Hg|]. apply UpdatePendingInputsForPlan_grows.
Qed.
Lemma save_plan_spec now b a : planning_ok (api_db a) →
  same_modes a (save_plan now b a).2 ∧ planning_grows (api_db a) (api_db (save_plan now b a).2).
Proof using Type.
  intros Hok. unfold save_plan. pose proof (SavePlan_grows now (pb_run b) (pb_plan b) (pb_dag b) _ Hok) as Hg.
  destruct (SavePlan _ _ _ _ _) as [id p1]. cbn [snd] in Hg.
  destruct (if decide (0 < pb_pending b) then _ else _) as [p2|] eqn:Hp2; [|done].
  assert (Hg2 : planning_grows p1 p2).
  { case_decide; [|by simplify_eq]. apply fmap_Some in Hp2 as (p & Hl & ->).
    etrans; [|apply UpdatePendingInputStatus_grows].
    destruct (LinkPlanToPendingInput _ _ _ _) as [p'|] eqn:Hlink; simplify_eq. by eapply LinkPlanToPendingInput_grows. }
  cbn [Pending.answer snd with_db api_db]. split; [done|]. etrans; [exact Hg|]. etrans; [exact Hg2|].
  destruct (api_AutoBuild a); [|done]. cbv zeta. etrans; [apply queue_plan_builds_grows|].
  case_decide; [apply UpdatePendingInputStatus_grows|done].
Qed.
Lemma register_input_spec now i a :
  same_modes a (register_input planq now i a).2 ∧ planning_grows (api_db a) (api_db (register_input planq now i a).2).
Proof using Type.
  unfold register_input. pose proof (AddPendingInput_grows now i (api_db a)) as Hg.
  destruct (AddPendingInput _ _ _) as [id p1]. cbn [snd] in Hg. destruct planq as [q|]; [|done].
  destruct (api_AutoPlan a) eqn:Hauto; [|done]. destruct (PlanQueue_Enqueue _ _ _) as [e s].
  split; [by split|]. etrans; [exact Hg|]. apply UpdatePendingInputStatus_grows.
Qed.

(** A request that came without the worker's token. *)
Definition unprivileged (r : request) : Prop :=
  match r with
  | ReqClear _ _ b _ | ReqAction _ _ _ b | ReqPop _ _ b _ | ReqStatus _ _ _ b _ | ReqQueueClear _ _ b
  | ReqPlans _ _ b _ _ => b = false
  | _ => True
  end.
Lemma serve_modes r a : planning_ok (api_db a) → same_modes a (serve planq r a).2.
Proof using Type.
  intros Hok. destruct r; cbn [serve].
  - pose proof (register_input_spec now i a) as [Hm _]. by destruct (register_input _ _ _ _).
  - unfold pendingInputs. by case_decide.
  - unfold pendingInputsClear. case_decide; [done|]. by destruct authorized.
  - unfold pendingInputAction. cbv zeta. step_handler; done.
  - unfold pendingInputPop. step_handler; try done. exact (set_statuses_modes _ _ _ (with_queue _ a)).
  - unfold pendingInputStatus. cbv zeta. step_handler; done.
  - unfold planQueueClear. step_handler; try done. exact (set_statuses_modes _ _ _ (with_queue _ a)).
  - unfold plan. case_decide; [done|]. case_decide; [|done]. destruct body as [b|]; [|done]. case_decide; [done|].
    by apply save_plan_spec.
  - unfold plans. step_handler; done.
  - unfold planLatest. step_handler; done.
  - unfold planByID. cbv zeta. step_handler; done.
Qed.
Lemma enqueue_builds_grows now pl nodes n a : planning_grows (api_db a) (api_db (enqueue_builds now pl nodes n a).2).
Proof using Type. simpl. etrans; [apply queue_plan_builds_grows|apply mark_queued_grows]. Qed.
Lemma serve_grows r a : planning_ok (api_db a) → unprivileged r →
  planning_grows (api_db a) (api_db (serve planq r a).2).
Proof using Type.
  intros Hok Hr. destruct r; cbn [serve unprivileged] in *; subst.
  - pose proof (register_input_spec now i a) as [_ Hg]. by destruct (register_input _ _ _ _).
  - unfold pendingInputs. by case_decide.
  - unfold pendingInputsClear. by case_decide.
  - unfold pendingInputAction. cbv zeta. cbn [negb].
    step_handler; try done; apply UpdatePendingInputStatus_grows.
  - unfold pendingInputPop. by case_decide.
  - unfold pendingInputStatus. by case_decide.
  - unfold planQueueClear. by case_decide.
  - unfold plan. case_decide; [done|]. case_decide; [|done]. destruct body as [b|]; [|done]. case_decide; [done|].
    by apply save_plan_spec.
  - unfold plans. case_decide; [done|]. by case_decide.
  - unfold planLatest. step_handler; done.
  - unfold planByID. cbv zeta. step_handler; try done; apply enqueue_builds_grows.
Qed.
End planning.

(** The plan queue: nothing is taken out. *)
Definition plans_prefix {S} `{Redis S} (planq : option RedisQueue) (q q' : S) : Prop :=
  match planq with Some pq => rd_list q (rdq_key pq) `prefix_of` rd_list q' (rdq_key pq) | None => q' = q end.
Definition plans_same {S} `{Redis S} (planq : option RedisQueue) (q q' : S) : Prop :=
  match planq with Some pq => rd_list q' (rdq_key pq) = rd_list q (rdq_key pq) | None => q' = q end.
Section plan_queue.
Context `{SqlOrder} {S : Type} `{Redis S, Codec (gmap string string)}.
Lemma plans_prefix_refl planq (q : S) : plans_prefix planq q q.
Proof using Type. unfold plans_prefix. by destruct planq. Qed.
Lemma plans_same_prefix planq (q q' : S) : plans_same planq q q' → plans_prefix planq q q'.
Proof using Type. unfold plans_same, plans_prefix. destruct planq as [pq|]; [by intros ->|done]. Qed.
Lemma PlanQueue_Enqueue_prefix pq id (q : S) : plans_prefix (Some pq) q (PlanQueue_Enqueue pq id q).2.
Proof using Type.
  unfold PlanQueue_Enqueue, plans_prefix. destruct (rdq_client pq); [|done].
  match goal with |- context [rd_RPush ?k ?v q] => pose proof (rd_RPush_law k v q) as Hl; destruct (rd_RPush k v q) as [[e|] q'] end;
    simpl in Hl |- *; rewrite Hl; [done|by eexists].
Qed.
Lemma PlanQueue_Len_same pq (q : S) : plans_same (Some pq) q (PlanQueue_Len pq q).2.
Proof using Type.
  unfold PlanQueue_Len, plans_same. destruct (rdq_client pq); [|done].
  pose proof (rd_LLen_law (rdq_key pq) q) as Hl. destruct (rd_LLen (rdq_key pq) q) as [n q']. by destruct Hl.
Qed.
Lemma register_input_queue planq now i (a : Api S) :
  plans_prefix planq (api_queue a) (api_queue (register_input planq now i a).2).
Proof using Type.
  unfold register_input. destruct (AddPendingInput _ _ _) as [id p]. destruct planq as [pq|]; [|done].
  destruct (api_AutoPlan a); [|apply plans_prefix_refl]. pose proof (PlanQueue_Enqueue_prefix pq (itoa id) (api_queue a)) as Hq.
  by destruct (PlanQueue_Enqueue _ _ _).
Qed.
Lemma serve_queue planq r (a : Api S) : unprivileged r → plans_prefix planq (api_queue a) (api_queue (serve planq r a).2).
Proof using Type.
  intros Hr. pose proof (plans_prefix_refl planq (api_queue a)) as Hrefl.
  destruct r; cbn [serve unprivileged] in *; subst.
  - pose proof (register_input_queue planq now i a). by destruct (register_input _ _ _ _).
  - unfold pendingInputs. by case_decide.
  - unfold pendingInputsClear. by case_decide.
  - unfold pendingInputAction. cbv zeta. cbn [negb]. destruct planq as [pq|]; [|step_handler; exact Hrefl].
    pose proof (λ id, PlanQueue_Enqueue_prefix pq id (api_queue a)) as Hq.
    step_handler; try exact Hrefl;
      match goal with E : PlanQueue_Enqueue _ ?i _ = _ |- _ => specialize (Hq i); rewrite E in Hq; exact Hq end.
  - unfold pendingInputPop. by case_decide.
  - unfold pendingInputStatus. by case_decide.
  - unfold planQueueClear. by case_decide.
  - unfold plan. case_decide; [done|]. case_decide; [|done]. destruct body as [b|]; [|done]. case_decide; [done|].
    unfold save_plan. destruct (SavePlan _ _ _ _ _). by destruct (if decide (0 < pb_pending b) then _ else _).
  - unfold plans. case_decide; [done|]. by case_decide.
  - unfold planLatest. step_handler; done.
  - unfold planByID. cbv zeta. step_handler; done.
Qed.
(** A GET shows something and changes nothing. *)
Definition is_get (r : request) : Prop :=
  match r with
  | ReqRegister _ _ => False
  | ReqInputs m | ReqClear _ m _ _ | ReqAction _ m _ _ | ReqPop _ m _ _ | ReqStatus _ m _ _ _ | ReqQueueClear _ m _
  | ReqPlan _ m _ | ReqPlans _ m _ _ _ | ReqPlanLatest m | ReqPlanByID _ m _ _ => m = "GET"
  end.
Lemma serve_get planq r (a : Api S) : is_get r → (serve planq r a).2 = a.
Proof using Type.
  destruct r; cbn [is_get serve]; [done|intros ->..].
  - done.
  - done.
  - unfold pendingInputAction. cbv zeta. step_handler; try done;
      repeat match goal with E : decide _ = left _ |- _ => clear E end; naive_solver.
  - done.
  - done.
  - done.
  - done.
  - done.
  - unfold planLatest. step_handler; done.
  - unfold planByID. cbv zeta. step_handler; done.
Qed.
End plan_queue.

(** ** The operator's handlers *)
Section panels.
Context {Q S : Type} (q_stamp : Z → Request → Request) `{B : Backend Q, !LawfulBackend Q q_stamp, Redis S}.
Context (planq : option RedisQueue).
Implicit Type p : Panel Q S.
(** Reading may open connections, but both queues hold what they held. *)
Definition retries_same (q q' : Q) : Prop := ∀ l, q_items q = Some l → q_items q' = Some l.
Definition queues_kept p p' : Prop :=
  plans_same planq (pa_plans p) (pa_plans p') ∧ retries_same (pa_queue p) (pa_queue p').
Lemma plans_same_refl (q : S) : plans_same planq q q.
Proof. unfold plans_same. by destruct planq. Qed.
Lemma queues_kept_refl p : queues_kept p p.
Proof. split; [apply plans_same_refl|by intros l]. Qed.
Lemma q_Stats_same now (q : Q) : retries_same q (q_Stats live now q).2.
Proof. intros l. apply law_Stats. Qed.
Lemma with_retries_kept q p : retries_same (pa_queue p) q → queues_kept p (with_retries q p).
Proof. split; [apply plans_same_refl|done]. Qed.
Lemma ping_kept now p : queues_kept p (ping now p).2.
Proof.
  unfold ping. destruct (pa_db p); [apply queues_kept_refl|]. pose proof (q_Stats_same now (pa_queue p)) as Hs.
  destruct (q_Stats live now (pa_queue p)) as [r q]. by apply with_retries_kept.
Qed.
Lemma health_kept now p : queues_kept p (health now p).2.
Proof. unfold health. pose proof (ping_kept now p). by destruct (ping now p). Qed.
Lemma ready_kept now p : queues_kept p (ready now p).2.
Proof. unfold ready. pose proof (ping_kept now p). by destruct (ping now p). Qed.
Lemma plan_queue_length_kept q p : retries_same (pa_queue p) q →
  queues_kept p (plan_queue_length planq (with_retries q p)).2.
Proof.
  intros Hq. unfold plan_queue_length, queues_kept. destruct planq as [pq|]; [|done]. cbn [pa_plans with_retries].
  pose proof (PlanQueue_Len_same pq (pa_plans p)) as Hl. by destruct (PlanQueue_Len pq (pa_plans p)).
Qed.
Lemma queueStats_kept now meth p : queues_kept p (queueStats now meth p).2.
Proof.
  unfold queueStats. case_decide; [apply queues_kept_refl|]. pose proof (q_Stats_same now (pa_queue p)) as Hs.
  destruct (q_Stats live now (pa_queue p)) as [r q]. by apply with_retries_kept.
Qed.
Lemma queueList_kept backend auto now meth p : queues_kept p (queueList backend auto now meth p).2.
Proof.
  unfold queueList. case_decide; [apply queues_kept_refl|].
  assert (Hl : retries_same (pa_queue p) (q_List live (pa_queue p)).2).
  { intros l Hl. pose proof (law_List live (pa_queue p) l Hl) as Hlaw. by destruct (q_List live (pa_queue p)), Hlaw. }
  destruct (q_List live (pa_queue p)) as [[items|e] q]; [|by apply with_retries_kept].
  pose proof (q_Stats_same now q) as Hs. destruct (q_Stats live now q) as [r q']. apply with_retries_kept.
  intros l Hl'. by apply Hs, Hl.
Qed.
Context `{SqlOrder, WorkerSql, FillCodec Settings} (c : ControlPlane.CPConfig).
Lemma metrics_kept x y now meth p : queues_kept p (metrics c x y planq now meth p).2.
Proof.
  unfold metrics. case_decide; [apply queues_kept_refl|]. pose proof (q_Stats_same (epoch now) (pa_queue p)) as Hs.
  destruct (q_Stats live (epoch now) (pa_queue p)) as [r q]. pose proof (plan_queue_length_kept q p Hs) as Hp.
  by destruct (plan_queue_length planq (with_retries q p)).
Qed.
Lemma promMetrics_kept now meth p : queues_kept p (promMetrics c planq now meth p).2.
Proof.
  unfold promMetrics. case_decide; [apply queues_kept_refl|]. pose proof (q_Stats_same (epoch now) (pa_queue p)) as Hs.
  destruct (q_Stats live (epoch now) (pa_queue p)) as [r q]. pose proof (q_Stats_same (epoch now) q) as Hs2.
  destruct (q_Stats live (epoch now) q) as [r2 q2]. cbn [snd] in Hs, Hs2.
  assert (Hq : retries_same (pa_queue p) q2) by (intros l Hl; by apply Hs2, Hs).
  pose proof (plan_queue_length_kept q2 p Hq) as Hp. by destruct (plan_queue_length planq (with_retries q2 p)).
Qed.
End panels.

(** ** Uploads and builds *)
Section uploads.
Context `{SqlOrder, Sha256, Zip} {S : Type} `{Redis S, Codec (gmap string string), Codec pendingMeta}.
Context {O : Type} (put : string → string → string → O → option string * O).
Context (planq : option RedisQueue) (store : input_store) (cfg : UploadConfig).
(** An upload registers one pending input, or leaves the planning tables alone. *)
Definition registers (now : Z) (a a' : Api S) : Prop :=
  a' = a ∨ ∃ i, in_Status i = "pending" ∧ a' = (register_input planq now i a).2.
Lemma accept_registers now i a (o : O) : in_Status i = "pending" → registers now a (accept planq now i a o).2.1.
Proof using Type.
  intros Hi. right. exists i. split; [done|]. unfold accept. by destruct (register_input _ _ _ _).
Qed.
Lemma requirementsUpload_registers now meth form a o :
  registers now a (requirementsUpload put planq store cfg now meth form a o).2.1.
Proof using Type.
  unfold requirementsUpload. cbv zeta. case_decide; [by left|]. destruct (negb _); [by left|].
  destruct form as [| |filename file]; [by left..|]. destruct (_ || _); [by left|].
  destruct (store_file _ _ _ _ _ _) as [[key|e] o']; [by apply accept_registers|by left].
Qed.
Lemma wheelsUpload_registers now meth form a o :
  registers now a (wheelsUpload put planq store cfg now meth form a o).2.1.
Proof using Type.
  unfold wheelsUpload. cbv zeta. case_decide; [by left|]. destruct (negb _); [by left|].
  destruct form as [| |filename file]; [by left..|]. destruct (negb _); [by left|].
  destruct (validateWheelArchive _); [by left|].
  destruct (store_file _ _ _ _ _ _) as [[key|e] o']; [|by left].
  destruct (Api.parseWheelFilename _); [|by left]. destruct (readWheelMetadata _); [by apply accept_registers|by left].
Qed.
Lemma registers_spec now a a' : registers now a a' → planning_ok (api_db a) →
  planning_ok (api_db a') ∧ same_modes a a' ∧ planning_grows (api_db a) (api_db a').
Proof using Type.
  intros [->|(i & Hi & ->)] Hok; [done|]. split; [by apply register_input_ok|apply register_input_spec].
Qed.
End uploads.

Section build_tables.
Context `{Database}.
Lemma builds_ok meth auth st pkg ver limit id t : rows_ok t → rows_ok (builds meth auth st pkg ver limit id t).2.
Proof using Type.
  intros Hok. unfold builds. case_decide; [by repeat case_match|]. case_decide; [|done]. destruct auth; [|done]. cbn [negb].
  pose proof (run_op_rows_ok (OpDelete st) t Hok) as Hd. cbn [run_op] in Hd. by destruct (DeleteBuilds st t).
Qed.
Lemma builds_without_token meth st pkg ver limit id t : (builds meth false st pkg ver limit id t).2 = t.
Proof using Type. unfold builds. case_decide; [by repeat case_match|]. by case_decide. Qed.
Lemma buildQueuePop_ok timeout now post auth max t : rows_ok t →
  rows_ok (cp_builds (buildQueuePop ParseInt timeout now post auth max (mkControlPlane t [] [])).2).
Proof using Type.
  intros Hok. unfold buildQueuePop. destruct post; [|done]. destruct auth; [|done]. cbn [negb cp_builds].
  set (t1 := if decide (0 < timeout) then _ else t).
  assert (Hok1 : rows_ok t1).
  { unfold t1. case_decide; [|done]. pose proof (run_op_rows_ok (OpRequeue now timeout) t Hok) as Hq. exact Hq. }
  pose proof (run_op_rows_ok (OpLease now (parseIntDefault ParseInt max 5 100)) t1 Hok1) as Hl. cbn [run_op] in Hl.
  by destruct (LeaseBuilds _ _ _) as [[bs|e] t2].
Qed.
Lemma buildStatusUpdate_ok f now post auth body t : rows_ok t →
  rows_ok (cp_builds (buildStatusUpdate f now post auth body (mkControlPlane t [] [])).2).
Proof using H.
  intros Hok. unfold buildStatusUpdate. destruct post; [|done]. destruct auth; [|done]. destruct body as [u|]; [|done].
  cbn [negb cp_builds]. case_decide; [done|].
  pose proof (run_op_rows_ok (OpReport now u) t Hok) as Hr. cbn [run_op] in Hr.
  by destruct (UpdateBuildStatus now u t) as [[e|] t'].
Qed.
End build_tables.
Lemma save_computed_spec `{JsonText} auto now snap p : planning_ok p →
  planning_ok (save_computed auto now snap p) ∧ planning_grows p (save_computed auto now snap p).
Proof.
  intros Hok. unfold save_computed. cbv zeta. case_decide; [done|].
  match goal with |- context [SavePlan ?n ?r ?l ?d p] =>
    pose proof (SavePlan_ok n r l d p Hok) as Hs; pose proof (SavePlan_grows n r l d p Hok) as Hg;
    destruct (SavePlan n r l d p) as [id p1] end.
  destruct auto; [|done]. split; [by apply queue_plan_builds_ok|]. etrans; [exact Hg|apply queue_plan_builds_grows].
Qed.

(** ** The whole state *)
(** The automatic modes of the running process are those of the stored settings. *)
Definition modes_ok `{FillCodec Settings} {S} (h : Host S) : Prop :=
  ho_store h = true → ∀ st, GetSettings (ho_payload h) = Ok st →
    api_AutoPlan (ho_api h) = BoolValue (st_AutoPlan st) ∧ api_AutoBuild (ho_api h) = BoolValue (st_AutoBuild st).

Lemma settings_spec `{Machine, FillCodec Settings} {S} path meth body (h : Host S) :
  let h' := (settings path meth body h).2 in
  api_db (ho_api h') = api_db (ho_api h) ∧ api_queue (ho_api h') = api_queue (ho_api h) ∧ (modes_ok h → modes_ok h').
Proof.
  intros h'. unfold h', settings. case_decide; [destruct (ho_store h); [|done]; by destruct (GetSettings _)|].
  case_decide; [|done]. destruct body as [b|]; [|done]. cbv zeta. destruct (Validate _); [done|].
  destruct (ho_store h) eqn:Hst.
  - split; [done|]. split; [done|]. intros _ _ st Hget. cbn [snd ho_payload] in Hget. unfold GetSettings, SaveSettings in Hget.
    rewrite unmarshal_marshal, ApplyDefaults_idem in Hget. injection Hget as <-. cbn [snd ho_api set_auto].
    by rewrite ApplyDefaults_fixed by apply ApplyDefaults_complete.
  - destruct (Save _ _ _); [|done]. split; [done|]. split; [done|]. by intros _ Hst'.
Qed.

Lemma planCompute_ok `{JsonText, Floats, HttpClient W} c auto now meth auth p w code rep p' w' :
  planCompute c auto now meth auth (p, w) = Some ((code, rep), (p', w')) → planning_ok p →
  planning_ok p' ∧ planning_grows p p'.
Proof.
  unfold planCompute. case_decide; [intros ?; by simplify_eq|]. destruct auth; cbn [negb]; [|intros ?; by simplify_eq].
  cbn [fst snd]. destruct (callWorkerPlan c w) as [[[snap|e] w1]|]; cbn; intros Heq; simplify_eq; [|done].
  apply save_computed_spec.
Qed.

Section whole.
Context {Q S O W : Type}.
Context `{GoRuntime, Sha256, Machine, Zip, Regexp, SqlOrder, Database, SlowSql, WorkerSql, HintEnv}.
Context `{Floats, JsonText, LogJson, Bodies}.
Context `{Backend Q, Redis S, HttpClient W, LocalWorker W}.
Context `{Codec (gmap string string), Codec (gmap string (list string)), Codec (list string), Codec pendingMeta}.
Context `{FillCodec Settings}.
Context (put : string → string → string → O → option string * O) (store : input_store).
Context (c : ControlPlane.CPConfig) (planq : option RedisQueue).
Abbreviation Control := (Control Q S O W).
Abbreviation serve_endpoint := (serve_endpoint put store c planq).
Abbreviation ServeHTTP := (ServeHTTP put store c planq).
Abbreviation restart := (restart (Q := Q) (S := S) (O := O) (W := W) c).
Abbreviation run := (run put store c planq).
Abbreviation first_start := (first_start (Q := Q) (S := S) (O := O) (W := W) c).
Implicit Type s : Control.

Record control_ok s : Prop := {
  ok_planning : planning_ok (co_planning s);
  ok_modes : modes_ok (co_host s);
  ok_hints : HintAdmin.table_ok (co_hints s);
  ok_events : Forall event_recorded (rp_events (co_reports s));
  ok_logs : Forall log_recorded (rp_logs (co_reports s));
  ok_chunks : Logs.table_ok (co_chunks s);
  ok_workers : map_Forall worker_recorded (co_workers s) }.
Hint Resolve ok_planning ok_modes ok_hints ok_events ok_logs ok_chunks ok_workers : core.

(** *** Each change of one part *)
Lemma with_api_ok a s : control_ok s → planning_ok (api_db a) → same_modes (co_api s) a → control_ok (with_api a s).
Proof.
  intros Hok Hp [H1' H2']. split; simpl; auto. intros Hst st Hget. cbn in *.
  rewrite H1', H2'. by apply (ok_modes s Hok).
Qed.
Lemma with_panel_ok p s : control_ok s → control_ok (with_panel p s).
Proof. intros Hok. destruct (with_api_ok (with_queue (pa_plans p) (co_api s)) s Hok); [by apply Hok|done|]. by split. Qed.
Lemma with_peer_ok w s : control_ok s → control_ok (with_peer w s).
Proof. intros []. by split. Qed.
Lemma with_retry_queue_ok q s : control_ok s → control_ok (with_retry_queue q s).
Proof. intros []. by split. Qed.
Lemma with_objects_ok o s : control_ok s → control_ok (with_objects o s).
Proof. intros []. by split. Qed.
Lemma with_events_ok t s : control_ok s → (Forall event_recorded (rp_events (co_reports s)) → Forall event_recorded t) →
  control_ok (with_events t s).
Proof. intros [] Ht. split; simpl; auto. Qed.
Lemma with_logs_ok t s : control_ok s → (Forall log_recorded (rp_logs (co_reports s)) → Forall log_recorded t) →
  control_ok (with_logs t s).
Proof. intros [] Ht. split; simpl; auto. Qed.
Lemma on_api_ok r s : control_ok s → well_formed r → control_ok (on_api (serve planq r) s).2.
Proof.
  intros Hok Hr. unfold on_api. pose proof (serve_ok planq r (co_api s) Hr (ok_planning _ Hok)) as Hs.
  pose proof (serve_modes planq r (co_api s) (ok_planning _ Hok)) as Hm.
  destruct (serve planq r (co_api s)) as [[code rep] a]. by apply with_api_ok.
Qed.
Lemma on_upload_ok now f s : control_ok s →
  (∀ a o, registers planq now a (f a o).2.1) → control_ok (on_upload f s).2.
Proof.
  intros Hok Hf. unfold on_upload. specialize (Hf (co_api s) (co_objects s)).
  destruct (f _ _) as [[code rep] [a o]]. simpl in Hf |- *.
  destruct (registers_spec planq now _ _ Hf (ok_planning _ Hok)) as (Hp & Hm & _).
  apply with_api_ok; [by apply with_objects_ok|done..].
Qed.
Lemma with_builds_ok t s : control_ok s → rows_ok t →
  control_ok (with_api (with_db (with_builds t (co_planning s)) (co_api s)) s).
Proof.
  intros Hok Ht. apply with_api_ok; [done| |done]. destruct (ok_planning _ Hok). by split.
Qed.
Lemma on_builds_ok {A} (f : Table → (Z * A) * Table) s : control_ok s →
  (∀ t, rows_ok t → rows_ok (f t).2) → control_ok (on_builds f s).2.
Proof.
  intros Hok Hf. unfold on_builds. specialize (Hf _ (po_builds _ (ok_planning _ Hok))).
  destruct (f _) as [[code rep] t]. by apply with_builds_ok.
Qed.
Lemma on_hints_ok {A} (f : HintTable → (Z * A) * HintTable) s e : control_ok s →
  (∀ t, (f t).2 = HintAdmin.handle t e) → control_ok (on_hints f s).2.
Proof.
  intros Hok Hf. unfold on_hints. pose proof (handle_ok (co_hints s) e (ok_hints _ Hok)) as Hh. rewrite <-Hf in Hh.
  destruct (f _) as [[code rep] t]. destruct Hok. by split.
Qed.
Lemma on_panel_ok {A} (f : Panel Q S → answer A * Panel Q S) s : control_ok s → control_ok (on_panel f s).2.
Proof. intros Hok. unfold on_panel. destruct (f _) as [a p]. by apply with_panel_ok. Qed.

Lemma with_host_ok h s : control_ok s → planning_ok (api_db (ho_api h)) → modes_ok h → control_ok (with_host h s).
Proof. intros [] Hp Hm. by split. Qed.

(** *** Each handler *)
Lemma display_ok e r s code s' : display c planq e r s = Some (code, s') → control_ok s → control_ok s'.
Proof.
  intros Hd Hok. destruct e; simpl in Hd; try discriminate Hd; try (injection Hd as <- <-; exact Hok);
  match type of Hd with
  | Some (let '_ := ?f in _) = _ => destruct f as [[[code' st] err] p]; injection Hd as <- <-; by apply with_panel_ok
  | Some (on_panel ?f s) = Some _ => pose proof (on_panel_ok f s Hok) as Hp; destruct (on_panel f s); by injection Hd as <- <-
  end.
Qed.
Lemma build_report_ok r auth s : control_ok s → control_ok (build_report r auth s).2.
Proof.
  intros Hok. unfold build_report.
  pose proof (buildStatusUpdate_ok rfc3339 (wc_now r) (bool_decide (wc_Method r = "POST")) auth (bd_report (wc_Body r))
    (pn_builds (co_planning s)) (po_builds _ (ok_planning _ Hok))) as Ht.
  destruct (buildStatusUpdate _ _ _ _ _ _) as [code cp]. cbn [snd] in Ht |- *.
  apply with_logs_ok; [apply with_events_ok; [by apply with_builds_ok|]|].
  - apply foldl_grows. intros t e. apply RecordEvent_spec.
  - apply foldl_grows. intros t l. apply PutLog_spec.
Qed.
Lemma serve_endpoint_ok e r s code s' : serve_endpoint e r s = Some (code, s') → control_ok s → control_ok s'.
Proof.
  intros Hs Hok.
  assert (Hsnd : ∀ x : Z * Control, control_ok x.2 → Some x = Some (code, s') → control_ok s')
    by (intros [? ?] Hx; by injection 1 as <- <-).
  destruct e; cbn [serve_endpoint] in Hs;
    try (by eapply display_ok); try (eapply Hsnd, Hs; apply on_api_ok; done);
    try (eapply Hsnd, Hs; eapply on_upload_ok; [done|intros a o; (apply requirementsUpload_registers || apply wheelsUpload_registers)]).
  - eapply Hsnd, Hs. match goal with |- context [settings ?a ?b ?d ?e] =>
      pose proof (settings_spec a b d e) as (Hdb & _ & Hm); destruct (settings a b d e) as [[? ?] h] end; cbn [snd] in Hdb, Hm.
    apply with_host_ok; [done| |by apply Hm, ok_modes]. rewrite Hdb. by apply ok_planning.
  - eapply Hsnd, Hs. apply on_builds_ok; [done|intros t; apply builds_ok].
  - eapply Hsnd, Hs. by apply build_report_ok.
  - eapply Hsnd, Hs. apply on_builds_ok; [done|]. intros t Ht.
    match goal with |- context [buildQueuePop ?a ?b ?d ?e ?f ?g ?h] =>
      pose proof (buildQueuePop_ok b d e f g t Ht); by destruct (buildQueuePop a b d e f g h) end.
  - eapply Hsnd, Hs. case_decide; [done|]. case_decide; [|done].
    match goal with |- context [history_post ?a ?b ?d] => pose proof (history_post_spec a b d) as [_ Hp];
      destruct (history_post a b d) end. by apply with_events_ok.
  - destruct (planCompute _ _ _ _ _ _) as [[[code' rep] [p w]]|] eqn:Hpc; [|done]. cbn in Hs. injection Hs as <- <-.
    apply with_peer_ok, with_api_ok; [done| |done]. by apply (planCompute_ok _ _ _ _ _ _ _ _ _ _ _ Hpc), ok_planning.
  - eapply Hsnd, Hs. case_decide; [done|]. case_decide; [|done].
    destruct (manifest_post _ _ _) as [? t]. destruct Hok. by split.
  - eapply Hsnd, Hs. destruct (queueEnqueue _ _ _ _). by apply with_panel_ok.
  - eapply Hsnd, Hs. destruct (queueClear _ _). by apply with_panel_ok.
  - eapply Hsnd, Hs. eapply on_hints_ok; [done|]. intros t.
    by instantiate (1 := Hints _ _ _ _ _).
  - eapply Hsnd, Hs. eapply on_hints_ok; [done|]. intros t. by instantiate (1 := HintsBulk _ _ _).
  - eapply Hsnd, Hs. eapply on_hints_ok; [done|]. intros t. by instantiate (1 := HintByID _ _ _ _).
  - eapply Hsnd, Hs. match goal with |- context [logsIngest ?a ?b ?d ?e ?f] =>
      pose proof (logsIngest_spec a b d e f) as [_ Hp]; destruct (logsIngest a b d e f) end. by apply with_logs_ok.
  - eapply Hsnd, Hs. case_decide; [|by repeat case_decide].
    match goal with |- context [logsStream_post ?a ?b ?d ?e ?f ?g ?h ?t ?k] =>
      pose proof (logsStream_post_ok a b d e f g h t k (ok_chunks _ Hok)); destruct (logsStream_post a b d e f g h t k) as [[? t'] h'] end.
    destruct Hok. by split.
  - eapply Hsnd, Hs. match goal with |- context [workerHeartbeat ?a ?b ?d ?e ?t] =>
      pose proof (workerHeartbeat_ok a b d e t (ok_workers _ Hok)); destruct (workerHeartbeat a b d e t) end.
    destruct Hok. by split.
  - destruct (workerTrigger _ _ _ _ _) as [[[code' rep] [rq w]]|]; [|done]. cbn in Hs. injection Hs as <- <-.
    by apply with_peer_ok, with_retry_queue_ok.
  - eapply Hsnd, Hs. destruct (workerSmoke _ _ _ _) as [[? ?] ?]. by apply with_retry_queue_ok.
Qed.

Lemma startup_spec path (h : Host S) : api_db (ho_api (startup path h)) = api_db (ho_api h) ∧ modes_ok (startup path h).
Proof.
  split; [done|]. intros Hst st Hget. cbn [startup ho_store ho_payload ho_api] in *. rewrite Hst, Hget. done.
Qed.
(** What the process finds but for its modes, which a start sets. *)
Definition stored_ok s : Prop :=
  planning_ok (co_planning s) ∧ ∀ h, planning_ok (api_db (ho_api h)) → modes_ok h → control_ok (with_host h s).
Lemma restart_ok s : stored_ok s → control_ok (restart s).
Proof.
  intros [Hdbs Hrest]. destruct (startup_spec (ControlPlane.cp_SettingsPath c) (co_host s)) as [Hdb Hm].
  destruct (Hrest (startup (ControlPlane.cp_SettingsPath c) (co_host s))) as [Hp _ Hh He Hl Hc Hw]; [by rewrite Hdb|done|].
  split; [exact Hp|exact Hm|by apply handle_ok|exact He|exact Hl|exact Hc|exact Hw].
Qed.
Lemma ServeHTTP_ok r s code s' : ServeHTTP r s = Some (code, s') → control_ok s → control_ok s'.
Proof.
  unfold Control.ServeHTTP. destruct (serve_mux _); [apply serve_endpoint_ok|intros ?; by simplify_eq..].
Qed.
Lemma run_ok es s : control_ok s → control_ok (run es s).
Proof.
  unfold Control.run. revert s. induction es as [|e es IH]; intros s Hok; [done|]. apply IH. destruct e as [r|]; simpl.
  - unfold after. destruct (Control.ServeHTTP _ _ _ _ _ _) as [[code s']|] eqn:Hs; [|done]. by eapply ServeHTTP_ok.
  - apply restart_ok. split; [by apply ok_planning|]. intros h. by apply with_host_ok.
Qed.

Lemma first_start_ok payload fs q plans o w : control_ok (first_start payload fs q plans o w).
Proof.
  apply restart_ok. split; [apply empty_planning_ok|]. intros h Hp Hm.
  split; [exact Hp|exact Hm|apply map_Forall_empty|constructor..|apply map_Forall_empty]; constructor.
Qed.
(** C0. Whatever requests the control plane gets and however often it is restarted,
    from a new database on: the planning tables and the rows of the build queue are
    well formed, every hint is valid and in normal form, the log chunks are in the
    order of their ids, every event and log has a time PostgreSQL takes, every
    worker a name and numbers the columns hold, and the automatic modes of the
    process are those of the stored settings. *)
Theorem control_invariant es payload fs q plans o w : control_ok (run es (first_start payload fs q plans o w)).
Proof. apply run_ok, first_start_ok. Qed.

(** *** Requests without the token *)
Record grows s s' : Prop := {
  gw_planning : planning_grows (co_planning s) (co_planning s');
  gw_queue : plans_prefix planq (api_queue (co_api s)) (api_queue (co_api s'));
  gw_events : rp_events (co_reports s) `prefix_of` rp_events (co_reports s');
  gw_manifests : rp_manifests (co_reports s) `prefix_of` rp_manifests (co_reports s');
  gw_logs : rp_logs (co_reports s) `prefix_of` rp_logs (co_reports s');
  gw_chunks : co_chunks s' = co_chunks s; gw_hub : co_hub s' = co_hub s;
  gw_workers : co_workers s' = co_workers s; gw_peer : co_peer s' = co_peer s }.
Lemma grows_refl s : grows s s.
Proof. split; try done. apply plans_prefix_refl. Qed.
Hint Resolve grows_refl : core.
Lemma with_api_grows a s : planning_grows (co_planning s) (api_db a) →
  plans_prefix planq (api_queue (co_api s)) (api_queue a) → grows s (with_api a s).
Proof. intros Hg Hq. by split. Qed.
Lemma on_api_grows r s : control_ok s → unprivileged r → grows s (on_api (serve planq r) s).2.
Proof.
  intros Hok Hr. unfold on_api. pose proof (serve_grows planq r (co_api s) (ok_planning _ Hok) Hr) as Hg.
  pose proof (serve_queue planq r (co_api s) Hr) as Hq.
  destruct (serve planq r (co_api s)) as [[code rep] a]. by apply with_api_grows.
Qed.
Lemma on_upload_grows now f s : control_ok s → (∀ a o, registers planq now a (f a o).2.1) → grows s (on_upload f s).2.
Proof.
  intros Hok Hf. unfold on_upload. specialize (Hf (co_api s) (co_objects s)).
  destruct (f _ _) as [[code rep] [a o]]. simpl in Hf |- *.
  destruct (registers_spec planq now _ _ Hf (ok_planning _ Hok)) as (_ & _ & Hg).
  assert (Hq : plans_prefix planq (api_queue (co_api s)) (api_queue a)).
  { destruct Hf as [->|(i & _ & ->)]; [apply plans_prefix_refl|apply register_input_queue]. }
  split; cbn; try done.
Qed.
Context (q_stamp : Z → Request → Request) `{!LawfulBackend Q q_stamp}.
(** What a display leaves. *)
Definition reads s s' : Prop := ∃ p, s' = with_panel p s ∧ queues_kept q_stamp planq (panel_of s) p.
Lemma with_panel_id s : with_panel (panel_of s) s = s.
Proof. by destruct s as [[? ? ? []]]. Qed.
Lemma reads_refl s : reads s s.
Proof. exists (panel_of s). split; [by rewrite with_panel_id|apply queues_kept_refl]. Qed.
Lemma reads_grows s s' : reads s s' → grows s s'.
Proof. intros (p & -> & Hp & _). split; try done. by apply plans_same_prefix. Qed.
Lemma on_panel_reads {A} (f : Panel Q S → answer A * Panel Q S) s :
  (∀ p, queues_kept q_stamp planq p (f p).2) → reads s (on_panel f s).2.
Proof. intros Hf. unfold on_panel. specialize (Hf (panel_of s)). destruct (f _) as [a p]. by exists p. Qed.
Lemma display_reads e r s code s' : display c planq e r s = Some (code, s') → reads s s'.
Proof.
  assert (Hsnd : ∀ x : Z * Control, reads s x.2 → Some x = Some (code, s') → reads s s')
    by (intros [? ?] Hx; by injection 1 as <- <-).
  intros Hd. destruct e; simpl in Hd; try discriminate Hd; try (injection Hd as <- <-; apply reads_refl).
  - pose proof (health_kept q_stamp planq (wc_now r) (panel_of s)) as Hk.
    destruct (health _ _) as [[[code' st] err] p]. injection Hd as <- <-. by exists p.
  - pose proof (ready_kept q_stamp planq (wc_now r) (panel_of s)) as Hk.
    destruct (ready _ _) as [[[code' st] err] p]. injection Hd as <- <-. by exists p.
  - eapply Hsnd, Hd. apply on_panel_reads. intros p. apply metrics_kept.
  - eapply Hsnd, Hd. apply on_panel_reads. intros p. apply promMetrics_kept.
  - eapply Hsnd, Hd. apply on_panel_reads. intros p. apply queueList_kept.
  - eapply Hsnd, Hd. apply on_panel_reads. intros p. apply queueStats_kept.
Qed.

(** A handler that gives back the part it got gives back the state. *)
Lemma with_api_id s : with_api (co_api s) s = s.
Proof. by destruct s as [[]]. Qed.
Lemma on_api_id f s : (f (co_api s)).2 = co_api s → (on_api f s).2 = s.
Proof. unfold on_api. destruct (f _) as [[code rep] a]. simpl. intros ->. apply with_api_id. Qed.
Lemma on_builds_id {A} (f : Table → (Z * A) * Table) s :
  (f (pn_builds (co_planning s))).2 = pn_builds (co_planning s) → (on_builds f s).2 = s.
Proof.
  unfold on_builds. destruct (f _) as [[code rep] t]. simpl. intros ->. by destruct s as [[? ? ? [[] ? ? ?]]].
Qed.
Lemma on_hints_id {A} (f : HintTable → (Z * A) * HintTable) s :
  (f (co_hints s)).2 = co_hints s → (on_hints f s).2 = s.
Proof. unfold on_hints. destruct (f _) as [[code rep] t]. simpl. intros ->. by destruct s. Qed.
Lemma build_report_refused r auth s : auth = false ∨ wc_Method r ≠ "POST" → (build_report r auth s).2 = s.
Proof.
  intros Hr. unfold build_report, buildStatusUpdate.
  assert (Hs : with_logs (rp_logs (co_reports s)) (with_events (rp_events (co_reports s))
    (with_api (with_db (with_builds (pn_builds (co_planning s)) (co_planning s)) (co_api s)) s)) = s)
    by (by destruct s as [[? ? ? [[] ? ? ?]] ? ? ? []]).
  destruct (bool_decide_reflect (wc_Method r = "POST")) as [Hp|Hp]; [|exact Hs].
  destruct Hr as [->|Hn]; [exact Hs|done].
Qed.
Lemma buildQueuePop_refused timeout now post auth max t : auth = false ∨ post = false →
  cp_builds (buildQueuePop ParseInt timeout now post auth max (mkControlPlane t [] [])).2 = t.
Proof. unfold buildQueuePop. by destruct post, auth; intros []. Qed.

Lemma queueEnqueue_plans now meth body (p : Panel Q S) : pa_plans (queueEnqueue now meth body p).2 = pa_plans p.
Proof.
  unfold queueEnqueue. case_decide; [done|]. destruct (_ ≫= _); [|done]. case_decide; [done|].
  by destruct (q_Enqueue _ _ _ _).
Qed.
Lemma queueClear_plans meth (p : Panel Q S) : pa_plans (queueClear meth p).2 = pa_plans p.
Proof. unfold queueClear. case_decide; [done|]. by destruct (q_Clear _ _). Qed.
Lemma with_panel_grows p s : pa_plans p = api_queue (co_api s) → grows s (with_panel p s).
Proof. intros Hp. split; try done. cbn. rewrite Hp. apply plans_prefix_refl. Qed.

Lemma on_hints_grows {A} (f : HintTable → (Z * A) * HintTable) s : grows s (on_hints f s).2.
Proof. unfold on_hints. destruct (f _) as [[code rep] t]. split; try done. apply plans_prefix_refl. Qed.
Lemma serve_endpoint_grows e r s code s' : control_ok s → query_auth c r = false →
  serve_endpoint e r s = Some (code, s') → grows s s'.
Proof.
  intros Hok Hauth Hs.
  assert (Hsnd : ∀ x : Z * Control, grows s x.2 → Some x = Some (code, s') → grows s s')
    by (intros [? ?] Hx; by injection 1 as <- <-).
  destruct e; cbn [serve_endpoint] in Hs; rewrite ?Hauth in Hs;
    try (by eapply reads_grows, display_reads); try (eapply Hsnd, Hs; apply on_hints_grows); try (eapply Hsnd, Hs; apply on_api_grows; done);
    try (eapply Hsnd, Hs; eapply on_upload_grows; [done|intros a o; (apply requirementsUpload_registers || apply wheelsUpload_registers)]).
  - eapply Hsnd, Hs. match goal with |- context [settings ?a ?b ?d ?e] =>
      pose proof (settings_spec a b d e) as (Hdb & Hq & _); destruct (settings a b d e) as [[? ?] h] end; cbn [snd] in *.
    split; try done; unfold co_planning, co_api; cbn [co_host with_host];
      [by rewrite Hdb|rewrite Hq; apply plans_prefix_refl].
  - eapply Hsnd, Hs. rewrite on_builds_id; [done|apply builds_without_token].
  - eapply Hsnd, Hs. rewrite build_report_refused; [done|by left].
  - eapply Hsnd, Hs. rewrite on_builds_id; [done|].
    pose proof (buildQueuePop_refused (ControlPlane.cp_BuildLeaseTimeout c) (wc_now r) (bool_decide (wc_Method r = "POST"))
      false (wc_Query r "max") (pn_builds (co_planning s)) (or_introl eq_refl)) as Hb.
    by destruct (buildQueuePop _ _ _ _ _ _ _).
  - eapply Hsnd, Hs. case_decide; [done|]. case_decide; [|done].
    match goal with |- context [history_post ?a ?b ?d] => pose proof (history_post_spec a b d) as [Hp _];
      destruct (history_post a b d) end. by split; try apply (grows_refl s).
  - unfold planCompute in Hs. case_decide; simplify_eq/=; split; try apply (grows_refl s); done.
  - eapply Hsnd, Hs. case_decide; [done|]. case_decide; [|done].
    match goal with |- context [manifest_post ?a ?b ?d] => pose proof (manifest_post_prefix a b d) as Hp;
      destruct (manifest_post a b d) end. by split; try apply (grows_refl s).
  - eapply Hsnd, Hs. match goal with |- context [queueEnqueue ?a ?b ?d ?p] =>
      pose proof (queueEnqueue_plans a b d p); destruct (queueEnqueue a b d p) end. by apply with_panel_grows.
  - eapply Hsnd, Hs. match goal with |- context [queueClear ?a ?p] =>
      pose proof (queueClear_plans a p); destruct (queueClear a p) end. by apply with_panel_grows.
  - eapply Hsnd, Hs. match goal with |- context [logsIngest ?a ?b ?d ?e ?f] =>
      pose proof (logsIngest_spec a b d e f) as [Hp _]; destruct (logsIngest a b d e f) end.
    by split; try apply (grows_refl s).
  - eapply Hsnd, Hs. unfold logsStream_post.
    destruct (splitPath (wc_Path r)) as [|? [|? [|? [|? [|? ?]]]]]; repeat case_decide; cbn [negb];
      by split; try apply (grows_refl s).
  - eapply Hsnd, Hs. unfold workerHeartbeat. case_decide; by split; try apply (grows_refl s).
  - unfold workerTrigger in Hs. case_decide; simplify_eq/=; split; try apply (grows_refl s); done.
  - eapply Hsnd, Hs. unfold workerSmoke. case_decide; split; try apply (grows_refl s); done.
Qed.

#[export] Instance grows_trans : Transitive grows.
Proof.
  intros s1 s2 s3 [] []. split; try (by etrans); try congruence.
  unfold plans_prefix in *. destruct planq as [pq|]; [by etrans|congruence].
Qed.
(** C0. Without the worker's token nothing is taken away: after any requests that do not
    carry it, whatever they are, every pending input, plan and build is still there,
    each plan as it was, the queue of plans, the events, the manifests and the logs
    begin as before, and the chunks of running builds, their viewers, the workers'
    states and the worker itself are untouched.  (Not protected are the catalog of
    hints, the settings, the retry queue and the uploaded objects.) *)
Theorem token_protects rs s : control_ok s → Forall (λ r, query_auth c r = false) rs → grows s (run (Sent <$> rs) s).
Proof.
  intros Hok Hrs. revert s Hok. induction Hrs as [|r rs Hr _ IH]; intros s Hok; [apply grows_refl|].
  change (run (Sent <$> r :: rs) s) with (run (Sent <$> rs) (after put store c planq r s)).
  unfold after, Control.ServeHTTP. destruct (serve_mux (wc_Path r)) as [e|path|]; [|by apply IH..].
  destruct (serve_endpoint e r s) as [[code s']|] eqn:Hs; [|by apply IH]. cbn [from_option snd fmap option_fmap option_map default].
  etrans; [by eapply serve_endpoint_grows|]. apply IH. by eapply serve_endpoint_ok.
Qed.

(** *** GET requests *)
Lemma builds_get auth st pkg ver limit id t : (builds "GET" auth st pkg ver limit id t).2 = t.
Proof. unfold builds. rewrite decide_True by done. by repeat case_match. Qed.
Lemma serve_endpoint_get e r s code s' : wc_Method r = "GET" → serve_endpoint e r s = Some (code, s') → reads s s'.
Proof.
  intros Hget Hs.
  assert (Hsnd : ∀ x : Z * Control, x.2 = s → Some x = Some (code, s') → reads s s')
    by (intros [? ?] Hx; injection 1 as <- <-; simpl in Hx; subst; apply reads_refl).
  destruct e; cbn [serve_endpoint] in Hs; try (by eapply display_reads);
    unfold planCompute, workerTrigger in Hs; rewrite ?Hget in Hs;
    try (eapply Hsnd, Hs; apply on_api_id, serve_get; done).
  all: eapply Hsnd, Hs; clear Hs Hsnd.
  - unfold settings. rewrite decide_True by done. destruct (ho_store _); [destruct (GetSettings _)|]; by destruct s.
  - by destruct s as [[]].
  - by destruct s as [[]].
  - apply on_builds_id, builds_get.
  - apply build_report_refused. right. by rewrite Hget.
  - apply on_builds_id. pose proof (buildQueuePop_refused (ControlPlane.cp_BuildLeaseTimeout c) (wc_now r)
      (bool_decide ("GET" = "POST")) (query_auth c r) (wc_Query r "max") (pn_builds (co_planning s)) (or_intror eq_refl)).
    by destruct (buildQueuePop _ _ _ _ _ _ _).
  - done.
  - by destruct s as [[? ? ? []]].
  - done.
  - exact (with_panel_id s).
  - exact (with_panel_id s).
  - by apply on_hints_id.
  - by apply on_hints_id.
  - apply on_hints_id. unfold hintByID. case_decide; [done|]. rewrite decide_True by done. by destruct (GetHint _ _).
  - by destruct s as [? ? ? ? []].
  - rewrite decide_False by done. by repeat case_decide.
  - by destruct s.
  - by destruct s.
  - by destruct s.
Qed.
(** C0. A GET request only reads, at every endpoint: the state after it is the state
    before it, except that the connections behind the two queues may have moved; both
    queues hold the requests and the plans they held. *)
Theorem get_only_reads r s code s' : wc_Method r = "GET" → ServeHTTP r s = Some (code, s') →
  s' = with_retry_queue (co_retries s') (with_api (with_queue (api_queue (co_api s')) (co_api s)) s) ∧
  (∀ l, q_items (co_retries s) = Some l → q_items (co_retries s') = Some l) ∧
  (∀ pq, planq = Some pq → rd_list (api_queue (co_api s')) (rdq_key pq) = rd_list (api_queue (co_api s)) (rdq_key pq)).
Proof.
  intros Hget Hs.
  assert (reads s s') as (p & -> & Hp & Hq).
  { unfold Control.ServeHTTP in Hs. destruct (serve_mux _) as [e| |]; [by eapply serve_endpoint_get|simplify_eq; apply reads_refl..]. }
  split; [done|]. split; [exact Hq|]. intros pq ->. exact Hp.
Qed.

(** *** Requests without an answer *)
Lemma callWorkerWebhook_None w : callWorkerWebhook c w = None → url_ok (ControlPlane.cp_WorkerWebhookURL c) = false.
Proof. unfold callWorkerWebhook. destruct (url_ok _); [|done]. cbn [negb]. by destruct (http_do _ _ _) as [[]]. Qed.
Lemma callWorkerPlan_None w : callWorkerPlan c w = None →
  worker_plan_url c ≠ "" ∧ url_ok (worker_plan_url c) = false.
Proof.
  unfold callWorkerPlan. cbv zeta. case_decide; [done|]. destruct (url_ok _); [|done]. cbn [negb].
  by destruct (http_do _ _ _) as [[]].
Qed.
(** C0. Every request is answered, on every path and in every state, but two: a request
    to compute a plan, or to trigger the worker, with a configured URL that does not
    parse, panics. *)
Theorem requests_answered r s : ServeHTTP r s = None →
  wc_Method r = "POST" ∧ query_auth c r = true ∧
  (serve_mux (wc_Path r) = Serve EPlanCompute ∧ worker_plan_url c ≠ "" ∧ url_ok (worker_plan_url c) = false ∨
   serve_mux (wc_Path r) = Serve EWorkerTrigger ∧ ControlPlane.cp_WorkerWebhookURL c ≠ "" ∧
     url_ok (ControlPlane.cp_WorkerWebhookURL c) = false).
Proof.
  unfold Control.ServeHTTP. destruct (serve_mux (wc_Path r)) as [e| |]; [|done..]. intros Hs.
  destruct e; cbn [serve_endpoint display] in Hs; try discriminate Hs.
  - unfold planCompute in Hs. case_decide as Hm; [done|].
    destruct (query_auth c r); [|done]. cbn [negb fst snd] in Hs.
    destruct (callWorkerPlan c (co_peer s)) as [[[snap|err] w']|] eqn:Hcall; [done..|].
    split; [done|]. split; [done|]. left. split; [done|]. by eapply callWorkerPlan_None.
  - unfold workerTrigger in Hs. case_decide as Hm; [done|].
    destruct (query_auth c r); [|done]. cbn [negb fst snd] in Hs. split; [done|]. split; [done|]. right. split; [done|].
    assert (Hrest : ∀ d1 w1, (let '(d2, w2) := if decide (ControlPlane.cp_WorkerLocalCmd c = "") then ([], w1)
        else let '(res, w) := callWorkerLocal c w1 in ([detail_of "local worker error" res], w) in
      let '(stats, q) := q_Stats live (epoch (wc_now r)) (co_retries s) in
      Some ((200, Some (Join (d1 ++ d2) "; ", if stats is Ok st then st_Length st else 0)), (q, w2))) ≠ None).
    { intros d1 w1. destruct (decide _); [by destruct (q_Stats _ _ _)|].
      destruct (callWorkerLocal c w1). by destruct (q_Stats _ _ _). }
    destruct (decide (ControlPlane.cp_WorkerWebhookURL c = "")) as [Hurl|Hurl]; cbn [mbind option_bind] in Hs.
    + specialize (Hrest [] (co_peer s)). by destruct (let '(d2, w2) := _ in _) as [[[? ?] [? ?]]|].
    + split; [done|].
      destruct (callWorkerWebhook c (co_peer s)) as [[res w']|] eqn:Hcall; [|by eapply callWorkerWebhook_None].
      cbn [mbind option_bind] in Hs. specialize (Hrest [detail_of "webhook error" res] w').
      by destruct (let '(d2, w2) := _ in _) as [[[? ?] [? ?]]|].
Qed.
End whole.

(** ** At concrete inputs *)
Section samples.
Local Existing Instances reference_runtime plain_sha one_wheel_zip sample_machine literal_regexp sample_db exact_slow
  sorted_workers demo_env exact_floats tree_text demo_json sample_file_queue no_peer.
Local Instance no_command : LocalWorker unit := {| local_run _ _ w := (Some "not found", w); PlanProxy.status_line _ := "" |}.
Local Instance sample_bodies : Bodies := {|
  bd_settings _ := None; bd_status _ := None; bd_plan _ := Some (mkPlanBody "run" [sample_build "six"] "" 0);
  bd_target _ := None; bd_report _ := None; bd_hint _ := None; bd_hints _ := None; rfc3339 _ := "" |}.
Local Existing Instance settings_fill.
(** A control plane with a token, and the requests it gets. *)
Definition guarded : ControlPlane.CPConfig :=
  ControlPlane.FromEnv (λ k, if decide (k = "WORKER_TOKEN") then "secret" else "").
Definition web (meth path : string) : WebCall :=
  mkWebCall 7000000 meth path (λ _, "") (λ _, "") 0 "" NoFile (Err "no form").
Definition sample_control : Control Files sample_redis_state (gmap string string) unit :=
  after System.object_put KeepStore guarded (Some sample_planq) (web "POST" "/api/plan")
    (first_start guarded None ∅ ∅ ∅ ∅ ()).
Lemma sample_control_ok : control_ok sample_control.
Proof.
  apply (run_ok System.object_put KeepStore guarded (Some sample_planq) [Sent (web "POST" "/api/plan")]), first_start_ok.
Qed.
End samples.
